(* ===== verification/_CoqProject ===== *)
-Q . S2P
Prelude.v
Text.v
Commons.v
Enums.v
Buffer.v
Package.v
Packages.v
Roundtrip.v
Config.v
Semaphores.v
Bitmap.v
Storage.v
PageTable.v
PageTableFacts.v
Memoria.v
MemoriaFacts.v
SwapFacts.v
Invariant.v
Boot.v
Mmu.v
MmuFacts.v
Server.v
Cache.v
CacheFacts.v
Execution.v
Session.v
DataServer.v
ParsingFacts.v
ExecutionFacts.v
CacheMemory.v
CpuProgress.v
RequestFacts.v
Wire.v
Scenario.v
MemoryProperties.v
CpuProperties.v
AddressSpaces.v
CpuFrame.v
CpuThreads.v
CpuConcurrency.v
ScriptTurns.v
ScriptEnd.v
ScriptRuns.v
Pcb.v
Kernel.v
Scheduler.v
Handlers.v
Device.v
KernelInvariant.v
KernelLogic.v
KernelRules.v
KernelSteps.v
SchedulerSafety.v
HandlersSafety.v
KernelSockets.v
KernelBoot.v
KernelMemory.v
System.v
SystemInvariant.v
SystemCpu.v
SystemSafety.v
KernelScenario.v
SystemScenario.v
KernelRuns.v
KernelBehaviour.v
ReadyQueue.v
Threads.v
KernelThreads.v
KernelOrder.v
KernelInterleavings.v
SystemProperties.v
KernelProperties.v
DeviceProperties.v
