(* ===== verification/Prelude.v ===== *)
(** * An operating system in four modules, verified

    The program (src/) is a simulated operating system of four processes that
    talk over TCP: the _kernel_ schedules processes, the _memory_ module keeps
    their pages, page tables and scripts, one or more _CPU_s run the scripts,
    and _IO_ devices serve requests.  This library is a shallow embedding of
    the C code of the four modules and of the shared library utils/, with the
    theorems that say what it does right and where it goes wrong.

    ** How the modules interact

    A CPU asks memory for the instruction at its program counter, translates
    addresses by page walks over the connection, and reads and writes user
    space (FETCH, GET_PAGE_ENTRY, READ_MEMORY, WRITE_MEMORY).  The kernel asks
    memory to create, suspend, resume, dump and kill processes, dispatches
    processes to CPUs (DISPATCH) and interrupts them (INTERRUPT, answered by
    CPU_CONTEXT); a CPU sends it the system calls of its process (SYSCALL).
    The kernel sends requests to devices (IO_OPERATION), which confirm them
    (IO_COMPLETION).  Every message is a package: opcode, size, bytes.

    ** How C is embedded

    A computation is a function of the state monad [M] of this file: explicit
    state, and a value of [res] that is a result or one of the crashes of
    [crash].  A C integer is a [Z] brought back to its width by [i32], [u64];
    a block of bytes is a [list byte]; an object that the code shares by
    pointers is an entry of a heap, or a position in a list (the PCBs of
    Kernel.v, the processes of Memoria.v, the cache of Cache.v).  Loops
    that are not structural take fuel, and run out of it with the crash
    [OutOfFuel].  The bounds are enough: CLOCK stops after each entry and one
    more, CLOCK-M after two rounds ([clock_victim], [clock_m_victim]); a page
    table is as deep as the configured levels, and the breadth-first search
    visits each of its tables once (PageTableFacts.v); a session has no more
    packages than bytes (Session.v), nor has a device (Device.v); the
    interrupt handler empties its list ([interrupts_are_answered_once]); the
    long term scheduler takes a process off a list in every turn
    ([kernel_never_hangs]).  [Deadlock] is a [sem_wait] that nothing can release.

    ** Files and sources

    - Shared: Prelude.v (this file), Text.v (decimal text), Commons.v (the
      so-commons library, which is not in the repository, as the class
      [CommonsOps] with the laws [CommonsLaws] and a concrete instance),
      Semaphores.v ([sem_t]).
    - utils/: Enums.v (enums/), Buffer.v and Package.v
      (utils/serialization/; [MemoryServer] at the end of Package.v is a
      memory module as its clients see it), Packages.v and Roundtrip.v
      (utils/DTPs/), Config.v (utils/config/, cpu/src/config_loader.c).
    - memoria/: Bitmap.v and Storage.v (user_space/, swap_space/swap_manager.c),
      PageTable.v (kernel_space/page_table.c, assign-frames-to-process.c,
      client/get-page-entry/), Memoria.v (process_manager.c, the handlers of
      client/, swap_in.c, swap_out.c, main.c), with PageTableFacts.v,
      MemoriaFacts.v, SwapFacts.v, Invariant.v, Boot.v, Session.v and
      RequestFacts.v, and the properties in MemoryProperties.v.
    - cpu/: Mmu.v and Cache.v (mmu.c), Execution.v (instructionCycle.c,
      cpuProtocol.c, the inner loop of main.c), CpuThreads.v (the outer loop
      of main.c, the interrupt listener, lists_and_mutex.c), with MmuFacts.v,
      Server.v, DataServer.v, CacheFacts.v, CacheMemory.v, ParsingFacts.v,
      ExecutionFacts.v, CpuProgress.v and CpuFrame.v, and the properties in
      CpuProperties.v, CpuConcurrency.v, AddressSpaces.v, ScriptTurns.v, ScriptEnd.v and
      ScriptRuns.v.
    - kernel/: Pcb.v (repository/pcb/), Kernel.v (collections/,
      repository/), Scheduler.v (kernel_logic/, handlers/memory/), Handlers.v
      (handlers/cpu/, handlers/io/, process_initialization.c, main.c), with
      KernelInvariant.v, KernelLogic.v, KernelRules.v, KernelSteps.v,
      SchedulerSafety.v, HandlersSafety.v, KernelSockets.v, KernelBoot.v,
      KernelMemory.v and KernelBehaviour.v, and the properties in
      KernelRuns.v, ReadyQueue.v and KernelProperties.v.  Threads.v
      (programs whose locks are visible, and their interleavings),
      KernelThreads.v (the same handlers as such programs, proved to be the
      handlers), KernelOrder.v (they follow the order of the locks) and the
      properties in KernelInterleavings.v.
    - The modules together: System.v (a kernel, its CPUs and their memory
      module as one step relation), SystemInvariant.v (what kernel, CPUs and
      connections agree on), SystemCpu.v and SystemSafety.v (every step keeps
      it), and the properties in SystemProperties.v.  Wire.v says what the
      packages that travel between kernel and CPU read as on arrival.
    - io/: Device.v (main.c) and DeviceProperties.v.
    - Scenario.v, KernelScenario.v and SystemScenario.v hold the concrete
      systems on which the witnesses apply the theorems.

    A definition has the name of the C function or type it translates; the
    parts of a long function have names of their own, next to it.

    ** Interfaces

    [CommonsOps]/[CommonsLaws] (Commons.v) stand between the program and
    so-commons.  [MemoryServer] (Package.v) answers one package; [PageServer]
    (MmuFacts.v) adds that the answers describe one page table per process,
    and is discharged by [memoria_pages] (Server.v): the MMU and the TLB are
    verified against it.  [SteadyServer] (KernelLogic.v) adds that the
    requests of the kernel are answered without hanging, and is discharged by
    [memoria_steady] (KernelMemory.v): the kernel is verified against it.
    [SharedServer] (KernelLogic.v) adds that no request, of the CPUs either,
    takes it out of such states ([memoria_shared]): the system is verified
    against it.
    [KernelEnv] (Kernel.v) is the kernel's environment: the clock, and which
    connections succeed.

    ** What the theorems show

    - Packages: what one module packs is what the other reads, over any
      socket ([delivers], Packages.v and Roundtrip.v).
    - Memory: every request keeps the frames and swap slots partitioned
      between the free ones and the processes, and the locks released
      ([requests_keep_invariant]); creation, suspension and resumption, user
      space, dumps and sessions do what they should, refusals change nothing;
      and three operations break the invariant or the bounds.
    - CPU: translation through the TLB or by page walks is the mapping kept
      by memory ([translation_end_to_end], [tlb_is_transparent]);
      without a page cache, several CPUs on one memory module refine one array
      of bytes per process ([processes_have_private_arrays]) as long as no
      access goes past its page, and not otherwise
      ([write_past_the_page_hits_another_process]), and a CPU refines an
      interpreter of scripts ([scripts_are_interpreted]); with the cache
      bytes are lost ([write_miss_loses_the_gap]) or go to the page of another
      process ([cache_serves_foreign_pages]).  CLOCK and CLOCK-M choose the victim of
      their textbook definitions; every instruction leaves the program counter
      it should, a READ or WRITE that is not carried out being repeated
      ([program_counter]); instructions round trip as text; interrupts are
      answered once.  The main thread and the
      listener exclude each other in every interleaving
      ([cpu_threads_exclude_each_other]) as long as every dispatch brings a
      process, and not otherwise ([disconnected_cpu_spins]).
    - Kernel: after any sequence of events every process is in the one list
      of its state ([processes_stay_in_order]), every change of state that is
      logged is an edge of the seven-state diagram
      ([processes_follow_the_diagram]), the locks are released, and no handler hangs
      ([kernel_never_hangs]); READY is a queue unless it is sorted by SJF
      ([ready_queue_is_fifo]); the schedulers dispatch, preempt and admit whom
      their algorithms say, IO requests are queued and sent in order; and
      some answers and interleavings lead it astray.
    - The kernel with its handlers interleaved at every call: they take their
      locks in one order, so that they never block each other
      ([kernel_threads_never_block_each_other]); a list is changed by the
      holder of its lock alone ([lists_have_one_writer]), but not with SJF
      ([sjf_sorts_exec_without_its_lock]).
    - IO: a device receives, sleeps and confirms one request after the other,
      each once and in this order, and the kernel turns
      each confirmation into the thread that wakes the process
      ([device_serves_the_kernel]).
    - The system: whatever the order in which the kernel, its CPUs and the
      devices act, a process is on one CPU at most, the one the kernel has
      marked with it, and in EXEC ([no_process_on_two_cpus]); what is under
      way from a CPU is a system call of such a process
      ([system_calls_come_from_exec]); nobody hangs ([system_never_hangs]).
      A stale mark keeps a CPU idle ([stale_mark_hides_an_idle_cpu]), and a
      script without EXIT keeps one busy ([script_end_keeps_the_cpu]).

    ** Bounds of the model

    A request to memory runs to completion.  A handler of the kernel does so
    in Handlers.v, in KernelRuns.v and in the system: there two handlers
    interleave at their boundaries only, and what [pthread_create] starts
    runs later, in any order; in KernelInterleavings.v they interleave at
    every call of a repository, and what is proved there is about the locks
    and the lists.  The bound of the loops of the long term scheduler is then
    any function of the list it has seen ([turns]), since the list may grow
    meanwhile.  The threads of a CPU interleave at every blocking call.  In the
    system the steps of the kernel, of the CPUs and of the devices interleave
    in the same way, over connections that keep the order of what is sent;
    its theorems are for kernels without preemption, where no handler waits
    for a CPU, and for runs of less than 2^31 steps, after which process ids
    and semaphores could overflow; a module that dies ends the run.  A
    [sem_wait] that has to wait inside a handler that runs to completion
    counts as a deadlock of the handler with itself.  Allocation fails only for negative sizes; [free]
    and the use of freed memory are not modelled.  A signed overflow wraps,
    as gcc does on x86 in practice.

    ** Not modelled

    Sockets, the logger, the allocation wrappers, clocks, delays and the
    shutdown (utils/socket, utils/logger, safe_alloc, time_utils, shutdown,
    kernel_logic/shutdown, the delay functions, create_connections of the
    CPU): system calls, output, and the release of memory at the end.  The
    threads that accept connections: they only call accept and start a
    thread.  The unit tests.  The reading of configuration files: it is
    done by so-commons.  The system with preemption: the short
    term scheduler waits, inside a handler, for the answer of a CPU; for the
    kernel alone these answers are an input, whatever they are
    ([interrupt_answers], Kernel.v). *)
From stdpp Require Export prelude gmap strings list fin_maps sorting.
From Stdlib Require Export ZArith Lia.
From Stdlib Require Import Permutation.

#[export] Set Default Goal Selector "!".

(** ** Machine integers

    A C integer is a [Z]; every arithmetic result is brought back to its
    width explicitly.  [i32] is [int] and [int32_t], [u64] is [size_t] and
    [uint64_t]. *)

Definition wrap_signed (w x : Z) : Z := (x + 2 ^ (w - 1)) `mod` 2 ^ w - 2 ^ (w - 1).

Definition i32 (x : Z) : Z := wrap_signed 32 x.

Definition u64 (x : Z) : Z := x `mod` 2 ^ 64.

Definition in_i32 (x : Z) : Prop := (- 2147483648 <= x < 2147483648)%Z.

#[export] Instance in_i32_dec x : Decision (in_i32 x).
Proof. unfold in_i32. apply _. Defined.

Lemma i32_eq x : i32 x = ((x + 2147483648) `mod` 4294967296 - 2147483648)%Z.
Proof. reflexivity. Qed.

Lemma i32_id x : in_i32 x → i32 x = x.
Proof. rewrite i32_eq. unfold in_i32. intros H. rewrite Z.mod_small; lia. Qed.

Lemma i32_range x : in_i32 (i32 x).
Proof.
  rewrite i32_eq. unfold in_i32.
  pose proof (Z.mod_pos_bound (x + 2147483648) 4294967296 ltac:(lia)). lia.
Qed.

Lemma i32_idem x : i32 (i32 x) = i32 x.
Proof. apply i32_id, i32_range. Qed.

(** [i32] forgets everything above the low 32 bits. *)
Lemma i32_mod x : i32 (x `mod` 4294967296) = i32 x.
Proof. rewrite !i32_eq. rewrite Z.add_mod_idemp_l by lia. done. Qed.

Lemma u64_id x : (0 <= x < 18446744073709551616)%Z → u64 x = x.
Proof. intros H. unfold u64. apply Z.mod_small. lia. Qed.

Lemma u64_range x : (0 <= u64 x < 18446744073709551616)%Z.
Proof. unfold u64. apply Z.mod_pos_bound. lia. Qed.

(** A negative [int] converted to [size_t] is a huge value. *)
Lemma u64_neg x : (- 9223372036854775808 <= x < 0)%Z → u64 x = (x + 18446744073709551616)%Z.
Proof.
  intros H. unfold u64.
  rewrite <- (Z_mod_plus_full x 1 (2 ^ 64)), Z.mod_small; lia.
Qed.

(** ** Outcomes

    A C computation finishes, or does something the program does not
    survive.  [Uninit] is the use of an indeterminate value, [OutOfBounds]
    an access outside an object, [Exit] a call of [exit] or [abort],
    [Deadlock] a [sem_wait] that nothing in the modelled execution can
    release, [OutOfFuel] a loop that outlived the bound of the model. *)

Inductive crash := NullDeref | OutOfBounds | Uninit | Exit | Deadlock | OutOfFuel.

#[export] Instance crash_eq_dec : EqDecision crash.
Proof. solve_decision. Defined.

Inductive res (A : Type) := Ok (a : A) | Crash (c : crash).
Arguments Ok {A} _.
Arguments Crash {A} _.

#[export] Instance res_ret : MRet res := λ A a, Ok a.
#[export] Instance res_bind : MBind res :=
  λ A B f m, match m with Ok a => f a | Crash c => Crash c end.

(** ** The state monad of the imperative code: explicit state, and crashes. *)

Definition M (S A : Type) : Type := S → res (A * S).

#[export] Instance M_ret S : MRet (M S) := λ A a s, Ok (a, s).
#[export] Instance M_bind S : MBind (M S) :=
  λ A B f m s, match m s with Ok (a, s') => f a s' | Crash c => Crash c end.

Section operations.
Context {S : Type}.

Definition crash_with {A} (c : crash) : M S A := λ _, Crash c.
Definition get : M S S := λ s, Ok (s, s).
Definition gets {A} (f : S → A) : M S A := λ s, Ok (f s, s).
Definition put (s : S) : M S unit := λ _, Ok (tt, s).
Definition modify (f : S → S) : M S unit := λ s, Ok (tt, f s).

(** Dereference of a pointer that may be NULL. *)
Definition deref {A} (o : option A) : M S A :=
  match o with Some a => mret a | None => crash_with NullDeref end.

Definition lift_res {A} (r : res A) : M S A :=
  λ s, match r with Ok a => Ok (a, s) | Crash c => Crash c end.

(** A [for] or [list_iterate] loop: the body on each element, in order. *)
Fixpoint for_each {A} (l : list A) (body : A → M S unit) : M S unit :=
  match l with
  | [] => mret tt
  | x :: l => body x ≫= λ _, for_each l body
  end.
End operations.

(** ** Running a computation on a part of the state. *)
Definition zoom {S T A} (getter : S → T) (setter : T → S → S) (m : M T A) : M S A :=
  λ s, match m (getter s) with
       | Ok (a, t) => Ok (a, setter t s)
       | Crash c => Crash c
       end.

Create HintDb monad discriminated.

Section laws.
Context {S : Type}.

Lemma M_bind_ok {A B} (f : A → M S B) (m : M S A) s a s' :
  m s = Ok (a, s') → (m ≫= f) s = f a s'.
Proof. intros H. unfold mbind, M_bind. by rewrite H. Qed.

Lemma M_bind_crash {A B} (f : A → M S B) (m : M S A) s c :
  m s = Crash c → (m ≫= f) s = Crash c.
Proof. intros H. unfold mbind, M_bind. by rewrite H. Qed.

Lemma M_bind_inv {A B} (f : A → M S B) (m : M S A) s b s'' :
  (m ≫= f) s = Ok (b, s'') → ∃ a s', m s = Ok (a, s') ∧ f a s' = Ok (b, s'').
Proof.
  unfold mbind, M_bind. destruct (m s) as [[a s']|c]; [eauto | done].
Qed.
End laws.

(** Unfold the monad in the goal, or in a hypothesis. *)
Ltac step :=
  unfold mbind, M_bind, mret, M_ret, get, gets, put, modify, deref, lift_res, crash_with, zoom;
  cbn [fst snd].

Tactic Notation "step_in" hyp(H) :=
  unfold mbind, M_bind, mret, M_ret, get, gets, put, modify, deref, lift_res, crash_with, zoom in H;
  cbn [fst snd] in H.

(** Run the first call of the goal, whose outcome the tactic knows. *)
Tactic Notation "run" tactic3(t) := erewrite M_bind_ok by t; cbv beta iota.

(** Split a successful run into the runs of its parts. *)
Ltac bind_inv H :=
  let a := fresh "r" in let s := fresh "st" in let E := fresh "E" in
  apply M_bind_inv in H as (a & s & E & H).

(** ** Lists indexed by C integers *)

(** [nth] of a C array or of a [t_list] position: no element outside it. *)
Definition znth {A} (l : list A) (i : Z) : option A :=
  if decide (0 <= i)%Z then l !! Z.to_nat i else None.

Definition zset {A} (l : list A) (i : Z) (x : A) : list A :=
  if decide (0 <= i)%Z then <[Z.to_nat i := x]> l else l.

Definition zlen {A} (l : list A) : Z := Z.of_nat (length l).

Lemma znth_nat {A} (l : list A) (i : nat) : znth l (Z.of_nat i) = l !! i.
Proof. unfold znth. rewrite decide_True by lia. by rewrite Nat2Z.id. Qed.

Lemma znth_Some_range {A} (l : list A) i x : znth l i = Some x → (0 <= i < zlen l)%Z.
Proof.
  unfold znth, zlen. case_decide; [|done]. intros H1%lookup_lt_Some. lia.
Qed.

Lemma znth_is_Some {A} (l : list A) i : (0 <= i < zlen l)%Z → is_Some (znth l i).
Proof.
  unfold znth, zlen. intros. rewrite decide_True by lia.
  apply lookup_lt_is_Some_2. lia.
Qed.

Lemma zset_length {A} (l : list A) i x : length (zset l i x) = length l.
Proof. unfold zset. case_decide; [apply length_insert | done]. Qed.

Lemma zset_zlen {A} (l : list A) i x : zlen (zset l i x) = zlen l.
Proof. unfold zlen. by rewrite zset_length. Qed.

Lemma znth_zset_eq {A} (l : list A) i x :
  (0 <= i < zlen l)%Z → znth (zset l i x) i = Some x.
Proof.
  unfold znth, zset, zlen. intros. rewrite !decide_True by lia.
  apply list_lookup_insert_eq. lia.
Qed.

Lemma znth_zset_ne {A} (l : list A) i j x : i ≠ j → znth (zset l i x) j = znth l j.
Proof.
  unfold znth, zset. intros. repeat case_decide; try done.
  apply list_lookup_insert_ne. lia.
Qed.

(** ** Slices: what [memcpy] reads and writes *)

Definition slice {A} (pos size : nat) (l : list A) : list A := take size (drop pos l).

Definition splice {A} (pos : nat) (data l : list A) : list A :=
  take pos l ++ data ++ drop (pos + length data) l.

Lemma splice_length {A} pos (data l : list A) :
  pos + length data <= length l → length (splice pos data l) = length l.
Proof. intros. unfold splice. rewrite !length_app, length_take, length_drop. lia. Qed.

Lemma slice_length {A} pos size (l : list A) :
  pos + size <= length l → length (slice pos size l) = size.
Proof. intros. unfold slice. rewrite length_take, length_drop. lia. Qed.

Lemma lookup_slice {A} pos size (l : list A) i :
  slice pos size l !! i = if decide (i < size) then l !! (pos + i) else None.
Proof.
  unfold slice. case_decide; [by rewrite lookup_take_lt, lookup_drop by done|].
  by rewrite lookup_take_ge by lia.
Qed.

Lemma lookup_splice {A} pos (data l : list A) i :
  pos + length data <= length l →
  splice pos data l !! i = if decide (pos <= i < pos + length data) then data !! (i - pos) else l !! i.
Proof.
  intros Hl. unfold splice. destruct (decide (i < pos)).
  - rewrite decide_False by lia. by rewrite lookup_app_l, lookup_take_lt by (rewrite ?length_take; lia).
  - rewrite lookup_app_r, length_take by (rewrite length_take; lia). rewrite (Nat.min_l pos) by lia.
    case_decide as Hi; [by rewrite lookup_app_l by lia|].
    rewrite lookup_app_r, lookup_drop by lia. f_equal. lia.
Qed.

(** Reading back what was just written. *)
Lemma slice_splice_eq {A} pos (data l : list A) :
  pos + length data <= length l → slice pos (length data) (splice pos data l) = data.
Proof.
  intros. unfold slice, splice.
  rewrite drop_app_length' by (rewrite length_take; lia).
  by rewrite take_app_length.
Qed.

(** A write does not change a region that it does not overlap. *)
Lemma slice_splice_ne {A} pos (data l : list A) pos' size :
  pos + length data <= length l →
  pos' + size <= pos ∨ pos + length data <= pos' →
  slice pos' size (splice pos data l) = slice pos' size l.
Proof.
  intros Hlen Hdis. unfold slice, splice.
  destruct Hdis as [Hd|Hd].
  - rewrite drop_app_le by (rewrite length_take; lia).
    rewrite take_app_le by (rewrite length_drop, length_take; lia).
    rewrite skipn_firstn_comm, take_take. f_equal. lia.
  - rewrite drop_app_ge by (rewrite length_take; lia).
    rewrite drop_app_ge by (rewrite length_take; lia).
    rewrite length_take, drop_drop. do 2 f_equal. lia.
Qed.

(** A region inside the written one reads the matching part of the data. *)
Lemma slice_slice {A} pos size pos' size' (l : list A) :
  pos' + size' <= size → slice pos' size' (slice pos size l) = slice (pos + pos') size' l.
Proof.
  intros. unfold slice.
  rewrite skipn_firstn_comm, take_take, drop_drop. f_equal. lia.
Qed.

(** ** Filters *)
Section filters.
Context {A : Type} (P : A → Prop) `{∀ x, Decision (P x)}.

Lemma list_filter_all (l : list A) : Forall P l → filter P l = l.
Proof.
  induction 1 as [|x l Hx _ IH]; [done|]. by rewrite filter_cons_True, IH.
Qed.

Lemma list_filter_none (l : list A) : Forall (λ x, ¬ P x) l → filter P l = [].
Proof. induction 1 as [|x l Hx _ IH]; [done|]. by rewrite filter_cons_False. Qed.

Lemma filter_ext_elem (Q : A → Prop) `{∀ x, Decision (Q x)} (l : list A) :
  (∀ x, x ∈ l → P x ↔ Q x) → filter P l = filter Q l.
Proof.
  induction l as [|x l IH]; intros Hl; [done|]. rewrite !filter_cons.
  rewrite IH by (intros; apply Hl; by right).
  rewrite (decide_ext (P x) (Q x)) by (apply Hl; by left). done.
Qed.
End filters.

(** ** Loops with an accumulator *)
Section fold_m.
Context {S A B : Type}.

Fixpoint fold_m (l : list B) (acc : A) (body : A → B → M S A) : M S A :=
  match l with
  | [] => mret acc
  | x :: l => acc' ← body acc x; fold_m l acc' body
  end.

Lemma fold_m_app l l' acc body s :
  fold_m (l ++ l') acc body s = (acc' ← fold_m l acc body; fold_m l' acc' body) s.
Proof.
  revert acc s. induction l as [|x l IH]; intros acc s; cbn; [done|].
  unfold mbind, M_bind. destruct (body acc x s) as [[a s']|c]; [|done]. apply IH.
Qed.
End fold_m.

(** [for (i = 0; i < n; i++)] *)
Definition upto (n : Z) : list Z := seqZ 0 n.

Lemma elem_of_upto n i : i ∈ upto n ↔ (0 <= i < n)%Z.
Proof. unfold upto. rewrite elem_of_seqZ. lia. Qed.

Lemma upto_S n : (0 <= n)%Z → upto (n + 1) = upto n ++ [n].
Proof.
  intros. unfold upto. rewrite seqZ_app by lia. f_equal.
Qed.

Lemma zlen_upto n : (0 <= n)%Z → zlen (upto n) = n.
Proof. intros. unfold zlen, upto. rewrite length_seqZ. lia. Qed.

Lemma zlen_app {A} (l l' : list A) : zlen (l ++ l') = (zlen l + zlen l')%Z.
Proof. unfold zlen. rewrite length_app. lia. Qed.

Lemma zlen_nonneg {A} (l : list A) : (0 <= zlen l)%Z.
Proof. unfold zlen. lia. Qed.

Lemma StronglySorted_mono {A} (R R' : relation A) l :
  (∀ x y, R x y → R' x y) → StronglySorted R l → StronglySorted R' l.
Proof. intros HR. induction 1 as [|x l Hs IH Hx]; constructor; [done|]. eapply Forall_impl; [exact Hx | apply HR]. Qed.

Lemma znth_ext {A} (l k : list A) :
  zlen l = zlen k → (∀ i, (0 <= i < zlen l)%Z → znth l i = znth k i) → l = k.
Proof.
  intros Hl H. apply list_eq. intros i. destruct (decide (i < length l)) as [Hi|Hi].
  - rewrite <- !znth_nat. apply H. unfold zlen. lia.
  - unfold zlen in Hl. rewrite !lookup_ge_None_2 by lia. done.
Qed.

Lemma znth_fmap {A B} (f : A → B) (l : list A) i : znth (f <$> l) i = f <$> znth l i.
Proof. unfold znth. case_decide; [apply list_lookup_fmap | done]. Qed.

Lemma znth_upto n i : (0 <= i < n)%Z → znth (upto n) i = Some i.
Proof.
  intros. unfold znth, upto. rewrite decide_True by lia.
  rewrite lookup_seqZ_lt by lia. f_equal. lia.
Qed.

Lemma znth_elem {A} (l : list A) i x : znth l i = Some x → x ∈ l.
Proof. unfold znth. case_decide; [|done]. intros Hx. by eapply list_elem_of_lookup_2. Qed.

Lemma elem_znth {A} (l : list A) x : x ∈ l → ∃ i, znth l i = Some x.
Proof. intros [i Hi]%list_elem_of_lookup. exists (Z.of_nat i). by rewrite znth_nat. Qed.

Lemma znth_app_l {A} (l l' : list A) i : (i < zlen l)%Z → znth (l ++ l') i = znth l i.
Proof.
  intros. unfold znth, zlen in *. case_decide; [|done]. apply lookup_app_l. lia.
Qed.

Lemma znth_app_r {A} (l l' : list A) i :
  (zlen l <= i)%Z → znth (l ++ l') i = znth l' (i - zlen l)%Z.
Proof.
  intros. unfold znth, zlen in *. rewrite !decide_True by lia.
  rewrite lookup_app_r by lia. f_equal. lia.
Qed.

(** A counting loop, by its invariant. *)
Lemma fold_upto {S A} (body : A → Z → M S A) (inv : Z → A) (st : Z → S) n acc s :
  (0 <= n)%Z → inv 0%Z = acc → st 0%Z = s →
  (∀ i, (0 <= i < n)%Z → body (inv i) i (st i) = Ok (inv (i + 1)%Z, st (i + 1)%Z)) →
  fold_m (upto n) acc body s = Ok (inv n, st n).
Proof.
  intros Hn <- <-. revert n Hn. apply (natlike_ind (λ n, (∀ i, _) → _)); [done|].
  intros n Hn IH Hstep. rewrite <- Z.add_1_r, upto_S by lia. rewrite fold_m_app.
  run (apply IH; intros; apply Hstep; lia).
  cbn [fold_m]. by run (apply Hstep; lia).
Qed.

(** ** What a computation leaves alone

    [within R m]: the states before and after a run of [m] are related by
    [R]. *)
Section within.
Context {S : Type} (R : relation S).

Record within {A} (m : M S A) : Prop := {
  within_run : ∀ s a s', m s = Ok (a, s') → R s s' }.

Lemma within_crash {A} c : within (crash_with c : M S A).
Proof. by split. Qed.

Lemma within_modify (f : S → S) : (∀ s, R s (f s)) → within (modify f).
Proof. intros Hf. split. intros s a s' [= _ <-]. apply Hf. Qed.

Context `{!PreOrder R}.

Lemma within_same {A} (r : S → res A) :
  within (λ s, match r s with Ok a => Ok (a, s) | Crash c => Crash c end).
Proof. split. intros s a s' H. destruct (r s); [by injection H as _ ->|done]. Qed.

Lemma within_ret {A} (a : A) : within (mret a).
Proof. apply (within_same (λ _, Ok a)). Qed.
Lemma within_gets {A} (f : S → A) : within (gets f).
Proof. apply (within_same (λ s, Ok (f s))). Qed.
Lemma within_lift {A} (r : res A) : within (lift_res r).
Proof. apply (within_same (λ _, r)). Qed.
Lemma within_deref {A} (o : option A) : within (deref o).
Proof. destruct o; [apply within_ret | apply within_crash]. Qed.

Lemma within_bind {A B} (m : M S A) (f : A → M S B) :
  within m → (∀ a, within (f a)) → within (m ≫= f).
Proof. intros [Hm] Hf. split. intros s b s' H. bind_inv H. etrans; [by eapply Hm | by eapply Hf]. Qed.

Lemma within_for_each {A} (l : list A) (body : A → M S unit) :
  (∀ x, within (body x)) → within (for_each l body).
Proof.
  intros Hb. induction l as [|x l IH]; cbn; [by apply within_ret | by apply within_bind].
Qed.
End within.
Arguments within_run {S R A m} _.

Lemma within_mono {S A} (R R' : relation S) (m : M S A) :
  (∀ s s', R s s' → R' s s') → within R m → within R' m.
Proof. intros HR [Hm]. split. intros s a s' H. by eapply HR, Hm. Qed.

Lemma within_zoom {S T A} (R : relation S) (R' : relation T) (getter : S → T) (setter : T → S → S) (m : M T A) :
  (∀ s t, R' (getter s) t → R s (setter t s)) → within R' m → within R (zoom getter setter m).
Proof.
  intros HR [Hm]. split. intros s a s' H. unfold zoom in H. destruct (m (getter s)) as [[b t]|] eqn:E; [|done].
  injection H as _ <-. eapply HR. by eapply Hm.
Qed.

Create HintDb within discriminated.
#[export] Hint Resolve within_crash within_ret within_gets within_lift within_deref : within.
#[export] Hint Extern 0 (PreOrder _) => apply _ : within.

(** Go through the parts of a computation; [leaf] deals with its updates. *)
Ltac within_with leaf :=
  repeat first
    [ solve [auto with within] | apply within_bind; [apply _ | |intros ?] | leaf
    | apply within_for_each; [apply _ | intros ?]
    | match goal with
      | |- within _ (match ?x with _ => _ end) => destruct x
      | |- within _ ((match ?x with _ => _ end) _) => destruct x
      | |- within _ (let '(_, _) := ?x in _) => destruct x
      end ].

(** The function a computation calls first is unfolded. *)
Ltac head_of t := lazymatch t with ?f _ => head_of f | _ => t end.
Ltac unfold_called := match goal with |- within _ ?m => let f := head_of m in unfold f end.
