(* ===== verification/Text.v ===== *)
(** * Decimal numbers as text

    [atoi] of the C library, and that it reads back a number written in
    decimal ([pretty] of stdpp). *)
From S2P Require Import Prelude.
From stdpp Require Export pretty.
From Stdlib Require Import Strings.Ascii.

(** [atoi]: white space, a sign, digits. *)
Definition is_space (c : ascii) : bool :=
  let k := nat_of_ascii c in bool_decide (k = 32 ∨ 9 <= k <= 13).

Definition digit (c : ascii) : option Z :=
  let k := nat_of_ascii c in
  if decide (48 <= k <= 57) then Some (Z.of_nat k - 48)%Z else None.

Fixpoint digits_value (s : string) (acc : Z) : Z :=
  match s with
  | EmptyString => acc
  | String c s => match digit c with Some v => digits_value s (10 * acc + v) | None => acc end
  end.

Fixpoint atoi (s : string) : Z :=
  match s with
  | EmptyString => 0
  | String c rest =>
      if is_space c then atoi rest
      else if decide (c = "-"%char) then i32 (- digits_value rest 0)
      else if decide (c = "+"%char) then i32 (digits_value rest 0)
      else i32 (digits_value s 0)
  end.

(** ** Reading back *)

Definition is_digit (c : ascii) : Prop := ∃ v, digit c = Some v.

Fixpoint all_digits (s : string) : Prop :=
  match s with EmptyString => True | String c s => is_digit c ∧ all_digits s end.

Lemma pretty_N_char_digit x : (x < 10)%N → digit (pretty_N_char x) = Some (Z.of_N x).
Proof.
  intros H.
  assert (x = 0 ∨ x = 1 ∨ x = 2 ∨ x = 3 ∨ x = 4 ∨ x = 5 ∨ x = 6 ∨ x = 7 ∨ x = 8 ∨ x = 9)%N as Hx by lia.
  repeat destruct Hx as [->|Hx]; [reflexivity..|]. by subst x.
Qed.

Lemma pretty_N_go_value x s : digits_value (pretty_N_go x s) 0 = digits_value s (Z.of_N x).
Proof.
  revert s. induction (N.lt_wf_0 x) as [x _ IH]. intros s.
  destruct (decide (x = 0)%N) as [->|Hx]; [by rewrite pretty_N_go_0|].
  rewrite pretty_N_go_step by lia.
  pose proof (N.div_mod x 10 ltac:(done)). pose proof (N.mod_lt x 10 ltac:(done)).
  rewrite IH by (apply N.div_lt; lia). cbn [digits_value].
  rewrite pretty_N_char_digit by done. f_equal. lia.
Qed.

Lemma pretty_N_go_digits x s : all_digits s → all_digits (pretty_N_go x s).
Proof.
  revert s. induction (N.lt_wf_0 x) as [x _ IH]. intros s Hs.
  destruct (decide (x = 0)%N) as [->|Hx]; [by rewrite pretty_N_go_0|].
  rewrite pretty_N_go_step by lia. pose proof (N.mod_lt x 10 ltac:(done)).
  apply IH; [apply N.div_lt; lia|]. split; [|done].
  eexists. by apply pretty_N_char_digit.
Qed.

Lemma pretty_N_go_nonempty x s : s ≠ EmptyString ∨ (0 < x)%N → pretty_N_go x s ≠ EmptyString.
Proof.
  revert s. induction (N.lt_wf_0 x) as [x _ IH]. intros s Hs.
  destruct (decide (x = 0)%N) as [->|Hx]; [rewrite pretty_N_go_0; destruct Hs; [done | lia]|].
  rewrite pretty_N_go_step by lia. apply IH; [apply N.div_lt; lia | by left].
Qed.

Lemma digit_not c k : digit c = Some k → is_space c = false ∧ c ≠ " "%char ∧ c ≠ "-"%char ∧ c ≠ "+"%char.
Proof.
  unfold digit. case_decide as Hc; [|done]. intros _. split_and!.
  - apply bool_decide_eq_false. lia.
  - intros ->. cbv in Hc. lia.
  - intros ->. cbv in Hc. lia.
  - intros ->. cbv in Hc. lia.
Qed.

(** What [atoi] reads in a decimal number. *)
Lemma atoi_digits s : s ≠ EmptyString → all_digits s → atoi s = i32 (digits_value s 0).
Proof.
  destruct s as [|c s]; [done|]. intros _ [[k Hc] Hs]. destruct (digit_not c k Hc) as (H1 & H2 & H3 & H4).
  cbn [atoi]. by rewrite H1, !decide_False.
Qed.

Lemma pretty_pos_value p :
  digits_value (pretty p) 0 = Z.pos p ∧ all_digits (pretty p) ∧ pretty p ≠ EmptyString.
Proof.
  change (pretty p) with (pretty_N_go (N.pos p) ""). split_and!.
  - by rewrite pretty_N_go_value.
  - by apply pretty_N_go_digits.
  - apply pretty_N_go_nonempty. by right.
Qed.

Lemma atoi_pretty (z : Z) : in_i32 z → atoi (pretty z) = z.
Proof.
  intros Hz. destruct z as [|p|p]; [done|..].
  - change (pretty (Z.pos p)) with (pretty p). destruct (pretty_pos_value p) as (Hv & Hd & Hn).
    rewrite atoi_digits, Hv by done. by apply i32_id.
  - change (pretty (Z.neg p)) with (String "-" (pretty p)). destruct (pretty_pos_value p) as (Hv & Hd & Hn).
    cbn [atoi]. change (is_space "-") with false. cbv iota. rewrite decide_True, Hv by done. by apply i32_id.
Qed.

