(* ===== verification/Commons.v ===== *)
(** * The so-commons library, as an interface

    The program stores its data in the lists, queues, dictionaries and bit
    arrays of the so-commons library, which is not part of the repository.
    The library is therefore a parameter: [CommonsOps] names the operations
    the program calls, [CommonsLaws] states what their documentation
    promises.  A [t_list] or [t_queue] is represented by the sequence of its
    elements, a [t_dictionary] by a finite map from keys, a [t_bitarray] by
    the sequence of its bits.  A pointer into a list is its position.

    Two operations are left loose on purpose, as the library leaves them:
    the order in which [dictionary_elements] enumerates a hash table, and
    the order in which [list_sort] calls its comparator (which in this
    program has side effects).  [CommonsModel] is a concrete instance, used
    to evaluate the development on examples. *)
From S2P Require Import Prelude Text.
From Stdlib Require Import Permutation.

Class CommonsOps := {
  list_add : ∀ {A : Type}, list A → A → list A;
  list_get : ∀ {A : Type}, list A → Z → option A;
  list_size : ∀ {A : Type}, list A → Z;
  list_is_empty : ∀ {A : Type}, list A → bool;
  (** the position of the element the returned pointer designates *)
  list_find : ∀ {A : Type}, list A → (A → bool) → option nat;
  list_filter : ∀ {A : Type}, list A → (A → bool) → list A;
  list_remove : ∀ {A : Type}, list A → Z → option A * list A;
  list_remove_by_condition : ∀ {A : Type}, list A → (A → bool) → option A * list A;
  list_replace : ∀ {A : Type}, list A → Z → A → list A;
  (** the comparator may read and change a state *)
  list_sort : ∀ {A S : Type}, (A → A → S → bool * S) → list A → S → list A * S;
  queue_push : ∀ {A : Type}, list A → A → list A;
  queue_pop : ∀ {A : Type}, list A → option A * list A;
  queue_peek : ∀ {A : Type}, list A → option A;
  queue_size : ∀ {A : Type}, list A → Z;
  queue_is_empty : ∀ {A : Type}, list A → bool;
  dictionary_put : ∀ {A : Type}, gmap string A → string → A → gmap string A;
  dictionary_get : ∀ {A : Type}, gmap string A → string → option A;
  dictionary_remove : ∀ {A : Type}, gmap string A → string → option A * gmap string A;
  dictionary_elements : ∀ {A : Type}, gmap string A → list A;
  dictionary_keys : ∀ {A : Type}, gmap string A → list string;
  (** over zeroed storage of the given number of bytes *)
  bitarray_create : Z → list bool;
  bitarray_test_bit : list bool → Z → bool;
  bitarray_set_bit : list bool → Z → list bool;
  bitarray_clean_bit : list bool → Z → list bool;
  string_itoa : Z → string
}.

Class CommonsLaws (C : CommonsOps) : Prop := {
  list_add_spec : ∀ A (l : list A) x, list_add l x = l ++ [x];
  list_get_spec : ∀ A (l : list A) i, list_get l i = znth l i;
  list_size_spec : ∀ A (l : list A), list_size l = zlen l;
  list_is_empty_spec : ∀ A (l : list A), list_is_empty l = bool_decide (l = []);
  list_find_spec : ∀ A (l : list A) p, list_find l p = fst <$> list.list_find (λ x, p x = true) l;
  list_filter_spec : ∀ A (l : list A) p, list_filter l p = filter (λ x, p x = true) l;
  list_remove_spec : ∀ A (l : list A) i,
    list_remove l i = (znth l i, if decide (0 <= i)%Z then delete (Z.to_nat i) l else l);
  list_remove_by_condition_spec : ∀ A (l : list A) p,
    list_remove_by_condition l p =
      match list.list_find (λ x, p x = true) l with
      | Some (i, x) => (Some x, delete i l)
      | None => (None, l)
      end;
  list_replace_spec : ∀ A (l : list A) i x, list_replace l i x = zset l i x;
  (** a sorted list is a rearrangement ... *)
  list_sort_perm : ∀ A S (f : A → A → S → bool * S) l s, (list_sort f l s).1 ≡ₚ l;
  (** ... the comparator is only applied to elements of the list ... *)
  list_sort_inv : ∀ A S (f : A → A → S → bool * S) (I : S → Prop) l s,
    (∀ x y s, x ∈ l → y ∈ l → I s → I (f x y s).2) → I s → I (list_sort f l s).2;
  (** ... and the result is in order, when the comparator is one, which
      leaves the state alone *)
  list_sort_sorted : ∀ A S (f : A → A → S → bool * S) (R : A → A → bool) l (s : S),
    (∀ x y, x ∈ l → y ∈ l → f x y s = (R x y, s)) →
    (∀ x y z, R x y = true → R y z = true → R x z = true) →
    (∀ x y, R x y = true ∨ R y x = true) →
    StronglySorted (λ x y, R x y = true) (list_sort f l s).1 ∧ (list_sort f l s).2 = s;
  queue_push_spec : ∀ A (l : list A) x, queue_push l x = l ++ [x];
  queue_pop_spec : ∀ A (l : list A), queue_pop l = (head l, tail l);
  queue_peek_spec : ∀ A (l : list A), queue_peek l = head l;
  queue_size_spec : ∀ A (l : list A), queue_size l = zlen l;
  queue_is_empty_spec : ∀ A (l : list A), queue_is_empty l = bool_decide (l = []);
  dictionary_put_spec : ∀ A (d : gmap string A) k x, dictionary_put d k x = <[k := x]> d;
  dictionary_get_spec : ∀ A (d : gmap string A) k, dictionary_get d k = d !! k;
  dictionary_remove_spec : ∀ A (d : gmap string A) k,
    dictionary_remove d k = (d !! k, delete k d);
  (** keys and elements are enumerated in one and the same order *)
  dictionary_elements_spec : ∀ A (d : gmap string A),
    zip (dictionary_keys d) (dictionary_elements d) ≡ₚ map_to_list d;
  dictionary_length_spec : ∀ A (d : gmap string A),
    length (dictionary_keys d) = length (dictionary_elements d);
  bitarray_create_spec : ∀ n, bitarray_create n = replicate (Z.to_nat (8 * n)) false;
  bitarray_test_bit_spec : ∀ b i, (0 <= i < zlen b)%Z →
    znth b i = Some (bitarray_test_bit b i);
  bitarray_set_bit_spec : ∀ b i, (0 <= i < zlen b)%Z →
    bitarray_set_bit b i = zset b i true;
  bitarray_clean_bit_spec : ∀ b i, (0 <= i < zlen b)%Z →
    bitarray_clean_bit b i = zset b i false;
  (** in decimal *)
  string_itoa_spec : ∀ z : Z, string_itoa z = pretty z
}.


Create Rewrite HintDb commons.
#[export] Hint Rewrite @list_add_spec @list_get_spec @list_size_spec @list_is_empty_spec
  @list_find_spec @list_filter_spec @list_remove_spec @list_remove_by_condition_spec
  @list_replace_spec @queue_push_spec @queue_pop_spec @queue_peek_spec @queue_size_spec
  @queue_is_empty_spec @dictionary_put_spec @dictionary_get_spec @dictionary_remove_spec
  @bitarray_create_spec using (exact _) : commons.

(** Replace the library operations by what they do. *)
Ltac commons := repeat (progress autorewrite with commons).

Section derived.
Context {C : CommonsOps} {CL : CommonsLaws C}.

#[export] Instance string_itoa_inj : Inj (=) (=) string_itoa.
Proof. intros x y. rewrite !string_itoa_spec. apply (inj pretty). Qed.

(** The socket a key was made from. *)
Lemma atoi_string_itoa z : in_i32 z → atoi (string_itoa z) = z.
Proof. rewrite string_itoa_spec. apply atoi_pretty. Qed.

Lemma list_find_lookup {A} (l : list A) p i :
  list_find l p = Some i →
  ∃ x, l !! i = Some x ∧ p x = true ∧ ∀ j y, j < i → l !! j = Some y → p y = false.
Proof.
  rewrite list_find_spec. intros ([j x] & H & ->)%fmap_Some.
  apply list_find_Some in H as (Hx & Hp & Hlt).
  exists x. split_and!; [done | done |].
  intros k y Hk Hy. destruct (p y) eqn:E; [|done]. by destruct (Hlt k y Hy Hk).
Qed.

Lemma list_find_not {A} (l : list A) p x :
  list_find l p = None → x ∈ l → p x = false.
Proof.
  rewrite list_find_spec. intros H%fmap_None Hx.
  rewrite list_find_None, Forall_forall in H. specialize (H x Hx).
  by destruct (p x).
Qed.

Lemma list_remove_by_condition_Some {A} (l : list A) p x l' :
  list_remove_by_condition l p = (Some x, l') →
  p x = true ∧ ∃ i, l !! i = Some x ∧ l' = delete i l ∧ l ≡ₚ x :: l'.
Proof.
  rewrite list_remove_by_condition_spec.
  destruct (list.list_find _ l) as [[i y]|] eqn:E; [|done]. intros [= -> <-].
  apply list_find_Some in E as (Hx & Hp & _). split; [done|]. exists i.
  split_and!; [done | done |]. by apply delete_Permutation.
Qed.

Lemma list_remove_by_condition_None {A} (l : list A) p l' :
  list_remove_by_condition l p = (None, l') → l' = l ∧ ∀ x, x ∈ l → p x = false.
Proof.
  rewrite list_remove_by_condition_spec.
  destruct (list.list_find _ l) as [[i y]|] eqn:E; [done|]. intros [= <-].
  split; [done|]. intros x Hx. rewrite list_find_None, Forall_forall in E.
  specialize (E x Hx). by destruct (p x).
Qed.

Lemma dictionary_keys_elements {A} (d : gmap string A) i k x :
  dictionary_keys d !! i = Some k → dictionary_elements d !! i = Some x →
  d !! k = Some x.
Proof.
  intros Hk Hx.
  assert ((k, x) ∈ zip (dictionary_keys d) (dictionary_elements d)) as Hin.
  { apply list_elem_of_lookup. exists i. rewrite lookup_zip_with, Hk, Hx. done. }
  rewrite dictionary_elements_spec in Hin. by apply elem_of_map_to_list.
Qed.

Lemma dictionary_elements_elem {A} (d : gmap string A) x :
  x ∈ dictionary_elements d ↔ ∃ k, d !! k = Some x.
Proof.
  split.
  - intros [i Hi]%list_elem_of_lookup.
    destruct (lookup_lt_is_Some_2 (dictionary_keys d) i) as [k Hk].
    { rewrite dictionary_length_spec. by eapply lookup_lt_Some. }
    exists k. by eapply dictionary_keys_elements.
  - intros [k Hk]. apply elem_of_map_to_list in Hk.
    rewrite <- dictionary_elements_spec in Hk.
    by apply elem_of_zip_r in Hk.
Qed.
End derived.

(** ** A concrete instance *)
Module CommonsModel.
(** insertion sort, threading the comparator's state *)
Fixpoint insert {A S} (f : A → A → S → bool * S) (x : A) (l : list A) (s : S) : list A * S :=
  match l with
  | [] => ([x], s)
  | y :: l' =>
      let '(b, s) := f x y s in
      if b then (x :: y :: l', s)
      else let '(l'', s) := insert f x l' s in (y :: l'', s)
  end.

Fixpoint isort {A S} (f : A → A → S → bool * S) (l : list A) (s : S) : list A * S :=
  match l with
  | [] => ([], s)
  | x :: l => let '(l', s) := isort f l s in insert f x l' s
  end.

#[export] Instance ops : CommonsOps := {
  list_add A l x := l ++ [x];
  list_get A l i := znth l i;
  list_size A l := zlen l;
  list_is_empty A l := match l with [] => true | _ => false end;
  list_find A l p := fst <$> list.list_find (λ x, p x = true) l;
  list_filter A l p := filter (λ x, p x = true) l;
  list_remove A l i := (znth l i, if decide (0 <= i)%Z then delete (Z.to_nat i) l else l);
  list_remove_by_condition A l p :=
    match list.list_find (λ x, p x = true) l with
    | Some (i, x) => (Some x, delete i l)
    | None => (None, l)
    end;
  list_replace A l i x := zset l i x;
  list_sort A S f l s := isort f l s;
  queue_push A l x := l ++ [x];
  queue_pop A l := (head l, tail l);
  queue_peek A l := head l;
  queue_size A l := zlen l;
  queue_is_empty A l := match l with [] => true | _ => false end;
  dictionary_put A d k x := <[k := x]> d;
  dictionary_get A d k := d !! k;
  dictionary_remove A d k := (d !! k, delete k d);
  dictionary_elements A d := (map_to_list d).*2;
  dictionary_keys A d := (map_to_list d).*1;
  bitarray_create n := replicate (Z.to_nat (8 * n)) false;
  bitarray_test_bit b i := default false (znth b i);
  bitarray_set_bit b i := zset b i true;
  bitarray_clean_bit b i := zset b i false;
  string_itoa z := pretty z
}.

Lemma insert_perm {A S} (f : A → A → S → bool * S) x l s : (insert f x l s).1 ≡ₚ x :: l.
Proof.
  revert s. induction l as [|y l IH]; intros s; cbn; [done|].
  destruct (f x y s) as [[] s']; cbn; [done|].
  specialize (IH s'). destruct (insert f x l s') as [l'' s'']; cbn in *.
  rewrite IH. apply Permutation_swap.
Qed.

Lemma isort_perm {A S} (f : A → A → S → bool * S) l s : (isort f l s).1 ≡ₚ l.
Proof.
  induction l as [|x l IH]; cbn; [done|].
  destruct (isort f l s) as [l' s']; cbn in *. by rewrite insert_perm, IH.
Qed.

Lemma insert_inv {A S} (f : A → A → S → bool * S) (I : S → Prop) x l s :
  (∀ y s, y ∈ l → I s → I (f x y s).2) → I s → I (insert f x l s).2.
Proof.
  revert s. induction l as [|y l IH]; intros s Hf Hs; cbn; [done|].
  pose proof (Hf y s ltac:(by left) Hs) as Hs'.
  destruct (f x y s) as [[] s']; cbn in *; [done|].
  specialize (IH s' (λ z t Hz, Hf z t ltac:(by right)) Hs').
  by destruct (insert f x l s').
Qed.

Lemma isort_inv {A S} (f : A → A → S → bool * S) (I : S → Prop) l s :
  (∀ x y s, x ∈ l → y ∈ l → I s → I (f x y s).2) → I s → I (isort f l s).2.
Proof.
  revert s. induction l as [|x l IH]; intros s Hf Hs; cbn; [done|].
  assert (I (isort f l s).2) as H2.
  { apply IH; [|done]. intros y z t Hy Hz. apply Hf; by right. }
  pose proof (isort_perm f l s) as Hp.
  destruct (isort f l s) as [l' s']; cbn in *.
  apply insert_inv; [|done]. intros y t Hy Ht. apply Hf; [by left | | done].
  right. by rewrite <- Hp.
Qed.

Lemma insert_pure {A S} (f : A → A → S → bool * S) (R : A → A → bool) x l s :
  (∀ y, y ∈ l → f x y s = (R x y, s)) → insert f x l s = (insert (λ x y s, (R x y, s)) x l s).
Proof.
  induction l as [|y l IH]; intros Hf; cbn; [done|]. rewrite Hf by by left.
  destruct (R x y); [done|]. by rewrite IH by (intros z Hz; apply Hf; by right).
Qed.

Lemma insert_state {A S} (R : A → A → bool) x l (s : S) :
  (insert (λ x y s, (R x y, s)) x l s).2 = s.
Proof.
  induction l as [|y l IH]; cbn; [done|]. destruct (R x y); [done|].
  by destruct (insert _ x l s).
Qed.

Lemma isort_pure {A S} (f : A → A → S → bool * S) (R : A → A → bool) l s :
  (∀ x y, x ∈ l → y ∈ l → f x y s = (R x y, s)) →
  isort f l s = isort (λ x y s, (R x y, s)) l s ∧ (isort f l s).2 = s.
Proof.
  induction l as [|x l IH]; intros Hf; cbn; [done|].
  destruct IH as [IH Hs]; [intros; apply Hf; by right|]. rewrite IH in Hs |- *. clear IH.
  pose proof (isort_perm (λ x y (s : S), (R x y, s)) l s) as Hp.
  destruct (isort _ l s) as [l' s']; cbn in Hs, Hp. rewrite Hs.
  rewrite (insert_pure f R); [split; [done | apply insert_state]|].
  intros y Hy. apply Hf; [by left | right; by rewrite <- Hp].
Qed.

Lemma isort_sorted {A S} (R : A → A → bool) (l : list A) (s : S) :
  (∀ x y z, R x y = true → R y z = true → R x z = true) →
  (∀ x y, R x y = true ∨ R y x = true) →
  StronglySorted (λ x y, R x y = true) (isort (λ x y s, (R x y, s)) l s).1.
Proof.
  intros Htr Htot. induction l as [|x l IH]; cbn; [constructor|].
  destruct (isort _ l s) as [l' s']; cbn in *. clear s l. revert IH.
  induction l' as [|y l' IH']; intros Hs; cbn; [repeat constructor|].
  inversion Hs as [|? ? Hs' Hy]; subst.
  destruct (R x y) eqn:E; cbn.
  - constructor; [done|]. constructor; [done|].
    eapply Forall_impl; [done|]. intros z Hz. cbn in *. by eapply Htr.
  - specialize (IH' Hs').
    pose proof (insert_perm (λ x y (s : S), (R x y, s)) x l' s') as Hp.
    destruct (insert _ x l' s') as [l'' s'']; cbn in *. constructor; [done|].
    rewrite Hp. constructor; [|done]. destruct (Htot x y); congruence.
Qed.

#[export] Instance laws : CommonsLaws ops.
Proof.
  constructor; try done.
  - by intros A [].
  - intros. apply isort_perm.
  - intros. by apply isort_inv.
  - intros A S f R l s Hf Htr Htot. destruct (isort_pure f R l s Hf) as [E Es].
    split; [|done]. cbn. rewrite E. by apply isort_sorted.
  - by intros A [].
  - intros A d. cbn. by rewrite zip_fst_snd.
  - intros A d. cbn. by rewrite !length_fmap.
  - intros b i H. cbn. destruct (znth_is_Some b i H) as [x Hx]. by rewrite Hx.
Qed.
End CommonsModel.
