(* ===== verification/Enums.v ===== *)
(** * Enumerations shared by the four modules (utils/src/enums)

    Each C enumeration is an inductive type with its numeric code, because
    the codes travel in packages as [int32_t], and with the decoding a
    [switch] over an arbitrary integer performs. *)
From S2P Require Import Prelude.
From Stdlib Require Ascii String.

(** ** Operation codes of packages (enums/Eopcodes.h, Eopcodes.c) *)
Module Opcode.
Inductive OPCODE :=
| FETCH | INSTRUCTION | LIST_INSTRUCTIONS | GET_FREE_SPACE | INIT_PROCESS
| UNSUSPEND_PROCESS | KILL_PROCESS | SWAP | WRITE_MEMORY | READ_MEMORY
| C_DUMP_MEMORY | GET_PAGE_ENTRY | CONFIRMATION | NEW_IO | IO_COMPLETION
| SYSCALL | DISPATCH | INTERRUPT | CPU_CONTEXT | IO_OPERATION.

#[export] Instance OPCODE_eq_dec : EqDecision OPCODE.
Proof. solve_decision. Defined.

Definition code (o : OPCODE) : Z :=
  match o with
  | FETCH => 0 | INSTRUCTION => 1 | LIST_INSTRUCTIONS => 2 | GET_FREE_SPACE => 3
  | INIT_PROCESS => 4 | UNSUSPEND_PROCESS => 5 | KILL_PROCESS => 6 | SWAP => 7
  | WRITE_MEMORY => 8 | READ_MEMORY => 9 | C_DUMP_MEMORY => 10 | GET_PAGE_ENTRY => 11
  | CONFIRMATION => 12 | NEW_IO => 13 | IO_COMPLETION => 14 | SYSCALL => 15
  | DISPATCH => 16 | INTERRUPT => 17 | CPU_CONTEXT => 18 | IO_OPERATION => 19
  end.

Definition all : list OPCODE :=
  [FETCH; INSTRUCTION; LIST_INSTRUCTIONS; GET_FREE_SPACE; INIT_PROCESS;
   UNSUSPEND_PROCESS; KILL_PROCESS; SWAP; WRITE_MEMORY; READ_MEMORY;
   C_DUMP_MEMORY; GET_PAGE_ENTRY; CONFIRMATION; NEW_IO; IO_COMPLETION;
   SYSCALL; DISPATCH; INTERRUPT; CPU_CONTEXT; IO_OPERATION].

(** The case a [switch] over an [OPCODE] takes. *)
Definition decode (z : Z) : option OPCODE := znth all z.

Lemma decode_code o : decode (code o) = Some o.
Proof. by destruct o. Qed.

Lemma code_in_i32 o : in_i32 (code o).
Proof. destruct o; cbn; unfold in_i32; lia. Qed.

#[export] Instance code_inj : Inj (=) (=) code.
Proof. intros x y H. apply (f_equal decode) in H. rewrite !decode_code in H. congruence. Qed.

Local Open Scope string_scope.

Definition opcode_to_string (opcode : Z) : string :=
  match decode opcode with
  | Some FETCH => "FETCH"
  | Some LIST_INSTRUCTIONS => "LIST_INSTRUCTIONS"
  | Some GET_FREE_SPACE => "GET_FREE_SPACE"
  | Some INIT_PROCESS => "INIT_PROCESS"
  | Some WRITE_MEMORY => "WRITE_MEMORY"
  | Some READ_MEMORY => "READ_MEMORY"
  | Some C_DUMP_MEMORY => "C_DUMP_MEMORY"
  | Some NEW_IO => "NEW_IO"
  | Some IO_COMPLETION => "IO_COMPLETION"
  | Some SYSCALL => "SYSCALL"
  | Some DISPATCH => "DISPATCH"
  | Some INTERRUPT => "INTERRUPT"
  | Some IO_OPERATION => "REQUEST_IO"
  | _ => "UNKNOWN_OPCODE"
  end.
End Opcode.

(** ** Instruction codes (enums/Einstruction_codes.h, Einstruction_codes.c) *)
Module InstructionCode.
(** [UNKNOWN] is -1. *)
Inductive INSTRUCTION_CODE :=
| NOOP | WRITE | READ | GOTO | IO | INIT_PROC | DUMP_MEMORY | EXIT | UNKNOWN.

#[export] Instance INSTRUCTION_CODE_eq_dec : EqDecision INSTRUCTION_CODE.
Proof. solve_decision. Defined.

Local Open Scope string_scope.

Definition instruction_code_to_string (code : INSTRUCTION_CODE) : string :=
  match code with
  | NOOP => "NOOP"
  | WRITE => "WRITE"
  | READ => "READ"
  | GOTO => "GOTO"
  | IO => "IO"
  | INIT_PROC => "INIT_PROC"
  | DUMP_MEMORY => "DUMP_MEMORY"
  | EXIT => "EXIT"
  | UNKNOWN => "UNKNOWN"
  end.

Definition instruction_code_names : list (string * INSTRUCTION_CODE) :=
  [("NOOP", NOOP); ("WRITE", WRITE); ("READ", READ); ("GOTO", GOTO); ("IO", IO);
   ("INIT_PROC", INIT_PROC); ("DUMP_MEMORY", DUMP_MEMORY); ("EXIT", EXIT)].

(** [tolower] of the C locale. *)
Definition tolower (c : Ascii.ascii) : Ascii.ascii :=
  let n := Ascii.nat_of_ascii c in
  if decide (65 <= n <= 90) then Ascii.ascii_of_nat (n + 32) else c.

Fixpoint lower (s : string) : string :=
  match s with
  | EmptyString => EmptyString
  | String c s => String (tolower c) (lower s)
  end.

(** [strcasecmp(a, b) == 0] *)
Definition strcaseeq (a b : string) : bool := bool_decide (lower a = lower b).

Fixpoint search_name (names : list (string * INSTRUCTION_CODE)) (s : string) : INSTRUCTION_CODE :=
  match names with
  | [] => UNKNOWN
  | (n, c) :: names => if strcaseeq s n then c else search_name names s
  end.

(** The argument may be NULL. *)
Definition string_to_instruction_code (instruction_code : option string) : INSTRUCTION_CODE :=
  match instruction_code with
  | None => UNKNOWN
  | Some s => search_name instruction_code_names s
  end.

Lemma string_to_instruction_code_to_string c :
  string_to_instruction_code (Some (instruction_code_to_string c)) = c.
Proof. by destruct c. Qed.

Lemma search_name_case names s s' :
  lower s = lower s' → search_name names s = search_name names s'.
Proof.
  intros H. induction names as [|[n c] names IH]; cbn; [done|].
  unfold strcaseeq. by rewrite H, IH.
Qed.

Lemma search_name_spec names s c :
  search_name names s = c → c ≠ UNKNOWN → ∃ n, (n, c) ∈ names ∧ lower s = lower n.
Proof.
  induction names as [|[n d] names IH]; cbn; [congruence|].
  unfold strcaseeq. case_bool_decide as E.
  - intros -> _. exists n. split; [by left | done].
  - intros H Hc. destruct (IH H Hc) as (n' & Hn & Hl). exists n'. split; [by right | done].
Qed.
End InstructionCode.

(** ** Planification algorithms (enums/Eplanification_algorithm.h, .c) *)
Module Algorithm.
Inductive PLANIFICATION_ALGORITHM := FIFO | SJF | PMCP.

#[export] Instance PLANIFICATION_ALGORITHM_eq_dec : EqDecision PLANIFICATION_ALGORITHM.
Proof. solve_decision. Defined.

Local Open Scope string_scope.

Definition planification_algorithm_from_string (algorithm_str : string) : PLANIFICATION_ALGORITHM :=
  if decide (algorithm_str = "FIFO") then FIFO
  else if decide (algorithm_str = "SJF") then SJF
  else if decide (algorithm_str = "PMCP") then PMCP
  else FIFO.
End Algorithm.

(** ** Process states (enums/Eprocess_state.h, Eprocess_state.c) *)
Module ProcessState.
Inductive PROCESS_STATE := NEW | READY | EXEC | BLOCKED | SUSP_BLOCKED | SUSP_READY | EXIT_L.

#[export] Instance PROCESS_STATE_eq_dec : EqDecision PROCESS_STATE.
Proof. solve_decision. Defined.

Local Open Scope string_scope.

Definition process_state_to_string (state : PROCESS_STATE) : string :=
  match state with
  | NEW => "NEW"
  | READY => "READY"
  | EXEC => "EXEC"
  | BLOCKED => "BLOCKED"
  | SUSP_BLOCKED => "SUSP_BLOCKED"
  | SUSP_READY => "SUSP_READY"
  | EXIT_L => "EXIT_L"
  end.
End ProcessState.

(** ** System calls (enums/Esyscall_type.h) *)
Module SyscallType.
Inductive SYSCALL_TYPE := SYSCALL_INIT_PROC | SYSCALL_IO | SYSCALL_DUMP_MEMORY | SYSCALL_EXIT.

Definition code (s : SYSCALL_TYPE) : Z :=
  match s with
  | SYSCALL_INIT_PROC => 0 | SYSCALL_IO => 1 | SYSCALL_DUMP_MEMORY => 2 | SYSCALL_EXIT => 3
  end.

Definition decode (z : Z) : option SYSCALL_TYPE :=
  znth [SYSCALL_INIT_PROC; SYSCALL_IO; SYSCALL_DUMP_MEMORY; SYSCALL_EXIT] z.

Lemma decode_type_code s : decode (code s) = Some s.
Proof. by destruct s. Qed.

Lemma type_code_in_i32 s : in_i32 (code s).
Proof. destruct s; cbn; unfold in_i32; lia. Qed.
End SyscallType.
