(* ===== verification/Buffer.v ===== *)
(** * Byte buffers (utils/src/utils/serialization/buffer.c)

    A byte stream with a size and a cursor.  Integers travel
    in the byte order of the machine, which is little-endian (x86), on both
    sides.  A [char *] is a [string]; the block of memory that holds it is
    [cstr_bytes], its characters and a NUL. *)
From S2P Require Import Prelude Enums.
From Stdlib Require Import Strings.Byte.
From coqutil Require Import Word.LittleEndianList.
From Stdlib Require String.

#[export] Instance byte_eq_dec : EqDecision byte := Byte.byte_eq_dec.

(** ** Bytes of integers and of C strings *)

Definition int32_bytes (x : Z) : list byte := le_split 4 x.

Definition int32_of_bytes (bs : list byte) : Z := i32 (le_combine bs).

Lemma int32_bytes_length x : length (int32_bytes x) = 4.
Proof. apply length_le_split. Qed.

Lemma int32_of_int32_bytes x : int32_of_bytes (int32_bytes x) = i32 x.
Proof.
  unfold int32_of_bytes, int32_bytes. rewrite le_combine_split.
  change (2 ^ (Z.of_nat 4 * 8))%Z with 4294967296%Z. apply i32_mod.
Qed.

(** The characters of a block up to its first NUL; a block without one is
    read past its end. *)
Fixpoint chars_of (bs : list byte) : option (list byte) :=
  match bs with
  | [] => None
  | b :: bs => if decide (b = x00) then Some [] else cons b <$> chars_of bs
  end.

Definition cstr_bytes (s : string) : list byte := String.list_byte_of_string s ++ [x00].

Definition as_cstr (bs : list byte) : res string :=
  match chars_of bs with
  | Some cs => Ok (String.string_of_list_byte cs)
  | None => Crash OutOfBounds
  end.

(** A C string holds no NUL. *)
Definition c_string (s : string) : Prop := x00 ∉ String.list_byte_of_string s.

#[export] Instance c_string_dec s : Decision (c_string s).
Proof. unfold c_string. apply _. Defined.

Definition strlen (s : string) : Z := zlen (String.list_byte_of_string s).

Lemma chars_of_app cs rest : x00 ∉ cs → chars_of (cs ++ x00 :: rest) = Some cs.
Proof.
  induction cs as [|b cs IH]; cbn; intros H; [done|].
  apply not_elem_of_cons in H as [Hb H]. rewrite decide_False by congruence.
  by rewrite IH.
Qed.

Lemma as_cstr_bytes s rest : c_string s → as_cstr (cstr_bytes s ++ rest) = Ok s.
Proof.
  intros H. unfold as_cstr, cstr_bytes. rewrite <- app_assoc. cbn.
  rewrite chars_of_app by done. by rewrite String.string_of_list_byte_of_string.
Qed.

Lemma cstr_bytes_zlen s : zlen (cstr_bytes s) = (strlen s + 1)%Z.
Proof. unfold zlen, cstr_bytes, strlen, zlen. rewrite length_app. cbn. lia. Qed.

(** ** buffer.c *)
Module Buffer.
Record t_buffer := mk_buffer { stream_size : Z; stream : list byte; offset : Z }.

#[export] Instance t_buffer_eq_dec : EqDecision t_buffer.
Proof. solve_decision. Defined.

(** [safe_malloc]/[safe_calloc] abort on a size no allocator serves: a
    negative [int32_t] converts to a huge [size_t]. *)
Definition buffer_create (size : Z) : res t_buffer :=
  if decide (size < 0)%Z then Crash Exit
  else Ok (mk_buffer size (replicate (Z.to_nat size) x00) 0).

(** [memcpy] of [size] bytes of [data] to the cursor, after growing the
    stream when they do not fit.  A cursor beyond the stream would leave
    an indeterminate gap. *)
Definition buffer_add (data : list byte) (size : Z) : M t_buffer unit :=
  b ← get;
  let end_ := i32 (offset b + size) in
  let new_size := if decide (end_ > stream_size b)%Z then end_ else stream_size b in
  if decide (0 <= size <= zlen data ∧ 0 <= offset b <= stream_size b ∧ offset b + size <= new_size)%Z
  then
    let grown := stream b ++ replicate (Z.to_nat (new_size - stream_size b)) x00 in
    put (mk_buffer new_size
           (splice (Z.to_nat (offset b)) (take (Z.to_nat size) data) grown)
           (i32 (offset b + size)))
  else crash_with OutOfBounds.

Definition buffer_add_int32 (data : Z) : M t_buffer unit :=
  buffer_add (int32_bytes data) 4.

Definition buffer_add_string (length : Z) (string : list byte) : M t_buffer unit :=
  buffer_add_int32 length;; buffer_add string length.

(** The destination is left untouched ([None]) when the stream is too short. *)
Definition buffer_read (size : Z) : M t_buffer (option (list byte)) :=
  b ← get;
  if decide (i32 (offset b + size) > stream_size b)%Z then mret None
  else if decide (0 <= size ∧ 0 <= offset b ∧ offset b + size <= zlen (stream b))%Z then
    put (mk_buffer (stream_size b) (stream b) (i32 (offset b + size)));;
    mret (Some (slice (Z.to_nat (offset b)) (Z.to_nat size) (stream b)))
  else crash_with OutOfBounds.

(** [data] is an uninitialised local when [buffer_read] did not write it. *)
Definition buffer_read_int32 : M t_buffer Z :=
  r ← buffer_read 4;
  match r with
  | Some bs => mret (int32_of_bytes bs)
  | None => crash_with Uninit
  end.

(** The block of memory read into, which is [length] bytes long. *)
Definition buffer_read_block (length : Z) : M t_buffer (list byte) :=
  if decide (length < 0)%Z then crash_with Exit
  else
    r ← buffer_read length;
    match r with
    | Some bs => mret bs
    | None => crash_with Uninit
    end.

Definition buffer_read_string : M t_buffer (Z * list byte) :=
  length ← buffer_read_int32;
  string ← buffer_read_block length;
  mret (length, string).

(** [package->buffer->offset = 0] *)
Definition rewind : M t_buffer unit :=
  modify (λ b, mk_buffer (stream_size b) (stream b) 0).

(** *** Writing: the written prefix grows, the zeroed rest shrinks *)

Definition filled (w : list byte) (k : nat) : t_buffer :=
  mk_buffer (zlen w + Z.of_nat k) (w ++ replicate k x00) (zlen w).

(** A buffer exactly filled by its contents. *)
Definition full (w : list byte) : t_buffer := mk_buffer (zlen w) w (zlen w).

Lemma mk_buffer_eq n n' w w' o o' :
  n = n' → w = w' → o = o' → mk_buffer n w o = mk_buffer n' w' o'.
Proof. congruence. Qed.

Lemma buffer_create_filled size :
  (0 <= size)%Z → buffer_create size = Ok (filled [] (Z.to_nat size)).
Proof.
  intros. unfold buffer_create, filled, zlen. rewrite decide_False by lia. cbn.
  repeat f_equal. lia.
Qed.

Lemma buffer_add_filled w k data :
  (zlen w + Z.of_nat k < 2147483648)%Z → (zlen w + zlen data < 2147483648)%Z →
  buffer_add data (zlen data) (filled w k) = Ok (tt, filled (w ++ data) (k - length data)).
Proof.
  intros Hk Hd. unfold buffer_add, filled, zlen in *. step. cbn [offset stream_size stream].
  rewrite !(i32_id (Z.of_nat (length w) + Z.of_nat (length data))) by (unfold in_i32; lia).
  rewrite decide_True by (case_decide; lia).
  rewrite !Nat2Z.id, (take_ge data) by lia.
  do 2 f_equal. apply mk_buffer_eq.
  - case_decide; rewrite length_app; lia.
  - unfold splice. rewrite <- (app_assoc w), take_app_length.
    rewrite <- app_assoc. do 2 f_equal.
    rewrite drop_app_ge by lia.
    replace (length w + length data - length w) with (length data) by lia.
    rewrite <- replicate_add, drop_replicate. f_equal. case_decide; lia.
  - rewrite length_app. lia.
Qed.

Lemma filled_full w : filled w 0 = full w.
Proof. unfold filled, full. cbn. rewrite app_nil_r. f_equal. lia. Qed.

(** *** Reading: the cursor stands before [rest] *)

Definition reads (b : t_buffer) (rest : list byte) : Prop :=
  stream_size b = zlen (stream b) ∧ (0 <= offset b)%Z ∧ (zlen (stream b) < 2147483648)%Z ∧
  drop (Z.to_nat (offset b)) (stream b) = rest ∧ (offset b <= zlen (stream b))%Z.

Lemma rewind_reads w o :
  (zlen w < 2147483648)%Z →
  rewind (mk_buffer (zlen w) w o) = Ok (tt, mk_buffer (zlen w) w 0) ∧
  reads (mk_buffer (zlen w) w 0) w.
Proof. intros. split; [done|]. unfold reads, zlen in *. cbn. split_and!; try lia; done. Qed.

Lemma buffer_read_ok b data rest :
  reads b (data ++ rest) →
  ∃ b', buffer_read (zlen data) b = Ok (Some data, b') ∧ reads b' rest.
Proof.
  intros (Hs & Ho & Hl & Hd & Hle). unfold buffer_read. step.
  pose proof (f_equal length Hd) as Hlen. rewrite length_drop, length_app in Hlen.
  unfold zlen in *. rewrite Hs.
  rewrite i32_id by (unfold in_i32; lia).
  rewrite decide_False by lia. rewrite decide_True by lia.
  rewrite Nat2Z.id. unfold slice. rewrite Hd, take_app_length.
  eexists. split; [done|]. unfold reads, zlen. cbn. split_and!; try lia.
  rewrite Z2Nat.inj_add, Nat2Z.id, <- drop_drop, Hd, drop_app_length by lia. done.
Qed.

Lemma buffer_read_int32_ok b x rest :
  in_i32 x → reads b (int32_bytes x ++ rest) →
  ∃ b', buffer_read_int32 b = Ok (x, b') ∧ reads b' rest.
Proof.
  intros Hx Hr. destruct (buffer_read_ok _ _ _ Hr) as (b' & Hb & Hr').
  exists b'. split; [|done]. unfold buffer_read_int32.
  replace (zlen (int32_bytes x)) with 4%Z in Hb by (unfold zlen; by rewrite int32_bytes_length).
  run done. step. by rewrite int32_of_int32_bytes, i32_id.
Qed.

Lemma buffer_read_block_ok b data n rest :
  n = zlen data → reads b (data ++ rest) →
  ∃ b', buffer_read_block n b = Ok (data, b') ∧ reads b' rest.
Proof.
  intros -> Hr. destruct (buffer_read_ok _ _ _ Hr) as (b' & Hb & Hr').
  exists b'. split; [|done]. unfold buffer_read_block.
  rewrite decide_False by (unfold zlen; lia). by run done.
Qed.

Lemma buffer_read_string_ok b data n rest :
  n = zlen data → reads b (int32_bytes n ++ data ++ rest) →
  ∃ b', buffer_read_string b = Ok ((n, data), b') ∧ reads b' rest.
Proof.
  intros Hn Hr. pose proof Hr as (_ & _ & Hl & Hd & _).
  assert (in_i32 n) as Hi.
  { apply (f_equal length) in Hd. rewrite length_drop, !length_app in Hd.
    unfold in_i32, zlen in *. lia. }
  destruct (buffer_read_int32_ok _ _ _ Hi Hr) as (b1 & H1 & Hr1).
  destruct (buffer_read_block_ok _ _ _ _ Hn Hr1) as (b2 & H2 & Hr2).
  exists b2. split; [|done]. unfold buffer_read_string.
  run done. by run done.
Qed.

(** Too short a stream: the caller goes on with an indeterminate value. *)
Lemma buffer_read_int32_short b :
  reads b (drop (Z.to_nat (offset b)) (stream b)) →
  (zlen (stream b) - offset b < 4)%Z → (zlen (stream b) < 2147483644)%Z →
  buffer_read_int32 b = Crash Uninit.
Proof.
  intros (Hs & Ho & Hl & _ & Hle) Hsh Hsm. unfold buffer_read_int32, buffer_read. step.
  rewrite decide_True; [done|]. rewrite Hs, i32_id by (unfold in_i32; lia). lia.
Qed.
End Buffer.
