(* ===== verification/Package.v ===== *)
(** * Packages on the wire (utils/src/utils/serialization/package.c)

    A package is an opcode and a buffer.  [serialize_package] is the byte
    sequence [send_package] hands to [send]; [recv_package] reads one
    package off the bytes of a socket. *)
From S2P Require Import Prelude Enums Buffer.
From Stdlib Require Import Strings.Byte.
Import Buffer.

Module Package.
Record t_package := mk_package { opcode : Z; buffer : t_buffer }.

#[export] Instance t_package_eq_dec : EqDecision t_package.
Proof. solve_decision. Defined.

Definition create_package (opcode : Z) (buffer : t_buffer) : t_package :=
  mk_package opcode buffer.

(** Opcode, stream size, and the stream. *)
Definition serialize_package (package : t_package) : list byte :=
  int32_bytes (opcode package) ++ int32_bytes (stream_size (buffer package))
  ++ take (Z.to_nat (stream_size (buffer package))) (stream (buffer package)).

(** What the peer has not read yet grows by the package. *)
Definition send_package (socket : list byte) (package : t_package) : list byte :=
  socket ++ serialize_package package.

(** [recv(..., size, MSG_WAITALL)]: [None] when it returns 0; a stream that
    ends early leaves part of the destination indeterminate. *)
Definition recv (size : Z) : M (list byte) (option (list byte)) :=
  socket ← get;
  if decide (size = 0 ∨ socket = [])%Z then mret None
  else if decide (zlen socket < size)%Z then put [];; crash_with Uninit
  else put (drop (Z.to_nat size) socket);; mret (Some (take (Z.to_nat size) socket)).

Definition recv_package : M (list byte) (option t_package) :=
  r ← recv 4;
  match r with
  | None => mret None
  | Some opcode_bytes =>
      r ← recv 4;
      match r with
      | None => mret None
      | Some size_bytes =>
          let buffer_stream_size := int32_of_bytes size_bytes in
          if decide (buffer_stream_size < 0)%Z then crash_with Exit
          else
            r ← recv buffer_stream_size;
            match r with
            | None => mret None
            | Some buffer_stream_data =>
                b ← lift_res (buffer_create buffer_stream_size);
                b ← lift_res (buffer_add buffer_stream_data buffer_stream_size b);
                mret (Some (create_package (int32_of_bytes opcode_bytes) (snd b)))
            end
      end
  end.

(** Run a reading function on the buffer of a package. *)
Definition read_with {A} (reader : M t_buffer A) (package : t_package) : res A :=
  match reader (buffer package) with Ok (a, _) => Ok a | Crash c => Crash c end.

(** ** A package that a creation function builds *)

Definition packed (code : Z) (w : list byte) : t_package := mk_package code (full w).

Definition sendable (w : list byte) : Prop := (0 < zlen w < 2147483648)%Z.

Lemma recv_app n data rest :
  n = zlen data → (0 < n)%Z → recv n (data ++ rest) = Ok (Some data, rest).
Proof.
  intros -> Hn. unfold recv. step.
  destruct data as [|b data]; [unfold zlen in Hn; cbn in Hn; lia|].
  rewrite decide_False by (intros [?|?]; [lia | done]).
  rewrite decide_False by (unfold zlen; rewrite length_app; lia).
  unfold zlen. rewrite Nat2Z.id, take_app_length, drop_app_length. done.
Qed.

Lemma serialize_packed code w :
  serialize_package (packed code w) = int32_bytes code ++ int32_bytes (zlen w) ++ w.
Proof.
  unfold serialize_package, packed, full, zlen. cbn.
  by rewrite Nat2Z.id, firstn_all.
Qed.

(** The receiver rebuilds the package from the front of the socket, and
    leaves the bytes behind it. *)
Lemma recv_packed code w rest :
  in_i32 code → sendable w →
  recv_package (serialize_package (packed code w) ++ rest) = Ok (Some (packed code w), rest).
Proof.
  intros Hc [Hw0 Hw1]. rewrite serialize_packed. unfold recv_package.
  rewrite <- !app_assoc.
  run (apply recv_app; unfold zlen; rewrite ?int32_bytes_length; lia).
  run (apply recv_app; unfold zlen; rewrite ?int32_bytes_length; lia).
  rewrite !int32_of_int32_bytes, !i32_id by (try done; unfold in_i32; lia).
  rewrite decide_False by lia.
  run (apply recv_app; [done | lia]).
  rewrite buffer_create_filled by lia. step.
  rewrite buffer_add_filled by (unfold zlen in *; cbn; lia).
  unfold packed, create_package. cbn [snd]. rewrite app_nil_l.
  replace (Z.to_nat (zlen w) - length w) with 0 by (unfold zlen; lia).
  by rewrite filled_full.
Qed.

Lemma read_packed_reads code w :
  (zlen w < 2147483648)%Z →
  ∃ b, rewind (buffer (packed code w)) = Ok (tt, b) ∧ reads b w.
Proof. intros H. exists (mk_buffer (zlen w) w 0). by apply rewind_reads. Qed.

(** A disconnected peer and an empty package are told apart from a package. *)
Lemma serialize_nonempty p : serialize_package p ≠ [].
Proof.
  unfold serialize_package. intros H. apply (f_equal length) in H.
  rewrite !length_app, int32_bytes_length in H. cbn in H. lia.
Qed.

Lemma recv_package_closed : recv_package [] = Ok (None, []).
Proof. done. Qed.
End Package.

(** ** The memory module behind a socket

    What the CPU and the kernel see of it: a package is sent, and a package
    (or, when the connection is lost, nothing) comes back. *)
Class MemoryServer (S : Type) := serve : Package.t_package → S → res (option Package.t_package * S).
