(* ===== verification/Packages.v ===== *)
(** * The data transfer packages (utils/src/utils/DTPs)

    One creation function and one reading function per package type, as the
    modules call them.  A creation function allocates a buffer and appends
    its fields; a reading function rewinds the cursor and takes the fields
    off again.  Section [Codec] relates the two sides once and for all:
    [delivers c r a] says that the package [c] builds arrives over a socket
    and that [r] reads [a] from it. *)
From S2P Require Import Prelude Enums Buffer Package.
From Stdlib Require Import Strings.Byte.
Import Buffer Package.

(** ** Writers, readers, and delivery *)

Definition build (size : Z) (adds : M t_buffer unit) (opcode : Z) : res t_package :=
  b ← buffer_create size;
  r ← adds b;
  Ok (create_package opcode (snd r)).

(** [m] appends exactly [w]. *)
Definition writes (m : M t_buffer unit) (w : list byte) : Prop :=
  ∀ pre k,
    (zlen pre + Z.of_nat k < 2147483648)%Z → (zlen pre + zlen w < 2147483648)%Z →
    m (filled pre k) = Ok (tt, filled (pre ++ w) (k - length w)).

(** [m] consumes exactly [w] and yields [a]. *)
Definition consumes {A} (m : M t_buffer A) (w : list byte) (a : A) : Prop :=
  ∀ b rest, reads b (w ++ rest) → ∃ b', m b = Ok (a, b') ∧ reads b' rest.

Definition delivers {A} (c : res t_package) (r : M t_buffer A) (code : Z) (a : A) : Prop :=
  ∃ p, c = Ok p ∧ opcode p = code ∧ read_with r p = Ok a ∧
    ∀ rest, recv_package (serialize_package p ++ rest) = Ok (Some p, rest).

Create HintDb wire discriminated.

Section Codec.
Lemma writes_bytes data n : n = zlen data → writes (buffer_add data n) data.
Proof. intros -> pre k Hk Hd. by apply buffer_add_filled. Qed.

Lemma writes_int32 x : writes (buffer_add_int32 x) (int32_bytes x).
Proof. apply writes_bytes. unfold zlen. by rewrite int32_bytes_length. Qed.

Lemma writes_seq m w m' w' : writes m w → writes m' w' → writes (m;; m') (w ++ w').
Proof.
  intros H H' pre k Hk Hd. unfold zlen in *. rewrite length_app in Hd.
  run (apply H; unfold zlen; lia).
  rewrite H' by (unfold zlen; rewrite length_app; lia).
  rewrite <- app_assoc, length_app. do 3 f_equal. lia.
Qed.

Lemma writes_nop : writes (mret tt) [].
Proof. intros pre k _ _. cbn. rewrite app_nil_r, Nat.sub_0_r. done. Qed.

Lemma writes_string n s :
  n = zlen s → writes (buffer_add_string n s) (int32_bytes n ++ s).
Proof. intros Hn. apply writes_seq; [apply writes_int32 | by apply writes_bytes]. Qed.

Lemma build_ok size m w code :
  writes m w → (0 <= size <= zlen w)%Z → (zlen w < 2147483648)%Z →
  build size m code = Ok (packed code w).
Proof.
  intros Hm Hs Hw. unfold build. rewrite buffer_create_filled by lia. cbn.
  rewrite Hm by (unfold zlen in *; cbn; lia). cbn.
  replace (Z.to_nat size - length w) with 0 by (unfold zlen in *; lia).
  by rewrite filled_full.
Qed.

Lemma consumes_int32 x : in_i32 x → consumes buffer_read_int32 (int32_bytes x) x.
Proof. intros Hx b rest. by apply buffer_read_int32_ok. Qed.

Lemma consumes_block n data : n = zlen data → consumes (buffer_read_block n) data data.
Proof. intros Hn b rest. by apply buffer_read_block_ok. Qed.

Lemma consumes_string n data :
  n = zlen data → consumes buffer_read_string (int32_bytes n ++ data) (n, data).
Proof. intros Hn b rest. rewrite <- app_assoc. by apply buffer_read_string_ok. Qed.

Lemma consumes_bind {A B} (m : M t_buffer A) (f : A → M t_buffer B) w w' a c :
  consumes m w a → consumes (f a) w' c → consumes (m ≫= f) (w ++ w') c.
Proof.
  intros H H' b rest Hr. rewrite <- app_assoc in Hr.
  destruct (H _ _ Hr) as (b1 & H1 & Hr1). destruct (H' _ _ Hr1) as (b2 & H2 & Hr2).
  exists b2. split; [|done]. by run done.
Qed.

(** The last field. *)
Lemma consumes_last {A B} (m : M t_buffer A) (f : A → M t_buffer B) w a c :
  consumes m w a → consumes (f a) [] c → consumes (m ≫= f) w c.
Proof. rewrite <- (app_nil_r w) at 2. apply consumes_bind. Qed.

Lemma consumes_ret {A} (a : A) : consumes (mret a) [] a.
Proof. intros b rest Hr. by exists b. Qed.

Lemma consumes_ret_bind {A B} (m : M t_buffer A) (f : A → B) w a :
  consumes m w a → consumes (x ← m; mret (f x)) w (f a).
Proof.
  intros H. rewrite <- (app_nil_r w). by eapply consumes_bind, consumes_ret.
Qed.

(** A pure step between two reads. *)
Lemma consumes_lift {A B} (r : res A) (f : A → M t_buffer B) w a c :
  r = Ok a → consumes (f a) w c → consumes (x ← lift_res r; f x) w c.
Proof. intros -> H. done. Qed.

Lemma delivers_intro {A} size m w code (r : M t_buffer A) a :
  writes m w → consumes r w a →
  (0 <= size <= zlen w)%Z → sendable w → in_i32 code →
  delivers (build size m code) (rewind;; r) code a.
Proof.
  intros Hm Hr Hs [Hw0 Hw1] Hc. exists (packed code w).
  split; [by apply build_ok|]. split; [done|]. split.
  - destruct (read_packed_reads code w Hw1) as (b & Hb & Hrd).
    unfold read_with. run done. destruct (Hr b []) as (b' & -> & _); [|done].
    by rewrite app_nil_r.
  - intros rest. apply recv_packed; [done | by split].
Qed.
End Codec.

#[export] Hint Resolve writes_bytes writes_int32 writes_seq writes_nop writes_string : wire.
#[export] Hint Resolve consumes_int32 consumes_block consumes_string consumes_ret : wire.

(** Side conditions on sizes: every field has a known length. *)
Ltac wire_size :=
  unfold sendable, zlen in *; rewrite ?length_app, ?int32_bytes_length, ?length_nil in *;
  cbn [length] in *; lia.

(** ** Packages with integer fields only *)

(** *** confirmation_package.c *)
Definition create_confirmation_package (success : bool) : res t_package :=
  build 4 (buffer_add_int32 (if success then 1 else 0)) (Opcode.code Opcode.CONFIRMATION).

Definition read_confirmation_package : M t_buffer bool :=
  rewind;; success ← buffer_read_int32; mret (bool_decide (success ≠ 0)%Z).

(** *** cpu_context_package.c: the buffer starts two fields long and grows *)
Record cpu_context_package_data := {
  ctx_pid : Z; ctx_pc : Z; interrupted_same_pid : Z }.

Definition create_cpu_context_package (pid pc same : Z) : res t_package :=
  build 8 (buffer_add_int32 pid;; buffer_add_int32 pc;; buffer_add_int32 same)
    (Opcode.code Opcode.CPU_CONTEXT).

Definition read_cpu_context_package : M t_buffer cpu_context_package_data :=
  rewind;;
  pid ← buffer_read_int32; pc ← buffer_read_int32; same ← buffer_read_int32;
  mret {| ctx_pid := pid; ctx_pc := pc; interrupted_same_pid := same |}.

(** *** dispatch_package.c *)
Record dispatch_package_data := { dispatch_pid : Z; dispatch_pc : Z }.

Definition create_dispatch_package (pid pc : Z) : res t_package :=
  build 8 (buffer_add_int32 pid;; buffer_add_int32 pc) (Opcode.code Opcode.DISPATCH).

Definition read_dispatch_package : M t_buffer dispatch_package_data :=
  rewind;;
  pid ← buffer_read_int32; pc ← buffer_read_int32;
  mret {| dispatch_pid := pid; dispatch_pc := pc |}.

(** *** dump_memory_package.c *)
Definition create_dump_memory_package (pid : Z) : res t_package :=
  build 4 (buffer_add_int32 pid) (Opcode.code Opcode.C_DUMP_MEMORY).

Definition read_dump_memory_package : M t_buffer Z := rewind;; buffer_read_int32.

(** *** fetch_package.c *)
Record fetch_package_data := { fetch_pid : Z; fetch_pc : Z }.

Definition create_fetch_package (pid pc : Z) : res t_package :=
  build 8 (buffer_add_int32 pid;; buffer_add_int32 pc) (Opcode.code Opcode.FETCH).

Definition read_fetch_package : M t_buffer fetch_package_data :=
  rewind;;
  pid ← buffer_read_int32; pc ← buffer_read_int32;
  mret {| fetch_pid := pid; fetch_pc := pc |}.

(** *** interrupt_package.c *)
Definition create_interrupt_package (pid : Z) : res t_package :=
  build 4 (buffer_add_int32 pid) (Opcode.code Opcode.INTERRUPT).

Definition read_interrupt_package : M t_buffer Z := rewind;; buffer_read_int32.

(** *** io_operation_package.c: the reader leaves the other two fields for
    the caller *)
Record io_operation_package_data := { io_pid : Z; io_sleep_time : Z }.

Definition create_io_operation_package (pid time : Z) : res t_package :=
  build 8 (buffer_add_int32 pid;; buffer_add_int32 time) (Opcode.code Opcode.IO_OPERATION).

Definition read_io_operation_package : M t_buffer io_operation_package_data :=
  rewind;;
  pid ← buffer_read_int32; sleep_time ← buffer_read_int32;
  mret {| io_pid := pid; io_sleep_time := sleep_time |}.

(** *** kill_process_package.c *)
Definition create_kill_process_package (pid : Z) : res t_package :=
  build 4 (buffer_add_int32 pid) (Opcode.code Opcode.KILL_PROCESS).

Definition read_kill_process_package : M t_buffer Z := rewind;; buffer_read_int32.

(** *** swap_package.c: one layout for suspension and resumption *)
Definition create_swap_operation_package (pid operation : Z) : res t_package :=
  build 4 (buffer_add_int32 pid) operation.

Definition send_swap_package (pid : Z) : res t_package :=
  create_swap_operation_package pid (Opcode.code Opcode.SWAP).

Definition send_swap_in_package (pid : Z) : res t_package :=
  create_swap_operation_package pid (Opcode.code Opcode.UNSUSPEND_PROCESS).

Definition read_swap_package : M t_buffer Z := rewind;; buffer_read_int32.

(** *** page_entry_package.c *)
Record page_entry_request_data := {
  request_pid : Z; request_table_id : Z; request_entry_index : Z }.

Record page_entry_response_data := { response_value : Z; response_is_last_level : bool }.

Definition create_page_entry_request_package (pid table_id entry_index : Z) : res t_package :=
  build 12 (buffer_add_int32 pid;; buffer_add_int32 table_id;; buffer_add_int32 entry_index)
    (Opcode.code Opcode.GET_PAGE_ENTRY).

Definition read_page_entry_request_package : M t_buffer page_entry_request_data :=
  rewind;;
  pid ← buffer_read_int32; table_id ← buffer_read_int32; entry_index ← buffer_read_int32;
  mret {| request_pid := pid; request_table_id := table_id; request_entry_index := entry_index |}.

Definition create_page_entry_response_package (value is_last_level : Z) : res t_package :=
  build 8 (buffer_add_int32 value;; buffer_add_int32 is_last_level)
    (Opcode.code Opcode.GET_PAGE_ENTRY).

(** 0 stands for "last level". *)
Definition read_page_entry_response_package : M t_buffer page_entry_response_data :=
  rewind;;
  value ← buffer_read_int32; is_last_level ← buffer_read_int32;
  mret {| response_value := value; response_is_last_level := bool_decide (is_last_level = 0)%Z |}.

(** *** memory_read_request.c *)
Record t_memory_read_request := { read_physical_address : Z; read_size : Z }.

Definition create_memory_read_request (physical_address size : Z) : t_memory_read_request :=
  {| read_physical_address := physical_address; read_size := size |}.

Definition send_memory_read_request (request : t_memory_read_request) : res t_package :=
  build 8
    (buffer_add_int32 (read_physical_address request);; buffer_add_int32 (read_size request))
    (Opcode.code Opcode.READ_MEMORY).

Definition read_memory_read_request : M t_buffer t_memory_read_request :=
  rewind;;
  physical_address ← buffer_read_int32; size ← buffer_read_int32;
  mret (create_memory_read_request physical_address size).

(** ** Packages with strings and blocks of bytes *)

(** *** init_process_package.c: the path may be NULL on the sending side *)
Record init_process_package_data := {
  init_pid : Z; init_size : Z; init_pseudocode_path : string }.

Definition create_init_process_package (pid size : Z) (pseudocode_path : option string) : res t_package :=
  let path_len := match pseudocode_path with Some s => strlen s + 1 | None => 1 end%Z in
  build (8 + path_len)
    (buffer_add_int32 pid;; buffer_add_int32 size;;
     match pseudocode_path with
     | Some s => buffer_add_string (strlen s + 1) (cstr_bytes s)
     | None => buffer_add_string 0 []
     end)
    (Opcode.code Opcode.INIT_PROCESS).

Definition read_init_process_package : M t_buffer init_process_package_data :=
  rewind;;
  pid ← buffer_read_int32; size ← buffer_read_int32;
  path ← buffer_read_string; path ← lift_res (as_cstr (snd path));
  mret {| init_pid := pid; init_size := size; init_pseudocode_path := path |}.

(** *** instruction_package.c *)
Definition create_instruction_package (instruction : string) : res t_package :=
  build 0 (buffer_add_string (strlen instruction + 1) (cstr_bytes instruction))
    (Opcode.code Opcode.INSTRUCTION).

Definition read_instruction_package : M t_buffer string :=
  rewind;; s ← buffer_read_string; lift_res (as_cstr (snd s)).

(** *** new_io_package.c *)
Definition create_new_io_package (device_name : string) : res t_package :=
  build 0 (buffer_add_string (strlen device_name + 1) (cstr_bytes device_name))
    (Opcode.code Opcode.NEW_IO).

Definition read_new_io_package : M t_buffer string :=
  rewind;; s ← buffer_read_string; lift_res (as_cstr (snd s)).

(** *** io_completion_package.c *)
Record io_completion_package_data := { completion_device_name : string; completion_pid : Z }.

Definition create_io_completion_package (device_name : string) (pid : Z) : res t_package :=
  let str_size := (strlen device_name + 1)%Z in
  build (str_size + 4) (buffer_add_string str_size (cstr_bytes device_name);; buffer_add_int32 pid)
    (Opcode.code Opcode.IO_COMPLETION).

Definition read_io_completion_package : M t_buffer io_completion_package_data :=
  rewind;;
  s ← buffer_read_string; name ← lift_res (as_cstr (snd s)); pid ← buffer_read_int32;
  mret {| completion_device_name := name; completion_pid := pid |}.

(** *** memory_read_response.c *)
Record t_memory_read_response := { response_data : list byte; response_data_size : Z }.

Definition create_package_memory_read_response (data : list byte) (size : Z) : res t_package :=
  build (size + 4) (buffer_add_string size data) (Opcode.code Opcode.READ_MEMORY).

Definition read_memory_read_response : M t_buffer t_memory_read_response :=
  rewind;;
  s ← buffer_read_string;
  mret {| response_data := snd s; response_data_size := fst s |}.

(** *** memory_write_request.c *)
Record t_memory_write_request := {
  write_physical_address : Z; write_size : Z; write_data : list byte }.

(** The request owns a copy of the first [size] bytes of [data]. *)
Definition create_memory_write_request (physical_address size : Z) (data : list byte)
    : res t_memory_write_request :=
  if decide (size < 0)%Z then Crash Exit
  else if decide (zlen data < size)%Z then Crash OutOfBounds
  else Ok {| write_physical_address := physical_address; write_size := size;
             write_data := take (Z.to_nat size) data |}.

Definition send_memory_write_request (request : t_memory_write_request) : res t_package :=
  build (8 + write_size request)
    (buffer_add_int32 (write_physical_address request);; buffer_add_int32 (write_size request);;
     buffer_add (write_data request) (write_size request))
    (Opcode.code Opcode.WRITE_MEMORY).

Definition read_memory_write_request : M t_buffer t_memory_write_request :=
  rewind;;
  physical_address ← buffer_read_int32; size ← buffer_read_int32;
  data ← buffer_read_block size;
  lift_res (create_memory_write_request physical_address size data).

(** *** mmu_request_page_read_response.c *)
Record t_mmu_page_read_response := { page_data : list byte; page_size : Z }.

Definition create_mmu_page_read_response (page_data : list byte) (page_size : Z) : res t_package :=
  build (4 + page_size) (buffer_add_int32 page_size;; buffer_add page_data page_size)
    (Opcode.code Opcode.READ_MEMORY).

Definition read_mmu_page_read_response : M t_buffer t_mmu_page_read_response :=
  rewind;;
  size ← buffer_read_int32; data ← buffer_read_block size;
  mret {| page_data := data; page_size := size |}.

(** *** syscall_package.c: the parameters are a union selected by the type *)
Inductive syscall_params :=
| InitProcParams (memory_space : Z) (pseudocode_file : string)
| IoParams (sleep_time : Z) (device_name : string)
| NoParams.

Record syscall_package_data := {
  syscall_type : Z; syscall_pid : Z; syscall_pc : Z; params : syscall_params }.

Definition create_syscall_package (syscall : syscall_package_data) : res t_package :=
  build 12
    (buffer_add_int32 (syscall_type syscall);; buffer_add_int32 (syscall_pid syscall);;
     buffer_add_int32 (syscall_pc syscall);;
     match SyscallType.decode (syscall_type syscall), params syscall with
     | Some SyscallType.SYSCALL_INIT_PROC, InitProcParams memory_space file =>
         buffer_add_int32 memory_space;; buffer_add_string (strlen file + 1) (cstr_bytes file)
     | Some SyscallType.SYSCALL_IO, IoParams sleep_time name =>
         buffer_add_string (strlen name + 1) (cstr_bytes name);; buffer_add_int32 sleep_time
     | Some SyscallType.SYSCALL_INIT_PROC, _ | Some SyscallType.SYSCALL_IO, _ => crash_with Uninit
     | _, _ => mret tt
     end)
    (Opcode.code Opcode.SYSCALL).

Definition read_syscall_package : M t_buffer syscall_package_data :=
  rewind;;
  type ← buffer_read_int32; pid ← buffer_read_int32; pc ← buffer_read_int32;
  p ← match SyscallType.decode type with
      | Some SyscallType.SYSCALL_INIT_PROC =>
          memory_space ← buffer_read_int32;
          s ← buffer_read_string; file ← lift_res (as_cstr (snd s));
          mret (InitProcParams memory_space file)
      | Some SyscallType.SYSCALL_IO =>
          s ← buffer_read_string; name ← lift_res (as_cstr (snd s));
          sleep_time ← buffer_read_int32;
          mret (IoParams sleep_time name)
      | _ => mret NoParams
      end;
  mret {| syscall_type := type; syscall_pid := pid; syscall_pc := pc; params := p |}.
