(* ===== verification/Roundtrip.v ===== *)
(** * Every package round-trips

    For each package type: what one module puts in with [create_...] or
    [send_...] is what the other module takes out with [read_...], after
    the bytes have crossed a socket. *)
From S2P Require Import Prelude Enums Buffer Package Packages.
From Stdlib Require Import Strings.Byte.
Import Buffer Package.

Lemma consumes_eq {A} (m : M t_buffer A) w w' a :
  consumes m w a → w = w' → consumes m w' a.
Proof. by intros H ->. Qed.

Lemma writes_eq m w w' : writes m w → w = w' → writes m w'.
Proof. by intros H ->. Qed.

(** Compose the writers, or the readers, of the fields. *)
Ltac writes_fields :=
  repeat first [ apply writes_int32 | apply writes_nop
               | apply writes_string; [by rewrite ?cstr_bytes_zlen]
               | apply writes_bytes | eapply writes_seq ].

Ltac consumes_fields :=
  repeat first [ apply consumes_int32; [done] | apply consumes_string; [by rewrite ?cstr_bytes_zlen]
               | apply consumes_block; [done] | apply consumes_ret
               | eapply consumes_lift;
                 [ cbn [snd]; rewrite <- (app_nil_r (cstr_bytes _)); by apply as_cstr_bytes |]
               | eapply consumes_bind; [consumes_fields; fail|] | eapply consumes_last; [consumes_fields; fail|] ].

Ltac flat := rewrite ?app_nil_r, <- ?app_assoc, ?app_nil_r; done.

(** Both sides, then the sizes. *)
Tactic Notation "deliver" constr(w) :=
  apply (delivers_intro _ _ w);
  [ eapply writes_eq; [writes_fields | flat]
  | consumes_fields
  | | | ].

Lemma int32_bytes_zlen x : zlen (int32_bytes x) = 4%Z.
Proof. unfold zlen. by rewrite int32_bytes_length. Qed.

Lemma strlen_nonneg s : (0 <= strlen s)%Z.
Proof. apply zlen_nonneg. Qed.

Ltac sizes :=
  unfold sendable; rewrite ?zlen_app, ?int32_bytes_zlen, ?cstr_bytes_zlen;
  repeat match goal with
  | |- context [strlen ?s] => lazymatch goal with
      | _ : (0 <= strlen s)%Z |- _ => fail
      | _ => pose proof (strlen_nonneg s) end
  end; try lia.

Ltac codes := first [apply Opcode.code_in_i32 | apply SyscallType.type_code_in_i32 | done].

(** ** Integer packages *)
Section Integers.
Context (pid pc : Z) (Hpid : in_i32 pid) (Hpc : in_i32 pc).

Lemma confirmation_delivers success :
  delivers (create_confirmation_package success) read_confirmation_package
    (Opcode.code Opcode.CONFIRMATION) success.
Proof.
  unfold create_confirmation_package, read_confirmation_package.
  apply delivers_intro with (w := int32_bytes (if success then 1 else 0)).
  - apply writes_int32.
  - replace success with (bool_decide ((if success then 1 else 0) ≠ 0)%Z) at 2 by by destruct success.
    apply (consumes_ret_bind _ (λ z, bool_decide (z ≠ 0)%Z)), consumes_int32.
    destruct success; unfold in_i32; lia.
  - sizes.
  - sizes.
  - codes.
Qed.

Lemma cpu_context_delivers same :
  in_i32 same →
  delivers (create_cpu_context_package pid pc same) read_cpu_context_package
    (Opcode.code Opcode.CPU_CONTEXT)
    {| ctx_pid := pid; ctx_pc := pc; interrupted_same_pid := same |}.
Proof.
  intros. deliver (int32_bytes pid ++ int32_bytes pc ++ int32_bytes same); [sizes | sizes | codes].
Qed.

Lemma dispatch_delivers :
  delivers (create_dispatch_package pid pc) read_dispatch_package
    (Opcode.code Opcode.DISPATCH) {| dispatch_pid := pid; dispatch_pc := pc |}.
Proof. deliver (int32_bytes pid ++ int32_bytes pc); [sizes | sizes | codes]. Qed.

Lemma dump_memory_delivers :
  delivers (create_dump_memory_package pid) read_dump_memory_package
    (Opcode.code Opcode.C_DUMP_MEMORY) pid.
Proof. deliver (int32_bytes pid); [sizes | sizes | codes]. Qed.

Lemma fetch_delivers :
  delivers (create_fetch_package pid pc) read_fetch_package
    (Opcode.code Opcode.FETCH) {| fetch_pid := pid; fetch_pc := pc |}.
Proof. deliver (int32_bytes pid ++ int32_bytes pc); [sizes | sizes | codes]. Qed.

Lemma interrupt_delivers :
  delivers (create_interrupt_package pid) read_interrupt_package
    (Opcode.code Opcode.INTERRUPT) pid.
Proof. deliver (int32_bytes pid); [sizes | sizes | codes]. Qed.

Lemma io_operation_delivers time :
  in_i32 time →
  delivers (create_io_operation_package pid time) read_io_operation_package
    (Opcode.code Opcode.IO_OPERATION) {| io_pid := pid; io_sleep_time := time |}.
Proof. intros. deliver (int32_bytes pid ++ int32_bytes time); [sizes | sizes | codes]. Qed.

Lemma kill_process_delivers :
  delivers (create_kill_process_package pid) read_kill_process_package
    (Opcode.code Opcode.KILL_PROCESS) pid.
Proof. deliver (int32_bytes pid); [sizes | sizes | codes]. Qed.

Lemma swap_operation_delivers operation :
  in_i32 operation →
  delivers (create_swap_operation_package pid operation) read_swap_package operation pid.
Proof. intros. deliver (int32_bytes pid); [sizes | sizes | codes]. Qed.

Lemma page_entry_request_delivers table_id entry_index :
  in_i32 table_id → in_i32 entry_index →
  delivers (create_page_entry_request_package pid table_id entry_index)
    read_page_entry_request_package (Opcode.code Opcode.GET_PAGE_ENTRY)
    {| request_pid := pid; request_table_id := table_id; request_entry_index := entry_index |}.
Proof.
  intros. deliver (int32_bytes pid ++ int32_bytes table_id ++ int32_bytes entry_index);
    [sizes | sizes | codes].
Qed.

Lemma page_entry_response_delivers value is_last_level :
  in_i32 value → in_i32 is_last_level →
  delivers (create_page_entry_response_package value is_last_level)
    read_page_entry_response_package (Opcode.code Opcode.GET_PAGE_ENTRY)
    {| response_value := value; response_is_last_level := bool_decide (is_last_level = 0)%Z |}.
Proof.
  intros. deliver (int32_bytes value ++ int32_bytes is_last_level); [sizes | sizes | codes].
Qed.

Lemma memory_read_request_delivers address size :
  in_i32 address → in_i32 size →
  delivers (send_memory_read_request (create_memory_read_request address size))
    read_memory_read_request (Opcode.code Opcode.READ_MEMORY)
    (create_memory_read_request address size).
Proof. intros. deliver (int32_bytes address ++ int32_bytes size); [sizes | sizes | codes]. Qed.
End Integers.

(** ** Packages with strings and blocks *)

Definition fits (s : string) : Prop := c_string s ∧ (strlen s < 2147483000)%Z.

#[export] Instance fits_dec s : Decision (fits s).
Proof. unfold fits. apply _. Defined.

Section Strings.
Context (s : string) (Hs : fits s).

Lemma init_process_delivers pid size :
  in_i32 pid → in_i32 size →
  delivers (create_init_process_package pid size (Some s)) read_init_process_package
    (Opcode.code Opcode.INIT_PROCESS)
    {| init_pid := pid; init_size := size; init_pseudocode_path := s |}.
Proof.
  intros. destruct Hs as [Hc Hl].
  deliver (int32_bytes pid ++ int32_bytes size ++ int32_bytes (strlen s + 1) ++ cstr_bytes s);
    [sizes | sizes | codes].
Qed.

Lemma instruction_delivers :
  delivers (create_instruction_package s) read_instruction_package
    (Opcode.code Opcode.INSTRUCTION) s.
Proof.
  destruct Hs as [Hc Hl]. unfold create_instruction_package, read_instruction_package.
  apply delivers_intro with (w := int32_bytes (strlen s + 1) ++ cstr_bytes s);
    [writes_fields | | sizes | sizes | codes].
  eapply consumes_eq; [|apply app_nil_r]. eapply consumes_bind; [consumes_fields|].
  cbn [snd]. rewrite <- (app_nil_r (cstr_bytes s)), as_cstr_bytes by done. apply consumes_ret.
Qed.

Lemma new_io_delivers :
  delivers (create_new_io_package s) read_new_io_package (Opcode.code Opcode.NEW_IO) s.
Proof.
  destruct Hs as [Hc Hl]. unfold create_new_io_package, read_new_io_package.
  apply delivers_intro with (w := int32_bytes (strlen s + 1) ++ cstr_bytes s);
    [writes_fields | | sizes | sizes | codes].
  eapply consumes_eq; [|apply app_nil_r]. eapply consumes_bind; [consumes_fields|].
  cbn [snd]. rewrite <- (app_nil_r (cstr_bytes s)), as_cstr_bytes by done. apply consumes_ret.
Qed.

Lemma io_completion_delivers pid :
  in_i32 pid →
  delivers (create_io_completion_package s pid) read_io_completion_package
    (Opcode.code Opcode.IO_COMPLETION)
    {| completion_device_name := s; completion_pid := pid |}.
Proof.
  intros. destruct Hs as [Hc Hl].
  deliver ((int32_bytes (strlen s + 1) ++ cstr_bytes s) ++ int32_bytes pid);
    [sizes | sizes | codes].
Qed.
End Strings.

Section Blocks.
Context (data : list byte) (Hd : (zlen data < 2147483000)%Z).

Lemma memory_read_response_delivers :
  delivers (create_package_memory_read_response data (zlen data)) read_memory_read_response
    (Opcode.code Opcode.READ_MEMORY)
    {| response_data := data; response_data_size := zlen data |}.
Proof.
  pose proof (zlen_nonneg data).
  deliver (int32_bytes (zlen data) ++ data); [sizes | sizes | codes].
Qed.

Lemma create_memory_write_request_exact address :
  create_memory_write_request address (zlen data) data
    = Ok {| write_physical_address := address; write_size := zlen data; write_data := data |}.
Proof.
  unfold create_memory_write_request. pose proof (zlen_nonneg data).
  rewrite !decide_False by lia. unfold zlen. by rewrite Nat2Z.id, firstn_all.
Qed.

Lemma memory_write_request_delivers address :
  in_i32 address →
  delivers (r ← create_memory_write_request address (zlen data) data; send_memory_write_request r)
    read_memory_write_request (Opcode.code Opcode.WRITE_MEMORY)
    {| write_physical_address := address; write_size := zlen data; write_data := data |}.
Proof.
  intros. pose proof (zlen_nonneg data).
  rewrite create_memory_write_request_exact. unfold send_memory_write_request; cbn.
  apply delivers_intro with (w := int32_bytes address ++ int32_bytes (zlen data) ++ data);
    [ by writes_fields | | sizes | sizes | codes ].
  rewrite <- (app_nil_r data) at 2.
  assert (in_i32 (zlen data)) by (unfold in_i32; lia).
  eapply consumes_bind; [consumes_fields|]. eapply consumes_bind; [consumes_fields|].
  eapply consumes_bind; [by apply consumes_block|].
  rewrite create_memory_write_request_exact. apply consumes_ret.
Qed.

Lemma mmu_page_read_response_delivers :
  delivers (create_mmu_page_read_response data (zlen data)) read_mmu_page_read_response
    (Opcode.code Opcode.READ_MEMORY) {| page_data := data; page_size := zlen data |}.
Proof.
  pose proof (zlen_nonneg data). assert (in_i32 (zlen data)) by (unfold in_i32; lia).
  unfold create_mmu_page_read_response, read_mmu_page_read_response.
  apply delivers_intro with (w := int32_bytes (zlen data) ++ data);
    [ by writes_fields | | sizes | sizes | codes ].
  rewrite <- (app_nil_r data) at 2.
  eapply consumes_bind; [consumes_fields|]. eapply consumes_bind; [by apply consumes_block|].
  apply consumes_ret.
Qed.
End Blocks.

(** ** System calls: the parameters depend on the type *)
Section Syscalls.
Context (pid pc : Z) (Hpid : in_i32 pid) (Hpc : in_i32 pc).

Definition syscall (type : SyscallType.SYSCALL_TYPE) (p : syscall_params) : syscall_package_data :=
  {| syscall_type := SyscallType.code type; syscall_pid := pid; syscall_pc := pc; params := p |}.

(** Parameters of the kind the type announces, that can be sent. *)
Definition params_fit (type : SyscallType.SYSCALL_TYPE) (p : syscall_params) : Prop :=
  match type, p with
  | SyscallType.SYSCALL_INIT_PROC, InitProcParams n s | SyscallType.SYSCALL_IO, IoParams n s =>
      in_i32 n ∧ fits s
  | SyscallType.SYSCALL_INIT_PROC, _ | SyscallType.SYSCALL_IO, _ => False
  | _, NoParams => True
  | _, _ => False
  end.

Definition params_bytes (p : syscall_params) : list byte :=
  match p with
  | InitProcParams n s => int32_bytes n ++ int32_bytes (strlen s + 1) ++ cstr_bytes s
  | IoParams n s => (int32_bytes (strlen s + 1) ++ cstr_bytes s) ++ int32_bytes n
  | NoParams => []
  end.

Lemma syscall_delivers type p :
  params_fit type p →
  delivers (create_syscall_package (syscall type p)) read_syscall_package
    (Opcode.code Opcode.SYSCALL) (syscall type p).
Proof.
  intros Hfit. unfold create_syscall_package, read_syscall_package. cbn [syscall_type syscall syscall_pid syscall_pc params].
  rewrite SyscallType.decode_type_code. pose proof (SyscallType.type_code_in_i32 type).
  apply delivers_intro with (w := int32_bytes (SyscallType.code type) ++ int32_bytes pid ++
    int32_bytes pc ++ params_bytes p); [| | | | codes].
  - destruct type, p as [n s|n s|]; try done; eapply writes_eq; [writes_fields | flat | writes_fields | flat
      | writes_fields | flat | writes_fields | flat ].
  - do 3 (eapply consumes_bind; [by consumes_fields|]). rewrite SyscallType.decode_type_code.
    rewrite <- (app_nil_r (params_bytes p)).
    destruct type, p as [n s|n s|]; try done; try destruct Hfit as [Hn [Hs Hl]];
      (eapply consumes_bind; [|apply consumes_ret]); consumes_fields.
  - destruct type, p as [n s|n s|]; try done; try destruct Hfit as [Hn [Hs Hl]]; cbn [params_bytes]; sizes.
  - destruct type, p as [n s|n s|]; try done; try destruct Hfit as [Hn [Hs Hl]]; cbn [params_bytes]; sizes.
Qed.
End Syscalls.
