(* ===== verification/Config.v ===== *)
(** * Configuration (utils/src/utils/config, cpu/src/config_loader)

    A configuration file is read by so-commons, so the values of its keys
    are parameters; the records and the way the modules interpret the values
    are the program's. *)
From S2P Require Import Prelude Enums.
From Stdlib Require Import SpecFloat.

(** ** t_configs.h *)
Record t_kernel_config := {
  memory_ip : string; memory_port : string;
  short_planification_algorithm : Algorithm.PLANIFICATION_ALGORITHM;
  long_planification_algorithm : Algorithm.PLANIFICATION_ALGORITHM;
  cfg_preemption_enabled : bool;
  sleep_time : Z;
  alpha : spec_float;
  kernel_log_level : Z;
  cpu_dispatch_port : string; cpu_interrupt_port : string; io_port : string;
  cpu_quantity : Z;
  default_estimated_cpu_burst_ms : Z }.

Record t_memoria_config := {
  PUERTO_ESCUCHA : string;
  TAM_MEMORIA : Z;
  TAM_PAGINA : Z;
  ENTRADAS_POR_TABLA : Z;
  CANTIDAD_NIVELES : Z;
  RETARDO_MEMORIA : Z;
  RETARDO_SWAP : Z;
  PATH_SWAPFILE : string;
  PATH_INSTRUCCIONES : string;
  MEMORIA_LOG_LEVEL : Z;
  DUMP_PATH : option string }.

Record t_cpu_config := {
  IP_MEMORIA : string; PUERTO_MEMORIA : string; CPU_IP_KERNEL : string;
  PUERTO_KERNEL_DISPATCH : string; PUERTO_KERNEL_INTERRUPT : string;
  ENTRADAS_TLB : Z; REEMPLAZO_TLB : string;
  ENTRADAS_CACHE : Z; REEMPLAZO_CACHE : string; RETARDO_CACHE : Z;
  CPU_LOG_LEVEL : Z }.

Record t_io_config := { IO_IP_KERNEL : string; PUERTO_KERNEL : string; IO_LOG_LEVEL : Z }.

(** ** config_loader.h *)
Inductive TLBReplacementAlgorithm := TLB_ALGO_FIFO | TLB_ALGO_LRU.
Inductive CacheReplacementAlgorithm := CACHE_ALGO_CLOCK | CACHE_ALGO_CLOCK_M.

#[export] Instance TLBReplacementAlgorithm_eq_dec : EqDecision TLBReplacementAlgorithm.
Proof. solve_decision. Defined.
#[export] Instance CacheReplacementAlgorithm_eq_dec : EqDecision CacheReplacementAlgorithm.
Proof. solve_decision. Defined.

Record MMUConfig := { mmu_page_size : Z; page_table_levels : Z; entries_per_table : Z }.
Record TLBConfig := { tlb_entry_count : Z; tlb_replacement_algo : TLBReplacementAlgorithm }.
Record CacheConfig := {
  cache_entry_count : Z; cache_replacement_algo : CacheReplacementAlgorithm; retardo_cache : Z }.

Section Loaders.
(** The so-commons readers of an opened configuration file. *)
Context {t_config : Type}.
Context (config_get_string_value : t_config → string → string).
Context (config_get_int_value : t_config → string → Z).
Context (config_get_double_value : t_config → string → spec_float).
Context (log_level_from_string : string → Z).
Local Open Scope string_scope.

(** An unknown log level ends the program. *)
Definition init_kernel_config (config : t_config) : res t_kernel_config :=
  let log_level := log_level_from_string (config_get_string_value config "LOG_LEVEL") in
  if decide (log_level = -1)%Z then Crash Exit
  else Ok {|
    short_planification_algorithm := Algorithm.planification_algorithm_from_string
      (config_get_string_value config "SHORT_PLANIFICATION_ALGORITHM");
    long_planification_algorithm := Algorithm.planification_algorithm_from_string
      (config_get_string_value config "LONG_PLANIFICATION_ALGORITHM");
    cfg_preemption_enabled := bool_decide (config_get_int_value config "PREEMPTION" ≠ 0)%Z;
    kernel_log_level := log_level;
    memory_ip := config_get_string_value config "MEMORY_IP";
    memory_port := config_get_string_value config "MEMORY_PORT";
    sleep_time := config_get_int_value config "SLEEP_TIME";
    alpha := config_get_double_value config "ALPHA";
    cpu_dispatch_port := config_get_string_value config "CPU_DISPATCH_PORT";
    cpu_interrupt_port := config_get_string_value config "CPU_INTERRUPT_PORT";
    io_port := config_get_string_value config "IO_PORT";
    cpu_quantity := config_get_int_value config "CPU_QUANTITY";
    default_estimated_cpu_burst_ms := u64 (config_get_int_value config "ESTIMACION_INICIAL") |}.

Definition init_memoria_config (config : t_config) : t_memoria_config := {|
  PUERTO_ESCUCHA := config_get_string_value config "PUERTO_ESCUCHA";
  TAM_MEMORIA := config_get_int_value config "TAM_MEMORIA";
  TAM_PAGINA := config_get_int_value config "TAM_PAGINA";
  ENTRADAS_POR_TABLA := config_get_int_value config "ENTRADAS_POR_TABLA";
  CANTIDAD_NIVELES := config_get_int_value config "CANTIDAD_NIVELES";
  RETARDO_MEMORIA := config_get_int_value config "RETARDO_MEMORIA";
  RETARDO_SWAP := config_get_int_value config "RETARDO_SWAP";
  PATH_SWAPFILE := config_get_string_value config "PATH_SWAPFILE";
  MEMORIA_LOG_LEVEL := log_level_from_string (config_get_string_value config "LOG_LEVEL");
  DUMP_PATH := Some (config_get_string_value config "DUMP_PATH");
  PATH_INSTRUCCIONES := config_get_string_value config "PATH_INSTRUCCIONES" |}.

Definition init_cpu_config (config : t_config) : t_cpu_config := {|
  IP_MEMORIA := config_get_string_value config "IP_MEMORIA";
  PUERTO_MEMORIA := config_get_string_value config "PUERTO_MEMORIA";
  CPU_IP_KERNEL := config_get_string_value config "IP_KERNEL";
  PUERTO_KERNEL_DISPATCH := config_get_string_value config "PUERTO_KERNEL_DISPATCH";
  PUERTO_KERNEL_INTERRUPT := config_get_string_value config "PUERTO_KERNEL_INTERRUPT";
  ENTRADAS_TLB := config_get_int_value config "ENTRADAS_TLB";
  REEMPLAZO_TLB := config_get_string_value config "REEMPLAZO_TLB";
  ENTRADAS_CACHE := config_get_int_value config "ENTRADAS_CACHE";
  REEMPLAZO_CACHE := config_get_string_value config "REEMPLAZO_CACHE";
  RETARDO_CACHE := config_get_int_value config "RETARDO_CACHE";
  CPU_LOG_LEVEL := log_level_from_string (config_get_string_value config "LOG_LEVEL") |}.

Definition init_io_config (config : t_config) : t_io_config := {|
  IO_IP_KERNEL := config_get_string_value config "IP_KERNEL";
  PUERTO_KERNEL := config_get_string_value config "PUERTO_KERNEL";
  IO_LOG_LEVEL := log_level_from_string (config_get_string_value config "LOG_LEVEL") |}.

Definition load_mmu_config (config : t_config) : MMUConfig := {|
  mmu_page_size := config_get_int_value config "TAM_PAGINA";
  page_table_levels := config_get_int_value config "CANTIDAD_NIVELES";
  entries_per_table := config_get_int_value config "ENTRADAS_POR_TABLA" |}.

Definition load_tlb_config (config : t_config) : res TLBConfig :=
  let algo_str := config_get_string_value config "REEMPLAZO_TLB" in
  let n := config_get_int_value config "ENTRADAS_TLB" in
  if decide (algo_str = "FIFO") then
    Ok {| tlb_entry_count := n; tlb_replacement_algo := TLB_ALGO_FIFO |}
  else if decide (algo_str = "LRU") then
    Ok {| tlb_entry_count := n; tlb_replacement_algo := TLB_ALGO_LRU |}
  else Crash Exit.

Definition load_cache_config (config : t_config) : res CacheConfig :=
  let algo_str := config_get_string_value config "REEMPLAZO_CACHE" in
  let n := config_get_int_value config "ENTRADAS_CACHE" in
  let delay := config_get_int_value config "RETARDO_CACHE" in
  if decide (algo_str = "CLOCK") then
    Ok {| cache_entry_count := n; cache_replacement_algo := CACHE_ALGO_CLOCK; retardo_cache := delay |}
  else if decide (algo_str = "CLOCK-M") then
    Ok {| cache_entry_count := n; cache_replacement_algo := CACHE_ALGO_CLOCK_M; retardo_cache := delay |}
  else Crash Exit.
End Loaders.
