(* ===== verification/Semaphores.v ===== *)
(** * Semaphores (POSIX [sem_t], used as binary locks by every module)

    The counters of all semaphores of a process, by name.  A handler is run
    to completion here, so a [sem_wait] on a counter that is 0 can never be
    released: it is a [Deadlock].  [sem_post] always increments, which is
    how an unpaired unlock shows. *)
From S2P Require Import Prelude.

Section Semaphores.
Context {K : Type} `{Countable K}.

Definition sem_wait (k : K) : M (gmap K Z) unit :=
  sems ← get;
  match sems !! k with
  | None => crash_with Uninit
  | Some n => if decide (0 < n)%Z then put (<[k := (n - 1)%Z]> sems) else crash_with Deadlock
  end.

Definition sem_post (k : K) : M (gmap K Z) unit :=
  sems ← get;
  match sems !! k with
  | None => crash_with Uninit
  | Some n => put (<[k := (n + 1)%Z]> sems)
  end.

Definition sem_init (k : K) (value : Z) : M (gmap K Z) unit :=
  modify (<[k := value]>).

Lemma sem_wait_free (k : K) (sems : gmap K Z) :
  sems !! k = Some 1%Z → sem_wait k sems = Ok (tt, <[k := 0%Z]> sems).
Proof. intros Hk. unfold sem_wait. step. by rewrite Hk. Qed.

Lemma sem_post_taken (k : K) (sems : gmap K Z) :
  sem_post k (<[k := 0%Z]> sems) = Ok (tt, <[k := 1%Z]> sems).
Proof. unfold sem_post. step. by rewrite lookup_insert_eq, insert_insert_eq. Qed.

(** Unlocking what was locked gives the counters back. *)
Lemma sem_restore (k : K) (sems : gmap K Z) : sems !! k = Some 1%Z → <[k := 1%Z]> sems = sems.
Proof. apply insert_id. Qed.

(** Waiting on a semaphore one holds never returns. *)
Lemma sem_wait_held (k : K) (sems : gmap K Z) :
  sems !! k = Some 0%Z → sem_wait k sems = Crash Deadlock.
Proof. intros Hk. unfold sem_wait. step. by rewrite Hk. Qed.

(** An unlock without a lock leaves the semaphore open to two holders. *)
Lemma sem_post_free (k : K) (sems : gmap K Z) :
  sems !! k = Some 1%Z → sem_post k sems = Ok (tt, <[k := 2%Z]> sems).
Proof. intros Hk. unfold sem_post. step. by rewrite Hk. Qed.
End Semaphores.
