(* ===== verification/Bitmap.v ===== *)
(** * Frame bitmaps (the loops shared by frame_manager.c and swap_manager.c)

    Both the main memory and the swap file hand out frames by a first-fit
    scan of a bit array.  The loops are stated once; [free_frames] is the
    specification they are proved against: the frames whose bit is clear, in
    increasing order. *)
From S2P Require Import Prelude Commons.

(** ** The loops *)
Section Loops.
Context {C : CommonsOps}.

(** A bit outside the array is outside its storage. *)
Definition in_storage {A} (i : Z) (f : list bool → A) : M (list bool) A :=
  bits ← get;
  if decide (0 <= i < zlen bits)%Z then mret (f bits) else crash_with OutOfBounds.

Definition test_bit (i : Z) : M (list bool) bool :=
  in_storage i (λ bits, bitarray_test_bit bits i).

Definition set_bit (i : Z) : M (list bool) unit :=
  bits' ← in_storage i (λ bits, bitarray_set_bit bits i); put bits'.

Definition clean_bit (i : Z) : M (list bool) unit :=
  bits' ← in_storage i (λ bits, bitarray_clean_bit bits i); put bits'.

(** The [for] loop of [allocate_frames] from [frame_index] on. *)
Fixpoint scan (fuel : nat) (frame_index frames_total pages_needed : Z)
    (allocated_frames : list Z) (frames_allocated : Z) : M (list bool) (list Z * Z) :=
  if decide (frame_index < frames_total ∧ frames_allocated < pages_needed)%Z then
    match fuel with
    | O => crash_with OutOfFuel
    | S fuel =>
        taken ← test_bit frame_index;
        if taken : bool then
          scan fuel (frame_index + 1) frames_total pages_needed allocated_frames frames_allocated
        else
          set_bit frame_index;;
          scan fuel (frame_index + 1) frames_total pages_needed
            (list_add allocated_frames frame_index) (frames_allocated + 1)
    end
  else mret (allocated_frames, frames_allocated).

(** The [for] loop of [release_frames]. *)
Definition clean_bits (frame_list : list Z) : M (list bool) unit :=
  for_each frame_list clean_bit.
End Loops.

(** ** Specification *)

Definition free_from (bits : list bool) (i total : Z) : list Z :=
  filter (λ j, znth bits j = Some false) (seqZ i (total - i)).

Definition free_frames (bits : list bool) (total : Z) : list Z := free_from bits 0 total.

Fixpoint set_all (v : bool) (l : list Z) (bits : list bool) : list bool :=
  match l with
  | [] => bits
  | i :: l => set_all v l (zset bits i v)
  end.

Lemma set_all_zlen v l bits : zlen (set_all v l bits) = zlen bits.
Proof. revert bits. induction l as [|i l IH]; intros bits; cbn; [done|]. by rewrite IH, zset_zlen. Qed.

Lemma znth_set_all v l bits j :
  (0 <= j < zlen bits)%Z →
  znth (set_all v l bits) j = if decide (j ∈ l) then Some v else znth bits j.
Proof.
  revert bits. induction l as [|i l IH]; intros bits Hj; cbn; [done|].
  rewrite IH by (by rewrite zset_zlen). destruct (decide (i = j)) as [->|Hne].
  - rewrite (decide_True (P := j ∈ j :: l)) by (by left).
    case_decide; [done|]. by apply znth_zset_eq.
  - rewrite (decide_ext (j ∈ i :: l) (j ∈ l)) by (rewrite elem_of_cons; intuition congruence).
    case_decide; [done|]. by apply znth_zset_ne.
Qed.

Lemma elem_of_free_from bits i total j :
  j ∈ free_from bits i total ↔ znth bits j = Some false ∧ (i <= j < total)%Z.
Proof. unfold free_from. rewrite list_elem_of_filter, elem_of_seqZ. intuition lia. Qed.

Lemma free_from_ge bits i total : (total <= i)%Z → free_from bits i total = [].
Proof. intros. unfold free_from. rewrite seqZ_nil by lia. done. Qed.

Lemma free_from_S bits i total :
  (i < total)%Z →
  free_from bits i total =
    if decide (znth bits i = Some false) then i :: free_from bits (i + 1) total
    else free_from bits (i + 1) total.
Proof.
  intros. unfold free_from at 1. rewrite seqZ_cons by lia. rewrite filter_cons.
  unfold free_from. replace (Z.pred (total - i)) with (total - (i + 1))%Z by lia.
  replace (Z.succ i) with (i + 1)%Z by lia. done.
Qed.

Lemma free_from_NoDup bits i total : NoDup (free_from bits i total).
Proof. apply NoDup_filter, NoDup_seqZ. Qed.

Lemma free_frames_range bits total j :
  j ∈ free_frames bits total → (0 <= j < total)%Z.
Proof. unfold free_frames. rewrite elem_of_free_from. tauto. Qed.

Lemma free_from_zset_out bits i total j v :
  (j < i)%Z → free_from (zset bits j v) i total = free_from bits i total.
Proof.
  intros. apply filter_ext_elem. intros k [Hk _]%elem_of_seqZ.
  rewrite znth_zset_ne by lia. done.
Qed.

(** A fresh bit array has every frame free. *)
Lemma free_frames_zeroed n total :
  (total <= Z.of_nat n)%Z → free_frames (replicate n false) total = seqZ 0 total.
Proof.
  intros. unfold free_frames, free_from. rewrite Z.sub_0_r.
  apply list_filter_all. apply Forall_forall. intros j Hj%elem_of_seqZ.
  unfold znth. rewrite decide_True by lia. apply lookup_replicate. split; [done | lia].
Qed.

Section Correct.
Context {C : CommonsOps} {CL : CommonsLaws C}.

Lemma test_bit_ok i bits b :
  znth bits i = Some b → test_bit i bits = Ok (b, bits).
Proof.
  intros Hb. unfold test_bit, in_storage. step.
  pose proof (znth_Some_range _ _ _ Hb). rewrite decide_True by done.
  pose proof (bitarray_test_bit_spec bits i ltac:(done)). congruence.
Qed.

Lemma set_bit_ok i bits : (0 <= i < zlen bits)%Z → set_bit i bits = Ok (tt, zset bits i true).
Proof.
  intros. unfold set_bit, in_storage. step. rewrite decide_True by done.
  by rewrite bitarray_set_bit_spec.
Qed.

Lemma clean_bit_ok i bits :
  (0 <= i < zlen bits)%Z → clean_bit i bits = Ok (tt, zset bits i false).
Proof.
  intros. unfold clean_bit, in_storage. step. rewrite decide_True by done.
  by rewrite bitarray_clean_bit_spec.
Qed.

(** The scan takes the first free frames, marks exactly them, and stops. *)
Lemma scan_ok fuel i total needed acc count bits :
  (0 <= i)%Z → (total <= zlen bits)%Z → (total - i <= Z.of_nat fuel)%Z →
  scan fuel i total needed acc count bits =
    let new := take (Z.to_nat (needed - count)) (free_from bits i total) in
    Ok ((acc ++ new, (count + zlen new)%Z), set_all true new bits).
Proof.
  revert i acc count bits. induction fuel as [|fuel IH]; intros i acc count bits Hi Hlen Hfuel.
  all: cbn [scan]; destruct (decide (i < total ∧ count < needed)%Z) as [[Hlt Hc]|Hstop].
  - lia.
  - assert (take (Z.to_nat (needed - count)) (free_from bits i total) = []) as E.
    { rewrite free_from_ge by lia. by rewrite take_nil. }
    cbv zeta. rewrite E. cbn. by rewrite app_nil_r, Z.add_0_r.
  - destruct (znth_is_Some bits i) as [b Hb]; [lia|].
    run (by apply test_bit_ok).
    rewrite free_from_S by done. destruct b.
    + rewrite decide_False by congruence. rewrite IH by lia. done.
    + rewrite decide_True by done.
      pose proof (znth_Some_range _ _ _ Hb).
      run (by apply set_bit_ok). rewrite list_add_spec.
      rewrite IH by (rewrite ?zset_zlen; lia). cbv zeta.
      rewrite free_from_zset_out by lia.
      replace (Z.to_nat (needed - count)) with (S (Z.to_nat (needed - (count + 1)))) by lia.
      cbn [take set_all]. rewrite <- app_assoc. unfold zlen. cbn [length app].
      do 3 f_equal. lia.
  - assert (take (Z.to_nat (needed - count)) (free_from bits i total) = []) as E.
    { destruct (decide (i < total)%Z).
      - replace (Z.to_nat (needed - count)) with 0 by lia. done.
      - rewrite free_from_ge by lia. by rewrite take_nil. }
    cbv zeta. rewrite E. cbn. by rewrite app_nil_r, Z.add_0_r.
Qed.

Lemma clean_bits_ok l bits :
  Forall (λ j, (0 <= j < zlen bits)%Z) l → clean_bits l bits = Ok (tt, set_all false l bits).
Proof.
  unfold clean_bits. revert bits. induction l as [|i l IH]; intros bits Hl; cbn [for_each set_all].
  { done. }
  apply Forall_cons in Hl as [Hi Hl]. run (by apply clean_bit_ok).
  apply IH. by setoid_rewrite zset_zlen.
Qed.

(** A frame number outside the array is an access outside its storage. *)
Lemma clean_bits_out l j bits :
  j ∈ l → ¬ (0 <= j < zlen bits)%Z → clean_bits l bits = Crash OutOfBounds.
Proof.
  unfold clean_bits. revert bits. induction l as [|i l IH]; intros bits Hj Hout; [by inversion Hj|].
  cbn [for_each]. destruct (decide (0 <= i < zlen bits)%Z) as [Hi|Hi].
  - run (by apply clean_bit_ok). apply IH; [|by rewrite zset_zlen].
    apply elem_of_cons in Hj as [->|Hj]; done.
  - apply M_bind_crash. unfold clean_bit, in_storage. step. by rewrite decide_False.
Qed.
End Correct.

(** ** What a scan and a release leave free *)

Lemma list_filter_take_drop {A} `{EqDecision A} (l : list A) n :
  NoDup l → filter (λ x, x ∉ take n l) l = drop n l.
Proof.
  intros Hnd. rewrite <- (take_drop n l) in Hnd at 1. apply NoDup_app in Hnd as (_ & Hd & _).
  transitivity (filter (λ x, x ∉ take n l) (take n l ++ drop n l)).
  { by rewrite take_drop. }
  rewrite filter_app, list_filter_none, list_filter_all; [done | |].
  - apply Forall_forall. intros x Hx Ht. by apply (Hd x).
  - apply Forall_forall. intros x Hx. tauto.
Qed.

Lemma free_frames_set_all bits total l :
  (total <= zlen bits)%Z →
  free_frames (set_all true l bits) total = filter (λ j, j ∉ l) (free_frames bits total).
Proof.
  intros Hlen. unfold free_frames, free_from. rewrite list_filter_filter.
  apply filter_ext_elem. intros j Hj%elem_of_seqZ.
  rewrite znth_set_all by lia. case_decide; naive_solver.
Qed.

Lemma free_frames_alloc bits total n :
  (total <= zlen bits)%Z →
  free_frames (set_all true (take n (free_frames bits total)) bits) total
  = drop n (free_frames bits total).
Proof.
  intros. rewrite free_frames_set_all by done.
  apply list_filter_take_drop, free_from_NoDup.
Qed.

(** A frame in use: marked, and within the frames that are handed out. *)
Definition in_use (bits : list bool) (total j : Z) : Prop :=
  (0 <= j < total)%Z ∧ znth bits j = Some true.

#[export] Instance in_use_dec bits total j : Decision (in_use bits total j).
Proof. unfold in_use. apply _. Defined.

Lemma free_frames_release bits total l :
  (total <= zlen bits)%Z → NoDup l → Forall (in_use bits total) l →
  free_frames (set_all false l bits) total ≡ₚ l ++ free_frames bits total.
Proof.
  intros Hlen Hnd Hl. rewrite Forall_forall in Hl. apply NoDup_Permutation.
  - apply free_from_NoDup.
  - apply NoDup_app. split_and!; [done | | apply free_from_NoDup].
    intros j Hj [Hf _]%elem_of_free_from. destruct (Hl j Hj) as [_ Ht]. congruence.
  - intros j. unfold free_frames. rewrite elem_of_app, !elem_of_free_from. split.
    + intros [Hz Hr]. rewrite znth_set_all in Hz by lia. case_decide; auto.
    + intros [Hj|[Hf Hr]].
      * destruct (Hl j Hj) as [Hr _]. rewrite znth_set_all by lia. by rewrite decide_True.
      * rewrite znth_set_all by lia. case_decide; auto.
Qed.

(** Releasing what was just allocated gives the bitmap back. *)
Lemma set_all_undo bits total l :
  (total <= zlen bits)%Z → Forall (λ j, j ∈ free_frames bits total) l →
  set_all false l (set_all true l bits) = bits.
Proof.
  intros Hlen Hl. rewrite Forall_forall in Hl. apply znth_ext.
  - by rewrite !set_all_zlen.
  - intros j. rewrite !set_all_zlen. intros Hj.
    rewrite znth_set_all by (by rewrite set_all_zlen).
    case_decide as Hin.
    + apply Hl in Hin. unfold free_frames in Hin. apply elem_of_free_from in Hin as [-> _]. done.
    + rewrite znth_set_all by done. by rewrite decide_False.
Qed.

(** Allocated frames are in use, and every frame in use before still is. *)
Lemma in_use_set_all bits total l j :
  (total <= zlen bits)%Z →
  in_use (set_all true l bits) total j ↔
  (0 <= j < total)%Z ∧ (j ∈ l ∨ in_use bits total j).
Proof.
  intros. unfold in_use. split.
  - intros [Hr Ht]. rewrite znth_set_all in Ht by lia. case_decide; auto.
  - intros [Hr Ht]. rewrite znth_set_all by lia. case_decide; naive_solver.
Qed.

Lemma in_use_clear_all bits total l j :
  (total <= zlen bits)%Z →
  in_use (set_all false l bits) total j ↔ in_use bits total j ∧ j ∉ l.
Proof.
  intros. unfold in_use. split.
  - intros [Hr Ht]. rewrite znth_set_all in Ht by lia. case_decide; naive_solver.
  - intros [[Hr Ht] Hn]. rewrite znth_set_all by lia. by rewrite decide_False.
Qed.

(** ** A pool of frames: a bitmap, and the count of its free frames

    [allocate_frames] and [swap_allocate_frames] have one and the same text,
    and so have the two release functions; they are stated here, on a pool,
    and named after the C functions in Storage.v. *)
Record t_pool := mk_pool { bitmap : list bool; free_count : Z; frames_total : Z }.

#[export] Instance t_pool_eq_dec : EqDecision t_pool.
Proof. solve_decision. Defined.

Section Pool.
Context {C : CommonsOps}.

(** NULL ([None]) when there are not enough frames. *)
Definition pool_allocate (pages_needed : Z) : M t_pool (option (list Z)) :=
  p ← get;
  if decide (pages_needed > free_count p)%Z then mret None
  else
    r ← zoom bitmap (λ b p, mk_pool b (free_count p) (frames_total p))
          (scan (Z.to_nat (frames_total p)) 0 (frames_total p) pages_needed [] 0);
    modify (λ p, mk_pool (bitmap p) (i32 (free_count p - snd r)) (frames_total p));;
    mret (Some (fst r)).

Definition pool_release (frame_list : list Z) : M t_pool unit :=
  zoom bitmap (λ b p, mk_pool b (free_count p) (frames_total p)) (clean_bits frame_list);;
  modify (λ p, mk_pool (bitmap p) (i32 (free_count p + list_size frame_list)) (frames_total p)).

(** A fresh pool: bits rounded up to whole bytes. *)
Definition pool_init (total : Z) : res t_pool :=
  let bitmap_size := (total `quot` 8 + if decide (total `rem` 8 ≠ 0) then 1 else 0)%Z in
  if decide (bitmap_size < 0)%Z then Crash Exit
  else Ok (mk_pool (bitarray_create bitmap_size) total total).
End Pool.

(** The count is the number of clear bits, all frames are in the bitmap. *)
Definition pool_free (p : t_pool) : list Z := free_frames (bitmap p) (frames_total p).

Record pool_ok (p : t_pool) : Prop := {
  pool_bits : (0 <= frames_total p <= zlen (bitmap p))%Z;
  pool_small : in_i32 (frames_total p);
  pool_count : free_count p = zlen (pool_free p) }.

Definition pool_in_use (p : t_pool) (j : Z) : Prop := in_use (bitmap p) (frames_total p) j.

#[export] Instance pool_in_use_dec p j : Decision (pool_in_use p j).
Proof. unfold pool_in_use. apply _. Defined.

Section PoolCorrect.
Context {C : CommonsOps} {CL : CommonsLaws C}.

Lemma pool_free_zlen p : pool_ok p → (0 <= free_count p <= frames_total p)%Z.
Proof.
  intros [Hb _ ->]. split; [apply zlen_nonneg|].
  unfold pool_free, free_frames, free_from, zlen.
  pose proof (length_filter (λ j, znth (bitmap p) j = Some false) (seqZ 0 (frames_total p - 0))) as H.
  rewrite length_seqZ in H. lia.
Qed.

Lemma pool_free_not_in_use p j : pool_ok p → j ∈ pool_free p → ¬ pool_in_use p j.
Proof. intros _ [Hj _]%elem_of_free_from [_ Ht]. congruence. Qed.

(** Every frame is free or in use. *)
Lemma pool_partition p j :
  pool_ok p → (0 <= j < frames_total p)%Z → pool_in_use p j ↔ j ∉ pool_free p.
Proof.
  intros [Hb _ _] Hj. unfold pool_in_use, in_use, pool_free, free_frames.
  rewrite elem_of_free_from. destruct (znth_is_Some (bitmap p) j) as [[] ->]; [lia | |]; naive_solver.
Qed.

Lemma pool_init_ok total :
  (0 <= total)%Z → in_i32 total →
  ∃ p, pool_init total = Ok p ∧ pool_ok p ∧ frames_total p = total ∧
    pool_free p = upto total.
Proof.
  intros H0 Hi. unfold pool_init.
  rewrite Z.quot_div_nonneg, Z.rem_mod_nonneg by lia.
  pose proof (Z.div_mod total 8 ltac:(lia)). pose proof (Z.mod_pos_bound total 8 ltac:(lia)).
  rewrite decide_False by (case_decide; lia).
  eexists. split; [done|]. rewrite bitarray_create_spec. cbn.
  assert (pool_free (mk_pool (replicate (Z.to_nat (8 * (total / 8 +
    (if decide (total `mod` 8 ≠ 0)%Z then 1 else 0)))) false) total total) = upto total) as Hf.
  { apply free_frames_zeroed. cbn. case_decide; lia. }
  split_and!; [|done|done]. constructor; cbn; [|done|].
  - unfold zlen. rewrite length_replicate. case_decide; lia.
  - setoid_rewrite Hf. by rewrite zlen_upto.
Qed.

(** Refused, and nothing changes. *)
Lemma pool_allocate_refused p n :
  (n > free_count p)%Z → pool_allocate n p = Ok (None, p).
Proof. intros. unfold pool_allocate. step. by rewrite decide_True. Qed.

(** Granted: the first free frames, which are then in use. *)
Lemma pool_allocate_ok p n :
  pool_ok p → (n <= free_count p)%Z →
  let new := take (Z.to_nat n) (pool_free p) in
  let p' := mk_pool (set_all true new (bitmap p)) (free_count p - zlen new) (frames_total p) in
  pool_allocate n p = Ok (Some new, p') ∧ pool_ok p' ∧
  pool_free p' = drop (Z.to_nat n) (pool_free p).
Proof.
  intros Hok Hn new p'. pose proof Hok as [Hb Hs Hc]. pose proof (pool_free_zlen _ Hok) as Hz.
  assert (zlen new <= free_count p)%Z as Hnew.
  { unfold new. rewrite Hc. unfold zlen. rewrite length_take. lia. }
  assert (pool_free p' = drop (Z.to_nat n) (pool_free p)) as Hfree.
  { unfold pool_free, p', new. cbn. apply free_frames_alloc. lia. }
  split_and!; [| |done].
  - unfold pool_allocate, zoom. step. rewrite decide_False by lia.
    rewrite scan_ok by lia. cbn [fst snd]. rewrite Z.sub_0_r, Z.add_0_l.
    change (free_from (bitmap p) 0 (frames_total p)) with (pool_free p). fold new.
    rewrite i32_id; [done|]. cbn. pose proof (zlen_nonneg new). unfold in_i32 in *. lia.
  - constructor; cbn; [by rewrite set_all_zlen | done |].
    rewrite Hfree, Hc. unfold new, zlen. rewrite length_take, length_drop. lia.
Qed.

Lemma pool_allocated_zlen p n :
  pool_ok p → (0 <= n <= free_count p)%Z → zlen (take (Z.to_nat n) (pool_free p)) = n.
Proof.
  intros [_ _ Hc] Hn. unfold zlen in *. rewrite length_take, Nat.min_l; lia.
Qed.

Lemma pool_release_ok p l :
  pool_ok p → NoDup l → Forall (pool_in_use p) l →
  let p' := mk_pool (set_all false l (bitmap p)) (free_count p + zlen l) (frames_total p) in
  pool_release l p = Ok (tt, p') ∧ pool_ok p' ∧ pool_free p' ≡ₚ l ++ pool_free p.
Proof.
  intros Hok Hnd Hl p'. pose proof Hok as [Hb Hs Hc].
  assert (pool_free p' ≡ₚ l ++ pool_free p) as Hfree.
  { unfold pool_free, p'. cbn. apply free_frames_release; [lia | done | done]. }
  assert (pool_ok p') as Hok'.
  { constructor; cbn; [by rewrite set_all_zlen | done |].
    unfold zlen. rewrite Hfree, length_app, Hc. unfold zlen. lia. }
  split_and!; [|done|done]. unfold pool_release, zoom. step.
  rewrite clean_bits_ok.
  2:{ eapply Forall_impl; [done|]. intros j [Hj _]. lia. }
  cbn. rewrite list_size_spec, i32_id; [done|].
  pose proof (pool_free_zlen _ Hok') as Hz. cbn in Hz. unfold in_i32 in *. lia.
Qed.

(** Giving back what was just taken. *)
Lemma pool_release_allocated p n :
  pool_ok p → (n <= free_count p)%Z →
  (l ← pool_allocate n; match l with Some l => pool_release l | None => mret tt end) p = Ok (tt, p).
Proof.
  intros Hok Hn. destruct (pool_allocate_ok p n Hok Hn) as (Ha & Hok' & Hfree).
  pose proof Hok as [Hb Hs Hc].
  run (exact Ha).
  set (new := take (Z.to_nat n) (pool_free p)) in *.
  assert (Forall (λ j, j ∈ pool_free p) new) as Hin.
  { apply Forall_forall. intros j Hj. unfold new in Hj. by eapply elem_of_take in Hj as (i & ? & _);
      eapply list_elem_of_lookup_2. }
  edestruct (pool_release_ok _ new Hok') as (-> & _ & _).
  - unfold new. eapply sublist_NoDup; [apply free_from_NoDup | apply sublist_take].
  - rewrite Forall_forall in Hin |- *. intros j Hj. unfold pool_in_use. cbn.
    apply in_use_set_all; [lia|]. split; [|by left]. eapply free_frames_range. by apply Hin.
  - cbn. rewrite (set_all_undo _ (frames_total p)) by (lia || done).
    destruct p. cbn. do 3 f_equal. lia.
Qed.
End PoolCorrect.
