(* ===== verification/Storage.v ===== *)
(** * Memory's storage (memoria/src/user_space, memoria/src/swap_space/swap_manager.c)

    [FrameManager] models frame_manager.c, [UserSpace] user_space_memory.c
    and [SwapManager] swap_manager.c.  Each operation of these files runs
    under the file's own mutex from beginning to end and is one atomic step
    here. *)
From S2P Require Import Prelude Commons Buffer Config Bitmap.
From Stdlib Require Import Strings.Byte.

(** ** frame_manager.c *)
Module FrameManager.
Section Operations.
Context {C : CommonsOps}.

Definition frame_get_free_count : M t_pool Z := gets free_count.

(** An integer division by zero ends the program. *)
Definition frame_allocation_init (config : t_memoria_config) : res t_pool :=
  if decide (TAM_PAGINA config = 0)%Z then Crash Exit
  else pool_init (TAM_MEMORIA config `quot` TAM_PAGINA config)%Z.

Definition release_frames (frame_list : list Z) : M t_pool unit := pool_release frame_list.

Definition allocate_frames (pages_needed : Z) : M t_pool (option (list Z)) :=
  pool_allocate pages_needed.
End Operations.

Lemma frame_allocation_init_ok {C : CommonsOps} {CL : CommonsLaws C} config :
  (0 < TAM_PAGINA config)%Z → (0 <= TAM_MEMORIA config)%Z → in_i32 (TAM_MEMORIA config) →
  ∃ p, frame_allocation_init config = Ok p ∧ pool_ok p ∧
    frames_total p = (TAM_MEMORIA config / TAM_PAGINA config)%Z ∧
    pool_free p = upto (TAM_MEMORIA config / TAM_PAGINA config).
Proof.
  intros Hp Hm Hi. unfold frame_allocation_init. rewrite decide_False by lia.
  rewrite Z.quot_div_nonneg by lia. unfold in_i32 in *.
  apply pool_init_ok; [by apply Z.div_pos|]. unfold in_i32.
  pose proof (Z.div_pos (TAM_MEMORIA config) (TAM_PAGINA config)).
  pose proof (Z.div_le_upper_bound (TAM_MEMORIA config) (TAM_PAGINA config) (TAM_MEMORIA config)). nia.
Qed.
End FrameManager.

(** ** user_space_memory.c *)
Module UserSpace.
Record t_user_space := mk_user_space { user_space : list byte; user_space_size : Z }.

#[export] Instance t_user_space_eq_dec : EqDecision t_user_space.
Proof. solve_decision. Defined.

(** The size is a [size_t]; [calloc] serves no more than [PTRDIFF_MAX]. *)
Definition init_user_space (size : Z) : res t_user_space :=
  if decide (size < 0 ∨ 9223372036854775807 < size)%Z then Crash Exit
  else Ok (mk_user_space (replicate (Z.to_nat size) x00) size).

Definition get_user_space_size : M t_user_space Z := gets user_space_size.

(** The sum of two [int32_t] is an [int]; compared with a [size_t] it is
    converted to one.  [memcpy] goes wherever the address points. *)
Definition write_to_user_space (config : t_memoria_config) (physical_address : Z)
    (data : list byte) (size : Z) : M t_user_space unit :=
  if decide (size > TAM_PAGINA config)%Z then mret tt
  else
    u ← get;
    if decide (u64 (i32 (physical_address + size)) > user_space_size u)%Z then mret tt
    else if decide (0 <= size <= zlen data ∧ 0 <= physical_address ∧
                    physical_address + size <= zlen (user_space u))%Z
    then put (mk_user_space
                (splice (Z.to_nat physical_address) (take (Z.to_nat size) data) (user_space u))
                (user_space_size u))
    else crash_with OutOfBounds.

(** The [size] bytes the buffer holds afterwards. *)
Definition read_from_user_space (physical_address size : Z) : M t_user_space (list byte) :=
  u ← get;
  if decide (u64 (i32 (physical_address + size)) > user_space_size u)%Z then
    if decide (size < 0)%Z then crash_with OutOfBounds
    else mret (replicate (Z.to_nat size) x00)
  else if decide (0 <= size ∧ 0 <= physical_address ∧
                  physical_address + size <= zlen (user_space u))%Z
  then mret (slice (Z.to_nat physical_address) (Z.to_nat size) (user_space u))
  else crash_with OutOfBounds.

(** The block has the size it says, which fits an [int32_t]. *)
Record user_space_ok (u : t_user_space) : Prop := {
  us_size : user_space_size u = zlen (user_space u);
  us_small : in_i32 (user_space_size u) }.

(** An address range inside user space. *)
Definition addressable (u : t_user_space) (physical_address size : Z) : Prop :=
  (0 <= physical_address ∧ 0 <= size ∧ physical_address + size <= user_space_size u)%Z.

#[export] Instance addressable_dec u a s : Decision (addressable u a s).
Proof. unfold addressable. apply _. Defined.

Definition stored (u : t_user_space) (physical_address size : Z) : list byte :=
  slice (Z.to_nat physical_address) (Z.to_nat size) (user_space u).

Definition with_bytes (u : t_user_space) (physical_address : Z) (data : list byte) : t_user_space :=
  mk_user_space (splice (Z.to_nat physical_address) data (user_space u)) (user_space_size u).

Section Correct.
Context (config : t_memoria_config).

Lemma init_user_space_ok size :
  (0 <= size)%Z → in_i32 size →
  ∃ u, init_user_space size = Ok u ∧ user_space_ok u ∧ user_space_size u = size.
Proof.
  intros ? Hi. unfold init_user_space. unfold in_i32 in Hi. rewrite decide_False by lia. eexists. split; [done|].
  split; [|done]. constructor; cbn; [|done]. unfold zlen. rewrite length_replicate. lia.
Qed.

Lemma with_bytes_ok u a data :
  user_space_ok u → addressable u a (zlen data) → user_space_ok (with_bytes u a data).
Proof.
  intros [Hs Hi] (? & ? & ?). constructor; cbn; [|done].
  unfold zlen in *. rewrite splice_length; lia.
Qed.

Lemma u64_sum u a size :
  user_space_ok u → addressable u a size → u64 (i32 (a + size)) = (a + size)%Z.
Proof.
  intros [Hs Hi] (? & ? & ?). unfold in_i32 in Hi.
  rewrite i32_id by (unfold in_i32; lia). apply u64_id. lia.
Qed.

Lemma write_ok u a data :
  user_space_ok u → addressable u a (zlen data) → (zlen data <= TAM_PAGINA config)%Z →
  write_to_user_space config a data (zlen data) u = Ok (tt, with_bytes u a data).
Proof.
  intros Hu Ha Hp. unfold write_to_user_space. rewrite decide_False by lia. step.
  rewrite (u64_sum u) by done. pose proof Hu as [Hs Hi]. pose proof Ha as (? & ? & ?).
  rewrite decide_False by lia. rewrite decide_True by (rewrite <- Hs; lia).
  unfold zlen at 1. by rewrite Nat2Z.id, firstn_all.
Qed.

Lemma read_ok u a size :
  user_space_ok u → addressable u a size →
  read_from_user_space a size u = Ok (stored u a size, u).
Proof.
  intros Hu Ha. unfold read_from_user_space. step.
  rewrite (u64_sum u) by done. pose proof Hu as [Hs Hi]. pose proof Ha as (? & ? & ?).
  rewrite decide_False by lia. by rewrite decide_True by (rewrite <- Hs; lia).
Qed.

(** More than a page, or beyond the end: the write is dropped. *)
Lemma write_refused u a data size :
  user_space_ok u →
  (size > TAM_PAGINA config ∨ 0 <= a + size < 2147483648 ∧ a + size > user_space_size u)%Z →
  write_to_user_space config a data size u = Ok (tt, u).
Proof.
  intros Hu H. unfold write_to_user_space. case_decide; [done|]. step.
  rewrite i32_id by (unfold in_i32; lia). rewrite u64_id by lia.
  by rewrite decide_True by lia.
Qed.

(** Beyond the end a read gives zeros. *)
Lemma read_refused u a size :
  (0 <= size)%Z → (0 <= a + size < 2147483648 ∧ a + size > user_space_size u)%Z →
  read_from_user_space a size u = Ok (replicate (Z.to_nat size) x00, u).
Proof.
  intros H0 H. unfold read_from_user_space. step.
  rewrite i32_id by (unfold in_i32; lia). rewrite u64_id by lia.
  rewrite decide_True by lia. by rewrite decide_False by lia.
Qed.

(** An address range entirely below 0 is caught by the conversion. *)
Lemma write_negative_caught u a data size :
  user_space_ok u → (- 2147483648 <= a + size < 0)%Z →
  write_to_user_space config a data size u = Ok (tt, u).
Proof.
  intros [Hs Hi] H. unfold write_to_user_space. case_decide; [done|]. step.
  unfold in_i32 in Hi. rewrite i32_id by (unfold in_i32; lia).
  rewrite u64_neg by lia. by rewrite decide_True by lia.
Qed.

(** A range that starts below 0 and ends inside user space is not: the
    copy leaves the block. *)
Lemma write_negative_passes u a data size :
  user_space_ok u → (a < 0)%Z → (size <= TAM_PAGINA config)%Z → in_i32 size →
  (0 <= a + size <= user_space_size u)%Z →
  write_to_user_space config a data size u = Crash OutOfBounds.
Proof.
  intros [Hs Hi] Ha Hp Hsz H. unfold write_to_user_space. rewrite decide_False by lia. step.
  unfold in_i32 in *. rewrite i32_id by (unfold in_i32; lia).
  rewrite u64_id by lia. rewrite decide_False by lia. by rewrite decide_False by lia.
Qed.

Lemma stored_with_bytes_eq u a data :
  user_space_ok u → addressable u a (zlen data) →
  stored (with_bytes u a data) a (zlen data) = data.
Proof.
  intros [Hs Hi] (? & ? & ?). unfold stored. cbn. unfold zlen in *. rewrite Nat2Z.id.
  apply slice_splice_eq. lia.
Qed.

Lemma stored_with_bytes_ne u a data a' size :
  user_space_ok u → addressable u a (zlen data) → (0 <= a')%Z → (0 <= size)%Z →
  (a' + size <= a ∨ a + zlen data <= a')%Z →
  stored (with_bytes u a data) a' size = stored u a' size.
Proof.
  intros [Hs Hi] (? & ? & ?) ? ? Hd. unfold stored. cbn. unfold zlen in *.
  apply slice_splice_ne; lia.
Qed.

Lemma stored_zlen u a size :
  user_space_ok u → addressable u a size → zlen (stored u a size) = size.
Proof.
  intros [Hs Hi] (? & ? & ?). unfold stored, zlen in *.
  rewrite slice_length by lia. lia.
Qed.
End Correct.
End UserSpace.

(** ** swap_manager.c *)
Module SwapManager.
Definition SWAP_INITIAL_FRAMES : Z := 4096.

(** [swap_file] is NULL ([None]) before initialisation; [disk_capacity] is
    how far the file system lets the file grow. *)
Record t_swap := mk_swap {
  swap_file : option (list byte); swap_frames : t_pool; disk_capacity : Z }.

#[export] Instance t_swap_eq_dec : EqDecision t_swap.
Proof. solve_decision. Defined.

(** A write at [position] of a file: a gap before it reads as zeros. *)
Definition file_put (position : nat) (data file : list byte) : list byte :=
  splice position data (file ++ replicate (position + length data - length file) x00).

Section Operations.
Context {C : CommonsOps} (config : t_memoria_config).

(** [fopen] may fail, which ends the program. *)
Definition swap_manager_init (fopen_succeeds : bool) (capacity : Z) : res t_swap :=
  if fopen_succeeds then
    p ← pool_init SWAP_INITIAL_FRAMES; Ok (mk_swap (Some []) p capacity)
  else Crash Exit.

Definition swap_allocate_frames (pages_needed : Z) : M t_swap (option (list Z)) :=
  zoom swap_frames (λ p s, mk_swap (swap_file s) p (disk_capacity s)) (pool_allocate pages_needed).

Definition swap_release_frames (frame_list : option (list Z)) : M t_swap unit :=
  match frame_list with
  | None => mret tt
  | Some l => zoom swap_frames (λ p s, mk_swap (swap_file s) p (disk_capacity s)) (pool_release l)
  end.

(** [fseek] refuses a negative position; [fwrite] stops where the disk
    does. *)
Definition swap_write_frame (frame_num : Z) (data : list byte) (size : Z) : M t_swap bool :=
  s ← get;
  match swap_file s with
  | None => mret false
  | Some file =>
      let position := i32 (frame_num * TAM_PAGINA config) in
      if decide (position < 0)%Z then mret false
      else if decide (size < 0 ∨ zlen data < size)%Z then crash_with OutOfBounds
      else
        let written := Z.max 0 (Z.min size (disk_capacity s - position)) in
        put (mk_swap
               (Some (file_put (Z.to_nat position) (take (Z.to_nat written) data) file))
               (swap_frames s) (disk_capacity s));;
        mret (bool_decide (written = size))
  end.

(** Whether all of it could be read, and the bytes. *)
Definition swap_read_frame (frame_num size : Z) : M t_swap (bool * list byte) :=
  s ← get;
  match swap_file s with
  | None => mret (false, [])
  | Some file =>
      let position := i32 (frame_num * TAM_PAGINA config) in
      if decide (position < 0)%Z then mret (false, [])
      else if decide (size < 0)%Z then crash_with OutOfBounds
      else
        let bytes := slice (Z.to_nat position) (Z.to_nat size) file in
        mret (bool_decide (zlen bytes = size), bytes)
  end.
End Operations.

Lemma file_put_length position data file :
  length (file_put position data file) = length file `max` (position + length data).
Proof. unfold file_put. rewrite splice_length; rewrite length_app, length_replicate; lia. Qed.

Lemma slice_file_put_eq position data file :
  slice position (length data) (file_put position data file) = data.
Proof. unfold file_put. apply slice_splice_eq. rewrite length_app, length_replicate. lia. Qed.

(** What was in the file before, away from the write, still is. *)
Lemma slice_file_put_ne position data file pos size :
  pos + size <= length file → pos + size <= position ∨ position + length data <= pos →
  slice pos size (file_put position data file) = slice pos size file.
Proof.
  intros Hl Hd. unfold file_put.
  rewrite slice_splice_ne by (rewrite ?length_app, ?length_replicate; lia).
  unfold slice. rewrite drop_app_le by lia. by rewrite take_app_le by (rewrite length_drop; lia).
Qed.

(** A swap slot: a whole page inside the file's reach. *)
Definition slot (config : t_memoria_config) (s : t_swap) (frame_num : Z) : Prop :=
  (0 <= frame_num ∧ 0 < TAM_PAGINA config ∧ (frame_num + 1) * TAM_PAGINA config < 2147483648 ∧
   (frame_num + 1) * TAM_PAGINA config <= disk_capacity s)%Z.

Definition slot_pos (config : t_memoria_config) (frame_num : Z) : nat :=
  Z.to_nat (frame_num * TAM_PAGINA config).

(** What the slot holds, when the file reaches that far. *)
Definition slot_holds (config : t_memoria_config) (s : t_swap) (frame_num : Z) (page : list byte) : Prop :=
  ∃ file, swap_file s = Some file ∧ zlen page = TAM_PAGINA config ∧
    slot_pos config frame_num + length page <= length file ∧
    slice (slot_pos config frame_num) (length page) file = page.

Definition swap_put (config : t_memoria_config) (s : t_swap) (frame_num : Z) (page : list byte) : t_swap :=
  mk_swap (file_put (slot_pos config frame_num) page <$> swap_file s) (swap_frames s) (disk_capacity s).

Section Correct.
Context (config : t_memoria_config).

Lemma slot_position s f :
  slot config s f → i32 (f * TAM_PAGINA config) = (f * TAM_PAGINA config)%Z.
Proof. intros (? & ? & ? & ?). apply i32_id. unfold in_i32. nia. Qed.

Lemma swap_write_ok s f page :
  is_Some (swap_file s) → slot config s f → zlen page = TAM_PAGINA config →
  swap_write_frame config f page (TAM_PAGINA config) s = Ok (true, swap_put config s f page).
Proof.
  intros [file Hf] Hs Hp. pose proof Hs as (? & ? & ? & ?).
  unfold swap_write_frame. step. rewrite Hf, (slot_position s f) by done.
  rewrite decide_False by nia. rewrite decide_False by lia.
  replace (Z.max 0 _) with (zlen page) by lia. rewrite bool_decide_true by done.
  unfold swap_put. rewrite Hf. cbn. unfold zlen. by rewrite Nat2Z.id, firstn_all.
Qed.

Lemma swap_put_holds s f page :
  is_Some (swap_file s) → zlen page = TAM_PAGINA config →
  slot_holds config (swap_put config s f page) f page.
Proof.
  intros [file Hf] Hp. unfold slot_holds, swap_put. rewrite Hf. cbn. eexists.
  split_and!; [done | done | rewrite file_put_length; lia | apply slice_file_put_eq].
Qed.

(** Writing one slot keeps the others. *)
Lemma swap_put_keeps s f g page page' :
  f ≠ g → (0 <= f)%Z → (0 <= g)%Z → (0 < TAM_PAGINA config)%Z → zlen page = TAM_PAGINA config →
  slot_holds config s g page' → slot_holds config (swap_put config s f page) g page'.
Proof.
  intros Hne Hf Hg Ht Hp (file & Hfile & Hp' & Hl & Hs). unfold slot_holds, swap_put.
  rewrite Hfile. cbn. eexists. split_and!; [done | done | rewrite file_put_length; lia |].
  rewrite slice_file_put_ne; [done | done |].
  unfold slot_pos in *. unfold zlen in *. rewrite !Z2Nat.inj_mul by lia.
  destruct (decide (f < g)%Z) as [Hlt|Hge]; [right|left].
  - assert ((f + 1) * TAM_PAGINA config <= g * TAM_PAGINA config)%Z by nia. nia.
  - assert ((g + 1) * TAM_PAGINA config <= f * TAM_PAGINA config)%Z by nia. nia.
Qed.

Lemma swap_read_ok s f page :
  slot config s f → slot_holds config s f page →
  swap_read_frame config f (TAM_PAGINA config) s = Ok ((true, page), s).
Proof.
  intros Hs (file & Hfile & Hp & Hl & Hsl). pose proof Hs as (? & ? & ? & ?).
  unfold swap_read_frame. step. rewrite Hfile, (slot_position s f) by done.
  rewrite decide_False by nia. rewrite decide_False by lia.
  replace (Z.to_nat (TAM_PAGINA config)) with (length page) by (unfold zlen in Hp; lia).
  fold (slot_pos config f). rewrite Hsl. by rewrite bool_decide_true.
Qed.

(** No room on the disk: reported, and the slot is not usable. *)
Lemma swap_write_full s f page :
  is_Some (swap_file s) → zlen page = TAM_PAGINA config → (0 <= f)%Z → (0 < TAM_PAGINA config)%Z →
  ((f + 1) * TAM_PAGINA config < 2147483648)%Z → (disk_capacity s < (f + 1) * TAM_PAGINA config)%Z →
  ∃ s', swap_write_frame config f page (TAM_PAGINA config) s = Ok (false, s') ∧
    swap_frames s' = swap_frames s.
Proof.
  intros [file Hf] Hp H0 Ht Hb Hc. unfold swap_write_frame. step. rewrite Hf.
  rewrite i32_id by (unfold in_i32; nia).
  rewrite decide_False by nia. rewrite decide_False by lia.
  rewrite bool_decide_false by lia. by eexists.
Qed.
End Correct.
End SwapManager.
