(* ===== verification/PageTableFacts.v ===== *)
(** * Page tables, proved

    [perfect E d id base fr] is the tree of a process: [d] levels below the
    root, [E] entries per table, tables numbered in preorder from [id],
    pages from [base] on, page [p] in frame [fr p].  The theorems say that
    creation builds it, that the breadth-first assignment fills it in page
    order, and that looking tables up by id walks it. *)
From S2P Require Import Prelude Commons Config PageTable.

(** Pages below a table with [d] levels under it. *)
Definition pages (E : Z) (d : nat) : Z := (E ^ Z.of_nat (S d))%Z.

Fixpoint perfect (E : Z) (d : nat) (id base : Z) (fr : Z → Z) : t_page_table :=
  mk_table id E
    match d with
    | O => (λ j, LastEntry 0 (fr (base + j)%Z)) <$> upto E
    | S d =>
        (λ i, let child := (id + 1 + i * tables_in E d)%Z in
              TableEntry child (Some (perfect E d child (base + i * pages E d) fr))) <$> upto E
    end.

(** The path to the [k]-th table [d] levels down, from left to right. *)
Fixpoint digits (E : Z) (d : nat) (k : Z) : path :=
  match d with
  | O => []
  | S d => (k / E ^ Z.of_nat d)%Z :: digits E d (k `mod` E ^ Z.of_nat d)
  end.

Section Perfect.
Context (E : Z) (HE : (0 < E)%Z).

Lemma pow_pos d : (0 < E ^ Z.of_nat d)%Z.
Proof. apply Z.pow_pos_nonneg; lia. Qed.

Lemma pow_S d : (E ^ Z.of_nat (S d) = E * E ^ Z.of_nat d)%Z.
Proof. rewrite Nat2Z.inj_succ, Z.pow_succ_r by lia. done. Qed.

Lemma pages_S d : pages E (S d) = (E * pages E d)%Z.
Proof. apply pow_S. Qed.

Lemma pages_pos d : (0 < pages E d)%Z.
Proof. apply pow_pos. Qed.

Lemma tables_in_pos d : (0 < tables_in E d)%Z.
Proof. induction d as [|d IH]; cbn [tables_in]; nia. Qed.

Lemma perfect_id d id base fr : table_id (perfect E d id base fr) = id.
Proof. by destruct d. Qed.

Lemma perfect_num d id base fr : num_entries (perfect E d id base fr) = E.
Proof. by destruct d. Qed.

Lemma perfect_entry_leaf id base fr j :
  (0 <= j < E)%Z →
  znth (entries (perfect E 0 id base fr)) j = Some (LastEntry 0 (fr (base + j)%Z)).
Proof. intros. cbn. by rewrite znth_fmap, znth_upto. Qed.

Lemma perfect_entry_node d id base fr i :
  (0 <= i < E)%Z →
  znth (entries (perfect E (S d) id base fr)) i =
    let child := (id + 1 + i * tables_in E d)%Z in
    Some (TableEntry child (Some (perfect E d child (base + i * pages E d) fr))).
Proof. intros. cbn [perfect entries]. by rewrite znth_fmap, znth_upto. Qed.

Lemma perfect_entries_zlen d id base fr : zlen (entries (perfect E d id base fr)) = E.
Proof.
  unfold zlen. destruct d; cbn [perfect entries]; rewrite length_fmap; unfold upto;
    rewrite length_seqZ; lia.
Qed.

Lemma child_pages d base i p :
  (0 <= i < E)%Z → (base + i * pages E d <= p < base + i * pages E d + pages E d)%Z →
  (base <= p < base + pages E (S d))%Z.
Proof. intros. rewrite pages_S. pose proof (pages_pos d). nia. Qed.

(** Only the frames of its own pages matter to a table. *)
Lemma perfect_ext d id base fr fr' :
  (∀ p, (base <= p < base + pages E d)%Z → fr p = fr' p) →
  perfect E d id base fr = perfect E d id base fr'.
Proof.
  revert id base. induction d as [|d IH]; intros id base H; cbn [perfect]; f_equal.
  - apply list_fmap_ext. intros i j Hij%list_elem_of_lookup_2%elem_of_upto. rewrite H; [done|].
    unfold pages. cbn. lia.
  - apply list_fmap_ext. intros i j Hij%list_elem_of_lookup_2%elem_of_upto. cbn zeta.
    rewrite (IH _ (base + j * pages E d)%Z); [done|].
    intros p Hp. apply H. by apply (child_pages d base j).
Qed.

(** *** Creation *)
Section Created.
Context {C : CommonsOps} {CL : CommonsLaws C} (config : t_memoria_config).
Context (Hcfg : ENTRADAS_POR_TABLA config = E) (HEi : in_i32 E).

Definition no_frames : Z → Z := λ _, INVALID_FRAME_NUMBER.

Lemma upto_entries : u64 (ENTRADAS_POR_TABLA config) = E.
Proof. rewrite Hcfg. apply u64_id. unfold in_i32 in HEi. lia. Qed.

Lemma fmap_upto_S {B} (f : Z → B) i : (0 <= i)%Z → f <$> upto (i + 1) = (f <$> upto i) ++ [f i].
Proof. intros. by rewrite upto_S, fmap_app. Qed.

Lemma create_table_ok d fuel level id base :
  d < fuel → level = (CANTIDAD_NIVELES config - 1 - Z.of_nat d)%Z →
  (0 < id)%Z → (id + tables_in E d < 2147483648)%Z →
  _create_table config fuel level id
  = Ok (perfect E d id base no_frames, (id + tables_in E d)%Z).
Proof.
  revert fuel level id base.
  induction d as [|d IH]; intros fuel level id base Hfuel -> Hid Hmax;
    (destruct fuel as [|fuel]; [lia|]); cbn [_create_table tables_in] in *; rewrite upto_entries;
    (run done); (run done).
  - rewrite i32_id by (unfold in_i32; lia).
    rewrite bool_decide_true by lia.
    run (apply (fold_upto _ (λ i, (λ j, LastEntry 0 (no_frames (base + j)%Z)) <$> upto i) (λ _, id + 1)%Z);
      [lia | done | done |]; intros i Hi; cbn [init_page_table_entry]; by rewrite list_add_spec, fmap_upto_S by lia).
    done.
  - pose proof (tables_in_pos d) as Hpos.
    rewrite i32_id by (unfold in_i32; nia).
    rewrite bool_decide_false by lia.
    run (apply (fold_upto _
          (λ i, (λ i, let child := (id + 1 + i * tables_in E d)%Z in
             TableEntry child (Some (perfect E d child (base + i * pages E d) no_frames))) <$> upto i)
          (λ i, id + 1 + i * tables_in E d)%Z); [lia | done | lia |]; intros i Hi;
      run (apply (IH _ _ _ (base + i * pages E d)%Z); [lia | lia | nia | nia]);
      rewrite list_add_spec, fmap_upto_S by lia; rewrite perfect_id;
      step; do 2 f_equal; lia).
    step. do 2 f_equal. lia.
Qed.

(** Fuel is enough, the ids start over, and no page has a frame. *)
Lemma init_page_table_ok d :
  CANTIDAD_NIVELES config = Z.of_nat (S d) → (1 + tables_in E d < 2147483648)%Z →
  init_page_table config 1%Z = Ok (perfect E d 1 0 no_frames, 1%Z).
Proof.
  intros Hn Hmax. unfold init_page_table. rewrite Hn, Nat2Z.id.
  by run (apply (create_table_ok d _ _ _ 0); lia).
Qed.

(** Without a last level the recursion has no end. *)
Lemma create_table_diverges fuel level id :
  (CANTIDAD_NIVELES config - 1 < level)%Z → _create_table config fuel level id = Crash OutOfFuel.
Proof.
  revert level id. induction fuel as [|fuel IH]; intros level id Hl; [done|].
  cbn [_create_table]. rewrite upto_entries. run done. run done.
  rewrite bool_decide_false by lia. apply M_bind_crash.
  unfold upto. rewrite seqZ_cons by lia. cbn [fold_m].
  apply M_bind_crash, M_bind_crash, IH. lia.
Qed.
End Created.

(** *** Lookup by id *)

Lemma find_first_at {T} (f : T → option T) es (i : nat) id c found :
  es !! i = Some (TableEntry id (Some c)) → f c = Some found →
  (∀ j e, j < i → es !! j = Some e → ∃ id' c', e = TableEntry id' (Some c') ∧ f c' = None) →
  find_first f es = Some found.
Proof.
  revert i. induction es as [|e es IH]; intros [|i] Hi Hf Hlt; simplify_eq/=.
  - by rewrite Hf.
  - destruct (Hlt 0 e) as (id' & c' & -> & ->); [lia | done |].
    apply (IH i); [done..|]. intros j e Hj He. apply (Hlt (S j)); [lia | done].
Qed.

Lemma find_first_none {T} (f : T → option T) es :
  (∀ e, e ∈ es → ∃ id' c', e = TableEntry id' (Some c') ∧ f c' = None) →
  find_first f es = None.
Proof.
  induction es as [|e es IH]; intros H; [done|]. cbn.
  destruct (H e) as (id' & c' & -> & ->); [by left|]. apply IH. intros. apply H. by right.
Qed.

Lemma find_perfect_eq d id base fr target :
  find_table_by_id (perfect E d id base fr) target =
    if decide (id = target) then Some (perfect E d id base fr)
    else match d with
         | O => None
         | S _ => find_first (λ t, find_table_by_id t target) (entries (perfect E d id base fr))
         end.
Proof.
  destruct d as [|d]; cbn [perfect find_table_by_id table_id entries]; case_decide; try done;
    unfold upto; rewrite seqZ_cons by lia; done.
Qed.

(** An id outside the subtree's range is not found in it. *)
Lemma find_out d id base fr target :
  (0 < id)%Z → ¬ (id <= target < id + tables_in E d)%Z →
  find_table_by_id (perfect E d id base fr) target = None.
Proof.
  revert id base. induction d as [|d IH]; intros id base Hid Hout;
    rewrite find_perfect_eq; cbn [tables_in] in Hout.
  - rewrite decide_False by lia. done.
  - pose proof (tables_in_pos d). rewrite decide_False by nia.
    apply find_first_none. intros e He%list_elem_of_fmap.
    destruct He as (i & -> & Hi%elem_of_upto). eexists _, _. split; [done|].
    apply IH; nia.
Qed.

(** The table at a valid path, as a tree of its own. *)
Lemma table_at_cons d id base fr i p :
  (0 <= i < E)%Z →
  table_at (perfect E (S d) id base fr) (i :: p) =
    table_at (perfect E d (id + 1 + i * tables_in E d) (base + i * pages E d) fr) p.
Proof. intros. cbn [table_at]. by rewrite perfect_entry_node. Qed.

(** Ids are unique: the id of a table finds that table. *)
Lemma find_at d id base fr p t :
  (0 < id)%Z → table_at (perfect E d id base fr) p = Some t →
  (id <= table_id t < id + tables_in E d)%Z ∧
  find_table_by_id (perfect E d id base fr) (table_id t) = Some t.
Proof.
  revert id base p. induction d as [|d IH]; intros id base p Hid Ht; destruct p as [|i p].
  1,3: apply (inj Some) in Ht; subst t; rewrite find_perfect_eq, perfect_id, decide_True by done;
    split; [|done]; match goal with |- context [tables_in E ?n] => pose proof (tables_in_pos n) end; lia.
  - cbn in Ht. rewrite znth_fmap in Ht. by destruct (znth (upto E) i).
  - destruct (decide (0 <= i < E)%Z) as [Hi|Hi].
    2:{ cbn [table_at] in Ht. cbn [perfect entries] in Ht. rewrite znth_fmap in Ht.
        destruct (znth (upto E) i) as [z|] eqn:Ez; [|done].
        apply znth_Some_range in Ez. rewrite zlen_upto in Ez; lia. }
    pose proof (tables_in_pos d) as Hpos.
    rewrite table_at_cons in Ht by done. apply IH in Ht as [Hr Hf]; [|nia].
    split; [cbn [tables_in]; nia|].
    rewrite find_perfect_eq. rewrite decide_False by nia.
    pose proof (perfect_entry_node d id base fr i Hi) as Hn.
    unfold znth in Hn. rewrite decide_True in Hn by lia.
    eapply (find_first_at _ _ _ _ _ _ Hn Hf).
    intros j e Hj He. pose proof (perfect_entry_node d id base fr (Z.of_nat j) ltac:(lia)) as Hn'.
    rewrite znth_nat in Hn'. rewrite Hn' in He. injection He as <-.
    eexists _, _. split; [done|]. apply find_out; nia.
Qed.

(** *** Paths in page order *)

Lemma digits_valid d k l :
  (0 <= k < E ^ Z.of_nat (S d))%Z → l = (k / E ^ Z.of_nat d)%Z → (0 <= l < E)%Z.
Proof.
  intros Hk ->. pose proof (pow_pos d). rewrite pow_S in Hk. split.
  - apply Z.div_pos; lia.
  - apply Z.div_lt_upper_bound; lia.
Qed.

(** The id of the [k]-th table [l] levels down. *)
Fixpoint id_at (d : nat) (id : Z) (l : nat) (k : Z) : Z :=
  match l, d with
  | S l, S d => id_at d (id + 1 + k / E ^ Z.of_nat l * tables_in E d) l (k `mod` E ^ Z.of_nat l)
  | _, _ => id
  end.

(** The [k]-th table [l] levels down has [pages] from [k * pages] on. *)
Lemma table_at_id d l id base fr k :
  l <= d → (0 <= k < E ^ Z.of_nat l)%Z →
  table_at (perfect E d id base fr) (digits E l k)
    = Some (perfect E (d - l) (id_at d id l k) (base + k * pages E (d - l)) fr).
Proof.
  revert d id base k. induction l as [|l IH]; intros d id base k Hl Hk.
  - cbn in *. rewrite Nat.sub_0_r. replace k with 0%Z by lia.
    rewrite Z.mul_0_l, Z.add_0_r. by destruct d.
  - destruct d as [|d]; [lia|]. cbn [digits id_at].
    pose proof (digits_valid l k _ Hk eq_refl) as Hi. pose proof (pow_pos l) as Hp.
    rewrite table_at_cons by done.
    rewrite IH by (lia || by apply Z.mod_pos_bound). cbn [Nat.sub]. do 2 f_equal.
    assert (pages E d = E ^ Z.of_nat l * pages E (d - l))%Z as ->.
    { unfold pages. rewrite <- Z.pow_add_r by lia. f_equal. lia. }
    pose proof (Z.div_mod k (E ^ Z.of_nat l) ltac:(lia)). nia.
Qed.

Lemma table_at_digits d l id base fr k :
  l <= d → (0 <= k < E ^ Z.of_nat l)%Z →
  ∃ id', table_at (perfect E d id base fr) (digits E l k)
    = Some (perfect E (d - l) id' (base + k * pages E (d - l)) fr).
Proof. intros. eexists. by apply table_at_id. Qed.

Lemma digits_snoc l k i :
  (0 <= k < E ^ Z.of_nat l)%Z → (0 <= i < E)%Z →
  digits E l k ++ [i] = digits E (S l) (k * E + i).
Proof.
  revert k. induction l as [|l IH]; intros k Hk Hi.
  - cbn in *. replace k with 0%Z by lia. cbn. by rewrite Z.div_1_r.
  - cbn [digits app]. pose proof (pow_pos l) as Hp.
    rewrite pow_S in Hk |- *.
    rewrite IH by (done || by apply Z.mod_pos_bound). cbn [digits].
    assert ((k * E + i) / (E * E ^ Z.of_nat l) = k / E ^ Z.of_nat l)%Z as ->.
    { rewrite <- Z.div_div by lia. rewrite Z.div_add_l, (Z.div_small i) by lia.
      by rewrite Z.add_0_r. }
    assert ((k * E + i) `mod` (E * E ^ Z.of_nat l) = k `mod` E ^ Z.of_nat l * E + i)%Z as ->.
    { rewrite Z.rem_mul_r by lia. rewrite Z.div_add_l, (Z.div_small i), Z.add_0_r by lia.
      rewrite (Z.add_comm (k * E)), Z.mod_add, (Z.mod_small i) by lia. lia. }
    done.
Qed.

Lemma table_at_app t p q : table_at t (p ++ q) = t' ← table_at t p; table_at t' q.
Proof.
  revert t. induction p as [|i p IH]; intros t; [done|]. cbn [app table_at].
  destruct (znth (entries t) i) as [[|? [t'|]]|]; try done.
Qed.

(** The ids of the children follow the id of their parent. *)
Lemma id_at_child d id l k i :
  l < d → (0 <= k < E ^ Z.of_nat l)%Z → (0 <= i < E)%Z →
  id_at d id (S l) (k * E + i) = (id_at d id l k + 1 + i * tables_in E (d - S l))%Z.
Proof.
  intros Hl Hk Hi. set (fr := λ _ : Z, 0%Z).
  assert (0 <= k * E + i < E ^ Z.of_nat (S l))%Z as Hk' by (rewrite pow_S; nia).
  pose proof (table_at_id d (S l) id 0 fr (k * E + i) Hl Hk') as H1.
  rewrite <- digits_snoc, table_at_app, (table_at_id d l) in H1 by (done || lia).
  cbn [mbind option_bind] in H1.
  replace (d - l) with (S (d - S l)) in H1 by lia.
  rewrite table_at_cons in H1 by done. apply (inj Some) in H1.
  apply (f_equal table_id) in H1. by rewrite !perfect_id in H1.
Qed.

Lemma id_at_range d id l k :
  (0 < id)%Z → l <= d → (0 <= k < E ^ Z.of_nat l)%Z →
  (id <= id_at d id l k < id + tables_in E d)%Z.
Proof.
  intros Hid Hl Hk. pose proof (table_at_id d l id 0 (λ _, 0%Z) k Hl Hk) as Ht.
  apply find_at in Ht as [Hr _]; [|done]. by rewrite perfect_id in Hr.
Qed.

(** The tree determines the mapping. *)
Lemma perfect_inj d id base fr fr' :
  perfect E d id base fr = perfect E d id base fr' →
  ∀ p, (base <= p < base + pages E d)%Z → fr p = fr' p.
Proof.
  intros H p Hp. set (k := ((p - base) / E)%Z). set (j := ((p - base) `mod` E)%Z).
  assert (0 <= k < E ^ Z.of_nat d)%Z as Hk.
  { unfold k, pages in *. rewrite pow_S in Hp. split; [apply Z.div_pos; lia|].
    apply Z.div_lt_upper_bound; lia. }
  assert (0 <= j < E)%Z as Hj by (by apply Z.mod_pos_bound).
  pose proof (table_at_id d d id base fr k ltac:(lia) Hk) as H1.
  rewrite H, (table_at_id d d) in H1 by (done || lia).
  rewrite Nat.sub_diag in H1. apply (inj Some) in H1.
  apply (f_equal (λ t, znth (entries t) j)) in H1. rewrite !perfect_entry_leaf in H1 by done.
  assert (base + k * pages E 0 + j = p)%Z as Hpj.
  { unfold pages. cbn. rewrite Z.pow_1_r.
    pose proof (Z.div_mod (p - base) E ltac:(lia)). lia. }
  rewrite Hpj in H1. by injection H1.
Qed.

(** *** Breadth-first collection *)
Section Collected.
Context {C : CommonsOps} {CL : CommonsLaws C} (config : t_memoria_config).
Context (d : nat) (Hlev : CANTIDAD_NIVELES config = Z.of_nat (S d)).
Context (id base : Z) (fr : Z → Z).

Definition item (l : nat) (k : Z) : queue_item_t := mk_item (digits E l k) (Z.of_nat l).

Definition stack_item (k : Z) : stack_item_t :=
  mk_stack_item (digits E d k) (CANTIDAD_NIVELES config - 1) 0.

Lemma push_children l k q :
  l < d → (0 <= k < E ^ Z.of_nat l)%Z →
  ∃ t, table_at (perfect E d id base fr) (digits E l k) = Some t ∧
  foldl (λ q i,
    match list_get (entries t) i with
    | Some (TableEntry _ (Some _)) =>
        queue_push q (mk_item (digits E l k ++ [i]) (Z.of_nat l + 1))
    | _ => q
    end) q (upto (num_entries t))
  = q ++ ((λ i, item (S l) (k * E + i)) <$> upto E).
Proof.
  intros Hl Hk. destruct (table_at_digits d l id base fr k) as [id' Ht]; [lia | done |].
  eexists. split; [exact Ht|]. rewrite perfect_num.
  destruct (d - l) as [|d'] eqn:Ed; [lia|]. clear Ht.
  assert (∀ i, i ∈ upto E → (0 <= i < E)%Z) as Hin by (intros i; by rewrite elem_of_upto).
  revert q Hin. induction (upto E) as [|i js IH]; intros q Hin; cbn [foldl fmap list_fmap].
  - by rewrite app_nil_r.
  - rewrite list_get_spec, perfect_entry_node by (apply Hin; by left). cbn zeta.
    rewrite IH by (intros; apply Hin; by right).
    rewrite queue_push_spec, <- app_assoc. unfold item at 2.
    rewrite <- digits_snoc by (done || apply Hin; by left).
    cbn. do 3 f_equal. unfold item. f_equal. lia.
Qed.

(** One level: its tables leave the queue, their children enter it. *)
Lemma collect_level l ks rest result max fuel :
  l < d → Forall (λ k, (0 <= k < E ^ Z.of_nat l)%Z) ks → length ks <= fuel →
  collect_last_level_tables config fuel (perfect E d id base fr) ((item l <$> ks) ++ rest) result max
  = collect_last_level_tables config (fuel - length ks) (perfect E d id base fr)
      (rest ++ (item (S l) <$> (ks ≫= λ k, (λ i, k * E + i)%Z <$> upto E))) result max.
Proof.
  intros Hl Hks. revert rest fuel. induction Hks as [|k ks Hk Hks IH]; intros rest fuel Hf.
  - cbn. by rewrite app_nil_r, Nat.sub_0_r.
  - cbn [length] in Hf. destruct fuel as [|fuel]; [lia|].
    cbn [fmap list_fmap app collect_last_level_tables].
    rewrite queue_is_empty_spec, bool_decide_false by done.
    rewrite queue_pop_spec. cbn [head tail item_level item_table item].
    rewrite decide_False by lia.
    destruct (push_children l k ((item l <$> ks) ++ rest) Hl Hk) as (t & -> & Hpush).
    rewrite Hpush, <- app_assoc. rewrite IH by lia.
    cbn [length Nat.sub]. rewrite bind_cons, fmap_app, <- app_assoc.
    do 2 f_equal. rewrite <- list_fmap_compose. done.
Qed.

(** The last level: its tables are the result. *)
Lemma collect_last ks result max fuel :
  length ks <= fuel → (zlen result + zlen ks <= max)%Z →
  collect_last_level_tables config fuel (perfect E d id base fr) (item d <$> ks) result max
  = Ok (result ++ (stack_item <$> ks)).
Proof.
  revert result fuel. induction ks as [|k ks IH]; intros result fuel Hf Hm.
  - cbn [fmap list_fmap]. destruct fuel; cbn [collect_last_level_tables];
      by rewrite queue_is_empty_spec, bool_decide_true, app_nil_r.
  - cbn [length] in Hf. destruct fuel as [|fuel]; [lia|].
    cbn [fmap list_fmap collect_last_level_tables].
    rewrite queue_is_empty_spec, bool_decide_false by done.
    rewrite queue_pop_spec. cbn [head tail item_level item_table item].
    rewrite decide_True by lia. unfold zlen in *. cbn [length] in Hm.
    rewrite decide_True by lia. cbn zeta.
    rewrite IH by (rewrite ?length_app; cbn; lia).
    rewrite <- app_assoc. cbn. do 3 f_equal. unfold stack_item. f_equal. lia.
Qed.

Lemma upto_mul n : (0 <= n)%Z → (upto n ≫= λ k, (λ i, k * E + i)%Z <$> upto E) = upto (n * E).
Proof.
  intros Hn. revert n Hn. apply natlike_ind; [done|]. intros n Hn IH.
  rewrite <- Z.add_1_r, upto_S, bind_app, IH by done. cbn. rewrite app_nil_r.
  unfold upto at 3. rewrite Z.mul_add_distr_r, Z.mul_1_l, seqZ_app by nia.
  f_equal. unfold upto. setoid_rewrite (fmap_add_seqZ (n * E) 0 E). by rewrite Z.add_0_r.
Qed.

Lemma collect_from m l max fuel :
  d - l = m → l <= d → (E ^ Z.of_nat d <= max)%Z →
  (E ^ Z.of_nat l * tables_in E m <= Z.of_nat fuel)%Z →
  collect_last_level_tables config fuel (perfect E d id base fr)
    (item l <$> upto (E ^ Z.of_nat l)) [] max = Ok (stack_item <$> upto (E ^ Z.of_nat d)).
Proof.
  revert l fuel. induction m as [|m IH]; intros l fuel Hm Hl Hmax Hfuel;
    pose proof (pow_pos l) as Hp; pose proof (zlen_upto (E ^ Z.of_nat l) ltac:(lia)) as Hz;
    cbn [tables_in] in Hfuel.
  - assert (l = d) as -> by lia.
    rewrite collect_last by (unfold zlen in *; cbn [length]; lia). done.
  - pose proof (tables_in_pos m). unfold zlen in Hz.
    rewrite <- (app_nil_r (item l <$> _)).
    rewrite collect_level; [| lia | | nia].
    2:{ apply Forall_forall. intros k. by rewrite elem_of_upto. }
    cbn [app]. rewrite upto_mul by lia.
    rewrite Z.mul_comm, <- pow_S. apply IH; [lia | lia | done |].
    rewrite Nat2Z.inj_sub by nia. rewrite pow_S. nia.
Qed.

(** All last-level tables, from left to right. *)
Lemma collect_ok max :
  (E ^ Z.of_nat d <= max)%Z →
  collect_last_level_tables config (Z.to_nat (tables_in E d)) (perfect E d id base fr)
    [mk_item [] 0] [] max = Ok (stack_item <$> upto (E ^ Z.of_nat d)).
Proof.
  intros Hmax. pose proof (tables_in_pos d).
  apply (collect_from d 0); [lia | lia | done |]. rewrite Z2Nat.id by lia. cbn. lia.
Qed.
End Collected.

(** *** Assignment *)

Lemma set_frame_perfect d id base fr k j f :
  (0 <= k < E ^ Z.of_nat d)%Z → (0 <= j < E)%Z →
  set_frame_at (digits E d k) j f (perfect E d id base fr)
  = perfect E d id base (λ p, if decide (p = base + k * E + j)%Z then f else fr p).
Proof.
  revert id base k. induction d as [|d IH]; intros id base k Hk Hj.
  - cbn in Hk. replace k with 0%Z by lia. cbn [digits set_frame_at].
    rewrite perfect_entry_leaf by done. cbn. f_equal. apply znth_ext.
    + by rewrite zset_zlen; unfold zlen; rewrite !length_fmap.
    + intros i. rewrite zset_zlen. unfold zlen. rewrite length_fmap. intros Hi.
      pose proof (zlen_upto E ltac:(lia)) as Hz. unfold zlen in Hz.
      rewrite (znth_fmap _ (upto E) i), znth_upto by lia. cbn.
      destruct (decide (i = j)) as [->|Hne].
      * rewrite znth_zset_eq by (unfold zlen; rewrite length_fmap; lia).
        rewrite decide_True by lia. done.
      * rewrite znth_zset_ne, znth_fmap, znth_upto by lia. cbn. by rewrite decide_False by lia.
  - cbn [digits set_frame_at]. pose proof (pow_pos d) as Hp.
    pose proof (digits_valid d k _ Hk eq_refl) as Hi.
    rewrite perfect_entry_node by done. cbv zeta iota beta.
    rewrite IH by (done || by apply Z.mod_pos_bound).
    rewrite perfect_id, perfect_num. cbn [perfect]. f_equal.
    pose proof (Z.div_mod k (E ^ Z.of_nat d) ltac:(lia)) as Hdm.
    pose proof (Z.mod_pos_bound k (E ^ Z.of_nat d) ltac:(lia)) as Hm.
    assert (pages E d = E * E ^ Z.of_nat d)%Z as Hpg by apply pow_S.
    set (q := (k / E ^ Z.of_nat d)%Z) in *. set (r := (k `mod` E ^ Z.of_nat d)%Z) in *.
    apply znth_ext.
    + rewrite zset_zlen. cbn [perfect entries]. unfold zlen. by rewrite !length_fmap.
    + intros i. rewrite zset_zlen. cbn [perfect entries]. unfold zlen. rewrite length_fmap. intros Hi'.
      pose proof (zlen_upto E ltac:(lia)) as Hz. unfold zlen in Hz.
      rewrite (znth_fmap _ (upto E) i), znth_upto by lia. cbn [fmap option_fmap option_map].
      destruct (decide (i = q)) as [->|Hne].
      * rewrite znth_zset_eq by (unfold zlen; rewrite length_fmap; lia).
        do 3 f_equal. apply perfect_ext. intros p _. apply decide_ext. rewrite Hpg. nia.
      * rewrite znth_zset_ne, znth_fmap, znth_upto by lia. cbn. do 3 f_equal.
        apply perfect_ext. intros p Hpp. rewrite decide_False; [done|]. rewrite Hpg in Hpp. nia.
Qed.

Section Assigned.
Context {C : CommonsOps} {CL : CommonsLaws C} (config : t_memoria_config).
Context (d : nat) (Hlev : CANTIDAD_NIVELES config = Z.of_nat (S d)).
Context (Hent : ENTRADAS_POR_TABLA config = E).
Context (id : Z) (frames : list Z) (needed : Z).
Context (Hneeded : (0 < needed <= zlen frames)%Z).

(** The first [n] pages have their frames. *)
Definition assigned (n : Z) : Z → Z :=
  λ p, if decide (0 <= p < n)%Z then default INVALID_FRAME_NUMBER (znth frames p)
       else INVALID_FRAME_NUMBER.

Lemma assigned_S n f :
  (0 <= n)%Z → znth frames n = Some f →
  ∀ p, (if decide (p = n)%Z then f else assigned n p) = assigned (n + 1) p.
Proof.
  intros Hn Hf p. unfold assigned. destruct (decide (p = n)) as [->|Hne].
  - rewrite decide_True by lia. by rewrite Hf.
  - by rewrite (decide_ext (0 <= p < n)%Z (0 <= p < n + 1)%Z) by lia.
Qed.

Lemma assign_entries_ok k m j :
  (0 <= k < E ^ Z.of_nat d)%Z → (0 <= j <= E)%Z → m = Z.to_nat (E - j) →
  let n := Z.min needed (k * E + j) in
  let n' := Z.min needed (k * E + E) in
  assign_entries (seqZ j (E - j)) (digits E d k) frames needed (perfect E d id 0 (assigned n)) n
  = (perfect E d id 0 (assigned n'), n').
Proof.
  intros Hk. revert j. induction m as [|m IH]; intros j Hj Hm n n'.
  - rewrite seqZ_nil by lia. cbn. subst n n'. replace j with E by lia. done.
  - rewrite seqZ_cons by lia. cbn [assign_entries]. case_decide as Hlt.
    + assert (n = k * E + j)%Z as Hn by lia.
      destruct (znth_is_Some frames n) as [f Hf]; [nia|].
      rewrite list_get_spec, Hf, set_frame_perfect by lia.
      rewrite (perfect_ext d id 0 _ (assigned (n + 1))).
      2:{ intros p _. rewrite <- (assigned_S n f) by (done || nia).
          by rewrite (decide_ext (p = 0 + k * E + j)%Z (p = n)) by lia. }
      specialize (IH (j + 1)%Z ltac:(lia) ltac:(lia)). cbn zeta in IH.
      replace (Z.min needed (k * E + (j + 1))) with (n + 1)%Z in IH by lia.
      etransitivity; [|exact IH]. f_equal; f_equal; lia.
    + assert (n = needed) by lia. assert (n' = needed) by lia. congruence.
Qed.

Lemma assign_tables_ok m k :
  (0 <= k <= E ^ Z.of_nat d)%Z → m = Z.to_nat (E ^ Z.of_nat d - k) →
  let n := Z.min needed (k * E) in
  let n' := Z.min needed (pages E d) in
  assign_tables (stack_item config d <$> seqZ k (E ^ Z.of_nat d - k)) frames needed
    (perfect E d id 0 (assigned n)) n
  = Ok (perfect E d id 0 (assigned n'), n').
Proof.
  revert k. induction m as [|m IH]; intros k Hk Hm n n'.
  - rewrite seqZ_nil by lia. cbn. subst n n'. unfold pages. rewrite pow_S.
    replace k with (E ^ Z.of_nat d)%Z by lia. by rewrite Z.mul_comm.
  - rewrite seqZ_cons by lia. cbn [fmap list_fmap assign_tables]. case_decide as Hlt.
    + assert (n = k * E)%Z as Hn by lia. cbn [stack_table stack_item].
      destruct (table_at_digits d d id 0 (assigned n) k) as [id' ->]; [lia | lia |].
      rewrite perfect_num. change (upto E) with (seqZ 0 E).
      pose proof (assign_entries_ok k (Z.to_nat E) 0 ltac:(lia) ltac:(lia) ltac:(lia)) as He.
      cbn zeta in He. rewrite Z.sub_0_r, Z.add_0_r in He. fold n in He. rewrite He.
      specialize (IH (k + 1)%Z ltac:(lia) ltac:(lia)). cbn zeta in IH.
      replace ((k + 1) * E)%Z with (k * E + E)%Z in IH by lia.
      etransitivity; [|exact IH]. f_equal. f_equal. f_equal; lia.
    + assert (n = needed) by lia. assert (n' = needed); [|congruence].
      unfold n', pages. rewrite pow_S. nia.
Qed.

(** The outcome: the first [needed] pages are mapped to the frames, in
    order, and the answer tells whether they all fit in the tables. *)
Lemma assign_frames_ok :
  in_i32 (E ^ Z.of_nat d) →
  assign_frames config (perfect E d id 0 no_frames) frames needed
  = Ok (bool_decide (needed <= pages E d)%Z,
        perfect E d id 0 (assigned (Z.min needed (pages E d)))).
Proof.
  intros Hi. unfold assign_frames. rewrite decide_False by lia.
  rewrite Hent, Hlev. replace (Z.of_nat (S d) - 1)%Z with (Z.of_nat d) by lia.
  rewrite Nat2Z.id, i32_id by done.
  rewrite (collect_ok config d Hlev) by lia. cbn [mbind res_bind].
  pose proof (pow_pos d) as Hp. pose proof (pages_pos d) as Hpg.
  pose proof (assign_tables_ok (Z.to_nat (E ^ Z.of_nat d)) 0 ltac:(lia) ltac:(lia)) as Ht.
  cbn zeta in Ht. rewrite Z.sub_0_r, Z.mul_0_l in Ht.
  replace (Z.min needed 0) with 0%Z in Ht by lia.
  rewrite (perfect_ext d id 0 no_frames (assigned 0)).
  2:{ intros p _. unfold assigned. by rewrite decide_False by lia. }
  change (upto (E ^ Z.of_nat d)) with (seqZ 0 (E ^ Z.of_nat d)).
  setoid_rewrite Ht. cbn. do 2 f_equal. apply bool_decide_ext. lia.
Qed.
End Assigned.
End Perfect.
