(* ===== verification/Memoria.v ===== *)
(** * The memory module (memoria/src)

    The state of the module, the process manager (process_manager.c), process
    creation (init-process.c), suspension and resumption (swap_out.c,
    swap_in.c), the request handlers of client/ and the dispatch loop
    (handlers.c).  A handler runs to completion: a [process_info *] is the
    position of the process in the global list.  The [delay_*] calls only
    sleep. *)
From S2P Require Import Prelude Commons Enums Buffer Package Packages Config Semaphores Bitmap.
From S2P Require Import Storage PageTable.
From Stdlib Require Import Strings.Byte Strings.Ascii.
Import Buffer Package FrameManager UserSpace SwapManager.

(** ** semaphores.c *)
Inductive t_sem :=
  | sem_process_list | sem_frame_manager | sem_process_instructions | sem_swap_file
  | sem_page_table | sem_process_metrics | sem_process_creation.

#[export] Instance t_sem_eq_dec : EqDecision t_sem.
Proof. solve_decision. Defined.

Definition all_sems : list t_sem :=
  [sem_process_list; sem_frame_manager; sem_process_instructions; sem_swap_file;
   sem_page_table; sem_process_metrics; sem_process_creation].

#[export] Program Instance t_sem_finite : finite.Finite t_sem := {| finite.enum := all_sems |}.
Next Obligation. apply (bool_decide_unpack _). by vm_compute. Qed.
Next Obligation. intros []; apply (bool_decide_unpack _); by vm_compute. Qed.

(** ** process_manager.h *)
Record t_process_metrics := {
  page_table_access_count : Z; instruction_requests_count : Z;
  swap_out_count : Z; swap_in_count : Z;
  memory_read_count : Z; memory_write_count : Z }.

(** A pointer field of a block that [malloc] did not clear. *)
Inductive ptr (A : Type) := Null | Garbage | Ptr (a : A).
Arguments Null {A}.
Arguments Garbage {A}.
Arguments Ptr {A} _.

Record process_info := {
  pid : Z;
  process_size : Z;
  is_suspended : bool;
  instructions : list string;
  page_table : ptr t_page_table;
  metrics : t_process_metrics;
  allocated_frames : ptr (list Z) }.

(** ** The state of the module

    [client_out] is what the handlers have sent to the client, [dumps] the
    dump files written, with their owner. *)
Record t_memoria := {
  sems : gmap t_sem Z;
  global_process_list : list process_info;
  frames : t_pool;
  space : t_user_space;
  swap : t_swap;
  next_table_id : Z;
  dumps : list (Z * list byte);
  client_out : list byte }.

(** What the file system answers: the lines of a script, whether a dump file
    can be created, and how many bytes of it are stored. *)
Record t_file_system := {
  script : string → option (list string);
  dump_opens : bool;
  dump_room : Z }.

Abbreviation Mem := (M t_memoria).

(** Updates of one field. *)
Definition set_sems (x : gmap t_sem Z) (m : t_memoria) : t_memoria :=
  {| sems := x; global_process_list := global_process_list m; frames := frames m; space := space m;
     swap := swap m; next_table_id := next_table_id m; dumps := dumps m; client_out := client_out m |}.
Definition set_processes (x : list process_info) (m : t_memoria) : t_memoria :=
  {| sems := sems m; global_process_list := x; frames := frames m; space := space m;
     swap := swap m; next_table_id := next_table_id m; dumps := dumps m; client_out := client_out m |}.
Definition set_frames (x : t_pool) (m : t_memoria) : t_memoria :=
  {| sems := sems m; global_process_list := global_process_list m; frames := x; space := space m;
     swap := swap m; next_table_id := next_table_id m; dumps := dumps m; client_out := client_out m |}.
Definition set_space (x : t_user_space) (m : t_memoria) : t_memoria :=
  {| sems := sems m; global_process_list := global_process_list m; frames := frames m; space := x;
     swap := swap m; next_table_id := next_table_id m; dumps := dumps m; client_out := client_out m |}.
Definition set_swap (x : t_swap) (m : t_memoria) : t_memoria :=
  {| sems := sems m; global_process_list := global_process_list m; frames := frames m; space := space m;
     swap := x; next_table_id := next_table_id m; dumps := dumps m; client_out := client_out m |}.
Definition set_next_table_id (x : Z) (m : t_memoria) : t_memoria :=
  {| sems := sems m; global_process_list := global_process_list m; frames := frames m; space := space m;
     swap := swap m; next_table_id := x; dumps := dumps m; client_out := client_out m |}.
Definition add_dump (x : Z * list byte) (m : t_memoria) : t_memoria :=
  {| sems := sems m; global_process_list := global_process_list m; frames := frames m; space := space m;
     swap := swap m; next_table_id := next_table_id m; dumps := dumps m ++ [x]; client_out := client_out m |}.
Definition set_out (x : list byte) (m : t_memoria) : t_memoria :=
  {| sems := sems m; global_process_list := global_process_list m; frames := frames m; space := space m;
     swap := swap m; next_table_id := next_table_id m; dumps := dumps m; client_out := x |}.

(** Running the operations of the parts. *)
Definition on_sems {A} (o : M (gmap t_sem Z) A) : Mem A := zoom sems set_sems o.
Definition on_frames {A} (o : M t_pool A) : Mem A := zoom frames set_frames o.
Definition on_space {A} (o : M t_user_space A) : Mem A := zoom space set_space o.
Definition on_swap {A} (o : M t_swap A) : Mem A := zoom swap set_swap o.
Definition on_table_id {A} (o : M Z A) : Mem A := zoom next_table_id set_next_table_id o.

Definition lock (s : t_sem) : Mem unit := on_sems (sem_wait s).
Definition unlock (s : t_sem) : Mem unit := on_sems (sem_post s).

Definition initialize_memory_semaphores : Mem unit :=
  for_each all_sems (λ s, on_sems (sem_init s 1)).

(** The value of a pointer field, for a test against NULL or a dereference. *)
Definition load_ptr {A} (p : ptr A) : Mem (option A) :=
  match p with Null => mret None | Garbage => crash_with Uninit | Ptr a => mret (Some a) end.

Definition load_process (i : nat) : Mem process_info :=
  l ← gets global_process_list; deref (l !! i).

Definition store_process (i : nat) (p : process_info) : Mem unit :=
  l ← gets global_process_list;
  if decide (i < length l) then modify (set_processes (<[i := p]> l)) else crash_with NullDeref.

(** [send_...] on the client's socket. *)
Definition respond (r : res t_package) : Mem unit :=
  package ← lift_res r;
  modify (λ m, set_out (send_package (client_out m) package) m).

(** *** Updates of a process *)
Definition with_metrics (f : t_process_metrics → t_process_metrics) (p : process_info) : process_info :=
  {| pid := pid p; process_size := process_size p; is_suspended := is_suspended p;
     instructions := instructions p; page_table := page_table p; metrics := f (metrics p);
     allocated_frames := allocated_frames p |}.
Definition with_suspended (b : bool) (p : process_info) : process_info :=
  {| pid := pid p; process_size := process_size p; is_suspended := b;
     instructions := instructions p; page_table := page_table p; metrics := metrics p;
     allocated_frames := allocated_frames p |}.
Definition with_frames (f : ptr (list Z)) (p : process_info) : process_info :=
  {| pid := pid p; process_size := process_size p; is_suspended := is_suspended p;
     instructions := instructions p; page_table := page_table p; metrics := metrics p;
     allocated_frames := f |}.

Definition count_page_access (k : t_process_metrics) : t_process_metrics :=
  {| page_table_access_count := i32 (page_table_access_count k + 1);
     instruction_requests_count := instruction_requests_count k;
     swap_out_count := swap_out_count k; swap_in_count := swap_in_count k;
     memory_read_count := memory_read_count k; memory_write_count := memory_write_count k |}.
Definition count_instruction (k : t_process_metrics) : t_process_metrics :=
  {| page_table_access_count := page_table_access_count k;
     instruction_requests_count := i32 (instruction_requests_count k + 1);
     swap_out_count := swap_out_count k; swap_in_count := swap_in_count k;
     memory_read_count := memory_read_count k; memory_write_count := memory_write_count k |}.
Definition count_swap_out (k : t_process_metrics) : t_process_metrics :=
  {| page_table_access_count := page_table_access_count k;
     instruction_requests_count := instruction_requests_count k;
     swap_out_count := i32 (swap_out_count k + 1); swap_in_count := swap_in_count k;
     memory_read_count := memory_read_count k; memory_write_count := memory_write_count k |}.
Definition count_swap_in (k : t_process_metrics) : t_process_metrics :=
  {| page_table_access_count := page_table_access_count k;
     instruction_requests_count := instruction_requests_count k;
     swap_out_count := swap_out_count k; swap_in_count := i32 (swap_in_count k + 1);
     memory_read_count := memory_read_count k; memory_write_count := memory_write_count k |}.
Definition no_metrics : t_process_metrics := Build_t_process_metrics 0 0 0 0 0 0.

(** ** process_manager.c *)
Section ProcessManager.
Context {C : CommonsOps}.

(** The loop over the global list: the position of the first match. *)
Fixpoint position_from (i : nat) (searched : Z) (l : list process_info) : option nat :=
  match l with
  | [] => None
  | proc :: l => if decide (pid proc = searched) then Some i else position_from (S i) searched l
  end.

Definition process_manager_find_process (searched : Z) : Mem (option nat) :=
  lock sem_process_list;;
  found_proc ← gets (λ m, position_from 0 searched (global_process_list m));
  unlock sem_process_list;;
  mret found_proc.

(** The tables and instructions of the process are freed with it. *)
Definition destroy_process_info (proc : process_info) : Mem unit :=
  if decide (process_size proc ≠ 0)%Z then
    _ ← load_ptr (page_table proc);
    f ← load_ptr (allocated_frames proc);
    match f with
    | Some frame_list => on_frames (release_frames frame_list)
    | None => mret tt
    end
  else mret tt.

Definition process_manager_delete_process (searched : Z) : Mem bool :=
  lock sem_process_list;;
  found_index ← gets (λ m, position_from 0 searched (global_process_list m));
  result ← match found_index with
           | Some i =>
               proc ← load_process i;
               modify (λ m, set_processes (list_remove (global_process_list m) (Z.of_nat i)).2 m);;
               destroy_process_info proc;;
               mret true
           | None => mret false
           end;
  unlock sem_process_list;;
  mret result.
End ProcessManager.

(** ** init-process.c *)
Section InitProcess.
Context {C : CommonsOps} (config : t_memoria_config) (fs : t_file_system).

Definition blank (c : ascii) : bool :=
  bool_decide (c = "010"%char ∨ c = "013"%char ∨ c = " "%char ∨ c = "009"%char).

(** The inner loop: blanks are cut off the end of the line. *)
Fixpoint strip_end (line : string) : string :=
  match line with
  | EmptyString => EmptyString
  | String c rest =>
      match strip_end rest with
      | EmptyString => if blank c then EmptyString else String c EmptyString
      | rest => String c rest
      end
  end.

(** [snprintf] into 512 bytes. *)
Definition full_path (path : string) : string :=
  String.substring 0 511 (String.append (PATH_INSTRUCCIONES config) path).

(** NULL ([None]) when the file cannot be opened; empty lines are left out. *)
Definition process_manager_load_script_lines (path : string) : option (list string) :=
  lines ← script fs (full_path path);
  Some (foldl (λ list line,
                 let line := strip_end line in
                 if decide (0 < String.length line) then list_add list line else list)
              [] lines).

(** [(int32_t)ceil((double)size / TAM_PAGINA)], exact for 32-bit operands. *)
Definition pages_needed (size : Z) : Z := (- ((- size) / TAM_PAGINA config))%Z.

(** Memory for the frames and tables of a process; [None] is [return false]. *)
Definition create_memory (size : Z) : Mem (option (ptr t_page_table * ptr (list Z))) :=
  let pages_needed := pages_needed size in
  free ← on_frames frame_get_free_count;
  if decide (free < pages_needed)%Z then mret None
  else
    allocated ← on_frames (allocate_frames pages_needed);
    match allocated with
    | None => mret None
    | Some allocated =>
        if decide (list_size allocated ≠ pages_needed) then mret None
        else
          page_table ← on_table_id (init_page_table config);
          r ← lift_res (assign_frames config page_table allocated pages_needed);
          let '(success, page_table) := r in
          if success : bool then mret (Some (Ptr page_table, Ptr allocated))
          else on_frames (release_frames allocated);; mret None
    end.

(** A process of size 0 has no frames, and its two pointers stay as
    [malloc] left them. *)
Definition create_process (new_pid size : Z) (script_path : string) : Mem bool :=
  match process_manager_load_script_lines script_path with
  | None => mret false
  | Some instructions =>
      memory ← (if decide (size ≠ 0)%Z then create_memory size
                else mret (Some (Garbage, Garbage)));
      match memory with
      | None => mret false
      | Some (page_table, allocated) =>
          let proc := {| pid := new_pid; process_size := size; is_suspended := false;
                         instructions := instructions; page_table := page_table;
                         metrics := no_metrics; allocated_frames := allocated |} in
          lock sem_process_list;;
          modify (λ m, set_processes (list_add (global_process_list m) proc) m);;
          unlock sem_process_list;;
          mret true
      end
  end.
End InitProcess.

(** ** swap_out.c, swap_in.c *)
Section Swapping.
Context {C : CommonsOps} (config : t_memoria_config).

(** The copy loop of a suspension: one page at a time, until a failure. *)
Fixpoint copy_out (frames_to_swap swap_frames : list Z) : Mem bool :=
  match frames_to_swap, swap_frames with
  | [], _ => mret true
  | user_frame :: frames_to_swap, swap_frame :: swap_frames =>
      let physical_address := i32 (user_frame * TAM_PAGINA config) in
      page_buffer ← on_space (read_from_user_space physical_address (TAM_PAGINA config));
      written ← on_swap (swap_write_frame config swap_frame page_buffer (TAM_PAGINA config));
      if written : bool then copy_out frames_to_swap swap_frames else mret false
  | _ :: _, [] => crash_with NullDeref
  end.

Definition swap_out_process (searched : Z) : Mem bool :=
  lock sem_swap_file;;
  found ← process_manager_find_process searched;
  match found with
  | None => unlock sem_swap_file;; mret false
  | Some i =>
      proc ← load_process i;
      if is_suspended proc then unlock sem_swap_file;; mret true
      else
        allocated ← load_ptr (allocated_frames proc);
        match allocated with
        | None =>
            store_process i (with_suspended true proc);; unlock sem_swap_file;; mret true
        | Some frames_to_swap =>
            let frames_needed := list_size frames_to_swap in
            granted ← on_swap (swap_allocate_frames frames_needed);
            match granted with
            | None => unlock sem_swap_file;; mret false
            | Some swap_frames =>
                if decide (list_size swap_frames < frames_needed)%Z
                then unlock sem_swap_file;; mret false
                else if decide (TAM_PAGINA config < 0)%Z
                then unlock sem_swap_file;; mret false
                else
                  success ← copy_out frames_to_swap swap_frames;
                  if success : bool then
                    on_frames (release_frames frames_to_swap);;
                    store_process i
                      (with_metrics count_swap_out
                         (with_suspended true (with_frames (Ptr swap_frames) proc)));;
                    unlock sem_swap_file;; mret true
                  else unlock sem_swap_file;; mret false
            end
        end
  end.

(** The copy loop of a resumption. *)
Fixpoint copy_in (frames_to_unswap user_frames : list Z) : Mem bool :=
  match frames_to_unswap, user_frames with
  | [], _ => mret true
  | swap_frame :: frames_to_unswap, user_frame :: user_frames =>
      let physical_address := i32 (user_frame * TAM_PAGINA config) in
      r ← on_swap (swap_read_frame config swap_frame (TAM_PAGINA config));
      let '(read, page_buffer) := r in
      if read : bool then
        on_space (write_to_user_space config physical_address page_buffer (TAM_PAGINA config));;
        copy_in frames_to_unswap user_frames
      else mret false
  | _ :: _, [] => crash_with NullDeref
  end.

Definition swap_in_process (searched : Z) : Mem bool :=
  lock sem_swap_file;;
  found ← process_manager_find_process searched;
  match found with
  | None => unlock sem_swap_file;; mret false
  | Some i =>
      proc ← load_process i;
      if negb (is_suspended proc) then unlock sem_swap_file;; mret true
      else
        allocated ← load_ptr (allocated_frames proc);
        let nothing_swapped :=
          store_process i (with_suspended false proc);; unlock sem_swap_file;; mret true in
        match allocated with
        | None => nothing_swapped
        | Some frames_to_unswap =>
            if list_is_empty frames_to_unswap then nothing_swapped
            else
              let frames_needed := list_size frames_to_unswap in
              granted ← on_frames (allocate_frames frames_needed);
              match granted with
              | None => unlock sem_swap_file;; mret false
              | Some user_frames =>
                  if decide (list_size user_frames < frames_needed)%Z
                  then unlock sem_swap_file;; mret false
                  else if decide (TAM_PAGINA config < 0)%Z
                  then unlock sem_swap_file;; mret false
                  else
                    success ← copy_in frames_to_unswap user_frames;
                    if success : bool then
                      on_swap (swap_release_frames (Some frames_to_unswap));;
                      store_process i
                        (with_metrics count_swap_in
                           (with_suspended false (with_frames (Ptr user_frames) proc)));;
                      unlock sem_swap_file;; mret true
                    else on_frames (release_frames user_frames);; unlock sem_swap_file;; mret false
              end
        end
  end.
End Swapping.

(** ** The request handlers (client/) *)
Section Handlers.
Context {C : CommonsOps} (config : t_memoria_config) (fs : t_file_system).

Definition update_process (i : nat) (f : process_info → process_info) : Mem unit :=
  proc ← load_process i; store_process i (f proc).

(** fetch-instruction.c *)
Definition get_instruction_request_handler (package : t_package) : Mem unit :=
  request ← lift_res (read_with read_fetch_package package);
  found ← process_manager_find_process (fetch_pid request);
  match found with
  | Some i =>
      lock sem_process_metrics;;
      update_process i (with_metrics count_instruction);;
      unlock sem_process_metrics;;
      lock sem_process_instructions;;
      proc ← load_process i;
      (if decide (fetch_pc request < list_size (instructions proc))%Z then
         match list_get (instructions proc) (fetch_pc request) with
         | Some instruction => respond (create_instruction_package instruction)
         | None => respond (create_instruction_package EmptyString)
         end
       else respond (create_instruction_package EmptyString));;
      unlock sem_process_instructions
  | None => respond (create_instruction_package EmptyString)
  end.

(** get-page-entry.c.  The index is compared with a [size_t]. *)
Definition handle_page_walk_request (package : t_package) : Mem unit :=
  payload ← lift_res (read_with read_page_entry_request_package package);
  found ← process_manager_find_process (request_pid payload);
  match found with
  | None => respond (create_page_entry_response_package INVALID_FRAME_NUMBER 1)
  | Some i =>
      update_process i (with_metrics count_page_access);;
      process ← load_process i;
      root ← load_ptr (page_table process);
      current_table ← deref root;
      let target_table :=
        if decide (table_id current_table = request_table_id payload) then Some current_table
        else find_table_by_id current_table (request_table_id payload) in
      match target_table with
      | None => respond (create_page_entry_response_package INVALID_FRAME_NUMBER 1)
      | Some target_table =>
          if decide (u64 (request_entry_index payload) >= num_entries target_table)%Z then
            respond (create_page_entry_response_package INVALID_FRAME_NUMBER 1)
          else
            entry ← deref (list_get (entries target_table) (request_entry_index payload));
            let response_value :=
              match entry with
              | LastEntry _ frame_number => frame_number
              | TableEntry next_table_id _ => next_table_id
              end in
            respond (create_page_entry_response_package response_value
                       (if is_last_level entry then 0 else 1))
      end
  end.

(** init-process.c *)
Definition init_process_request_handler (package : t_package) : Mem unit :=
  args ← lift_res (read_with read_init_process_package package);
  lock sem_process_creation;;
  result ← create_process config fs (init_pid args) (init_size args) (init_pseudocode_path args);
  unlock sem_process_creation;;
  respond (create_confirmation_package result).

(** kill-process.c *)
Definition delete_process_request_handler (package : t_package) : Mem unit :=
  pid_to_delete ← lift_res (read_with read_kill_process_package package);
  result ← process_manager_delete_process pid_to_delete;
  if result : bool then respond (create_confirmation_package true)
  else respond (create_confirmation_package false).

(** read-memory.c.  A negative size is more than [malloc] serves, and is
    not answered. *)
Definition read_memory_request_handler (package : t_package) : Mem unit :=
  request ← lift_res (read_with read_memory_read_request package);
  if decide (read_size request < 0)%Z then mret tt
  else
    buffer ← on_space (read_from_user_space (read_physical_address request) (read_size request));
    respond (create_package_memory_read_response buffer (read_size request)).

(** write-memory.c *)
Definition write_memory_request_handler (package : t_package) : Mem unit :=
  request ← lift_res (read_with read_memory_write_request package);
  on_space (write_to_user_space config (write_physical_address request)
              (write_data request) (write_size request));;
  respond (create_confirmation_package true).

(** swap.c *)
Definition swap_request_handler (package : t_package) : Mem unit :=
  searched ← lift_res (read_with read_swap_package package);
  result ← swap_out_process config searched;
  if result : bool then respond (create_confirmation_package true)
  else respond (create_confirmation_package false).

(** unsuspend-process.c *)
Definition unsuspend_process_request_handler (package : t_package) : Mem unit :=
  searched ← lift_res (read_with read_swap_package package);
  result ← swap_in_process config searched;
  if result : bool then respond (create_confirmation_package true)
  else respond (create_confirmation_package false).

(** The loop of dump-memory.c over the frames: what reached the file. *)
Fixpoint dump_frames (l : list Z) (dump_file : list byte) : Mem (bool * list byte) :=
  match l with
  | [] => mret (true, dump_file)
  | frame_number :: l =>
      let physical_address := i32 (frame_number * TAM_PAGINA config) in
      buffer ← on_space (read_from_user_space physical_address (TAM_PAGINA config));
      if decide (zlen dump_file + TAM_PAGINA config <= dump_room fs)%Z
      then dump_frames l (dump_file ++ buffer)
      else mret (false, dump_file ++ take (Z.to_nat (dump_room fs - zlen dump_file)) buffer)
  end.

(** dump-memory.c *)
Definition dump_memory_request_handler (package : t_package) : Mem unit :=
  searched ← lift_res (read_with read_dump_memory_package package);
  found ← process_manager_find_process searched;
  match found with
  | None => respond (create_confirmation_package false)
  | Some i =>
      proc ← load_process i;
      f ← load_ptr (allocated_frames proc);
      match f with
      | None => respond (create_confirmation_package false)
      | Some l =>
          if decide (list_size l = 0)%Z then respond (create_confirmation_package false)
          else if negb (dump_opens fs) then respond (create_confirmation_package false)
          else if decide (TAM_PAGINA config < 0)%Z then respond (create_confirmation_package false)
          else
            r ← dump_frames l [];
            let '(dump_success, dump_file) := r in
            modify (add_dump (pid proc, dump_file));;
            if dump_success : bool then respond (create_confirmation_package true)
            else respond (create_confirmation_package false)
      end
  end.

(** *** handlers.c: one package; [false] ends the connection *)
Definition dispatch (package : t_package) : Mem bool :=
  match Opcode.decode (opcode package) with
  | Some Opcode.FETCH => get_instruction_request_handler package;; mret true
  | Some Opcode.INIT_PROCESS => init_process_request_handler package;; mret true
  | Some Opcode.UNSUSPEND_PROCESS => unsuspend_process_request_handler package;; mret true
  | Some Opcode.SWAP => swap_request_handler package;; mret true
  | Some Opcode.C_DUMP_MEMORY => dump_memory_request_handler package;; mret true
  | Some Opcode.KILL_PROCESS => delete_process_request_handler package;; mret true
  | Some Opcode.WRITE_MEMORY => write_memory_request_handler package;; mret true
  | Some Opcode.READ_MEMORY => read_memory_request_handler package;; mret true
  | Some Opcode.GET_PAGE_ENTRY => handle_page_walk_request package;; mret true
  | _ => mret false
  end.

(** The loop over what the client sends, which ends when it disconnects
    or sends an unknown opcode.  The result is what is left unread. *)
Fixpoint client_handler (fuel : nat) (client_in : list byte) : Mem (list byte) :=
  match fuel with
  | O => crash_with OutOfFuel
  | S fuel =>
      match recv_package client_in with
      | Crash c => crash_with c
      | Ok (None, client_in) => mret client_in
      | Ok (Some package, client_in) =>
          continue ← dispatch package;
          if continue : bool then client_handler fuel client_in else mret client_in
      end
  end.
End Handlers.

(** ** main.c *)
Section Main.
Context {C : CommonsOps} (config : t_memoria_config).

Definition memoria_init (fopen_succeeds : bool) (swap_capacity : Z) : res t_memoria :=
  p ← frame_allocation_init config;
  s ← swap_manager_init fopen_succeeds swap_capacity;
  u ← init_user_space (u64 (TAM_MEMORIA config));
  r ← initialize_memory_semaphores
        {| sems := ∅; global_process_list := []; frames := p; space := u; swap := s;
           next_table_id := 1; dumps := []; client_out := [] |};
  Ok r.2.
End Main.
