(* ===== verification/MemoriaFacts.v ===== *)
(** * The memory module, proved

    [mem_ok] is the invariant of the module: every lock is free between
    requests, and the frames of main memory (and those of the swap file) are
    partitioned between the free list and the processes, so that nothing is
    shared and nothing is lost.  Each operation is proved to do its work and
    to keep the invariant. *)
From S2P Require Import Prelude Commons Enums Buffer Package Packages Roundtrip Config Semaphores.
From S2P Require Import Bitmap Storage PageTable PageTableFacts Memoria.
From Stdlib Require Import Strings.Byte.
Import Buffer Package FrameManager UserSpace SwapManager.

(** ** The state, field by field *)
Lemma set_sems_id m : set_sems (sems m) m = m.
Proof. by destruct m. Qed.
Lemma set_processes_id m : set_processes (global_process_list m) m = m.
Proof. by destruct m. Qed.
Lemma set_table_id_id m : set_next_table_id (next_table_id m) m = m.
Proof. by destruct m. Qed.
Lemma set_frames_id m : set_frames (frames m) m = m.
Proof. by destruct m. Qed.

(** ** Locks *)
Section Locks.
Lemma lock_ok s m :
  sems m !! s = Some 1%Z → lock s m = Ok (tt, set_sems (<[s := 0%Z]> (sems m)) m).
Proof. intros Hs. unfold lock, on_sems, zoom. by rewrite sem_wait_free. Qed.

Lemma unlock_ok s free m :
  sems m = <[s := 0%Z]> free → free !! s = Some 1%Z → unlock s m = Ok (tt, set_sems free m).
Proof.
  intros Hs Hf. unfold unlock, on_sems, zoom. rewrite Hs, sem_post_taken.
  by rewrite sem_restore.
Qed.

(** A request on a locked semaphore waits for ever. *)
Lemma lock_held s m : sems m !! s = Some 0%Z → lock s m = Crash Deadlock.
Proof. intros Hs. unfold lock, on_sems, zoom. by rewrite sem_wait_held. Qed.

(** A section that leaves the semaphores as it found them. *)
Lemma locked_ok {A} s (body : M t_memoria A) m a m' :
  sems m !! s = Some 1%Z →
  body (set_sems (<[s := 0%Z]> (sems m)) m) = Ok (a, m') →
  sems m' = <[s := 0%Z]> (sems m) →
  (lock s;; x ← body; unlock s;; mret x) m = Ok (a, set_sems (sems m) m').
Proof.
  intros Hs Hb Hs'. run (by apply lock_ok). run (exact Hb).
  run (by apply (unlock_ok s (sems m))). done.
Qed.
End Locks.

(** ** Finding a process *)
Lemma position_from_spec i x l :
  position_from i x l = (λ j, i + j) <$> (fst <$> list.list_find (λ p, pid p = x) l).
Proof.
  revert i. induction l as [|p l IH]; intros i; cbn; [done|].
  case_decide; cbn; [by rewrite Nat.add_0_r|]. rewrite IH.
  destruct (list.list_find _ l) as [[j q]|]; cbn; [|done]. f_equal. lia.
Qed.

Lemma position_Some x l i :
  position_from 0 x l = Some i → ∃ p, l !! i = Some p ∧ pid p = x.
Proof.
  rewrite position_from_spec. destruct (list.list_find _ l) as [[j p]|] eqn:E; [|done].
  cbn. intros [= <-]. apply list_find_Some in E as (? & ? & _). eauto.
Qed.

Lemma position_None x l p : position_from 0 x l = None → p ∈ l → pid p ≠ x.
Proof.
  rewrite position_from_spec. destruct (list.list_find _ l) as [[j q]|] eqn:E; [done|].
  intros _ Hp. rewrite list_find_None, Forall_forall in E. by apply E.
Qed.

Lemma find_process_ok {C : CommonsOps} x m :
  sems m !! sem_process_list = Some 1%Z →
  process_manager_find_process x m = Ok (position_from 0 x (global_process_list m), m).
Proof.
  intros Hs. unfold process_manager_find_process.
  run (by apply lock_ok). run done. run (by apply (unlock_ok _ (sems m))).
  by destruct m.
Qed.

Lemma load_process_ok i p m :
  global_process_list m !! i = Some p → load_process i m = Ok (p, m).
Proof. intros Hp. unfold load_process. step. by rewrite Hp. Qed.

Lemma store_process_ok i q p m :
  global_process_list m !! i = Some q →
  store_process i p m = Ok (tt, set_processes (<[i := p]> (global_process_list m)) m).
Proof.
  intros Hp%lookup_lt_Some. unfold store_process. step. by rewrite decide_True.
Qed.

(** ** The invariant *)

Definition frames_of (p : process_info) : list Z :=
  match allocated_frames p with Ptr l => l | _ => [] end.

Definition resident (l : list process_info) : list Z :=
  l ≫= λ p, if is_suspended p then [] else frames_of p.

Definition swapped (l : list process_info) : list Z :=
  l ≫= λ p, if is_suspended p then frames_of p else [].

(** What [create_process] guarantees of a process. *)
Record process_ok (p : process_info) : Prop := {
  sizeless : process_size p = 0%Z → page_table p = Garbage ∧ allocated_frames p = Garbage;
  sized : process_size p ≠ 0%Z → ∃ t l, page_table p = Ptr t ∧ allocated_frames p = Ptr l }.

(** What the module relies on in its configuration: [d] page-table levels
    below the first, and everything representable. *)
Record config_ok (config : t_memoria_config) (d : nat) : Prop := {
  page_pos : (0 < TAM_PAGINA config)%Z;
  memory_small : (0 <= TAM_MEMORIA config < 2147483648)%Z;
  entries_pos : (0 < ENTRADAS_POR_TABLA config)%Z;
  entries_small : in_i32 (ENTRADAS_POR_TABLA config);
  levels : CANTIDAD_NIVELES config = Z.of_nat (S d);
  pages_small : in_i32 (pages (ENTRADAS_POR_TABLA config) d);
  tables_small : (1 + tables_in (ENTRADAS_POR_TABLA config) d < 2147483648)%Z;
  swap_small : (SWAP_INITIAL_FRAMES * TAM_PAGINA config < 2147483648)%Z }.

Record mem_ok (config : t_memoria_config) (m : t_memoria) : Prop := {
  locks_free : ∀ s, s ≠ sem_process_creation → sems m !! s = Some 1%Z;
  frames_ok : pool_ok (frames m);
  swap_pool_ok : pool_ok (swap_frames (swap m));
  space_ok : user_space_ok (space m);
  frames_fit : (frames_total (frames m) * TAM_PAGINA config <= user_space_size (space m))%Z;
  swap_open : is_Some (swap_file (swap m));
  swap_fits : frames_total (swap_frames (swap m)) = SWAP_INITIAL_FRAMES ∧
    (SWAP_INITIAL_FRAMES * TAM_PAGINA config <= disk_capacity (swap m))%Z;
  ids_reset : next_table_id m = 1%Z;
  processes_ok : Forall process_ok (global_process_list m);
  main_partition :
    pool_free (frames m) ++ resident (global_process_list m) ≡ₚ upto (frames_total (frames m));
  swap_partition :
    pool_free (swap_frames (swap m)) ++ swapped (global_process_list m)
    ≡ₚ upto SWAP_INITIAL_FRAMES;
  swap_filled :
    Forall (λ f, ∃ page, slot_holds config (swap m) f page) (swapped (global_process_list m)) }.

(** ** Partitions *)
Lemma partition_owned p owned :
  pool_ok p → pool_free p ++ owned ≡ₚ upto (frames_total p) →
  NoDup owned ∧ Forall (pool_in_use p) owned.
Proof.
  intros Hp Hpart.
  assert (NoDup (pool_free p ++ owned)) as Hnd by (rewrite Hpart; apply NoDup_seqZ).
  apply NoDup_app in Hnd as (_ & Hd & Hno). split; [done|].
  apply Forall_forall. intros j Hj.
  assert (j ∈ upto (frames_total p)) as Hr by (rewrite <- Hpart; apply elem_of_app; by right).
  apply elem_of_upto in Hr. apply pool_partition; [done..|]. intros Hf. by apply (Hd j).
Qed.

(** Changing or removing one process changes only its own frames. *)
Lemma bind_at {A B} (f : A → list B) (l : list A) i x :
  l !! i = Some x →
  ∃ rest, (l ≫= f) ≡ₚ f x ++ rest ∧ (∀ y, (<[i := y]> l ≫= f) ≡ₚ f y ++ rest) ∧
    (delete i l ≫= f) ≡ₚ rest.
Proof.
  intros Hi. pose proof (lookup_lt_Some _ _ _ Hi) as Hlt.
  exists ((take i l ≫= f) ++ (drop (S i) l ≫= f)). split_and!.
  - rewrite <- (take_drop_middle l i x Hi) at 1. rewrite bind_app, bind_cons.
    apply Permutation_app_swap_app.
  - intros y. rewrite insert_take_drop by done. rewrite bind_app, bind_cons.
    apply Permutation_app_swap_app.
  - rewrite delete_take_drop, bind_app. done.
Qed.

(** ** Creation *)
Section Creation.
Context {C : CommonsOps} {CL : CommonsLaws C}.
Context (config : t_memoria_config) (fs : t_file_system) (d : nat) (Hcfg : config_ok config d).
Local Abbreviation E := (ENTRADAS_POR_TABLA config).

Lemma pow_le_tables n : (E ^ Z.of_nat n <= tables_in E n)%Z.
Proof.
  pose proof (entries_pos _ _ Hcfg) as HE.
  induction n as [|n IH]; [done|]. rewrite pow_S by done. cbn [tables_in]. nia.
Qed.

Lemma pages_needed_pos size : (0 < size)%Z → (0 < pages_needed config size)%Z.
Proof.
  intros. pose proof (page_pos _ _ Hcfg). unfold pages_needed.
  pose proof (Z.div_lt_upper_bound (- size) (TAM_PAGINA config) 0). lia.
Qed.

(** The number of pages is the smallest that holds the size. *)
Lemma pages_needed_spec size :
  ((pages_needed config size - 1) * TAM_PAGINA config < size
   <= pages_needed config size * TAM_PAGINA config)%Z.
Proof.
  pose proof (page_pos _ _ Hcfg) as Hp. unfold pages_needed.
  pose proof (Z.div_mod (- size) (TAM_PAGINA config) ltac:(lia)).
  pose proof (Z.mod_pos_bound (- size) (TAM_PAGINA config) Hp). nia.
Qed.

(** The page table of a process whose pages are in [l]. *)
Definition table_for (l : list Z) : t_page_table :=
  perfect E d 1 0 (assigned l (zlen l)).

(** Main memory after [n] pages were granted. *)
Definition granted (n : Z) (p : t_pool) : list Z := take (Z.to_nat n) (pool_free p).
Definition after_grant (n : Z) (p : t_pool) : t_pool :=
  mk_pool (set_all true (granted n p) (bitmap p)) (free_count p - zlen (granted n p)) (frames_total p).

Lemma granted_zlen n p : pool_ok p → (0 <= n <= free_count p)%Z → zlen (granted n p) = n.
Proof. apply pool_allocated_zlen. Qed.

Lemma no_assign_tables l :
  perfect E d 1 0 (assigned l (Z.min (zlen l) (pages E d))) = table_for l.
Proof.
  apply perfect_ext; [apply (entries_pos _ _ Hcfg)|]. intros p Hp. unfold assigned.
  repeat case_decide; try done; lia.
Qed.

Lemma create_memory_table m l :
  next_table_id m = 1%Z → (0 < zlen l)%Z →
  ∃ t, on_table_id (init_page_table config) m = Ok (t, m) ∧
    assign_frames config t l (zlen l)
    = Ok (bool_decide (zlen l <= pages E d)%Z, table_for l).
Proof.
  intros Hid Hl. pose proof Hcfg as [].
  exists (perfect E d 1 0 no_frames). split.
  - unfold on_table_id, zoom. rewrite Hid.
    rewrite (init_page_table_ok E) with (d := d) by done.
    rewrite <- Hid at 2. by rewrite set_table_id_id.
  - pose proof (pow_le_tables d). pose proof (pow_pos E ltac:(done) d).
    rewrite (assign_frames_ok E) by (try done; try lia; unfold in_i32; lia).
    by rewrite no_assign_tables.
Qed.

Lemma free_count_read m : on_frames frame_get_free_count m = Ok (free_count (frames m), m).
Proof. unfold on_frames, frame_get_free_count, zoom. step. by rewrite set_frames_id. Qed.

Lemma create_memory_ok size m :
  mem_ok config m → (0 < size)%Z →
  let n := pages_needed config size in
  (n <= free_count (frames m))%Z → (n <= pages E d)%Z →
  create_memory config size m
  = Ok (Some (Ptr (table_for (granted n (frames m))), Ptr (granted n (frames m))),
        set_frames (after_grant n (frames m)) m).
Proof.
  intros Hm Hsize n Hn Hpages. pose proof (pages_needed_pos size Hsize) as Hpos. fold n in Hpos.
  destruct (pool_allocate_ok (frames m) n (frames_ok _ _ Hm) Hn) as (Ha & _).
  pose proof (granted_zlen n (frames m) (frames_ok _ _ Hm) ltac:(lia)) as Hlen.
  unfold create_memory. fold n. run (apply free_count_read). rewrite decide_False by lia.
  run (unfold on_frames, zoom, allocate_frames; by rewrite Ha).
  fold (granted n (frames m)). fold (after_grant n (frames m)).
  rewrite list_size_spec. unfold granted in *. rewrite decide_False by lia.
  destruct (create_memory_table (set_frames (after_grant n (frames m)) m)
    (take (Z.to_nat n) (pool_free (frames m)))) as (t & Ht & Hassign); [apply Hm | lia |].
  run (exact Ht). rewrite Hlen in Hassign. rewrite Hassign. step.
  by rewrite bool_decide_true.
Qed.

(** Not enough frames. *)
Lemma create_memory_refused size m :
  (free_count (frames m) < pages_needed config size)%Z →
  create_memory config size m = Ok (None, m).
Proof.
  intros Hn. unfold create_memory. run (apply free_count_read). by rewrite decide_True.
Qed.

(** More pages than the tables can map: the frames are given back. *)
Lemma create_memory_too_big size m :
  mem_ok config m → (0 < size)%Z →
  let n := pages_needed config size in
  (n <= free_count (frames m))%Z → (pages E d < n)%Z →
  create_memory config size m = Ok (None, m).
Proof.
  intros Hm Hsize n Hn Hpages. pose proof (pages_needed_pos size Hsize) as Hpos. fold n in Hpos.
  destruct (pool_allocate_ok (frames m) n (frames_ok _ _ Hm) Hn) as (Ha & _).
  pose proof (granted_zlen n (frames m) (frames_ok _ _ Hm) ltac:(lia)) as Hlen.
  pose proof (pool_release_allocated (frames m) n (frames_ok _ _ Hm) Hn) as Hback.
  rewrite (M_bind_ok _ _ _ _ _ Ha) in Hback.
  fold (granted n (frames m)) in Ha, Hback. fold (after_grant n (frames m)) in Ha, Hback.
  unfold create_memory. fold n. run (apply free_count_read). rewrite decide_False by lia.
  run (unfold on_frames, zoom, allocate_frames; by rewrite Ha).
  rewrite list_size_spec. rewrite decide_False by lia.
  destruct (create_memory_table (set_frames (after_grant n (frames m)) m)
    (granted n (frames m))) as (t & Ht & Hassign); [apply Hm | lia |].
  run (exact Ht). rewrite Hlen in Hassign. rewrite Hassign.
  run done. rewrite bool_decide_false by lia. cbv iota.
  run (unfold on_frames, zoom, release_frames; cbn [frames set_frames]; by rewrite Hback).
  by destruct m.
Qed.

Definition new_process (new_pid size : Z) (lines : list string) (l : list Z) : process_info :=
  {| pid := new_pid; process_size := size; is_suspended := false; instructions := lines;
     page_table := Ptr (table_for l); metrics := no_metrics; allocated_frames := Ptr l |}.

Definition after_create (n : Z) (proc : process_info) (m : t_memoria) : t_memoria :=
  set_processes (global_process_list m ++ [proc]) (set_frames (after_grant n (frames m)) m).

Lemma add_process_ok proc m :
  sems m !! sem_process_list = Some 1%Z →
  (lock sem_process_list;;
   modify (λ m, set_processes (list_add (global_process_list m) proc) m);;
   unlock sem_process_list;; mret true) m
  = Ok (true, set_processes (global_process_list m ++ [proc]) m).
Proof.
  intros Hs. run (by apply lock_ok). run done.
  run (by apply (unlock_ok _ (sems m))). rewrite list_add_spec. by destruct m.
Qed.

(** Enough frames and enough table entries: the process exists, its pages
    are in the first free frames, and nothing else changed. *)
Lemma create_process_sized new_pid size script_path lines m :
  mem_ok config m → (0 < size)%Z →
  process_manager_load_script_lines config fs script_path = Some lines →
  let n := pages_needed config size in
  (n <= free_count (frames m))%Z → (n <= pages E d)%Z →
  create_process config fs new_pid size script_path m
  = Ok (true, after_create n (new_process new_pid size lines (granted n (frames m))) m).
Proof.
  intros Hm Hsize Hs n Hn Hp. unfold create_process. rewrite Hs, decide_True by lia.
  run (by apply create_memory_ok). cbv iota.
  rewrite add_process_ok by (by apply Hm). done.
Qed.

Lemma create_process_sizeless new_pid script_path lines m :
  mem_ok config m →
  process_manager_load_script_lines config fs script_path = Some lines →
  create_process config fs new_pid 0 script_path m
  = Ok (true, set_processes (global_process_list m ++
      [{| pid := new_pid; process_size := 0; is_suspended := false; instructions := lines;
          page_table := Garbage; metrics := no_metrics; allocated_frames := Garbage |}]) m).
Proof.
  intros Hm Hs. unfold create_process. rewrite Hs, decide_False by tauto.
  run done. cbv iota. rewrite add_process_ok by (by apply Hm). done.
Qed.

(** Every refusal leaves the module as it was. *)
Lemma create_process_refused new_pid size script_path m :
  mem_ok config m → (0 < size)%Z →
  let n := pages_needed config size in
  process_manager_load_script_lines config fs script_path = None ∨
  (free_count (frames m) < n)%Z ∨ (pages E d < n)%Z →
  create_process config fs new_pid size script_path m = Ok (false, m).
Proof.
  intros Hm Hsize n Href. unfold create_process.
  destruct (process_manager_load_script_lines _ _ _) as [lines|]; [|done].
  rewrite decide_True by lia.
  destruct (decide (free_count (frames m) < n)%Z).
  - by run (by apply create_memory_refused).
  - destruct Href as [|[|]]; [done | lia |].
    by run (apply create_memory_too_big; [done | done | fold n; lia | done]).
Qed.

Lemma after_grant_ok n p :
  pool_ok p → (n <= free_count p)%Z →
  pool_ok (after_grant n p) ∧ pool_free (after_grant n p) = drop (Z.to_nat n) (pool_free p).
Proof. intros Hp Hn. by destruct (pool_allocate_ok p n Hp Hn) as (_ & ? & ?). Qed.

Lemma after_create_ok n proc m :
  mem_ok config m → process_ok proc → (n <= free_count (frames m))%Z →
  is_suspended proc = false → frames_of proc = granted n (frames m) →
  mem_ok config (after_create n proc m).
Proof.
  intros Hm Hproc Hn Hsus Hf. pose proof Hm as [Hlocks Hframes Hspool Hspace Hfit Hopen Hsfits Hids Hprocs Hmain Hswap Hfilled].
  destruct (after_grant_ok n (frames m)) as [Hok Hfree]; [done..|].
  constructor; try done.
  - apply Forall_app. split; [done|]. by apply Forall_singleton.
  - cbn [frames global_process_list after_create set_processes set_frames].
    unfold resident in *. rewrite bind_app, bind_singleton, Hsus, Hf, Hfree.
    change (frames_total (after_grant n (frames m))) with (frames_total (frames m)).
    rewrite <- Hmain. rewrite <- (take_drop (Z.to_nat n) (pool_free (frames m))) at 2.
    unfold granted. solve_Permutation.
  - cbn [swap global_process_list after_create set_processes set_frames].
    unfold swapped in *. rewrite bind_app, bind_singleton, Hsus. by rewrite app_nil_r.
  - cbn [swap global_process_list after_create set_processes set_frames].
    unfold swapped in *. rewrite bind_app, bind_singleton, Hsus. by rewrite app_nil_r.
Qed.
End Creation.
