(* ===== verification/SwapFacts.v ===== *)
(** * Suspension and resumption, proved

    The copy loops move whole pages between frames and swap slots; a process
    that is suspended and resumed finds its pages as it left them, in frames
    that may be others. *)
From S2P Require Import Prelude Commons Config Semaphores Bitmap Storage PageTable PageTableFacts.
From S2P Require Import Memoria MemoriaFacts.
From Stdlib Require Import Strings.Byte.
Import FrameManager UserSpace SwapManager.

Section Pages.
Context (config : t_memoria_config) (Hpage : (0 < TAM_PAGINA config)%Z).
Local Abbreviation T := (TAM_PAGINA config).

(** The contents of a frame, and of a list of frames. *)
Definition frame_page (u : t_user_space) (f : Z) : list byte := stored u (f * T) T.
Definition pages_of (u : t_user_space) (l : list Z) : list (list byte) := frame_page u <$> l.

(** Writing pages to slots, and to frames, one after the other. *)
Fixpoint swap_puts (s : t_swap) (slots : list Z) (ps : list (list byte)) : t_swap :=
  match slots, ps with
  | f :: slots, p :: ps => swap_puts (swap_put config s f p) slots ps
  | _, _ => s
  end.

Fixpoint write_pages (u : t_user_space) (l : list Z) (ps : list (list byte)) : t_user_space :=
  match l, ps with
  | f :: l, p :: ps => write_pages (with_bytes u (f * T) p) l ps
  | _, _ => u
  end.

Definition frame_in (u : t_user_space) (f : Z) : Prop :=
  (0 <= f ∧ (f + 1) * T <= user_space_size u)%Z.

Definition whole (p : list byte) : Prop := zlen p = T.

Lemma frame_addressable u f : frame_in u f → addressable u (f * T) T.
Proof. intros [? ?]. unfold addressable. nia. Qed.

Lemma frame_address u f :
  user_space_ok u → frame_in u f → i32 (f * T) = (f * T)%Z.
Proof. intros [_ Hi] [? ?]. unfold in_i32 in *. apply i32_id. unfold in_i32. nia. Qed.

Lemma frame_page_whole u f : user_space_ok u → frame_in u f → whole (frame_page u f).
Proof. intros. by apply stored_zlen, frame_addressable. Qed.

Lemma write_page_eq u f p :
  user_space_ok u → frame_in u f → whole p → frame_page (with_bytes u (f * T) p) f = p.
Proof.
  intros Hu Hf Hp. pose proof (stored_with_bytes_eq u (f * T) p Hu) as H.
  unfold whole in Hp. rewrite Hp in H. by apply H, frame_addressable.
Qed.

Lemma write_page_ne u f g p :
  user_space_ok u → frame_in u f → frame_in u g → whole p → f ≠ g →
  frame_page (with_bytes u (f * T) p) g = frame_page u g.
Proof.
  intros Hu Hf [? ?] Hp Hne. unfold whole in Hp. apply stored_with_bytes_ne; try done; rewrite ?Hp.
  - by apply frame_addressable.
  - nia.
  - lia.
  - destruct (decide (f < g)%Z) as [Hlt|Hge]; [right|left].
    + assert ((f + 1) * T <= g * T)%Z by nia. nia.
    + assert ((g + 1) * T <= f * T)%Z by nia. nia.
Qed.

Lemma write_page_ok u f p :
  user_space_ok u → frame_in u f → whole p → user_space_ok (with_bytes u (f * T) p).
Proof. intros Hu Hf Hp. unfold whole in Hp. apply with_bytes_ok; [done|]. rewrite Hp. by apply frame_addressable. Qed.

Lemma write_pages_size u l ps : user_space_size (write_pages u l ps) = user_space_size u.
Proof. revert u ps. induction l as [|f l IH]; intros u [|p ps]; cbn; try done. by rewrite IH. Qed.

Lemma write_pages_ok u l ps :
  user_space_ok u → Forall (frame_in u) l → Forall whole ps → user_space_ok (write_pages u l ps).
Proof.
  revert u ps. induction l as [|f l IH]; intros u [|p ps] Hu Hl Hps; cbn; try done.
  apply Forall_cons in Hl as [Hf Hl]. apply Forall_cons in Hps as [Hp Hps].
  apply IH; [by apply write_page_ok | done | done].
Qed.

(** Frames that are not written keep their contents. *)
Lemma write_pages_ne u l ps g :
  user_space_ok u → Forall (frame_in u) l → Forall whole ps → frame_in u g → g ∉ l →
  frame_page (write_pages u l ps) g = frame_page u g.
Proof.
  revert u ps. induction l as [|f l IH]; intros u [|p ps] Hu Hl Hps Hg Hn; cbn; try done.
  apply Forall_cons in Hl as [Hf Hl]. apply Forall_cons in Hps as [Hp Hps].
  apply not_elem_of_cons in Hn as [Hne Hn].
  rewrite IH by (done || by apply write_page_ok). by apply write_page_ne.
Qed.

(** Frames that are written hold the pages. *)
Lemma write_pages_eq u l ps :
  user_space_ok u → Forall (frame_in u) l → Forall whole ps → length l = length ps → NoDup l →
  pages_of (write_pages u l ps) l = ps.
Proof.
  revert u ps. induction l as [|f l IH]; intros u [|p ps] Hu Hl Hps Hlen Hnd; cbn; try done.
  apply Forall_cons in Hl as [Hf Hl]. apply Forall_cons in Hps as [Hp Hps].
  apply NoDup_cons in Hnd as [Hn Hnd]. cbn in Hlen. f_equal.
  - rewrite write_pages_ne by (done || by apply write_page_ok). by apply write_page_eq.
  - apply IH; [by apply write_page_ok | done | done | lia | done].
Qed.

Lemma swap_puts_open s slots ps : is_Some (swap_file s) → is_Some (swap_file (swap_puts s slots ps)).
Proof.
  revert s ps. induction slots as [|f slots IH]; intros s [|p ps] Hs; cbn; try done.
  apply IH. cbn. by apply fmap_is_Some.
Qed.

Lemma swap_puts_frames s slots ps : swap_frames (swap_puts s slots ps) = swap_frames s.
Proof. revert s ps. induction slots as [|f slots IH]; intros s [|p ps]; cbn; try done. by rewrite IH. Qed.

Lemma swap_puts_capacity s slots ps : disk_capacity (swap_puts s slots ps) = disk_capacity s.
Proof. revert s ps. induction slots as [|f slots IH]; intros s [|p ps]; cbn; try done. by rewrite IH. Qed.

Lemma swap_puts_keeps s slots ps g q :
  Forall (λ f, 0 <= f)%Z slots → Forall whole ps → (0 <= g)%Z → g ∉ slots →
  slot_holds config s g q → slot_holds config (swap_puts s slots ps) g q.
Proof.
  revert s ps. induction slots as [|f slots IH]; intros s [|p ps] Hsl Hps Hg Hn Hq; cbn; try done.
  apply Forall_cons in Hsl as [Hf Hsl]. apply Forall_cons in Hps as [Hp Hps].
  apply not_elem_of_cons in Hn as [Hne Hn].
  apply IH; [done..|]. by apply swap_put_keeps.
Qed.

Lemma swap_puts_hold s slots ps :
  is_Some (swap_file s) → Forall (λ f, 0 <= f)%Z slots → Forall whole ps →
  length slots = length ps → NoDup slots →
  Forall2 (slot_holds config (swap_puts s slots ps)) slots ps.
Proof.
  revert s ps. induction slots as [|f slots IH]; intros s [|p ps] Hs Hsl Hps Hlen Hnd;
    cbn; try done.
  apply Forall_cons in Hsl as [Hf Hsl]. apply Forall_cons in Hps as [Hp Hps].
  apply NoDup_cons in Hnd as [Hn Hnd]. cbn in Hlen. constructor.
  - apply swap_puts_keeps; [done..|]. by apply swap_put_holds.
  - apply IH; [| done | done | lia | done]. cbn. by apply fmap_is_Some.
Qed.

(** *** The loops *)
Lemma copy_out_ok us ss m :
  user_space_ok (space m) → is_Some (swap_file (swap m)) →
  Forall (frame_in (space m)) us → Forall (slot config (swap m)) ss → length us = length ss →
  copy_out config us ss m
  = Ok (true, set_swap (swap_puts (swap m) ss (pages_of (space m) us)) m).
Proof.
  intros Hu. revert ss m Hu. induction us as [|f us IH]; intros [|s ss] m Hu Hs Hus Hss Hlen; try done.
  { by destruct m. }
  apply Forall_cons in Hus as [Hf Hus]. apply Forall_cons in Hss as [Hsl Hss]. cbn in Hlen.
  cbn [copy_out]. rewrite (frame_address (space m)) by done.
  run (unfold on_space, zoom; rewrite read_ok; [done | done | by apply frame_addressable]).
  run (unfold on_swap, zoom; rewrite swap_write_ok;
       [done | done | done | by apply frame_page_whole]).
  rewrite IH; [by destruct m | done | by apply fmap_is_Some | done | done | lia].
Qed.

Lemma copy_in_ok ss us ps m :
  user_space_ok (space m) → Forall (frame_in (space m)) us → Forall (slot config (swap m)) ss →
  Forall2 (slot_holds config (swap m)) ss ps → length us = length ss →
  copy_in config ss us m = Ok (true, set_space (write_pages (space m) us ps) m).
Proof.
  revert us ps m. induction ss as [|s ss IH]; intros us ps m Hu Hus Hss Hps Hlen.
  { destruct us; [|done]. by destruct m. }
  destruct us as [|f us]; [done|]. inversion Hps as [|? p ? ps' Hp Hps']; subst.
  apply Forall_cons in Hus as [Hf Hus]. apply Forall_cons in Hss as [Hsl Hss]. cbn in Hlen.
  assert (zlen p = T) as Hw by (by destruct Hp as (? & ? & ? & _)).
  cbn [copy_in]. rewrite (frame_address (space m)) by done.
  run (unfold on_swap, zoom; by erewrite swap_read_ok).
  run (unfold on_space, zoom; rewrite <- Hw at 2; rewrite write_ok;
    [done | done | rewrite Hw; by apply frame_addressable | rewrite Hw; lia]).
  rewrite (IH us ps'); [by destruct m | by apply write_page_ok | done | done | done | lia].
Qed.
End Pages.

(** ** The operations *)
Section Swapping.
Context {C : CommonsOps} {CL : CommonsLaws C} (config : t_memoria_config) (d : nat).
Context (Hcfg : config_ok config d).

(** Frames and slots that are in use can be accessed. *)
Lemma in_use_frame_in m f :
  mem_ok config m → pool_in_use (frames m) f → frame_in config (space m) f.
Proof.
  intros Hm [Hr _]. pose proof (frames_fit _ _ Hm). pose proof (page_pos _ _ Hcfg).
  split; [lia|]. nia.
Qed.

Lemma slot_in_range s f :
  (0 <= f < SWAP_INITIAL_FRAMES)%Z →
  (SWAP_INITIAL_FRAMES * TAM_PAGINA config <= disk_capacity s)%Z → slot config s f.
Proof.
  intros Hf Hc. pose proof (swap_small _ _ Hcfg). pose proof (page_pos _ _ Hcfg).
  unfold slot. nia.
Qed.

Lemma granted_elem n p j : j ∈ granted n p → j ∈ pool_free p.
Proof.
  unfold granted. intros Hj. rewrite <- (take_drop (Z.to_nat n) (pool_free p)).
  apply elem_of_app. by left.
Qed.

Lemma granted_range n p j : j ∈ granted n p → (0 <= j < frames_total p)%Z.
Proof. intros Hj%granted_elem. by eapply free_frames_range. Qed.

Lemma granted_NoDup n p : NoDup (granted n p).
Proof. eapply sublist_NoDup; [apply free_from_NoDup | apply sublist_take]. Qed.

Lemma granted_frame_in n m :
  mem_ok config m → Forall (frame_in config (space m)) (granted n (frames m)).
Proof.
  intros Hm. apply Forall_forall. intros f Hf%granted_range.
  pose proof (frames_fit _ _ Hm). pose proof (page_pos _ _ Hcfg). split; [lia|]. nia.
Qed.

(** A process of the list, and its frames. *)
Lemma resident_owned m i p :
  mem_ok config m → global_process_list m !! i = Some p → is_suspended p = false →
  NoDup (frames_of p) ∧ Forall (pool_in_use (frames m)) (frames_of p).
Proof.
  intros Hm Hi Hs. destruct (partition_owned _ _ (frames_ok _ _ Hm) (main_partition _ _ Hm)) as [Hnd Hu].
  destruct (bind_at (λ p, if is_suspended p then [] else frames_of p) _ _ _ Hi) as (rest & Hr & _).
  unfold resident in Hnd, Hu. rewrite Hr, Hs in Hnd, Hu.
  apply NoDup_app in Hnd as (? & _ & _). by apply Forall_app in Hu as [? _].
Qed.

Lemma swapped_owned m i p :
  mem_ok config m → global_process_list m !! i = Some p → is_suspended p = true →
  NoDup (frames_of p) ∧ Forall (pool_in_use (swap_frames (swap m))) (frames_of p).
Proof.
  intros Hm Hi Hs. pose proof (swap_partition _ _ Hm) as Hpart.
  destruct (swap_fits _ _ Hm) as [Htot _]. rewrite <- Htot in Hpart.
  destruct (partition_owned _ _ (swap_pool_ok _ _ Hm) Hpart) as [Hnd Hu].
  destruct (bind_at (λ p, if is_suspended p then frames_of p else []) _ _ _ Hi) as (rest & Hr & _).
  unfold swapped in Hnd, Hu. rewrite Hr, Hs in Hnd, Hu.
  apply NoDup_app in Hnd as (? & _ & _). by apply Forall_app in Hu as [? _].
Qed.

Definition after_release (l : list Z) (p : t_pool) : t_pool :=
  mk_pool (set_all false l (bitmap p)) (free_count p + zlen l) (frames_total p).

(** *** Suspension *)
Definition suspended (slots : list Z) (p : process_info) : process_info :=
  with_metrics count_swap_out (with_suspended true (with_frames (Ptr slots) p)).

Definition after_swap_out (i : nat) (p : process_info) (m : t_memoria) : t_memoria :=
  let l := frames_of p in
  let slots := granted (zlen l) (swap_frames (swap m)) in
  let s := mk_swap (swap_file (swap m)) (after_grant (zlen l) (swap_frames (swap m)))
             (disk_capacity (swap m)) in
  set_processes (<[i := suspended slots p]> (global_process_list m))
    (set_frames (after_release l (frames m))
      (set_swap (swap_puts config s slots (pages_of config (space m) l)) m)).

Lemma granted_slots n m s :
  mem_ok config m → disk_capacity s = disk_capacity (swap m) →
  Forall (slot config s) (granted n (swap_frames (swap m))).
Proof.
  intros Hm Hc. destruct (swap_fits _ _ Hm) as [Htot Hcap].
  apply Forall_forall. intros f Hf%granted_range. rewrite Htot in Hf.
  apply slot_in_range; [done | by rewrite Hc].
Qed.

Lemma swap_out_ok x i p m :
  mem_ok config m → position_from 0 x (global_process_list m) = Some i →
  global_process_list m !! i = Some p → is_suspended p = false → process_size p ≠ 0%Z →
  (zlen (frames_of p) <= free_count (swap_frames (swap m)))%Z →
  swap_out_process config x m = Ok (true, after_swap_out i p m).
Proof.
  intros Hm Hpos Hi Hs Hsz Hroom. pose proof (page_pos _ _ Hcfg) as Hpage.
  pose proof (proj1 (Forall_lookup _ _) (processes_ok _ _ Hm) i p Hi) as Hp.
  destruct (sized p Hp Hsz) as (t & l & _ & Hl).
  assert (frames_of p = l) as Hfl by (unfold frames_of; by rewrite Hl). rewrite Hfl in *.
  destruct (resident_owned m i p Hm Hi Hs) as [Hnd Hu]. rewrite Hfl in *.
  destruct (pool_allocate_ok (swap_frames (swap m)) (zlen l) (swap_pool_ok _ _ Hm) Hroom) as (Ha & Hok & _).
  fold (granted (zlen l) (swap_frames (swap m))) in Ha, Hok.
  set (slots := granted (zlen l) (swap_frames (swap m))) in *.
  assert (zlen slots = zlen l) as Hlen.
  { apply granted_zlen; [apply Hm|]. pose proof (zlen_nonneg l). lia. }
  destruct (pool_release_ok (frames m) l (frames_ok _ _ Hm) Hnd Hu) as (Hrel & _).
  assert (Forall (frame_in config (space m)) l) as Hfr.
  { eapply Forall_impl; [exact Hu|]. intros f. by apply in_use_frame_in. }
  assert (length l = length slots) as Hlen' by (unfold zlen in Hlen; lia).
  unfold swap_out_process.
  run (by apply lock_ok, Hm).
  run (apply find_process_ok; cbn; rewrite lookup_insert_ne by done; by apply Hm).
  cbn [global_process_list set_sems]. rewrite Hpos.
  run (by apply load_process_ok). rewrite Hs, Hl. run done. rewrite list_size_spec.
  run (unfold on_swap, zoom, swap_allocate_frames, zoom; cbn [swap set_sems]; by rewrite Ha).
  rewrite list_size_spec. rewrite decide_False by lia. rewrite decide_False by lia.
  run (apply copy_out_ok; [done | apply Hm | apply Hm | done | by apply granted_slots | done]).
  run (unfold on_frames, zoom, release_frames; cbn [frames set_sems set_swap]; by rewrite Hrel).
  run (by eapply store_process_ok).
  run (eapply unlock_ok; [done | by apply Hm]).
  unfold after_swap_out, suspended. rewrite Hfl. fold slots. by destruct m.
Qed.

Lemma after_release_ok l p :
  pool_ok p → NoDup l → Forall (pool_in_use p) l →
  pool_ok (after_release l p) ∧ pool_free (after_release l p) ≡ₚ l ++ pool_free p.
Proof. intros Hp Hnd Hl. by destruct (pool_release_ok p l Hp Hnd Hl) as (_ & ? & ?). Qed.

Lemma suspended_process_ok slots p :
  process_size p ≠ 0%Z → process_ok p → process_ok (suspended slots p).
Proof.
  intros Hsz Hp. destruct (sized p Hp Hsz) as (t & l & Ht & _). constructor; [done|].
  intros _. by exists t, slots.
Qed.

Lemma swapped_not_granted m n f :
  mem_ok config m → f ∈ swapped (global_process_list m) → f ∉ granted n (swap_frames (swap m)).
Proof.
  intros Hm Hf Hg%granted_elem. pose proof (swap_partition _ _ Hm) as Hpart.
  destruct (swap_fits _ _ Hm) as [Htot _]. rewrite <- Htot in Hpart.
  destruct (partition_owned _ _ (swap_pool_ok _ _ Hm) Hpart) as [_ Hu].
  rewrite Forall_forall in Hu. eapply pool_free_not_in_use; [apply (swap_pool_ok _ _ Hm) | exact Hg | by apply Hu].
Qed.

Lemma after_swap_out_ok i p m :
  mem_ok config m → global_process_list m !! i = Some p → is_suspended p = false →
  process_size p ≠ 0%Z → (zlen (frames_of p) <= free_count (swap_frames (swap m)))%Z →
  mem_ok config (after_swap_out i p m).
Proof.
  intros Hm Hi Hs Hsz Hroom. pose proof (page_pos _ _ Hcfg) as Hpage.
  destruct (resident_owned m i p Hm Hi Hs) as [Hnd Hu].
  destruct (after_release_ok (frames_of p) (frames m)) as [Hok Hfree]; [apply Hm | done..|].
  destruct (after_grant_ok (zlen (frames_of p)) (swap_frames (swap m))) as [Hok' Hfree']; [apply Hm | done |].
  pose proof (zlen_nonneg (frames_of p)) as Hz.
  pose proof (granted_zlen (zlen (frames_of p)) (swap_frames (swap m)) (swap_pool_ok _ _ Hm) ltac:(lia)) as Hlen.
  assert (Forall (frame_in config (space m)) (frames_of p)) as Hfr.
  { eapply Forall_impl; [exact Hu|]. intros f. by apply in_use_frame_in. }
  assert (Forall (whole config) (pages_of config (space m) (frames_of p))) as Hwhole.
  { apply Forall_fmap. eapply Forall_impl; [exact Hfr|]. intros f. cbn.
    apply frame_page_whole; [done | apply Hm]. }
  assert (Forall (λ f, 0 <= f)%Z (granted (zlen (frames_of p)) (swap_frames (swap m)))) as Hnn.
  { apply Forall_forall. intros f Hf%granted_range. lia. }
  destruct (bind_at (λ p, if is_suspended p then [] else frames_of p) _ _ _ Hi) as (rest & Hr & Hr' & _).
  destruct (bind_at (λ p, if is_suspended p then frames_of p else []) _ _ _ Hi) as (rest' & Hq & Hq' & _).
  pose proof Hm as [Hlocks Hframes Hspool Hspace Hfit Hopen Hsfits Hids Hprocs Hmain Hswap Hfilled]. unfold after_swap_out.
  constructor; cbn [sems frames swap space global_process_list next_table_id set_processes
    set_frames set_swap]; try done.
  - by rewrite swap_puts_frames.
  - by apply swap_puts_open.
  - by rewrite swap_puts_frames, swap_puts_capacity.
  - apply Forall_insert; [done|]. apply suspended_process_ok; [done|].
    by eapply Forall_lookup_1.
  - unfold resident in *. rewrite Hr'. cbn. rewrite Hfree.
    change (frames_total (after_release _ _)) with (frames_total (frames m)).
    rewrite <- Hmain, Hr, Hs. solve_Permutation.
  - unfold swapped in *. rewrite swap_puts_frames. rewrite Hq'. cbn. rewrite Hfree'.
    rewrite <- Hswap, Hq, Hs. cbn.
    rewrite <- (take_drop (Z.to_nat (zlen (frames_of p))) (pool_free (swap_frames (swap m)))) at 2.
    unfold granted. solve_Permutation.
  - unfold swapped in *. rewrite Hq'. cbn. apply Forall_app. split.
    + pose proof (swap_puts_hold config Hpage
        (mk_swap (swap_file (swap m)) (after_grant (zlen (frames_of p)) (swap_frames (swap m)))
           (disk_capacity (swap m))) _ _ Hopen Hnn Hwhole) as Hh.
      eapply Forall2_Forall_l; [apply Hh; [|apply granted_NoDup]|].
      * unfold pages_of. rewrite length_fmap. apply Nat2Z.inj, Hlen.
      * apply Forall_forall. eauto.
    + rewrite Hq, Hs in Hfilled. cbn in Hfilled. rewrite Forall_forall in Hfilled |- *.
      intros f Hf. destruct (Hfilled f Hf) as [page Hpg]. exists page.
      assert (f ∈ swapped (global_process_list m)) as Hin.
      { unfold swapped. rewrite Hq, Hs. done. }
      apply swap_puts_keeps; [done | done | done | | by apply swapped_not_granted | done].
      assert (f ∈ upto SWAP_INITIAL_FRAMES) as Hup%elem_of_upto; [|lia].
      rewrite <- Hswap. apply elem_of_app. by right.
Qed.

(** Suspending what is suspended, what is unknown, or what does not fit. *)
Lemma swap_out_unknown x m :
  mem_ok config m → position_from 0 x (global_process_list m) = None →
  swap_out_process config x m = Ok (false, m).
Proof.
  intros Hm Hpos. unfold swap_out_process. run (by apply lock_ok, Hm).
  run (apply find_process_ok; cbn; rewrite lookup_insert_ne by done; by apply Hm).
  cbn [global_process_list set_sems]. rewrite Hpos.
  run (eapply unlock_ok; [done | by apply Hm]). by destruct m.
Qed.

Lemma swap_out_full x i p m :
  mem_ok config m → position_from 0 x (global_process_list m) = Some i →
  global_process_list m !! i = Some p → is_suspended p = false → process_size p ≠ 0%Z →
  (zlen (frames_of p) > free_count (swap_frames (swap m)))%Z →
  swap_out_process config x m = Ok (false, m).
Proof.
  intros Hm Hpos Hi Hs Hsz Hroom.
  pose proof (proj1 (Forall_lookup _ _) (processes_ok _ _ Hm) i p Hi) as Hp.
  destruct (sized p Hp Hsz) as (t & l & _ & Hl).
  assert (frames_of p = l) as Hfl by (unfold frames_of; by rewrite Hl). rewrite Hfl in *.
  unfold swap_out_process. run (by apply lock_ok, Hm).
  run (apply find_process_ok; cbn; rewrite lookup_insert_ne by done; by apply Hm).
  cbn [global_process_list set_sems]. rewrite Hpos.
  run (by apply load_process_ok). rewrite Hs, Hl. run done. rewrite list_size_spec.
  run (unfold on_swap, zoom, swap_allocate_frames, zoom; cbn [swap set_sems];
       by rewrite pool_allocate_refused).
  run (eapply unlock_ok; [done | by apply Hm]). by destruct m as [? ? ? ? [] ? ? ?].
Qed.

(** A process without frames cannot be suspended: its frame list is an
    uninitialised pointer. *)
Lemma swap_out_sizeless x i p m :
  mem_ok config m → position_from 0 x (global_process_list m) = Some i →
  global_process_list m !! i = Some p → is_suspended p = false → process_size p = 0%Z →
  swap_out_process config x m = Crash Uninit.
Proof.
  intros Hm Hpos Hi Hs Hsz.
  pose proof (proj1 (Forall_lookup _ _) (processes_ok _ _ Hm) i p Hi) as Hp.
  destruct (sizeless p Hp Hsz) as [_ Hl].
  unfold swap_out_process. run (by apply lock_ok, Hm).
  run (apply find_process_ok; cbn; rewrite lookup_insert_ne by done; by apply Hm).
  cbn [global_process_list set_sems]. rewrite Hpos.
  run (by apply load_process_ok). by rewrite Hs, Hl.
Qed.

(** *** Resumption *)
Definition resumed (l : list Z) (p : process_info) : process_info :=
  with_metrics count_swap_in (with_suspended false (with_frames (Ptr l) p)).

Definition after_swap_in (i : nat) (p : process_info) (ps : list (list byte)) (m : t_memoria)
    : t_memoria :=
  let slots := frames_of p in
  let l := granted (zlen slots) (frames m) in
  set_processes (<[i := resumed l p]> (global_process_list m))
    (set_swap (mk_swap (swap_file (swap m)) (after_release slots (swap_frames (swap m)))
                 (disk_capacity (swap m)))
      (set_space (write_pages config (space m) l ps)
        (set_frames (after_grant (zlen slots) (frames m)) m))).

Lemma swapped_slots m i p :
  mem_ok config m → global_process_list m !! i = Some p → is_suspended p = true →
  Forall (slot config (swap m)) (frames_of p).
Proof.
  intros Hm Hi Hs. destruct (swapped_owned m i p Hm Hi Hs) as [_ Hu].
  destruct (swap_fits _ _ Hm) as [Htot Hcap].
  eapply Forall_impl; [exact Hu|]. intros f [Hr _]. rewrite Htot in Hr. by apply slot_in_range.
Qed.

(** The slots of a suspended process hold its pages. *)
Lemma swapped_pages m i p :
  mem_ok config m → global_process_list m !! i = Some p → is_suspended p = true →
  ∃ ps, Forall2 (slot_holds config (swap m)) (frames_of p) ps.
Proof.
  intros Hm Hi Hs. pose proof (swap_filled _ _ Hm) as Hfill.
  destruct (bind_at (λ p, if is_suspended p then frames_of p else []) _ _ _ Hi) as (rest & Hr & _).
  unfold swapped in Hfill. rewrite Hr, Hs in Hfill. apply Forall_app in Hfill as [Hfill _].
  clear Hr Hi. induction (frames_of p) as [|f l IH].
  - exists []. constructor.
  - apply Forall_cons in Hfill as [[page Hp] Hfill]. destruct (IH Hfill) as [ps Hps].
    exists (page :: ps). by constructor.
Qed.

Lemma swap_in_ok x i p ps m :
  mem_ok config m → position_from 0 x (global_process_list m) = Some i →
  global_process_list m !! i = Some p → is_suspended p = true → process_size p ≠ 0%Z →
  frames_of p ≠ [] → Forall2 (slot_holds config (swap m)) (frames_of p) ps →
  (zlen (frames_of p) <= free_count (frames m))%Z →
  swap_in_process config x m = Ok (true, after_swap_in i p ps m).
Proof.
  intros Hm Hpos Hi Hs Hsz Hne Hps Hroom. pose proof (page_pos _ _ Hcfg) as Hpage.
  pose proof (proj1 (Forall_lookup _ _) (processes_ok _ _ Hm) i p Hi) as Hp.
  destruct (sized p Hp Hsz) as (t & slots & _ & Hl).
  assert (frames_of p = slots) as Hfl by (unfold frames_of; by rewrite Hl).
  destruct (swapped_owned m i p Hm Hi Hs) as [Hnd Hu].
  pose proof (swapped_slots m i p Hm Hi Hs) as Hslots. rewrite Hfl in *.
  destruct (pool_allocate_ok (frames m) (zlen slots) (frames_ok _ _ Hm) Hroom) as (Ha & _).
  fold (granted (zlen slots) (frames m)) in Ha.
  pose proof (granted_frame_in (zlen slots) m Hm) as Hfr.
  set (l := granted (zlen slots) (frames m)) in *.
  assert (zlen l = zlen slots) as Hlen.
  { apply granted_zlen; [apply Hm|]. pose proof (zlen_nonneg slots). lia. }
  assert (length l = length slots) as Hlen' by (unfold zlen in Hlen; lia).
  destruct (pool_release_ok (swap_frames (swap m)) slots (swap_pool_ok _ _ Hm) Hnd Hu) as (Hrel & _).
  unfold swap_in_process.
  run (by apply lock_ok, Hm).
  run (apply find_process_ok; cbn; rewrite lookup_insert_ne by done; by apply Hm).
  cbn [global_process_list set_sems]. rewrite Hpos.
  run (by apply load_process_ok). rewrite Hs, Hl. cbn [negb]. run done.
  rewrite list_is_empty_spec, bool_decide_false, list_size_spec by done.
  run (unfold on_frames, zoom, allocate_frames; cbn [frames set_sems]; by rewrite Ha).
  rewrite list_size_spec. rewrite decide_False by lia. rewrite decide_False by lia.
  run (apply (copy_in_ok config Hpage slots l ps); [apply Hm | done | done | done | done]).
  run (unfold on_swap, zoom, swap_release_frames, zoom; cbn [swap set_sems set_space set_frames];
       by rewrite Hrel).
  run (by eapply store_process_ok).
  run (eapply unlock_ok; [done | by apply Hm]).
  unfold after_swap_in, resumed. rewrite Hfl. fold l. by destruct m.
Qed.

Lemma resumed_process_ok l p :
  process_size p ≠ 0%Z → process_ok p → process_ok (resumed l p).
Proof.
  intros Hsz Hp. destruct (sized p Hp Hsz) as (t & l' & Ht & _). constructor; [done|].
  intros _. by exists t, l.
Qed.

Lemma after_swap_in_ok i p ps m :
  mem_ok config m → global_process_list m !! i = Some p → is_suspended p = true →
  process_size p ≠ 0%Z → Forall (whole config) ps →
  (zlen (frames_of p) <= free_count (frames m))%Z →
  mem_ok config (after_swap_in i p ps m).
Proof.
  intros Hm Hi Hs Hsz Hwhole Hroom. pose proof (page_pos _ _ Hcfg) as Hpage.
  destruct (swapped_owned m i p Hm Hi Hs) as [Hnd Hu].
  destruct (after_release_ok (frames_of p) (swap_frames (swap m))) as [Hok Hfree];
    [apply (swap_pool_ok _ _ Hm) | done | done |].
  destruct (after_grant_ok (zlen (frames_of p)) (frames m)) as [Hok' Hfree'];
    [apply (frames_ok _ _ Hm) | done |].
  pose proof (granted_frame_in (zlen (frames_of p)) m Hm) as Hfr.
  destruct (bind_at (λ p, if is_suspended p then [] else frames_of p) _ _ _ Hi) as (rest & Hr & Hr' & _).
  destruct (bind_at (λ p, if is_suspended p then frames_of p else []) _ _ _ Hi) as (rest' & Hq & Hq' & _).
  pose proof Hm as [Hlocks Hframes Hspool Hspace Hfit Hopen Hsfits Hids Hprocs Hmain Hswap Hfilled].
  unfold after_swap_in.
  constructor; cbn [sems frames swap space global_process_list next_table_id set_processes
    set_frames set_swap set_space swap_file swap_frames disk_capacity]; try done.
  - by apply write_pages_ok.
  - by rewrite write_pages_size.
  - apply Forall_insert; [done|]. apply resumed_process_ok; [done|]. by eapply Forall_lookup_1.
  - unfold resident in *. rewrite Hr'. cbn. rewrite Hfree'.
    change (frames_total (after_grant _ _)) with (frames_total (frames m)).
    rewrite <- Hmain, Hr, Hs. cbn.
    rewrite <- (take_drop (Z.to_nat (zlen (frames_of p))) (pool_free (frames m))) at 2.
    unfold granted. solve_Permutation.
  - unfold swapped in *. rewrite Hq'. cbn. rewrite Hfree.
    rewrite <- Hswap, Hq, Hs. solve_Permutation.
  - unfold swapped in *. rewrite Hq'. cbn.
    rewrite Hq, Hs in Hfilled. by apply Forall_app in Hfilled as [_ ?].
Qed.

(** No room in main memory: still suspended. *)
Lemma swap_in_no_room x i p m :
  mem_ok config m → position_from 0 x (global_process_list m) = Some i →
  global_process_list m !! i = Some p → is_suspended p = true → process_size p ≠ 0%Z →
  frames_of p ≠ [] → (zlen (frames_of p) > free_count (frames m))%Z →
  swap_in_process config x m = Ok (false, m).
Proof.
  intros Hm Hpos Hi Hs Hsz Hne Hroom.
  pose proof (proj1 (Forall_lookup _ _) (processes_ok _ _ Hm) i p Hi) as Hp.
  destruct (sized p Hp Hsz) as (t & slots & _ & Hl).
  assert (frames_of p = slots) as Hfl by (unfold frames_of; by rewrite Hl). rewrite Hfl in *.
  unfold swap_in_process. run (by apply lock_ok, Hm).
  run (apply find_process_ok; cbn; rewrite lookup_insert_ne by done; by apply Hm).
  cbn [global_process_list set_sems]. rewrite Hpos.
  run (by apply load_process_ok). rewrite Hs, Hl. cbn [negb]. run done.
  rewrite list_is_empty_spec, bool_decide_false, list_size_spec by done.
  run (unfold on_frames, zoom, allocate_frames; cbn [frames set_sems]; by rewrite pool_allocate_refused).
  run (eapply unlock_ok; [done | by apply Hm]). by destruct m.
Qed.

(** *** Out and in again *)

Lemma holds_unique s f p q : slot_holds config s f p → slot_holds config s f q → p = q.
Proof.
  intros (file & Hf & Hp & Hl & Hs) (file' & Hf' & Hq & Hl' & Hs').
  rewrite Hf in Hf'. injection Hf' as <-. rewrite <- Hs, <- Hs'.
  unfold zlen in *. f_equal. lia.
Qed.

(** The slots hold the pages that the frames held. *)
Lemma after_swap_out_holds i p m :
  mem_ok config m → global_process_list m !! i = Some p → is_suspended p = false →
  process_size p ≠ 0%Z → (zlen (frames_of p) <= free_count (swap_frames (swap m)))%Z →
  Forall2 (slot_holds config (swap (after_swap_out i p m)))
    (granted (zlen (frames_of p)) (swap_frames (swap m))) (pages_of config (space m) (frames_of p)).
Proof.
  intros Hm Hi Hs Hsz Hroom. pose proof (page_pos _ _ Hcfg) as Hpage.
  destruct (resident_owned m i p Hm Hi Hs) as [Hnd Hu].
  pose proof (zlen_nonneg (frames_of p)) as Hz.
  pose proof (granted_zlen (zlen (frames_of p)) (swap_frames (swap m)) (swap_pool_ok _ _ Hm) ltac:(lia)) as Hlen.
  unfold after_swap_out. cbn [swap set_processes set_frames set_swap].
  apply swap_puts_hold; [done | apply Hm | | | | apply granted_NoDup].
  - apply Forall_forall. intros f Hf%granted_range. lia.
  - apply Forall_fmap. eapply Forall_impl; [exact Hu|]. intros f Hf. cbn.
    apply frame_page_whole; [done | apply Hm | by apply in_use_frame_in].
  - unfold pages_of. rewrite length_fmap. apply Nat2Z.inj, Hlen.
Qed.
End Swapping.
