(* ===== verification/Invariant.v ===== *)
(** * Every request keeps the memory module's invariant

    Deletion, access to user space, and the dispatch of any package: whatever
    a client sends, a request that is answered leaves the locks free and the
    frames partitioned.  The one exception in the program, the deletion of a
    suspended process, is isolated by [suspended_target]. *)
From S2P Require Import Prelude Commons Enums Buffer Package Packages Config Semaphores Bitmap.
From S2P Require Import Storage PageTable PageTableFacts Memoria MemoriaFacts SwapFacts.
From Stdlib Require Import Strings.Byte.
Import Buffer Package FrameManager UserSpace SwapManager.

Section Invariant.
Context {C : CommonsOps} {CL : CommonsLaws C} (config : t_memoria_config) (fs : t_file_system).
Context (d : nat) (Hcfg : config_ok config d).

(** ** Changes the invariant does not see *)

Lemma set_out_ok x m : mem_ok config m → mem_ok config (set_out x m).
Proof. intros []. by constructor. Qed.

Lemma add_dump_ok x m : mem_ok config m → mem_ok config (add_dump x m).
Proof. intros []. by constructor. Qed.

Lemma respond_ok r u m m' : mem_ok config m → respond r m = Ok (u, m') → mem_ok config m'.
Proof.
  intros Hm H. unfold respond in H. step_in H. destruct r as [p|]; [|done].
  injection H as <- <-. by apply set_out_ok.
Qed.

Lemma with_metrics_ok i p f m :
  mem_ok config m → global_process_list m !! i = Some p →
  mem_ok config (set_processes (<[i := with_metrics f p]> (global_process_list m)) m).
Proof.
  intros Hm Hi. pose proof Hm as [Hlocks Hframes Hspool Hspace Hfit Hopen Hsfits Hids Hprocs Hmain Hswap Hfilled].
  destruct (bind_at (λ p, if is_suspended p then [] else frames_of p) _ _ _ Hi) as (rest & Hr & Hr' & _).
  destruct (bind_at (λ p, if is_suspended p then frames_of p else []) _ _ _ Hi) as (rest' & Hq & Hq' & _).
  constructor; cbn [sems frames swap space global_process_list next_table_id set_processes]; try done.
  - apply Forall_insert; [done|]. pose proof (Forall_lookup_1 _ _ _ _ Hprocs Hi) as [H0 H1].
    by constructor.
  - unfold resident in *. rewrite Hr'. by rewrite <- Hmain, Hr.
  - unfold swapped in *. rewrite Hq'. by rewrite <- Hswap, Hq.
  - unfold swapped in *. rewrite Hq'. by rewrite Hq in Hfilled.
Qed.

(** Marking a process without frames. *)
Lemma with_suspended_ok i p b m :
  mem_ok config m → global_process_list m !! i = Some p → frames_of p = [] →
  mem_ok config (set_processes (<[i := with_suspended b p]> (global_process_list m)) m).
Proof.
  intros Hm Hi Hnil. pose proof Hm as [Hlocks Hframes Hspool Hspace Hfit Hopen Hsfits Hids Hprocs Hmain Hswap Hfilled].
  destruct (bind_at (λ p, if is_suspended p then [] else frames_of p) _ _ _ Hi) as (rest & Hr & Hr' & _).
  destruct (bind_at (λ p, if is_suspended p then frames_of p else []) _ _ _ Hi) as (rest' & Hq & Hq' & _).
  assert (∀ c : bool, (if c then [] else frames_of p) = []) as E1 by (intros []; done).
  assert (∀ c : bool, (if c then frames_of p else []) = []) as E2 by (intros []; done).
  constructor; cbn [sems frames swap space global_process_list next_table_id set_processes]; try done.
  - apply Forall_insert; [done|]. pose proof (Forall_lookup_1 _ _ _ _ Hprocs Hi) as [H0 H1].
    by constructor.
  - unfold resident in *. rewrite Hr'. cbn. change (frames_of (with_suspended b p)) with (frames_of p).
    rewrite E1. by rewrite <- Hmain, Hr, E1.
  - unfold swapped in *. rewrite Hq'. cbn. change (frames_of (with_suspended b p)) with (frames_of p).
    rewrite E2. by rewrite <- Hswap, Hq, E2.
  - unfold swapped in *. rewrite Hq'. cbn. change (frames_of (with_suspended b p)) with (frames_of p).
    rewrite E2. by rewrite Hq, E2 in Hfilled.
Qed.

(** User space may change freely, as a block of its size. *)
Lemma set_space_ok u m :
  mem_ok config m → user_space_ok u → user_space_size u = user_space_size (space m) →
  mem_ok config (set_space u m).
Proof. intros [] Hu Hs. constructor; try done. cbn. by rewrite Hs. Qed.

Lemma write_keeps a data size u u' :
  user_space_ok u → write_to_user_space config a data size u = Ok (tt, u') →
  user_space_ok u' ∧ user_space_size u' = user_space_size u.
Proof.
  intros Hu H. unfold write_to_user_space in H. case_decide; [by injection H as <-|].
  step_in H. case_decide; [by injection H as <-|]. case_decide as Hb; [|done].
  injection H as <-. split; [|done]. destruct Hu as [Hs Hi]. constructor; [|done]. cbn.
  unfold zlen in *. rewrite splice_length; rewrite ?length_take; lia.
Qed.

Lemma read_keeps a size u r u' : read_from_user_space a size u = Ok (r, u') → u' = u.
Proof.
  intros H. unfold read_from_user_space in H. step_in H.
  repeat case_decide; try done; by injection H as _ <-.
Qed.

(** ** Deletion *)

Definition after_delete (i : nat) (p : process_info) (m : t_memoria) : t_memoria :=
  set_processes (delete i (global_process_list m))
    (if decide (process_size p = 0)%Z then m
     else set_frames (after_release (frames_of p) (frames m)) m).

Lemma delete_process_ok x i p m :
  mem_ok config m → position_from 0 x (global_process_list m) = Some i →
  global_process_list m !! i = Some p → is_suspended p = false →
  process_manager_delete_process x m = Ok (true, after_delete i p m).
Proof.
  intros Hm Hpos Hi Hs.
  pose proof (proj1 (Forall_lookup _ _) (processes_ok _ _ Hm) i p Hi) as Hp.
  destruct (resident_owned config m i p Hm Hi Hs) as [Hnd Hu].
  destruct (pool_release_ok (frames m) (frames_of p) (frames_ok _ _ Hm) Hnd Hu) as (Hrel & _).
  unfold process_manager_delete_process.
  run (by apply lock_ok, Hm). run done.
  cbn [global_process_list set_sems]. rewrite Hpos.
  assert (∀ m1, global_process_list m1 = global_process_list m → frames m1 = frames m →
    (proc ← load_process i;
     modify (λ m, set_processes (list_remove (global_process_list m) (Z.of_nat i)).2 m);;
     destroy_process_info proc;; mret true) m1
    = Ok (true, set_processes (delete i (global_process_list m))
        (if decide (process_size p = 0)%Z then m1
         else set_frames (after_release (frames_of p) (frames m)) m1))) as Hbody.
  { intros m1 Hl Hf. run (apply load_process_ok; by rewrite Hl). run done.
    rewrite list_remove_spec, decide_True by lia. cbn [snd]. rewrite Nat2Z.id, Hl.
    unfold destroy_process_info. destruct (decide (process_size p = 0)%Z) as [Hz|Hz].
    - rewrite decide_False by tauto. done.
    - rewrite decide_True by done. destruct (sized p Hp Hz) as (t & l & Ht & Hl').
      rewrite Ht, Hl'. unfold frames_of in *. rewrite Hl' in *.
      run (run done; run done; unfold on_frames, zoom, release_frames;
           cbn [frames set_processes]; rewrite Hf, Hrel; reflexivity).
      by destruct m1. }
  run (by apply Hbody). run (eapply unlock_ok; [by case_decide | by apply Hm]).
  unfold after_delete. by case_decide; destruct m.
Qed.

Lemma delete_unknown x m :
  mem_ok config m → position_from 0 x (global_process_list m) = None →
  process_manager_delete_process x m = Ok (false, m).
Proof.
  intros Hm Hpos. unfold process_manager_delete_process.
  run (by apply lock_ok, Hm). run done. cbn [global_process_list set_sems]. rewrite Hpos.
  run done. run (eapply unlock_ok; [done | by apply Hm]). by destruct m.
Qed.

Lemma after_delete_ok i p m :
  mem_ok config m → global_process_list m !! i = Some p → is_suspended p = false →
  mem_ok config (after_delete i p m).
Proof.
  intros Hm Hi Hs. destruct (resident_owned config m i p Hm Hi Hs) as [Hnd Hu].
  destruct (after_release_ok (frames_of p) (frames m) (frames_ok _ _ Hm) Hnd Hu) as [Hok Hfree].
  pose proof Hm as [Hlocks Hframes Hspool Hspace Hfit Hopen Hsfits Hids Hprocs Hmain Hswap Hfilled].
  destruct (bind_at (λ p, if is_suspended p then [] else frames_of p) _ _ _ Hi) as (rest & Hr & _ & Hr').
  destruct (bind_at (λ p, if is_suspended p then frames_of p else []) _ _ _ Hi) as (rest' & Hq & _ & Hq').
  pose proof (Forall_lookup_1 _ _ _ _ Hprocs Hi) as Hp.
  assert (process_size p = 0%Z → frames_of p = []) as Hnil.
  { intros Hz. destruct (sizeless p Hp Hz) as [_ Hg]. unfold frames_of. by rewrite Hg. }
  unfold resident, swapped in *. rewrite Hs in *.
  constructor; unfold after_delete; case_decide as Hz;
    cbn [sems frames swap space global_process_list next_table_id set_processes set_frames];
    try done; unfold resident, swapped.
  1,2: by apply Forall_delete.
  - rewrite Hr', <- Hmain, Hr, (Hnil Hz). done.
  - rewrite Hr', Hfree. change (frames_total (after_release _ _)) with (frames_total (frames m)).
    rewrite <- Hmain, Hr. solve_Permutation.
  - by rewrite Hq', <- Hswap, Hq.
  - by rewrite Hq', <- Hswap, Hq.
  - rewrite Hq'. by rewrite Hq in Hfilled.
  - rewrite Hq'. by rewrite Hq in Hfilled.
Qed.

(** ** Creation, with any size *)

Lemma create_negative size m :
  mem_ok config m → (size < 0)%Z → create_memory config size m = Ok (None, m).
Proof.
  intros Hm Hsize. pose proof (page_pos _ _ Hcfg) as Hpage.
  assert (pages_needed config size <= 0)%Z as Hn.
  { pose proof (pages_needed_spec config d Hcfg size). nia. }
  pose proof (pool_free_zlen _ (frames_ok _ _ Hm)) as Hfree.
  destruct (pool_allocate_ok (frames m) (pages_needed config size) (frames_ok _ _ Hm) ltac:(lia)) as (Ha & _).
  replace (Z.to_nat (pages_needed config size)) with 0 in Ha by lia. rewrite take_0 in Ha. cbn [set_all] in Ha.
  assert (∀ p, mk_pool (bitmap p) (free_count p - zlen (@nil Z)) (frames_total p) = p) as Heta.
  { intros []. unfold zlen. cbn. f_equal. lia. }
  rewrite Heta in Ha.
  unfold create_memory. run (apply free_count_read). rewrite decide_False by lia.
  run (unfold on_frames, zoom, allocate_frames; by rewrite Ha). rewrite set_frames_id.
  rewrite list_size_spec. change (zlen []) with 0%Z.
  case_decide as Hz; [done|].
  unfold on_table_id, zoom. step. rewrite (ids_reset _ _ Hm).
  pose proof Hcfg as []. rewrite (init_page_table_ok (ENTRADAS_POR_TABLA config)) with (d := d) by done.
  unfold assign_frames. rewrite decide_True by lia. unfold on_frames, zoom, release_frames.
  destruct (pool_release_ok (frames m) [] (frames_ok _ _ Hm) ltac:(constructor) ltac:(constructor))
    as (Hrel & _).
  cbn [frames set_next_table_id]. rewrite Hrel. cbn [set_all].
  do 2 f_equal. rewrite <- (ids_reset _ _ Hm). destruct m as [? ? [] ? ? ? ? ?].
  cbn. unfold set_next_table_id, set_frames. cbn. do 3 f_equal. unfold zlen. cbn. lia.
Qed.

Lemma create_process_keeps new_pid size path m b m' :
  mem_ok config m → create_process config fs new_pid size path m = Ok (b, m') →
  mem_ok config m' ∧ sems m' = sems m.
Proof.
  intros Hm H.
  destruct (process_manager_load_script_lines config fs path) as [lines|] eqn:Hs.
  2:{ unfold create_process in H. rewrite Hs in H. by injection H as <- <-. }
  destruct (decide (0 < size)%Z) as [Hpos|Hneg].
  - set (n := pages_needed config size) in *.
    destruct (decide (n <= free_count (frames m) ∧ n <= pages (ENTRADAS_POR_TABLA config) d)%Z) as [[Hn Hp]|Hn].
    + rewrite (create_process_sized config fs d Hcfg new_pid size path lines) in H by done.
      injection H as <- <-. split; [|done].
      apply after_create_ok; [done | | done | done | done].
      constructor; [cbn; lia|]. intros _. by eexists _, _.
    + rewrite (create_process_refused config fs d Hcfg) in H; [| done | done |].
      * by injection H as <- <-.
      * fold n. right. lia.
  - destruct (decide (size = 0)%Z) as [->|Hz].
    + rewrite (create_process_sizeless config fs new_pid path lines) in H by done.
      injection H as <- <-. split; [|done].
      pose proof Hm as [Hlocks Hframes Hspool Hspace Hfit Hopen Hsfits Hids Hprocs Hmain Hswap Hfilled].
      constructor; cbn [sems frames swap space global_process_list next_table_id set_processes]; try done.
      * apply Forall_app. split; [done|]. apply Forall_singleton. by constructor.
      * unfold resident in *. rewrite bind_app. by rewrite app_nil_r.
      * unfold swapped in *. rewrite bind_app. by rewrite app_nil_r.
      * unfold swapped in *. rewrite bind_app. by rewrite app_nil_r.
    + unfold create_process in H. rewrite Hs, decide_True in H by done.
      rewrite (M_bind_ok _ _ _ _ _ (create_negative size m Hm ltac:(lia))) in H.
      by injection H as <- <-.
Qed.

(** ** Suspension and resumption, of any process *)

Lemma frames_cases p :
  process_ok p → allocated_frames p = Garbage ∨ ∃ l, allocated_frames p = Ptr l ∧ process_size p ≠ 0%Z.
Proof.
  intros Hp. destruct (decide (process_size p = 0)%Z) as [Hz|Hz].
  - left. by destruct (sizeless p Hp Hz).
  - right. destruct (sized p Hp Hz) as (t & l & _ & Hl). by exists l.
Qed.

Lemma swap_out_keeps x m b m' :
  mem_ok config m → swap_out_process config x m = Ok (b, m') → mem_ok config m' ∧ sems m' = sems m.
Proof.
  intros Hm H.
  destruct (position_from 0 x (global_process_list m)) as [i|] eqn:Hpos.
  2:{ rewrite swap_out_unknown in H by done. by injection H as <- <-. }
  destruct (position_Some _ _ _ Hpos) as (p & Hi & _).
  pose proof (Forall_lookup_1 _ _ _ _ (processes_ok _ _ Hm) Hi) as Hp.
  destruct (is_suspended p) eqn:Hs.
  - unfold swap_out_process in H.
    rewrite (M_bind_ok _ _ _ _ _ (lock_ok sem_swap_file m ltac:(by apply Hm))) in H.
    erewrite M_bind_ok in H by (apply find_process_ok; cbn; rewrite lookup_insert_ne by done; by apply Hm).
    cbn [global_process_list set_sems] in H. rewrite Hpos in H.
    erewrite M_bind_ok in H by (by apply load_process_ok). rewrite Hs in H.
    erewrite M_bind_ok in H by (eapply unlock_ok; [done | by apply Hm]).
    injection H as <- <-. by destruct m.
  - destruct (frames_cases p Hp) as [Hg|(l & Hl & Hsz)].
    + assert (process_size p = 0%Z) as Hz.
      { destruct (decide (process_size p = 0)%Z) as [|Hz]; [done|].
        destruct (sized p Hp Hz) as (? & ? & _ & ?). congruence. }
      by rewrite (swap_out_sizeless config x i p) in H.
    + destruct (decide (zlen (frames_of p) <= free_count (swap_frames (swap m)))%Z) as [Hr|Hr].
      * rewrite (swap_out_ok config d Hcfg x i p) in H by done. injection H as <- <-.
        split; [by apply (after_swap_out_ok config d Hcfg) | done].
      * rewrite (swap_out_full config x i p) in H by (done || lia). by injection H as <- <-.
Qed.

Lemma holds_whole s l ps : Forall2 (slot_holds config s) l ps → Forall (whole config) ps.
Proof.
  intros H. eapply Forall2_Forall_r; [exact H|]. apply Forall_forall.
  by intros f _ page (file & _ & ? & _).
Qed.

Lemma swap_in_keeps x m b m' :
  mem_ok config m → swap_in_process config x m = Ok (b, m') → mem_ok config m' ∧ sems m' = sems m.
Proof.
  intros Hm H. pose proof H as Hrun.
  destruct (position_from 0 x (global_process_list m)) as [i|] eqn:Hpos; unfold swap_in_process in H;
    rewrite (M_bind_ok _ _ _ _ _ (lock_ok sem_swap_file m ltac:(by apply Hm))) in H;
    (erewrite M_bind_ok in H by (apply find_process_ok; cbn; rewrite lookup_insert_ne by done; by apply Hm));
    cbn [global_process_list set_sems] in H; rewrite Hpos in H.
  2:{ erewrite M_bind_ok in H by (eapply unlock_ok; [done | by apply Hm]).
      injection H as <- <-. by destruct m. }
  destruct (position_Some _ _ _ Hpos) as (p & Hi & _).
  pose proof (Forall_lookup_1 _ _ _ _ (processes_ok _ _ Hm) Hi) as Hp.
  erewrite M_bind_ok in H by (by apply load_process_ok).
  destruct (is_suspended p) eqn:Hs; cbn [negb] in H.
  2:{ erewrite M_bind_ok in H by (eapply unlock_ok; [done | by apply Hm]).
      injection H as <- <-. by destruct m. }
  destruct (frames_cases p Hp) as [Hg|(l & Hl & Hsz)]; [by rewrite Hg in H|].
  rewrite Hl in H. erewrite M_bind_ok in H by done. cbv beta iota zeta in H. rewrite list_is_empty_spec in H.
  assert (frames_of p = l) as Hfl by (unfold frames_of; by rewrite Hl).
  destruct (decide (l = [])) as [->|Hne].
  - rewrite bool_decide_true in H by done.
    erewrite M_bind_ok in H by (by eapply store_process_ok).
    erewrite M_bind_ok in H by (eapply unlock_ok; [done | by apply Hm]).
    injection H as <- <-. split; [|done].
    replace (set_sems _ _) with (set_processes (<[i := with_suspended false p]> (global_process_list m)) m)
      by (by destruct m).
    by apply with_suspended_ok.
  - clear H. destruct (swapped_pages config m i p Hm Hi Hs) as [ps Hps].
    destruct (decide (zlen (frames_of p) <= free_count (frames m))%Z) as [Hr|Hr].
    + rewrite (swap_in_ok config d Hcfg x i p ps) in Hrun by (done || by rewrite Hfl).
      injection Hrun as <- <-. split; [|done].
      apply (after_swap_in_ok config d Hcfg); try done. by eapply holds_whole.
    + rewrite (swap_in_no_room config x i p) in Hrun by (done || lia || by rewrite Hfl).
      by injection Hrun as <- <-.
Qed.

(** ** Requests *)

Definition mem_ready (m : t_memoria) : Prop :=
  mem_ok config m ∧ sems m !! sem_process_creation = Some 1%Z.

Definition keeps {A} (o : M t_memoria A) : Prop :=
  ∀ m a m', mem_ready m → o m = Ok (a, m') → mem_ready m'.

Lemma keeps_bind {A B} (o : M t_memoria A) (f : A → M t_memoria B) :
  keeps o → (∀ a, keeps (f a)) → keeps (o ≫= f).
Proof.
  intros Ho Hf m b m' Hm H. bind_inv H. eapply Hf; [|exact H]. by eapply Ho.
Qed.

Lemma keeps_ret {A} (a : A) : keeps (mret a).
Proof. intros m b m' Hm H. by injection H as _ <-. Qed.

Lemma keeps_lift {A} (r : res A) : keeps (lift_res r).
Proof. intros m b m' Hm H. unfold lift_res in H. destruct r; [|done]. by injection H as _ <-. Qed.

Lemma keeps_respond r : keeps (respond r).
Proof.
  intros m u m' [Hm Hc] H. split; [by eapply respond_ok|].
  unfold respond in H. step_in H. destruct r; [|done]. by injection H as _ <-.
Qed.

Lemma keeps_find x : keeps (process_manager_find_process x).
Proof.
  intros m a m' [Hm Hc] H. rewrite find_process_ok in H by (by apply Hm). by injection H as _ <-.
Qed.

Lemma keeps_load i : keeps (load_process i).
Proof.
  intros m a m' Hm H. unfold load_process in H. step_in H.
  destruct (global_process_list m !! i); [|done]. by injection H as _ <-.
Qed.

Lemma keeps_load_ptr {A} (p : ptr A) : keeps (load_ptr p).
Proof. intros m a m' Hm H. destruct p; try done; by injection H as _ <-. Qed.

Lemma keeps_deref {A} (o : option A) : keeps (deref o).
Proof. destruct o; [apply keeps_ret | by intros ? ? ?]. Qed.

Lemma keeps_update_metrics i f : keeps (update_process i (with_metrics f)).
Proof.
  intros m a m' [Hm Hc] H. unfold update_process in H. bind_inv H.
  unfold load_process in E. step_in E.
  destruct (global_process_list m !! i) as [p|] eqn:Hi; [|done]. injection E as <- <-.
  rewrite (store_process_ok i p) in H by done. injection H as _ <-.
  split; [by apply with_metrics_ok | done].
Qed.

Lemma keeps_swap_out x : keeps (swap_out_process config x).
Proof. intros m b m' [Hm Hc] H. destruct (swap_out_keeps x m b m' Hm H) as [? Hs]. split; congruence. Qed.

Lemma keeps_swap_in x : keeps (swap_in_process config x).
Proof. intros m b m' [Hm Hc] H. destruct (swap_in_keeps x m b m' Hm H) as [? Hs]. split; congruence. Qed.

Lemma keeps_read a size : keeps (on_space (read_from_user_space a size)).
Proof.
  intros m r m' Hm H. unfold on_space, zoom in H.
  destruct (read_from_user_space a size (space m)) as [[r' u]|] eqn:E; [|done].
  apply read_keeps in E as ->. injection H as _ <-. by destruct m.
Qed.

Lemma keeps_write a data size : keeps (on_space (write_to_user_space config a data size)).
Proof.
  intros m r m' [Hm Hc] H. unfold on_space, zoom in H.
  destruct (write_to_user_space config a data size (space m)) as [[[] u]|] eqn:E; [|done].
  apply write_keeps in E as [Hu Hs]; [|apply Hm]. injection H as _ <-.
  split; [by apply set_space_ok | done].
Qed.

Lemma keeps_dump_frames l file : keeps (dump_frames config fs l file).
Proof.
  revert file. induction l as [|f l IH]; intros file; cbn [dump_frames]; [apply keeps_ret|].
  apply keeps_bind; [apply keeps_read|]. intros b. case_decide; [apply IH | apply keeps_ret].
Qed.

Lemma keeps_add_dump x : keeps (modify (add_dump x)).
Proof.
  intros m a m' [Hm Hc] H. injection H as _ <-. split; [by apply add_dump_ok | done].
Qed.

(** A critical section of another lock. *)
Lemma other_locks_ok s m :
  mem_ok config m → (∀ k, k ≠ sem_process_creation → s !! k = Some 1%Z) → mem_ok config (set_sems s m).
Proof. intros [] Hs. by constructor. Qed.

Lemma keeps_create new_pid size path :
  keeps (lock sem_process_creation;; x ← create_process config fs new_pid size path;
         unlock sem_process_creation;; respond (create_confirmation_package x)).
Proof.
  intros m a m' [Hm Hc] H.
  rewrite (M_bind_ok _ _ _ _ _ (lock_ok sem_process_creation m Hc)) in H.
  bind_inv H. eapply create_process_keeps in E as [Hm1 Hs].
  2:{ apply other_locks_ok; [done|]. intros k Hk. rewrite lookup_insert_ne by done. by apply Hm. }
  cbn [sems set_sems] in Hs.
  rewrite (M_bind_ok _ _ _ _ _ (unlock_ok _ (sems m) st Hs Hc)) in H.
  eapply keeps_respond; [|exact H]. split; [|done].
  apply other_locks_ok; [done|]. intros k Hk. by apply Hm.
Qed.
End Invariant.

#[export] Hint Resolve keeps_ret keeps_lift keeps_respond keeps_find keeps_load keeps_load_ptr
  keeps_deref keeps_update_metrics keeps_swap_out keeps_swap_in keeps_read keeps_write
  keeps_dump_frames keeps_add_dump : monad.

(** Walk through a handler, one call after the other. *)
Ltac keep :=
  repeat first
    [ progress intros
    | solve [eauto with monad]
    | apply keeps_bind
    | case_match ].

Section Requests.
Context {C : CommonsOps} {CL : CommonsLaws C} (config : t_memoria_config) (fs : t_file_system).
Context (d : nat) (Hcfg : config_ok config d).

Lemma lock_other s m a m' :
  s ≠ sem_process_creation → mem_ready config m → lock s m = Ok (a, m') →
  m' = set_sems (<[s := 0%Z]> (sems m)) m.
Proof.
  intros Hs [Hm _] H. rewrite lock_ok in H by (by apply Hm). by injection H as _ <-.
Qed.

Lemma load_process_inv i m p m' :
  load_process i m = Ok (p, m') → m' = m ∧ global_process_list m !! i = Some p.
Proof.
  unfold load_process. intros H. step_in H. destruct (_ !! i); [|done]. by injection H as -> ->.
Qed.

Lemma respond_out r m u m' : respond r m = Ok (u, m') → ∃ out, m' = set_out out m.
Proof.
  unfold respond. intros H. step_in H. destruct r as [p|]; [|done]. injection H as _ <-. by eexists.
Qed.

Lemma keeps_fetch package : keeps config (get_instruction_request_handler package).
Proof.
  unfold get_instruction_request_handler. apply keeps_bind; [apply keeps_lift|]. intros request.
  intros m u m' Hm H. pose proof Hm as [Hok Hc].
  rewrite (M_bind_ok _ _ _ _ _ (find_process_ok _ m ltac:(by apply Hok))) in H.
  destruct (position_from _ _ _) as [i|] eqn:Hpos; [|by eapply keeps_respond].
  destruct (position_Some _ _ _ Hpos) as (p & Hi & _).
  rewrite (M_bind_ok _ _ _ _ _ (lock_ok sem_process_metrics m ltac:(by apply Hok))) in H.
  set (p' := with_metrics count_instruction p) in *.
  set (m1 := set_processes (<[i := p']> (global_process_list m)) m).
  assert (mem_ready config m1) as Hm1.
  { split; [|done]. by apply with_metrics_ok. }
  erewrite M_bind_ok in H.
  2:{ unfold update_process. run (by apply load_process_ok). by eapply store_process_ok. }
  erewrite M_bind_ok in H by (eapply unlock_ok; [done | by apply Hok]).
  change (set_sems (sems m) _) with m1 in H.
  rewrite (M_bind_ok _ _ _ _ _ (lock_ok sem_process_instructions m1 ltac:(by apply Hm1))) in H.
  bind_inv H. apply load_process_inv in E as [-> _].
  bind_inv H.
  assert (∃ out, st = set_sems (<[sem_process_instructions := 0%Z]> (sems m1)) (set_out out m1)) as [out ->].
  { repeat case_match; apply respond_out in E as [out ->]; by exists out. }
  rewrite (unlock_ok _ (sems m1)) in H by (done || by apply Hm1).
  injection H as _ <-. destruct Hm1 as [Hm1 Hc1]. split; [|done].
  by apply (set_out_ok config out m1).
Qed.

Lemma keeps_page_walk package : keeps config (handle_page_walk_request package).
Proof. unfold handle_page_walk_request. keep. Qed.

Lemma keeps_init package : keeps config (init_process_request_handler config fs package).
Proof.
  unfold init_process_request_handler. apply keeps_bind; [apply keeps_lift|].
  intros args. by eapply keeps_create.
Qed.

Lemma keeps_swap package : keeps config (swap_request_handler config package).
Proof. unfold swap_request_handler. keep. Qed.

Lemma keeps_unsuspend package : keeps config (unsuspend_process_request_handler config package).
Proof. unfold unsuspend_process_request_handler. keep. Qed.

Lemma keeps_read_memory package : keeps config (read_memory_request_handler package).
Proof. unfold read_memory_request_handler. keep. Qed.

Lemma keeps_write_memory package : keeps config (write_memory_request_handler config package).
Proof. unfold write_memory_request_handler. keep. Qed.

Lemma keeps_dump package : keeps config (dump_memory_request_handler config fs package).
Proof. unfold dump_memory_request_handler. keep. Qed.

(** The request kills a process that is suspended. *)
Definition suspended_target (package : t_package) (m : t_memoria) : Prop :=
  Opcode.decode (opcode package) = Some Opcode.KILL_PROCESS ∧
  ∃ x i p, read_with read_kill_process_package package = Ok x ∧
    position_from 0 x (global_process_list m) = Some i ∧
    global_process_list m !! i = Some p ∧ is_suspended p = true.

Lemma kill_keeps package m u m' :
  mem_ready config m → Opcode.decode (opcode package) = Some Opcode.KILL_PROCESS →
  ¬ suspended_target package m →
  delete_process_request_handler package m = Ok (u, m') → mem_ready config m'.
Proof.
  intros [Hm Hc] Hop Hnot H. unfold delete_process_request_handler in H.
  destruct (read_with read_kill_process_package package) as [x|] eqn:Hx; [|done].
  erewrite M_bind_ok in H by done.
  destruct (position_from 0 x (global_process_list m)) as [i|] eqn:Hpos.
  - destruct (position_Some _ _ _ Hpos) as (p & Hi & _).
    destruct (is_suspended p) eqn:Hs.
    { destruct Hnot. split; [done|]. by exists x, i, p. }
    rewrite (M_bind_ok _ _ _ _ _ (delete_process_ok config x i p m Hm Hpos Hi Hs)) in H.
    eapply keeps_respond; [|exact H]. split; [by apply after_delete_ok|].
    unfold after_delete. by case_decide.
  - rewrite (M_bind_ok _ _ _ _ _ (delete_unknown config x m Hm Hpos)) in H.
    by eapply keeps_respond.
Qed.

Lemma dispatch_keeps package m b m' :
  mem_ready config m → ¬ suspended_target package m →
  dispatch config fs package m = Ok (b, m') → mem_ready config m'.
Proof.
  intros Hm Hnot H. unfold dispatch in H.
  destruct (Opcode.decode (opcode package)) as [[]|] eqn:Hop;
    try (by injection H as <- <-); bind_inv H; injection H as _ <-.
  all: first [ by eapply kill_keeps | by eapply keeps_fetch | by eapply keeps_page_walk | by eapply keeps_init
             | by eapply keeps_swap | by eapply keeps_unsuspend | by eapply keeps_read_memory
             | by eapply keeps_write_memory | by eapply keeps_dump ].
Qed.
End Requests.
