(* ===== verification/Boot.v ===== *)
(** * The start of the memory module

    [memoria_init] establishes the invariant that every request keeps. *)
From S2P Require Import Prelude Commons Enums Config Semaphores Bitmap Storage PageTable.
From S2P Require Import PageTableFacts Memoria MemoriaFacts Invariant.
From Stdlib Require Import Strings.Byte.
Import FrameManager UserSpace SwapManager.

Section Boot.
Context {C : CommonsOps} {CL : CommonsLaws C}.
Context (config : t_memoria_config) (d : nat) (Hcfg : config_ok config d).

Lemma semaphores_ok m s :
  ∃ m', initialize_memory_semaphores m = Ok (tt, m') ∧ sems m' !! s = Some 1%Z ∧
    m' = set_sems (sems m') m.
Proof.
  eexists. split; [reflexivity|]. split; [|done].
  cbn [sems set_sems]. destruct s; by rewrite ?lookup_insert_ne, ?lookup_insert_eq by done.
Qed.

(** Every frame is free, no process exists, every semaphore is 1. *)
Lemma memoria_init_ready capacity :
  (SWAP_INITIAL_FRAMES * TAM_PAGINA config <= capacity)%Z →
  ∃ m, memoria_init config true capacity = Ok m ∧ mem_ready config m ∧
    global_process_list m = [] ∧
    pool_free (frames m) = upto (TAM_MEMORIA config / TAM_PAGINA config) ∧
    user_space_size (space m) = TAM_MEMORIA config.
Proof.
  intros Hcap. pose proof (page_pos _ _ Hcfg) as Hp. pose proof (memory_small _ _ Hcfg) as Hsm.
  destruct (frame_allocation_init_ok config) as (p & Hpi & Hpok & Htot & Hfree); [lia | lia | unfold in_i32; lia |].
  destruct (pool_init_ok SWAP_INITIAL_FRAMES) as (sp & Hsi & Hspok & Hstot & Hsfree);
    [done | by vm_compute |].
  destruct (init_user_space_ok (TAM_MEMORIA config)) as (u & Hui & Huok & Husz); [lia | unfold in_i32; lia |].
  unfold memoria_init. rewrite Hpi. unfold mbind, res_bind. unfold swap_manager_init.
  unfold mbind, res_bind. rewrite Hsi. rewrite u64_id by lia. rewrite Hui.
  set (m0 := {| sems := ∅ |}).
  destruct (semaphores_ok m0 sem_process_list) as (m & Hm & _ & Heq). rewrite Hm.
  assert (∀ s, sems m !! s = Some 1%Z) as Hone.
  { intros s. destruct (semaphores_ok m0 s) as (m' & Hm' & Hs & _). rewrite Hm in Hm'.
    by injection Hm' as <-. }
  exists m. rewrite Heq. split_and!; [done | | done | done | done].
  split; [|apply Hone]. constructor; try done; cbn.
  - rewrite Htot, Husz. pose proof (Z.div_mod (TAM_MEMORIA config) (TAM_PAGINA config) ltac:(lia)).
    pose proof (Z.mod_pos_bound (TAM_MEMORIA config) (TAM_PAGINA config) Hp). nia.
  - by rewrite Hfree, Htot, app_nil_r.
  - by rewrite Hsfree, app_nil_r.
Qed.
End Boot.
