(* ===== verification/Mmu.v ===== *)
(** * The MMU of the CPU module (cpu/src/mmu.c)

    Translation of logical addresses through the TLB and the page tables of
    the memory module, and the page cache with its two replacement
    algorithms.  The memory module is a server that answers packages
    ([MemoryServer] of Package.v); Server.v gives the instance that runs the handlers of
    Memoria.v. *)
From S2P Require Import Prelude Commons Enums Buffer Package Packages Config.
From Stdlib Require Import Strings.Byte.
Import Buffer Package.

(** ** mmu.h *)
Record TLBEntry := mk_tlb { tlb_page : Z; tlb_pid : Z; tlb_frame : Z; lru_timestamp : Z }.

Record CacheEntry := mk_cache {
  is_valid : bool; cache_page : Z; cache_pid : Z; content : list byte;
  use_bit : bool; modified_bit : bool; modified_start : Z; modified_end : Z }.

#[export] Instance TLBEntry_eq_dec : EqDecision TLBEntry.
Proof. solve_decision. Defined.
#[export] Instance CacheEntry_eq_dec : EqDecision CacheEntry.
Proof. solve_decision. Defined.

(** The globals of mmu.c, and the memory module behind the socket. *)
Record t_mmu (S : Type) := mk_mmu {
  g_tlb : list TLBEntry;
  g_cache : list CacheEntry;
  g_tlb_fifo_pointer : Z;
  g_lru_timestamp_counter : Z;
  g_cache_clock_pointer : Z;
  memory : S }.
Arguments mk_mmu {S} _ _ _ _ _ _.
Arguments g_tlb {S} _.
Arguments g_cache {S} _.
Arguments g_tlb_fifo_pointer {S} _.
Arguments g_lru_timestamp_counter {S} _.
Arguments g_cache_clock_pointer {S} _.
Arguments memory {S} _.

Section Updates.
Context {S : Type}.
Definition set_tlb (x : list TLBEntry) (m : t_mmu S) : t_mmu S :=
  mk_mmu x (g_cache m) (g_tlb_fifo_pointer m) (g_lru_timestamp_counter m)
    (g_cache_clock_pointer m) (memory m).
Definition set_cache (x : list CacheEntry) (m : t_mmu S) : t_mmu S :=
  mk_mmu (g_tlb m) x (g_tlb_fifo_pointer m) (g_lru_timestamp_counter m)
    (g_cache_clock_pointer m) (memory m).
Definition set_fifo (x : Z) (m : t_mmu S) : t_mmu S :=
  mk_mmu (g_tlb m) (g_cache m) x (g_lru_timestamp_counter m) (g_cache_clock_pointer m) (memory m).
Definition set_timestamp (x : Z) (m : t_mmu S) : t_mmu S :=
  mk_mmu (g_tlb m) (g_cache m) (g_tlb_fifo_pointer m) x (g_cache_clock_pointer m) (memory m).
Definition set_clock (x : Z) (m : t_mmu S) : t_mmu S :=
  mk_mmu (g_tlb m) (g_cache m) (g_tlb_fifo_pointer m) (g_lru_timestamp_counter m) x (memory m).
Definition set_memory (x : S) (m : t_mmu S) : t_mmu S :=
  mk_mmu (g_tlb m) (g_cache m) (g_tlb_fifo_pointer m) (g_lru_timestamp_counter m)
    (g_cache_clock_pointer m) x.
End Updates.

(** The remainder and quotient of [int]s; division by zero ends the program. *)
Definition int_div {S} (a b : Z) : M S Z :=
  if decide (b = 0)%Z then crash_with Exit else mret (i32 (a `quot` b)).
Definition int_mod {S} (a b : Z) : M S Z :=
  if decide (b = 0)%Z then crash_with Exit else mret (a `rem` b)%Z.

Section Mmu.
Context {C : CommonsOps} {Srv : Type} {MS : MemoryServer Srv}.
Context (g_mmu_config : MMUConfig) (g_tlb_config : TLBConfig) (g_cache_config : CacheConfig).
Local Abbreviation Mmu := (M (t_mmu Srv)).

(** [send_...] on the memory socket, then [recv_package]. *)
Definition request (r : res t_package) : Mmu (option t_package) :=
  package ← lift_res r; zoom memory set_memory (serve package).

Definition opcode_is (o : Opcode.OPCODE) (p : t_package) : bool :=
  bool_decide (opcode p = Opcode.code o).

(** *** Requests to memory *)
Definition mmu_request_pagetable_entry_from_memory (table_id entry_index pid : Z) : Mmu Z :=
  response_package ← request (create_page_entry_request_package pid table_id entry_index);
  match response_package with
  | Some p =>
      if opcode_is Opcode.GET_PAGE_ENTRY p then
        response ← lift_res (read_with read_page_entry_response_package p);
        mret (response_value response)
      else mret 0%Z
  | None => mret 0%Z
  end.

(** The buffer afterwards; it is a page long. *)
Definition mmu_request_page_read_from_memory (physic_addr : Z) (buffer : list byte) : Mmu (list byte) :=
  response_package ← request
    (send_memory_read_request (create_memory_read_request physic_addr (mmu_page_size g_mmu_config)));
  match response_package with
  | Some p =>
      if opcode_is Opcode.READ_MEMORY p then
        response ← lift_res (read_with read_memory_read_response p);
        if decide (0 <= response_data_size response <= zlen buffer ∧
                   response_data_size response <= zlen (response_data response))%Z
        then mret (splice 0 (take (Z.to_nat (response_data_size response)) (response_data response)) buffer)
        else crash_with OutOfBounds
      else mret buffer
  | None => mret buffer
  end.

(** A write request, as every caller sends it: the answer is only logged,
    and a lost connection is a NULL package. *)
Definition send_write (physic_addr size : Z) (data : list byte) : Mmu t_package :=
  response ← request (r ← create_memory_write_request physic_addr size data;
                      send_memory_write_request r);
  deref response.

Definition mmu_request_page_write_to_memory (physic_addr : Z) (data : list byte) : Mmu unit :=
  package ← send_write physic_addr (mmu_page_size g_mmu_config) data;
  success ← lift_res (read_with read_confirmation_package package);
  mret tt.

(** *** The TLB *)
Definition tlb_find_entry (page_number pid : Z) : Mmu (option TLBEntry) :=
  if decide (tlb_entry_count g_tlb_config = 0)%Z then mret None
  else
    l ← gets g_tlb;
    match list_find l (λ e, bool_decide (tlb_page e = page_number ∧ tlb_pid e = pid)) with
    | None => mret None
    | Some i =>
        entry ← deref (l !! i);
        if decide (tlb_replacement_algo g_tlb_config = TLB_ALGO_LRU) then
          now ← gets g_lru_timestamp_counter;
          let entry := mk_tlb (tlb_page entry) (tlb_pid entry) (tlb_frame entry) now in
          modify (set_tlb (<[i := entry]> l));;
          modify (set_timestamp (u64 (now + 1)));;
          mret (Some entry)
        else mret (Some entry)
    end.

(** The loop that looks for the least timestamp: the first one that is
    smaller than all before it. *)
Fixpoint oldest (i : Z) (l : list TLBEntry) (min_ts victim_index : Z) : Z :=
  match l with
  | [] => victim_index
  | entry :: l =>
      if decide (lru_timestamp entry < min_ts)%Z then oldest (i + 1) l (lru_timestamp entry) i
      else oldest (i + 1) l min_ts victim_index
  end.

Definition tlb_add_entry (page_number frame_number pid : Z) : Mmu unit :=
  if decide (tlb_entry_count g_tlb_config = 0)%Z then mret tt
  else
    now ← gets g_lru_timestamp_counter;
    modify (set_timestamp (u64 (now + 1)));;
    let new_entry := mk_tlb page_number pid frame_number now in
    l ← gets g_tlb;
    if decide (list_size l < tlb_entry_count g_tlb_config)%Z then
      modify (set_tlb (list_add l new_entry))
    else
      victim_index ←
        match tlb_replacement_algo g_tlb_config with
        | TLB_ALGO_FIFO =>
            p ← gets g_tlb_fifo_pointer;
            p' ← int_mod (p + 1) (tlb_entry_count g_tlb_config);
            modify (set_fifo p');;
            mret p
        | TLB_ALGO_LRU => mret (oldest 0 l (2 ^ 64 - 1) (-1))
        end;
      modify (set_tlb (list_replace l victim_index new_entry)).

(** *** Page walk: [n] levels remain, the first of them is [level] *)
Fixpoint walk_levels (n : nat) (level next_table_id page_number pid : Z) : Mmu Z :=
  match n with
  | O => mret next_table_id
  | S n =>
      let power := (page_table_levels g_mmu_config - level)%Z in
      let divisor := i32 (entries_per_table g_mmu_config ^ power) in
      q ← int_div page_number divisor;
      entry_index ← int_mod q (entries_per_table g_mmu_config);
      next_table_id ← mmu_request_pagetable_entry_from_memory next_table_id entry_index pid;
      if decide (next_table_id = 0)%Z then mret 0%Z
      else walk_levels n (level + 1) next_table_id page_number pid
  end.

Definition mmu_perform_page_walk (page_number pid : Z) : Mmu Z :=
  walk_levels (Z.to_nat (page_table_levels g_mmu_config)) 1 1 page_number pid.

(** Frame of a page: from the TLB, or from a walk that is then cached. *)
Definition frame_of_page (page_number pid : Z) : Mmu Z :=
  tlb_entry ← tlb_find_entry page_number pid;
  match tlb_entry with
  | Some e => mret (tlb_frame e)
  | None =>
      frame_number ← mmu_perform_page_walk page_number pid;
      tlb_add_entry page_number frame_number pid;;
      mret frame_number
  end.

Definition mmu_translate_address (logical_address pid : Z) : Mmu Z :=
  page_number ← int_div logical_address (mmu_page_size g_mmu_config);
  offset ← int_mod logical_address (mmu_page_size g_mmu_config);
  frame_number ← frame_of_page page_number pid;
  mret (i32 (frame_number * mmu_page_size g_mmu_config + offset)).

Definition mmu_translate_address_with_page_number (page_number pid : Z) : Mmu Z :=
  frame_number ← frame_of_page page_number pid;
  mret (i32 (frame_number * mmu_page_size g_mmu_config)).

(** *** Initialisation: [raw i] is what [malloc] left in the fields of the
    [i]-th cache entry that are not set *)
Definition mmu_init (raw : Z → Z * Z * bool * bool) (server : Srv) : res (t_mmu Srv) :=
  if decide (0 < cache_entry_count g_cache_config ∧ mmu_page_size g_mmu_config < 0)%Z then Crash Exit
  else
    let entry i :=
      let '(page, pid, use, modified) := raw i in
      mk_cache false page pid (replicate (Z.to_nat (mmu_page_size g_mmu_config)) x00)
        use modified 0 0 in
    Ok (mk_mmu [] (entry <$> upto (cache_entry_count g_cache_config)) 0 0 0 server).
End Mmu.
