(* ===== verification/MmuFacts.v ===== *)
(** * Address translation, proved

    [PageServer] is what a memory module promises to an MMU: the answers to
    page-entry requests describe, for every process, one page table.  Against
    this interface the page walk computes the mapping, and the TLB, whatever
    its algorithm, never changes the outcome of a translation. *)
From S2P Require Import Prelude Commons Enums Buffer Package Packages Config PageTableFacts Mmu.
From Stdlib Require Import Strings.Byte.
Import Buffer Package.

(** [maps srv pid fr]: page [p] of process [pid] is in frame [fr p]; [node]
    is the id of the [k]-th table [l] levels below the root; [kept] is what a
    page-entry request leaves as it was, the mappings among it. *)
Class PageServer (Srv : Type) {MS : MemoryServer Srv} (E : Z) (d : nat) := {
  maps : Srv → Z → (Z → Z) → Prop;
  node : nat → Z → Z;
  kept : Srv → Srv → Prop;
  kept_refl : ∀ srv, kept srv srv;
  kept_trans : ∀ srv srv' srv'', kept srv srv' → kept srv' srv'' → kept srv srv'';
  kept_maps : ∀ srv srv' pid fr, kept srv srv' → maps srv' pid fr ↔ maps srv pid fr;
  maps_fun : ∀ srv pid fr fr' p,
    maps srv pid fr → maps srv pid fr' → (0 <= p < pages E d)%Z → fr p = fr' p;
  node_root : node 0 0 = 1%Z;
  node_nonzero : ∀ l k, l <= d → (0 <= k < E ^ Z.of_nat l)%Z → node l k ≠ 0%Z;
  serve_entry : ∀ srv pid fr l k i req,
    maps srv pid fr → l <= d → (0 <= k < E ^ Z.of_nat l)%Z → (0 <= i < E)%Z →
    create_page_entry_request_package pid (node l k) i = Ok req →
    ∃ p srv' value flag, serve req srv = Ok (Some p, srv') ∧
      opcode_is Opcode.GET_PAGE_ENTRY p = true ∧
      read_with read_page_entry_response_package p
        = Ok {| response_value := value; response_is_last_level := flag |} ∧
      value = (if decide (l < d) then node (S l) (k * E + i) else fr (k * E + i)%Z) ∧
      kept srv srv' }.

(** ** The TLB *)
Section Tlb.
Context {C : CommonsOps} {CL : CommonsLaws C} {Srv : Type}.
Context (g_tlb_config : TLBConfig).

Definition key (e : TLBEntry) : Z * Z := (tlb_page e, tlb_pid e).

(** At most [entry_count] entries, one per page, stamped in the past. *)
Record tlb_ok (s : t_mmu Srv) : Prop := {
  tlb_small : (0 < tlb_entry_count g_tlb_config)%Z → (zlen (g_tlb s) <= tlb_entry_count g_tlb_config)%Z;
  tlb_off : (tlb_entry_count g_tlb_config <= 0)%Z → g_tlb s = [];
  tlb_unique : NoDup (key <$> g_tlb s);
  tlb_fifo : (0 <= g_tlb_fifo_pointer s)%Z ∧
    ((0 < tlb_entry_count g_tlb_config)%Z → (g_tlb_fifo_pointer s < tlb_entry_count g_tlb_config)%Z) }.

(** Position of an entry, by its key. *)
Definition hit (page pid : Z) (l : list TLBEntry) : option nat :=
  list_find l (λ e, bool_decide (tlb_page e = page ∧ tlb_pid e = pid)).

Lemma hit_Some page pid l i :
  hit page pid l = Some i → ∃ e, l !! i = Some e ∧ key e = (page, pid).
Proof.
  intros (e & He & Hk & _)%list_find_lookup. exists e. split; [done|].
  apply bool_decide_eq_true in Hk as [<- <-]. done.
Qed.

Lemma hit_None page pid l : hit page pid l = None → (page, pid) ∉ key <$> l.
Proof.
  intros H (e & Hk & He)%list_elem_of_fmap. pose proof (list_find_not _ _ _ H He) as Hn.
  apply bool_decide_eq_false in Hn. injection Hk as -> ->. tauto.
Qed.

Definition touch (i : nat) (e : TLBEntry) (s : t_mmu Srv) : t_mmu Srv :=
  match tlb_replacement_algo g_tlb_config with
  | TLB_ALGO_LRU =>
      set_timestamp (u64 (g_lru_timestamp_counter s + 1))
        (set_tlb (<[i := mk_tlb (tlb_page e) (tlb_pid e) (tlb_frame e) (g_lru_timestamp_counter s)]> (g_tlb s)) s)
  | TLB_ALGO_FIFO => s
  end.

Lemma tlb_find_miss page pid s :
  tlb_ok s → hit page pid (g_tlb s) = None →
  tlb_find_entry g_tlb_config page pid s = Ok (None, s).
Proof.
  intros Hok H. unfold tlb_find_entry. case_decide; [done|]. run done.
  unfold hit in H. by rewrite H.
Qed.

Lemma tlb_find_hit page pid s i e :
  tlb_ok s → hit page pid (g_tlb s) = Some i → g_tlb s !! i = Some e →
  ∃ e', tlb_find_entry g_tlb_config page pid s = Ok (Some e', touch i e s) ∧ tlb_frame e' = tlb_frame e.
Proof.
  intros Hok H He. unfold tlb_find_entry. rewrite decide_False.
  2:{ intros Hz. rewrite (tlb_off s Hok) in He by lia. done. }
  run done. unfold hit in H. rewrite H. run (unfold deref; by rewrite He).
  unfold touch. case_decide as Ha.
  - rewrite Ha. by eexists.
  - destruct (tlb_replacement_algo g_tlb_config); [by eexists | done].
Qed.

Lemma touch_ok i e s : tlb_ok s → g_tlb s !! i = Some e → tlb_ok (touch i e s).
Proof.
  intros Hok He. unfold touch. destruct (tlb_replacement_algo g_tlb_config); [done|].
  destruct Hok as [H1 H2 H3 H4]. constructor; cbn; [| | |done].
  - intros. unfold zlen. rewrite length_insert. by apply H1.
  - intros Hz. rewrite (H2 Hz) in He. done.
  - rewrite list_fmap_insert. rewrite list_insert_id; [done|].
    rewrite list_lookup_fmap, He. done.
Qed.

(** *** Insertion *)

Lemma oldest_range l i min_ts v :
  (0 <= i)%Z → (v < i)%Z → (-1 <= v)%Z →
  let r := oldest i l min_ts v in (-1 <= r < i + zlen l)%Z ∧ (v <= r)%Z.
Proof.
  revert i min_ts v. induction l as [|e l IH]; intros i min_ts v Hi Hv Hv'; cbn zeta; cbn [oldest].
  - unfold zlen. cbn. lia.
  - replace (i + zlen (e :: l))%Z with (i + 1 + zlen l)%Z by (unfold zlen; cbn; lia).
    case_decide.
    + specialize (IH (i + 1)%Z (lru_timestamp e) i ltac:(lia) ltac:(lia) ltac:(lia)). cbn zeta in IH. lia.
    + specialize (IH (i + 1)%Z min_ts v ltac:(lia) ltac:(lia) ltac:(lia)). cbn zeta in IH. lia.
Qed.

(** The entry with the least timestamp, the first of them. *)
Lemma oldest_least l i min_ts v :
  (∃ e, e ∈ l ∧ (lru_timestamp e < min_ts)%Z) →
  ∃ j e, oldest i l min_ts v = (i + Z.of_nat j)%Z ∧ l !! j = Some e ∧
    (lru_timestamp e < min_ts)%Z ∧ Forall (λ x, lru_timestamp e <= lru_timestamp x)%Z l.
Proof.
  revert i min_ts v. induction l as [|e l IH]; intros i min_ts v (x & Hx & Hlt); [by inversion Hx|].
  cbn [oldest]. case_decide as He.
  - destruct (decide (Exists (λ y, lru_timestamp y < lru_timestamp e)%Z l)) as [Hex|Hno].
    + rewrite Exists_exists in Hex. destruct (IH (i + 1)%Z (lru_timestamp e) i Hex) as (j & y & -> & Hy & Hly & Hall).
      exists (S j), y. split_and!; [lia | done | lia |]. constructor; [lia | done].
    + exists 0, e.
      assert (∀ k m v, Forall (λ x, m <= lru_timestamp x)%Z k → ∀ i, oldest i k m v = v) as Hstop.
      { intros k m w Hk. induction Hk as [|y k Hy Hk IHk]; intros i'; [done|]. cbn [oldest].
        rewrite decide_False by lia. apply IHk. }
      assert (Forall (λ x, lru_timestamp e <= lru_timestamp x)%Z l) as Hall.
      { apply Forall_forall. intros y Hy. destruct (decide (lru_timestamp y < lru_timestamp e)%Z); [|lia].
        destruct Hno. apply Exists_exists. by exists y. }
      rewrite Hstop by done. split_and!; [lia | done | lia |]. constructor; [lia | done].
  - apply elem_of_cons in Hx as [->|Hx]; [done|].
    destruct (IH (i + 1)%Z min_ts v) as (j & y & -> & Hy & Hly & Hall); [by exists x|].
    exists (S j), y. split_and!; [lia | done | lia |]. constructor; [lia | done].
Qed.

(** Where the new entry goes, and what becomes of the pointer. *)
Definition new_entry (page frame pid : Z) (s : t_mmu Srv) : TLBEntry :=
  mk_tlb page pid frame (g_lru_timestamp_counter s).

Lemma tlb_add_room page frame pid s :
  tlb_ok s → (zlen (g_tlb s) < tlb_entry_count g_tlb_config)%Z →
  tlb_add_entry g_tlb_config page frame pid s
  = Ok (tt, set_tlb (g_tlb s ++ [new_entry page frame pid s])
              (set_timestamp (u64 (g_lru_timestamp_counter s + 1)) s)).
Proof.
  intros Hok Hr. unfold tlb_add_entry. pose proof (zlen_nonneg (g_tlb s)).
  rewrite decide_False by lia. run done. run done. run done.
  rewrite list_size_spec. cbn [g_tlb set_timestamp]. rewrite decide_True by done.
  by rewrite list_add_spec.
Qed.

Lemma tlb_add_fifo page frame pid s :
  tlb_ok s → tlb_replacement_algo g_tlb_config = TLB_ALGO_FIFO →
  (0 < tlb_entry_count g_tlb_config)%Z → zlen (g_tlb s) = tlb_entry_count g_tlb_config →
  tlb_add_entry g_tlb_config page frame pid s
  = Ok (tt, set_tlb (zset (g_tlb s) (g_tlb_fifo_pointer s) (new_entry page frame pid s))
              (set_fifo ((g_tlb_fifo_pointer s + 1) `mod` tlb_entry_count g_tlb_config)
                 (set_timestamp (u64 (g_lru_timestamp_counter s + 1)) s))).
Proof.
  intros Hok Ha Hpos Hr. destruct (tlb_fifo s Hok) as [Hf0 Hf1].
  unfold tlb_add_entry. rewrite decide_False by lia. run done. run done. run done.
  rewrite list_size_spec. cbn [g_tlb set_timestamp]. rewrite decide_False by lia. rewrite Ha.
  run (run done; run (unfold int_mod; rewrite decide_False by lia; done); run done; done).
  cbn [g_tlb_fifo_pointer set_timestamp]. rewrite Z.rem_mod_nonneg by lia.
  by rewrite list_replace_spec.
Qed.

Lemma tlb_add_lru page frame pid s :
  tlb_ok s → tlb_replacement_algo g_tlb_config = TLB_ALGO_LRU →
  (0 < tlb_entry_count g_tlb_config)%Z → zlen (g_tlb s) = tlb_entry_count g_tlb_config →
  tlb_add_entry g_tlb_config page frame pid s
  = Ok (tt, set_tlb (zset (g_tlb s) (oldest 0 (g_tlb s) (2 ^ 64 - 1) (-1)) (new_entry page frame pid s))
              (set_timestamp (u64 (g_lru_timestamp_counter s + 1)) s)).
Proof.
  intros Hok Ha Hpos Hr. unfold tlb_add_entry. rewrite decide_False by lia. run done. run done. run done.
  rewrite list_size_spec. cbn [g_tlb set_timestamp]. rewrite decide_False by lia. rewrite Ha.
  run done. by rewrite list_replace_spec.
Qed.

Lemma zset_elem (l : list TLBEntry) v e x : x ∈ zset l v e → x = e ∨ x ∈ l.
Proof.
  unfold zset. case_decide; [|auto]. intros [j Hj]%list_elem_of_lookup.
  destruct (decide (Z.to_nat v = j)) as [<-|Hne].
  - pose proof (lookup_lt_Some _ _ _ Hj) as Hlt. rewrite length_insert in Hlt.
    rewrite list_lookup_insert_eq in Hj by done. injection Hj as <-. auto.
  - rewrite list_lookup_insert_ne in Hj by done. right. by eapply list_elem_of_lookup_2.
Qed.

Lemma zset_unique (l : list TLBEntry) v e :
  NoDup (key <$> l) → key e ∉ key <$> l → NoDup (key <$> zset l v e).
Proof.
  intros Hnd Hn. unfold zset. case_decide; [|done]. rewrite list_fmap_insert.
  destruct (decide (Z.to_nat v < length l)) as [Hlt|Hge].
  2:{ rewrite list_insert_ge; [done|]. rewrite length_fmap. lia. }
  rewrite insert_take_drop by (by rewrite length_fmap).
  destruct (lookup_lt_is_Some_2 l _ Hlt) as [x Hx].
  assert ((key <$> l) !! Z.to_nat v = Some (key x)) as Hkx by (by rewrite list_lookup_fmap, Hx).
  rewrite <- (take_drop_middle _ _ _ Hkx) in Hnd, Hn.
  rewrite NoDup_app, NoDup_cons in Hnd |- *. set_solver.
Qed.

Context (Hcount : (0 <= tlb_entry_count g_tlb_config)%Z).

(** What an insertion leaves: the new entry and old ones. *)
Lemma tlb_add_ok page frame pid s :
  tlb_ok s → (page, pid) ∉ key <$> g_tlb s →
  ∃ s', tlb_add_entry g_tlb_config page frame pid s = Ok (tt, s') ∧ tlb_ok s' ∧
    memory s' = memory s ∧ g_cache s' = g_cache s ∧
    g_cache_clock_pointer s' = g_cache_clock_pointer s ∧
    (∀ e, e ∈ g_tlb s' → e = new_entry page frame pid s ∨ e ∈ g_tlb s).
Proof.
  intros Hok Hn. pose proof Hok as [H1 H2 H3 [H4 H5]].
  destruct (decide (tlb_entry_count g_tlb_config = 0)%Z) as [Hz|Hz].
  { exists s. unfold tlb_add_entry. rewrite decide_True by done. split_and!; auto. }
  destruct (decide (zlen (g_tlb s) < tlb_entry_count g_tlb_config)%Z) as [Hr|Hr].
  { eexists. split; [by apply tlb_add_room|]. split_and!; try done.
    - constructor; cbn; [| | |done].
      + intros _. rewrite zlen_app. unfold zlen at 2. cbn. lia.
      + lia.
      + rewrite fmap_app, NoDup_app. split_and!; [done | | apply NoDup_singleton].
        intros x Hx Hx2%list_elem_of_singleton. subst x. done.
    - cbn. intros e He. apply elem_of_app in He as [?|He%list_elem_of_singleton]; [by right | by left]. }
  assert (zlen (g_tlb s) = tlb_entry_count g_tlb_config) as Hfull by (specialize (H1 ltac:(lia)); lia).
  destruct (tlb_replacement_algo g_tlb_config) eqn:Ha.
  - eexists. split; [apply tlb_add_fifo; try done; lia|].
    split_and!; try done; [|by intros e He; apply zset_elem in He].
    constructor; cbn; [by rewrite zset_zlen | lia | by apply zset_unique |].
    pose proof (Z.mod_pos_bound (g_tlb_fifo_pointer s + 1) (tlb_entry_count g_tlb_config)). lia.
  - eexists. split; [apply tlb_add_lru; try done; lia|].
    split_and!; try done; [|by intros e He; apply zset_elem in He].
    constructor; cbn; [by rewrite zset_zlen | lia | by apply zset_unique | done].
Qed.

End Tlb.

Section Translation.
Context {C : CommonsOps} {CL : CommonsLaws C} {Srv : Type} {MS : MemoryServer Srv}.
Context (g_mmu_config : MMUConfig) (g_tlb_config : TLBConfig).
Local Abbreviation E := (entries_per_table g_mmu_config).
Local Abbreviation ps := (mmu_page_size g_mmu_config).
Context (d : nat) {PS : PageServer Srv E d}.
Context (Hcount : (0 <= tlb_entry_count g_tlb_config)%Z).
Context (HE : (0 < E)%Z) (Hlev : page_table_levels g_mmu_config = Z.of_nat (S d)).
Context (Hsmall : in_i32 (pages E d)) (Hps : (0 < ps)%Z).

(** Only the memory behind the MMU may differ. *)
Definition same_mmu (s s' : t_mmu Srv) : Prop := s' = set_memory (memory s') s.

Definition maps_kept (s s' : t_mmu Srv) : Prop := kept (memory s) (memory s').

Lemma same_mmu_refl s : same_mmu s s.
Proof. by destruct s. Qed.

Lemma same_mmu_trans s s' s'' : same_mmu s s' → same_mmu s' s'' → same_mmu s s''.
Proof. unfold same_mmu. intros -> ->. done. Qed.

Lemma maps_kept_trans s s' s'' : maps_kept s s' → maps_kept s' s'' → maps_kept s s''.
Proof. apply kept_trans. Qed.

Lemma page_entry_request_ok pid table_id entry_index :
  ∃ req, create_page_entry_request_package pid table_id entry_index = Ok req.
Proof.
  unfold create_page_entry_request_package. eexists. eapply build_ok.
  - eauto with wire.
  - unfold zlen. rewrite !length_app, !int32_bytes_length. lia.
  - unfold zlen. rewrite !length_app, !int32_bytes_length. lia.
Qed.

Lemma entry_request_ok s pid fr l k i :
  maps (memory s) pid fr → l <= d → (0 <= k < E ^ Z.of_nat l)%Z → (0 <= i < E)%Z →
  ∃ s', mmu_request_pagetable_entry_from_memory (node (E:=E) (d:=d) l k) i pid s
      = Ok (if decide (l < d) then node (E:=E) (d:=d) (S l) (k * E + i) else fr (k * E + i)%Z, s')
    ∧ same_mmu s s' ∧ maps_kept s s'.
Proof.
  intros Hm Hl Hk Hi.
  destruct (page_entry_request_ok pid (node (E:=E) (d:=d) l k) i) as [req Hreq].
  destruct (serve_entry (memory s) pid fr l k i req Hm Hl Hk Hi Hreq)
    as (p & srv' & value & flag & Hs & Hop & Hr & -> & Hkept).
  exists (set_memory srv' s). split_and!; [|done|done].
  unfold mmu_request_pagetable_entry_from_memory, request.
  run (rewrite Hreq; unfold zoom; step; by rewrite Hs).
  rewrite Hop. run (unfold lift_res; by rewrite Hr). done.
Qed.

(** The index the walk computes at level [l] (counted from 0). *)
Definition prefix (l : nat) (page : Z) : Z := (page / E ^ Z.of_nat (S d - l))%Z.

Lemma prefix_range l page :
  l <= S d → (0 <= page < pages E d)%Z → (0 <= prefix l page < E ^ Z.of_nat l)%Z.
Proof.
  intros Hl Hp. unfold prefix. pose proof (pow_pos E HE (S d - l)).
  split; [apply Z.div_pos; lia|]. apply Z.div_lt_upper_bound; [done|].
  rewrite <- Z.pow_add_r by lia. unfold pages in Hp.
  replace (Z.of_nat (S d - l) + Z.of_nat l)%Z with (Z.of_nat (S d)) by lia. lia.
Qed.

Lemma prefix_step l page :
  l <= d → (0 <= page)%Z →
  prefix (S l) page = (prefix l page * E + (page / E ^ Z.of_nat (d - l)) `mod` E)%Z.
Proof.
  intros Hl Hp. unfold prefix. cbn [Nat.sub].
  replace (S d - l) with (S (d - l)) by lia. rewrite pow_S by done.
  pose proof (pow_pos E HE (d - l)).
  rewrite (Z.mul_comm E (E ^ _)), <- Z.div_div by lia.
  pose proof (Z.div_mod (page / E ^ Z.of_nat (d - l)) E ltac:(lia)). lia.
Qed.

Lemma walk_levels_ok n l s page pid fr :
  maps (memory s) pid fr → (0 <= page < pages E d)%Z → n + l = S d →
  ∃ s', walk_levels g_mmu_config n (Z.of_nat l + 1)
          (if decide (n = 0) then fr page else node (E:=E) (d:=d) l (prefix l page)) page pid s
      = Ok (fr page, s') ∧ same_mmu s s' ∧ maps_kept s s'.
Proof.
  revert l s. induction n as [|n IH]; intros l s Hm Hp Hn.
  - exists s. rewrite decide_True by done. split_and!; [done | apply same_mmu_refl | apply kept_refl].
  - rewrite decide_False by done. cbn [walk_levels]. rewrite Hlev.
    replace (Z.of_nat (S d) - (Z.of_nat l + 1))%Z with (Z.of_nat (d - l)) by lia.
    pose proof (pow_pos E HE (d - l)) as Hpow.
    assert (E ^ Z.of_nat (d - l) <= pages E d)%Z as Hle.
    { unfold pages. apply Z.pow_le_mono_r; lia. }
    assert (page < 2147483648)%Z by (unfold in_i32 in Hsmall; lia).
    rewrite (i32_id (E ^ _)) by (unfold in_i32 in *; lia).
    run (unfold int_div; rewrite decide_False by lia; done).
    rewrite Z.quot_div_nonneg by lia.
    assert (0 <= page / E ^ Z.of_nat (d - l) <= page)%Z as Hq.
    { split; [by apply Z.div_pos; lia|]. apply Z.div_le_upper_bound; nia. }
    rewrite i32_id by (unfold in_i32; lia).
    run (unfold int_mod; rewrite decide_False by lia; done).
    rewrite Z.rem_mod_nonneg by lia.
    pose proof (prefix_range l page ltac:(lia) Hp) as Hk.
    destruct (entry_request_ok s pid fr l (prefix l page) ((page / E ^ Z.of_nat (d - l)) `mod` E)%Z)
      as (s' & Hreq & Hsame & Hkept); [done | lia | done | by apply Z.mod_pos_bound |].
    run (exact Hreq). rewrite <- prefix_step by lia.
    destruct (decide (l < d)) as [Hlt|Hge].
    + pose proof (prefix_range (S l) page ltac:(lia) Hp) as Hk'.
      rewrite decide_False by (apply node_nonzero; [lia | done]).
      destruct (IH (S l) s' (proj2 (kept_maps _ _ _ _ Hkept) Hm) Hp ltac:(lia)) as (s'' & Hw & Hsame' & Hkept').
      rewrite decide_False in Hw by lia.
      exists s''. split_and!; [| by eapply same_mmu_trans | by eapply maps_kept_trans].
      replace (Z.of_nat l + 1 + 1)%Z with (Z.of_nat (S l) + 1)%Z by lia. done.
    + assert (l = d) as -> by lia.
      assert (prefix (S d) page = page) as Hpre.
      { unfold prefix. rewrite Nat.sub_diag. apply Z.div_1_r. }
      assert (n = 0) as -> by lia. rewrite Hpre. cbn [walk_levels].
      exists s'. split_and!; [|done|done]. destruct (decide (fr page = 0)%Z) as [->|_]; done.
Qed.

(** The page walk finds the frame of the page. *)
Lemma page_walk_ok s page pid fr :
  maps (memory s) pid fr → (0 <= page < pages E d)%Z →
  ∃ s', mmu_perform_page_walk g_mmu_config page pid s = Ok (fr page, s') ∧
    same_mmu s s' ∧ maps_kept s s'.
Proof.
  intros Hm Hp. destruct (walk_levels_ok (S d) 0 s page pid fr Hm Hp ltac:(lia)) as (s' & Hw & H).
  exists s'. split; [|done]. unfold mmu_perform_page_walk. rewrite Hlev, Nat2Z.id.
  rewrite decide_False in Hw by lia.
  assert (prefix 0 page = 0%Z) as Hpre.
  { unfold prefix. rewrite Nat.sub_0_r. unfold pages in Hp. by apply Z.div_small. }
  rewrite Hpre, node_root in Hw. done.
Qed.

(** Every entry agrees with the page tables. *)
Definition tlb_coherent (s : t_mmu Srv) : Prop :=
  ∀ e fr, e ∈ g_tlb s → maps (memory s) (tlb_pid e) fr →
    (0 <= tlb_page e < pages E d)%Z → tlb_frame e = fr (tlb_page e).

Lemma same_mmu_tlb s s' : same_mmu s s' → tlb_ok g_tlb_config s → tlb_ok g_tlb_config s'.
Proof. unfold same_mmu. intros -> []. by constructor. Qed.

Lemma maps_kept_coherent s s' :
  same_mmu s s' → maps_kept s s' → tlb_coherent s → tlb_coherent s'.
Proof.
  intros Hs Hk Hc e fr He Hm Hp. apply (Hc e fr); [|by apply (kept_maps _ _ _ _ Hk) | done].
  rewrite Hs in He. done.
Qed.

Lemma touch_coherent i e s :
  tlb_coherent s → g_tlb s !! i = Some e → tlb_coherent (touch g_tlb_config i e s).
Proof.
  intros Hc He. unfold touch. destruct (tlb_replacement_algo g_tlb_config); [done|].
  intros x fr Hx Hm Hp. cbn in Hx, Hm.
  apply list_elem_of_lookup in Hx as [j Hj].
  destruct (decide (i = j)) as [->|Hne].
  - rewrite list_lookup_insert_eq in Hj by (by eapply lookup_lt_Some).
    injection Hj as <-. cbn in *. eapply Hc; [|done|done]. by eapply list_elem_of_lookup_2.
  - rewrite list_lookup_insert_ne in Hj by done.
    eapply Hc; [|done|done]. by eapply list_elem_of_lookup_2.
Qed.

(** *** Translation *)

(** The cache is not involved. *)
Definition cache_same (s s' : t_mmu Srv) : Prop :=
  g_cache s' = g_cache s ∧ g_cache_clock_pointer s' = g_cache_clock_pointer s.

Definition ready (s : t_mmu Srv) : Prop := tlb_ok g_tlb_config s ∧ tlb_coherent s.

Lemma frame_of_page_ok s page pid fr :
  ready s → maps (memory s) pid fr → (0 <= page < pages E d)%Z →
  ∃ s', frame_of_page g_mmu_config g_tlb_config page pid s = Ok (fr page, s') ∧
    ready s' ∧ maps_kept s s' ∧ cache_same s s'.
Proof.
  intros [Hok Hc] Hm Hp. unfold frame_of_page.
  destruct (hit page pid (g_tlb s)) as [i|] eqn:Hh.
  - destruct (hit_Some _ _ _ _ Hh) as (e & He & Hk).
    destruct (tlb_find_hit g_tlb_config page pid s i e Hok Hh He) as (e' & Hf & Hfr).
    run (exact Hf). exists (touch g_tlb_config i e s).
    assert (memory (touch g_tlb_config i e s) = memory s ∧ cache_same s (touch g_tlb_config i e s)) as [Hmem Hcs].
    { unfold touch. by destruct (tlb_replacement_algo g_tlb_config). }
    unfold ready. split_and!.
    + injection Hk as Hpg Hpid. rewrite Hfr, (Hc e fr), Hpg; [done | | | ].
      * by eapply list_elem_of_lookup_2.
      * by rewrite Hpid.
      * by rewrite Hpg.
    + by apply touch_ok.
    + by apply touch_coherent.
    + unfold maps_kept. rewrite Hmem. apply kept_refl.
    + done.
  - run (by apply tlb_find_miss).
    destruct (page_walk_ok s page pid fr Hm Hp) as (s1 & Hw & Hsame & Hkept).
    run (exact Hw).
    pose proof (same_mmu_tlb _ _ Hsame Hok) as Hok1.
    pose proof (maps_kept_coherent _ _ Hsame Hkept Hc) as Hc1.
    assert ((page, pid) ∉ key <$> g_tlb s1) as Hn.
    { rewrite Hsame. by apply hit_None. }
    destruct (tlb_add_ok g_tlb_config Hcount page (fr page) pid s1 Hok1 Hn) as (s2 & Ha & Hok2 & Hmem & Hcache & Hclk & Hel).
    run (exact Ha). exists s2. unfold ready, cache_same. split_and!; [done | done | | | | ].
    + intros e fr' [->|He]%Hel Hm' Hp'.
      * cbn in *. rewrite Hmem in Hm'. apply (kept_maps _ _ _ _ Hkept) in Hm'.
        by apply (maps_fun (memory s) pid).
      * rewrite Hmem in Hm'. by apply Hc1.
    + unfold maps_kept. by rewrite Hmem.
    + rewrite Hcache. by rewrite Hsame.
    + rewrite Hclk. by rewrite Hsame.
Qed.

(** A logical address inside the address space of the process. *)
Definition in_space (logical_address : Z) : Prop :=
  (0 <= logical_address < 2147483648 ∧ logical_address / ps < pages E d)%Z.

Lemma split_address {A} logical_address (f : Z → Z → M (t_mmu Srv) A) s :
  in_space logical_address →
  (page ← int_div logical_address ps; offset ← int_mod logical_address ps; f page offset) s
  = f (logical_address / ps)%Z (logical_address `mod` ps)%Z s.
Proof.
  intros [Hl Hp]. pose proof (Z.div_pos logical_address ps ltac:(lia) Hps).
  assert (logical_address / ps <= logical_address)%Z.
  { apply Z.div_le_upper_bound; nia. }
  run (unfold int_div; rewrite decide_False by lia; done).
  rewrite Z.quot_div_nonneg, i32_id by (try lia; unfold in_i32; lia).
  run (unfold int_mod; rewrite decide_False by lia; done).
  by rewrite Z.rem_mod_nonneg by lia.
Qed.

Lemma translate_ok s logical_address pid fr :
  ready s → maps (memory s) pid fr → in_space logical_address →
  in_i32 (fr (logical_address / ps)%Z * ps + logical_address `mod` ps)%Z →
  ∃ s', mmu_translate_address g_mmu_config g_tlb_config logical_address pid s
      = Ok ((fr (logical_address / ps)%Z * ps + logical_address `mod` ps)%Z, s') ∧
    ready s' ∧ maps_kept s s' ∧ cache_same s s'.
Proof.
  intros Hr Hm Hl Hi. unfold mmu_translate_address. rewrite split_address by done.
  destruct Hl as [Hl Hp]. pose proof (Z.div_pos logical_address ps ltac:(lia) Hps).
  destruct (frame_of_page_ok s (logical_address / ps) pid fr Hr Hm ltac:(lia)) as (s' & Hf & Hrest).
  exists s'. split; [|done]. run (exact Hf). by rewrite i32_id.
Qed.
End Translation.

(** ** The FIFO algorithm is a queue

    Read from the replacement pointer on, the TLB lists its entries from the
    oldest to the youngest. *)
Section Fifo.
Context {C : CommonsOps} {CL : CommonsLaws C} {Srv : Type}.
Context (g_tlb_config : TLBConfig).

Definition fifo_queue (s : t_mmu Srv) : list TLBEntry :=
  drop (Z.to_nat (g_tlb_fifo_pointer s)) (g_tlb s) ++ take (Z.to_nat (g_tlb_fifo_pointer s)) (g_tlb s).

Lemma rotate_replace {A} (l : list A) (i : nat) x :
  i < length l →
  let i' := if decide (S i = length l) then 0 else S i in
  drop i' (<[i := x]> l) ++ take i' (<[i := x]> l) = tail (drop i l ++ take i l) ++ [x].
Proof.
  intros Hi. cbn zeta. destruct (lookup_lt_is_Some_2 l i Hi) as [y Hy].
  rewrite (drop_S l y i Hy). cbn [tail app].
  assert (<[i := x]> l = take i l ++ x :: drop (S i) l) as E by (by apply insert_take_drop).
  assert (length (take i l) = i) as Ht by (rewrite length_take; lia).
  destruct (decide (S i = length l)) as [Hl|Hl].
  - rewrite drop_0, take_0, app_nil_r, E. rewrite (drop_ge l) by lia. done.
  - rewrite E.
    replace (drop (S i) (take i l ++ x :: drop (S i) l)) with (drop (S i) l).
    2:{ rewrite drop_app_ge by lia. rewrite Ht. replace (S i - i) with 1 by lia. done. }
    replace (take (S i) (take i l ++ x :: drop (S i) l)) with (take i l ++ [x]).
    2:{ rewrite take_app_ge by lia. rewrite Ht. replace (S i - i) with 1 by lia.
        cbn. done. }
    by rewrite app_assoc.
Qed.

(** A full TLB forgets its oldest entry, one with room none. *)
Lemma fifo_add_full page frame pid s :
  tlb_ok g_tlb_config s → tlb_replacement_algo g_tlb_config = TLB_ALGO_FIFO →
  (0 < tlb_entry_count g_tlb_config)%Z → zlen (g_tlb s) = tlb_entry_count g_tlb_config →
  ∃ s', tlb_add_entry g_tlb_config page frame pid s = Ok (tt, s') ∧
    fifo_queue s' = tail (fifo_queue s) ++ [new_entry page frame pid s].
Proof.
  intros Hok Ha Hpos Hfull. eexists. split; [by apply tlb_add_fifo|].
  destruct (tlb_fifo _ _ Hok) as [Hf0 Hf1]. specialize (Hf1 Hpos).
  unfold fifo_queue. cbn [g_tlb g_tlb_fifo_pointer set_tlb set_fifo].
  set (p := g_tlb_fifo_pointer s) in *. rewrite <- Hfull in *. unfold zlen in *.
  rewrite <- (rotate_replace (g_tlb s) (Z.to_nat p)) by lia. cbn zeta.
  unfold zset. rewrite decide_True by lia.
  assert (Z.to_nat ((p + 1) `mod` Z.of_nat (length (g_tlb s)))
          = if decide (S (Z.to_nat p) = length (g_tlb s)) then 0 else S (Z.to_nat p)) as ->; [|done].
  case_decide as Hd.
  - replace (p + 1)%Z with (Z.of_nat (length (g_tlb s))) by lia. rewrite Z.mod_same by lia. done.
  - rewrite Z.mod_small by lia. lia.
Qed.

Lemma fifo_add_room page frame pid s :
  tlb_ok g_tlb_config s → g_tlb_fifo_pointer s = 0%Z →
  (zlen (g_tlb s) < tlb_entry_count g_tlb_config)%Z →
  ∃ s', tlb_add_entry g_tlb_config page frame pid s = Ok (tt, s') ∧
    fifo_queue s' = fifo_queue s ++ [new_entry page frame pid s].
Proof.
  intros Hok Hp Hr. eexists. split; [by apply tlb_add_room|].
  unfold fifo_queue. cbn. rewrite Hp. cbn. by rewrite !drop_0, !app_nil_r.
Qed.
End Fifo.
