(* ===== verification/Server.v ===== *)
(** * The memory module as the server of a CPU

    [memoria_serve] is one exchange on a CPU's connection: the package
    crosses the socket, [client_handler] dispatches it, and the answer
    crosses the socket back.  [memoria_pages] discharges, for the handlers of
    Memoria.v, the interface the MMU is verified against. *)
From S2P Require Import Prelude Commons Enums Buffer Package Packages Roundtrip Config Semaphores.
From S2P Require Import Bitmap Storage PageTable PageTableFacts Memoria MemoriaFacts SwapFacts.
From S2P Require Import Invariant Mmu MmuFacts.
From Stdlib Require Import Strings.Byte.
Import Buffer Package.

Section Server.
Context {C : CommonsOps} (config : t_memoria_config) (fs : t_file_system).

(** A request that is not answered leaves the CPU waiting for ever. *)
#[export] Instance memoria_serve : MemoryServer t_memoria := λ package m,
  match recv_package (serialize_package package) with
  | Crash c => Crash c
  | Ok (None, _) => Ok (None, m)
  | Ok (Some package, _) =>
      match dispatch config fs package (set_out [] m) with
      | Crash c => Crash c
      | Ok (continue, m) =>
          if decide (continue = true ∧ client_out m = []) then Crash Deadlock
          else
            match recv_package (client_out m) with
            | Crash c => Crash c
            | Ok (answer, _) => Ok (answer, set_out [] m)
            end
      end
  end.
End Server.

Section Pages.
Context {C : CommonsOps} {CL : CommonsLaws C} (config : t_memoria_config) (fs : t_file_system).
Context (d : nat) (Hcfg : config_ok config d).
Local Abbreviation E := (ENTRADAS_POR_TABLA config).

(** The process exists, and its table maps page [p] to frame [fr p]. *)
Definition memoria_maps (m : t_memoria) (pid_ : Z) (fr : Z → Z) : Prop :=
  mem_ready config m ∧ in_i32 pid_ ∧ (∀ p, (0 <= p < pages E d)%Z → in_i32 (fr p)) ∧
  ∃ i p, position_from 0 pid_ (global_process_list m) = Some i ∧
    global_process_list m !! i = Some p ∧ page_table p = Ptr (perfect E d 1 0 fr).

Lemma position_with_metrics x l i p f :
  l !! i = Some p →
  position_from 0 x (<[i := with_metrics f p]> l) = position_from 0 x l.
Proof.
  generalize 0 at 1 2. revert i.
  induction l as [|q l IH]; intros [|i] n Hi; simplify_eq/=; [done|].
  case_decide; [done|]. by apply IH.
Qed.

(** Process [p], at [i], has been counted for a request. *)
Definition metered (f : t_process_metrics → t_process_metrics) (i : nat) (p : process_info) (m : t_memoria) : t_memoria :=
  set_processes (<[i := with_metrics f p]> (global_process_list m)) m.

Definition after_page_access := metered count_page_access.

Lemma maps_metered f i p m pid_ fr :
  mem_ready config m → global_process_list m !! i = Some p →
  memoria_maps (metered f i p m) pid_ fr ↔ memoria_maps m pid_ fr.
Proof.
  intros Hm Hi.
  assert (mem_ready config (metered f i p m)) as Hm'.
  { destruct Hm. split; [by apply with_metrics_ok | done]. }
  unfold memoria_maps. cbn [global_process_list metered set_processes].
  setoid_rewrite position_with_metrics; [|done].
  split; intros (_ & Hpid & Hfr & j & q & Hpos & Hj & Hq); split_and!; try done;
    destruct (decide (i = j)) as [<-|Hne].
  - rewrite list_lookup_insert_eq in Hj by (by eapply lookup_lt_Some). injection Hj as <-.
    by exists i, p.
  - rewrite list_lookup_insert_ne in Hj by done. by exists j, q.
  - exists i, (with_metrics f p).
    rewrite list_lookup_insert_eq by (by eapply lookup_lt_Some). simplify_eq. done.
  - exists j, q. by rewrite list_lookup_insert_ne.
Qed.

(** The table found by its id. *)
Lemma find_node l k fr :
  l <= d → (0 <= k < E ^ Z.of_nat l)%Z →
  (let root := perfect E d 1 0 fr in
   if decide (table_id root = id_at E d 1 l k) then Some root
   else find_table_by_id root (id_at E d 1 l k))
  = Some (perfect E (d - l) (id_at E d 1 l k) (k * pages E (d - l)) fr).
Proof.
  intros Hl Hk. pose proof (entries_pos _ _ Hcfg) as HE.
  pose proof (table_at_id E HE d l 1 0 fr k Hl Hk) as Ht.
  destruct (find_at E HE d 1 0 fr _ _ ltac:(lia) Ht) as [_ Hf]. rewrite perfect_id in Hf.
  rewrite Z.add_0_l in Hf. cbn zeta. case_decide as Heq; [|done].
  rewrite find_perfect_eq, decide_True in Hf by (done || by rewrite perfect_id in Heq).
  done.
Qed.

(** The reply of [handle_page_walk_request]. *)
Definition entry_value (l : nat) (k i : Z) (fr : Z → Z) : Z :=
  if decide (l < d) then id_at E d 1 (S l) (k * E + i) else fr (k * E + i)%Z.

Definition entry_flag (l : nat) : Z := if decide (l < d) then 1 else 0.

Lemma page_entry_found l k i fr :
  l <= d → (0 <= k < E ^ Z.of_nat l)%Z → (0 <= i < E)%Z →
  ∃ e, znth (entries (perfect E (d - l) (id_at E d 1 l k) (k * pages E (d - l)) fr)) i = Some e ∧
    (match e with LastEntry _ f => f | TableEntry id _ => id end) = entry_value l k i fr ∧
    (if is_last_level e then 0 else 1)%Z = entry_flag l.
Proof.
  intros Hl Hk Hi. pose proof (entries_pos _ _ Hcfg) as HE. unfold entry_value, entry_flag.
  destruct (decide (l < d)) as [Hlt|Hge].
  - replace (d - l) with (S (d - S l)) by lia. rewrite perfect_entry_node by done.
    eexists. split_and!; [done | | done]. by rewrite id_at_child.
  - replace (d - l) with 0 by lia. rewrite perfect_entry_leaf by done.
    eexists. split_and!; [done | | done]. assert (l = d) as -> by lia.
    f_equal. unfold pages. cbn. lia.
Qed.

Lemma entry_value_in_i32 l k i fr :
  l <= d → (0 <= k < E ^ Z.of_nat l)%Z → (0 <= i < E)%Z →
  (∀ p, (0 <= p < pages E d)%Z → in_i32 (fr p)) → in_i32 (entry_value l k i fr).
Proof.
  intros Hl Hk Hi Hfr. pose proof (entries_pos _ _ Hcfg) as HE.
  assert (0 <= k * E + i < E ^ Z.of_nat (S l))%Z as Hk' by (rewrite pow_S; nia).
  unfold entry_value. case_decide as Hlt.
  - pose proof (id_at_range E HE d 1 (S l) (k * E + i) ltac:(lia) Hlt Hk') as Hr.
    pose proof (tables_small _ _ Hcfg). unfold in_i32. lia.
  - apply Hfr. assert (l = d) as <- by lia. done.
Qed.

Lemma walk_request_ok m pid_ fr l k i :
  memoria_maps m pid_ fr → l <= d → (0 <= k < E ^ Z.of_nat l)%Z → (0 <= i < E)%Z →
  ∀ package, read_with read_page_entry_request_package package
      = Ok {| request_pid := pid_; request_table_id := id_at E d 1 l k; request_entry_index := i |} →
  ∃ reply j p, create_page_entry_response_package (entry_value l k i fr) (entry_flag l) = Ok reply ∧
    global_process_list m !! j = Some p ∧
    handle_page_walk_request package m
    = Ok (tt, set_out (send_package (client_out m) reply) (after_page_access j p m)).
Proof.
  intros ([Hm Hc] & Hpid & Hfr & j & p & Hpos & Hj & Hp) Hl Hk Hi package Hread.
  pose proof (entries_pos _ _ Hcfg) as HE. pose proof (entries_small _ _ Hcfg) as HEi.
  destruct (page_entry_response_delivers (entry_value l k i fr) (entry_flag l)) as (reply & Hreply & _).
  { by apply entry_value_in_i32. }
  { unfold entry_flag, in_i32. case_decide; lia. }
  exists reply, j, p. split_and!; [done | done |].
  unfold handle_page_walk_request. run (unfold lift_res; by rewrite Hread). cbn [request_pid].
  run (apply find_process_ok; by apply Hm). rewrite Hpos.
  run (unfold update_process; run (by apply load_process_ok); by eapply store_process_ok).
  fold (after_page_access j p m).
  run (apply load_process_ok; cbn; by rewrite list_lookup_insert_eq by (by eapply lookup_lt_Some)).
  cbn [page_table with_metrics]. rewrite Hp. run done. run done. cbn [request_table_id request_entry_index].
  pose proof (find_node l k fr Hl Hk) as Hf. cbn zeta in Hf. cbv zeta. rewrite Hf.
  rewrite perfect_num. rewrite u64_id by (unfold in_i32 in HEi; lia).
  rewrite decide_False by lia. rewrite list_get_spec.
  destruct (page_entry_found l k i fr Hl Hk Hi) as (e & He & Hv & Hflag).
  run (unfold deref; by rewrite He). rewrite Hv, Hflag. unfold respond. rewrite Hreply. done.
Qed.

Lemma set_out_access i p x y m :
  set_out x (after_page_access i p (set_out y m)) = set_out x (after_page_access i p m).
Proof. done. Qed.

Lemma maps_set_out x m pid_ fr : memoria_maps (set_out x m) pid_ fr ↔ memoria_maps m pid_ fr.
Proof.
  unfold memoria_maps, mem_ready.
  assert (mem_ok config (set_out x m) ↔ mem_ok config m) as ->; [|done].
  split; [|by apply set_out_ok]. intros []. by constructor.
Qed.

(** Who owns which frames, and runs which script. *)
Definition owner (p : process_info) : Z * bool * list Z * list string :=
  (pid p, is_suspended p, frames_of p, instructions p).
Definition owners (m : t_memoria) : list (Z * bool * list Z * list string) := owner <$> global_process_list m.

Lemma owners_metered f i p m :
  global_process_list m !! i = Some p → owners (metered f i p m) = owners m.
Proof.
  intros Hi. unfold owners. cbn. rewrite list_fmap_insert. apply list_insert_id.
  by rewrite list_lookup_fmap, Hi.
Qed.

(** A page-entry request counts an access; the rest stays. *)
Definition memoria_kept (m m' : t_memoria) : Prop :=
  (∀ pid_ fr, memoria_maps m' pid_ fr ↔ memoria_maps m pid_ fr) ∧
  space m' = space m ∧ frames m' = frames m ∧ swap m' = swap m ∧ owners m' = owners m.

(** One page-entry request, from the CPU's socket and back. *)
Lemma serve_walk_request m pid_ fr l k i req :
  memoria_maps m pid_ fr → l <= d → (0 <= k < E ^ Z.of_nat l)%Z → (0 <= i < E)%Z →
  create_page_entry_request_package pid_ (id_at E d 1 l k) i = Ok req →
  ∃ reply m' flag, memoria_serve config fs req m = Ok (Some reply, m') ∧
    opcode_is Opcode.GET_PAGE_ENTRY reply = true ∧
    read_with read_page_entry_response_package reply
      = Ok {| response_value := entry_value l k i fr; response_is_last_level := flag |} ∧
    memoria_kept m m'.
Proof.
  intros Hmaps Hl Hk Hi Hreq. pose proof Hmaps as (Hready & Hpid & Hfr & _).
  pose proof (entries_pos _ _ Hcfg) as HE. pose proof (entries_small _ _ Hcfg) as HEi.
  pose proof (id_at_range E HE d 1 l k ltac:(lia) Hl Hk) as Hr.
  pose proof (tables_small _ _ Hcfg) as Ht.
  destruct (page_entry_request_delivers pid_ Hpid (id_at E d 1 l k) i) as (req' & Hreq' & Hop & Hread & Hrecv);
    [unfold in_i32 in *; lia.. |].
  rewrite Hreq in Hreq'. injection Hreq' as <-.
  apply (maps_set_out [] m) in Hmaps.
  destruct (walk_request_ok (set_out [] m) pid_ fr l k i Hmaps Hl Hk Hi req Hread)
    as (reply & j & p & Hreply & Hj & Hrun).
  destruct (page_entry_response_delivers (entry_value l k i fr) (entry_flag l))
    as (reply' & Hreply' & Hop' & Hread' & Hrecv').
  { by apply entry_value_in_i32. }
  { unfold entry_flag, in_i32. case_decide; lia. }
  rewrite Hreply in Hreply'. injection Hreply' as <-.
  eexists reply, _, _. split_and!.
  - unfold memoria_serve. rewrite <- (app_nil_r (serialize_package req)), Hrecv.
    unfold dispatch. rewrite Hop, Opcode.decode_code. rewrite (M_bind_ok _ _ _ _ _ Hrun).
    cbn [mret M_ret]. cbv beta. unfold mret, M_ret.
    cbn [client_out set_out app]. unfold send_package. cbn [app].
    rewrite decide_False.
    2:{ intros [_ Hnil]. unfold serialize_package in Hnil. by apply app_eq_nil in Hnil as [Hb _]. }
    rewrite <- (app_nil_r (serialize_package reply)), Hrecv'. reflexivity.
  - unfold opcode_is. by apply bool_decide_eq_true.
  - exact Hread'.
  - split; [|split_and!; try done; exact (owners_metered _ _ _ _ Hj)].
    intros pid' fr'. rewrite !maps_set_out.
    unfold after_page_access. rewrite maps_metered; [by rewrite maps_set_out | | done]. by destruct Hmaps.
Qed.

(** The memory module is a page server. *)
#[export, refine] Instance memoria_pages : PageServer (MS := memoria_serve config fs) t_memoria E d := {|
  maps := memoria_maps;
  node := id_at E d 1;
  kept := memoria_kept;
  kept_refl := _; kept_trans := _; kept_maps := _;
  maps_fun := _; node_root := _; node_nonzero := _; serve_entry := _ |}.
Proof.
  - done.
  - intros m m' m'' (H & H1 & H2 & H3 & H4) (H' & H1' & H2' & H3' & H4').
    split; [intros ??; by rewrite H' | split_and!; congruence].
  - intros m m' pid_ fr [H _]. apply H.
  - intros m pid_ fr fr' p (_ & _ & _ & i & q & Hpos & Hi & Hq) (_ & _ & _ & i' & q' & Hpos' & Hi' & Hq') Hp.
    rewrite Hpos in Hpos'. injection Hpos' as <-. rewrite Hi in Hi'. injection Hi' as <-.
    rewrite Hq in Hq'. injection Hq' as Heq.
    apply (perfect_inj E (entries_pos _ _ Hcfg) d 1 0 fr fr' Heq). lia.
  - by destruct d.
  - intros l k Hl Hk. pose proof (id_at_range E (entries_pos _ _ Hcfg) d 1 l k ltac:(lia) Hl Hk). lia.
  - intros srv pid_ fr l k i req Hm Hl Hk Hi Hreq.
    destruct (serve_walk_request srv pid_ fr l k i req Hm Hl Hk Hi Hreq)
      as (reply & m' & flag & Hs & Hop & Hr & Hkept).
    exists reply, m', (entry_value l k i fr), flag. split_and!; done.
Defined.
End Pages.
