(* ===== verification/Cache.v ===== *)
(** * The page cache of the CPU module (cpu/src/mmu.c, second half)

    Lookup, the CLOCK and CLOCK-M victim searches, eviction with write-back,
    page load, and the clean-up at the end of a process's turn. *)
From S2P Require Import Prelude Commons Enums Buffer Package Packages Config Mmu.
From Stdlib Require Import Strings.Byte.
Import Buffer Package.

(** ** Updates of a cache entry *)
Definition with_use (b : bool) (e : CacheEntry) : CacheEntry :=
  mk_cache (is_valid e) (cache_page e) (cache_pid e) (content e) b (modified_bit e)
    (modified_start e) (modified_end e).
Definition with_content (c : list byte) (e : CacheEntry) : CacheEntry :=
  mk_cache (is_valid e) (cache_page e) (cache_pid e) c (use_bit e) (modified_bit e)
    (modified_start e) (modified_end e).
Definition with_range (a z : Z) (e : CacheEntry) : CacheEntry :=
  mk_cache (is_valid e) (cache_page e) (cache_pid e) (content e) (use_bit e) (modified_bit e) a z.
Definition with_modified (b : bool) (e : CacheEntry) : CacheEntry :=
  mk_cache (is_valid e) (cache_page e) (cache_pid e) (content e) (use_bit e) b
    (modified_start e) (modified_end e).
Definition with_valid (b : bool) (e : CacheEntry) : CacheEntry :=
  mk_cache b (cache_page e) (cache_pid e) (content e) (use_bit e) (modified_bit e)
    (modified_start e) (modified_end e).
Definition with_owner (page pid : Z) (e : CacheEntry) : CacheEntry :=
  mk_cache (is_valid e) page pid (content e) (use_bit e) (modified_bit e)
    (modified_start e) (modified_end e).

Section Cache.
Context {C : CommonsOps} {Srv : Type} {MS : MemoryServer Srv}.
Context (g_mmu_config : MMUConfig) (g_tlb_config : TLBConfig) (g_cache_config : CacheConfig).
Local Abbreviation Mmu := (M (t_mmu Srv)).
Local Abbreviation ps := (mmu_page_size g_mmu_config).
Local Abbreviation n := (cache_entry_count g_cache_config).

(** A [CacheEntry *] is the position of the entry in [g_cache]. *)
Definition load_entry (i : Z) : Mmu CacheEntry :=
  l ← gets g_cache; deref (list_get l i).

Definition store_entry (i : Z) (e : CacheEntry) : Mmu unit :=
  l ← gets g_cache; modify (set_cache (zset l i e)).

(** The process id only appears in the log line. *)
Definition cache_find_entry (page_number pid : Z) : Mmu (option Z) :=
  l ← gets g_cache;
  match list_find l (λ e, is_valid e && bool_decide (cache_page e = page_number)) with
  | None => mret None
  | Some i =>
      entry ← load_entry (Z.of_nat i);
      store_entry (Z.of_nat i) (with_use true entry);;
      mret (Some (Z.of_nat i))
  end.

Definition advance : Mmu unit :=
  p ← gets g_cache_clock_pointer;
  p' ← int_mod (p + 1) n;
  modify (set_clock p').

(** [while (true)] *)
Fixpoint victim_clock (fuel : nat) : Mmu Z :=
  match fuel with
  | O => crash_with OutOfFuel
  | S fuel =>
      p ← gets g_cache_clock_pointer;
      entry ← load_entry p;
      if negb (is_valid entry) then advance;; mret p
      else if use_bit entry then
        store_entry p (with_use false entry);; advance;; victim_clock fuel
      else advance;; mret p
  end.

Definition cache_find_victim_clock : Mmu Z := victim_clock (S (Z.to_nat n)).

(** Step 1: an entry that is invalid, or neither used nor modified. *)
Fixpoint clock_m_step1 (steps : nat) : Mmu (option Z) :=
  match steps with
  | O => mret None
  | S steps =>
      p ← gets g_cache_clock_pointer;
      entry ← load_entry p;
      if negb (is_valid entry) then advance;; mret (Some p)
      else if negb (use_bit entry) && negb (modified_bit entry) then advance;; mret (Some p)
      else advance;; clock_m_step1 steps
  end.

(** Step 2: an entry not used but modified; use bits are cleared on the way. *)
Fixpoint clock_m_step2 (steps : nat) : Mmu (option Z) :=
  match steps with
  | O => mret None
  | S steps =>
      p ← gets g_cache_clock_pointer;
      entry ← load_entry p;
      if is_valid entry then
        if negb (use_bit entry) && modified_bit entry then advance;; mret (Some p)
        else store_entry p (with_use false entry);; advance;; clock_m_step2 steps
      else advance;; clock_m_step2 steps
  end.

Fixpoint victim_clock_m (fuel : nat) : Mmu Z :=
  match fuel with
  | O => crash_with OutOfFuel
  | S fuel =>
      v ← clock_m_step1 (Z.to_nat n);
      match v with
      | Some p => mret p
      | None =>
          v ← clock_m_step2 (Z.to_nat n);
          match v with
          | Some p => mret p
          | None => victim_clock_m fuel
          end
      end
  end.

Definition cache_find_victim_clock_m : Mmu Z := victim_clock_m 2.

(** The address the modified region of a page is written to: the code of
    [select_victim_entry] with and without a TLB. *)
Definition victim_address (entry : CacheEntry) : Mmu (option Z) :=
  if decide (0 < tlb_entry_count g_tlb_config)%Z then
    physic_addr ← mmu_translate_address_with_page_number g_mmu_config g_tlb_config
                    (cache_page entry) (cache_pid entry);
    if decide (physic_addr = 0)%Z then mret None else mret (Some physic_addr)
  else
    frame_number ← mmu_perform_page_walk g_mmu_config (cache_page entry) (cache_pid entry);
    mret (Some (i32 (frame_number * ps))).

(** The write-back shared by eviction and clean-up: only the modified
    region, when there is one. *)
Definition write_back (physic_addr : Z) (entry : CacheEntry) : Mmu unit :=
  if decide (modified_start entry < modified_end entry)%Z then
    let modified_region_addr := i32 (physic_addr + modified_start entry) in
    let modified_size := i32 (modified_end entry - modified_start entry) in
    if decide (0 <= modified_start entry ∧ modified_end entry <= zlen (content entry))%Z then
      package ← send_write modified_region_addr modified_size
                  (drop (Z.to_nat (modified_start entry)) (content entry));
      if opcode_is Opcode.CONFIRMATION package then
        _ ← lift_res (read_with read_confirmation_package package); mret tt
      else mret tt
    else crash_with OutOfBounds
  else mret tt.

Definition zeroed : list byte := replicate (Z.to_nat ps) x00.

Definition select_victim_entry (pid : Z) : Mmu (option Z) :=
  victim_index ← (if decide (cache_replacement_algo g_cache_config = CACHE_ALGO_CLOCK)
                  then cache_find_victim_clock else cache_find_victim_clock_m);
  victim_entry ← load_entry victim_index;
  if is_valid victim_entry && modified_bit victim_entry then
    address ← victim_address victim_entry;
    match address with
    | None => mret None
    | Some physic_addr =>
        write_back physic_addr victim_entry;;
        store_entry victim_index (with_range 0 0 (with_content zeroed victim_entry));;
        mret (Some victim_index)
    end
  else mret (Some victim_index).

Definition cache_load_page (logic_dir : Z) (victim_index pid : Z) : Mmu Z :=
  page_number ← int_div logic_dir ps;
  offset ← int_mod logic_dir ps;
  physic_dir ←
    (if decide (0 < tlb_entry_count g_tlb_config)%Z then
       mmu_translate_address g_mmu_config g_tlb_config logic_dir pid
     else
       frame_number ← mmu_perform_page_walk g_mmu_config page_number pid;
       mret (i32 (frame_number * ps + offset)));
  content ← mmu_request_page_read_from_memory g_mmu_config physic_dir zeroed;
  store_entry victim_index (mk_cache true page_number pid content true false 0 0);;
  mret victim_index.

(** [_writeback_if_dirty], for the entry at position [i]. *)
Definition writeback_if_dirty (i : Z) : Mmu unit :=
  entry ← load_entry i;
  (if is_valid entry && modified_bit entry then
     physic_dir ← mmu_translate_address_with_page_number g_mmu_config g_tlb_config
                    (cache_page entry) (cache_pid entry);
     write_back physic_dir entry
   else mret tt);;
  store_entry i (with_range 0 0 (with_modified false (with_valid false entry))).

Definition mmu_process_cleanup : Mmu unit :=
  (if decide (0 < n)%Z then
     l ← gets g_cache; for_each (upto (zlen l)) writeback_if_dirty
   else mret tt);;
  (if decide (0 < tlb_entry_count g_tlb_config)%Z then modify (set_tlb []) else mret tt).
End Cache.
