(* ===== verification/CacheFacts.v ===== *)
(** * Page replacement, proved

    Both victim searches terminate, and choose as their names say: CLOCK the
    first entry without a second chance, CLOCK-M an entry of the least class
    (free or clean-unused, then dirty-unused, then clean-used, then
    dirty-used), the first of its class from the pointer on. *)
From S2P Require Import Prelude Commons Enums Buffer Package Packages Config Mmu Cache.
From Stdlib Require Import Strings.Byte.

(** The first position below a bound that satisfies a predicate, if any. *)
Lemma first_below (P : nat → Prop) `{∀ i, Decision (P i)} n :
  (∃ j, j < n ∧ P j ∧ ∀ i, i < j → ¬ P i) ∨ (∀ i, i < n → ¬ P i).
Proof.
  induction n as [|n [(j & Hj & HP & Hlt)|Hno]].
  - right. intros i Hi. lia.
  - left. exists j. split_and!; [lia | done | done].
  - destruct (decide (P n)) as [HP|HP].
    + left. exists n. split_and!; [lia | done | done].
    + right. intros i Hi. destruct (decide (i = n)) as [->|]; [done|]. apply Hno. lia.
Qed.

Section Clock.
Context {C : CommonsOps} {CL : CommonsLaws C} {Srv : Type}.
Context (g_cache_config : CacheConfig).
Local Abbreviation n := (cache_entry_count g_cache_config).

(** The cache is allocated, and the pointer is inside it. *)
Definition clock_ok (s : t_mmu Srv) : Prop :=
  zlen (g_cache s) = n ∧ (0 <= g_cache_clock_pointer s < n)%Z ∧ (n < 2147483648)%Z.

(** The [i]-th entry from the pointer on. *)
Definition index (s : t_mmu Srv) (i : nat) : Z := ((g_cache_clock_pointer s + Z.of_nat i) `mod` n)%Z.

Lemma index_range s i : clock_ok s → (0 <= index s i < n)%Z.
Proof. intros (_ & Hp & _). apply Z.mod_pos_bound. lia. Qed.

Lemma index_0 s : clock_ok s → index s 0 = g_cache_clock_pointer s.
Proof. intros (_ & Hp & _). unfold index. rewrite Z.add_0_r. by apply Z.mod_small. Qed.

Definition next (s : t_mmu Srv) : t_mmu Srv :=
  set_clock ((g_cache_clock_pointer s + 1) `mod` n) s.

Lemma next_ok s : clock_ok s → clock_ok (next s).
Proof.
  intros (Hl & Hp & Hn). unfold clock_ok, next. cbn. split_and!; try done;
    apply Z.mod_pos_bound; lia.
Qed.

Lemma index_next s i : clock_ok s → index (next s) i = index s (S i).
Proof.
  intros (_ & Hp & _). unfold index, next. cbn. rewrite Z.add_mod_idemp_l by lia. f_equal. lia.
Qed.

Lemma index_eq s i :
  clock_ok s → (Z.of_nat i < n)%Z →
  index s i = if decide (g_cache_clock_pointer s + Z.of_nat i < n)%Z
              then (g_cache_clock_pointer s + Z.of_nat i)%Z
              else (g_cache_clock_pointer s + Z.of_nat i - n)%Z.
Proof.
  intros (_ & Hp & _) Hi. unfold index. case_decide as Hd; [by apply Z.mod_small; lia|].
  rewrite <- (Z_mod_plus_full _ (-1)), Z.mod_small by lia. lia.
Qed.

Lemma index_inj s i j :
  clock_ok s → (Z.of_nat i < n)%Z → (Z.of_nat j < n)%Z → index s i = index s j → i = j.
Proof.
  intros Hs Hi Hj. rewrite !index_eq by done. pose proof Hs as (_ & Hp & _).
  repeat case_decide; lia.
Qed.

Lemma advance_ok s : clock_ok s → advance g_cache_config s = Ok (tt, next s).
Proof.
  intros (_ & Hp & Hn). unfold advance. run done.
  run (unfold int_mod; rewrite decide_False by lia; done).
  by rewrite Z.rem_mod_nonneg by lia.
Qed.

Lemma load_entry_ok (s : t_mmu Srv) i e : znth (g_cache s) i = Some e → load_entry i s = Ok (e, s).
Proof. intros He. unfold load_entry. run done. rewrite list_get_spec. unfold deref. by rewrite He. Qed.

Definition put_entry (i : Z) (e : CacheEntry) (s : t_mmu Srv) : t_mmu Srv :=
  set_cache (zset (g_cache s) i e) s.

Lemma store_entry_ok (s : t_mmu Srv) i e : store_entry i e s = Ok (tt, put_entry i e s).
Proof. done. Qed.

Lemma put_entry_ok s i e : clock_ok s → clock_ok (put_entry i e s).
Proof. intros (Hl & ?). split; [|done]. cbn. by rewrite zset_zlen. Qed.

(** The entry [i] steps ahead of the pointer. *)
Definition ahead (s : t_mmu Srv) (i : nat) : option CacheEntry := znth (g_cache s) (index s i).

Lemma ahead_Some s i : clock_ok s → ∃ e, ahead s i = Some e.
Proof.
  intros Hs. pose proof (index_range s i Hs). destruct Hs as (Hl & _).
  destruct (znth_is_Some (g_cache s) (index s i)) as [e He]; [lia|]. by exists e.
Qed.

Lemma ahead_next s i : clock_ok s → ahead (next s) i = ahead s (S i).
Proof. intros Hs. unfold ahead. by rewrite index_next. Qed.

Definition holds_at (P : CacheEntry → bool) (s : t_mmu Srv) (i : nat) : Prop :=
  ∃ e, ahead s i = Some e ∧ P e = true.

#[local] Instance holds_at_dec P s i : Decision (holds_at P s i).
Proof.
  unfold holds_at. destruct (ahead s i) as [e|].
  - destruct (P e) eqn:HP; [left; by exists e | right; intros (x & [= <-] & Hx); congruence].
  - right. by intros (x & ? & _).
Defined.

Lemma not_holds_at P s i e : ¬ holds_at P s i → ahead s i = Some e → P e = false.
Proof. intros Hn He. destruct (P e) eqn:HP; [|done]. destruct Hn. by exists e. Qed.

(** *** CLOCK *)

Definition unused (e : CacheEntry) : bool := negb (is_valid e) || negb (use_bit e).

(** Use bits cleared for [k] entries from the pointer, which moves on. *)
Fixpoint chances (k : nat) (s : t_mmu Srv) : t_mmu Srv :=
  match k with
  | O => s
  | S k =>
      match znth (g_cache s) (g_cache_clock_pointer s) with
      | Some e => chances k (next (put_entry (g_cache_clock_pointer s) (with_use false e) s))
      | None => s
      end
  end.

Lemma ahead_put s i e :
  clock_ok s → (0 < i)%nat → (Z.of_nat i < n)%Z →
  ahead (next (put_entry (g_cache_clock_pointer s) e s)) (pred i) = ahead s i.
Proof.
  intros Hs Hi Hn. rewrite ahead_next by (by apply put_entry_ok).
  unfold ahead. replace (S (pred i)) with i by lia.
  change (index (put_entry (g_cache_clock_pointer s) e s) i) with (index s i). cbn.
  rewrite znth_zset_ne; [done|]. rewrite <- (index_0 s Hs). intros Heq.
  pose proof Hs as (_ & ? & _). apply index_inj in Heq; [lia | done | lia | lia].
Qed.

Lemma clock_run j fuel s :
  clock_ok s → j < fuel → (Z.of_nat j < n)%Z → holds_at unused s j →
  (∀ i, i < j → ¬ holds_at unused s i) →
  victim_clock g_cache_config fuel s = Ok (index s j, next (chances j s)).
Proof.
  revert fuel s. induction j as [|j IH]; intros fuel s Hs Hf Hj (e & He & Hu) Hlt;
    (destruct fuel as [|fuel]; [lia|]); cbn [victim_clock]; run done.
  - unfold ahead in He. rewrite index_0 in He |- * by done.
    run (by apply load_entry_ok). unfold unused in Hu.
    destruct (is_valid e), (use_bit e); try done; cbn [negb]; run (by apply advance_ok); done.
  - destruct (ahead_Some s 0 Hs) as [e0 He0].
    pose proof (not_holds_at unused s 0 e0 (Hlt 0 ltac:(lia)) He0) as Hu0.
    unfold ahead in He0. rewrite index_0 in He0 by done.
    run (by apply load_entry_ok). unfold unused in Hu0. apply orb_false_iff in Hu0 as [Hv0 Huse0].
    rewrite Hv0. apply negb_false_iff in Huse0. rewrite Huse0.
    run (apply store_entry_ok). run (by apply advance_ok, put_entry_ok).
    set (s1 := next (put_entry (g_cache_clock_pointer s) (with_use false e0) s)).
    assert (clock_ok s1) as Hs1 by (by apply next_ok, put_entry_ok).
    assert (index s1 j = index s (S j)) as Hidx.
    { unfold s1. rewrite index_next by (by apply put_entry_ok). done. }
    rewrite (IH fuel s1); [| done | lia | lia | |].
    + rewrite Hidx. cbn [chances]. by rewrite He0.
    + exists e. split; [|done]. unfold s1.
      rewrite <- He. by apply (ahead_put s (S j)); [|lia|].
    + intros i Hi Hh. apply (Hlt (S i)); [lia|]. destruct Hh as (x & Hx & Hxu).
      exists x. split; [|done]. rewrite <- Hx. symmetry. unfold s1.
      apply (ahead_put s (S i)); [done | lia | lia].
Qed.

(** Some entry has no second chance left: the first such is the victim. *)
Lemma clock_first s :
  clock_ok s → (∃ i, (Z.of_nat i < n)%Z ∧ holds_at unused s i) →
  ∃ j, (Z.of_nat j < n)%Z ∧ holds_at unused s j ∧ (∀ i, i < j → ¬ holds_at unused s i) ∧
    cache_find_victim_clock g_cache_config s = Ok (index s j, next (chances j s)).
Proof.
  intros Hs (i & Hi & Hu). pose proof Hs as (_ & Hp & _).
  destruct (first_below (holds_at unused s) (Z.to_nat n)) as [(j & Hj & Hju & Hlt)|Hno].
  - exists j. split_and!; [lia | done | done |]. apply clock_run; [done | lia | lia | done | done].
  - destruct (Hno i); [lia | done].
Qed.

(** Every entry is valid and used: one full turn, and the entry at the
    pointer is the victim. *)
Lemma clock_all_used s :
  clock_ok s → (∀ i, (Z.of_nat i < n)%Z → ¬ holds_at unused s i) →
  cache_find_victim_clock g_cache_config s
  = Ok (g_cache_clock_pointer s, next (chances (Z.to_nat n) s)).
Proof.
  intros Hs Hall. pose proof Hs as (Hlen & Hp & _).
  destruct (ahead_Some s 0 Hs) as [e0 He0].
  pose proof (not_holds_at unused s 0 e0 (Hall 0 ltac:(lia)) He0) as Hu0.
  unfold ahead in He0. rewrite index_0 in He0 by done.
  unfold unused in Hu0. apply orb_false_iff in Hu0 as [Hv0 Huse0]. apply negb_false_iff in Huse0.
  unfold cache_find_victim_clock. cbn [victim_clock]. run done.
  run (by apply load_entry_ok). rewrite Hv0, Huse0.
  run (apply store_entry_ok). run (by apply advance_ok, put_entry_ok).
  set (s1 := next (put_entry (g_cache_clock_pointer s) (with_use false e0) s)).
  assert (clock_ok s1) as Hs1 by (by apply next_ok, put_entry_ok).
  destruct (Z.to_nat n) as [|m] eqn:En; [lia|].
  assert (index s1 m = g_cache_clock_pointer s) as Hidx.
  { unfold s1. rewrite index_next by (by apply put_entry_ok). unfold index. cbn.
    replace (g_cache_clock_pointer s + Z.of_nat (S m))%Z with (g_cache_clock_pointer s + 1 * n)%Z by lia.
    rewrite Z_mod_plus_full. by apply Z.mod_small. }
  rewrite (clock_run m (S m) s1); [| done | lia | lia | |].
  - rewrite Hidx. cbn [chances]. by rewrite He0.
  - exists (with_use false e0). split.
    + unfold ahead. rewrite Hidx. cbn. apply znth_zset_eq. lia.
    + unfold unused. cbn. apply orb_true_r.
  - intros i Hi (x & Hx & Hxu). apply (Hall (S i)); [lia|].
    exists x. split; [|done]. rewrite <- Hx. symmetry. unfold s1.
    apply (ahead_put s (S i)); [done | lia | lia].
Qed.

(** *** CLOCK-M *)

Definition class (e : CacheEntry) : nat :=
  if negb (is_valid e) then 0
  else match use_bit e, modified_bit e with
       | false, false => 0 | false, true => 1 | true, false => 2 | true, true => 3
       end.

Definition best (e : CacheEntry) : bool := bool_decide (class e = 0).
Definition second (e : CacheEntry) : bool := negb (use_bit e) && modified_bit e.

Definition forward (k : nat) (s : t_mmu Srv) : t_mmu Srv := set_clock (index s k) s.

Lemma forward_next k s : clock_ok s → forward k (next s) = forward (S k) s.
Proof. intros Hs. unfold forward. by rewrite index_next. Qed.

Lemma next_forward s : clock_ok s → next s = forward 1 s.
Proof. done. Qed.

Lemma best_test (e : CacheEntry) :
  best e = negb (is_valid e) || (negb (use_bit e) && negb (modified_bit e)).
Proof. unfold best, class. by destruct (is_valid e), (use_bit e), (modified_bit e). Qed.

Lemma step1_found j steps s :
  clock_ok s → j < steps → holds_at best s j → (∀ i, i < j → ¬ holds_at best s i) →
  clock_m_step1 g_cache_config steps s = Ok (Some (index s j), forward (S j) s).
Proof.
  revert steps s. induction j as [|j IH]; intros steps s Hs Hst (e & He & Hb) Hlt;
    (destruct steps as [|steps]; [lia|]); cbn [clock_m_step1]; run done.
  - unfold ahead in He. rewrite index_0 in He |- * by done. run (by apply load_entry_ok).
    rewrite best_test in Hb. destruct (is_valid e); cbn [negb orb] in *.
    + rewrite Hb. by run (by apply advance_ok).
    + by run (by apply advance_ok).
  - destruct (ahead_Some s 0 Hs) as [e0 He0].
    pose proof (not_holds_at best s 0 e0 (Hlt 0 ltac:(lia)) He0) as Hb0.
    unfold ahead in He0. rewrite index_0 in He0 by done. run (by apply load_entry_ok).
    rewrite best_test in Hb0. apply orb_false_iff in Hb0 as [Hv0 Hu0]. rewrite Hv0, Hu0.
    run (by apply advance_ok).
    rewrite (IH steps (next s)); [| by apply next_ok | lia | |].
    + by rewrite index_next, forward_next.
    + exists e. by rewrite ahead_next.
    + intros i Hi (x & Hx & Hxb). apply (Hlt (S i)); [lia|]. exists x. by rewrite <- ahead_next.
Qed.

Lemma step1_none steps s :
  clock_ok s → (∀ i, i < steps → ¬ holds_at best s i) →
  clock_m_step1 g_cache_config steps s = Ok (None, forward steps s).
Proof.
  revert s. induction steps as [|steps IH]; intros s Hs Hno; cbn [clock_m_step1].
  - unfold forward. rewrite index_0 by done. by destruct s.
  - run done. destruct (ahead_Some s 0 Hs) as [e0 He0].
    pose proof (not_holds_at best s 0 e0 (Hno 0 ltac:(lia)) He0) as Hb0.
    unfold ahead in He0. rewrite index_0 in He0 by done. run (by apply load_entry_ok).
    rewrite best_test in Hb0. apply orb_false_iff in Hb0 as [Hv0 Hu0]. rewrite Hv0, Hu0.
    run (by apply advance_ok).
    rewrite (IH (next s)); [by rewrite forward_next | by apply next_ok |].
    intros i Hi (x & Hx & Hxb). apply (Hno (S i)); [lia|]. exists x. by rewrite <- ahead_next.
Qed.

(** A full turn comes back to the pointer. *)
Lemma forward_full s : clock_ok s → forward (Z.to_nat n) s = s.
Proof.
  intros (_ & Hp & _). unfold forward, index. rewrite Z2Nat.id by lia.
  replace (g_cache_clock_pointer s + n)%Z with (g_cache_clock_pointer s + 1 * n)%Z by lia.
  rewrite Z_mod_plus_full, Z.mod_small by lia. by destruct s.
Qed.

Definition all_valid (s : t_mmu Srv) : Prop :=
  ∀ i e, ahead s i = Some e → is_valid e = true.

Definition turn (s : t_mmu Srv) (e0 : CacheEntry) : t_mmu Srv :=
  next (put_entry (g_cache_clock_pointer s) (with_use false e0) s).

Lemma turn_ok s e0 : clock_ok s → clock_ok (turn s e0).
Proof. intros. by apply next_ok, put_entry_ok. Qed.

Lemma index_turn s e0 i : clock_ok s → index (turn s e0) i = index s (S i).
Proof. intros. unfold turn. by rewrite index_next by (by apply put_entry_ok). Qed.

Lemma chances_S k s e0 :
  ahead s 0 = Some e0 → clock_ok s → chances (S k) s = chances k (turn s e0).
Proof. intros He Hs. unfold ahead in He. rewrite index_0 in He by done. cbn [chances]. by rewrite He. Qed.

Lemma all_valid_turn s e0 :
  clock_ok s → ahead s 0 = Some e0 → all_valid s → all_valid (turn s e0).
Proof.
  intros Hs He0 Hall i e He. unfold ahead in He. rewrite index_turn in He by done. cbn in He.
  destruct (decide (g_cache_clock_pointer s = index s (S i))) as [Heq|Hne].
  - rewrite <- Heq in He. pose proof Hs as (Hl & Hp & _).
    rewrite znth_zset_eq in He by lia. injection He as <-. cbn. by apply (Hall 0).
  - rewrite znth_zset_ne in He by done. by apply (Hall (S i)).
Qed.

Lemma step2_found j steps s :
  clock_ok s → j < steps → (Z.of_nat j < n)%Z → all_valid s → holds_at second s j →
  (∀ i, i < j → ¬ holds_at second s i) →
  clock_m_step2 g_cache_config steps s = Ok (Some (index s j), next (chances j s)).
Proof.
  revert steps s. induction j as [|j IH]; intros steps s Hs Hst Hj Hall (e & He & Hb) Hlt;
    (destruct steps as [|steps]; [lia|]); cbn [clock_m_step2]; run done.
  - pose proof (Hall _ _ He) as Hv. unfold ahead in He. rewrite index_0 in He |- * by done.
    run (by apply load_entry_ok). rewrite Hv. unfold second in Hb. rewrite Hb.
    by run (by apply advance_ok).
  - destruct (ahead_Some s 0 Hs) as [e0 He0]. pose proof (Hall _ _ He0) as Hv.
    pose proof (not_holds_at second s 0 e0 (Hlt 0 ltac:(lia)) He0) as Hb0.
    pose proof He0 as Hx0. unfold ahead in Hx0. rewrite index_0 in Hx0 by done.
    run (by apply load_entry_ok). rewrite Hv. unfold second in Hb0. rewrite Hb0.
    run (apply store_entry_ok). run (by apply advance_ok, put_entry_ok).
    fold (turn s e0). rewrite (IH steps (turn s e0)).
    + by rewrite index_turn, (chances_S j s e0).
    + by apply turn_ok.
    + lia.
    + lia.
    + by apply all_valid_turn.
    + exists e. split; [|done]. rewrite <- He. by apply (ahead_put s (S j)); [|lia|].
    + intros i Hi (x & Hx & Hxb). apply (Hlt (S i)); [lia|]. exists x. split; [|done].
      rewrite <- Hx. symmetry. apply (ahead_put s (S i)); [done | lia | lia].
Qed.

Lemma step2_none steps s :
  clock_ok s → (Z.of_nat steps <= n)%Z → all_valid s → (∀ i, i < steps → ¬ holds_at second s i) →
  clock_m_step2 g_cache_config steps s = Ok (None, chances steps s).
Proof.
  revert s. induction steps as [|steps IH]; intros s Hs Hst Hall Hno; cbn [clock_m_step2]; [done|].
  run done. destruct (ahead_Some s 0 Hs) as [e0 He0]. pose proof (Hall _ _ He0) as Hv.
  pose proof (not_holds_at second s 0 e0 (Hno 0 ltac:(lia)) He0) as Hb0.
  pose proof He0 as Hx0. unfold ahead in Hx0. rewrite index_0 in Hx0 by done.
  run (by apply load_entry_ok). rewrite Hv. unfold second in Hb0. rewrite Hb0.
  run (apply store_entry_ok). run (by apply advance_ok, put_entry_ok).
  fold (turn s e0). rewrite (chances_S steps s e0) by done.
  apply IH; [by apply turn_ok | lia | by apply all_valid_turn |].
  intros i Hi (x & Hx & Hxb). apply (Hno (S i)); [lia|]. exists x. split; [|done].
  rewrite <- Hx. symmetry. apply (ahead_put s (S i)); [done | lia | lia].
Qed.

(** What [k] chances leave behind. *)
Lemma chances_spec k s :
  clock_ok s → (Z.of_nat k <= n)%Z →
  clock_ok (chances k s) ∧ g_cache_clock_pointer (chances k s) = index s k ∧
  ∀ i, (Z.of_nat i < n)%Z →
    znth (g_cache (chances k s)) (index s i)
    = if decide (i < k) then with_use false <$> ahead s i else ahead s i.
Proof.
  revert s. induction k as [|k IH]; intros s Hs Hk.
  - split_and!; [done | by rewrite index_0 |]. intros i Hi. by rewrite decide_False by lia.
  - destruct (ahead_Some s 0 Hs) as [e0 He0]. rewrite (chances_S k s e0) by done.
    destruct (IH (turn s e0) (turn_ok s e0 Hs) ltac:(lia)) as (Hok & Hptr & Hent).
    split_and!; [done | by rewrite Hptr, index_turn |]. intros i Hi.
    pose proof Hs as (Hl & Hp & _).
    destruct i as [|i].
    + rewrite decide_True by lia. rewrite He0. cbn [fmap option_fmap option_map].
      assert (index s 0 = index (turn s e0) (Z.to_nat n - 1)) as Hidx.
      { rewrite index_turn by done. rewrite index_0 by done. unfold index.
        replace (g_cache_clock_pointer s + Z.of_nat (S (Z.to_nat n - 1)))%Z
          with (g_cache_clock_pointer s + 1 * n)%Z by lia.
        rewrite Z_mod_plus_full. by rewrite Z.mod_small. }
      rewrite Hidx, Hent by lia. rewrite decide_False by lia.
      unfold ahead. rewrite <- Hidx, index_0 by done. cbn. apply znth_zset_eq. lia.
    + rewrite <- (index_turn s e0) by done. rewrite Hent by lia.
      rewrite (decide_ext (i < k) (S i < S k)) by lia.
      assert (ahead (turn s e0) i = ahead s (S i)) as ->; [|done].
      apply (ahead_put s (S i)); [done | lia | lia].
Qed.

(** After a full turn nothing is used, and the pointer is back. *)
Lemma chances_full s :
  clock_ok s → clock_ok (chances (Z.to_nat n) s) ∧
  (∀ i, index (chances (Z.to_nat n) s) i = index s i) ∧
  ∀ i, (Z.of_nat i < n)%Z → ahead (chances (Z.to_nat n) s) i = with_use false <$> ahead s i.
Proof.
  intros Hs. destruct (chances_spec (Z.to_nat n) s Hs) as (Hok & Hptr & Hent).
  { pose proof Hs as (_ & Hp & _). lia. }
  assert (∀ i, index (chances (Z.to_nat n) s) i = index s i) as Hidx.
  { intros i. unfold index. rewrite Hptr. pose proof (forward_full s Hs) as Hf.
    apply (f_equal g_cache_clock_pointer) in Hf. cbn in Hf. by rewrite Hf. }
  split_and!; [done | done |]. intros i Hi. unfold ahead at 1. rewrite Hidx, Hent by done.
  rewrite decide_True by lia. done.
Qed.

(** The choice: least class, first of its class. *)
Definition least (s : t_mmu Srv) (j : nat) : Prop :=
  (Z.of_nat j < n)%Z ∧ ∃ e, ahead s j = Some e ∧
    (∀ i x, (Z.of_nat i < n)%Z → ahead s i = Some x → class e <= class x) ∧
    (∀ i x, i < j → ahead s i = Some x → class e < class x).

Lemma not_best s i e : ¬ holds_at best s i → ahead s i = Some e → 0 < class e ∧ is_valid e = true.
Proof.
  intros Hn He. pose proof (not_holds_at _ _ _ _ Hn He) as Hb. unfold best in Hb.
  apply bool_decide_eq_false in Hb. split; [lia|]. unfold class in Hb. by destruct (is_valid e).
Qed.

Lemma class_second e : is_valid e = true → second e = true ↔ class e = 1.
Proof.
  intros Hv. unfold second, class. rewrite Hv. cbn.
  destruct (use_bit e), (modified_bit e); cbn; split; congruence.
Qed.

Lemma class_used e :
  is_valid e = true → best (with_use false e) = negb (modified_bit e).
Proof. intros Hv. unfold best, class. cbn. rewrite Hv. cbn. by destruct (modified_bit e). Qed.

Lemma class_rest e :
  is_valid e = true → best e = false → second e = false →
  class e = if modified_bit e then 3 else 2.
Proof.
  intros Hv Hb Hs. rewrite best_test, Hv in Hb. unfold second in Hs. unfold class. rewrite Hv. cbn in *.
  by destruct (use_bit e), (modified_bit e).
Qed.

Lemma least_intro (P : CacheEntry → bool) c s j :
  (Z.of_nat j < n)%Z → holds_at P s j → (∀ i, i < j → ¬ holds_at P s i) →
  (∀ i x, (Z.of_nat i < n)%Z → ahead s i = Some x → c <= class x ∧ (P x = true ↔ class x = c)) →
  least s j.
Proof.
  intros Hj (e & He & HP) Hlt Hc. split; [done|]. exists e. split; [done|].
  destruct (Hc j e Hj He) as [_ HPc]. apply HPc in HP. rewrite HP. split.
  - intros i x Hi Hx. by apply (Hc i x).
  - intros i x Hi Hx. destruct (Hc i x ltac:(lia) Hx) as [Hle HPx].
    assert (class x ≠ c); [|lia]. intros Heq. apply (Hlt i Hi). exists x. split; [done|]. by apply HPx.
Qed.

(** Nothing of class 0 or 1: the second turn decides. *)
Lemma clock_m_second_turn s :
  clock_ok s → (∀ i, (Z.of_nat i < n)%Z → ¬ holds_at best s i) →
  (∀ i, (Z.of_nat i < n)%Z → ¬ holds_at second s i) →
  ∃ j s', victim_clock_m g_cache_config 1 (chances (Z.to_nat n) s) = Ok (index s j, s') ∧ least s j.
Proof.
  intros Hs Hb Hsec. pose proof Hs as (Hl & Hp & _).
  destruct (chances_full s Hs) as (Hok & Hidx & Hah).
  set (s2 := chances (Z.to_nat n) s) in *. cbn [victim_clock_m].
  assert (∀ i x, (Z.of_nat i < n)%Z → ahead s i = Some x →
    is_valid x = true ∧ best x = false ∧ second x = false) as Hx.
  { intros i x Hi Hx. destruct (not_best s i x (Hb i Hi) Hx) as [_ Hv].
    split_and!; [done | by eapply not_holds_at; [apply Hb|] | by eapply not_holds_at; [apply Hsec|]]. }
  assert (all_valid s2) as Hall.
  { intros i e He. pose proof (index_range s2 i Hok) as Hr.
    assert (∃ k, (Z.of_nat k < n)%Z ∧ index s2 i = index s2 k) as (k & Hk & Hik).
    { exists (Z.to_nat (Z.of_nat i `mod` n)). pose proof (Z.mod_pos_bound (Z.of_nat i) n ltac:(lia)).
      split; [lia|]. unfold index. rewrite Z2Nat.id by lia. by rewrite Z.add_mod_idemp_r by lia. }
    unfold ahead in He. rewrite Hik in He. fold (ahead s2 k) in He. rewrite Hah in He by done.
    apply fmap_Some in He as (x & Hxs & ->). cbn. by apply (Hx k x Hk). }
  destruct (first_below (holds_at best s2) (Z.to_nat n)) as [(j & Hj & Hbj & Hlt)|Hno].
  - exists j. eexists. split.
    + run (apply (step1_found j); done). rewrite Hidx. done.
    + apply (least_intro (λ e, negb (modified_bit e)) 2); [lia | | |].
      * destruct Hbj as (e & He & Hbe). rewrite Hah in He by lia.
        apply fmap_Some in He as (x & Hxs & ->). exists x. split; [done|].
        rewrite <- class_used; [done|]. apply (Hx j x); [lia | done].
      * intros i Hi (x & Hxs & Hm). apply (Hlt i Hi). exists (with_use false x).
        rewrite Hah, Hxs by lia. split; [done|]. rewrite class_used; [done|].
        apply (Hx i x); [lia | done].
      * intros i x Hi Hxs. destruct (Hx i x Hi Hxs) as (Hv & Hbx & Hsx).
        rewrite (class_rest x) by done. destruct (modified_bit x); cbn; split; try lia; split; congruence.
  - assert (∀ i x, (Z.of_nat i < n)%Z → ahead s i = Some x → class x = 3) as H3.
    { intros i x Hi Hxs. destruct (Hx i x Hi Hxs) as (Hv & Hbx & Hsx).
      rewrite (class_rest x) by done. destruct (modified_bit x) eqn:Hm; [done|].
      destruct (Hno i); [lia|]. exists (with_use false x). rewrite Hah, Hxs by done.
      split; [done|]. by rewrite class_used, Hm. }
    assert (holds_at second s2 0) as Hs0.
    { destruct (ahead_Some s 0 Hs) as [x Hxs]. exists (with_use false x).
      rewrite Hah, Hxs by lia. split; [done|]. pose proof (H3 0 x ltac:(lia) Hxs) as H3x.
      unfold second, class in *. cbn. destruct (is_valid x), (use_bit x), (modified_bit x); done. }
    exists 0. eexists. split.
    + run (apply step1_none; [done|]; intros i Hi; apply Hno; lia). rewrite forward_full by done.
      run (apply (step2_found 0); [done | lia | lia | done | done | lia]).
      by rewrite Hidx.
    + apply (least_intro (λ _, true) 3); [lia | | lia |].
      * destruct (ahead_Some s 0 Hs) as [e He]. by exists e.
      * intros i x Hi Hxs. rewrite (H3 i x) by done. done.
Qed.

(** The search ends, and its choice is the least. *)
Lemma clock_m_ok s :
  clock_ok s →
  ∃ j s', cache_find_victim_clock_m g_cache_config s = Ok (index s j, s') ∧ least s j.
Proof.
  intros Hs. pose proof Hs as (_ & Hp & _). unfold cache_find_victim_clock_m.
  change 2 with (S 1). cbn [victim_clock_m]. fold (victim_clock_m (Srv := Srv) g_cache_config 1).
  destruct (first_below (holds_at best s) (Z.to_nat n)) as [(j & Hj & Hb & Hlt)|Hb].
  - exists j. eexists. split; [run (by apply (step1_found j)); reflexivity|].
    apply (least_intro best 0); [lia | done | done |]. intros i x _ _. split; [lia|].
    apply bool_decide_eq_true.
  - run (by apply step1_none). rewrite forward_full by done.
    assert (∀ i x, (Z.of_nat i < n)%Z → ahead s i = Some x → 0 < class x ∧ is_valid x = true) as Hx.
    { intros i x Hi. apply not_best, Hb. lia. }
    assert (all_valid s) as Hall.
    { intros i e He. pose proof (index_range s i Hs) as Hr.
      destruct (Hx (Z.to_nat (Z.of_nat i `mod` n)) e) as [_ ?]; [| |done].
      - pose proof (Z.mod_pos_bound (Z.of_nat i) n ltac:(lia)). lia.
      - rewrite <- He. unfold ahead. f_equal. unfold index.
        pose proof (Z.mod_pos_bound (Z.of_nat i) n ltac:(lia)).
        rewrite Z2Nat.id by lia. by rewrite Z.add_mod_idemp_r by lia. }
    destruct (first_below (holds_at second s) (Z.to_nat n)) as [(j & Hj & Hsj & Hlt)|Hsec].
    + exists j. eexists. split.
      { run (apply (step2_found j); [done | done | lia | done | done | done]). reflexivity. }
      apply (least_intro second 1); [lia | done | done |]. intros i x Hi Hxs.
      destruct (Hx i x Hi Hxs) as [Hc Hv]. split; [lia|]. by apply class_second.
    + run (apply step2_none; [done | lia | done | done]).
      apply clock_m_second_turn; [done | | ]; intros i Hi; [apply Hb | apply Hsec]; lia.
Qed.

(** The CLOCK search, whatever it finds. *)
Lemma clock_spec s :
  clock_ok s →
  ∃ j, (Z.of_nat j <= n)%Z ∧
    cache_find_victim_clock g_cache_config s = Ok (index s j, next (chances j s)) ∧
    (∀ i, i < j → (Z.of_nat i < n)%Z → ¬ holds_at unused s i) ∧
    ((Z.of_nat j < n)%Z → holds_at unused s j) ∧
    (∀ i, (Z.of_nat i < n)%Z →
      znth (g_cache (chances j s)) (index s i)
      = if decide (i < j) then with_use false <$> ahead s i else ahead s i).
Proof.
  intros Hs. pose proof Hs as (_ & Hp & _).
  destruct (first_below (holds_at unused s) (Z.to_nat n)) as [(j & Hj & Hju & Hlt)|Hno].
  - exists j. split; [lia|]. split.
    + apply clock_run; [done | lia | lia | done | done].
    + split_and!; [by auto | done |]. apply chances_spec; [done | lia].
  - exists (Z.to_nat n). split; [lia|]. split.
    + rewrite clock_all_used by (done || intros i Hi; apply Hno; lia).
      do 2 f_equal. unfold index. rewrite Z2Nat.id by lia.
      replace (g_cache_clock_pointer s + n)%Z with (g_cache_clock_pointer s + 1 * n)%Z by lia.
      rewrite Z_mod_plus_full. by rewrite Z.mod_small.
    + split_and!; [intros i Hi _; by apply Hno | lia |]. apply chances_spec; [done | lia].
Qed.

End Clock.
