(* ===== verification/Execution.v ===== *)
(** * The instruction cycle of the CPU module (cpu/src/instructionCycle.c,
    lists_and_mutex.c, cpuProtocol.c, main.c)

    [parse_instruction] and [decode], one definition per instruction of
    [execution], the interrupt list and its handler, and the loop of main.c.
    The dispatch socket is the sequence of bytes the kernel has sent and of
    those sent to it; the memory module is the server of Mmu.v. *)
From S2P Require Import Prelude Text Commons Enums Buffer Package Packages Config Mmu Cache.
From Stdlib Require Import Strings.Byte Strings.Ascii.
Import Buffer Package InstructionCode.

(** ** Parsing *)
Record t_instruction := {
  instruction_code : INSTRUCTION_CODE;
  operand_numeric1 : Z;
  operand_numeric2 : Z;
  operand_string_size : Z;
  operand_string : option string }.

(** [safe_calloc]: code 0 is NOOP. *)
Definition blank_instruction : t_instruction :=
  {| instruction_code := NOOP; operand_numeric1 := 0; operand_numeric2 := 0;
     operand_string_size := 0; operand_string := None |}.

(** [strtok_r(..., " ")]: the next token and what follows its delimiter. *)
Fixpoint skip_spaces (s : string) : string :=
  match s with
  | EmptyString => EmptyString
  | String c rest => if decide (c = " "%char) then skip_spaces rest else s
  end.

Fixpoint take_token (s : string) : string * string :=
  match s with
  | EmptyString => (EmptyString, EmptyString)
  | String c rest =>
      if decide (c = " "%char) then (EmptyString, rest)
      else let '(tok, rest) := take_token rest in (String c tok, rest)
  end.

Definition strtok_r (s : string) : option string * string :=
  match skip_spaces s with
  | EmptyString => (None, EmptyString)
  | s => let '(tok, rest) := take_token s in (Some tok, rest)
  end.

(** The parser's state is what is left of the line; [atoi] and [strdup] of a
    missing operand dereference NULL. *)
Definition next_token : M string (option string) :=
  λ s, let '(tok, rest) := strtok_r s in Ok (tok, rest).

Definition operand : M string string := tok ← next_token; deref tok.

Definition numeric : M string Z := tok ← operand; mret (atoi tok).

Definition parse_line : M string t_instruction :=
  tok ← next_token;
  match tok with
  | None => mret blank_instruction
  | Some name =>
      let code := string_to_instruction_code (Some name) in
      let plain := {| instruction_code := code; operand_numeric1 := 0; operand_numeric2 := 0;
                      operand_string_size := 0; operand_string := None |} in
      match code with
      | DUMP_MEMORY | EXIT | NOOP => mret plain
      | WRITE =>
          a ← numeric; v ← operand;
          mret {| instruction_code := code; operand_numeric1 := a; operand_numeric2 := 0;
                  operand_string_size := strlen v; operand_string := Some v |}
      | READ =>
          a ← numeric; b ← numeric;
          mret {| instruction_code := code; operand_numeric1 := a; operand_numeric2 := b;
                  operand_string_size := 0; operand_string := None |}
      | GOTO =>
          a ← numeric;
          mret {| instruction_code := code; operand_numeric1 := a; operand_numeric2 := 0;
                  operand_string_size := 0; operand_string := None |}
      | IO | INIT_PROC =>
          v ← operand; a ← numeric;
          mret {| instruction_code := code; operand_numeric1 := a; operand_numeric2 := 0;
                  operand_string_size := strlen v; operand_string := Some v |}
      | UNKNOWN => mret plain
      end
  end.

Definition parse_instruction (instruction_string : string) : res t_instruction :=
  match parse_line instruction_string with Ok (i, _) => Ok i | Crash c => Crash c end.

Definition decode (package : t_package) : res t_instruction :=
  instruction_string ← read_with read_instruction_package package;
  parse_instruction instruction_string.

(** ** The state of the CPU

    [dispatch_in] is what the kernel has sent and the CPU not yet read,
    [dispatch_out] and [interrupt_out] what the CPU has sent; [read_log] is
    the log of the values read from memory. *)
Record t_cpu (S : Type) := mk_cpu {
  cpu_mmu : t_mmu S;
  cpu_pid : Z;
  cpu_pc : Z;
  dispatch_in : list byte;
  dispatch_out : list byte;
  interrupt_out : list byte;
  interrupt_list : list t_package;
  read_log : list (Z * list byte) }.
Arguments mk_cpu {S} _ _ _ _ _ _ _ _.
Arguments cpu_mmu {S} _.
Arguments cpu_pid {S} _.
Arguments cpu_pc {S} _.
Arguments dispatch_in {S} _.
Arguments dispatch_out {S} _.
Arguments interrupt_out {S} _.
Arguments interrupt_list {S} _.
Arguments read_log {S} _.

Section Updates.
Context {S : Type}.
Definition set_mmu (x : t_mmu S) (c : t_cpu S) : t_cpu S :=
  mk_cpu x (cpu_pid c) (cpu_pc c) (dispatch_in c) (dispatch_out c) (interrupt_out c)
    (interrupt_list c) (read_log c).
Definition set_context (pid pc : Z) (c : t_cpu S) : t_cpu S :=
  mk_cpu (cpu_mmu c) pid pc (dispatch_in c) (dispatch_out c) (interrupt_out c)
    (interrupt_list c) (read_log c).
Definition set_dispatch_in (x : list byte) (c : t_cpu S) : t_cpu S :=
  mk_cpu (cpu_mmu c) (cpu_pid c) (cpu_pc c) x (dispatch_out c) (interrupt_out c)
    (interrupt_list c) (read_log c).
Definition set_dispatch_out (x : list byte) (c : t_cpu S) : t_cpu S :=
  mk_cpu (cpu_mmu c) (cpu_pid c) (cpu_pc c) (dispatch_in c) x (interrupt_out c)
    (interrupt_list c) (read_log c).
Definition set_interrupt_out (x : list byte) (c : t_cpu S) : t_cpu S :=
  mk_cpu (cpu_mmu c) (cpu_pid c) (cpu_pc c) (dispatch_in c) (dispatch_out c) x
    (interrupt_list c) (read_log c).
Definition set_interrupts (x : list t_package) (c : t_cpu S) : t_cpu S :=
  mk_cpu (cpu_mmu c) (cpu_pid c) (cpu_pc c) (dispatch_in c) (dispatch_out c) (interrupt_out c)
    x (read_log c).
Definition add_read (x : Z * list byte) (c : t_cpu S) : t_cpu S :=
  mk_cpu (cpu_mmu c) (cpu_pid c) (cpu_pc c) (dispatch_in c) (dispatch_out c) (interrupt_out c)
    (interrupt_list c) (read_log c ++ [x]).
End Updates.

Section Execution.
Context {C : CommonsOps} {Srv : Type} {MS : MemoryServer Srv}.
Context (g_mmu_config : MMUConfig) (g_tlb_config : TLBConfig) (g_cache_config : CacheConfig).
Local Abbreviation Cpu := (M (t_cpu Srv)).
Local Abbreviation ps := (mmu_page_size g_mmu_config).
Local Abbreviation cached := (0 < cache_entry_count g_cache_config)%Z.

Definition on_mmu {A} (o : M (t_mmu Srv) A) : Cpu A := zoom cpu_mmu set_mmu o.

(** [( *PC )++] *)
Definition next_pc : Cpu unit := modify (λ c, set_context (cpu_pid c) (i32 (cpu_pc c + 1)) c).

Definition send_dispatch (r : res t_package) : Cpu unit :=
  package ← lift_res r;
  modify (λ c, set_dispatch_out (send_package (dispatch_out c) package) c).

(** [recv_package(socket_dispatch)], whose result is dereferenced. *)
Definition recv_dispatch_package : Cpu t_package :=
  r ← zoom dispatch_in set_dispatch_in recv_package; deref r.

(** The address of a logical address without a cache: through the TLB
    when there is one, through a page walk otherwise. *)
Definition uncached_address (logic_dir : Z) : Cpu Z :=
  pid ← gets cpu_pid;
  if decide (0 < tlb_entry_count g_tlb_config)%Z then
    on_mmu (mmu_translate_address g_mmu_config g_tlb_config logic_dir pid)
  else
    page_number ← int_div logic_dir ps;
    offset ← int_mod logic_dir ps;
    frame_number ← on_mmu (mmu_perform_page_walk g_mmu_config page_number pid);
    mret (i32 (frame_number * ps + offset)).

(** *** NOOP *)
Definition exec_noop : Cpu bool := next_pc;; mret false.

(** *** WRITE *)

(** The range to write back after a write of [size] bytes at [offset]. *)
Definition extend_range (offset size : Z) (e : CacheEntry) : CacheEntry :=
  if modified_bit e then
    with_range (if decide (offset < modified_start e)%Z then offset else modified_start e)
               (if decide (i32 (offset + size) > modified_end e)%Z then i32 (offset + size)
                else modified_end e) e
  else with_range offset (i32 (offset + size)) e.

(** The copy into the cached page. *)
Definition write_cached (index offset size : Z) (value : list byte) : Cpu unit :=
  entry ← on_mmu (load_entry index);
  let entry := extend_range offset size entry in
  if decide (0 <= offset ∧ 0 <= size <= zlen value ∧ offset + size <= zlen (content entry))%Z then
    on_mmu (store_entry index
      (with_modified true
         (with_content (splice (Z.to_nat offset) (take (Z.to_nat size) value) (content entry)) entry)))
  else crash_with OutOfBounds.

(** A miss takes over a victim, whose page is not read from memory. *)
Definition claim_entry (index page_number offset size pid : Z) : Cpu unit :=
  entry ← on_mmu (load_entry index);
  on_mmu (store_entry index
    (with_content (zeroed g_mmu_config)
      (with_range offset (i32 (offset + size))
        (with_use true (with_owner page_number pid (with_valid true entry)))))).

Definition exec_write_cached (logic_dir size : Z) (value : list byte) : Cpu bool :=
  pid ← gets cpu_pid;
  page_number ← int_div logic_dir ps;
  offset ← int_mod logic_dir ps;
  found ← on_mmu (cache_find_entry page_number pid);
  match found with
  | Some index => write_cached index offset size value;; next_pc;; mret false
  | None =>
      victim ← on_mmu (select_victim_entry g_mmu_config g_tlb_config g_cache_config pid);
      match victim with
      | None => mret false
      | Some index =>
          claim_entry index page_number offset size pid;;
          write_cached index offset size value;; next_pc;; mret false
      end
  end.

Definition exec_write_uncached (logic_dir size : Z) (value : list byte) : Cpu bool :=
  physic_dir_write ← uncached_address logic_dir;
  package ← on_mmu (send_write physic_dir_write size value);
  if opcode_is Opcode.CONFIRMATION package then
    success ← lift_res (read_with read_confirmation_package package);
    if success : bool then next_pc;; mret false else mret false
  else mret false.

Definition exec_write (i : t_instruction) : Cpu bool :=
  value ← deref (operand_string i);
  let exec := if decide cached then exec_write_cached else exec_write_uncached in
  exec (operand_numeric1 i) (operand_string_size i) (cstr_bytes value).

(** *** READ *)
Definition exec_read_cached (logic_dir size : Z) : Cpu bool :=
  pid ← gets cpu_pid;
  page_number ← int_div logic_dir ps;
  found ← on_mmu (cache_find_entry page_number pid);
  match found with
  | Some index => next_pc;; mret false
  | None =>
      victim ← on_mmu (select_victim_entry g_mmu_config g_tlb_config g_cache_config pid);
      match victim with
      | None => mret false
      | Some index =>
          on_mmu (cache_load_page g_mmu_config g_tlb_config logic_dir index pid);;
          next_pc;; mret false
      end
  end.

(** [safe_malloc(size + 1)], and a copy of [size] bytes. *)
Definition exec_read_uncached (logic_dir size : Z) : Cpu bool :=
  physic_dir_read ← uncached_address logic_dir;
  package ← on_mmu (request (send_memory_read_request (create_memory_read_request physic_dir_read size)));
  match package with
  | None => mret false
  | Some p =>
      if opcode_is Opcode.READ_MEMORY p then
        response ← lift_res (read_with read_memory_read_response p);
        if decide (i32 (size + 1) < 0)%Z then crash_with Exit
        else if decide (0 <= size <= zlen (response_data response))%Z then
          modify (add_read (physic_dir_read, take (Z.to_nat size) (response_data response)));;
          next_pc;; mret false
        else crash_with OutOfBounds
      else mret false
  end.

Definition exec_read (i : t_instruction) : Cpu bool :=
  if decide cached then exec_read_cached (operand_numeric1 i) (operand_numeric2 i)
  else exec_read_uncached (operand_numeric1 i) (operand_numeric2 i).

(** *** GOTO *)
Definition exec_goto (i : t_instruction) : Cpu bool :=
  modify (λ c, set_context (cpu_pid c) (operand_numeric1 i) c);; mret false.

(** *** System calls: the context sent is the one after the increment *)
Definition send_syscall (type : SyscallType.SYSCALL_TYPE) (p : syscall_params) : Cpu unit :=
  pid ← gets cpu_pid;
  pc ← gets cpu_pc;
  send_dispatch (create_syscall_package
    {| syscall_type := SyscallType.code type; syscall_pid := pid; syscall_pc := pc; params := p |}).

Definition exec_io (i : t_instruction) : Cpu bool :=
  next_pc;;
  name ← deref (operand_string i);
  send_syscall SyscallType.SYSCALL_IO (IoParams (operand_numeric1 i) name);;
  mret true.

(** INIT_PROC waits for the confirmation of the kernel in between. *)
Definition request_init_proc (i : t_instruction) : Cpu unit :=
  next_pc;;
  file ← deref (operand_string i);
  send_syscall SyscallType.SYSCALL_INIT_PROC (InitProcParams (operand_numeric1 i) file).

Definition await_confirmation : Cpu bool :=
  package ← recv_dispatch_package;
  if opcode_is Opcode.CONFIRMATION package then
    success ← lift_res (read_with read_confirmation_package package);
    if success : bool then mret false else mret true
  else mret true.

Definition exec_init_proc (i : t_instruction) : Cpu bool := request_init_proc i;; await_confirmation.

Definition exec_dump_memory : Cpu bool :=
  next_pc;; send_syscall SyscallType.SYSCALL_DUMP_MEMORY NoParams;; mret true.

Definition exec_exit : Cpu bool :=
  next_pc;; send_syscall SyscallType.SYSCALL_EXIT NoParams;; mret true.

(** Whether the process leaves the CPU. *)
Definition execution (i : t_instruction) : Cpu bool :=
  match instruction_code i with
  | NOOP => exec_noop
  | WRITE => exec_write i
  | READ => exec_read i
  | GOTO => exec_goto i
  | IO => exec_io i
  | INIT_PROC => exec_init_proc i
  | DUMP_MEMORY => exec_dump_memory
  | EXIT => exec_exit
  | UNKNOWN => mret false
  end.

(** ** Interrupts *)

(** *** lists_and_mutex.c *)
Definition add_interrupt (interrupt : t_package) : Cpu unit :=
  modify (λ c, set_interrupts (list_add (interrupt_list c) interrupt) c).

Definition interrupt_count : Cpu Z := gets (λ c, list_size (interrupt_list c)).

Definition get_last_interrupt (i : Z) : Cpu (option t_package) :=
  l ← gets interrupt_list;
  if decide (list_size l > 0)%Z then
    let '(x, l) := list_remove l (i - 1) in
    modify (set_interrupts l);; mret x
  else mret None.

Definition send_interrupt (r : res t_package) : Cpu unit :=
  package ← lift_res r;
  modify (λ c, set_interrupt_out (send_package (interrupt_out c) package) c).

(** 0 tells the kernel that the process was interrupted, 1 that it was not
    the one on the CPU. *)
Definition check_interrupt (package : t_package) : Cpu unit :=
  if opcode_is Opcode.INTERRUPT package then
    pid_received ← lift_res (read_with read_interrupt_package package);
    pid ← gets cpu_pid;
    pc ← gets cpu_pc;
    if decide (pid_received = pid)%Z then
      send_interrupt (create_cpu_context_package pid_received pc 0);;
      on_mmu (mmu_process_cleanup g_mmu_config g_tlb_config g_cache_config)
    else send_interrupt (create_cpu_context_package pid_received pc 1)
  else mret tt.

(** The loop empties the list, the youngest interrupt first. *)
Fixpoint handle_interrupts (fuel : nat) (interrupted : bool) : Cpu bool :=
  count ← interrupt_count;
  if decide (count > 0)%Z then
    match fuel with
    | O => crash_with OutOfFuel
    | S fuel =>
        package ← get_last_interrupt count;
        package ← deref package;
        check_interrupt package;;
        handle_interrupts fuel true
    end
  else mret interrupted.

Definition interrupt_handler : Cpu bool :=
  l ← gets interrupt_list; handle_interrupts (length l) false.

(** ** The cycle of main.c *)

(** [fetch], with [receive_instruction]: NULL unless an instruction comes
    back. *)
Definition fetch : Cpu (option t_package) :=
  pid ← gets cpu_pid;
  pc ← gets cpu_pc;
  if decide (pid < 0 ∨ pc < 0)%Z then mret None
  else
    package ← on_mmu (request (create_fetch_package pid pc));
    match package with
    | Some p => if opcode_is Opcode.INSTRUCTION p then mret (Some p) else mret None
    | None => mret None
    end.

(** [recv_dispatch]: whether a process was dispatched. *)
Definition recv_dispatch : Cpu bool :=
  package ← zoom dispatch_in set_dispatch_in recv_package;
  match package with
  | Some p =>
      if opcode_is Opcode.DISPATCH p then
        data ← lift_res (read_with read_dispatch_package p);
        modify (set_context (dispatch_pid data) (dispatch_pc data));; mret true
      else mret false
  | None => mret false
  end.

(** One turn of the inner loop: whether the process keeps the CPU. *)
Definition cycle : Cpu bool :=
  instruction_package ← fetch;
  match instruction_package with
  | None => mret false
  | Some p =>
      instruction ← lift_res (decode p);
      should_preempt ← execution instruction;
      should_interrupt ← interrupt_handler;
      if (should_preempt || should_interrupt) : bool then
        modify (set_context (-1) (-1));; mret false
      else mret true
  end.

(** The inner loop: [fuel] instructions at most. *)
Fixpoint run_process (fuel : nat) : Cpu unit :=
  match fuel with
  | O => crash_with OutOfFuel
  | S fuel => go_on ← cycle; if go_on : bool then run_process fuel else mret tt
  end.
End Execution.
