(* ===== verification/Session.v ===== *)
(** * A client's session with the memory module

    [client_handler] reads packages from one socket until the client
    disconnects: the packages are served in the order in which they were
    sent, each exactly once, and the loop ends, because every package takes
    at least eight bytes off the socket. *)
From S2P Require Import Prelude Commons Enums Buffer Package Packages Roundtrip Config Memoria.
From S2P Require Import MemoriaFacts Invariant.
From Stdlib Require Import Strings.Byte.
Import Buffer Package.

(** ** What a receive takes off the socket *)

Lemma recv_shrinks n l o l' :
  recv n l = Ok (o, l') → length l' <= length l ∧ (is_Some o → (0 < n)%Z → length l' < length l).
Proof.
  unfold recv. intros H. step_in H. repeat case_decide; simplify_eq.
  - split; [done | by intros [? ?]].
  - rewrite length_drop. destruct l; [naive_solver|]. cbn. split; lia.
Qed.

Lemma recv_package_shrinks l p l' :
  recv_package l = Ok (Some p, l') → length l' < length l.
Proof.
  unfold recv_package. intros H. bind_inv H. apply recv_shrinks in E as [H1 H2].
  destruct r as [?|]; [|by injection H]. bind_inv H. apply recv_shrinks in E as [H3 _].
  destruct r as [?|]; [|by injection H]. case_decide; [done|]. bind_inv H.
  apply recv_shrinks in E as [H4 _]. destruct r as [?|]; [|by injection H].
  bind_inv H. bind_inv H. step_in E. step_in E0. step_in H.
  destruct (buffer_create _); [|done]. injection E as <- <-.
  destruct (buffer_add _ _ _); [|done]. injection E0 as <- <-. injection H as <- <-.
  specialize (H2 ltac:(by eexists) ltac:(done)). lia.
Qed.

Section Session.
Context {C : CommonsOps} (config : t_memoria_config) (fs : t_file_system).

(** Any bound above the number of bytes received gives the same run. *)
Lemma client_handler_fuel fuel fuel' l m :
  length l < fuel → length l < fuel' →
  client_handler config fs fuel l m = client_handler config fs fuel' l m.
Proof.
  revert fuel' l m. induction fuel as [|fuel IH]; intros [|fuel'] l m Hf Hf'; try lia.
  cbn [client_handler]. destruct (recv_package l) as [[[p|] l']|] eqn:Hr; [|done|done].
  apply recv_package_shrinks in Hr. unfold mbind, M_bind.
  destruct (dispatch config fs p m) as [[[] m']|]; [|done|done]. apply IH; lia.
Qed.

(** The packages of a session, in order; an opcode that memory does not
    serve ends it. *)
Fixpoint serve_all (l : list t_package) : M t_memoria bool :=
  match l with
  | [] => mret true
  | p :: l => continue ← dispatch config fs p; if continue : bool then serve_all l else mret false
  end.

(** A package that survives the socket. *)
Definition transmissible (p : t_package) : Prop :=
  ∀ rest, recv_package (serialize_package p ++ rest) = Ok (Some p, rest).

Definition wire (l : list t_package) : list byte := l ≫= serialize_package.

Lemma wire_length l : Forall transmissible l → length l <= length (wire l).
Proof.
  induction 1 as [|p l Hp _ IH]; [done|]. unfold wire in *. rewrite bind_cons, length_app.
  specialize (Hp []). rewrite app_nil_r in Hp. apply recv_package_shrinks in Hp. cbn. lia.
Qed.

(** A whole session, to the disconnection. *)
Lemma session_ok l m m' :
  Forall transmissible l → serve_all l m = Ok (true, m') →
  client_handler config fs (S (length (wire l))) (wire l) m = Ok ([], m').
Proof.
  intros Hl Hs. pose proof (wire_length l Hl) as Hlen.
  rewrite (client_handler_fuel _ (S (length (wire l)) + length l)) by lia.
  clear Hlen. generalize (length (wire l)) as k. intros k. revert m Hs.
  induction Hl as [|p l Hp Hl IH]; intros m Hs.
  - by injection Hs as ->.
  - replace (S k + length (p :: l)) with (S (S k + length l)) by (cbn; lia). cbn [client_handler].
    unfold wire. rewrite bind_cons. rewrite Hp. cbn [serve_all] in Hs.
    unfold mbind, M_bind in Hs |- *.
    destruct (dispatch config fs p m) as [[[] m1]|]; [|done|done]. by apply IH.
Qed.
End Session.
