(* ===== verification/DataServer.v ===== *)
(** * Reading and writing memory over the connection

    The answers of the memory module to WRITE_MEMORY and READ_MEMORY, from
    the package the CPU sends to the package it receives, and what they mean
    for a process that accesses its address space without a cache. *)
From S2P Require Import Prelude Commons Enums Buffer Package Packages Roundtrip Config Semaphores.
From S2P Require Import Bitmap Storage PageTable PageTableFacts Memoria MemoriaFacts SwapFacts.
From S2P Require Import Invariant Mmu MmuFacts Server Cache Execution.
From Stdlib Require Import Strings.Byte.
Import Buffer Package UserSpace.

Section Serve.
Context {C : CommonsOps} {CL : CommonsLaws C} (config : t_memoria_config) (fs : t_file_system).
Context (d : nat) (Hcfg : config_ok config d).
Local Abbreviation E := (ENTRADAS_POR_TABLA config).

(** A handler that answers, as an exchange. *)
Lemma serve_answer req o m m1 reply :
  opcode req = Opcode.code o →
  (∀ rest, recv_package (serialize_package req ++ rest) = Ok (Some req, rest)) →
  (∀ rest, recv_package (serialize_package reply ++ rest) = Ok (Some reply, rest)) →
  dispatch config fs req (set_out [] m) = Ok (true, set_out (serialize_package reply) m1) →
  memoria_serve config fs req m = Ok (Some reply, set_out [] m1).
Proof.
  intros Hop Hreq Hreply Hd. unfold memoria_serve.
  rewrite <- (app_nil_r (serialize_package req)), Hreq, Hd. cbn [client_out set_out].
  rewrite decide_False.
  2:{ intros [_ Hnil]. unfold serialize_package in Hnil. by apply app_eq_nil in Hnil as [Hb _]. }
  by rewrite <- (app_nil_r (serialize_package reply)), Hreply.
Qed.

Lemma create_write_take a size data :
  (0 <= size <= zlen data)%Z →
  create_memory_write_request a size data
  = create_memory_write_request a (zlen (take (Z.to_nat size) data)) (take (Z.to_nat size) data).
Proof.
  intros Hs. unfold create_memory_write_request.
  assert (zlen (take (Z.to_nat size) data) = size) as ->.
  { unfold zlen in *. rewrite length_take. lia. }
  rewrite !decide_False by lia. rewrite take_take. do 3 f_equal. lia.
Qed.

(** A write inside user space, of at most a page. *)
Lemma serve_write m a data :
  mem_ready config m → in_i32 a → addressable (space m) a (zlen data) →
  (zlen data <= TAM_PAGINA config)%Z → (zlen data < 2147483000)%Z →
  ∃ req reply,
    (r ← create_memory_write_request a (zlen data) data; send_memory_write_request r) = Ok req ∧
    memoria_serve config fs req m = Ok (Some reply, set_out [] (set_space (with_bytes (space m) a data) m)) ∧
    opcode_is Opcode.CONFIRMATION reply = true ∧ read_with read_confirmation_package reply = Ok true.
Proof.
  intros [Hm Hc] Ha Hadr Hpage Hsmall.
  destruct (memory_write_request_delivers data Hsmall a Ha) as (req & Hreq & Hop & Hread & Hrecv).
  destruct (confirmation_delivers true) as (reply & Hreply & Hop' & Hread' & Hrecv').
  exists req, reply. split_and!; [done | | by apply bool_decide_eq_true | done].
  apply (serve_answer req Opcode.WRITE_MEMORY); [done..|].
  unfold dispatch. rewrite Hop, Opcode.decode_code. unfold write_memory_request_handler.
  erewrite M_bind_ok; [reflexivity|].
  run (unfold lift_res; by rewrite Hread). cbn [write_physical_address write_data write_size].
  run (unfold on_space, zoom; rewrite write_ok; [done | apply Hm | done | done]).
  unfold respond. rewrite Hreply. done.
Qed.

(** A read inside user space. *)
Lemma serve_read m a size :
  mem_ready config m → in_i32 a → addressable (space m) a size → (size < 2147483000)%Z →
  ∃ req reply,
    send_memory_read_request (create_memory_read_request a size) = Ok req ∧
    memoria_serve config fs req m = Ok (Some reply, set_out [] m) ∧
    opcode_is Opcode.READ_MEMORY reply = true ∧
    read_with read_memory_read_response reply
      = Ok {| response_data := stored (space m) a size; response_data_size := size |}.
Proof.
  intros [Hm Hc] Ha Hadr Hsmall. pose proof Hadr as (_ & Hsz & _).
  pose proof (stored_zlen (space m) a size (space_ok _ _ Hm) Hadr) as Hlen.
  destruct (memory_read_request_delivers a size) as (req & Hreq & Hop & Hread & Hrecv);
    [done | unfold in_i32; lia |].
  destruct (memory_read_response_delivers (stored (space m) a size) ltac:(lia))
    as (reply & Hreply & Hop' & Hread' & Hrecv').
  rewrite Hlen in Hreply, Hread'.
  exists req, reply. split_and!; [done | | by apply bool_decide_eq_true | done].
  apply (serve_answer req Opcode.READ_MEMORY); [done..|].
  unfold dispatch. rewrite Hop, Opcode.decode_code. unfold read_memory_request_handler.
  erewrite M_bind_ok; [reflexivity|].
  run (unfold lift_res; by rewrite Hread). cbn [read_physical_address read_size create_memory_read_request].
  rewrite decide_False by lia.
  run (unfold on_space, zoom; rewrite read_ok; [done | apply Hm | done]).
  unfold respond. change (space (set_out [] m)) with (space m). rewrite Hreply. by destruct m.
Qed.
End Serve.

(** ** A process that reads and writes without a cache *)
Section Uncached.
Context {C : CommonsOps} {CL : CommonsLaws C} (config : t_memoria_config) (fs : t_file_system).
Context (d : nat) (Hcfg : config_ok config d).
Context (g_tlb_config : TLBConfig) (Hcount : (0 <= tlb_entry_count g_tlb_config)%Z).
Local Abbreviation ps := (TAM_PAGINA config).
Local Abbreviation E := (ENTRADAS_POR_TABLA config).
#[local] Instance served : MemoryServer t_memoria := memoria_serve config fs.

(** load_mmu_config asks for the same keys the memory module reads. *)
Definition mmu_config_of : MMUConfig :=
  {| mmu_page_size := ps; page_table_levels := CANTIDAD_NIVELES config; entries_per_table := E |}.

#[local] Instance pages_served : PageServer (MS := served) t_memoria E d :=
  memoria_pages config fs d Hcfg.

(** The CPU runs the process [cpu_pid], whose page [p] is in frame [fr p]. *)
Definition cpu_ready (fr : Z → Z) (c : t_cpu t_memoria) : Prop :=
  ready mmu_config_of g_tlb_config d (cpu_mmu c) ∧
  memoria_maps config d (memory (cpu_mmu c)) (cpu_pid c) fr.

(** [size] bytes at a logical address, inside one page that has a frame. *)
Definition accessible (fr : Z → Z) (u : t_user_space) (l size : Z) : Prop :=
  in_space mmu_config_of d l ∧ frame_in config u (fr (l / ps)%Z) ∧
  (0 <= size ∧ l `mod` ps + size <= ps)%Z.

Definition physical (fr : Z → Z) (l : Z) : Z := (fr (l / ps)%Z * ps + l `mod` ps)%Z.

Lemma page_positive : (0 < ps)%Z.
Proof. apply (page_pos _ _ Hcfg). Qed.

Lemma accessible_address fr u l size :
  user_space_ok u → accessible fr u l size →
  addressable u (physical fr l) size ∧ in_i32 (physical fr l).
Proof.
  intros [Hus Hui] (_ & [Hf0 Hf1] & Hs & Ho). unfold addressable, physical.
  pose proof page_positive. pose proof (Z.mod_pos_bound l ps ltac:(lia)).
  unfold in_i32 in *. split; [|nia]. split_and!; nia.
Qed.

(** All the modules ask of a range: that it lies in user space and is not
    longer than a page.  It may go past the end of its page. *)
Definition reaches (fr : Z → Z) (u : t_user_space) (l size : Z) : Prop :=
  in_space mmu_config_of d l ∧ addressable u (physical fr l) size ∧ (size <= ps)%Z.

Lemma accessible_reaches fr u l size : user_space_ok u → accessible fr u l size → reaches fr u l size.
Proof.
  intros Hu Ha. destruct (accessible_address _ _ _ _ Hu Ha) as [Hadr _]. destruct Ha as (Hl & _ & Hs & Ho).
  split_and!; [done..|]. pose proof (Z.mod_pos_bound l ps page_positive). lia.
Qed.

Lemma reaches_address fr u l size : user_space_ok u → reaches fr u l size → in_i32 (physical fr l).
Proof. intros [_ Hui] (_ & (? & ? & ?) & _). unfold in_i32 in *. lia. Qed.

Lemma uncached_address_ok fr c l size :
  cpu_ready fr c → reaches fr (space (memory (cpu_mmu c))) l size →
  ∃ s, uncached_address mmu_config_of g_tlb_config l c = Ok (physical fr l, set_mmu s c) ∧
    ready mmu_config_of g_tlb_config d s ∧ memoria_kept config d (memory (cpu_mmu c)) (memory s).
Proof.
  intros [Hr Hm] Hacc. pose proof Hm as ([Hok _] & _).
  pose proof (reaches_address fr _ l size (space_ok _ _ Hok) Hacc) as Hi.
  destruct Hacc as (Hl & _ & _). pose proof page_positive as Hps.
  pose proof (entries_pos _ _ Hcfg) as HE. pose proof (pages_small _ _ Hcfg) as Hsm.
  unfold uncached_address. run done. case_decide as Ht.
  - destruct (translate_ok (PS := pages_served) mmu_config_of g_tlb_config d Hcount HE (levels _ _ Hcfg) Hsm Hps
      (cpu_mmu c) l (cpu_pid c) fr Hr Hm Hl Hi) as (s & Hs & Hrs & Hk & _).
    exists s. split_and!; [|done|done]. unfold on_mmu, zoom. by rewrite Hs.
  - assert (0 <= l / ps < pages E d)%Z as Hp.
    { destruct Hl as [Hl0 Hl1]. split; [apply Z.div_pos; lia | done]. }
    destruct (page_walk_ok (PS := pages_served) mmu_config_of d HE (levels _ _ Hcfg) Hsm (cpu_mmu c) (l / ps) (cpu_pid c) fr Hm Hp)
      as (s & Hw & Hsame & Hk).
    exists s. split_and!.
    + destruct Hl as [Hl0 Hl1].
      assert (l / ps <= l)%Z by (apply Z.div_le_upper_bound; nia).
      run (unfold int_div; cbn; rewrite decide_False by lia; done). cbn [mmu_page_size mmu_config_of].
      rewrite Z.quot_div_nonneg, i32_id by (try lia; unfold in_i32; lia).
      run (unfold int_mod; cbn; rewrite decide_False by lia; done). cbn [mmu_page_size mmu_config_of].
      rewrite Z.rem_mod_nonneg by lia.
      run (unfold on_mmu, zoom; by rewrite Hw). by rewrite i32_id.
    + destruct Hr as [Hok' Hco]. split; [by eapply same_mmu_tlb | by eapply maps_kept_coherent].
    + exact Hk.
Qed.

Lemma same_physical fr l : physical fr l = (fr (l / ps)%Z * ps + l `mod` ps)%Z.
Proof. done. Qed.

(** The requests and answers of memory do not touch the MMU. *)
Lemma send_write_ok s a data full size :
  mem_ready config (memory s) → in_i32 a → addressable (space (memory s)) a size →
  (size <= ps)%Z → (size < 2147483000)%Z → (size <= zlen full)%Z → data = take (Z.to_nat size) full →
  ∃ reply, send_write a size full s
      = Ok (reply, set_memory (set_out [] (set_space (with_bytes (space (memory s)) a data) (memory s))) s) ∧
    opcode_is Opcode.CONFIRMATION reply = true ∧ read_with read_confirmation_package reply = Ok true.
Proof.
  intros Hm Ha Hadr Hpage Hsmall Hfull ->. pose proof Hadr as (_ & Hsz & _).
  assert (zlen (take (Z.to_nat size) full) = size) as Hlen.
  { unfold zlen in *. rewrite length_take. lia. }
  destruct (serve_write config fs (memory s) a (take (Z.to_nat size) full)) as
    (req & reply & Hreq & Hserve & Hop & Hread); rewrite ?Hlen; try done.
  exists reply. split_and!; [|done..].
  unfold send_write, request. rewrite create_write_take by lia. rewrite Hreq.
  run (run done; unfold zoom, serve, served; by rewrite Hserve). by step.
Qed.

(** Overwriting bytes of user space keeps every mapping. *)
Definition stored_to (a : Z) (data : list byte) (m : t_memoria) : t_memoria :=
  set_out [] (set_space (with_bytes (space m) a data) m).

Lemma stored_to_ok a data m :
  mem_ok config m → addressable (space m) a (zlen data) → mem_ok config (stored_to a data m).
Proof.
  intros Hm Ha. apply set_out_ok. apply set_space_ok; [done | | done].
  apply with_bytes_ok; [apply Hm | done].
Qed.

Lemma maps_stored_to a data m pid_ fr :
  mem_ready config m → addressable (space m) a (zlen data) →
  memoria_maps config d (stored_to a data m) pid_ fr ↔ memoria_maps config d m pid_ fr.
Proof.
  intros Hm Ha. unfold memoria_maps.
  assert (mem_ready config (stored_to a data m)).
  { destruct Hm. split; [by apply stored_to_ok | done]. }
  change (global_process_list (stored_to a data m)) with (global_process_list m). tauto.
Qed.

Lemma ready_stored_to a data s :
  ready mmu_config_of g_tlb_config d s → mem_ready config (memory s) →
  addressable (space (memory s)) a (zlen data) →
  ready mmu_config_of g_tlb_config d (set_memory (stored_to a data (memory s)) s).
Proof.
  intros [[] Hc] Hm Ha. split; [by constructor|].
  intros e fr He Hmaps. apply (Hc e fr He). by eapply maps_stored_to.
Qed.

(** ** The instructions *)
Context (g_cache_config : CacheConfig) (Hcache : (cache_entry_count g_cache_config <= 0)%Z).

Definition write_instruction (l : Z) (v : string) : t_instruction :=
  {| instruction_code := InstructionCode.WRITE; operand_numeric1 := l; operand_numeric2 := 0;
     operand_string_size := strlen v; operand_string := Some v |}.

Definition read_instruction (l size : Z) : t_instruction :=
  {| instruction_code := InstructionCode.READ; operand_numeric1 := l; operand_numeric2 := size;
     operand_string_size := 0; operand_string := None |}.

Definition run_instruction (i : t_instruction) : M (t_cpu t_memoria) bool :=
  execution mmu_config_of g_tlb_config g_cache_config i.

(** The context of [c] one instruction further, with another MMU and log. *)
Definition stepped (s : t_mmu t_memoria) (c : t_cpu t_memoria) : t_cpu t_memoria :=
  set_context (cpu_pid c) (i32 (cpu_pc c + 1)) (set_mmu s c).

Lemma write_instruction_ok fr c l v :
  cpu_ready fr c → reaches fr (space (memory (cpu_mmu c))) l (strlen v) →
  (strlen v < 2147483000)%Z →
  ∃ s, run_instruction (write_instruction l v) c = Ok (false, stepped s c) ∧
    cpu_ready fr (stepped s c) ∧
    space (memory s) = with_bytes (space (memory (cpu_mmu c))) (physical fr l) (String.list_byte_of_string v) ∧
    owners (memory s) = owners (memory (cpu_mmu c)) ∧
    (∀ x fr, memoria_maps config d (memory s) x fr ↔ memoria_maps config d (memory (cpu_mmu c)) x fr).
Proof.
  intros Hc Hacc Hsmall. pose proof Hc as (_ & (Hready & _)).
  pose proof (reaches_address fr _ l (strlen v) (space_ok _ _ (proj1 Hready)) Hacc) as Hi.
  pose proof Hacc as (_ & Hadr & _).
  destruct (uncached_address_ok fr c l (strlen v) Hc Hacc) as (s & Hs & Hrs & Hk).
  pose proof Hk as (Hmaps & Hsp & _).
  assert (memoria_maps config d (memory s) (cpu_pid c) fr) as Hm by (apply Hmaps, Hc).
  rewrite <- Hsp in Hadr. pose proof Hacc as (_ & _ & Hpage).
  assert (take (Z.to_nat (strlen v)) (cstr_bytes v) = String.list_byte_of_string v) as Htake.
  { unfold strlen, zlen, cstr_bytes. rewrite Nat2Z.id. apply take_app_length. }
  destruct (send_write_ok s (physical fr l) (take (Z.to_nat (strlen v)) (cstr_bytes v)) (cstr_bytes v) (strlen v) (proj1 Hm) Hi Hadr)
    as (reply & Hsend & Hop & Hread); [done | done | rewrite cstr_bytes_zlen; lia | done |].
  rewrite Htake in Hsend. fold (stored_to (physical fr l) (String.list_byte_of_string v) (memory s)) in Hsend.
  exists (set_memory (stored_to (physical fr l) (String.list_byte_of_string v) (memory s)) s).
  split_and!.
  - unfold run_instruction, execution, exec_write. cbn [instruction_code write_instruction operand_string].
    run done. rewrite decide_False by lia. cbn [operand_numeric1 operand_string_size write_instruction].
    unfold exec_write_uncached. run (exact Hs).
    run (unfold on_mmu, zoom; cbn [cpu_mmu set_mmu]; by rewrite Hsend).
    rewrite Hop. run (unfold lift_res; by rewrite Hread). done.
  - split; cbn [cpu_mmu cpu_pid stepped set_context set_mmu memory set_memory].
    + by apply ready_stored_to; [| apply Hm |].
    + by apply maps_stored_to; [apply Hm| |].
  - cbn. by rewrite Hsp.
  - by destruct Hk as (_ & _ & _ & _ & Ho).
  - intros x fr'. cbn. rewrite maps_stored_to; [apply Hmaps | apply Hm | done].
Qed.

Lemma read_instruction_ok fr c l size :
  cpu_ready fr c → reaches fr (space (memory (cpu_mmu c))) l size → (size < 2147483000)%Z →
  ∃ s, run_instruction (read_instruction l size) c
      = Ok (false, add_read (physical fr l, stored (space (memory (cpu_mmu c))) (physical fr l) size) (stepped s c)) ∧
    cpu_ready fr (stepped s c) ∧
    space (memory s) = space (memory (cpu_mmu c)) ∧ owners (memory s) = owners (memory (cpu_mmu c)) ∧
    (∀ x fr, memoria_maps config d (memory s) x fr ↔ memoria_maps config d (memory (cpu_mmu c)) x fr).
Proof.
  intros Hc Hacc Hsmall. pose proof Hc as (_ & (Hready & _)).
  pose proof (reaches_address fr _ l size (space_ok _ _ (proj1 Hready)) Hacc) as Hi.
  pose proof Hacc as (_ & Hadr & _).
  destruct (uncached_address_ok fr c l size Hc Hacc) as (s & Hs & Hrs & Hk).
  pose proof Hk as (Hmaps & Hsp & _ & _ & Ho).
  assert (memoria_maps config d (memory s) (cpu_pid c) fr) as Hm by (apply Hmaps, Hc).
  rewrite <- Hsp in Hadr. assert (0 <= size)%Z as Hsz by apply Hadr.
  destruct (serve_read config fs (memory s) (physical fr l) size (proj1 Hm) Hi Hadr Hsmall)
    as (req & reply & Hreq & Hserve & Hop & Hread).
  pose proof (stored_zlen _ _ _ (space_ok _ _ (proj1 (proj1 Hm))) Hadr) as Hlen.
  exists (set_memory (set_out [] (memory s)) s). split_and!; [| | done | done |].
  3:{ intros x fr'. cbn. rewrite maps_set_out. apply Hmaps. }
  - unfold run_instruction, execution. cbn [instruction_code read_instruction].
    unfold exec_read. rewrite decide_False by lia. cbn [operand_numeric1 operand_numeric2 read_instruction].
    unfold exec_read_uncached. run (exact Hs).
    run (unfold on_mmu, request, zoom; cbn [cpu_mmu set_mmu]; rewrite Hreq; run done;
         unfold serve, served; by rewrite Hserve).
    rewrite Hop. run (unfold lift_res; by rewrite Hread).
    rewrite i32_id by (unfold in_i32; lia). rewrite decide_False by lia.
    cbn [response_data]. rewrite Hlen, decide_True by lia. rewrite Hsp.
    rewrite firstn_all2 by (rewrite <- Hsp; unfold zlen in Hlen; lia). done.
  - assert (∀ pid_ fr, memoria_maps config d (set_out [] (memory s)) pid_ fr
                       ↔ memoria_maps config d (memory s) pid_ fr) as Hiff by (intros; apply maps_set_out).
    split; cbn [cpu_mmu cpu_pid stepped set_context set_mmu memory set_memory]; [|by apply Hiff].
    destruct Hrs as [[] Hco]. split; [by constructor|].
    intros e fr' He Hmp. apply (Hco e fr' He). by apply Hiff.
Qed.

(** What a write leaves of the rest of the address space. *)
Lemma read_elsewhere u fr fr' l l' size data :
  user_space_ok u → accessible fr u l (zlen data) → accessible fr' u l' size →
  (fr (l / ps) = fr' (l' / ps) → l `mod` ps + zlen data <= l' `mod` ps ∨ l' `mod` ps + size <= l `mod` ps)%Z →
  stored (with_bytes u (physical fr l) data) (physical fr' l') size = stored u (physical fr' l') size.
Proof.
  intros Hu Ha Ha' Hd. destruct (accessible_address fr u l _ Hu Ha) as [Hadr _].
  destruct (accessible_address fr' u l' _ Hu Ha') as [(? & ? & _) _].
  apply stored_with_bytes_ne; [done..|]. unfold physical.
  destruct Ha as (_ & _ & ? & ?), Ha' as (_ & _ & ? & ?). pose proof page_positive as Hps.
  pose proof (Z.mod_pos_bound l ps Hps). pose proof (Z.mod_pos_bound l' ps Hps).
  destruct (decide (fr (l / ps) = fr' (l' / ps))%Z) as [He|Hne]; [rewrite He; lia|].
  destruct (decide (fr (l / ps) < fr' (l' / ps))%Z); nia.
Qed.

(** Two resident processes share no frame. *)
Lemma frames_apart m i j p q f g :
  mem_ok config m → i ≠ j → global_process_list m !! i = Some p → global_process_list m !! j = Some q →
  is_suspended p = false → is_suspended q = false → f ∈ frames_of p → g ∈ frames_of q → f ≠ g.
Proof.
  intros Hm Hne Hi Hj Hp Hq Hf Hg ->.
  destruct (partition_owned _ _ (frames_ok _ _ Hm) (main_partition _ _ Hm)) as [Hnd _].
  destruct (bind_at (λ p, if is_suspended p then [] else frames_of p) _ _ _ Hi) as (rest & Hr & _ & Hrest).
  unfold resident in Hnd. rewrite Hr, Hp in Hnd. apply NoDup_app in Hnd as (_ & Hd & _).
  apply (Hd g Hf). rewrite <- Hrest. apply list_elem_of_bind. exists q. rewrite Hq. split; [done|].
  apply list_elem_of_lookup. destruct (decide (j < i)) as [Hlt|Hge].
  - exists j. by rewrite list_lookup_delete_lt.
  - exists (j - 1). rewrite list_lookup_delete_ge by lia. by replace (S (j - 1)) with j by lia.
Qed.
End Uncached.
