(* ===== verification/ParsingFacts.v ===== *)
(** * Parsing, proved

    [parse_instruction] reads back every instruction from its text: the
    name, then the operands in decimal or verbatim, one space apart.  With
    the round trip of the INSTRUCTION package this is what the CPU executes
    for a line of a script. *)
From S2P Require Import Prelude Text Commons Enums Buffer Package Packages Roundtrip Mmu Cache.
From S2P Require Import Execution.

From Stdlib Require Import Strings.Byte Strings.Ascii.
Import Buffer Package InstructionCode.

(** ** Tokens *)

Fixpoint no_space (s : string) : Prop :=
  match s with EmptyString => True | String c s => c ≠ " "%char ∧ no_space s end.

#[export] Instance no_space_dec s : Decision (no_space s).
Proof. induction s; cbn; apply _. Defined.

Definition word (s : string) : Prop := s ≠ EmptyString ∧ no_space s.

#[export] Instance word_dec s : Decision (word s).
Proof. unfold word. apply _. Defined.

Lemma append_String c s t : String c s +:+ t = String c (s +:+ t).
Proof. done. Qed.

Lemma skip_spaces_word s rest : word s → skip_spaces (s +:+ rest) = s +:+ rest.
Proof. destruct s as [|c s]; [by intros [? _]|]. intros [_ [Hc _]].
  rewrite append_String. cbn [skip_spaces]. by rewrite decide_False. Qed.

Lemma take_token_word s rest : no_space s → take_token (s +:+ String " " rest) = (s, rest).
Proof.
  induction s as [|c s IH]; [done|]. intros [Hc Hs]. rewrite append_String. cbn [take_token].
  rewrite decide_False by done. by rewrite IH.
Qed.

Lemma take_token_last s : no_space s → take_token s = (s, EmptyString).
Proof.
  induction s as [|c s IH]; [done|]. intros [Hc Hs]. cbn [take_token].
  rewrite decide_False by done. by rewrite IH.
Qed.

Lemma next_token_word s rest : word s → next_token (s +:+ String " " rest) = Ok (Some s, rest).
Proof.
  intros Hw. pose proof Hw as [Hne Hs]. unfold next_token, strtok_r. rewrite skip_spaces_word by done.
  destruct s as [|c s]; [done|]. change (String c s +:+ String " " rest) with (String c (s +:+ String " " rest)).
  cbv beta iota. change (String c (s +:+ String " " rest)) with (String c s +:+ String " " rest).
  by rewrite take_token_word.
Qed.

Lemma next_token_last s : word s → next_token s = Ok (Some s, EmptyString).
Proof.
  intros Hw. pose proof Hw as [Hne Hs]. unfold next_token, strtok_r.
  destruct s as [|c s]; [done|]. cbn [skip_spaces]. rewrite decide_False by apply Hs.
  by rewrite take_token_last.
Qed.

(** ** Numbers *)

Lemma all_digits_no_space s : all_digits s → no_space s.
Proof.
  induction s as [|c s IH]; [done|]. intros [[k Hc%digit_not] Hs]. split; [tauto | auto].
Qed.

Lemma pretty_word (z : Z) : word (pretty z).
Proof.
  destruct z as [|p|p]; [by vm_compute|..].
  - change (pretty (Z.pos p)) with (pretty p). destruct (pretty_pos_value p) as (Hv & Hd & Hn).
    split; [done | by apply all_digits_no_space].
  - change (pretty (Z.neg p)) with (String "-" (pretty p)). destruct (pretty_pos_value p) as (Hv & Hd & Hn).
    split; [done|]. split; [done | by apply all_digits_no_space].
Qed.

(** ** Instructions *)

Definition spaced (a b : string) : string := a +:+ String " " b.

(** The text of an instruction in a script. *)
Definition print_instruction (i : t_instruction) : string :=
  let name := instruction_code_to_string (instruction_code i) in
  let v := default EmptyString (operand_string i) in
  let a := pretty (operand_numeric1 i) in
  match instruction_code i with
  | WRITE => spaced name (spaced a v)
  | READ => spaced name (spaced a (pretty (operand_numeric2 i)))
  | GOTO => spaced name a
  | IO | INIT_PROC => spaced name (spaced v a)
  | _ => name
  end.

(** The operands an instruction has, and no others. *)
Definition instruction_ok (i : t_instruction) : Prop :=
  match instruction_code i with
  | WRITE | IO | INIT_PROC =>
      in_i32 (operand_numeric1 i) ∧ operand_numeric2 i = 0%Z ∧
      ∃ v, operand_string i = Some v ∧ word v ∧ operand_string_size i = strlen v
  | READ => in_i32 (operand_numeric1 i) ∧ in_i32 (operand_numeric2 i) ∧
      operand_string i = None ∧ operand_string_size i = 0%Z
  | GOTO => in_i32 (operand_numeric1 i) ∧ operand_numeric2 i = 0%Z ∧
      operand_string i = None ∧ operand_string_size i = 0%Z
  | NOOP | DUMP_MEMORY | EXIT => operand_numeric1 i = 0%Z ∧ operand_numeric2 i = 0%Z ∧
      operand_string i = None ∧ operand_string_size i = 0%Z
  | UNKNOWN => False
  end.

Lemma name_word c : word (instruction_code_to_string c).
Proof. destruct c; by vm_compute. Qed.

Lemma operand_next s rest : word s → operand (spaced s rest) = Ok (s, rest).
Proof. intros Hs. unfold operand, spaced. by run (by apply next_token_word). Qed.

Lemma operand_last s : word s → operand s = Ok (s, EmptyString).
Proof. intros Hs. unfold operand. by run (by apply next_token_last). Qed.

Lemma numeric_next z rest : in_i32 z → numeric (spaced (pretty z) rest) = Ok (z, rest).
Proof.
  intros Hz. unfold numeric. run (apply operand_next, pretty_word). by rewrite atoi_pretty.
Qed.

Lemma numeric_last z : in_i32 z → numeric (pretty z) = Ok (z, EmptyString).
Proof.
  intros Hz. unfold numeric. run (apply operand_last, pretty_word). by rewrite atoi_pretty.
Qed.

Lemma parse_print i : instruction_ok i → parse_instruction (print_instruction i) = Ok i.
Proof.
  destruct i as [c a b n s]. unfold parse_instruction, parse_line, print_instruction, instruction_ok.
  cbn [instruction_code operand_numeric1 operand_numeric2 operand_string operand_string_size].
  pose proof (string_to_instruction_code_to_string c) as Hname. pose proof (name_word c) as Hw.
  destruct c; try (intros (-> & -> & -> & ->); run (by apply next_token_last); by rewrite Hname); [..|done].
  all: try (intros (Ha & -> & v & -> & Hv & ->)); try (intros (Ha & Hb & -> & ->)).
  all: run (by apply next_token_word); rewrite Hname; cbn [default].
  - by run (by apply numeric_next); run (by apply operand_last).
  - by run (by apply numeric_next); run (by apply numeric_last).
  - rewrite Hb. by run (by apply numeric_last).
  - by run (by apply operand_next); run (by apply numeric_last).
  - by run (by apply operand_next); run (by apply numeric_last).
Qed.

(** A line of a script, sent by memory, executed by the CPU. *)
Lemma decode_delivered i :
  instruction_ok i → fits (print_instruction i) →
  ∃ p, create_instruction_package (print_instruction i) = Ok p ∧
    (∀ rest, recv_package (serialize_package p ++ rest) = Ok (Some p, rest)) ∧ decode p = Ok i.
Proof.
  intros Hi Hf. destruct (instruction_delivers _ Hf) as (p & Hp & _ & Hread & Hrecv).
  exists p. split_and!; [done..|]. unfold decode. rewrite Hread. by apply parse_print.
Qed.
