(* ===== verification/ExecutionFacts.v ===== *)
(** * The instruction cycle, proved

    Where the program counter goes, what a system call tells the kernel,
    and how the interrupt list is emptied. *)
From S2P Require Import Prelude Commons Enums Buffer Package Packages Roundtrip Config Mmu Cache.
From S2P Require Import Execution.
From Stdlib Require Import Strings.Byte.
Import Buffer Package InstructionCode.

Section Execution.
Context {C : CommonsOps} {CL : CommonsLaws C} {Srv : Type} {MS : MemoryServer Srv}.
Context (g_mmu_config : MMUConfig) (g_tlb_config : TLBConfig) (g_cache_config : CacheConfig).
Local Abbreviation Cpu := (M (t_cpu Srv)).

(** ** The context of the process on the CPU *)
Definition context (c : t_cpu Srv) : Z * Z := (cpu_pid c, cpu_pc c).

(** A step that leaves the context alone. *)
Definition keeps_context {A} (o : Cpu A) : Prop :=
  ∀ c a c', o c = Ok (a, c') → context c' = context c.

Lemma keeps_context_bind {A B} (o : Cpu A) (f : A → Cpu B) :
  keeps_context o → (∀ a, keeps_context (f a)) → keeps_context (o ≫= f).
Proof.
  intros Ho Hf c b c' H. bind_inv H. apply Ho in E. apply Hf in H. congruence.
Qed.

Lemma keeps_context_ret {A} (a : A) : keeps_context (mret a).
Proof. by intros c b c' [= _ ->]. Qed.

Lemma keeps_context_gets {A} (f : t_cpu Srv → A) : keeps_context (gets f).
Proof. by intros c b c' [= _ ->]. Qed.

Lemma keeps_context_lift {A} (r : res A) : keeps_context (lift_res r).
Proof. intros c b c' H. unfold lift_res in H. destruct r; [by injection H as _ ->|done]. Qed.

Lemma keeps_context_deref {A} (o : option A) : keeps_context (deref o).
Proof. intros c b c' H. destruct o; [by injection H as _ ->|done]. Qed.

Lemma keeps_context_crash {A} (x : crash) : keeps_context (crash_with x : Cpu A).
Proof. by intros c b c' H. Qed.

Lemma keeps_context_mmu {A} (o : M (t_mmu Srv) A) : keeps_context (on_mmu o).
Proof. intros c b c' H. unfold on_mmu, zoom in H. destruct (o _) as [[]|]; [by injection H as _ <-|done]. Qed.

Lemma keeps_context_int_div a b : keeps_context (int_div a b).
Proof. intros c x c' H. unfold int_div in H. case_decide; [done|]. by injection H as _ ->. Qed.

Lemma keeps_context_int_mod a b : keeps_context (int_mod a b).
Proof. intros c x c' H. unfold int_mod in H. case_decide; [done|]. by injection H as _ ->. Qed.

Lemma keeps_context_send r : keeps_context (send_dispatch r).
Proof.
  apply keeps_context_bind; [apply keeps_context_lift|]. intros p c b c' [= _ <-]. done.
Qed.

Lemma keeps_context_recv : keeps_context (recv_dispatch_package (Srv := Srv)).
Proof.
  apply keeps_context_bind; [|intros; apply keeps_context_deref].
  intros c b c' H. unfold zoom in H. destruct (recv_package _) as [[]|]; [by injection H as _ <-|done].
Qed.
End Execution.

#[export] Hint Resolve keeps_context_ret keeps_context_gets keeps_context_lift keeps_context_deref
  keeps_context_crash keeps_context_mmu keeps_context_int_div keeps_context_int_mod keeps_context_send
  keeps_context_recv : monad.

Ltac keep_context :=
  repeat first [ solve [auto with monad] | apply keeps_context_bind; [|intros ?] | case_decide
               | match goal with |- keeps_context (match ?x with _ => _ end) => destruct x end ].

Section Progress.
Context {C : CommonsOps} {CL : CommonsLaws C} {Srv : Type} {MS : MemoryServer Srv}.
Context (g_mmu_config : MMUConfig) (g_tlb_config : TLBConfig) (g_cache_config : CacheConfig).
Local Abbreviation Cpu := (M (t_cpu Srv)).

(** The step advances the program counter, or leaves it. *)
Definition advances {A} (o : Cpu A) : Prop :=
  ∀ c a c', o c = Ok (a, c') → context c' = (cpu_pid c, i32 (cpu_pc c + 1)).

Definition may_advance (o : Cpu bool) : Prop :=
  ∀ c b c', o c = Ok (b, c') →
    b = false ∧ (context c' = context c ∨ context c' = (cpu_pid c, i32 (cpu_pc c + 1))).

Lemma advances_next_pc : advances (next_pc (Srv := Srv)).
Proof. by intros c a c' [= _ <-]. Qed.

Lemma advances_first {A B} (o : Cpu A) (f : A → Cpu B) :
  advances o → (∀ a, keeps_context (f a)) → advances (o ≫= f).
Proof. intros Ho Hf c b c' H. bind_inv H. apply Ho in E. apply Hf in H. congruence. Qed.

Lemma may_advance_bind {A} (o : Cpu A) (f : A → Cpu bool) :
  keeps_context o → (∀ a, may_advance (f a)) → may_advance (o ≫= f).
Proof.
  intros Ho Hf c b c' H. bind_inv H. apply Ho in E. apply Hf in H as [? H]. split; [done|].
  unfold context in *. injection E as E1 E2. by rewrite E1, E2 in H.
Qed.

Lemma may_advance_stop : may_advance (mret false).
Proof. by intros c b c' [= <- <-]; auto. Qed.

Lemma may_advance_next : may_advance (next_pc;; mret false).
Proof. by intros c b c' [= <- <-]; auto. Qed.

Lemma may_advance_crash x : may_advance (crash_with x).
Proof. by intros c b c' H. Qed.

Local Ltac may :=
  repeat first [ apply may_advance_next | apply may_advance_stop | apply may_advance_crash
               | apply may_advance_bind; [by keep_context|intros ?] | case_decide
               | match goal with |- may_advance (match ?x with _ => _ end) => destruct x end ].

Lemma keeps_context_add_read x : keeps_context (modify (add_read (S := Srv) x)).
Proof. by intros c b c' [= _ <-]. Qed.

Lemma keeps_context_address l : keeps_context (uncached_address g_mmu_config g_tlb_config l).
Proof. unfold uncached_address. keep_context. Qed.

Lemma keeps_context_write_cached i o s v : keeps_context (write_cached (Srv := Srv) i o s v).
Proof. unfold write_cached. keep_context. Qed.

Lemma keeps_context_claim i p o s q : keeps_context (claim_entry (Srv := Srv) g_mmu_config i p o s q).
Proof. unfold claim_entry. keep_context. Qed.

#[local] Hint Resolve keeps_context_add_read keeps_context_address keeps_context_write_cached
  keeps_context_claim : monad.

Lemma exec_write_advances i :
  may_advance (exec_write g_mmu_config g_tlb_config g_cache_config i).
Proof. unfold exec_write, exec_write_cached, exec_write_uncached. may. Qed.

Lemma exec_read_advances i :
  may_advance (exec_read g_mmu_config g_tlb_config g_cache_config i).
Proof. unfold exec_read, exec_read_cached, exec_read_uncached. may. Qed.

Lemma send_syscall_keeps t p : keeps_context (send_syscall (Srv := Srv) t p).
Proof. unfold send_syscall. keep_context. Qed.

#[local] Hint Resolve send_syscall_keeps : monad.

(** Where an instruction leaves the program counter. *)
Definition next_context (i : t_instruction) (c c' : t_cpu Srv) : Prop :=
  match instruction_code i with
  | GOTO => context c' = (cpu_pid c, operand_numeric1 i)
  | UNKNOWN => context c' = context c
  | READ | WRITE => context c' = context c ∨ context c' = (cpu_pid c, i32 (cpu_pc c + 1))
  | _ => context c' = (cpu_pid c, i32 (cpu_pc c + 1))
  end.

(** Whether it gives the CPU back. *)
Definition yields (i : t_instruction) : option bool :=
  match instruction_code i with
  | IO | DUMP_MEMORY | EXIT => Some true
  | INIT_PROC => None
  | _ => Some false
  end.

Lemma execution_context i c b c' :
  execution g_mmu_config g_tlb_config g_cache_config i c = Ok (b, c') →
  next_context i c c' ∧ (∀ y, yields i = Some y → b = y).
Proof.
  unfold execution, next_context, yields. intros H.
  destruct (instruction_code i) eqn:Hc.
  - injection H as <- <-. by split; [|intros ? [= <-]].
  - apply exec_write_advances in H as [-> H]. split; [done|]. by intros ? [= <-].
  - apply exec_read_advances in H as [-> H]. split; [done|]. by intros ? [= <-].
  - injection H as <- <-. by split; [|intros ? [= <-]].
  - unfold exec_io in H. split.
    + revert H. apply advances_first; [apply advances_next_pc | intros _; keep_context].
    + bind_inv H. bind_inv H. bind_inv H. injection H as <- <-. by intros ? [= <-].
  - split; [|done]. unfold exec_init_proc in H. revert H.
    apply advances_first; [|intros _; unfold await_confirmation; keep_context].
    apply advances_first; [apply advances_next_pc | intros _; keep_context].
  - unfold exec_dump_memory in H. split.
    + revert H. apply advances_first; [apply advances_next_pc | intros _; keep_context].
    + bind_inv H. bind_inv H. injection H as <- <-. by intros ? [= <-].
  - unfold exec_exit in H. split.
    + revert H. apply advances_first; [apply advances_next_pc | intros _; keep_context].
    + bind_inv H. bind_inv H. injection H as <- <-. by intros ? [= <-].
  - injection H as <- <-. by split; [|intros ? [= <-]].
Qed.
End Progress.

(** ** Interrupts *)
Section Interrupts.
Context {C : CommonsOps} {CL : CommonsLaws C} {Srv : Type} {MS : MemoryServer Srv}.
Context (g_mmu_config : MMUConfig) (g_tlb_config : TLBConfig) (g_cache_config : CacheConfig).
Local Abbreviation Cpu := (M (t_cpu Srv)).
Local Abbreviation answer := (check_interrupt g_mmu_config g_tlb_config g_cache_config).

(** Nothing that answering an interrupt does depends on the list. *)
Definition ignores_interrupts {A} (o : Cpu A) : Prop :=
  ∀ c l, o (set_interrupts l c)
    = match o c with Ok (a, c') => Ok (a, set_interrupts l c') | Crash x => Crash x end.

Lemma ignores_bind {A B} (o : Cpu A) (f : A → Cpu B) :
  ignores_interrupts o → (∀ a, ignores_interrupts (f a)) → ignores_interrupts (o ≫= f).
Proof.
  intros Ho Hf c l. unfold mbind, M_bind. rewrite Ho. destruct (o c) as [[a c']|]; [apply Hf | done].
Qed.

Lemma ignores_lift {A} (r : res A) : ignores_interrupts (lift_res r).
Proof. intros c l. unfold lift_res. by destruct r. Qed.

Lemma ignores_mmu {A} (o : M (t_mmu Srv) A) : ignores_interrupts (on_mmu o).
Proof. intros c l. unfold on_mmu, zoom. cbn [cpu_mmu set_interrupts]. by destruct (o (cpu_mmu c)) as [[]|]. Qed.

Lemma ignores_send r : ignores_interrupts (send_interrupt (Srv := Srv) r).
Proof. apply ignores_bind; [apply ignores_lift|]. by intros p c l. Qed.

Lemma ignores_answer p : ignores_interrupts (answer p).
Proof.
  unfold check_interrupt. destruct (opcode_is _ _); [|by intros c l].
  apply ignores_bind; [apply ignores_lift|]. intros x.
  apply ignores_bind; [by intros c l|]. intros y. apply ignores_bind; [by intros c l|]. intros z.
  case_decide; [|apply ignores_send]. apply ignores_bind; [apply ignores_send|].
  intros []. apply ignores_mmu.
Qed.

Lemma answer_list p c u c' : answer p c = Ok (u, c') → interrupt_list c' = interrupt_list c.
Proof.
  intros H. pose proof (ignores_answer p c (interrupt_list c)) as Hi.
  assert (set_interrupts (interrupt_list c) c = c) as E by (by destruct c).
  rewrite E, H in Hi. injection Hi as Hc. rewrite Hc. done.
Qed.

(** Last in, first out. *)
Lemma last_interrupt l x (c : t_cpu Srv) :
  interrupt_list c = l ++ [x] →
  get_last_interrupt (zlen (interrupt_list c)) c = Ok (Some x, set_interrupts l c).
Proof.
  intros Hl. unfold get_last_interrupt. run done. rewrite list_size_spec.
  assert (zlen (interrupt_list c) = zlen l + 1)%Z as Hz by (rewrite Hl, zlen_app; done).
  pose proof (zlen_nonneg l). rewrite decide_True by lia.
  rewrite list_remove_spec by lia. rewrite Hz, Hl. replace (zlen l + 1 - 1)%Z with (zlen l) by lia.
  rewrite decide_True by done. run done. unfold zlen. rewrite znth_nat, Nat2Z.id.
  rewrite list_lookup_middle, delete_middle, app_nil_r by done. done.
Qed.

Lemma set_interrupts_twice l l' (c : t_cpu Srv) :
  set_interrupts l (set_interrupts l' c) = set_interrupts l c.
Proof. done. Qed.

Lemma handle_interrupts_ok fuel b c :
  length (interrupt_list c) <= fuel →
  handle_interrupts g_mmu_config g_tlb_config g_cache_config fuel b c
  = (for_each (reverse (interrupt_list c)) answer;;
     mret (b || bool_decide (interrupt_list c ≠ []))) (set_interrupts [] c).
Proof.
  revert fuel b c.
  assert (∀ l fuel b c, interrupt_list c = l → length l <= fuel →
    handle_interrupts g_mmu_config g_tlb_config g_cache_config fuel b c
    = (for_each (reverse l) answer;; mret (b || bool_decide (l ≠ []))) (set_interrupts [] c)) as H.
  2:{ intros fuel b c Hf. by apply H. }
  induction l as [|x l IH] using rev_ind; intros fuel b c Hl Hf.
  - assert (set_interrupts [] c = c) as -> by (destruct c; cbn in *; by subst).
    rewrite orb_false_r.
    assert (∀ fuel, handle_interrupts g_mmu_config g_tlb_config g_cache_config fuel b c = Ok (b, c)) as ->; [|done].
    intros [|k]; cbn [handle_interrupts]; run done; rewrite list_size_spec, Hl; done.
  - destruct fuel as [|fuel]; [rewrite length_app in Hf; cbn in Hf; lia|].
    cbn [handle_interrupts]. run done. rewrite list_size_spec.
    assert (zlen (interrupt_list c) = zlen l + 1)%Z as Hz by (rewrite Hl, zlen_app; done).
    pose proof (zlen_nonneg l). rewrite decide_True by lia.
    run (by apply last_interrupt). run done.
    rewrite reverse_snoc. cbn [for_each]. rewrite (bool_decide_true (l ++ [x] ≠ [])) by (by destruct l).
    rewrite orb_true_r. rewrite <- (set_interrupts_twice [] l c).
    unfold mbind at 1 2 3, M_bind at 1 2 3. rewrite (ignores_answer x (set_interrupts l c) []).
    destruct (answer x (set_interrupts l c)) as [[u c1]|] eqn:Ha; [|done].
    apply answer_list in Ha. cbn [interrupt_list set_interrupts] in Ha.
    rewrite (IH fuel true c1 Ha) by (rewrite length_app in Hf; cbn in Hf; lia). done.
Qed.

Lemma interrupt_handler_ok c :
  interrupt_handler g_mmu_config g_tlb_config g_cache_config c
  = (for_each (reverse (interrupt_list c)) answer;;
     mret (bool_decide (interrupt_list c ≠ []))) (set_interrupts [] c).
Proof. unfold interrupt_handler. run done. by apply handle_interrupts_ok. Qed.

(** The answer to an interrupt for another process, and for the running
    one. *)
Lemma answer_other x c p :
  create_interrupt_package x = Ok p → in_i32 x → in_i32 (cpu_pc c) → x ≠ cpu_pid c →
  ∃ reply, create_cpu_context_package x (cpu_pc c) 1 = Ok reply ∧
    answer p c = Ok (tt, set_interrupt_out (send_package (interrupt_out c) reply) c).
Proof.
  intros Hp Hx Hpc Hne. destruct (interrupt_delivers x Hx) as (p' & Hp' & Hop & Hread & _).
  rewrite Hp in Hp'. injection Hp' as <-.
  destruct (cpu_context_delivers x (cpu_pc c) Hx Hpc 1 ltac:(done)) as (reply & Hreply & _).
  exists reply. split; [done|]. unfold check_interrupt, opcode_is. rewrite bool_decide_true by done.
  run (unfold lift_res; by rewrite Hread). run done. run done. rewrite decide_False by done.
  unfold send_interrupt. run (unfold lift_res; by rewrite Hreply). done.
Qed.

Lemma answer_running c p :
  create_interrupt_package (cpu_pid c) = Ok p → in_i32 (cpu_pid c) → in_i32 (cpu_pc c) →
  ∃ reply, create_cpu_context_package (cpu_pid c) (cpu_pc c) 0 = Ok reply ∧
    answer p c
    = on_mmu (mmu_process_cleanup g_mmu_config g_tlb_config g_cache_config)
        (set_interrupt_out (send_package (interrupt_out c) reply) c).
Proof.
  intros Hp Hx Hpc. destruct (interrupt_delivers (cpu_pid c) Hx) as (p' & Hp' & Hop & Hread & _).
  rewrite Hp in Hp'. injection Hp' as <-.
  destruct (cpu_context_delivers (cpu_pid c) (cpu_pc c) Hx Hpc 0 ltac:(done)) as (reply & Hreply & _).
  exists reply. split; [done|]. unfold check_interrupt, opcode_is. rewrite bool_decide_true by done.
  run (unfold lift_res; by rewrite Hread). run done. run done. rewrite decide_True by done.
  unfold send_interrupt. by run (run (unfold lift_res; by rewrite Hreply); done).
Qed.
End Interrupts.
