(* ===== verification/CacheMemory.v ===== *)
(** * What the cache does to memory

    The modified range of a page, the write-back of that range over the
    connection, and the clean-up that ends a process's turn. *)
From S2P Require Import Prelude Commons Enums Buffer Package Packages Roundtrip Config Semaphores.
From S2P Require Import Bitmap Storage PageTable PageTableFacts Memoria MemoriaFacts SwapFacts.
From S2P Require Import Invariant Mmu MmuFacts Server Cache CacheFacts Execution DataServer.
From Stdlib Require Import Strings.Byte.
Import Buffer Package UserSpace.

(** ** Cached writes *)
Section Writes.
Context {C : CommonsOps} {CL : CommonsLaws C} {Srv : Type}.
Context (ps : Z).

(** A cached page: as long as a page, its range inside it. *)
Record entry_ok (e : CacheEntry) : Prop := {
  whole_page : zlen (content e) = ps;
  range_ok : modified_bit e = true → (0 <= modified_start e <= modified_end e ∧ modified_end e <= ps)%Z }.

Definition inside (offset size : Z) : Prop := (0 <= offset ∧ 0 <= size ∧ offset + size <= ps)%Z.

(** The entry after [data] was written at [offset]. *)
Definition written (offset : Z) (data : list byte) (e : CacheEntry) : CacheEntry :=
  let e := extend_range offset (zlen data) e in
  with_modified true (with_content (splice (Z.to_nat offset) data (content e)) e).

(** The bytes that a write-back would send. *)
Definition dirty (e : CacheEntry) : list byte :=
  slice (Z.to_nat (modified_start e)) (Z.to_nat (modified_end e - modified_start e)) (content e).

Lemma content_extend o s e : content (extend_range o s e) = content e.
Proof. unfold extend_range. by destruct (modified_bit e). Qed.

Lemma written_content o data e : content (written o data e) = splice (Z.to_nat o) data (content e).
Proof. unfold written. cbn [content with_modified with_content]. by rewrite content_extend. Qed.

Context (Hps : (ps < 2147483648)%Z).

(** The range covers the bytes written, and those of earlier writes. *)
Lemma written_range o data e :
  entry_ok e → inside o (zlen data) →
  (modified_start (written o data e), modified_end (written o data e))
  = if modified_bit e then (Z.min o (modified_start e), Z.max (o + zlen data) (modified_end e))
    else (o, (o + zlen data)%Z).
Proof.
  intros He (Ho & Hs & Hi). pose proof (range_ok _ He) as Hr. unfold written, extend_range.
  destruct (modified_bit e); cbn; rewrite i32_id by (unfold in_i32; lia); [|done].
  specialize (Hr eq_refl). do 2 case_decide; f_equal; lia.
Qed.

Lemma written_ok o data e :
  entry_ok e → inside o (zlen data) → entry_ok (written o data e) ∧ modified_bit (written o data e) = true.
Proof.
  intros He Hi. pose proof (written_range o data e He Hi) as Hr. destruct He as [Hl Hm].
  destruct Hi as (Ho & Hs & Hi). split; [|done]. constructor.
  - rewrite written_content. unfold zlen in *. rewrite splice_length; lia.
  - intros _. destruct (modified_bit e); apply pair_equal_spec in Hr as [-> ->]; [specialize (Hm eq_refl)|]; lia.
Qed.

Lemma write_cached_ok index o size value (c : t_cpu Srv) e :
  znth (g_cache (cpu_mmu c)) index = Some e → entry_ok e → inside o size → (size <= zlen value)%Z →
  write_cached index o size value c
  = Ok (tt, set_mmu (put_entry index (written o (take (Z.to_nat size) value) e) (cpu_mmu c)) c).
Proof.
  intros He [Hl _] (Ho & Hs & Hi) Hv. unfold write_cached.
  run (unfold on_mmu, zoom; by rewrite (load_entry_ok _ _ _ He)).
  rewrite content_extend, Hl, decide_True by lia.
  unfold on_mmu, zoom, store_entry. step.
  assert (zlen (take (Z.to_nat size) value) = size) as Hz by (unfold zlen in *; rewrite length_take; lia).
  unfold written. rewrite Hz, content_extend. by destruct c.
Qed.

(** A READ of the same bytes finds them in the page. *)
Lemma written_read o data e :
  entry_ok e → inside o (zlen data) →
  slice (Z.to_nat o) (length data) (content (written o data e)) = data.
Proof.
  intros [Hl _] (Ho & Hs & Hi). rewrite written_content. unfold zlen in *. apply slice_splice_eq. lia.
Qed.

(** Bytes of the page that were not written. *)
Lemma written_read_ne o data e o' size :
  entry_ok e → inside o (zlen data) → (0 <= o')%Z → (0 <= size)%Z →
  (o' + size <= o ∨ o + zlen data <= o')%Z →
  slice (Z.to_nat o') (Z.to_nat size) (content (written o data e))
  = slice (Z.to_nat o') (Z.to_nat size) (content e).
Proof.
  intros [Hl _] (Ho & Hs & Hi) Ho' Hs' Hd. rewrite written_content. unfold zlen in *.
  apply slice_splice_ne; lia.
Qed.
End Writes.

(** ** A miss *)
Section Claims.
Context {C : CommonsOps} {CL : CommonsLaws C} {Srv : Type}.
Context (g_mmu_config : MMUConfig).
Local Abbreviation ps := (mmu_page_size g_mmu_config).
Context (Hps : (0 <= ps < 2147483648)%Z).

(** The victim after a WRITE of [size] bytes at [offset] took it over. *)
Definition claimed (page offset size pid : Z) (e : CacheEntry) : CacheEntry :=
  with_content (zeroed g_mmu_config)
    (with_range offset (i32 (offset + size)) (with_use true (with_owner page pid (with_valid true e)))).

Lemma claim_entry_ok index page offset size pid (c : t_cpu Srv) e :
  znth (g_cache (cpu_mmu c)) index = Some e →
  claim_entry g_mmu_config index page offset size pid c
  = Ok (tt, set_mmu (put_entry index (claimed page offset size pid e) (cpu_mmu c)) c).
Proof.
  intros He. unfold claim_entry. run (unfold on_mmu, zoom; by rewrite (load_entry_ok _ _ _ He)).
  unfold on_mmu, zoom, store_entry. step. by destruct c.
Qed.

Lemma claimed_ok page offset size pid e :
  inside ps offset size → entry_ok ps (claimed page offset size pid e).
Proof.
  intros (Ho & Hs & Hi). constructor; cbn.
  - unfold zeroed, zlen. rewrite length_replicate. lia.
  - intros _. rewrite i32_id by (unfold in_i32; lia). lia.
Qed.

Lemma put_entry_znth (s : t_mmu Srv) i e e' :
  znth (g_cache s) i = Some e → znth (g_cache (put_entry i e' s)) i = Some e'.
Proof. intros He%znth_Some_range. cbn. by apply znth_zset_eq. Qed.

Lemma put_entry_twice (s : t_mmu Srv) i e e' : put_entry i e' (put_entry i e s) = put_entry i e' s.
Proof.
  unfold put_entry. cbn. unfold set_cache. cbn. f_equal. unfold zset. case_decide; [|done].
  apply list_insert_insert_eq.
Qed.

(** The first write to a page that was not in the cache. *)
Lemma write_miss_ok index page o pid value size (c : t_cpu Srv) e :
  znth (g_cache (cpu_mmu c)) index = Some e → inside ps o size → (size <= zlen value)%Z →
  let data := take (Z.to_nat size) value in
  let e1 := written o data (claimed page o size pid e) in
  (claim_entry g_mmu_config index page o size pid;; write_cached index o size value) c
    = Ok (tt, set_mmu (put_entry index e1 (cpu_mmu c)) c) ∧
  entry_ok ps e1 ∧ modified_bit e1 = true ∧ modified_start e1 = o ∧ modified_end e1 = (o + size)%Z ∧
  content e1 = splice (Z.to_nat o) data (zeroed g_mmu_config).
Proof.
  intros He Hin Hv data e1. pose proof Hin as (Ho & Hs & Hi).
  assert (zlen data = size) as Hz by (unfold data, zlen in *; rewrite length_take; lia).
  assert (inside ps o (zlen data)) as Hin' by (by rewrite Hz).
  pose proof (claimed_ok page o size pid e Hin) as Hok.
  destruct (written_ok ps ltac:(lia) o data _ Hok Hin') as [Hok1 Hm1].
  pose proof (written_range ps ltac:(lia) o data _ Hok Hin') as Hr. fold e1 in Hok1, Hm1, Hr. rewrite Hz in Hr.
  split_and!; try done.
  - run (by apply claim_entry_ok).
    rewrite (write_cached_ok ps index o size value _ (claimed page o size pid e)); try done.
    + cbn [cpu_mmu set_mmu]. by rewrite put_entry_twice.
    + by eapply put_entry_znth.
  - apply (f_equal fst) in Hr. cbn [fst] in Hr. rewrite Hr.
    change (modified_start (claimed page o size pid e)) with o. destruct (modified_bit (claimed page o size pid e)); cbn [fst snd]; lia.
  - apply (f_equal snd) in Hr. cbn [snd] in Hr. rewrite Hr.
    change (modified_end (claimed page o size pid e)) with (i32 (o + size)).
    rewrite i32_id by (unfold in_i32; lia). destruct (modified_bit (claimed page o size pid e)); cbn [fst snd]; lia.
  - unfold e1. by rewrite written_content.
Qed.

(** Two writes with a gap between them: the range spans the gap, which
    holds the zeros of the claim, and not what memory holds there. *)
Lemma write_gap index page o1 o2 pid v1 v2 s1 s2 (c : t_cpu Srv) e :
  znth (g_cache (cpu_mmu c)) index = Some e →
  inside ps o1 s1 → inside ps o2 s2 → (s1 <= zlen v1)%Z → (s2 <= zlen v2)%Z → (o1 + s1 <= o2)%Z →
  ∃ e2, (claim_entry g_mmu_config index page o1 s1 pid;; write_cached index o1 s1 v1;;
         write_cached index o2 s2 v2) c
      = Ok (tt, set_mmu (put_entry index e2 (cpu_mmu c)) c) ∧
    modified_bit e2 = true ∧ modified_start e2 = o1 ∧ modified_end e2 = (o2 + s2)%Z ∧
    slice (Z.to_nat (o1 + s1)) (Z.to_nat (o2 - (o1 + s1))) (content e2)
      = replicate (Z.to_nat (o2 - (o1 + s1))) x00.
Proof.
  intros He Hin1 Hin2 Hv1 Hv2 Hgap. pose proof Hin1 as (Ho1 & Hs1 & Hi1). pose proof Hin2 as (Ho2 & Hs2 & Hi2).
  destruct (write_miss_ok index page o1 pid v1 s1 c e He Hin1 Hv1) as (Hrun & Hok & Hm & Hst & Hen & Hct).
  set (e1 := written o1 _ _) in *. set (d2 := take (Z.to_nat s2) v2).
  assert (zlen d2 = s2) as Hz by (unfold d2, zlen in *; rewrite length_take; lia).
  assert (inside ps o2 (zlen d2)) as Hin2' by (by rewrite Hz).
  exists (written o2 d2 e1). split_and!.
  - bind_inv Hrun. run (exact E). run (exact Hrun).
    rewrite (write_cached_ok ps index o2 s2 v2 _ e1); try done.
    + cbn [cpu_mmu set_mmu]. rewrite put_entry_twice. done.
    + by eapply put_entry_znth.
  - done.
  - pose proof (written_range ps ltac:(lia) o2 d2 e1 Hok Hin2') as Hr.
    apply (f_equal fst) in Hr. cbn [fst] in Hr. rewrite Hr, Hm, Hst. cbn [fst]. lia.
  - pose proof (written_range ps ltac:(lia) o2 d2 e1 Hok Hin2') as Hr.
    apply (f_equal snd) in Hr. cbn [snd] in Hr. rewrite Hr, Hm, Hen, Hz. cbn [snd]. lia.
  - rewrite (written_read_ne ps o2 d2 e1 (o1 + s1)) by (try done; lia).
    rewrite Hct.
    assert (length (zeroed g_mmu_config) = Z.to_nat ps) as Hl by (unfold zeroed; by rewrite length_replicate).
    rewrite slice_splice_ne by (rewrite ?Hl; rewrite ?length_take; lia).
    unfold slice, zeroed. rewrite drop_replicate, take_replicate. f_equal. lia.
Qed.
End Claims.

(** ** Write-back *)
Section WriteBack.
Context {C : CommonsOps} {CL : CommonsLaws C} (config : t_memoria_config) (fs : t_file_system).
Context (d : nat) (Hcfg : config_ok config d).
Context (g_tlb_config : TLBConfig) (Hcount : (0 <= tlb_entry_count g_tlb_config)%Z).
Local Abbreviation ps := (TAM_PAGINA config).
Local Abbreviation E := (ENTRADAS_POR_TABLA config).
#[local] Instance served' : MemoryServer t_memoria := memoria_serve config fs.
#[local] Instance pages_served' : PageServer (MS := served') t_memoria E d :=
  memoria_pages config fs d Hcfg.
Local Abbreviation mmu_config := (mmu_config_of config).
Context (Hsmall : (ps < 2147483000)%Z).

Lemma dirty_zlen e : entry_ok ps e → modified_bit e = true → zlen (dirty e) = (modified_end e - modified_start e)%Z.
Proof.
  intros [Hl Hr] Hm. specialize (Hr Hm). unfold dirty, zlen in *. rewrite slice_length; lia.
Qed.

(** The modified range of an entry replaces that range of its frame. *)
Lemma write_back_ok s a e :
  mem_ready config (memory s) → entry_ok ps e → modified_bit e = true →
  (modified_start e < modified_end e)%Z → (0 <= a)%Z → (a + ps <= user_space_size (space (memory s)))%Z →
  write_back a e s
  = Ok (tt, set_memory (stored_to (a + modified_start e) (dirty e) (memory s)) s).
Proof.
  intros Hm He Hmod Hlt Ha Hfit. pose proof (range_ok _ _ He Hmod) as Hr.
  pose proof (dirty_zlen e He Hmod) as Hz.
  destruct (space_ok _ _ (proj1 Hm)) as [Hus Hui]. unfold in_i32 in Hui.
  unfold write_back. rewrite decide_True by done.
  rewrite !i32_id by (unfold in_i32; lia).
  rewrite decide_True by (rewrite (whole_page _ _ He); lia).
  destruct (send_write_ok config fs s (a + modified_start e) (dirty e)
    (drop (Z.to_nat (modified_start e)) (content e)) (modified_end e - modified_start e))
    as (reply & Hsend & Hop & Hread); try done; try lia.
  - unfold in_i32. lia.
  - unfold addressable. lia.
  - pose proof (whole_page _ _ He). unfold zlen in *. rewrite length_drop. lia.
  - run (exact Hsend). rewrite Hop. run (unfold lift_res; by rewrite Hread). done.
Qed.

(** [_writeback_if_dirty] of a modified page in frame [fr page]. *)
Lemma writeback_if_dirty_ok s i e fr :
  ready mmu_config g_tlb_config d s → memoria_maps config d (memory s) (cache_pid e) fr →
  znth (g_cache s) i = Some e → is_valid e = true → modified_bit e = true → entry_ok ps e →
  (modified_start e < modified_end e)%Z →
  (0 <= cache_page e < pages E d)%Z → frame_in config (space (memory s)) (fr (cache_page e)) →
  ∃ s', writeback_if_dirty mmu_config g_tlb_config i s = Ok (tt, s') ∧
    space (memory s') = with_bytes (space (memory s))
      (fr (cache_page e) * ps + modified_start e) (dirty e) ∧
    g_cache s' = zset (g_cache s) i (with_range 0 0 (with_modified false (with_valid false e))) ∧
    ready mmu_config g_tlb_config d s'.
Proof.
  intros Hr Hm He Hv Hmod Hok Hlt Hp Hf. pose proof (page_positive config d Hcfg) as Hps.
  destruct (frame_of_page_ok (PS := pages_served') mmu_config g_tlb_config d Hcount
    (entries_pos _ _ Hcfg) (levels _ _ Hcfg) (pages_small _ _ Hcfg) s (cache_page e) (cache_pid e) fr Hr Hm Hp)
    as (s1 & Hf1 & Hr1 & Hk & Hc1 & _).
  pose proof Hk as (Hmaps & Hsp & _). apply Hmaps in Hm. pose proof (space_ok _ _ (proj1 (proj1 Hm))) as [Hus Hui].
  rewrite <- Hsp in Hf. destruct Hf as [Hf0 Hf2]. unfold in_i32 in Hui.
  set (s2 := set_memory (stored_to (fr (cache_page e) * ps + modified_start e) (dirty e) (memory s1)) s1).
  exists (put_entry i (with_range 0 0 (with_modified false (with_valid false e))) s2).
  pose proof (range_ok _ _ Hok Hmod) as Hrange. pose proof (dirty_zlen e Hok Hmod) as Hz.
  split_and!.
  - unfold writeback_if_dirty. run (by apply load_entry_ok). rewrite Hv, Hmod. cbn [andb].
    assert (mmu_translate_address_with_page_number mmu_config g_tlb_config (cache_page e) (cache_pid e) s
            = Ok ((fr (cache_page e) * ps)%Z, s1)) as Ht.
    { unfold mmu_translate_address_with_page_number. run (exact Hf1).
      rewrite i32_id by (unfold in_i32; cbn; nia). done. }
    run (run (exact Ht); apply write_back_ok; [apply Hm | done | done | done | nia | nia]).
    done.
  - cbn. by rewrite Hsp.
  - cbn. by rewrite Hc1.
  - assert (ready mmu_config g_tlb_config d s2) as [[] Hco].
    { apply ready_stored_to; [done | apply Hm |]. unfold addressable. rewrite Hz. nia. }
    split; [by constructor | exact Hco].
Qed.
End WriteBack.

(** ** The end of a turn *)
Section Cleanup.
Context {C : CommonsOps} {CL : CommonsLaws C} {Srv : Type} {MS : MemoryServer Srv}.
Context (g_mmu_config : MMUConfig) (g_tlb_config : TLBConfig) (g_cache_config : CacheConfig).

Definition flushed (e : CacheEntry) : Prop :=
  is_valid e = false ∧ modified_bit e = false ∧ modified_start e = 0%Z ∧ modified_end e = 0%Z.

(** What a step does not touch: the cache. *)
Definition keeps_cache {A} (o : M (t_mmu Srv) A) : Prop :=
  ∀ s a s', o s = Ok (a, s') → g_cache s' = g_cache s.

Lemma keeps_cache_bind {A B} (o : M (t_mmu Srv) A) (f : A → M (t_mmu Srv) B) :
  keeps_cache o → (∀ a, keeps_cache (f a)) → keeps_cache (o ≫= f).
Proof. intros Ho Hf s b s' H. bind_inv H. apply Ho in E. apply Hf in H. congruence. Qed.

Lemma keeps_cache_ret {A} (a : A) : keeps_cache (mret a).
Proof. by intros s b s' [= _ ->]. Qed.

Lemma keeps_cache_gets {A} (f : t_mmu Srv → A) : keeps_cache (gets f).
Proof. by intros s b s' [= _ ->]. Qed.

Lemma keeps_cache_lift {A} (r : res A) : keeps_cache (lift_res r).
Proof. intros s b s' H. unfold lift_res in H. destruct r; [by injection H as _ ->|done]. Qed.

Lemma keeps_cache_deref {A} (o : option A) : keeps_cache (deref o).
Proof. intros s b s' H. destruct o; [by injection H as _ ->|done]. Qed.

Lemma keeps_cache_crash {A} (x : crash) : keeps_cache (crash_with x : M (t_mmu Srv) A).
Proof. by intros s b s' H. Qed.

Lemma keeps_cache_int_div a b : keeps_cache (int_div a b).
Proof. intros s x s' H. unfold int_div in H. case_decide; [done|]. by injection H as _ ->. Qed.

Lemma keeps_cache_int_mod a b : keeps_cache (int_mod a b).
Proof. intros s x s' H. unfold int_mod in H. case_decide; [done|]. by injection H as _ ->. Qed.

Lemma keeps_cache_tlb l : keeps_cache (modify (set_tlb l)).
Proof. by intros s a s' [= _ <-]. Qed.

Lemma keeps_cache_fifo x : keeps_cache (modify (set_fifo x)).
Proof. by intros s a s' [= _ <-]. Qed.

Lemma keeps_cache_timestamp x : keeps_cache (modify (set_timestamp x)).
Proof. by intros s a s' [= _ <-]. Qed.

Lemma keeps_cache_request r : keeps_cache (request r).
Proof.
  apply keeps_cache_bind; [apply keeps_cache_lift|]. intros p s a s' H. unfold zoom in H.
  destruct (serve p (memory s)) as [[]|]; [by injection H as _ <-|done].
Qed.
End Cleanup.

#[export] Hint Resolve keeps_cache_ret keeps_cache_gets keeps_cache_lift keeps_cache_deref keeps_cache_crash
  keeps_cache_int_div keeps_cache_int_mod keeps_cache_tlb keeps_cache_fifo keeps_cache_timestamp
  keeps_cache_request : monad.

Ltac keep_cache :=
  repeat first [ solve [auto with monad] | apply keeps_cache_bind; [|intros ?] | case_decide
               | match goal with |- keeps_cache (match ?x with _ => _ end) => destruct x end ].

Section Flush.
Context {C : CommonsOps} {CL : CommonsLaws C} {Srv : Type} {MS : MemoryServer Srv}.
Context (g_mmu_config : MMUConfig) (g_tlb_config : TLBConfig) (g_cache_config : CacheConfig).

Lemma keeps_cache_walk n level id page pid : keeps_cache (walk_levels g_mmu_config n level id page pid).
Proof.
  revert level id. induction n as [|n IH]; intros level id; cbn [walk_levels]; [auto with monad|].
  unfold mmu_request_pagetable_entry_from_memory. keep_cache.
Qed.

Lemma keeps_cache_walk_page page pid : keeps_cache (mmu_perform_page_walk g_mmu_config page pid).
Proof. apply keeps_cache_walk. Qed.

Lemma keeps_cache_tlb_find page pid : keeps_cache (tlb_find_entry (Srv := Srv) g_tlb_config page pid).
Proof. unfold tlb_find_entry. keep_cache. Qed.

Lemma keeps_cache_tlb_add page frame pid :
  keeps_cache (tlb_add_entry (Srv := Srv) g_tlb_config page frame pid).
Proof. unfold tlb_add_entry. keep_cache. Qed.

#[local] Hint Resolve keeps_cache_walk_page keeps_cache_tlb_find keeps_cache_tlb_add : monad.

Lemma keeps_cache_translate page pid :
  keeps_cache (mmu_translate_address_with_page_number g_mmu_config g_tlb_config page pid).
Proof. unfold mmu_translate_address_with_page_number, frame_of_page. keep_cache. Qed.

Lemma keeps_cache_write_back a e : keeps_cache (write_back a e).
Proof. unfold write_back, send_write. keep_cache. Qed.

#[local] Hint Resolve keeps_cache_translate keeps_cache_write_back : monad.

Lemma writeback_if_dirty_cache i s u s' :
  writeback_if_dirty g_mmu_config g_tlb_config i s = Ok (u, s') →
  ∃ e, znth (g_cache s) i = Some e ∧
    g_cache s' = zset (g_cache s) i (with_range 0 0 (with_modified false (with_valid false e))).
Proof.
  unfold writeback_if_dirty. intros H. bind_inv H. unfold load_entry in E. bind_inv E.
  injection E0 as <- <-. rewrite list_get_spec in E.
  destruct (znth (g_cache s) i) as [e|] eqn:He; [|done]. injection E as <- <-.
  exists e. split; [done|]. bind_inv H.
  assert (g_cache st = g_cache s) as Hst.
  { revert E. destruct (is_valid e && modified_bit e); [|by intros [= _ <-]].
    set (o := _ ≫= _). assert (keeps_cache o) as Ho by (unfold o; keep_cache). apply Ho. }
  injection H as _ <-. cbn. by rewrite Hst.
Qed.

(** The loop over the cache. *)
Lemma flush_entries (k : nat) (i : Z) s u s' :
  (0 <= i)%Z → (i + Z.of_nat k = zlen (g_cache s))%Z →
  for_each (seqZ i (Z.of_nat k)) (writeback_if_dirty g_mmu_config g_tlb_config) s = Ok (u, s') →
  zlen (g_cache s') = zlen (g_cache s) ∧
  (∀ j e, (j < i)%Z → znth (g_cache s) j = Some e → znth (g_cache s') j = Some e) ∧
  (∀ j e, (i <= j)%Z → znth (g_cache s') j = Some e → flushed e).
Proof.
  revert i s. induction k as [|k IH]; intros i s Hi Hk H.
  - injection H as <- <-. split_and!; [done | done |].
    intros j e Hj He%znth_Some_range. lia.
  - rewrite seqZ_cons in H by lia. cbn [for_each] in H.
    replace (Z.pred (Z.of_nat (S k))) with (Z.of_nat k) in H by lia.
    replace (Z.succ i) with (i + 1)%Z in H by lia. bind_inv H.
    apply writeback_if_dirty_cache in E as (e & He & Hst).
    apply IH in H as (Hl & Hbelow & Habove); [| lia | rewrite Hst, zset_zlen; lia].
    rewrite Hst, zset_zlen in Hl. split_and!; [done | |].
    + intros j x Hj Hx. apply Hbelow; [lia|]. rewrite Hst, znth_zset_ne by lia. done.
    + intros j x Hj Hx. destruct (decide (j = i)) as [->|Hne]; [|apply (Habove j); [lia | done]].
      rewrite (Hbelow i (with_range 0 0 (with_modified false (with_valid false e)))) in Hx;
        [| lia | rewrite Hst; apply znth_zset_eq; lia].
      by injection Hx as <-.
Qed.

(** After a clean-up the next process finds nothing of this one. *)
Lemma cleanup_ok s u s' :
  zlen (g_cache s) = cache_entry_count g_cache_config →
  mmu_process_cleanup g_mmu_config g_tlb_config g_cache_config s = Ok (u, s') →
  ((0 < tlb_entry_count g_tlb_config)%Z → g_tlb s' = []) ∧ Forall flushed (g_cache s') ∧ zlen (g_cache s') = zlen (g_cache s).
Proof.
  intros Hl H. unfold mmu_process_cleanup in H. bind_inv H.
  assert (Forall flushed (g_cache st) ∧ zlen (g_cache st) = zlen (g_cache s)) as [Hf Hz].
  { destruct (decide (0 < cache_entry_count g_cache_config)%Z) as [Hd|Hd].
    - bind_inv E. injection E0 as <- <-.
      destruct (flush_entries (length (g_cache s)) 0 s r st) as (Hz & _ & Hall); [done | done | exact E |].
      split; [|done]. apply Forall_lookup. intros j e He. apply (Hall (Z.of_nat j)); [lia|].
      by rewrite znth_nat.
    - injection E as <- <-. pose proof (zlen_nonneg (g_cache s)).
      assert (length (g_cache s) = 0) as ->%nil_length_inv by (unfold zlen in *; lia). done. }
  destruct (decide (0 < tlb_entry_count g_tlb_config)%Z) as [Ht|Ht]; injection H as _ <-; done.
Qed.
End Flush.
