(* ===== verification/CpuProgress.v ===== *)
(** * Which READs and WRITEs are carried out

    A READ or WRITE moves the program counter only when it succeeds.  Without
    a cache that is what memory answers to its request; with one, that the
    cache holds the page afterwards: the only failure is a dirty victim
    whose page is in the frame at address 0, for which no entry is freed. *)
From S2P Require Import Prelude Commons Enums Buffer Package Packages Config Mmu Cache.
From S2P Require Import Execution ExecutionFacts CacheMemory.
From Stdlib Require Import Strings.Byte.
Import Buffer Package InstructionCode.

Lemma divided {S} a b (s : S) z s' : int_div a b s = Ok (z, s') → z = i32 (a `quot` b) ∧ s' = s.
Proof. unfold int_div. destruct (decide (b = 0)%Z); [done|]. by intros [= <- <-]. Qed.

Lemma keeps_int_mod {S} a b (s : S) z s' : int_mod a b s = Ok (z, s') → s' = s.
Proof. unfold int_mod. destruct (decide (b = 0)%Z); [done|]. by intros [= _ <-]. Qed.

(** ** The pages in the cache *)
Section CachedPages.
Context {C : CommonsOps} {CL : CommonsLaws C} {Srv : Type} {MS : MemoryServer Srv}.
Context (g_mmu_config : MMUConfig) (g_tlb_config : TLBConfig) (g_cache_config : CacheConfig).
Local Abbreviation Mmu := (M (t_mmu Srv)).
Implicit Types (s : t_mmu Srv).

Definition held_page (e : CacheEntry) : bool * Z := (is_valid e, cache_page e).
Definition cached_pages (s : t_mmu Srv) : list (bool * Z) := held_page <$> g_cache s.

(** Whether the cache has an entry for the page. *)
Definition has_page (page : Z) (s : t_mmu Srv) : bool :=
  existsb (λ e, is_valid e && bool_decide (cache_page e = page)) (g_cache s).

Lemma has_page_pages page s s' : cached_pages s' = cached_pages s → has_page page s' = has_page page s.
Proof.
  unfold has_page, cached_pages. intros H.
  assert (∀ l : list CacheEntry, existsb (λ e, is_valid e && bool_decide (cache_page e = page)) l
            = existsb (λ o : bool * Z, o.1 && bool_decide (o.2 = page)) (held_page <$> l)) as Hf.
  { induction l as [|e l IH]; [done|]. cbn [existsb fmap list_fmap]. by rewrite IH. }
  by rewrite !Hf, H.
Qed.

Lemma has_page_at page s i e : znth (g_cache s) i = Some e → held_page e = (true, page) → has_page page s = true.
Proof.
  intros He [= Hv Hp]. apply existsb_exists. exists e. split; [by eapply list_elem_of_In, znth_elem|].
  rewrite Hv, Hp. by apply bool_decide_eq_true.
Qed.

Lemma same_pages s s' : g_cache s' = g_cache s → cached_pages s' = cached_pages s.
Proof. unfold cached_pages. by intros ->. Qed.

Lemma entry_loaded i s e s' : load_entry i s = Ok (e, s') → s' = s ∧ znth (g_cache s) i = Some e.
Proof.
  unfold load_entry. intros H. bind_inv H. injection E as <- <-. rewrite list_get_spec in H.
  destruct (znth _ i); [|done]. by injection H as <- <-.
Qed.

(** An entry is changed in place. *)
Lemma entry_stored i e s u s' e0 :
  store_entry i e s = Ok (u, s') → znth (g_cache s) i = Some e0 →
  znth (g_cache s') i = Some e ∧ (held_page e = held_page e0 → cached_pages s' = cached_pages s).
Proof.
  intros [= _ <-] He0. pose proof (znth_Some_range _ _ _ He0). cbn [g_cache set_cache].
  split; [by apply znth_zset_eq|]. intros Ho. unfold cached_pages. cbn [g_cache set_cache].
  apply znth_ext; [by unfold zlen; rewrite !length_fmap, zset_length|]. intros j _. rewrite !znth_fmap. destruct (decide (i = j)) as [<-|Hne]; [|by rewrite znth_zset_ne].
  rewrite znth_zset_eq, He0 by done. cbn. by f_equal.
Qed.

Lemma found_pages page pid s found s' :
  cache_find_entry page pid s = Ok (found, s') →
  cached_pages s' = cached_pages s ∧ bool_decide (is_Some found) = has_page page s.
Proof.
  unfold cache_find_entry. intros H. bind_inv H. injection E as <- <-.
  destruct (list_find (g_cache s) _) as [i|] eqn:Hf.
  - apply list_find_lookup in Hf as (e & He & Hp & _). bind_inv H.
    apply entry_loaded in E as [-> Hi]. bind_inv H. injection H as <- <-. split.
    + by apply (entry_stored _ _ _ _ _ _ E Hi).
    + rewrite bool_decide_true by done. apply andb_true_iff in Hp as [Hv Hp%bool_decide_eq_true].
      symmetry. apply (has_page_at _ _ (Z.of_nat i) e); [by rewrite znth_nat | unfold held_page; by rewrite Hv, Hp].
  - injection H as <- <-. split; [done|]. rewrite bool_decide_false by (intros [? [=]]). symmetry.
    apply not_true_iff_false. intros (e & He%list_elem_of_In & Hp)%existsb_exists.
    by rewrite (list_find_not _ _ _ Hf He) in Hp.
Qed.

(** *** Looking for a victim *)
Lemma keeps_cache_advance : keeps_cache (advance (Srv := Srv) g_cache_config).
Proof. unfold advance. keep_cache. by intros s u s' [= _ <-]. Qed.

(** The loops read the entry under the pointer, may clear its use bit, and
    go on. *)
Lemma use_cleared {A} i e (o : Mmu A) s a s' :
  znth (g_cache s) i = Some e → (store_entry i (with_use false e);; advance g_cache_config;; o) s = Ok (a, s') →
  ∃ s1, cached_pages s1 = cached_pages s ∧ o s1 = Ok (a, s').
Proof.
  intros He H. bind_inv H. apply (entry_stored _ _ _ _ _ _ E) in He as [_ Ho]. bind_inv H.
  apply keeps_cache_advance in E0. exists st0. split; [|exact H]. etrans; [by apply same_pages | by apply Ho].
Qed.

Lemma pointer_moved {A} (o : Mmu A) s a s' :
  (advance g_cache_config;; o) s = Ok (a, s') → ∃ s1, cached_pages s1 = cached_pages s ∧ o s1 = Ok (a, s').
Proof. intros H. bind_inv H. apply keeps_cache_advance in E. exists st. split; [by apply same_pages | exact H]. Qed.

Lemma pointer_read {A} (f : Z → CacheEntry → Mmu A) s a s' :
  (p ← gets g_cache_clock_pointer; entry ← load_entry p; f p entry) s = Ok (a, s') →
  ∃ e, znth (g_cache s) (g_cache_clock_pointer s) = Some e ∧ f (g_cache_clock_pointer s) e s = Ok (a, s').
Proof.
  intros H. bind_inv H. injection E as <- <-. bind_inv H. apply entry_loaded in E as [-> E]. by exists r.
Qed.

Local Ltac moved H :=
  first [ eapply use_cleared in H as (? & ? & H); [|eassumption] | apply pointer_moved in H as (? & ? & H) ].

Lemma victim_clock_pages fuel s i s' : victim_clock g_cache_config fuel s = Ok (i, s') → cached_pages s' = cached_pages s.
Proof.
  revert s. induction fuel as [|fuel IH]; intros s H; [done|]. cbn [victim_clock] in H. apply pointer_read in H as (e & He & H).
  destruct (is_valid e); cbn [negb] in H; [destruct (use_bit e)|]; moved H.
  - apply IH in H. congruence.
  - by injection H as _ <-.
  - by injection H as _ <-.
Qed.

Lemma clock_m_step1_pages steps s i s' : clock_m_step1 g_cache_config steps s = Ok (i, s') → cached_pages s' = cached_pages s.
Proof.
  revert s. induction steps as [|steps IH]; intros s H; [by injection H as _ <-|]. cbn [clock_m_step1] in H. apply pointer_read in H as (e & He & H).
  destruct (is_valid e); cbn [negb] in H; [destruct (negb (use_bit e) && negb (modified_bit e))|]; moved H.
  - by injection H as _ <-.
  - apply IH in H. congruence.
  - by injection H as _ <-.
Qed.

Lemma clock_m_step2_pages steps s i s' : clock_m_step2 g_cache_config steps s = Ok (i, s') → cached_pages s' = cached_pages s.
Proof.
  revert s. induction steps as [|steps IH]; intros s H; [by injection H as _ <-|]. cbn [clock_m_step2] in H. apply pointer_read in H as (e & He & H).
  destruct (is_valid e); [destruct (negb (use_bit e) && modified_bit e)|]; moved H.
  - by injection H as _ <-.
  - apply IH in H. congruence.
  - apply IH in H. congruence.
Qed.

Lemma victim_clock_m_pages fuel s i s' : victim_clock_m g_cache_config fuel s = Ok (i, s') → cached_pages s' = cached_pages s.
Proof.
  revert s. induction fuel as [|fuel IH]; intros s H; [done|]. cbn [victim_clock_m] in H. bind_inv H.
  apply clock_m_step1_pages in E. destruct r as [p|]; [injection H as _ <-; done|]. bind_inv H.
  apply clock_m_step2_pages in E0. destruct r as [p|]; [injection H as _ <-; congruence|].
  apply IH in H. congruence.
Qed.

Lemma keeps_cache_victim_address e : keeps_cache (victim_address g_mmu_config g_tlb_config e).
Proof.
  unfold victim_address. case_decide.
  - apply keeps_cache_bind; [apply keeps_cache_translate | intros ?; keep_cache].
  - apply keeps_cache_bind; [apply keeps_cache_walk_page | intros ?; keep_cache].
Qed.

Lemma victim_pages pid s o s' :
  select_victim_entry g_mmu_config g_tlb_config g_cache_config pid s = Ok (o, s') →
  cached_pages s' = cached_pages s ∧ ∀ i, o = Some i → ∃ e, znth (g_cache s') i = Some e.
Proof.
  unfold select_victim_entry. intros H. bind_inv H.
  assert (cached_pages st = cached_pages s) as Ho.
  { destruct (decide _); [by eapply victim_clock_pages | by eapply victim_clock_m_pages]. }
  clear E. bind_inv H. apply entry_loaded in E as [-> He]. rename r0 into e.
  destruct (is_valid e && modified_bit e).
  - bind_inv H. apply keeps_cache_victim_address in E. destruct r0 as [a|].
    + bind_inv H. apply keeps_cache_write_back in E0. bind_inv H. injection H as <- <-.
      rewrite <- E, <- E0 in He. destruct (entry_stored _ _ _ _ _ _ E1 He) as [Hi Hs].
      split; [|intros i [= <-]; by eexists]. rewrite Hs by done. rewrite <- Ho.
      etrans; [by apply same_pages | by apply same_pages].
    + injection H as <- <-. split; [rewrite <- Ho; by apply same_pages | done].
  - injection H as <- <-. split; [done|]. intros i [= <-]. by exists e.
Qed.

Lemma keeps_cache_translation l pid : keeps_cache (mmu_translate_address g_mmu_config g_tlb_config l pid).
Proof.
  unfold mmu_translate_address, frame_of_page. keep_cache; eauto using keeps_cache_tlb_find, keeps_cache_walk_page, keeps_cache_tlb_add.
Qed.

Lemma keeps_cache_page_read a buffer : keeps_cache (mmu_request_page_read_from_memory g_mmu_config a buffer).
Proof. unfold mmu_request_page_read_from_memory. keep_cache. Qed.

Lemma loaded_page l i pid s j s' e0 :
  znth (g_cache s) i = Some e0 → cache_load_page g_mmu_config g_tlb_config l i pid s = Ok (j, s') →
  has_page (i32 (l `quot` mmu_page_size g_mmu_config)) s' = true.
Proof.
  unfold cache_load_page. intros He H. bind_inv H. apply divided in E as [-> ->].
  bind_inv H. apply keeps_cache_int_mod in E. bind_inv H.
  assert (g_cache st0 = g_cache st) as E'.
  { revert E0. case_decide; intros E0; [by apply keeps_cache_translation in E0|].
    bind_inv E0. apply keeps_cache_walk_page in E1. by injection E0 as _ <-. }
  bind_inv H. apply keeps_cache_page_read in E1.
  bind_inv H. injection H as <- <-. rewrite <- E, <- E', <- E1 in He.
  destruct (entry_stored _ _ _ _ _ _ E2 He) as [Hi _]. by eapply has_page_at.
Qed.
End CachedPages.

(** ** READ and WRITE *)
Section Progress.
Context {C : CommonsOps} {CL : CommonsLaws C} {Srv : Type} {MS : MemoryServer Srv}.
Context (g_mmu_config : MMUConfig) (g_tlb_config : TLBConfig) (g_cache_config : CacheConfig).
Local Abbreviation Cpu := (M (t_cpu Srv)).
Local Abbreviation ps := (mmu_page_size g_mmu_config).
Implicit Types (c : t_cpu Srv).

(** The page an address is in. *)
Definition page_of (l : Z) : Z := i32 (l `quot` ps).

(** A positive confirmation. *)
Definition confirmed (package : t_package) : bool :=
  opcode_is Opcode.CONFIRMATION package &&
  match read_with read_confirmation_package package with Ok success => success | Crash _ => false end.

(** What memory answers, in the state [c], to the request of the
    instruction: that it was carried out, or not. *)
Definition memory_serves_write (l size : Z) (value : list byte) c : bool :=
  match (physic_dir ← uncached_address g_mmu_config g_tlb_config l; on_mmu (send_write physic_dir size value)) c with
  | Ok (package, _) => confirmed package
  | Crash _ => false
  end.

Definition memory_serves_read (l size : Z) c : bool :=
  match (physic_dir ← uncached_address g_mmu_config g_tlb_config l;
         on_mmu (request (send_memory_read_request (create_memory_read_request physic_dir size)))) c with
  | Ok (Some package, _) => opcode_is Opcode.READ_MEMORY package
  | _ => false
  end.

(** Whether a READ or WRITE that leads from [c] to [c'] was carried out. *)
Definition carried_out (i : t_instruction) c c' : bool :=
  if decide (0 < cache_entry_count g_cache_config)%Z then has_page (page_of (operand_numeric1 i)) (cpu_mmu c')
  else match instruction_code i with
       | WRITE => memory_serves_write (operand_numeric1 i) (operand_string_size i)
                    (cstr_bytes (default EmptyString (operand_string i))) c
       | _ => memory_serves_read (operand_numeric1 i) (operand_numeric2 i) c
       end.

Lemma on_mmu_inv {A} (o : M (t_mmu Srv) A) c a c' :
  on_mmu o c = Ok (a, c') → o (cpu_mmu c) = Ok (a, cpu_mmu c') ∧ c' = set_mmu (cpu_mmu c') c.
Proof. unfold on_mmu, zoom. intros H. destruct (o (cpu_mmu c)) as [[]|]; [by injection H as -> <-|done]. Qed.

Lemma moved_on c b c' :
  (next_pc;; mret false) c = Ok (b, c') →
  b = false ∧ cpu_pc c' = i32 (cpu_pc c + 1) ∧ cpu_mmu c' = cpu_mmu c.
Proof. by intros [= <- <-]. Qed.

Lemma kept_pc {A} (o : Cpu A) c a c' : keeps_context o → o c = Ok (a, c') → cpu_pc c' = cpu_pc c.
Proof. intros Ho [=]%Ho. done. Qed.

Lemma write_without_cache l size value c b c' :
  exec_write_uncached g_mmu_config g_tlb_config l size value c = Ok (b, c') →
  b = false ∧ cpu_pc c' = if memory_serves_write l size value c then i32 (cpu_pc c + 1) else cpu_pc c.
Proof.
  unfold exec_write_uncached, memory_serves_write. intros H. bind_inv H.
  rewrite (M_bind_ok _ _ _ _ _ E). apply kept_pc in E; [|apply keeps_context_address].
  bind_inv H. rewrite E0. apply kept_pc in E0; [|apply keeps_context_mmu].
  rewrite <- E, <- E0. unfold confirmed. destruct (opcode_is _ _); [|by injection H as <- <-].
  bind_inv H. unfold lift_res in E1. destruct (read_with _ _) as [s|]; [|done]. injection E1 as <- <-.
  destruct s; [apply moved_on in H; tauto | by injection H as <- <-].
Qed.

Lemma read_without_cache l size c b c' :
  exec_read_uncached g_mmu_config g_tlb_config l size c = Ok (b, c') →
  b = false ∧ cpu_pc c' = if memory_serves_read l size c then i32 (cpu_pc c + 1) else cpu_pc c.
Proof.
  unfold exec_read_uncached, memory_serves_read. intros H. bind_inv H.
  rewrite (M_bind_ok _ _ _ _ _ E). apply kept_pc in E; [|apply keeps_context_address].
  bind_inv H. rewrite E0. apply kept_pc in E0; [|apply keeps_context_mmu].
  rewrite <- E, <- E0. destruct r0 as [p|]; [|by injection H as <- <-].
  destruct (opcode_is _ _); [|by injection H as <- <-].
  bind_inv H. unfold lift_res in E1. destruct (read_with _ _) as [s|]; [|done]. injection E1 as <- <-.
  destruct (decide (_ < 0)%Z); [done|]. destruct (decide (0 <= size <= _)%Z); [|done]. bind_inv H. injection E1 as <- <-. apply moved_on in H. tauto.
Qed.

Lemma read_with_cache l size c b c' :
  exec_read_cached g_mmu_config g_tlb_config g_cache_config l size c = Ok (b, c') →
  b = false ∧ cpu_pc c' = if has_page (page_of l) (cpu_mmu c') then i32 (cpu_pc c + 1) else cpu_pc c.
Proof.
  unfold exec_read_cached. intros H. bind_inv H. injection E as <- <-. bind_inv H. apply divided in E as [-> ->].
  fold (page_of l) in H. bind_inv H. pose proof E as Hp. apply kept_pc in Hp; [|apply keeps_context_mmu].
  apply on_mmu_inv in E as [[Ho Hf]%found_pages _]. rewrite <- Hp. destruct r as [i|].
  - apply moved_on in H as (-> & Hpc & ->). rewrite (has_page_pages _ _ _ Ho), <- Hf. by rewrite bool_decide_true by done.
  - rewrite bool_decide_false in Hf by (intros [? [=]]). bind_inv H. pose proof E as Hp'.
    apply kept_pc in Hp'; [|apply keeps_context_mmu]. apply on_mmu_inv in E as [[Ho' Hi]%victim_pages _].
    destruct r as [i|].
    + destruct (Hi i eq_refl) as [e He]. bind_inv H. pose proof E as Hp''.
      apply kept_pc in Hp''; [|apply keeps_context_mmu]. apply on_mmu_inv in E as [Hl%(loaded_page _ _ _ _ _ _ _ _ _ He) _].
      apply moved_on in H as (-> & Hpc & ->). unfold page_of. rewrite Hl. split; [done|]. congruence.
    + injection H as <- <-. rewrite (has_page_pages _ _ _ Ho'), (has_page_pages _ _ _ Ho), <- Hf. by split.
Qed.

Lemma cached_write index offset size value page c u c' :
  write_cached index offset size value c = Ok (u, c') → has_page page (cpu_mmu c) = true →
  has_page page (cpu_mmu c') = true.
Proof.
  unfold write_cached. intros H Hp. bind_inv H. apply on_mmu_inv in E as [[-> He]%entry_loaded ->].
  destruct (decide _); [|done]. apply on_mmu_inv in H as [H _].
  destruct (entry_stored _ _ _ _ _ _ H He) as [_ Ho].
  erewrite has_page_pages; [exact Hp | apply Ho]. unfold extend_range. by destruct (modified_bit r).
Qed.

Lemma claimed_page index page offset size pid c u c' :
  claim_entry g_mmu_config index page offset size pid c = Ok (u, c') → has_page page (cpu_mmu c') = true.
Proof.
  unfold claim_entry. intros H. bind_inv H. apply on_mmu_inv in E as [[-> He]%entry_loaded ->].
  apply on_mmu_inv in H as [H _]. destruct (entry_stored _ _ _ _ _ _ H He) as [Hi _]. by eapply has_page_at.
Qed.

Lemma write_with_cache l size value c b c' :
  exec_write_cached g_mmu_config g_tlb_config g_cache_config l size value c = Ok (b, c') →
  b = false ∧ cpu_pc c' = if has_page (page_of l) (cpu_mmu c') then i32 (cpu_pc c + 1) else cpu_pc c.
Proof.
  unfold exec_write_cached. intros H. bind_inv H. injection E as <- <-. bind_inv H. apply divided in E as [-> ->].
  fold (page_of l) in H. bind_inv H. apply keeps_int_mod in E as ->.
  bind_inv H. pose proof E as Hp. apply kept_pc in Hp; [|apply keeps_context_mmu].
  apply on_mmu_inv in E as [[Ho Hf]%found_pages _]. rewrite <- Hp. destruct r0 as [i|].
  - bind_inv H. pose proof E as Hw. apply kept_pc in Hw; [|apply keeps_context_write_cached].
    apply (cached_write _ _ _ _ (page_of l)) in E.
    2:{ rewrite (has_page_pages _ _ _ Ho), <- Hf. by rewrite bool_decide_true by done. }
    apply moved_on in H as (-> & Hpc & ->). rewrite E. split; [done|]. congruence.
  - rewrite bool_decide_false in Hf by (intros [? [=]]). bind_inv H. pose proof E as Hp'.
    apply kept_pc in Hp'; [|apply keeps_context_mmu]. apply on_mmu_inv in E as [[Ho' _]%victim_pages _].
    destruct r0 as [i|].
    + bind_inv H. pose proof E as Hc. apply kept_pc in Hc; [|apply keeps_context_claim]. apply claimed_page in E.
      bind_inv H. pose proof E0 as Hw. apply kept_pc in Hw; [|apply keeps_context_write_cached].
      apply (cached_write _ _ _ _ _ _ _ _ E0) in E. apply moved_on in H as (-> & Hpc & ->). rewrite E.
      split; [done|]. congruence.
    + injection H as <- <-. rewrite (has_page_pages _ _ _ Ho'), (has_page_pages _ _ _ Ho), <- Hf. by split.
Qed.

(** A READ or WRITE advances exactly when it is carried out. *)
Lemma access_moves_on i c b c' :
  instruction_code i = READ ∨ instruction_code i = WRITE →
  execution g_mmu_config g_tlb_config g_cache_config i c = Ok (b, c') →
  cpu_pc c' = if carried_out i c c' then i32 (cpu_pc c + 1) else cpu_pc c.
Proof.
  unfold execution, carried_out. intros [Hi|Hi] H; rewrite Hi in *.
  - unfold exec_read in H. destruct (decide _); [by apply read_with_cache in H as [_ H] | by apply read_without_cache in H as [_ H]].
  - unfold exec_write in H. bind_inv H. destruct (operand_string i) as [v|]; [|done]. injection E as <- <-.
    destruct (decide _); [by apply write_with_cache in H as [_ H] | by apply write_without_cache in H as [_ H]].
Qed.
End Progress.
