(* ===== verification/RequestFacts.v ===== *)
(** * Requests, proved

    What the memory module answers to FETCH and to DUMP_MEMORY, and what
    becomes of the swap area when a suspended process is killed. *)
From S2P Require Import Prelude Commons Enums Buffer Package Packages Roundtrip Config Semaphores.
From S2P Require Import Bitmap Storage PageTable PageTableFacts Memoria MemoriaFacts SwapFacts.
From S2P Require Import Invariant Mmu Server Cache Execution DataServer ParsingFacts.
From Stdlib Require Import Strings.Byte.
Import Buffer Package UserSpace.

Section Requests.
Context {C : CommonsOps} {CL : CommonsLaws C} (config : t_memoria_config) (fs : t_file_system).
Context (d : nat) (Hcfg : config_ok config d).

(** ** FETCH *)

(** The line at [pc]; nothing after the last one. *)
Definition line_at (p : process_info) (pc : Z) : string :=
  default EmptyString (znth (instructions p) pc).

Definition counted := metered count_instruction.

Lemma znth_beyond {A} (l : list A) i : (zlen l <= i)%Z → znth l i = None.
Proof. intros H. destruct (znth l i) eqn:E; [|done]. apply znth_Some_range in E. lia. Qed.

Lemma fetch_ok m x pc i p package reply :
  mem_ready config m → position_from 0 x (global_process_list m) = Some i →
  global_process_list m !! i = Some p →
  read_with read_fetch_package package = Ok {| fetch_pid := x; fetch_pc := pc |} →
  create_instruction_package (line_at p pc) = Ok reply →
  get_instruction_request_handler package m
  = Ok (tt, set_out (send_package (client_out m) reply) (counted i p m)).
Proof.
  intros [Hm Hc] Hpos Hi Hread Hreply. unfold get_instruction_request_handler.
  run (unfold lift_res; by rewrite Hread). cbn [fetch_pid fetch_pc].
  run (apply find_process_ok, Hm; done). rewrite Hpos.
  run (by apply lock_ok, Hm).
  run (unfold update_process; run (by apply load_process_ok); by eapply store_process_ok).
  run (eapply unlock_ok; [done | by apply Hm]).
  change (set_sems (sems m) _) with (counted i p m).
  run (apply lock_ok; cbn; by apply Hm).
  run (apply load_process_ok; cbn; by rewrite list_lookup_insert_eq by (by eapply lookup_lt_Some)).
  change (instructions (with_metrics count_instruction p)) with (instructions p).
  rewrite list_size_spec, list_get_spec. unfold line_at in Hreply.
  set (o := if decide (pc < zlen (instructions p))%Z then _ else _).
  assert (∀ m1, o m1 = Ok (tt, set_out (send_package (client_out m1) reply) m1)) as Ho.
  { intros m1. unfold o. case_decide as Hlt.
    - destruct (znth (instructions p) pc); cbn in Hreply; unfold respond; by rewrite Hreply.
    - rewrite znth_beyond in Hreply by lia. cbn in Hreply. unfold respond. by rewrite Hreply. }
  run (apply Ho). rewrite (unlock_ok _ (sems m)) by (done || by apply Hm). done.
Qed.

(** The answer is the line at [pc], as the CPU decodes it. *)
Lemma serve_line m x pc i p :
  mem_ready config m → in_i32 x → in_i32 pc →
  position_from 0 x (global_process_list m) = Some i → global_process_list m !! i = Some p →
  fits (line_at p pc) →
  ∃ req reply, create_fetch_package x pc = Ok req ∧
    memoria_serve config fs req m = Ok (Some reply, set_out [] (counted i p m)) ∧
    opcode_is Opcode.INSTRUCTION reply = true ∧ decode reply = parse_instruction (line_at p pc).
Proof.
  intros Hm Hx Hpc Hpos Hi Hfits.
  destruct (fetch_delivers x pc Hx Hpc) as (req & Hreq & Hop & Hread & Hrecv).
  destruct (instruction_delivers _ Hfits) as (reply & Hreply & Hop' & Hread' & Hrecv').
  exists req, reply. split_and!; [done | | by apply bool_decide_eq_true |].
  - apply (serve_answer config fs req Opcode.FETCH); [done..|].
    unfold dispatch. rewrite Hop, Opcode.decode_code.
    erewrite M_bind_ok; [reflexivity|].
    assert (mem_ready config (set_out [] m)) as Hm' by (destruct Hm; split; [by apply set_out_ok | done]).
    by rewrite (fetch_ok (set_out [] m) x pc i p req reply).
  - unfold decode. by rewrite Hread'.
Qed.

(** What the CPU decodes is the instruction of the script. *)
Lemma serve_fetch m x pc i p instr :
  mem_ready config m → in_i32 x → in_i32 pc →
  position_from 0 x (global_process_list m) = Some i → global_process_list m !! i = Some p →
  znth (instructions p) pc = Some (print_instruction instr) →
  instruction_ok instr → fits (print_instruction instr) →
  ∃ req reply, create_fetch_package x pc = Ok req ∧
    memoria_serve config fs req m = Ok (Some reply, set_out [] (counted i p m)) ∧
    opcode_is Opcode.INSTRUCTION reply = true ∧ decode reply = Ok instr.
Proof.
  intros Hm Hx Hpc Hpos Hi Hline Hinstr Hfits.
  assert (line_at p pc = print_instruction instr) as E by (unfold line_at; by rewrite Hline).
  destruct (serve_line m x pc i p) as (req & reply & ? & ? & ? & Hd); [done..|by rewrite E|].
  exists req, reply. split_and!; [done..|]. rewrite Hd, E. by apply parse_print.
Qed.

(** Past the end of the script: an empty line, which the CPU runs as a
    NOOP. *)
Lemma empty_line_is_noop : parse_instruction EmptyString = Ok blank_instruction.
Proof. done. Qed.

Lemma serve_beyond m x pc i p :
  mem_ready config m → in_i32 x → in_i32 pc →
  position_from 0 x (global_process_list m) = Some i → global_process_list m !! i = Some p →
  (zlen (instructions p) <= pc)%Z →
  ∃ req reply, create_fetch_package x pc = Ok req ∧
    memoria_serve config fs req m = Ok (Some reply, set_out [] (counted i p m)) ∧
    opcode_is Opcode.INSTRUCTION reply = true ∧ decode reply = Ok blank_instruction.
Proof.
  intros Hm Hx Hpc Hpos Hi Hend.
  assert (line_at p pc = EmptyString) as E by (unfold line_at; by rewrite znth_beyond).
  rewrite <- empty_line_is_noop, <- E. apply serve_line; try done.
  rewrite E. by apply (bool_decide_unpack _); vm_compute.
Qed.

Lemma counted_ready i p m :
  mem_ready config m → global_process_list m !! i = Some p → mem_ready config (set_out [] (counted i p m)).
Proof. intros [Hm Hc] Hi. split; [apply set_out_ok; by apply with_metrics_ok | done]. Qed.

(** ** DUMP_MEMORY *)

Lemma dump_frames_ok l file m :
  user_space_ok (space m) → Forall (frame_in config (space m)) l →
  (zlen file + zlen l * TAM_PAGINA config <= dump_room fs)%Z →
  dump_frames config fs l file m = Ok ((true, file ++ concat (pages_of config (space m) l)), m).
Proof.
  pose proof (page_pos _ _ Hcfg) as Hp. intros Hu Hl. revert file.
  induction Hl as [|f l Hf Hl IH]; intros file Hroom; cbn [dump_frames pages_of fmap list_fmap concat].
  - by rewrite app_nil_r.
  - assert (zlen (f :: l) = zlen l + 1)%Z as Hz by (unfold zlen; cbn; lia).
    pose proof (zlen_nonneg l).
    assert (i32 (f * TAM_PAGINA config) = (f * TAM_PAGINA config)%Z) as ->.
    { destruct Hf as [Hf0 Hf1], Hu as [Hs Hi]. unfold in_i32 in Hi. apply i32_id. unfold in_i32. nia. }
    run (unfold on_space, zoom; rewrite (read_ok (space m)); [done | done | by apply frame_addressable]).
    assert (set_space (space m) m = m) as -> by (by destruct m). rewrite decide_True by nia.
    rewrite IH by (rewrite zlen_app; fold (frame_page config (space m) f);
      rewrite frame_page_whole by done; nia).
    by rewrite <- app_assoc.
Qed.

(** The dump is the contents of the process's frames, in order. *)
Lemma dump_ok m x i p package reply :
  mem_ok config m → position_from 0 x (global_process_list m) = Some i →
  global_process_list m !! i = Some p → is_suspended p = false → process_size p ≠ 0%Z →
  frames_of p ≠ [] → dump_opens fs = true → (zlen (frames_of p) * TAM_PAGINA config <= dump_room fs)%Z →
  read_with read_dump_memory_package package = Ok x →
  create_confirmation_package true = Ok reply →
  dump_memory_request_handler config fs package m
  = Ok (tt, set_out (send_package (client_out m) reply)
      (add_dump (x, concat (pages_of config (space m) (frames_of p))) m)).
Proof.
  intros Hm Hpos Hi Hs Hsz Hne Hopen Hroom Hread Hreply. pose proof (page_pos _ _ Hcfg) as Hp.
  pose proof (proj1 (Forall_lookup _ _) (processes_ok _ _ Hm) i p Hi) as Hok.
  destruct (sized p Hok Hsz) as (t & l & _ & Hl).
  assert (frames_of p = l) as Hfl by (unfold frames_of; by rewrite Hl). rewrite Hfl in *.
  destruct (resident_owned config m i p Hm Hi Hs) as [_ Hu]. rewrite Hfl in Hu.
  assert (Forall (frame_in config (space m)) l) as Hfr.
  { eapply Forall_impl; [exact Hu|]. intros f. by eapply in_use_frame_in. }
  destruct (position_Some _ _ _ Hpos) as (q & Hq & Hpid). rewrite Hi in Hq. injection Hq as <-.
  unfold dump_memory_request_handler. run (unfold lift_res; by rewrite Hread).
  run (apply find_process_ok; by apply Hm). rewrite Hpos.
  run (by apply load_process_ok). rewrite Hl. run done.
  rewrite list_size_spec. rewrite decide_False.
  2:{ intros Hz. apply Hne. apply length_zero_iff_nil. unfold zlen in Hz. lia. }
  rewrite Hopen. cbn [negb]. rewrite decide_False by lia.
  run (apply dump_frames_ok; [apply Hm | done | by rewrite Hroom || (unfold zlen at 1; cbn; lia)]).
  cbv iota. run done. unfold respond. rewrite Hreply, Hpid. done.
Qed.

(** ** KILL of a suspended process *)

Lemma load_ptr_same {A} (q : ptr A) m o m' : load_ptr q m = Ok (o, m') → m' = m.
Proof. unfold load_ptr. intros H. destruct q; [|discriminate H|]; by injection H. Qed.

Lemma destroy_rest p m u m' :
  destroy_process_info p m = Ok (u, m') →
  swap m' = swap m ∧ global_process_list m' = global_process_list m.
Proof.
  unfold destroy_process_info. intros H. case_decide; [|by injection H as _ <-].
  bind_inv H. apply load_ptr_same in E as ->. bind_inv H. apply load_ptr_same in E as ->.
  destruct r0; [|by injection H as _ <-]. unfold on_frames, zoom in H.
  destruct (FrameManager.release_frames _ _) as [[]|]; [by injection H as _ <-|done].
Qed.

Lemma delete_rest x m i m' b :
  position_from 0 x (global_process_list m) = Some i →
  process_manager_delete_process x m = Ok (b, m') →
  swap m' = swap m ∧ global_process_list m' = delete i (global_process_list m).
Proof.
  intros Hpos H. unfold process_manager_delete_process in H.
  bind_inv H. unfold lock, on_sems, zoom in E. destruct (sem_wait _ _) as [[u1 s1]|]; [|done].
  injection E as _ <-. bind_inv H. injection E as <- <-. cbn [global_process_list set_sems] in H.
  rewrite Hpos in H. bind_inv H. bind_inv E. apply load_process_inv in E0 as [-> _].
  bind_inv E. injection E0 as _ <-. bind_inv E. injection E as <- <-.
  apply destroy_rest in E0 as [Hsw Hl]. bind_inv H.
  unfold unlock, on_sems, zoom in E. destruct (sem_post _ _) as [[u2 s2]|]; [|done].
  injection E as _ <-. injection H as _ <-. cbn. rewrite Hsw, Hl. cbn.
  by rewrite list_remove_spec, decide_True, Nat2Z.id by lia.
Qed.

(** Its slots stay taken in the swap area, and nobody owns them. *)
Lemma kill_suspended x m i p m' b :
  mem_ok config m → position_from 0 x (global_process_list m) = Some i →
  global_process_list m !! i = Some p → is_suspended p = true → frames_of p ≠ [] →
  process_manager_delete_process x m = Ok (b, m') → ¬ mem_ok config m'.
Proof.
  intros Hm Hpos Hi Hs Hne H Hm'. destruct (delete_rest x m i m' b Hpos H) as [Hsw Hl].
  pose proof (swap_partition _ _ Hm) as Hp. pose proof (swap_partition _ _ Hm') as Hp'.
  destruct (bind_at (λ p, if is_suspended p then frames_of p else []) _ _ _ Hi) as (rest & Hq & _ & Hq').
  unfold swapped in Hp, Hp'. rewrite Hq, Hs in Hp. rewrite Hsw, Hl, Hq', <- Hp in Hp'.
  apply Permutation_length in Hp'. rewrite !length_app in Hp'.
  destruct (frames_of p); [done|]. cbn in Hp'. lia.
Qed.
End Requests.
