(* ===== verification/Wire.v ===== *)
(** * What reaches the other side of the dispatch connection

    A package whose creation succeeds crosses the socket whatever its fields
    are: integers arrive reduced to their width.  The kernel reads in a system
    call the process the CPU has put in, and the CPU in a dispatch the one
    the kernel has put in. *)
From S2P Require Import Prelude Enums Buffer Package Packages Roundtrip Config Memoria Session.
From Stdlib Require Import Strings.Byte.
From coqutil Require Import Word.LittleEndianList.
Import Buffer Package.

(** If it succeeds, [m] has appended [w]. *)
Definition appends (m : M t_buffer unit) (w : list byte) : Prop :=
  ∀ v k u b, (zlen v + Z.of_nat k < 2147483648)%Z → m (filled v k) = Ok (u, b) →
    b = filled (v ++ w) (k - length w) ∧ (zlen (v ++ w) + Z.of_nat (k - length w) < 2147483648)%Z.

Lemma appends_bytes data n : n = zlen data → appends (buffer_add data n) data.
Proof.
  intros -> v k u b Hk H. assert (zlen v + zlen data < 2147483648)%Z as Hd.
  { unfold buffer_add in H. step_in H. cbn [offset stream_size filled] in H. case_decide as Hc; [|done].
    pose proof (i32_range (zlen v + zlen data)). unfold in_i32 in *. case_decide; lia. }
  rewrite buffer_add_filled in H by done. injection H as _ <-. split; [done|].
  rewrite zlen_app. unfold zlen in *. lia.
Qed.

Lemma appends_int32 x : appends (buffer_add_int32 x) (int32_bytes x).
Proof. apply appends_bytes. by rewrite int32_bytes_zlen. Qed.

Lemma appends_seq m w m' w' : appends m w → appends m' w' → appends (m;; m') (w ++ w').
Proof.
  intros Hm Hm' v k u b Hk H. bind_inv H. apply Hm in E as [-> H1]; [|done]. apply Hm' in H as [-> H2]; [|done].
  rewrite <- app_assoc in *. rewrite length_app. replace (k - (length w + length w')) with (k - length w - length w') by lia.
  done.
Qed.

Lemma appends_string n s : n = zlen s → appends (buffer_add_string n s) (int32_bytes n ++ s).
Proof. intros Hn. apply appends_seq; [apply appends_int32 | by apply appends_bytes]. Qed.

Lemma appends_nop : appends (mret tt) [].
Proof. intros v k u b Hk [= _ <-]. by rewrite app_nil_r, Nat.sub_0_r. Qed.

Lemma appends_crash c w : appends (crash_with c) w.
Proof. by intros v k u b _ H. Qed.

Lemma build_packed size m w code p :
  appends m w → (0 <= size <= zlen w)%Z → (size < 2147483648)%Z → build size m code = Ok p →
  p = packed code w ∧ (zlen w < 2147483648)%Z.
Proof.
  intros Hm Hs Hb H. unfold build in H. rewrite buffer_create_filled in H by lia. cbn in H.
  destruct (m (filled [] (Z.to_nat size))) as [[u b]|] eqn:E; [|done]. injection H as <-.
  apply Hm in E as [-> Hw]; [|unfold zlen; cbn [length]; lia]. cbn [app] in *.
  replace (Z.to_nat size - length w) with 0 in * by (unfold zlen in *; lia).
  split; [by rewrite filled_full|]. lia.
Qed.

Lemma int32_bytes_i32 x : int32_bytes (i32 x) = int32_bytes x.
Proof.
  apply le_combine_inj; [by rewrite !int32_bytes_length|]. unfold int32_bytes. rewrite !le_combine_split.
  change (2 ^ (Z.of_nat 4 * 8))%Z with 4294967296%Z. rewrite i32_eq, Zminus_mod_idemp_l. f_equal. lia.
Qed.

Lemma add_int32_i32 x : buffer_add_int32 (i32 x) = buffer_add_int32 x.
Proof. unfold buffer_add_int32. by rewrite int32_bytes_i32. Qed.

(** ** To the CPU *)
Lemma dispatch_arrives p n package :
  in_i32 p → create_dispatch_package p n = Ok package →
  opcode package = Opcode.code Opcode.DISPATCH ∧ transmissible package ∧
  read_with read_dispatch_package package = Ok {| dispatch_pid := p; dispatch_pc := i32 n |}.
Proof.
  intros Hp H. destruct (dispatch_delivers p (i32 n) Hp (i32_range n)) as (q & Hq & Ho & Hr & Ht).
  unfold create_dispatch_package in Hq. rewrite add_int32_i32 in Hq. unfold create_dispatch_package in H.
  rewrite H in Hq. by injection Hq as <-.
Qed.

Lemma confirmation_arrives package :
  create_confirmation_package true = Ok package →
  opcode package = Opcode.code Opcode.CONFIRMATION ∧ transmissible package ∧
  read_with read_confirmation_package package = Ok true.
Proof.
  intros H. destruct (confirmation_delivers true) as (q & Hq & Ho & Hr & Ht). rewrite H in Hq. by injection Hq as <-.
Qed.

(** ** To the kernel *)
Definition syscall_header (s : syscall_package_data) : list byte :=
  int32_bytes (syscall_type s) ++ int32_bytes (syscall_pid s) ++ int32_bytes (syscall_pc s).

Lemma syscall_packed s package :
  create_syscall_package s = Ok package →
  ∃ w, package = packed (Opcode.code Opcode.SYSCALL) (syscall_header s ++ w) ∧ sendable (syscall_header s ++ w).
Proof.
  intros H. assert (∃ w, appends
    (match SyscallType.decode (syscall_type s), params s with
     | Some SyscallType.SYSCALL_INIT_PROC, InitProcParams memory_space file =>
         buffer_add_int32 memory_space;; buffer_add_string (strlen file + 1) (cstr_bytes file)
     | Some SyscallType.SYSCALL_IO, IoParams sleep_time name =>
         buffer_add_string (strlen name + 1) (cstr_bytes name);; buffer_add_int32 sleep_time
     | Some SyscallType.SYSCALL_INIT_PROC, _ | Some SyscallType.SYSCALL_IO, _ => crash_with Uninit
     | _, _ => mret tt
     end) w) as [w Hw].
  { destruct (SyscallType.decode (syscall_type s)) as [[]|], (params s) as [n f|n f|];
      try (by exists []; apply appends_nop); try (by exists []; apply appends_crash); eexists; apply appends_seq;
      first [apply appends_int32 | apply appends_string; by rewrite cstr_bytes_zlen]. }
  exists w. pose proof (zlen_nonneg w).
  assert (zlen (syscall_header s ++ w) = 12 + zlen w)%Z as Hz.
  { unfold syscall_header. rewrite !zlen_app, !int32_bytes_zlen. lia. }
  unfold create_syscall_package in H. eapply (build_packed _ _ (syscall_header s ++ w)) in H as [Hpk Hs].
  - split; [exact Hpk|]. split; [lia | exact Hs].
  - unfold syscall_header. rewrite <- !app_assoc. repeat (apply appends_seq; [apply appends_int32|]). exact Hw.
  - lia.
  - done.
Qed.

Lemma syscall_arrives s package :
  in_i32 (syscall_type s) → in_i32 (syscall_pid s) → create_syscall_package s = Ok package →
  opcode package = Opcode.code Opcode.SYSCALL ∧ transmissible package ∧
  ∀ r, read_with read_syscall_package package = Ok r →
    syscall_type r = syscall_type s ∧ syscall_pid r = syscall_pid s ∧
    (SyscallType.decode (syscall_type r) = Some SyscallType.SYSCALL_INIT_PROC →
     ∃ n f, params r = InitProcParams n f).
Proof.
  intros Ht Hp H. apply syscall_packed in H as (w & -> & Hs). split; [done|]. split.
  { intros rest. apply recv_packed; [apply Opcode.code_in_i32 | done]. }
  intros r Hr. assert (syscall_header s = int32_bytes (syscall_type s) ++ int32_bytes (syscall_pid s) ++
    int32_bytes (i32 (syscall_pc s))) as E by (by rewrite int32_bytes_i32).
  rewrite E in *. clear E. rewrite <- !app_assoc in Hs, Hr. destruct Hs as [_ Hs].
  destruct (read_packed_reads (Opcode.code Opcode.SYSCALL) _ Hs) as (b & Hb & H0).
  destruct (consumes_int32 _ Ht _ _ H0) as (b1 & R1 & H1).
  destruct (consumes_int32 _ Hp _ _ H1) as (b2 & R2 & H2).
  destruct (consumes_int32 _ (i32_range _) _ _ H2) as (b3 & R3 & _).
  unfold read_with, read_syscall_package in Hr.
  rewrite (M_bind_ok _ _ _ _ _ Hb), (M_bind_ok _ _ _ _ _ R1), (M_bind_ok _ _ _ _ _ R2), (M_bind_ok _ _ _ _ _ R3) in Hr.
  match type of Hr with match ?m with _ => _ end = _ => destruct m as [[r' b4]|] eqn:E end; [|done].
  injection Hr as <-. bind_inv E. injection E as <- _. split_and!; [done..|].
  cbn [syscall_type params]. intros Hd. rewrite Hd in E0. do 3 bind_inv E0. injection E0 as <- _. by eexists _, _.
Qed.
