(* ===== verification/Scenario.v ===== *)
(** * A small system

    Four frames of sixteen bytes, two-entry tables on two levels, and the
    scripts of two programs: the concrete inputs on which the theorems of the
    property files are applied. *)
From S2P Require Import Prelude Commons Enums Buffer Package Packages Roundtrip Config Semaphores.
From S2P Require Import Bitmap Storage PageTable PageTableFacts Memoria MemoriaFacts SwapFacts.
From S2P Require Import Invariant Boot.
From Stdlib Require Import Strings.Byte.

#[export] Existing Instance CommonsModel.ops.
#[export] Existing Instance CommonsModel.laws.

Definition config : t_memoria_config := {|
  PUERTO_ESCUCHA := "8002"; TAM_MEMORIA := 64; TAM_PAGINA := 16; ENTRADAS_POR_TABLA := 2;
  CANTIDAD_NIVELES := 2; RETARDO_MEMORIA := 0; RETARDO_SWAP := 0; PATH_SWAPFILE := "swapfile.bin";
  PATH_INSTRUCCIONES := "/scripts/"; MEMORIA_LOG_LEVEL := 0; DUMP_PATH := Some "/dump/" |}.

(** One level of tables below the root. *)
Definition depth : nat := 1.

Definition fs : t_file_system := {|
  script := λ path, if decide (path = "/scripts/hola") then Some ["WRITE 3 hola"; "READ 3 4"; "EXIT"]
                    else None;
  dump_opens := true; dump_room := 1000 |}.

Lemma config_good : config_ok config depth.
Proof. split; vm_compute; intuition congruence. Qed.

Definition ran {S A} (o : M S A) (s : S) : S := match o s with Ok (_, s') => s' | Crash _ => s end.

(** After the start; after process 1 of 32 bytes, after process 2 of 16
    bytes were created; after process 1 was suspended. *)
Definition booted : t_memoria :=
  match memoria_init config true 65536 with
  | Ok m => m
  | Crash _ => {| sems := ∅; global_process_list := []; frames := mk_pool [] 0 0;
                  space := UserSpace.mk_user_space [] 0; swap := SwapManager.mk_swap None (mk_pool [] 0 0) 0;
                  next_table_id := 1; dumps := []; client_out := [] |}
  end.

Definition loaded : t_memoria := ran (create_process config fs 1 32 "hola") booted.
Definition shared : t_memoria := ran (create_process config fs 2 16 "hola") loaded.
Definition swapped_out : t_memoria := ran (swap_out_process config 1) shared.

Lemma booted_ready : mem_ready config booted.
Proof.
  destruct (memoria_init_ready config depth config_good 65536) as (m & Hm & Hr & _); [done|].
  unfold booted. by rewrite Hm.
Qed.

Lemma loaded_ok : create_process config fs 1 32 "hola" booted = Ok (true, loaded).
Proof. by vm_compute. Qed.
Lemma shared_ok : create_process config fs 2 16 "hola" loaded = Ok (true, shared).
Proof. by vm_compute. Qed.
Lemma swapped_out_ok : swap_out_process config 1 shared = Ok (true, swapped_out).
Proof. by vm_compute. Qed.

Lemma loaded_ready : mem_ready config loaded.
Proof.
  destruct booted_ready as [Hm Hs]. split; [|by vm_compute].
  by eapply (create_process_keeps config fs depth config_good); [|exact loaded_ok].
Qed.

Lemma shared_ready : mem_ready config shared.
Proof.
  destruct loaded_ready as [Hm Hs]. split; [|by vm_compute].
  by eapply (create_process_keeps config fs depth config_good); [|exact shared_ok].
Qed.

Lemma swapped_out_ready : mem_ready config swapped_out.
Proof.
  destruct shared_ready as [Hm Hs]. split; [|by vm_compute].
  by eapply (swap_out_keeps config depth config_good); [|exact swapped_out_ok].
Qed.
