(* ===== verification/MemoryProperties.v ===== *)
(** * Properties of the memory module

    The theorems about memoria/, each with a witness on the small system of
    Scenario.v. *)
From S2P Require Import Prelude Commons Enums Buffer Package Packages Roundtrip Config Semaphores.
From S2P Require Import Bitmap Storage PageTable PageTableFacts Memoria MemoriaFacts SwapFacts.
From S2P Require Import Invariant Boot Mmu MmuFacts Server Cache Execution Session DataServer.
From S2P Require Import ParsingFacts RequestFacts Scenario.
From Stdlib Require Import Strings.Byte.
Import Buffer Package UserSpace SwapManager FrameManager.

(** ** Requests on the small system *)

Definition the_package (r : res t_package) : t_package :=
  match r with Ok p => p | Crash _ => mk_package 0 (mk_buffer 0 [] 0) end.

Definition init_request : t_package := the_package (create_init_process_package 1 32 (Some "hola")).
Definition kill_request : t_package := the_package (create_kill_process_package 2).
Definition dump_request : t_package := the_package (create_dump_memory_package 1).

(** The processes of [shared]. *)
Definition first_process : process_info :=
  default {| pid := 0; process_size := 0; is_suspended := false; instructions := []; page_table := Null;
             metrics := no_metrics; allocated_frames := Null |} (global_process_list shared !! 0).
Definition sleeping_process : process_info :=
  default first_process (global_process_list swapped_out !! 0).

Lemma position_append k x l p :
  position_from k x l = None → pid p = x → position_from k x (l ++ [p]) = Some (k + length l).
Proof.
  revert k. induction l as [|q l IH]; intros k; cbn [position_from app length].
  - intros _ Hp. rewrite decide_True by done. f_equal. lia.
  - case_decide; [done|]. intros Hn Hp. rewrite IH by done. f_equal. lia.
Qed.

(** Changing a process, but not its id, moves nobody. *)
Lemma position_insert x l i p q k :
  l !! i = Some q → pid p = pid q → position_from k x (<[i := p]> l) = position_from k x l.
Proof.
  revert i k. induction l as [|r l IH]; intros [|i] k Hi Hp; simplify_eq/=.
  - by rewrite Hp.
  - case_decide; [done|]. by apply IH.
Qed.

Section Claims.
Context {C : CommonsOps} {CL : CommonsLaws C} (config : t_memoria_config) (fs : t_file_system).
Context (d : nat) (Hcfg : config_ok config d).

(** C20: whatever a client asks for, memory stays well formed: every frame
    is free or belongs to exactly one process, the slots of the swap area
    likewise, and every semaphore is released again.  The exception is the
    death of a suspended process. *)
Theorem requests_keep_invariant package m b m' :
  mem_ready config m → ¬ suspended_target package m →
  dispatch config fs package m = Ok (b, m') → mem_ready config m'.
Proof. apply (dispatch_keeps config fs d Hcfg). Qed.

(** The module starts well formed, with every frame free, no process
    and an empty user space of the configured size. *)
Theorem start_ready capacity :
  (SWAP_INITIAL_FRAMES * TAM_PAGINA config <= capacity)%Z →
  ∃ m, memoria_init config true capacity = Ok m ∧ mem_ready config m ∧
    global_process_list m = [] ∧
    pool_free (frames m) = upto (TAM_MEMORIA config / TAM_PAGINA config) ∧
    user_space_size (space m) = TAM_MEMORIA config.
Proof. apply (memoria_init_ready config d Hcfg). Qed.

(** C24: a process whose script opens and whose pages fit is created: it gets
    the fewest frames that hold its size, the first free ones, and its page
    table maps page k to the k-th of them; the rest of memory is as it was. *)
Theorem process_created new_pid size path lines m :
  mem_ready config m → in_i32 new_pid → (0 < size)%Z →
  process_manager_load_script_lines config fs path = Some lines →
  position_from 0 new_pid (global_process_list m) = None →
  let n := pages_needed config size in
  (n <= free_count (frames m))%Z → (n <= pages (ENTRADAS_POR_TABLA config) d)%Z →
  ∃ m', create_process config fs new_pid size path m = Ok (true, m') ∧
    ((n - 1) * TAM_PAGINA config < size <= n * TAM_PAGINA config)%Z ∧
    memoria_maps config d m' new_pid (assigned (take (Z.to_nat n) (pool_free (frames m))) n) ∧
    pool_free (frames m') = drop (Z.to_nat n) (pool_free (frames m)) ∧
    (∃ p, global_process_list m' = global_process_list m ++ [p] ∧ instructions p = lines ∧
      frames_of p = take (Z.to_nat n) (pool_free (frames m))) ∧
    space m' = space m ∧ swap m' = swap m.
Proof.
  intros [Hm Hc] Hpid Hsize Hs Hnew n Hn Hp.
  pose proof (granted_zlen n (frames m) (frames_ok _ _ Hm)) as Hlen.
  pose proof (pages_needed_pos config d Hcfg size Hsize). specialize (Hlen ltac:(unfold n in *; lia)).
  destruct (after_grant_ok n (frames m) (frames_ok _ _ Hm) Hn) as [_ Hfree].
  set (l := granted n (frames m)) in *. set (p := new_process config d new_pid size lines l).
  exists (after_create n p m). split_and!.
  - exact (create_process_sized config fs d Hcfg new_pid size path lines m Hm Hsize Hs Hn Hp).
  - apply (pages_needed_spec config d Hcfg).
  - apply (pages_needed_spec config d Hcfg).
  - split; [split; [|done]|].
    + apply after_create_ok; [exact Hm | | exact Hn | reflexivity | reflexivity].
      constructor; [cbn; lia|]. intros _. eexists _, _. split; reflexivity.
    + split_and!; [done | |].
      * intros k Hk. fold (granted n (frames m)). fold l. unfold assigned. case_decide; [|by vm_compute].
        destruct (znth l k) as [f|] eqn:Hf; [|by vm_compute]. cbn.
        assert (f ∈ l) as Hin%granted_range.
        { unfold znth in Hf. case_decide; [|done]. by eapply list_elem_of_lookup_2. }
        pose proof (pool_small _ (frames_ok _ _ Hm)). unfold in_i32 in *. lia.
      * exists (length (global_process_list m)), p. split_and!.
        -- by apply position_append.
        -- cbn. by rewrite list_lookup_middle.
        -- unfold p, new_process, table_for. cbn. by rewrite Hlen.
  - exact Hfree.
  - by exists p.
  - done.
  - done.
Qed.

(** C34: a process is refused when its script does not open, when there are
    not enough free frames, or when its page table has too few entries;
    a refusal leaves the module exactly as it was, the frames taken in the
    meantime included. *)
Theorem refusal_changes_nothing new_pid size path m :
  mem_ready config m → (0 < size)%Z →
  process_manager_load_script_lines config fs path = None ∨
  (free_count (frames m) < pages_needed config size)%Z ∨
  (pages (ENTRADAS_POR_TABLA config) d < pages_needed config size)%Z →
  create_process config fs new_pid size path m = Ok (false, m).
Proof. intros [Hm _]. exact (create_process_refused config fs d Hcfg new_pid size path m Hm). Qed.

(** [allocate_frames] hands out the first free frames, in order, or
    none at all when there are too few. *)
Theorem allocate_frames_spec p n :
  pool_ok p →
  ((n <= free_count p)%Z → ∃ p', allocate_frames n p = Ok (Some (take (Z.to_nat n) (pool_free p)), p') ∧
     pool_ok p' ∧ pool_free p' = drop (Z.to_nat n) (pool_free p)) ∧
  ((free_count p < n)%Z → allocate_frames n p = Ok (None, p)).
Proof.
  intros Hp. split; intros Hn.
  - destruct (pool_allocate_ok p n Hp Hn) as (Ha & Hok & Hf). by eexists.
  - apply pool_allocate_refused. lia.
Qed.

(** Giving back the frames just allocated restores the allocator, its
    bitmap and its counter. *)
Theorem release_undoes_allocate p n :
  pool_ok p → (n <= free_count p)%Z →
  (l ← allocate_frames n; match l with Some l => release_frames l | None => mret tt end) p = Ok (tt, p).
Proof. apply pool_release_allocated. Qed.

(** C33: user space is an array of bytes: what a write stores a read of the
    same range returns, a read of any other range returns what it returned
    before, and a write beyond the end or of more than a page is dropped. *)
Theorem user_space_is_an_array u a data :
  user_space_ok u →
  (addressable u a (zlen data) → (zlen data <= TAM_PAGINA config)%Z →
   ∃ u', write_to_user_space config a data (zlen data) u = Ok (tt, u') ∧ user_space_ok u' ∧
     read_from_user_space a (zlen data) u' = Ok (data, u') ∧
     ∀ a' size, addressable u a' size → (a' + size <= a ∨ a + zlen data <= a')%Z →
       ∃ old, read_from_user_space a' size u = Ok (old, u) ∧
         read_from_user_space a' size u' = Ok (old, u')) ∧
  (∀ size, (size > TAM_PAGINA config ∨ 0 <= a + size < 2147483648 ∧ a + size > user_space_size u)%Z →
     write_to_user_space config a data size u = Ok (tt, u)).
Proof.
  intros Hu. split; [|by intros size; apply write_refused].
  intros Ha Hp. pose proof (with_bytes_ok u a data Hu Ha) as Hu'.
  exists (with_bytes u a data). split_and!; [by apply write_ok | done | |].
  - rewrite read_ok by done. by rewrite stored_with_bytes_eq.
  - intros a' size Ha' Hd. exists (stored u a' size). pose proof Ha' as (? & ? & _).
    split; [by apply read_ok|]. rewrite read_ok by done. by rewrite stored_with_bytes_ne.
Qed.

(** C35: the bound check of [write_to_user_space] adds a signed address to
    the size before comparing: a range that starts below zero and ends
    inside user space passes it, and the copy leaves the block. *)
Theorem negative_address_escapes u a data size :
  user_space_ok u → (a < 0)%Z → (size <= TAM_PAGINA config)%Z → in_i32 size →
  (0 <= a + size <= user_space_size u)%Z →
  write_to_user_space config a data size u = Crash OutOfBounds.
Proof. apply write_negative_passes. Qed.

(** C25: a process that is suspended and resumed finds in its new frames,
    page by page, what was in its old ones. *)
Theorem swap_round_trip x i p m :
  mem_ready config m → position_from 0 x (global_process_list m) = Some i →
  global_process_list m !! i = Some p → is_suspended p = false → process_size p ≠ 0%Z →
  frames_of p ≠ [] → (zlen (frames_of p) <= free_count (swap_frames (swap m)))%Z →
  ∃ m1 m2 p2,
    swap_out_process config x m = Ok (true, m1) ∧ mem_ok config m1 ∧
    swap_in_process config x m1 = Ok (true, m2) ∧ mem_ok config m2 ∧
    global_process_list m2 !! i = Some p2 ∧ is_suspended p2 = false ∧
    pages_of config (space m2) (frames_of p2) = pages_of config (space m) (frames_of p).
Proof.
  intros [Hm _] Hpos Hi Hs Hsz Hne Hroom. pose proof (page_pos _ _ Hcfg) as Hpage.
  destruct (position_Some _ _ _ Hpos) as (q & Hq & Hpid). rewrite Hi in Hq. injection Hq as <-.
  pose proof (swap_out_ok config d Hcfg x i p m Hm Hpos Hi Hs Hsz Hroom) as Hout.
  pose proof (after_swap_out_ok config d Hcfg i p m Hm Hi Hs Hsz Hroom) as Hm1.
  pose proof (after_swap_out_holds config d Hcfg i p m Hm Hi Hs Hsz Hroom) as Hholds.
  set (slots := granted (zlen (frames_of p)) (swap_frames (swap m))) in *.
  set (m1 := after_swap_out config i p m) in *. set (p1 := suspended slots p).
  set (ps := pages_of config (space m) (frames_of p)) in *.
  assert (zlen slots = zlen (frames_of p)) as Hlen.
  { apply granted_zlen; [apply Hm|]. pose proof (zlen_nonneg (frames_of p)). lia. }
  assert (global_process_list m1 !! i = Some p1) as Hi1.
  { apply list_lookup_insert_eq. by eapply lookup_lt_Some. }
  assert (position_from 0 x (global_process_list m1) = Some i) as Hpos1.
  { change (global_process_list m1) with (<[i := p1]> (global_process_list m)).
    rewrite <- Hpos. by apply position_insert with (q := p). }
  destruct (resident_owned config m i p Hm Hi Hs) as [Hnd Hu].
  destruct (pool_release_ok (frames m) (frames_of p) (frames_ok _ _ Hm) Hnd Hu) as (_ & Hrok & _).
  assert (zlen (frames_of p) <= free_count (frames m1))%Z as Hroom1.
  { change (free_count (frames m1)) with (free_count (frames m) + zlen (frames_of p))%Z.
    pose proof (pool_free_zlen _ (frames_ok _ _ Hm)). lia. }
  assert (slots ≠ []) as Hne1.
  { intros E. rewrite E in Hlen. destruct (frames_of p); [done|]. unfold zlen in Hlen. cbn in Hlen. lia. }
  assert (frames_of p1 = slots) as Hf1 by reflexivity.
  pose proof (swap_in_ok config d Hcfg x i p1 ps m1 Hm1 Hpos1 Hi1 eq_refl Hsz) as Hin.
  rewrite Hf1, Hlen in Hin. specialize (Hin Hne1 Hholds Hroom1).
  assert (Forall (whole config) ps) as Hwhole by (by eapply holds_whole).
  pose proof (after_swap_in_ok config d Hcfg i p1 ps m1 Hm1 Hi1 eq_refl Hsz Hwhole) as Hm2.
  rewrite Hf1, Hlen in Hm2. specialize (Hm2 Hroom1).
  exists m1, (after_swap_in config i p1 ps m1), (resumed (granted (zlen slots) (frames m1)) p1).
  split_and!; [exact Hout | exact Hm1 | exact Hin | exact Hm2 | | reflexivity |].
  - apply list_lookup_insert_eq. by eapply lookup_lt_Some.
  - apply (write_pages_eq config); [done | apply Hm1 | by eapply granted_frame_in | done | | apply granted_NoDup].
    pose proof (granted_zlen (zlen slots) (frames m1) (frames_ok _ _ Hm1)) as Hg.
    rewrite Hlen in Hg |- *. specialize (Hg (conj (zlen_nonneg (frames_of p)) Hroom1)).
    unfold ps, pages_of. rewrite length_fmap. by apply Nat2Z.inj.
Qed.

(** Killing a process that is suspended loses its slots: its frame
    list holds slots of the swap area by then, and the code gives it to the
    allocator of main memory.  Nothing well formed is left. *)
Theorem killing_the_suspended_leaks x i p m b m' :
  mem_ready config m → position_from 0 x (global_process_list m) = Some i →
  global_process_list m !! i = Some p → is_suspended p = true → frames_of p ≠ [] →
  process_manager_delete_process x m = Ok (b, m') → ¬ mem_ready config m'.
Proof.
  intros [Hm _] Hpos Hi Hs Hne H [Hm' _].
  by apply (kill_suspended config x m i p m' b).
Qed.

(** A suspension or resumption that is refused changes nothing: the
    process does not exist, the swap area is full, main memory is full. *)
Theorem refused_swaps_change_nothing x m :
  mem_ready config m →
  (position_from 0 x (global_process_list m) = None → swap_out_process config x m = Ok (false, m)) ∧
  (∀ i p, position_from 0 x (global_process_list m) = Some i → global_process_list m !! i = Some p →
     process_size p ≠ 0%Z →
     (is_suspended p = false → (zlen (frames_of p) > free_count (swap_frames (swap m)))%Z →
      swap_out_process config x m = Ok (false, m)) ∧
     (is_suspended p = true → frames_of p ≠ [] → (zlen (frames_of p) > free_count (frames m))%Z →
      swap_in_process config x m = Ok (false, m))).
Proof.
  intros [Hm _]. split; [by apply swap_out_unknown|]. intros i p Hpos Hi Hsz. split.
  - intros Hs Hroom. by apply (swap_out_full config x i p).
  - intros Hs Hne Hroom. by apply (swap_in_no_room config x i p).
Qed.

(** A process created with size 0 has no frame list, not even an empty
    one: suspending it reads an uninitialised pointer. *)
Theorem sizeless_process_crashes new_pid path lines m :
  mem_ready config m → process_manager_load_script_lines config fs path = Some lines →
  position_from 0 new_pid (global_process_list m) = None →
  ∃ m', create_process config fs new_pid 0 path m = Ok (true, m') ∧
    swap_out_process config new_pid m' = Crash Uninit.
Proof.
  intros [Hm Hc] Hs Hnew. pose proof (create_process_sizeless config fs new_pid path lines m Hm Hs) as Hrun.
  destruct (create_process_keeps config fs d Hcfg _ _ _ _ _ _ Hm Hrun) as [Hm' _].
  eexists. split; [exact Hrun|].
  eapply (swap_out_sizeless config new_pid (length (global_process_list m))); [exact Hm' | | | |].
  - cbn [global_process_list set_processes]. by apply position_append.
  - cbn. by rewrite list_lookup_middle.
  - done.
  - done.
Qed.

(** A resumed process gets new frames and keeps its old page table. *)
Theorem resumed_process_keeps_its_table x i p m :
  mem_ready config m → position_from 0 x (global_process_list m) = Some i →
  global_process_list m !! i = Some p → is_suspended p = true → process_size p ≠ 0%Z →
  frames_of p ≠ [] → (zlen (frames_of p) <= free_count (frames m))%Z →
  ∃ m' p', swap_in_process config x m = Ok (true, m') ∧ global_process_list m' !! i = Some p' ∧
    is_suspended p' = false ∧
    frames_of p' = take (Z.to_nat (zlen (frames_of p))) (pool_free (frames m)) ∧
    page_table p' = page_table p.
Proof.
  intros [Hm _] Hpos Hi Hs Hsz Hne Hroom.
  destruct (swapped_pages config m i p Hm Hi Hs) as [ps Hps].
  eexists _, _. split; [exact (swap_in_ok config d Hcfg x i p ps m Hm Hpos Hi Hs Hsz Hne Hps Hroom)|].
  split_and!; [apply list_lookup_insert_eq; by eapply lookup_lt_Some | reflexivity..].
Qed.

(** An instruction fetched over the connection is, once decoded, the
    line of the script at the program counter. *)
Theorem fetch_decodes_the_script m x pc i p instr :
  mem_ready config m → in_i32 x → in_i32 pc →
  position_from 0 x (global_process_list m) = Some i → global_process_list m !! i = Some p →
  znth (instructions p) pc = Some (print_instruction instr) →
  instruction_ok instr → fits (print_instruction instr) →
  ∃ req reply m', create_fetch_package x pc = Ok req ∧
    memoria_serve config fs req m = Ok (Some reply, m') ∧
    opcode_is Opcode.INSTRUCTION reply = true ∧ decode reply = Ok instr ∧
    space m' = space m ∧ owners m' = owners m.
Proof.
  intros Hm Hx Hpc Hpos Hi Hline Hok Hfit.
  destruct (serve_fetch config fs m x pc i p instr Hm Hx Hpc Hpos Hi Hline Hok Hfit)
    as (req & reply & Hreq & Hs & Hop & Hdec).
  exists req, reply, (set_out [] (counted i p m)). split_and!; try done.
  exact (owners_metered count_instruction i p m Hi).
Qed.

(** A memory dump is the contents of the process's frames, in order,
    and the client is told it succeeded. *)
Theorem dump_is_the_process m x i p package reply :
  mem_ready config m → position_from 0 x (global_process_list m) = Some i →
  global_process_list m !! i = Some p → is_suspended p = false → process_size p ≠ 0%Z →
  frames_of p ≠ [] → dump_opens fs = true → (zlen (frames_of p) * TAM_PAGINA config <= dump_room fs)%Z →
  read_with read_dump_memory_package package = Ok x →
  create_confirmation_package true = Ok reply →
  dump_memory_request_handler config fs package m
  = Ok (tt, set_out (send_package (client_out m) reply)
      (add_dump (x, concat (pages_of config (space m) (frames_of p))) m)).
Proof. intros [Hm _]. by apply (dump_ok config fs d Hcfg). Qed.

(** C29: the packages of a session are served in the order in which they
    were sent, each once, and the loop ends with the disconnection. *)
Theorem session_in_order l m m' :
  Forall transmissible l → serve_all config fs l m = Ok (true, m') →
  client_handler config fs (S (length (wire l))) (wire l) m = Ok ([], m').
Proof. apply session_ok. Qed.

(** The bound on the turns of the session loop is enough: any two
    bounds above the number of bytes received give the same run. *)
Theorem session_needs_no_more_fuel fuel fuel' l m :
  length l < fuel → length l < fuel' →
  client_handler config fs fuel l m = client_handler config fs fuel' l m.
Proof. apply client_handler_fuel. Qed.
End Claims.

(** ** Concrete runs *)

(** Process 3 takes the frames that process 1 left, process 1 comes back. *)
Definition resumed_beside : t_memoria :=
  ran (create_process config fs 3 16 "hola";; swap_in_process config 1) swapped_out.

(** The frame a page-table walk finds for page 0 of the [i]-th process. *)
Definition frame_of_first_page (i : nat) (m : t_memoria) : option Z :=
  match global_process_list m !! i with
  | Some p =>
      match page_table p with
      | Ptr t =>
          leaf ← table_at t [0%Z]; e ← znth (entries leaf) 0;
          match e with LastEntry _ f => Some f | _ => None end
      | _ => None
      end
  | None => None
  end.


(** A disk with room for one page only. *)
Definition small_disk : t_memoria :=
  ran (create_process config fs 1 32 "hola")
    (match memoria_init config true 16 with Ok m => m | Crash _ => booted end).

(** A suspension that fails while it writes keeps the slots it took:
    they are marked taken, and no process holds them. *)
Theorem failed_suspension_leaks_slots :
  ∃ m', swap_out_process config 1 small_disk = Ok (false, m') ∧
    free_count (swap_frames (swap small_disk)) = 4096%Z ∧
    free_count (swap_frames (swap m')) = 4094%Z ∧
    swapped (global_process_list m') = [] ∧
    resident (global_process_list m') = resident (global_process_list small_disk).
Proof. eexists. split; [vm_compute; reflexivity|]. split_and!; vm_compute; reflexivity. Qed.

(** ** Witnesses *)

Lemma requests_keep_invariant_witness : mem_ready config (ran (dispatch config fs init_request) booted).
Proof.
  apply (requests_keep_invariant config fs depth config_good init_request booted true).
  - exact booted_ready.
  - intros [H _]. vm_compute in H. discriminate H.
  - vm_compute. reflexivity.
Defined.

Lemma start_ready_witness :
  ∃ m, memoria_init config true 65536 = Ok m ∧ mem_ready config m ∧
    global_process_list m = [] ∧ pool_free (frames m) = upto 4 ∧ user_space_size (space m) = 64%Z.
Proof. apply (start_ready config depth config_good 65536). vm_compute. discriminate. Defined.

Lemma process_created_witness :
  ∃ m', create_process config fs 2 16 "hola" loaded = Ok (true, m') ∧
    ((1 - 1) * 16 < 16 <= 1 * 16)%Z ∧
    memoria_maps config depth m' 2 (assigned [2%Z] 1) ∧
    pool_free (frames m') = [3%Z] ∧
    (∃ p, global_process_list m' = global_process_list loaded ++ [p] ∧
       instructions p = ["WRITE 3 hola"; "READ 3 4"; "EXIT"]%string ∧ frames_of p = [2%Z]) ∧
    space m' = space loaded ∧ swap m' = swap loaded.
Proof.
  apply (process_created config fs depth config_good 2 16 "hola"); [exact loaded_ready | done | done | ..];
    vm_compute; first [reflexivity | discriminate].
Defined.

Lemma refusal_changes_nothing_witness : create_process config fs 2 48 "hola" loaded = Ok (false, loaded).
Proof.
  apply (refusal_changes_nothing config fs depth config_good); [exact loaded_ready | done |].
  right; left. vm_compute. reflexivity.
Defined.

Lemma allocate_frames_spec_witness :
  ∃ p', allocate_frames 1 (frames loaded) = Ok (Some [2%Z], p') ∧ pool_ok p' ∧ pool_free p' = [3%Z].
Proof.
  apply (allocate_frames_spec (frames loaded) 1 (frames_ok _ _ (proj1 loaded_ready))). vm_compute. discriminate.
Defined.

Lemma release_undoes_allocate_witness :
  (l ← allocate_frames 2; match l with Some l => release_frames l | None => mret tt end) (frames loaded)
  = Ok (tt, frames loaded).
Proof.
  apply (release_undoes_allocate (frames loaded) 2 (frames_ok _ _ (proj1 loaded_ready))). vm_compute. discriminate.
Defined.

Lemma user_space_is_an_array_witness :
  ∃ u', write_to_user_space config 3 [x61; x62]%byte 2 (space booted) = Ok (tt, u') ∧
    read_from_user_space 3 2 u' = Ok ([x61; x62]%byte, u').
Proof.
  destruct (user_space_is_an_array config (space booted) 3 [x61; x62]%byte (space_ok _ _ (proj1 booted_ready)))
    as [H _].
  destruct H as (u' & Hw & _ & Hr & _); [vm_compute; repeat split; discriminate | vm_compute; discriminate |].
  exists u'. exact (conj Hw Hr).
Defined.

Lemma negative_address_escapes_witness :
  write_to_user_space config (-4) [x61; x62; x63; x64; x65]%byte 5 (space booted) = Crash OutOfBounds.
Proof.
  apply (negative_address_escapes config (space booted) (-4) _ 5 (space_ok _ _ (proj1 booted_ready)));
    vm_compute; repeat split; first [reflexivity | discriminate].
Defined.

Lemma swap_round_trip_witness :
  ∃ m1 m2 p2, swap_out_process config 1 shared = Ok (true, m1) ∧ mem_ok config m1 ∧
    swap_in_process config 1 m1 = Ok (true, m2) ∧ mem_ok config m2 ∧
    global_process_list m2 !! 0 = Some p2 ∧ is_suspended p2 = false ∧
    pages_of config (space m2) (frames_of p2) = pages_of config (space shared) (frames_of first_process).
Proof.
  apply (swap_round_trip config depth config_good 1 0 first_process shared shared_ready);
    vm_compute; first [reflexivity | discriminate].
Defined.

Lemma killing_the_suspended_leaks_witness :
  ¬ mem_ready config (ran (process_manager_delete_process 1) swapped_out).
Proof.
  apply (killing_the_suspended_leaks config 1 0 sleeping_process swapped_out true);
    [exact swapped_out_ready | ..]; vm_compute; first [reflexivity | discriminate].
Defined.

Lemma refused_swaps_change_nothing_witness : swap_out_process config 7 shared = Ok (false, shared).
Proof. apply (proj1 (refused_swaps_change_nothing config 7 shared shared_ready)). vm_compute. reflexivity. Defined.

Lemma sizeless_process_crashes_witness :
  ∃ m', create_process config fs 3 0 "hola" shared = Ok (true, m') ∧ swap_out_process config 3 m' = Crash Uninit.
Proof.
  eapply (sizeless_process_crashes config fs depth config_good 3 "hola"); [exact shared_ready | |];
    vm_compute; reflexivity.
Defined.

(** In [resumed_beside] the frame that the table of process 1 names for its
    first page belongs to process 3, although memory is well formed. *)
Lemma resumed_process_keeps_its_table_witness :
  (∃ m' p', swap_in_process config 1 swapped_out = Ok (true, m') ∧ global_process_list m' !! 0 = Some p' ∧
     is_suspended p' = false ∧ frames_of p' = [0%Z; 1%Z] ∧ page_table p' = page_table sleeping_process) ∧
  frame_of_first_page 0 resumed_beside = Some 0%Z ∧
  frames_of <$> global_process_list resumed_beside = [[1%Z; 3%Z]; [2%Z]; [0%Z]].
Proof.
  split; [|split; vm_compute; reflexivity].
  apply (resumed_process_keeps_its_table config depth config_good 1 0 sleeping_process swapped_out);
    [exact swapped_out_ready | ..]; vm_compute; first [reflexivity | discriminate].
Defined.

Definition exit_instruction : t_instruction :=
  {| instruction_code := InstructionCode.EXIT; operand_numeric1 := 0; operand_numeric2 := 0;
     operand_string_size := 0; operand_string := None |}.

Lemma fetch_decodes_the_script_witness :
  ∃ req reply m', create_fetch_package 1 2 = Ok req ∧
    memoria_serve config fs req shared = Ok (Some reply, m') ∧
    opcode_is Opcode.INSTRUCTION reply = true ∧ decode reply = Ok exit_instruction ∧
    space m' = space shared ∧ owners m' = owners shared.
Proof.
  apply (fetch_decodes_the_script config fs shared 1 2 0 first_process exit_instruction shared_ready);
    [done | done | vm_compute; reflexivity.. | by repeat split | apply (bool_decide_unpack _); by vm_compute].
Defined.

Lemma dump_is_the_process_witness :
  dump_memory_request_handler config fs dump_request shared
  = Ok (tt, set_out (send_package (client_out shared) (the_package (create_confirmation_package true)))
      (add_dump (1%Z, concat (pages_of config (space shared) (frames_of first_process))) shared)).
Proof.
  apply (dump_is_the_process config fs depth config_good shared 1 0 first_process); [exact shared_ready | ..];
    vm_compute; first [reflexivity | discriminate].
Defined.

Lemma session_in_order_witness :
  client_handler config fs (S (length (wire [init_request; dump_request]))) (wire [init_request; dump_request]) booted
  = Ok ([], ran (serve_all config fs [init_request; dump_request]) booted).
Proof.
  apply session_in_order; [|vm_compute; reflexivity].
  repeat constructor; intros rest.
  - destruct (init_process_delivers "hola" ltac:(apply (bool_decide_unpack _); by vm_compute) 1 32) as (p & Hp & _ & _ & Hr); [by vm_compute..|].
    unfold init_request. rewrite Hp. apply Hr.
  - destruct (dump_memory_delivers 1) as (p & Hp & _ & _ & Hr); [by vm_compute|].
    unfold dump_request. rewrite Hp. apply Hr.
Defined.

Lemma session_needs_no_more_fuel_witness :
  client_handler config fs 100 (wire [dump_request]) booted = client_handler config fs 13 (wire [dump_request]) booted.
Proof. apply session_needs_no_more_fuel; vm_compute; lia. Defined.
