(* ===== verification/CpuProperties.v ===== *)
(** * Properties of the CPU module

    Address translation, the replacement algorithms, reads and writes of a
    process through the memory module, the page cache, the program counter
    and the interrupts. *)
From S2P Require Import Prelude Commons Enums Buffer Package Packages Roundtrip Config Semaphores.
From S2P Require Import Bitmap Storage PageTable PageTableFacts Memoria MemoriaFacts SwapFacts.
From S2P Require Import Invariant Boot Mmu MmuFacts Server Cache CacheFacts Execution Session.
From S2P Require Import DataServer ParsingFacts ExecutionFacts CacheMemory CpuProgress RequestFacts Scenario.
From Stdlib Require Import Strings.Byte.
Import Buffer Package UserSpace.

(** ** A CPU beside the small memory *)

Definition tlb2 (a : TLBReplacementAlgorithm) : TLBConfig := {| tlb_entry_count := 2; tlb_replacement_algo := a |}.
Definition no_cache : CacheConfig :=
  {| cache_entry_count := 0; cache_replacement_algo := CACHE_ALGO_CLOCK; retardo_cache := 0 |}.
Definition cache2 (a : CacheReplacementAlgorithm) : CacheConfig :=
  {| cache_entry_count := 2; cache_replacement_algo := a; retardo_cache := 0 |}.

Definition cached_page (valid : bool) (page pid : Z) (use modified : bool) : CacheEntry :=
  mk_cache valid page pid (replicate 16 x00) use modified 0 0.

Definition mmu_beside (tlb : list TLBEntry) (cache : list CacheEntry) (m : t_memoria) : t_mmu t_memoria :=
  mk_mmu tlb cache 0 5 0 m.

(** Process 1 of [shared], whose pages 0 and 1 are in frames 0 and 1. *)
Definition cpu1 (tlb : list TLBEntry) (cache : list CacheEntry) : t_cpu t_memoria :=
  mk_cpu (mmu_beside tlb cache shared) 1 0 [] [] [] [] [].

Definition fr1 : Z → Z := assigned [0%Z; 1%Z] 2.
Definition fr2 : Z → Z := assigned [2%Z] 1.

Definition process_at (i : nat) : process_info :=
  default {| pid := 0; process_size := 0; is_suspended := false; instructions := []; page_table := Null;
             metrics := no_metrics; allocated_frames := Null |} (global_process_list shared !! i).

Lemma page_cases (P : Z → Prop) : P 0%Z → P 1%Z → P 2%Z → P 3%Z → ∀ p, (0 <= p < 4)%Z → P p.
Proof.
  intros. assert (p = 0 ∨ p = 1 ∨ p = 2 ∨ p = 3)%Z as Hp by lia.
  destruct Hp as [->|[->|[->| ->]]]; done.
Qed.

Lemma shared_maps1 : memoria_maps config depth shared 1 fr1.
Proof.
  split_and!; [exact shared_ready | by vm_compute | apply page_cases; by vm_compute |].
  exists 0, (process_at 0). split_and!; vm_compute; reflexivity.
Qed.

Lemma shared_maps2 : memoria_maps config depth shared 2 fr2.
Proof.
  split_and!; [exact shared_ready | by vm_compute | apply page_cases; by vm_compute |].
  exists 1, (process_at 1). split_and!; vm_compute; reflexivity.
Qed.

Section Claims.
Context {C : CommonsOps} {CL : CommonsLaws C} (config : t_memoria_config) (fs : t_file_system).
Context (d : nat) (Hcfg : config_ok config d).
Context (g_tlb_config : TLBConfig) (Hcount : (0 <= tlb_entry_count g_tlb_config)%Z).
Local Abbreviation ps := (TAM_PAGINA config).

Lemma in_page fr c l size :
  cpu_ready config fs d Hcfg g_tlb_config fr c → accessible config d fr (space (memory (cpu_mmu c))) l size →
  reaches config d fr (space (memory (cpu_mmu c))) l size.
Proof.
  intros (_ & (Hready & _) & _) Hacc. apply accessible_reaches; [exact Hcfg | apply (space_ok _ _ Hready) | exact Hacc].
Qed.

(** C23: the CPU and the memory module agree on addresses: whatever is in
    the TLB and whatever its algorithm, also without a TLB, an access of
    the running process at logical address l goes to byte l mod ps of the
    frame that the process's page table, kept by memory and read over the
    connection, has for page l / ps. *)
Theorem translation_end_to_end fr c l size :
  cpu_ready config fs d Hcfg g_tlb_config fr c →
  accessible config d fr (space (memory (cpu_mmu c))) l size →
  ∃ s, uncached_address (MS := memoria_serve config fs) (mmu_config_of config) g_tlb_config l c
      = Ok ((fr (l / ps) * ps + l `mod` ps)%Z, set_mmu s c) ∧
    cpu_ready config fs d Hcfg g_tlb_config fr (set_mmu s c) ∧
    space (memory s) = space (memory (cpu_mmu c)) ∧ owners (memory s) = owners (memory (cpu_mmu c)).
Proof.
  intros Hc Hacc.
  destruct (uncached_address_ok config fs d Hcfg g_tlb_config Hcount fr c l size Hc (in_page fr c l size Hc Hacc))
    as (s & Hs & Hr & Hk & Hsp & _ & _ & Ho).
  exists s. split; [exact Hs|]. split; [split; [exact Hr | apply Hk, Hc]|]. exact (conj Hsp Ho).
Qed.

Context (g_cache_config : CacheConfig) (Hcache : (cache_entry_count g_cache_config <= 0)%Z).
Local Abbreviation run_instruction := (run_instruction config fs g_tlb_config g_cache_config).

(** Without a cache, a READ after a WRITE of the same process at the
    same logical address returns what was written, and both advance the
    program counter by one. *)
Theorem read_after_write fr c l v :
  cpu_ready config fs d Hcfg g_tlb_config fr c →
  accessible config d fr (space (memory (cpu_mmu c))) l (strlen v) → (strlen v < 2147483000)%Z →
  ∃ c', (run_instruction (write_instruction l v);; run_instruction (read_instruction l (strlen v))) c
      = Ok (false, c') ∧
    read_log c' = read_log c ++ [(physical config fr l, String.list_byte_of_string v)] ∧
    cpu_pc c' = i32 (i32 (cpu_pc c + 1) + 1) ∧ cpu_pid c' = cpu_pid c.
Proof.
  intros Hc Hacc Hsmall.
  destruct (write_instruction_ok config fs d Hcfg g_tlb_config Hcount g_cache_config Hcache fr c l v Hc (in_page fr c l _ Hc Hacc) Hsmall)
    as (s & Hw & Hc1 & Hsp & _).
  pose proof Hc as (_ & (Hready & _) & _). pose proof (space_ok _ _ Hready) as Hu.
  destruct (accessible_address config d Hcfg fr _ l (strlen v) Hu Hacc) as [Hadr _].
  assert (accessible config d fr (space (memory (cpu_mmu (stepped s c)))) l (strlen v)) as Hacc1.
  { cbn. rewrite Hsp. exact Hacc. }
  destruct (read_instruction_ok config fs d Hcfg g_tlb_config Hcount g_cache_config Hcache fr _ l (strlen v)
    Hc1 (in_page _ _ _ _ Hc1 Hacc1) Hsmall) as (s2 & Hr & _).
  eexists. split; [run (exact Hw); exact Hr|]. split_and!; [|done|done].
  cbn. rewrite Hsp. unfold strlen. by rewrite stored_with_bytes_eq.
Qed.

(** A WRITE of one process changes no byte of another: the frames of
    every other resident process keep their contents. *)
Theorem writes_are_isolated fr c l v i j p q f g :
  cpu_ready config fs d Hcfg g_tlb_config fr c →
  accessible config d fr (space (memory (cpu_mmu c))) l (strlen v) → (strlen v < 2147483000)%Z →
  let m := memory (cpu_mmu c) in
  global_process_list m !! i = Some p → global_process_list m !! j = Some q → i ≠ j →
  is_suspended p = false → is_suspended q = false →
  f = fr (l / ps)%Z → f ∈ frames_of p → g ∈ frames_of q →
  ∃ s, run_instruction (write_instruction l v) c = Ok (false, stepped s c) ∧
    frame_page config (space (memory s)) g = frame_page config (space m) g.
Proof.
  intros Hc Hacc Hsmall m Hi Hj Hne Hp Hq Hf Hfp Hgq.
  destruct (write_instruction_ok config fs d Hcfg g_tlb_config Hcount g_cache_config Hcache fr c l v Hc (in_page fr c l _ Hc Hacc) Hsmall)
    as (s & Hw & _ & Hsp & _).
  exists s. split; [exact Hw|]. rewrite Hsp. fold m.
  pose proof Hc as (_ & (Hready & _) & _). fold m in Hready.
  pose proof (frames_apart config m i j p q f g Hready Hne Hi Hj Hp Hq Hfp Hgq) as Hapart.
  destruct (resident_owned config m j q Hready Hj Hq) as [_ Hu]. rewrite Forall_forall in Hu.
  pose proof (in_use_frame_in config d Hcfg m g Hready (Hu g Hgq)) as [Hg0 Hg1].
  destruct (accessible_address config d Hcfg fr _ l (strlen v) (space_ok _ _ Hready) Hacc) as [Hadr _].
  pose proof Hacc as (_ & _ & [_ Ho]). pose proof (page_positive config d Hcfg) as Hps.
  pose proof (Z.mod_pos_bound l ps Hps).
  unfold frame_page. apply stored_with_bytes_ne; [apply (space_ok _ _ Hready) | exact Hadr | nia | lia |].
  fold (strlen v). unfold physical. rewrite <- Hf.
  destruct (decide (f < g)%Z); [right | left]; nia.
Qed.
End Claims.

(** ** The TLB, in front of any memory module *)
Section Tlb.
Context {C : CommonsOps} {CL : CommonsLaws C} {Srv : Type} {MS : MemoryServer Srv}.
Context (g_mmu_config : MMUConfig) (g_tlb_config : TLBConfig).
Local Abbreviation E := (entries_per_table g_mmu_config).
Context (d : nat) {PS : PageServer Srv E d}.

(** C26: against any memory module that answers page-entry requests from one
    page table per process, looking a page up gives the frame of that table,
    and leaves a TLB that is within its size, holds a page of a process at
    most once, and agrees with the page tables. *)
Theorem tlb_is_transparent s page pid fr :
  (0 <= tlb_entry_count g_tlb_config)%Z → (0 < E)%Z →
  page_table_levels g_mmu_config = Z.of_nat (S d) → in_i32 (pages E d) →
  tlb_ok g_tlb_config s → tlb_coherent g_mmu_config d s → maps (memory s) pid fr →
  (0 <= page < pages E d)%Z →
  ∃ s', frame_of_page g_mmu_config g_tlb_config page pid s = Ok (fr page, s') ∧
    tlb_ok g_tlb_config s' ∧ tlb_coherent g_mmu_config d s' ∧ maps (memory s') pid fr ∧
    g_cache s' = g_cache s.
Proof.
  intros Hcount HE Hlev Hsm Hok Hco Hm Hp.
  destruct (frame_of_page_ok g_mmu_config g_tlb_config d Hcount HE Hlev Hsm s page pid fr (conj Hok Hco) Hm Hp)
    as (s' & Hf & [Hok' Hco'] & Hk & Hc & _).
  exists s'. split_and!; [done.. | | done]. by apply (kept_maps _ _ _ _ Hk).
Qed.

(** Under FIFO a full TLB is a queue: an insertion drops the oldest
    entry and appends the new one. *)
Theorem fifo_evicts_the_oldest (s : t_mmu Srv) page frame pid :
  tlb_ok g_tlb_config s → tlb_replacement_algo g_tlb_config = TLB_ALGO_FIFO →
  (0 < tlb_entry_count g_tlb_config)%Z → zlen (g_tlb s) = tlb_entry_count g_tlb_config →
  ∃ s', tlb_add_entry g_tlb_config page frame pid s = Ok (tt, s') ∧
    fifo_queue s' = tail (fifo_queue s) ++ [new_entry page frame pid s].
Proof. apply fifo_add_full. Qed.

(** Under LRU a full TLB replaces its entry with the least timestamp,
    the first of them, and no other. *)
Theorem lru_evicts_the_least_recent (s : t_mmu Srv) page frame pid :
  tlb_ok g_tlb_config s → tlb_replacement_algo g_tlb_config = TLB_ALGO_LRU →
  (0 < tlb_entry_count g_tlb_config)%Z → zlen (g_tlb s) = tlb_entry_count g_tlb_config →
  Forall (λ e, lru_timestamp e < 2 ^ 64 - 1)%Z (g_tlb s) →
  ∃ s' v e, tlb_add_entry g_tlb_config page frame pid s = Ok (tt, s') ∧
    g_tlb s !! v = Some e ∧ Forall (λ x, lru_timestamp e <= lru_timestamp x)%Z (g_tlb s) ∧
    g_tlb s' = <[v := new_entry page frame pid s]> (g_tlb s).
Proof.
  intros Hok Ha Hpos Hfull Hts.
  destruct (oldest_least (g_tlb s) 0 (2 ^ 64 - 1) (-1)) as (v & e & Hv & He & _ & Hall).
  { destruct (g_tlb s) as [|x l]; [unfold zlen in Hfull; cbn in Hfull; lia|].
    exists x. split; [by left|]. by inversion Hts. }
  eexists _, v, e. split; [by apply tlb_add_lru|]. split_and!; [done | done |].
  cbn. rewrite Hv, Z.add_0_l. unfold zset. by rewrite decide_True, Nat2Z.id by lia.
Qed.
End Tlb.

(** ** The page cache *)
Section PageCache.
Context {C : CommonsOps} {CL : CommonsLaws C} {Srv : Type} {MS : MemoryServer Srv}.
Context (g_mmu_config : MMUConfig) (g_tlb_config : TLBConfig) (g_cache_config : CacheConfig).
Local Abbreviation n := (cache_entry_count g_cache_config).

(** C28: CLOCK ends, and its victim is the first entry from the pointer on
    that is free or not used since the pointer last passed; when there is
    none, the entry at the pointer after a full turn.  The entries passed
    lose their use bit, the others keep it, and the pointer stops behind the
    victim. *)
Theorem clock_victim (s : t_mmu Srv) :
  clock_ok g_cache_config s →
  ∃ j, (Z.of_nat j <= n)%Z ∧
    cache_find_victim_clock g_cache_config s
    = Ok (index g_cache_config s j, next g_cache_config (chances g_cache_config j s)) ∧
    (∀ i, i < j → (Z.of_nat i < n)%Z → ¬ holds_at g_cache_config unused s i) ∧
    ((Z.of_nat j < n)%Z → holds_at g_cache_config unused s j) ∧
    (∀ i, (Z.of_nat i < n)%Z →
      znth (g_cache (chances g_cache_config j s)) (index g_cache_config s i)
      = if decide (i < j) then with_use false <$> ahead g_cache_config s i
        else ahead g_cache_config s i).
Proof. apply clock_spec. Qed.

(** C27: CLOCK-M ends within two rounds, and its victim is of the least
    class, the first of its class from the pointer on: free or neither used
    nor modified, then modified only, then used only, then both. *)
Theorem clock_m_victim (s : t_mmu Srv) :
  clock_ok g_cache_config s →
  ∃ j s' e, cache_find_victim_clock_m g_cache_config s = Ok (index g_cache_config s j, s') ∧
    (Z.of_nat j < n)%Z ∧ ahead g_cache_config s j = Some e ∧
    (∀ i x, (Z.of_nat i < n)%Z → ahead g_cache_config s i = Some x → class e <= class x) ∧
    (∀ i x, i < j → ahead g_cache_config s i = Some x → class e < class x).
Proof.
  intros Hs. destruct (clock_m_ok g_cache_config s Hs) as (j & s' & Hf & Hj & e & He & H1 & H2).
  by exists j, s', e.
Qed.

(** A clean-up leaves nothing of the process behind: no entry of the
    cache is valid or modified, and the TLB is empty. *)
Theorem cleanup_leaves_nothing (s : t_mmu Srv) u s' :
  zlen (g_cache s) = n →
  mmu_process_cleanup g_mmu_config g_tlb_config g_cache_config s = Ok (u, s') →
  ((0 < tlb_entry_count g_tlb_config)%Z → g_tlb s' = []) ∧
  Forall (λ e, is_valid e = false ∧ modified_bit e = false) (g_cache s') ∧
  zlen (g_cache s') = n.
Proof.
  intros Hl H. destruct (cleanup_ok g_mmu_config g_tlb_config g_cache_config s u s' Hl H) as (Ht & Hf & Hz).
  split_and!; [done | | by rewrite Hz]. eapply Forall_impl; [exact Hf|]. by intros e (? & ? & _).
Qed.

Context (Hps : (0 <= mmu_page_size g_mmu_config < 2147483648)%Z).
Local Abbreviation ps := (mmu_page_size g_mmu_config).

(** A WRITE that misses takes a page over without reading it.  A
    second WRITE to the page that leaves a gap extends the modified range
    over the gap, which holds zeros: the write-back will put zeros over bytes
    of memory that the process never wrote. *)
Theorem write_miss_loses_the_gap index page o1 o2 pid v1 v2 s1 s2 (c : t_cpu Srv) e :
  znth (g_cache (cpu_mmu c)) index = Some e →
  inside ps o1 s1 → inside ps o2 s2 → (s1 <= zlen v1)%Z → (s2 <= zlen v2)%Z → (o1 + s1 <= o2)%Z →
  ∃ e2, (claim_entry g_mmu_config index page o1 s1 pid;; write_cached index o1 s1 v1;;
         write_cached index o2 s2 v2) c
      = Ok (tt, set_mmu (put_entry index e2 (cpu_mmu c)) c) ∧
    modified_bit e2 = true ∧ modified_start e2 = o1 ∧ modified_end e2 = (o2 + s2)%Z ∧
    slice (Z.to_nat (o1 + s1)) (Z.to_nat (o2 - (o1 + s1))) (content e2)
      = replicate (Z.to_nat (o2 - (o1 + s1))) x00.
Proof. by apply write_gap. Qed.

(** C37: a lookup in the page cache does not compare the process: a WRITE
    of one process to a page number that another left in the cache goes into
    the other's page, which stays its own and will be written to its frame. *)
Theorem cache_serves_foreign_pages (c : t_cpu Srv) l size v i e :
  (0 < ps)%Z → (0 <= l < 2147483648)%Z → inside ps (l `mod` ps) size → (size <= zlen v)%Z →
  list_find (g_cache (cpu_mmu c)) (λ e, is_valid e && bool_decide (cache_page e = l / ps)%Z) = Some i →
  g_cache (cpu_mmu c) !! i = Some e → entry_ok ps e → cache_pid e ≠ cpu_pid c →
  ∃ c' e', exec_write_cached g_mmu_config g_tlb_config g_cache_config l size v c = Ok (false, c') ∧
    g_cache (cpu_mmu c') !! i = Some e' ∧ cache_pid e' = cache_pid e ∧ modified_bit e' = true ∧
    slice (Z.to_nat (l `mod` ps)) (Z.to_nat size) (content e') = take (Z.to_nat size) v ∧
    cpu_pid c' = cpu_pid c.
Proof.
  intros Hpos Hl Hin Hv Hfind He Hok Hpid. pose proof Hin as (Ho & Hs & Hi).
  assert (znth (g_cache (cpu_mmu c)) (Z.of_nat i) = Some e) as Hz by (by rewrite znth_nat).
  assert (l / ps <= l)%Z by (apply Z.div_le_upper_bound; nia).
  pose proof (Z.div_pos l ps ltac:(lia) Hpos).
  set (e1 := with_use true e).
  assert (znth (g_cache (put_entry (Z.of_nat i) e1 (cpu_mmu c))) (Z.of_nat i) = Some e1) as Hz1
    by (by eapply put_entry_znth).
  assert (entry_ok ps e1) as Hok1 by (by destruct Hok; constructor).
  pose proof (write_cached_ok ps (Z.of_nat i) (l `mod` ps) size v
    (set_mmu (put_entry (Z.of_nat i) e1 (cpu_mmu c)) c) e1 Hz1 Hok1 Hin Hv) as Hw.
  set (data := take (Z.to_nat size) v) in *.
  assert (zlen data = size) as Hd by (unfold data, zlen in *; rewrite length_take; lia).
  eexists _, (written (l `mod` ps) data e1). split.
  - unfold exec_write_cached. run done.
    run (unfold int_div; rewrite decide_False by lia; done).
    rewrite Z.quot_div_nonneg, i32_id by (try lia; unfold in_i32; lia).
    run (unfold int_mod; rewrite decide_False by lia; done). rewrite Z.rem_mod_nonneg by lia.
    run (unfold on_mmu, zoom, cache_find_entry; run done; rewrite Hfind; run (by apply load_entry_ok);
         run (apply store_entry_ok); reflexivity).
    run (exact Hw). run done. reflexivity.
  - split_and!; try done.
    + apply (put_entry_znth _ _ _ (written (l `mod` ps) data e1)) in Hz1. by rewrite znth_nat in Hz1.
    + unfold written, extend_range. by destruct (modified_bit e1).
    + rewrite <- Hd at 1. unfold zlen. rewrite Nat2Z.id. apply (written_read ps); [done|]. by rewrite Hd.
Qed.
End PageCache.

(** ** Eviction *)
Section Eviction.
Context {C : CommonsOps} {CL : CommonsLaws C} {Srv : Type} {MS : MemoryServer Srv}.
Context (g_mmu_config : MMUConfig) (g_tlb_config : TLBConfig) (g_cache_config : CacheConfig).
Local Abbreviation E := (entries_per_table g_mmu_config).
Context (d : nat) {PS : PageServer Srv E d}.

(** With a TLB, a modified page in frame 0 cannot be evicted: its
    address is 0, which the code takes for an error.  The page is not
    written back, and the caller gets no entry. *)
Theorem frame_zero_is_never_evicted s s1 index e pid fr :
  (0 < tlb_entry_count g_tlb_config)%Z → (0 < E)%Z →
  page_table_levels g_mmu_config = Z.of_nat (S d) → in_i32 (pages E d) →
  cache_replacement_algo g_cache_config = CACHE_ALGO_CLOCK →
  cache_find_victim_clock g_cache_config s = Ok (index, s1) →
  znth (g_cache s1) index = Some e → is_valid e = true → modified_bit e = true →
  ready g_mmu_config g_tlb_config d s1 → maps (memory s1) (cache_pid e) fr →
  (0 <= cache_page e < pages E d)%Z → fr (cache_page e) = 0%Z →
  ∃ s', select_victim_entry g_mmu_config g_tlb_config g_cache_config pid s = Ok (None, s') ∧
    g_cache s' = g_cache s1.
Proof.
  intros Ht HE Hlev Hsm Ha Hv He Hval Hmod Hr Hm Hp Hfr.
  destruct (frame_of_page_ok g_mmu_config g_tlb_config d ltac:(lia) HE Hlev Hsm s1 (cache_page e) (cache_pid e) fr
    Hr Hm Hp) as (s' & Hf & _ & _ & Hc & _).
  exists s'. split; [|done]. unfold select_victim_entry. rewrite decide_True by done.
  run (exact Hv). run (by apply load_entry_ok). rewrite Hval, Hmod. cbn [andb].
  run (unfold victim_address; rewrite decide_True by done;
       run (unfold mmu_translate_address_with_page_number; run (exact Hf); reflexivity);
       rewrite Hfr, i32_id, decide_True by done; reflexivity).
  done.
Qed.
End Eviction.

Section WriteBackClaim.
Context {C : CommonsOps} {CL : CommonsLaws C} (config : t_memoria_config) (fs : t_file_system).
Context (d : nat) (Hcfg : config_ok config d).
Context (g_tlb_config : TLBConfig) (Hcount : (0 <= tlb_entry_count g_tlb_config)%Z).
Local Abbreviation ps := (TAM_PAGINA config).
Local Abbreviation E := (ENTRADAS_POR_TABLA config).

(** C32: the clean-up of a modified page writes exactly its modified range,
    to that range of the frame the page table has for it, and invalidates
    the entry. *)
Theorem cleanup_writes_the_modified_range s i e fr :
  (ps < 2147483000)%Z →
  ready (MS := memoria_serve config fs) (PS := memoria_pages config fs d Hcfg)
    (mmu_config_of config) g_tlb_config d s →
  memoria_maps config d (memory s) (cache_pid e) fr →
  znth (g_cache s) i = Some e → is_valid e = true → modified_bit e = true → entry_ok ps e →
  (modified_start e < modified_end e)%Z →
  (0 <= cache_page e < pages E d)%Z → frame_in config (space (memory s)) (fr (cache_page e)) →
  ∃ s', writeback_if_dirty (MS := memoria_serve config fs) (mmu_config_of config) g_tlb_config i s = Ok (tt, s') ∧
    space (memory s') = with_bytes (space (memory s))
      (fr (cache_page e) * ps + modified_start e)
      (slice (Z.to_nat (modified_start e)) (Z.to_nat (modified_end e - modified_start e)) (content e)) ∧
    g_cache s' = zset (g_cache s) i (with_range 0 0 (with_modified false (with_valid false e))).
Proof.
  intros Hsmall Hr Hm He Hv Hmod Hok Hlt Hp Hf.
  destruct (writeback_if_dirty_ok config fs d Hcfg g_tlb_config Hcount Hsmall s i e fr Hr Hm He Hv Hmod Hok Hlt Hp Hf)
    as (s' & Hrun & Hsp & Hc & _).
  by exists s'.
Qed.
End WriteBackClaim.

(** ** The cycle *)
Section Cycle.
Context {C : CommonsOps} {CL : CommonsLaws C} {Srv : Type} {MS : MemoryServer Srv}.
Context (g_mmu_config : MMUConfig) (g_tlb_config : TLBConfig) (g_cache_config : CacheConfig).

(** C30: every instruction that is carried out moves the program counter to
    the next one, GOTO to its target; an unknown instruction leaves it.  A
    READ or WRITE moves to the next one exactly when it is carried out, and
    is the next instruction again when it is not: without a cache, when memory
    answers that it served the request; with one, when the cache holds the
    page afterwards.  The process keeps the CPU except for IO,
    DUMP_MEMORY and EXIT, and INIT_PROC, where the kernel decides. *)
Theorem program_counter i (c : t_cpu Srv) b c' :
  execution g_mmu_config g_tlb_config g_cache_config i c = Ok (b, c') →
  cpu_pid c' = cpu_pid c ∧
  match instruction_code i with
  | InstructionCode.GOTO => cpu_pc c' = operand_numeric1 i ∧ b = false
  | InstructionCode.UNKNOWN => cpu_pc c' = cpu_pc c ∧ b = false
  | InstructionCode.READ | InstructionCode.WRITE =>
      cpu_pc c' = (if carried_out g_mmu_config g_tlb_config g_cache_config i c c' then i32 (cpu_pc c + 1) else cpu_pc c) ∧
      b = false
  | InstructionCode.NOOP => cpu_pc c' = i32 (cpu_pc c + 1) ∧ b = false
  | InstructionCode.INIT_PROC => cpu_pc c' = i32 (cpu_pc c + 1)
  | InstructionCode.IO | InstructionCode.DUMP_MEMORY | InstructionCode.EXIT =>
      cpu_pc c' = i32 (cpu_pc c + 1) ∧ b = true
  end.
Proof.
  intros H. pose proof (access_moves_on g_mmu_config g_tlb_config g_cache_config i c b c') as Ha.
  pose proof H as [Hn Hy]%execution_context. unfold next_context, yields, context in *.
  destruct (instruction_code i); try (injection Hn as -> ->); try (by auto).
  all: split; [by destruct Hn as [Hn|Hn]; injection Hn as -> _ | auto].
Qed.

(** C31: the handler answers every pending interrupt once, the youngest
    first, empties the list, and reports whether there was one. *)
Theorem interrupts_are_answered_once (c : t_cpu Srv) :
  interrupt_handler g_mmu_config g_tlb_config g_cache_config c
  = (for_each (reverse (interrupt_list c)) (check_interrupt g_mmu_config g_tlb_config g_cache_config);;
     mret (bool_decide (interrupt_list c ≠ []))) (set_interrupts [] c).
Proof. apply interrupt_handler_ok. Qed.

(** The answer to an interrupt carries the program counter, and 0 when
    it was meant for the running process, whose cached pages are then
    flushed, or 1 when it was not, and nothing else happens. *)
Theorem interrupt_answer (c : t_cpu Srv) x p :
  create_interrupt_package x = Ok p → in_i32 x → in_i32 (cpu_pc c) →
  ∃ reply,
    create_cpu_context_package x (cpu_pc c) (if decide (x = cpu_pid c) then 0 else 1) = Ok reply ∧
    check_interrupt g_mmu_config g_tlb_config g_cache_config p c
    = (let c1 := set_interrupt_out (send_package (interrupt_out c) reply) c in
       if decide (x = cpu_pid c)
       then on_mmu (mmu_process_cleanup g_mmu_config g_tlb_config g_cache_config) c1
       else Ok (tt, c1)).
Proof.
  intros Hp Hx Hpc. destruct (decide (x = cpu_pid c)) as [->|Hne].
  - by apply answer_running.
  - by apply answer_other.
Qed.
End Cycle.

(** An instruction printed as a line of a script, sent in an INSTRUCTION
    package and received on the other side is decoded to itself. *)
Theorem instruction_text_round_trip i :
  instruction_ok i → fits (print_instruction i) →
  ∃ p, create_instruction_package (print_instruction i) = Ok p ∧
    (∀ rest, recv_package (serialize_package p ++ rest) = Ok (Some p, rest)) ∧ decode p = Ok i.
Proof. apply decode_delivered. Qed.

(** ** Witnesses *)

Lemma ready_beside tlb cache (a : TLBReplacementAlgorithm) :
  tlb_ok (tlb2 a) (mmu_beside tlb cache shared) →
  (∀ e, e ∈ tlb → tlb_pid e = 1%Z ∧ (tlb_frame e = fr1 (tlb_page e))) →
  ready (MS := memoria_serve config fs) (PS := memoria_pages config fs depth config_good)
    (mmu_config_of config) (tlb2 a) depth (mmu_beside tlb cache shared).
Proof.
  intros Hok He. split; [exact Hok|]. intros e fr Hin Hm Hp. destruct (He e Hin) as [Hpid Hfr].
  rewrite Hfr. rewrite Hpid in Hm.
  exact (maps_fun (PageServer := memoria_pages config fs depth config_good) shared 1 fr1 fr (tlb_page e) shared_maps1 Hm Hp).
Qed.

(** A TLB with one entry of process 1, and a full one. *)
Definition entry_of (page frame stamp : Z) : TLBEntry := mk_tlb page 1 frame stamp.

Lemma small_tlb_ok cache a : tlb_ok (tlb2 a) (mmu_beside [entry_of 0 0 0] cache shared).
Proof.
  constructor; cbn; [unfold zlen; cbn; lia | lia | apply NoDup_singleton | lia].
Qed.

Lemma full_tlb_ok cache a : tlb_ok (tlb2 a) (mmu_beside [entry_of 0 0 3; entry_of 1 1 2] cache shared).
Proof.
  constructor; cbn; [unfold zlen; cbn; lia | lia | | lia].
  apply (bool_decide_unpack _). by vm_compute.
Qed.

Lemma cpu1_ready cache a :
  cpu_ready config fs depth config_good (tlb2 a) fr1 (cpu1 [entry_of 0 0 0] cache).
Proof.
  split; [|exact shared_maps1]. apply ready_beside; [apply small_tlb_ok|].
  intros e ->%list_elem_of_singleton. done.
Qed.

Lemma accessible_3_4 : accessible config depth fr1 (space shared) 3 4.
Proof. unfold accessible, in_space, frame_in. split_and!; by vm_compute. Qed.

Lemma translation_end_to_end_witness :
  ∃ s, uncached_address (MS := memoria_serve config fs) (mmu_config_of config) (tlb2 TLB_ALGO_FIFO) 3
        (cpu1 [entry_of 0 0 0] [])
      = Ok ((fr1 (3 / 16) * 16 + 3 `mod` 16)%Z, set_mmu s (cpu1 [entry_of 0 0 0] [])) ∧
    cpu_ready config fs depth config_good (tlb2 TLB_ALGO_FIFO) fr1 (set_mmu s (cpu1 [entry_of 0 0 0] [])) ∧
    space (memory s) = space shared ∧ owners (memory s) = owners shared.
Proof.
  apply (translation_end_to_end config fs depth config_good (tlb2 TLB_ALGO_FIFO) ltac:(done) fr1
    (cpu1 [entry_of 0 0 0] []) 3 4); [apply cpu1_ready | exact accessible_3_4].
Defined.

Lemma read_after_write_witness :
  ∃ c', (run_instruction config fs (tlb2 TLB_ALGO_LRU) no_cache (write_instruction 3 "hola");;
         run_instruction config fs (tlb2 TLB_ALGO_LRU) no_cache (read_instruction 3 4)) (cpu1 [entry_of 0 0 0] [])
      = Ok (false, c') ∧
    read_log c' = [(physical config fr1 3, String.list_byte_of_string "hola")] ∧
    cpu_pc c' = i32 (i32 (0 + 1) + 1) ∧ cpu_pid c' = 1%Z.
Proof.
  apply (read_after_write config fs depth config_good (tlb2 TLB_ALGO_LRU) ltac:(done) no_cache ltac:(done) fr1
    (cpu1 [entry_of 0 0 0] []) 3 "hola"); [apply cpu1_ready | exact accessible_3_4 | done].
Defined.

Lemma writes_are_isolated_witness :
  ∃ s, run_instruction config fs (tlb2 TLB_ALGO_FIFO) no_cache (write_instruction 3 "hola") (cpu1 [entry_of 0 0 0] [])
      = Ok (false, stepped s (cpu1 [entry_of 0 0 0] [])) ∧
    frame_page config (space (memory s)) 2 = frame_page config (space shared) 2.
Proof.
  apply (writes_are_isolated config fs depth config_good (tlb2 TLB_ALGO_FIFO) ltac:(done) no_cache ltac:(done) fr1
    (cpu1 [entry_of 0 0 0] []) 3 "hola" 0 1 (process_at 0) (process_at 1) 0 2);
    [apply cpu1_ready | exact accessible_3_4 | done | vm_compute; reflexivity | vm_compute; reflexivity | done
    | vm_compute; reflexivity.. | apply (bool_decide_unpack _); by vm_compute
    | apply (bool_decide_unpack _); by vm_compute].
Defined.

Lemma tlb_is_transparent_witness :
  ∃ s', frame_of_page (MS := memoria_serve config fs) (mmu_config_of config) (tlb2 TLB_ALGO_FIFO) 1 1
        (mmu_beside [entry_of 0 0 0] [] shared) = Ok (1%Z, s') ∧
    tlb_ok (tlb2 TLB_ALGO_FIFO) s' ∧
    tlb_coherent (MS := memoria_serve config fs) (PS := memoria_pages config fs depth config_good)
      (mmu_config_of config) depth s' ∧
    memoria_maps config depth (memory s') 1 fr1 ∧ g_cache s' = [].
Proof.
  apply (tlb_is_transparent (MS := memoria_serve config fs) (PS := memoria_pages config fs depth config_good)
    (mmu_config_of config) (tlb2 TLB_ALGO_FIFO) depth (mmu_beside [entry_of 0 0 0] [] shared) 1 1 fr1);
    [done | done | done | done | apply small_tlb_ok | apply (cpu1_ready [] TLB_ALGO_FIFO) | exact shared_maps1 | done].
Defined.

Lemma fifo_evicts_the_oldest_witness :
  ∃ s', tlb_add_entry (tlb2 TLB_ALGO_FIFO) 2 3 1 (mmu_beside [entry_of 0 0 3; entry_of 1 1 2] [] shared) = Ok (tt, s') ∧
    fifo_queue s' = [entry_of 1 1 2; new_entry 2 3 1 (mmu_beside [] [] shared)].
Proof.
  apply (fifo_evicts_the_oldest (tlb2 TLB_ALGO_FIFO)); [apply full_tlb_ok | done | done | done].
Defined.

Lemma lru_evicts_the_least_recent_witness :
  ∃ s' v e, tlb_add_entry (tlb2 TLB_ALGO_LRU) 2 3 1 (mmu_beside [entry_of 0 0 3; entry_of 1 1 2] [] shared) = Ok (tt, s') ∧
    [entry_of 0 0 3; entry_of 1 1 2] !! v = Some e ∧
    Forall (λ x, lru_timestamp e <= lru_timestamp x)%Z [entry_of 0 0 3; entry_of 1 1 2] ∧
    g_tlb s' = <[v := new_entry 2 3 1 (mmu_beside [entry_of 0 0 3; entry_of 1 1 2] [] shared)]>
      [entry_of 0 0 3; entry_of 1 1 2].
Proof.
  apply (lru_evicts_the_least_recent (tlb2 TLB_ALGO_LRU)); [apply full_tlb_ok | done | done | done |].
  repeat constructor.
Defined.

(** Two entries, the pointer at the first. *)
Definition two_pages : list CacheEntry :=
  [cached_page true 0 1 true true; cached_page true 1 1 false true].

Lemma two_pages_ok a tlb : clock_ok (cache2 a) (mmu_beside tlb two_pages shared).
Proof. by split_and!. Qed.

Lemma clock_victim_witness :
  let s := mmu_beside [] two_pages shared in let k := cache2 CACHE_ALGO_CLOCK in
  ∃ j, (Z.of_nat j <= 2)%Z ∧
    cache_find_victim_clock k s = Ok (index k s j, next k (chances k j s)) ∧
    (∀ i, i < j → (Z.of_nat i < 2)%Z → ¬ holds_at k unused s i) ∧
    ((Z.of_nat j < 2)%Z → holds_at k unused s j) ∧
    (∀ i, (Z.of_nat i < 2)%Z →
      znth (g_cache (chances k j s)) (index k s i)
      = if decide (i < j) then with_use false <$> ahead k s i else ahead k s i).
Proof. apply (clock_victim (cache2 CACHE_ALGO_CLOCK)). apply two_pages_ok. Defined.

Lemma clock_m_victim_witness :
  let s := mmu_beside [] two_pages shared in let k := cache2 CACHE_ALGO_CLOCK_M in
  ∃ j s' e, cache_find_victim_clock_m k s = Ok (index k s j, s') ∧
    (Z.of_nat j < 2)%Z ∧ ahead k s j = Some e ∧
    (∀ i x, (Z.of_nat i < 2)%Z → ahead k s i = Some x → class e <= class x) ∧
    (∀ i x, i < j → ahead k s i = Some x → class e < class x).
Proof. apply (clock_m_victim (cache2 CACHE_ALGO_CLOCK_M)). apply two_pages_ok. Defined.

(** A page of frame 1 with a modified range, and a clean one. *)
Definition dirty_page : CacheEntry := mk_cache true 1 1 (replicate 16 x61) true true 2 6.

Definition flushing : M (t_mmu t_memoria) unit :=
  mmu_process_cleanup (MS := memoria_serve config fs) (mmu_config_of config) (tlb2 TLB_ALGO_FIFO)
    (cache2 CACHE_ALGO_CLOCK).

Definition before_flush : t_mmu t_memoria := mmu_beside [entry_of 0 0 0] [dirty_page; cached_page false 0 0 false false] shared.

Lemma cleanup_leaves_nothing_witness :
  g_tlb (ran flushing before_flush) = [] ∧
  Forall (λ e, is_valid e = false ∧ modified_bit e = false) (g_cache (ran flushing before_flush)) ∧
  zlen (g_cache (ran flushing before_flush)) = 2%Z.
Proof.
  destruct (cleanup_leaves_nothing (MS := memoria_serve config fs) (mmu_config_of config) (tlb2 TLB_ALGO_FIFO)
    (cache2 CACHE_ALGO_CLOCK) before_flush tt (ran flushing before_flush)) as (H1 & H2 & H3);
    [done | vm_compute; reflexivity |]. exact (conj (H1 eq_refl) (conj H2 H3)).
Defined.

Lemma cleanup_writes_the_modified_range_witness :
  ∃ s', writeback_if_dirty (MS := memoria_serve config fs) (mmu_config_of config) (tlb2 TLB_ALGO_FIFO) 0 before_flush
      = Ok (tt, s') ∧
    space (memory s') = with_bytes (space shared) (1 * 16 + 2) [x61; x61; x61; x61]%byte ∧
    g_cache s' = [with_range 0 0 (with_modified false (with_valid false dirty_page)); cached_page false 0 0 false false].
Proof.
  apply (cleanup_writes_the_modified_range config fs depth config_good (tlb2 TLB_ALGO_FIFO) ltac:(done)
    before_flush 0 dirty_page fr1); [done | | exact shared_maps1 | done | done | done | | done | done | ].
  - apply ready_beside; [apply small_tlb_ok|]. intros e ->%list_elem_of_singleton. done.
  - by constructor.
  - by split; vm_compute.
Defined.

Lemma write_miss_loses_the_gap_witness :
  let c := cpu1 [] [cached_page false 0 0 false false] in
  ∃ e2, (claim_entry (mmu_config_of config) 0 0 0 1 1;; write_cached 0 0 1 [x61]%byte;;
         write_cached 0 4 1 [x62]%byte) c = Ok (tt, set_mmu (put_entry 0 e2 (cpu_mmu c)) c) ∧
    modified_bit e2 = true ∧ modified_start e2 = 0%Z ∧ modified_end e2 = 5%Z ∧
    slice 1 3 (content e2) = [x00; x00; x00]%byte.
Proof.
  apply (write_miss_loses_the_gap (mmu_config_of config) ltac:(done) 0 0 0 4 1 [x61]%byte [x62]%byte 1 1
    (cpu1 [] [cached_page false 0 0 false false]) (cached_page false 0 0 false false)); by repeat split.
Defined.

(** Process 2 runs, and process 1 left its page 0 in the cache. *)
Definition cpu2 : t_cpu t_memoria :=
  mk_cpu (mmu_beside [] [cached_page true 0 1 false false] shared) 2 0 [] [] [] [] [].

Lemma cache_serves_foreign_pages_witness :
  ∃ c' e', exec_write_cached (MS := memoria_serve config fs) (mmu_config_of config) (tlb2 TLB_ALGO_FIFO)
      (cache2 CACHE_ALGO_CLOCK) 3 2 [x61; x62]%byte cpu2 = Ok (false, c') ∧
    g_cache (cpu_mmu c') !! 0 = Some e' ∧ cache_pid e' = 1%Z ∧ modified_bit e' = true ∧
    slice 3 2 (content e') = [x61; x62]%byte ∧ cpu_pid c' = 2%Z.
Proof.
  apply (cache_serves_foreign_pages (MS := memoria_serve config fs) (mmu_config_of config) (tlb2 TLB_ALGO_FIFO)
    (cache2 CACHE_ALGO_CLOCK) ltac:(done) cpu2 3 2 [x61; x62]%byte 0 (cached_page true 0 1 false false));
    [done | done | by repeat split | done | done | done | by constructor | done].
Defined.

Definition stuck_page : CacheEntry := mk_cache true 0 1 (replicate 16 x61) false true 0 4.
Definition full_of_zero : t_mmu t_memoria := mmu_beside [entry_of 0 0 0] [stuck_page; stuck_page] shared.

Lemma frame_zero_is_never_evicted_witness :
  ∃ s', select_victim_entry (MS := memoria_serve config fs) (mmu_config_of config) (tlb2 TLB_ALGO_FIFO)
      (cache2 CACHE_ALGO_CLOCK) 1 full_of_zero = Ok (None, s') ∧ g_cache s' = [stuck_page; stuck_page].
Proof.
  apply (frame_zero_is_never_evicted (MS := memoria_serve config fs) (PS := memoria_pages config fs depth config_good)
    (mmu_config_of config) (tlb2 TLB_ALGO_FIFO) (cache2 CACHE_ALGO_CLOCK) depth full_of_zero
    (set_clock 1 full_of_zero) 0 stuck_page 1 fr1);
    [done | done | done | done | done | vm_compute; reflexivity | done | done | done | | exact shared_maps1 | done | done].
  destruct (ready_beside [entry_of 0 0 0] [stuck_page; stuck_page] TLB_ALGO_FIFO) as [[] Hc];
    [apply small_tlb_ok | intros e ->%list_elem_of_singleton; done |].
  split; [by constructor | exact Hc].
Defined.

Definition goto_7 : t_instruction :=
  {| instruction_code := InstructionCode.GOTO; operand_numeric1 := 7; operand_numeric2 := 0;
     operand_string_size := 0; operand_string := None |}.

(** A READ of page 1 that memory serves, and one that finds no entry to
    evict: the cache is full of page 0, modified and in frame 0. *)
Local Abbreviation executed cache i := (execution (MS := memoria_serve config fs) (mmu_config_of config)
  (tlb2 TLB_ALGO_FIFO) cache i).
Local Abbreviation succeeds cache i c := (carried_out (MS := memoria_serve config fs) (mmu_config_of config)
  (tlb2 TLB_ALGO_FIFO) cache i c (ran (executed cache i) c)).
Definition stuck_cpu : t_cpu t_memoria := set_mmu full_of_zero (cpu1 [] []).
Definition read_page_1 : t_instruction := read_instruction (TAM_PAGINA config) 4.

Lemma program_counter_witness :
  cpu_pc (ran (executed no_cache goto_7) (cpu1 [] [])) = 7%Z ∧
  (succeeds no_cache (read_instruction 3 4) (cpu1 [] []) = true ∧
   cpu_pc (ran (executed no_cache (read_instruction 3 4)) (cpu1 [] [])) = 1%Z) ∧
  (succeeds (cache2 CACHE_ALGO_CLOCK) read_page_1 stuck_cpu = false ∧
   cpu_pc (ran (executed (cache2 CACHE_ALGO_CLOCK) read_page_1) stuck_cpu) = 0%Z).
Proof.
  split_and!.
  - by apply (program_counter (MS := memoria_serve config fs) (mmu_config_of config) (tlb2 TLB_ALGO_FIFO) no_cache goto_7
      (cpu1 [] []) false).
  - vm_compute. reflexivity.
  - destruct (program_counter (MS := memoria_serve config fs) (mmu_config_of config) (tlb2 TLB_ALGO_FIFO) no_cache
      (read_instruction 3 4) (cpu1 [] []) false (ran (executed no_cache (read_instruction 3 4)) (cpu1 [] [])))
      as (_ & Hpc & _); [vm_compute; reflexivity|]. rewrite Hpc. vm_compute. reflexivity.
  - vm_compute. reflexivity.
  - destruct (program_counter (MS := memoria_serve config fs) (mmu_config_of config) (tlb2 TLB_ALGO_FIFO)
      (cache2 CACHE_ALGO_CLOCK) read_page_1 stuck_cpu false (ran (executed (cache2 CACHE_ALGO_CLOCK) read_page_1) stuck_cpu))
      as (_ & Hpc & _); [vm_compute; reflexivity|]. rewrite Hpc. vm_compute. reflexivity.
Defined.

Lemma interrupt_answer_witness :
  ∃ p reply, create_interrupt_package 2 = Ok p ∧ create_cpu_context_package 2 0 1 = Ok reply ∧
    check_interrupt (MS := memoria_serve config fs) (mmu_config_of config) (tlb2 TLB_ALGO_FIFO) no_cache p (cpu1 [] [])
    = Ok (tt, set_interrupt_out (serialize_package reply) (cpu1 [] [])).
Proof.
  destruct (interrupt_delivers 2 ltac:(done)) as (p & Hp & _).
  destruct (interrupt_answer (MS := memoria_serve config fs) (mmu_config_of config) (tlb2 TLB_ALGO_FIFO) no_cache
    (cpu1 [] []) 2 p Hp) as (reply & Hr & Hc); [done | done |].
  exists p, reply. exact (conj Hp (conj Hr Hc)).
Defined.

Definition write_hola : t_instruction := write_instruction 3 "hola".

Lemma instruction_text_round_trip_witness :
  ∃ p, create_instruction_package "WRITE 3 hola" = Ok p ∧
    (∀ rest, recv_package (serialize_package p ++ rest) = Ok (Some p, rest)) ∧ decode p = Ok write_hola.
Proof.
  apply (instruction_text_round_trip write_hola).
  - split; [done|]. split; [done|]. exists "hola"%string. by repeat split.
  - apply (bool_decide_unpack _). by vm_compute.
Defined.

(** Two interrupts for process 2 while process 1 runs. *)
Definition interrupted : t_cpu t_memoria :=
  set_interrupts (match create_interrupt_package 2 with Ok p => [p; p] | Crash _ => [] end) (cpu1 [] []).

Lemma interrupts_are_answered_once_witness :
  interrupt_handler (MS := memoria_serve config fs) (mmu_config_of config) (tlb2 TLB_ALGO_FIFO) no_cache interrupted
  = (for_each (reverse (interrupt_list interrupted))
       (check_interrupt (MS := memoria_serve config fs) (mmu_config_of config) (tlb2 TLB_ALGO_FIFO) no_cache);;
     mret true) (set_interrupts [] interrupted).
Proof.
  exact (interrupts_are_answered_once (MS := memoria_serve config fs) (mmu_config_of config)
    (tlb2 TLB_ALGO_FIFO) no_cache interrupted).
Defined.
