(* ===== verification/AddressSpaces.v ===== *)
(** * Address spaces

    Several CPUs on one memory module run reads and writes of several
    processes.  The specification gives every process an array of bytes of
    its own; the CPUs and the memory module implement it, whatever their TLBs
    hold, as long as no process is suspended and no access goes past the end
    of its page.  The CPUs have no page cache ([cache_entry_count] is not
    positive): with one, bytes are lost or go to the page of another process
    ([write_miss_loses_the_gap], [cache_serves_foreign_pages] in
    CpuProperties.v). *)
From S2P Require Import Prelude Commons Enums Buffer Package Packages Config Semaphores.
From S2P Require Import Bitmap Storage PageTable PageTableFacts Memoria MemoriaFacts SwapFacts.
From S2P Require Import Invariant Mmu MmuFacts Server Cache Execution DataServer Scenario CpuProperties.
From Stdlib Require Import Strings.Byte.
Import Buffer Package UserSpace.

Inductive access :=
  | Acc_write (l : Z) (v : string)
  | Acc_read (l size : Z).

Definition instruction_of (a : access) : t_instruction :=
  match a with Acc_write l v => write_instruction l v | Acc_read l size => read_instruction l size end.

(** ** The specification *)
Section Spec.
Context (page_size : Z).

(** [size] bytes at [l], of an array of bytes, inside one page. *)
Definition inside (l size : Z) (s : list byte) : Prop :=
  (0 <= l ∧ 0 < size < 2147483000 ∧ l + size <= zlen s ∧ l `mod` page_size + size <= page_size)%Z.

#[export] Instance inside_dec l size s : Decision (inside l size s).
Proof. unfold inside. apply _. Defined.

(** The arrays by the ids of the processes.  The result is what is read. *)
Definition spec_access (x : Z) (a : access) (A : gmap Z (list byte)) : option (list (list byte) * gmap Z (list byte)) :=
  s ← A !! x;
  match a with
  | Acc_write l v =>
      if decide (inside l (strlen v) s)
      then Some ([], <[x := splice (Z.to_nat l) (String.list_byte_of_string v) s]> A) else None
  | Acc_read l size => if decide (inside l size s) then Some ([slice (Z.to_nat l) (Z.to_nat size) s], A) else None
  end.

Fixpoint spec_run (l : list (nat * Z * access)) (A : gmap Z (list byte)) : option (list (list byte) * gmap Z (list byte)) :=
  match l with
  | [] => Some ([], A)
  | (_, x, a) :: l =>
      '(r, A) ← spec_access x a A;
      '(rs, A) ← spec_run l A;
      Some (r ++ rs, A)
  end.
End Spec.

(** ** The implementation *)
Section Machine.
Context {C : CommonsOps} {CL : CommonsLaws C} (config : t_memoria_config) (fs : t_file_system).
Context (d : nat) (Hcfg : config_ok config d).
Context (g_tlb_config : TLBConfig) (Hcount : (0 <= tlb_entry_count g_tlb_config)%Z).
Context (g_cache_config : CacheConfig) (Hcache : (cache_entry_count g_cache_config <= 0)%Z).
Local Abbreviation ps := (TAM_PAGINA config).
Local Abbreviation E := (ENTRADAS_POR_TABLA config).
#[local] Instance pages_here : PageServer (MS := memoria_serve config fs) t_memoria E d := memoria_pages config fs d Hcfg.
Local Abbreviation ready := (ready (PS := pages_here) (mmu_config_of config) g_tlb_config d).
Local Abbreviation maps := (memoria_maps config d).
Local Abbreviation physical := (physical config).
Implicit Types (m : t_memoria) (c : t_cpu t_memoria) (s : list byte).

(** CPUs beside the memory module that they share. *)
Record t_machine := mk_machine { m_memory : t_memoria; m_cpus : list (t_cpu t_memoria) }.

(** The CPU as a dispatch of process [x] leaves it. *)
Definition with_process (x : Z) m c : t_cpu t_memoria :=
  set_context x (cpu_pc c) (set_mmu (set_memory m (cpu_mmu c)) c).

Definition machine_access (j : nat) (x : Z) (a : access) (y : t_machine) : res (list (list byte) * t_machine) :=
  match m_cpus y !! j with
  | None => Crash OutOfBounds
  | Some c =>
      '(_, c') ← run_instruction config fs g_tlb_config g_cache_config (instruction_of a) (with_process x (m_memory y) c);
      mret ((drop (length (read_log c)) (read_log c')).*2, mk_machine (memory (cpu_mmu c')) (<[j := c']> (m_cpus y)))
  end.

Fixpoint machine_run (l : list (nat * Z * access)) (y : t_machine) : res (list (list byte) * t_machine) :=
  match l with
  | [] => mret ([], y)
  | (j, x, a) :: l =>
      '(r, y) ← machine_access j x a y;
      '(rs, y) ← machine_run l y;
      mret (r ++ rs, y)
  end.

(** ** The relation between them *)

(** Process [x] has the array [s]: its pages [0..n-1] are in the frames [fr]. *)
Record holds m (x : Z) s (fr : Z → Z) (n : Z) : Prop := {
  h_maps : maps m x fr;
  h_owner : ∃ lines, (x, false, fr <$> seqZ 0 n, lines) ∈ owners m;
  h_pages : (0 <= n <= pages E d ∧ n * ps <= 2147483648)%Z;
  h_size : zlen s = (n * ps)%Z;
  h_bytes : ∀ l, (0 <= l < zlen s)%Z → s !! Z.to_nat l = user_space (space m) !! Z.to_nat (physical fr l) }.

Record represents (A : gmap Z (list byte)) (y : t_machine) : Prop := {
  rep_ready : mem_ready config (m_memory y);
  rep_cpus : ∀ c, c ∈ m_cpus y → ready (set_memory (m_memory y) (cpu_mmu c));
  rep_spaces : ∀ x s, A !! x = Some s → ∃ fr n, holds (m_memory y) x s fr n }.

Lemma page_of m x s fr n l :
  holds m x s fr n → (0 <= l < zlen s)%Z → (0 <= l / ps < n)%Z.
Proof.
  intros [] Hl. pose proof (page_positive config d Hcfg). split; [apply Z.div_pos; lia|].
  apply Z.div_lt_upper_bound; nia.
Qed.

Lemma owner_process m x l : (∃ lines, (x, false, l, lines) ∈ owners m) →
  ∃ i p, global_process_list m !! i = Some p ∧ pid p = x ∧ is_suspended p = false ∧ frames_of p = l.
Proof.
  unfold owners. intros (lines & (p & Hp & (i & Hi)%list_elem_of_lookup)%list_elem_of_fmap). unfold owner in Hp.
  simplify_eq. by exists i, p.
Qed.

Lemma frame_of m x s fr n k :
  mem_ready config m → holds m x s fr n → (0 <= k < n)%Z → frame_in config (space m) (fr k).
Proof.
  intros [Hm _] Hh Hk. destruct (owner_process _ _ _ (h_owner _ _ _ _ _ Hh)) as (i & p & Hi & _ & Hs & Hf).
  destruct (resident_owned config m i p Hm Hi Hs) as [_ Hu]. rewrite Forall_forall in Hu.
  apply (in_use_frame_in config d Hcfg m _ Hm), Hu. rewrite Hf. apply list_elem_of_fmap. exists k.
  split; [done|]. apply elem_of_seqZ. lia.
Qed.

Lemma own_frames m x s fr n k k' :
  mem_ready config m → holds m x s fr n → (0 <= k < n)%Z → (0 <= k' < n)%Z → fr k = fr k' → k = k'.
Proof.
  intros [Hm _] Hh Hk Hk' He. destruct (owner_process _ _ _ (h_owner _ _ _ _ _ Hh)) as (i & p & Hi & _ & Hs & Hf).
  destruct (resident_owned config m i p Hm Hi Hs) as [Hnd _]. rewrite Hf in Hnd.
  assert (∀ k, (0 <= k < n)%Z → (fr <$> seqZ 0 n) !! Z.to_nat k = Some (fr k)) as Hl.
  { intros k0 Hk0. rewrite list_lookup_fmap, lookup_seqZ_lt by lia. cbn. do 2 f_equal. lia. }
  apply Z2Nat.inj; [lia..|]. apply (NoDup_lookup _ _ _ (fr k) Hnd); [by apply Hl | rewrite He; by apply Hl].
Qed.

Lemma other_frames m x s fr n k x' s' fr' n' k' :
  mem_ready config m → holds m x s fr n → holds m x' s' fr' n' → x ≠ x' →
  (0 <= k < n)%Z → (0 <= k' < n')%Z → fr k ≠ fr' k'.
Proof.
  intros [Hm _] Hh Hh' Hne Hk Hk'.
  destruct (owner_process _ _ _ (h_owner _ _ _ _ _ Hh)) as (i & p & Hi & Hp & Hs & Hf).
  destruct (owner_process _ _ _ (h_owner _ _ _ _ _ Hh')) as (j & q & Hj & Hq & Hs' & Hf').
  apply (frames_apart config m i j p q); try done; [congruence | |].
  - rewrite Hf. apply list_elem_of_fmap. exists k. split; [done|]. apply elem_of_seqZ. lia.
  - rewrite Hf'. apply list_elem_of_fmap. exists k'. split; [done|]. apply elem_of_seqZ. lia.
Qed.

Lemma inside_accessible m x s fr n l size :
  mem_ready config m → holds m x s fr n → inside ps l size s →
  accessible config d fr (space m) l size.
Proof.
  intros Hm Hh (Hl & Hsz & Hend & Hin). pose proof (page_of _ _ _ _ _ l Hh ltac:(lia)) as Hk.
  destruct (h_pages _ _ _ _ _ Hh) as [Hn Hb]. pose proof (h_size _ _ _ _ _ Hh) as Hs.
  split; [|split; [by eapply frame_of | lia]]. unfold in_space. cbn [mmu_page_size mmu_config_of entries_per_table]. lia.
Qed.
(** Within a page logical and physical addresses go together. *)
Lemma same_page l l' size : (l <= l' < l + size)%Z → (l `mod` ps + size <= ps)%Z → (l' / ps = l / ps)%Z.
Proof.
  intros Hl Hin. pose proof (page_positive config d Hcfg) as Hps.
  pose proof (Z.mod_pos_bound l ps Hps). pose proof (Z.div_mod l ps ltac:(lia)).
  symmetry. apply (Z.div_unique_pos _ _ _ (l `mod` ps + (l' - l))); lia.
Qed.

Lemma physical_along fr l l' : (l' / ps = l / ps)%Z → physical fr l' = (physical fr l + (l' - l))%Z.
Proof.
  intros He. unfold DataServer.physical. pose proof (page_positive config d Hcfg) as Hps.
  rewrite !Z.mod_eq, He by lia. lia.
Qed.

(** Addresses in different frames. *)
Lemma physical_apart fr fr' l l' size :
  (l `mod` ps + size <= ps)%Z → fr (l / ps)%Z ≠ fr' (l' / ps)%Z →
  (physical fr' l' < physical fr l ∨ physical fr l + size <= physical fr' l')%Z.
Proof.
  intros Hin Hne. unfold DataServer.physical. pose proof (page_positive config d Hcfg) as Hps.
  pose proof (Z.mod_pos_bound l ps Hps). pose proof (Z.mod_pos_bound l' ps Hps).
  destruct (decide (fr (l / ps) < fr' (l' / ps))%Z); [right | left]; nia.
Qed.

Lemma physical_positive m x s fr n l :
  mem_ready config m → holds m x s fr n → (0 <= l < zlen s)%Z →
  (fr (l / ps) * ps <= physical fr l < (fr (l / ps) + 1) * ps ∧ 0 <= physical fr l)%Z.
Proof.
  intros Hm Hh Hl. destruct (frame_of _ _ _ _ _ _ Hm Hh (page_of _ _ _ _ _ _ Hh Hl)) as [Hf _].
  unfold DataServer.physical. pose proof (page_positive config d Hcfg) as Hps. pose proof (Z.mod_pos_bound l ps Hps). nia.
Qed.

(** What a READ finds. *)
Lemma reads_array m x s fr n l size :
  mem_ready config m → holds m x s fr n → inside ps l size s →
  stored (space m) (physical fr l) size = slice (Z.to_nat l) (Z.to_nat size) s.
Proof.
  intros Hm Hh (Hl & Hsz & Hend & Hin).
  pose proof (physical_positive _ _ _ _ _ l Hm Hh ltac:(lia)) as [_ Hpos].
  apply list_eq. intros i. unfold stored. rewrite !lookup_slice. case_decide as Hi; [|done].
  pose proof (h_bytes _ _ _ _ _ Hh (l + Z.of_nat i)%Z ltac:(lia)) as Hb.
  rewrite (physical_along fr l) in Hb by (apply (same_page l _ size); lia).
  replace (Z.to_nat l + i) with (Z.to_nat (l + Z.of_nat i)) by lia.
  rewrite Hb. f_equal. lia.
Qed.

(** A WRITE changes the bytes at the address in the array of its process, and
    those of no other. *)
Lemma writes_array m m' x s fr n l data :
  mem_ready config m → holds m x s fr n → inside ps l (zlen data) s →
  space m' = with_bytes (space m) (physical fr l) data → owners m' = owners m →
  (∀ x fr, maps m' x fr ↔ maps m x fr) →
  holds m' x (splice (Z.to_nat l) data s) fr n ∧
  ∀ x' s' fr' n', x' ≠ x → holds m x' s' fr' n' → holds m' x' s' fr' n'.
Proof.
  intros Hm Hh Hins Hsp Ho Hmaps. pose proof (inside_accessible _ _ _ _ _ _ _ Hm Hh Hins) as Hacc.
  destruct (accessible_address config d Hcfg fr _ l _ (space_ok _ _ (proj1 Hm)) Hacc) as [(Ha & _ & Hae) _].
  destruct Hins as (Hl & Hsz & Hend & Hin). destruct (space_ok _ _ (proj1 Hm)) as [Hus _].
  assert (∀ b, user_space (space m') !! b =
    if decide (Z.to_nat (physical fr l) <= b < Z.to_nat (physical fr l) + length data)
    then data !! (b - Z.to_nat (physical fr l)) else user_space (space m) !! b) as Hbyte.
  { intros b. rewrite Hsp. cbn. apply lookup_splice. unfold zlen in *. lia. }
  assert (length (splice (Z.to_nat l) data s) = length s) as Hlen.
  { apply splice_length. unfold zlen in *. lia. }
  split.
  - pose proof Hh as [Hma How Hpg Hsize Hby]. constructor; [by apply Hmaps | by rewrite Ho | done | |].
    + unfold zlen in *. by rewrite Hlen.
    + intros l' Hl'. assert (zlen s = Z.of_nat (length s)) as Hlens by done.
      assert (zlen data = Z.of_nat (length data)) as Hlend by done. unfold zlen in Hl'. rewrite Hlen in Hl'.
      rewrite Hbyte, lookup_splice by (unfold zlen in *; lia).
      pose proof (physical_positive _ _ _ _ _ l' Hm Hh ltac:(lia)) as [_ Hp'].
      destruct (decide (l' / ps = l / ps)%Z) as [He|He].
      * pose proof (physical_along fr l l' He) as Hal. unfold zlen in *.
        repeat case_decide; try lia; [f_equal; lia|]. apply Hby. lia.
      * assert (fr (l / ps)%Z ≠ fr (l' / ps)%Z) as Hne.
        { intros Hf. apply He. symmetry. apply (own_frames m x s fr n); [done|done|..|done]; (eapply page_of; [exact Hh | lia]). }
        pose proof (physical_apart fr fr l l' _ Hin Hne) as Hap. rewrite !decide_False; [apply Hby; lia| |].
        -- lia.
        -- intros Hr. apply He, (same_page l l' (zlen data)); [lia | done].
  - intros x' s' fr' n' Hne Hh'. pose proof Hh' as [Hma How Hpg Hsize Hby].
    constructor; [by apply Hmaps | by rewrite Ho | done..|].
    intros l' Hl'. rewrite Hbyte, decide_False; [by apply Hby|].
    assert (fr (l / ps)%Z ≠ fr' (l' / ps)%Z) as Hnf.
    { apply (other_frames m x s fr n _ x' s' fr' n'); try done; [|by eapply page_of].
      eapply page_of; [exact Hh | lia]. }
    pose proof (physical_apart fr fr' l l' _ Hin Hnf). pose proof (physical_positive _ _ _ _ _ l' Hm Hh' Hl') as [_ ?].
    unfold zlen in *. lia.
Qed.
Lemma kept_array m m' x s fr n :
  space m' = space m → owners m' = owners m → (∀ x fr, maps m' x fr ↔ maps m x fr) →
  holds m x s fr n → holds m' x s fr n.
Proof. intros Hsp Ho Hmaps []. constructor; [by apply Hmaps | by rewrite Ho | done..|]. by rewrite Hsp. Qed.

Lemma ready_after m m' (s : t_mmu t_memoria) :
  (∀ x fr, maps m' x fr ↔ maps m x fr) → ready (set_memory m s) → ready (set_memory m' s).
Proof.
  intros Hmaps [[] Hc]. split; [by constructor|]. intros e fr He Hm. apply (Hc e fr He). by apply Hmaps.
Qed.

(** The turn of a CPU that keeps the mappings, as the other CPUs see it. *)
Lemma turn_represents A A' y j c' fr :
  represents A y → cpu_ready config fs d Hcfg g_tlb_config fr c' →
  (∀ x fr, maps (memory (cpu_mmu c')) x fr ↔ maps (m_memory y) x fr) →
  (∀ x s, A' !! x = Some s → ∃ fr n, holds (memory (cpu_mmu c')) x s fr n) →
  represents A' (mk_machine (memory (cpu_mmu c')) (<[j := c']> (m_cpus y))).
Proof.
  intros [Hm Hcpus Hsp] [Hr Hmaps'] Hmaps Hsp'. constructor; [apply Hmaps' | | exact Hsp'].
  cbn [m_memory m_cpus]. intros c'' (i & Hi)%list_elem_of_lookup.
  destruct (decide (i = j)) as [->|Hne].
  - assert (j < length (m_cpus y)) as Hj by (apply lookup_lt_Some in Hi; by rewrite length_insert in Hi).
    rewrite list_lookup_insert_eq in Hi by done. injection Hi as <-. by destruct c' as [[]].
  - rewrite list_lookup_insert_ne in Hi by done. eapply ready_after; [exact Hmaps|].
    apply Hcpus. by eapply list_elem_of_lookup_2.
Qed.

(** One access. *)
Lemma access_refines j x a A r A' y c :
  represents A y → m_cpus y !! j = Some c → spec_access ps x a A = Some (r, A') →
  ∃ y', machine_access j x a y = Ok (r, y') ∧ represents A' y' ∧ length (m_cpus y') = length (m_cpus y).
Proof.
  intros Hrep Hj H. pose proof Hrep as [Hm Hcpus Hsp]. unfold spec_access in H.
  destruct (A !! x) as [s|] eqn:Hx; [|done]. destruct (Hsp x s Hx) as (fr & n & Hh).
  unfold machine_access. rewrite Hj. set (c0 := with_process x (m_memory y) c).
  assert (cpu_ready config fs d Hcfg g_tlb_config fr c0) as Hc.
  { split; [|apply Hh]. apply Hcpus. by eapply list_elem_of_lookup_2. }
  assert (∀ l size, inside ps l size s → reaches config d fr (space (memory (cpu_mmu c0))) l size) as Hreach.
  { intros l size Hin. apply (accessible_reaches config d Hcfg); [apply (space_ok _ _ (proj1 Hm))|].
    by eapply inside_accessible. }
  cbn [mbind option_bind] in H. destruct a as [l v|l size]; case_decide as Hin; try done; injection H as <- <-.
  - destruct (write_instruction_ok config fs d Hcfg g_tlb_config Hcount g_cache_config Hcache fr c0 l v Hc
      (Hreach _ _ Hin) ltac:(apply Hin)) as (s1 & Hw & Hc1 & Hsp1 & Ho & Hmaps).
    cbn [instruction_of]. rewrite Hw. cbn [mbind res_bind]. eexists. split; [|split].
    + cbn. unfold mret, res_ret. by rewrite drop_all.
    + destruct (writes_array _ _ x s fr n l _ Hm Hh Hin Hsp1 Ho Hmaps) as [Hown Hothers].
      apply (turn_represents A _ y j (stepped s1 c0) fr); [exact Hrep | exact Hc1 | exact Hmaps |]. intros x' s'.
      rewrite lookup_insert_Some. intros [[<- <-]|[Hne Hx']]; [by exists fr, n|].
      destruct (Hsp x' s' Hx') as (fr' & n' & Hh'). exists fr', n'. by apply Hothers.
    + by apply length_insert.
  - destruct (read_instruction_ok config fs d Hcfg g_tlb_config Hcount g_cache_config Hcache fr c0 l size Hc
      (Hreach _ _ Hin) ltac:(apply Hin)) as (s1 & Hw & Hc1 & Hsp1 & Ho & Hmaps).
    cbn [instruction_of]. rewrite Hw. cbn [mbind res_bind]. eexists. split; [|split].
    + cbn. rewrite drop_app_length. cbn. do 3 f_equal. by apply (reads_array _ x s fr n).
    + apply (turn_represents A _ y j (add_read _ (stepped s1 c0)) fr); [exact Hrep | exact Hc1 | exact Hmaps |].
      intros x' s' Hx'. destruct (Hsp x' s' Hx') as (fr' & n' & Hh'). exists fr', n'. by eapply kept_array.
    + by apply length_insert.
Qed.

(** C22: several CPUs with TLBs of their own and no page cache, on one memory
    module, implement one private array of bytes per process: any sequence of
    in-page reads and writes that the arrays allow succeeds on the CPUs, in
    whatever way it is distributed over them, and reads what the arrays hold. *)
Theorem processes_have_private_arrays l A r A' y :
  represents A y → Forall (λ a, a.1.1 < length (m_cpus y)) l → spec_run ps l A = Some (r, A') →
  ∃ y', machine_run l y = Ok (r, y') ∧ represents A' y'.
Proof.
  revert A r A' y. induction l as [|[[j x] a] l IH]; intros A r A' y Hrep Hl H.
  - injection H as <- <-. by exists y.
  - apply Forall_cons in Hl as [[c Hj]%lookup_lt_is_Some Hl]. cbn in H, Hj.
    destruct (spec_access ps x a A) as [[r1 A1]|] eqn:H1; [|done]. cbn in H.
    destruct (spec_run ps l A1) as [[r2 A2]|] eqn:H2; [|done]. injection H as <- <-.
    destruct (access_refines _ _ _ _ _ _ _ _ Hrep Hj H1) as (y1 & E1 & Hrep1 & Hlen).
    rewrite <- Hlen in Hl. destruct (IH _ _ _ _ Hrep1 Hl H2) as (y2 & E2 & Hrep2).
    exists y2. split; [|done]. cbn. rewrite E1. cbn. by rewrite E2.
Qed.
(** C36: nothing stops a WRITE at the end of its page: what does not fit goes
    to the physical frame that follows, whosever it is.  If it is page [k'] of
    another process [x'], the start of that page is overwritten, and [x']
    no longer has the array it had. *)
Theorem write_past_the_page_hits_another_process fr c l v x' s' fr' n' k' :
  let m := memory (cpu_mmu c) in
  let over := (l `mod` ps + strlen v - ps)%Z in
  let tail := drop (Z.to_nat (strlen v - over)) (String.list_byte_of_string v) in
  cpu_ready config fs d Hcfg g_tlb_config fr c → reaches config d fr (space m) l (strlen v) →
  (strlen v < 2147483000)%Z → (0 < over)%Z →
  holds m x' s' fr' n' → (0 <= k' < n')%Z → fr' k' = (fr (l / ps) + 1)%Z →
  slice (Z.to_nat (k' * ps)) (Z.to_nat over) s' ≠ tail →
  ∃ s1 : t_mmu t_memoria, run_instruction config fs g_tlb_config g_cache_config (write_instruction l v) c = Ok (false, stepped s1 c) ∧
    stored (space (memory s1)) (fr' k' * ps) over = tail ∧ ¬ holds (memory s1) x' s' fr' n'.
Proof.
  intros m over tail Hc Hreach Hsmall Hover Hh Hk Hnext Hdiff.
  destruct (write_instruction_ok config fs d Hcfg g_tlb_config Hcount g_cache_config Hcache fr c l v Hc Hreach Hsmall)
    as (s1 & Hw & Hc1 & Hsp & _). exists s1.
  pose proof (page_positive config d Hcfg) as Hps. pose proof (Z.mod_pos_bound l ps Hps) as Hlm.
  destruct Hreach as (_ & (Ha & _ & Hend) & Hfit).
  assert (strlen v = Z.of_nat (length (String.list_byte_of_string v))) as Hlen by done.
  assert (stored (space (memory s1)) (fr' k' * ps) over = tail) as Htail.
  { assert (mem_ready config m) as [Hm _] by apply Hc. destruct (space_ok _ _ Hm) as [Hus _].
    assert (physical fr l = fr (l / ps) * ps + l `mod` ps)%Z as Hph by done. unfold zlen in Hus. fold m in Hsp.
    assert (Z.to_nat ((fr (l / ps)%Z + 1) * ps) = Z.to_nat (physical fr l) + Z.to_nat (strlen v - over)) as Hnp by nia.
    apply list_eq. intros i. unfold stored, tail. rewrite lookup_slice, lookup_drop, Hsp, Hnext, Hnp. cbn [UserSpace.user_space with_bytes].
    case_decide as Hi.
    - rewrite lookup_splice by lia. rewrite decide_True by lia. f_equal. lia.
    - symmetry. apply lookup_ge_None. lia. }
  split_and!; [exact Hw | exact Htail|]. intros Hh1. apply Hdiff. rewrite <- Htail.
  pose proof (h_size _ _ _ _ _ Hh) as Hs.
  assert (k' * ps / ps = k')%Z as Hkd by (by apply Z.div_mul; lia).
  assert ((k' * ps) `mod` ps = 0)%Z as Hkm by (by apply Z.mod_mul; lia).
  rewrite <- (reads_array (memory s1) x' s' fr' n' (k' * ps)%Z over); [|apply Hc1|exact Hh1|].
  - unfold DataServer.physical. by rewrite Hkd, Hkm, Z.add_0_r.
  - unfold inside. rewrite Hkm, Hs. split_and!; [nia | lia | lia | nia | lia].
Qed.
End Machine.

(** ** Two CPUs on the small memory

    Process 1 has pages 0 and 1 in frames 0 and 1, process 2 has page 0 in
    frame 2. *)
Definition array_of (l : list Z) : list byte := concat (pages_of config (space shared) l).

Definition two_arrays : gmap Z (list byte) := <[1%Z := array_of [0; 1]%Z]> {[2%Z := array_of [2]%Z]}.

Definition idle_cpu : t_cpu t_memoria := cpu1 [] [].
Definition cpu_with_entry : t_cpu t_memoria := cpu1 [entry_of 0 0 0] [].
Definition two_cpus_sharing : t_machine := mk_machine shared [cpu_with_entry; idle_cpu].

Lemma shared_holds1 : holds config depth shared 1 (array_of [0; 1]%Z) fr1 2.
Proof.
  constructor; [exact shared_maps1 | | | |].
  - eexists. apply list_elem_of_fmap. eexists. split; [|apply (list_elem_of_lookup_2 _ 0); vm_compute; reflexivity].
    vm_compute. reflexivity.
  - split; vm_compute; [split|]; discriminate.
  - vm_compute. reflexivity.
  - intros l Hl. assert (Forall (λ l, array_of [0; 1]%Z !! Z.to_nat l =
      UserSpace.user_space (space shared) !! Z.to_nat (physical config fr1 l)) (seqZ 0 32)) as Ha
      by (apply (bool_decide_unpack _); vm_compute; exact I).
    rewrite Forall_forall in Ha. apply Ha, elem_of_seqZ.
    replace (zlen (array_of [0; 1]%Z)) with 32%Z in Hl by (vm_compute; reflexivity). lia.
Qed.

Lemma shared_holds2 : holds config depth shared 2 (array_of [2]%Z) fr2 1.
Proof.
  constructor; [exact shared_maps2 | | | |].
  - eexists. apply list_elem_of_fmap. eexists. split; [|apply (list_elem_of_lookup_2 _ 1); vm_compute; reflexivity].
    vm_compute. reflexivity.
  - split; vm_compute; [split|]; discriminate.
  - vm_compute. reflexivity.
  - intros l Hl. assert (Forall (λ l, array_of [2]%Z !! Z.to_nat l =
      UserSpace.user_space (space shared) !! Z.to_nat (physical config fr2 l)) (seqZ 0 16)) as Ha
      by (apply (bool_decide_unpack _); vm_compute; exact I).
    rewrite Forall_forall in Ha. apply Ha, elem_of_seqZ.
    replace (zlen (array_of [2]%Z)) with 16%Z in Hl by (vm_compute; reflexivity). lia.
Qed.

Lemma idle_ready a : ready (MS := memoria_serve config fs) (PS := memoria_pages config fs depth config_good)
  (mmu_config_of config) (tlb2 a) depth (cpu_mmu idle_cpu).
Proof.
  apply ready_beside; [|by intros e ?%not_elem_of_nil]. constructor; cbn; try done. constructor.
Qed.

Lemma sharing_represents a : represents config fs depth config_good (tlb2 a) two_arrays two_cpus_sharing.
Proof.
  constructor.
  - exact shared_ready.
  - cbn [m_cpus two_cpus_sharing]. intros c [->|[->|[]%not_elem_of_nil]%elem_of_cons]%elem_of_cons.
    + apply (cpu1_ready [] a).
    + apply idle_ready.
  - intros x s. unfold two_arrays. rewrite lookup_insert_Some, lookup_singleton_Some.
    intros [[<- <-]|(_ & <- & <-)]; [exists fr1, 2%Z; exact shared_holds1 | exists fr2, 1%Z; exact shared_holds2].
Qed.

(** Both processes write and read at address 3, each on both CPUs. *)
Definition some_accesses : list (nat * Z * access) :=
  [(0, 1%Z, Acc_write 3 "hola"); (1, 2%Z, Acc_write 3 "chau"); (1, 1%Z, Acc_read 3 4); (0, 2%Z, Acc_read 3 4)].

Lemma processes_have_private_arrays_witness :
  ∃ A' y', machine_run config fs (tlb2 TLB_ALGO_FIFO) no_cache some_accesses two_cpus_sharing
    = Ok ([String.list_byte_of_string "hola"; String.list_byte_of_string "chau"], y') ∧
    represents config fs depth config_good (tlb2 TLB_ALGO_FIFO) A' y'.
Proof.
  destruct (spec_run 16 some_accesses two_arrays) as [[r A']|] eqn:E; [|vm_compute in E; discriminate E].
  assert (r = [String.list_byte_of_string "hola"; String.list_byte_of_string "chau"]) as ->.
  { assert (fst <$> spec_run 16 some_accesses two_arrays
      = Some [String.list_byte_of_string "hola"; String.list_byte_of_string "chau"]) as F by (vm_compute; reflexivity).
    rewrite E in F. injection F as F. exact F. }
  exists A'.
  apply (processes_have_private_arrays config fs depth config_good (tlb2 TLB_ALGO_FIFO) ltac:(discriminate)
    no_cache ltac:(discriminate) some_accesses two_arrays _ A' two_cpus_sharing).
  - exact (sharing_represents TLB_ALGO_FIFO).
  - repeat constructor.
  - exact E.
Defined.

(** Process 1 writes four bytes at the last two of its address space. *)
Lemma write_past_the_page_hits_another_process_witness :
  ∃ s1 : t_mmu t_memoria,
    run_instruction config fs (tlb2 TLB_ALGO_FIFO) no_cache (write_instruction 30 "hola") idle_cpu
      = Ok (false, stepped s1 idle_cpu) ∧
    stored (space (memory s1)) (2 * 16) 2 = String.list_byte_of_string "la" ∧
    ¬ holds config depth (memory s1) 2 (array_of [2]%Z) fr2 1.
Proof.
  apply (write_past_the_page_hits_another_process config fs depth config_good (tlb2 TLB_ALGO_FIFO) ltac:(discriminate)
    no_cache ltac:(discriminate) fr1 idle_cpu 30 "hola" 2 (array_of [2]%Z) fr2 1 0).
  - exact (conj (idle_ready TLB_ALGO_FIFO) shared_maps1).
  - apply (bool_decide_unpack _). vm_compute. exact I.
  - reflexivity.
  - reflexivity.
  - exact shared_holds2.
  - lia.
  - reflexivity.
  - vm_compute. discriminate.
Defined.
