(* ===== verification/CpuFrame.v ===== *)
(** * What the instructions leave alone

    Only system calls and the confirmation of INIT_PROC touch the dispatch
    connection; only the interrupt handler touches the interrupts and their
    answers; the memory module is only reached through requests, so a
    property of it that requests keep is kept. *)
From S2P Require Import Prelude Commons Enums Buffer Package Packages Config Mmu Cache.
From S2P Require Import Execution ExecutionFacts.
From Stdlib Require Import Strings.Byte.
Import Buffer Package InstructionCode.

Section Frame.
Context {C : CommonsOps} {Srv : Type} {MS : MemoryServer Srv}.
Context (ok : Srv → Prop) (Hserve : ∀ p s r s', ok s → serve p s = Ok (r, s') → ok s').
Context (g_mmu_config : MMUConfig) (g_tlb_config : TLBConfig) (g_cache_config : CacheConfig).
Local Abbreviation Cpu := (M (t_cpu Srv)).

(** ** Through the MMU *)
Definition memory_kept (m m' : t_mmu Srv) : Prop := ok (memory m) → ok (memory m').

#[local] Instance memory_kept_preorder : PreOrder memory_kept.
Proof. split; [by intros m ? | intros m m' m'' H H' ?; by apply H', H]. Qed.

Lemma request_kept r : within memory_kept (request r).
Proof.
  unfold request. apply within_bind; [apply _ | auto with within | intros p].
  apply (within_zoom _ (λ s s', ok s → ok s')); [by intros m s|]. split. intros s a s' H Hs. by eapply Hserve.
Qed.

Lemma int_div_within {S} (R : relation S) `{!PreOrder R} a b : within R (int_div a b).
Proof. unfold int_div. within_with fail. Qed.
Lemma int_mod_within {S} (R : relation S) `{!PreOrder R} a b : within R (int_mod a b).
Proof. unfold int_mod. within_with fail. Qed.
#[local] Hint Resolve request_kept int_div_within int_mod_within : within.

Local Ltac kept := within_with ltac:(first [apply within_modify; by intros m ? | case_decide]).

Lemma pagetable_entry_kept t i p : within memory_kept (mmu_request_pagetable_entry_from_memory t i p).
Proof. unfold mmu_request_pagetable_entry_from_memory. kept. Qed.
Lemma page_read_kept a b : within memory_kept (mmu_request_page_read_from_memory g_mmu_config a b).
Proof. unfold mmu_request_page_read_from_memory. kept. Qed.
Lemma send_write_kept a n d : within memory_kept (send_write a n d).
Proof. unfold send_write. kept. Qed.
Lemma tlb_find_kept n p : within memory_kept (tlb_find_entry g_tlb_config n p).
Proof. unfold tlb_find_entry. kept. Qed.
Lemma tlb_add_kept n f p : within memory_kept (tlb_add_entry g_tlb_config n f p).
Proof. unfold tlb_add_entry. cbv zeta. kept. Qed.
#[local] Hint Resolve pagetable_entry_kept page_read_kept send_write_kept tlb_find_kept tlb_add_kept : within.

Lemma walk_kept k l t n p : within memory_kept (walk_levels g_mmu_config k l t n p).
Proof. revert l t. induction k as [|k IH]; intros l t; cbn [walk_levels]; cbv zeta; kept; apply IH. Qed.
Lemma page_walk_kept n p : within memory_kept (mmu_perform_page_walk g_mmu_config n p).
Proof. apply walk_kept. Qed.
#[local] Hint Resolve page_walk_kept : within.

Lemma frame_of_page_kept n p : within memory_kept (frame_of_page g_mmu_config g_tlb_config n p).
Proof. unfold frame_of_page. kept. Qed.
#[local] Hint Resolve frame_of_page_kept : within.

Lemma translate_kept a p : within memory_kept (mmu_translate_address g_mmu_config g_tlb_config a p).
Proof. unfold mmu_translate_address. kept. Qed.
Lemma translate_page_kept n p :
  within memory_kept (mmu_translate_address_with_page_number g_mmu_config g_tlb_config n p).
Proof. unfold mmu_translate_address_with_page_number. kept. Qed.

(** ** Through the page cache *)
Lemma load_entry_kept i : within memory_kept (load_entry (Srv := Srv) i).
Proof. unfold load_entry. kept. Qed.
Lemma store_entry_kept i e : within memory_kept (store_entry (Srv := Srv) i e).
Proof. unfold store_entry. kept. Qed.
Lemma advance_kept : within memory_kept (advance (Srv := Srv) g_cache_config).
Proof. unfold advance. kept. Qed.
#[local] Hint Resolve translate_kept translate_page_kept load_entry_kept store_entry_kept advance_kept : within.

Lemma cache_find_kept n p : within memory_kept (cache_find_entry (Srv := Srv) n p).
Proof. unfold cache_find_entry. kept. Qed.

Lemma clock_kept k : within memory_kept (victim_clock (Srv := Srv) g_cache_config k).
Proof. induction k as [|k IH]; cbn [victim_clock]; kept. Qed.
Lemma step1_kept k : within memory_kept (clock_m_step1 (Srv := Srv) g_cache_config k).
Proof. induction k as [|k IH]; cbn [clock_m_step1]; kept. Qed.
Lemma step2_kept k : within memory_kept (clock_m_step2 (Srv := Srv) g_cache_config k).
Proof. induction k as [|k IH]; cbn [clock_m_step2]; kept. Qed.
#[local] Hint Resolve cache_find_kept clock_kept step1_kept step2_kept : within.
Lemma clock_m_kept k : within memory_kept (victim_clock_m (Srv := Srv) g_cache_config k).
Proof. induction k as [|k IH]; cbn [victim_clock_m]; kept. Qed.
#[local] Hint Resolve clock_m_kept : within.

Lemma write_back_kept a e : within memory_kept (write_back a e).
Proof. unfold write_back. cbv zeta. kept. Qed.
#[local] Hint Resolve write_back_kept : within.

Lemma select_victim_kept p : within memory_kept (select_victim_entry g_mmu_config g_tlb_config g_cache_config p).
Proof. unfold select_victim_entry, cache_find_victim_clock, cache_find_victim_clock_m, victim_address. kept. Qed.
Lemma load_page_kept l v p : within memory_kept (cache_load_page g_mmu_config g_tlb_config l v p).
Proof. unfold cache_load_page. kept. Qed.
Lemma cleanup_kept : within memory_kept (mmu_process_cleanup g_mmu_config g_tlb_config g_cache_config).
Proof. unfold mmu_process_cleanup, writeback_if_dirty. kept. Qed.
#[local] Hint Resolve select_victim_kept load_page_kept cleanup_kept : within.

(** ** Through the CPU *)
Record undisturbed (c c' : t_cpu Srv) : Prop := {
  u_memory : memory_kept (cpu_mmu c) (cpu_mmu c');
  u_in : dispatch_in c' = dispatch_in c;
  u_out : dispatch_out c' = dispatch_out c;
  u_interrupts : interrupt_list c' = interrupt_list c;
  u_pid : cpu_pid c' = cpu_pid c }.

#[local] Instance undisturbed_preorder : PreOrder undisturbed.
Proof.
  split; [by intros c; constructor | intros c c' c'' [] []; constructor; [by etrans | congruence..]].
Qed.

Lemma on_mmu_undisturbed {A} (o : M (t_mmu Srv) A) : within memory_kept o → within undisturbed (on_mmu o).
Proof. apply within_zoom. intros c m Hm. by constructor. Qed.

Local Ltac alone :=
  within_with ltac:(first [ apply within_modify; intros ?; by constructor
                          | apply on_mmu_undisturbed; solve [kept] | case_decide ]).

Lemma next_pc_undisturbed : within undisturbed next_pc.
Proof. unfold next_pc. alone. Qed.
#[local] Hint Resolve next_pc_undisturbed : within.

Lemma address_undisturbed l : within undisturbed (uncached_address g_mmu_config g_tlb_config l).
Proof. unfold uncached_address. alone. Qed.
Lemma write_cached_undisturbed i o n v : within undisturbed (write_cached i o n v).
Proof. unfold write_cached. cbv zeta. alone. Qed.
Lemma claim_undisturbed i p o n q : within undisturbed (claim_entry g_mmu_config i p o n q).
Proof. unfold claim_entry. alone. Qed.
#[local] Hint Resolve address_undisturbed write_cached_undisturbed claim_undisturbed : within.

Lemma fetch_undisturbed : within undisturbed fetch.
Proof. unfold fetch. alone. Qed.
Lemma exec_write_undisturbed i : within undisturbed (exec_write g_mmu_config g_tlb_config g_cache_config i).
Proof. unfold exec_write, exec_write_cached, exec_write_uncached. alone. Qed.
Lemma exec_read_undisturbed i : within undisturbed (exec_read g_mmu_config g_tlb_config g_cache_config i).
Proof. unfold exec_read, exec_read_cached, exec_read_uncached. alone. Qed.

(** The instructions that are no system calls. *)
Lemma execution_undisturbed i c b c' :
  execution g_mmu_config g_tlb_config g_cache_config i c = Ok (b, c') → yields i = Some false → undisturbed c c'.
Proof.
  unfold execution, yields. intros H Hy. destruct (instruction_code i); try discriminate Hy.
  - revert H. apply within_run. unfold exec_noop. alone.
  - revert H. apply within_run, exec_write_undisturbed.
  - revert H. apply within_run, exec_read_undisturbed.
  - revert H. apply within_run. unfold exec_goto. alone.
  - injection H as _ <-. reflexivity.
Qed.
End Frame.

(** ** The interrupt list, between its writers *)
Section InterruptList.
Context {C : CommonsOps} {CL : CommonsLaws C} {Srv : Type} {MS : MemoryServer Srv}.
Context (g_mmu_config : MMUConfig) (g_tlb_config : TLBConfig) (g_cache_config : CacheConfig).
Local Abbreviation Cpu := (M (t_cpu Srv)).

Definition same_interrupts (c c' : t_cpu Srv) : Prop := interrupt_list c' = interrupt_list c.

#[local] Instance same_interrupts_preorder : PreOrder same_interrupts.
Proof. split; [by intros c | intros c c' c'' H H'; unfold same_interrupts in *; congruence]. Qed.

Lemma recv_same_interrupts {A} (o : M (list byte) A) : within same_interrupts (zoom dispatch_in set_dispatch_in o).
Proof. by apply (within_zoom _ (λ _ _, True)). Qed.
#[local] Hint Resolve recv_same_interrupts : within.

Local Ltac keep := within_with ltac:(by apply within_modify).

Lemma send_syscall_same_interrupts t p : within same_interrupts (send_syscall (Srv := Srv) t p).
Proof. unfold send_syscall, send_dispatch. keep. Qed.
Lemma next_pc_same_interrupts : within same_interrupts (next_pc (Srv := Srv)).
Proof. by apply within_modify. Qed.
#[local] Hint Resolve send_syscall_same_interrupts next_pc_same_interrupts : within.

Lemma request_init_proc_same_interrupts i : within same_interrupts (request_init_proc (Srv := Srv) i).
Proof. unfold request_init_proc. keep. Qed.
Lemma await_confirmation_same_interrupts : within same_interrupts (await_confirmation (Srv := Srv)).
Proof. unfold await_confirmation, recv_dispatch_package. keep. Qed.
#[local] Hint Resolve request_init_proc_same_interrupts await_confirmation_same_interrupts : within.

Lemma undisturbed_interrupts c c' : undisturbed (λ _ : Srv, True) c c' → same_interrupts c c'.
Proof. by intros []. Qed.

Lemma fetch_same_interrupts : within same_interrupts fetch.
Proof. by eapply within_mono, fetch_undisturbed; [exact undisturbed_interrupts|]. Qed.

Lemma execution_same_interrupts i : within same_interrupts (execution g_mmu_config g_tlb_config g_cache_config i).
Proof.
  split. intros c b c' H. destruct (yields i) as [[]|] eqn:Hy.
  2: by eapply undisturbed_interrupts, execution_undisturbed.
  all: revert H; apply within_run; unfold execution, yields in *; destruct (instruction_code i); try discriminate Hy.
  all: unfold exec_io, exec_init_proc, exec_dump_memory, exec_exit; keep.
Qed.

Lemma handler_empties_list c b c' :
  interrupt_handler g_mmu_config g_tlb_config g_cache_config c = Ok (b, c') → interrupt_list c' = [].
Proof.
  rewrite interrupt_handler_ok. intros H. bind_inv H. injection H as _ <-.
  assert (∀ l, within same_interrupts (for_each l (check_interrupt g_mmu_config g_tlb_config g_cache_config))) as Hl.
  { intros l. apply within_for_each; [apply _|]. intros p. split. intros c1 a c2 H. by apply answer_list in H. }
  by apply Hl in E.
Qed.

(** Without interrupts the handler does nothing. *)
Lemma handler_idle c :
  interrupt_list c = [] → interrupt_handler g_mmu_config g_tlb_config g_cache_config c = Ok (false, c).
Proof. intros H. rewrite interrupt_handler_ok, H. by destruct c; cbn in *; subst. Qed.
End InterruptList.
