(* ===== verification/CpuThreads.v ===== *)
(** * The two threads of the CPU module (cpu/src/main.c, instructionCycle.c,
    lists_and_mutex.c)

    The main thread receives a process and runs its instructions; the
    [interrupt_listener] receives interrupts and answers those that find the
    CPU free.  [cpu_mutex] is meant to be held by the main thread from
    [recv_dispatch] until the process leaves, and by the listener while it
    handles interrupts.

    A turn of a thread goes from one blocking call or shared access to the
    next; [None] is a thread that waits for the semaphore, or has ended.
    [interrupt_list_mutex] is taken and released within a turn, since no
    thread waits for anything while it has it.  An empty socket is one the
    kernel has closed. *)
From S2P Require Import Prelude Commons Enums Buffer Package Packages Config Mmu Cache.
From S2P Require Import Execution ExecutionFacts.
From Stdlib Require Import Strings.Byte.
Import Buffer Package InstructionCode.

(** Where the main thread is: in [recv_dispatch]; in its [lock_cpu_mutex]
    with the package received; at the head of the inner loop; in INIT_PROC,
    waiting for the confirmation; before [interrupt_handler], with
    [should_preempt]. *)
Inductive main_point :=
  | M_dispatch | M_lock (package : t_package) | M_cycle | M_confirm | M_interrupts (should_preempt : bool).

(** Where the listener is: in [recv_package]; before [add_interrupt]; in
    [lock_cpu_mutex]; before [interrupt_handler]; ended. *)
Inductive listener_point := L_recv | L_add (package : t_package) | L_lock | L_handle | L_exit.

Inductive cpu_thread := Main | Listener.

(** [unpaired] is a history variable: how often the main thread has entered
    the inner loop without the lock. *)
Record t_cpu_system (S : Type) := mk_system {
  sys_cpu : t_cpu S;
  cpu_mutex : Z;
  main_at : main_point;
  listener_at : listener_point;
  interrupt_in : list byte;
  unpaired : Z }.
Arguments mk_system {S} _ _ _ _ _ _.
Arguments sys_cpu {S} _.
Arguments cpu_mutex {S} _.
Arguments main_at {S} _.
Arguments listener_at {S} _.
Arguments interrupt_in {S} _.
Arguments unpaired {S} _.

Section Threads.
Context {C : CommonsOps} {Srv : Type} {MS : MemoryServer Srv}.
Context (g_mmu_config : MMUConfig) (g_tlb_config : TLBConfig) (g_cache_config : CacheConfig).
Local Abbreviation System := (t_cpu_system Srv).

(** [init_list_and_mutex]; [pid] and [pc] start at 0. *)
Definition init_list_and_mutex (mmu : t_mmu Srv) (dispatch interrupts : list byte) : System :=
  mk_system (mk_cpu mmu 0 0 dispatch [] [] [] []) 1 M_dispatch L_recv interrupts 0.

Definition main_goes (s : System) (c : t_cpu Srv) (mutex : Z) (p : main_point) : System :=
  mk_system c mutex p (listener_at s) (interrupt_in s) (unpaired s).

Definition listener_goes (s : System) (c : t_cpu Srv) (mutex : Z) (p : listener_point) : System :=
  mk_system c mutex (main_at s) p (interrupt_in s) (unpaired s).

(** The result of [recv_dispatch] is not looked at: without a process the
    inner loop is entered all the same, with no lock taken. *)
Definition enter_without_lock (s : System) (c : t_cpu Srv) : System :=
  mk_system c (cpu_mutex s) M_cycle (listener_at s) (interrupt_in s) (unpaired s + 1).

Definition main_receives (s : System) : res (option System) :=
  '(package, c) ← zoom dispatch_in set_dispatch_in recv_package (sys_cpu s);
  match package with
  | Some p =>
      if opcode_is Opcode.DISPATCH p then mret (Some (main_goes s c (cpu_mutex s) (M_lock p)))
      else mret (Some (enter_without_lock s c))
  | None => mret (Some (enter_without_lock s c))
  end.

Definition main_locks (p : t_package) (s : System) : res (option System) :=
  if decide (0 < cpu_mutex s)%Z then
    data ← read_with read_dispatch_package p;
    mret (Some (main_goes s (set_context (dispatch_pid data) (dispatch_pc data) (sys_cpu s)) (cpu_mutex s - 1) M_cycle))
  else mret None.

Definition main_executes (s : System) : res (option System) :=
  '(package, c) ← fetch (sys_cpu s);
  match package with
  | None => mret (Some (main_goes s c (cpu_mutex s + 1) M_dispatch))
  | Some p =>
      instruction ← decode p;
      if decide (instruction_code instruction = INIT_PROC) then
        '(_, c) ← request_init_proc instruction c;
        mret (Some (main_goes s c (cpu_mutex s) M_confirm))
      else
        '(should_preempt, c) ← execution g_mmu_config g_tlb_config g_cache_config instruction c;
        mret (Some (main_goes s c (cpu_mutex s) (M_interrupts should_preempt)))
  end.

Definition main_confirms (s : System) : res (option System) :=
  '(should_preempt, c) ← await_confirmation (sys_cpu s);
  mret (Some (main_goes s c (cpu_mutex s) (M_interrupts should_preempt))).

Definition main_interrupts (should_preempt : bool) (s : System) : res (option System) :=
  '(should_interrupt, c) ← interrupt_handler g_mmu_config g_tlb_config g_cache_config (sys_cpu s);
  if (should_preempt || should_interrupt) : bool
  then mret (Some (main_goes s (set_context (-1) (-1) c) (cpu_mutex s + 1) M_dispatch))
  else mret (Some (main_goes s c (cpu_mutex s) M_cycle)).

Definition main_turn (s : System) : res (option System) :=
  match main_at s with
  | M_dispatch => main_receives s
  | M_lock p => main_locks p s
  | M_cycle => main_executes s
  | M_confirm => main_confirms s
  | M_interrupts should_preempt => main_interrupts should_preempt s
  end.

Definition interrupt_listener (s : System) : res (option System) :=
  match listener_at s with
  | L_recv =>
      '(package, rest) ← recv_package (interrupt_in s);
      let next := match package with Some p => L_add p | None => L_exit end in
      mret (Some (mk_system (sys_cpu s) (cpu_mutex s) (main_at s) next rest (unpaired s)))
  | L_add p =>
      '(_, c) ← add_interrupt p (sys_cpu s);
      mret (Some (listener_goes s c (cpu_mutex s) L_lock))
  | L_lock =>
      if decide (0 < cpu_mutex s)%Z
      then mret (Some (listener_goes s (sys_cpu s) (cpu_mutex s - 1) L_handle)) else mret None
  | L_handle =>
      '(_, c) ← interrupt_handler g_mmu_config g_tlb_config g_cache_config (sys_cpu s);
      mret (Some (listener_goes s c (cpu_mutex s + 1) L_recv))
  | L_exit => mret None
  end.

Definition turn (t : cpu_thread) : System → res (option System) :=
  match t with Main => main_turn | Listener => interrupt_listener end.

Inductive cpu_step (s s' : System) : Prop :=
  | takes_turn t : turn t s = Ok (Some s') → cpu_step s s'.

(** The turns in the order of a schedule; a thread that waits loses its
    turn. *)
Fixpoint scheduled (l : list cpu_thread) (s : System) : res System :=
  match l with
  | [] => mret s
  | t :: l => o ← turn t s; scheduled l (default s o)
  end.

Lemma scheduled_steps l s s' : scheduled l s = Ok s' → rtc cpu_step s s'.
Proof.
  revert s. induction l as [|t l IH]; intros s H; cbn in H; [by injection H as ->|].
  destruct (turn t s) as [[s1|]|] eqn:E; [|by apply IH|done].
  eapply rtc_l; [by eapply takes_turn | by apply IH].
Qed.

Lemma scheduled_cons t l s s' : turn t s = Ok (Some s') → scheduled (t :: l) s = scheduled l s'.
Proof. intros H. cbn [scheduled]. by rewrite H. Qed.

Lemma scheduled_app l l' s : scheduled (l ++ l') s = (s1 ← scheduled l s; scheduled l' s1).
Proof.
  revert s. induction l as [|t l IH]; intros s; [done|]. cbn.
  destruct (turn t s) as [o|]; [|done]. apply IH.
Qed.
End Threads.
