(* ===== verification/CpuConcurrency.v ===== *)
(** * The two threads of the CPU module, proved

    Who holds [cpu_mutex], what is pending on the interrupt list, and what
    happens when the main thread enters its inner loop without a process. *)
From S2P Require Import Prelude Commons Enums Buffer Package Packages Roundtrip Config Mmu Cache Session.
From S2P Require Import Execution ExecutionFacts CpuFrame CpuThreads Scenario Memoria Server DataServer CpuProperties.
From Stdlib Require Import Strings.Byte.
Import Buffer Package InstructionCode.

Section Locking.
Context {C : CommonsOps} {CL : CommonsLaws C} {Srv : Type} {MS : MemoryServer Srv}.
Context (g_mmu_config : MMUConfig) (g_tlb_config : TLBConfig) (g_cache_config : CacheConfig).
Local Abbreviation System := (t_cpu_system Srv).
Local Abbreviation step := (cpu_step (Srv := Srv) g_mmu_config g_tlb_config g_cache_config).
Local Abbreviation turn := (turn (Srv := Srv) g_mmu_config g_tlb_config g_cache_config).
Local Abbreviation scheduled := (scheduled (Srv := Srv) g_mmu_config g_tlb_config g_cache_config).

(** Whether a thread is where it should have the lock. *)
Definition main_inside (p : main_point) : bool :=
  match p with M_cycle | M_confirm | M_interrupts _ => true | M_dispatch | M_lock _ => false end.

Definition listener_inside (p : listener_point) : bool :=
  match p with L_handle => true | L_recv | L_add _ | L_lock | L_exit => false end.

Definition pending_of (p : listener_point) : nat :=
  match p with L_lock | L_handle => 1 | L_recv | L_add _ | L_exit => 0 end.

Record locking_ok (s : System) : Prop := {
  mutex_counts : (cpu_mutex s + Z.b2z (main_inside (main_at s)) + Z.b2z (listener_inside (listener_at s))
                  = 1 + unpaired s)%Z;
  mutex_nonneg : (0 <= cpu_mutex s)%Z;
  unpaired_nonneg : (0 <= unpaired s)%Z;
  pending : length (interrupt_list (sys_cpu s)) <= pending_of (listener_at s) }.

Lemma initially_ok mmu dispatch interrupts : locking_ok (init_list_and_mutex mmu dispatch interrupts).
Proof. by split. Qed.

(** A run of a part of a turn. *)
Local Ltac res_inv H :=
  match type of H with
  | (?m ≫= _) = Ok _ =>
      let E := fresh "E" in destruct m as [?|?] eqn:E; cbn in H; [|discriminate H];
      try match type of E with _ = Ok ?p => destruct p as [? ?] end
  end.

Local Ltac state :=
  split; cbn [cpu_mutex main_at listener_at unpaired sys_cpu interrupt_list main_goes listener_goes
              enter_without_lock set_context set_interrupts main_inside listener_inside pending_of Z.b2z] in *;
  try lia.

Lemma main_keeps_locking s s' :
  locking_ok s → main_turn g_mmu_config g_tlb_config g_cache_config s = Ok (Some s') → locking_ok s'.
Proof.
  intros [Hm Hn Hu Hp] H. unfold main_turn in H. destruct (main_at s) as [|p| | |b] eqn:Hat.
  - unfold main_receives in H. res_inv H. apply recv_same_interrupts in E as Hl. unfold same_interrupts in Hl.
    destruct o as [p|]; [destruct (opcode_is _ p)|]; injection H as <-; state; rewrite Hl; exact Hp.
  - unfold main_locks in H. case_decide; [|done]. res_inv H. injection H as <-. state.
  - unfold main_executes in H. res_inv H. apply fetch_same_interrupts in E as Hl. unfold same_interrupts in Hl.
    destruct o as [p|]; [|injection H as <-; state; rewrite Hl; exact Hp]. res_inv H.
    case_decide; res_inv H; [apply request_init_proc_same_interrupts in E1 as Hl'
                            |apply execution_same_interrupts in E1 as Hl'];
      unfold same_interrupts in Hl'; injection H as <-; state; rewrite Hl', Hl; exact Hp.
  - unfold main_confirms in H. res_inv H. apply await_confirmation_same_interrupts in E as Hl.
    unfold same_interrupts in Hl. injection H as <-. state. rewrite Hl. exact Hp.
  - unfold main_interrupts in H. res_inv H. apply handler_empties_list in E as Hl.
    destruct (b || b0); injection H as <-; state; rewrite Hl; cbn; lia.
Qed.

Lemma listener_keeps_locking s s' :
  locking_ok s → interrupt_listener g_mmu_config g_tlb_config g_cache_config s = Ok (Some s') → locking_ok s'.
Proof.
  intros [Hm Hn Hu Hp] H. unfold interrupt_listener in H. destruct (listener_at s) as [|p| | |] eqn:Hat; [..|done].
  - res_inv H. destruct o as [p|]; injection H as <-; state.
  - cbn in H. injection H as <-. state. rewrite list_add_spec, length_app. cbn. lia.
  - case_decide; [|done]. injection H as <-. state.
  - res_inv H. apply handler_empties_list in E as Hl. injection H as <-. state. by rewrite Hl.
Qed.

Lemma reachable_ok s s' : locking_ok s → rtc step s s' → locking_ok s'.
Proof.
  intros Hs Hr. induction Hr as [|s1 s2 s3 [[] Ht] _ IH]; [done| |].
  - by eapply IH, main_keeps_locking.
  - by eapply IH, listener_keeps_locking.
Qed.

(** Nobody waits for a lock that nobody will release. *)
Lemma someone_can_go s : locking_ok s → ∃ t, turn t s ≠ Ok None.
Proof.
  intros [Hm Hn Hu _]. destruct (main_at s) as [|p| | |b] eqn:Hat.
  - exists Main. cbn. unfold main_turn. rewrite Hat. unfold main_receives.
    destruct (zoom _ _ _ _) as [[[p|] c]|]; cbn; [by destruct (opcode_is _ p)|done|done].
  - destruct (decide (0 < cpu_mutex s)%Z) as [Hpos|Hpos].
    + exists Main. cbn. unfold main_turn. rewrite Hat. unfold main_locks. rewrite decide_True by done.
      by destruct (read_with _ _).
    + exists Listener. cbn. unfold interrupt_listener. cbn in Hm.
      destruct (listener_at s) as [| | | |]; cbn in Hm; try lia. by destruct (interrupt_handler _ _ _ _) as [[]|].
  - exists Main. cbn. unfold main_turn. rewrite Hat. unfold main_executes.
    destruct (fetch _) as [[[p|] c]|]; cbn; [|done|done]. destruct (decode p) as [i|]; cbn; [|done].
    case_decide; [by destruct (request_init_proc i _) as [[]|] | by destruct (execution _ _ _ _ _) as [[]|]].
  - exists Main. cbn. unfold main_turn. rewrite Hat. unfold main_confirms. by destruct (await_confirmation _) as [[]|].
  - exists Main. cbn. unfold main_turn. rewrite Hat. unfold main_interrupts.
    destruct (interrupt_handler _ _ _ _) as [[b' c]|]; cbn; [|done]. by destruct (b || b').
Qed.

(** C12: in whatever order the two threads of the CPU take their turns, as long
    as the main thread gets a process from every [recv_dispatch], at most one
    of them is where it needs [cpu_mutex]; the semaphore is 0 or 1; at most
    one interrupt is pending, and none while the listener waits for the next;
    and the threads never block each other. *)
Theorem cpu_threads_exclude_each_other mmu dispatch interrupts (s : System) :
  rtc step (init_list_and_mutex mmu dispatch interrupts) s → unpaired s = 0%Z →
  ¬ (main_inside (main_at s) = true ∧ listener_inside (listener_at s) = true) ∧
  (0 <= cpu_mutex s <= 1)%Z ∧
  length (interrupt_list (sys_cpu s)) <= pending_of (listener_at s) ∧
  ∃ t, turn t s ≠ Ok None.
Proof.
  intros Hr Hu. eapply reachable_ok in Hr; [|apply initially_ok].
  pose proof (someone_can_go _ Hr) as Hg. destruct Hr as [Hm Hn _ Hp]. rewrite Hu in Hm.
  destruct (main_inside _), (listener_inside _); cbn in Hm; split_and!; try done; try lia; by intros [??].
Qed.

(** One turn at [recv_dispatch] after the disconnection, and one in the inner
    loop. *)
Lemma disconnected_turns s :
  main_at s = M_dispatch → dispatch_in (sys_cpu s) = [] → (cpu_pid (sys_cpu s) < 0)%Z →
  scheduled [Main; Main] s
  = Ok (mk_system (sys_cpu s) (cpu_mutex s + 1) M_dispatch (listener_at s) (interrupt_in s) (unpaired s + 1)).
Proof.
  intros Hat Hin Hpid.
  assert (turn Main s = Ok (Some (enter_without_lock s (sys_cpu s)))) as T1.
  { cbn. unfold main_turn. rewrite Hat. unfold main_receives, zoom. rewrite Hin.
    destruct s as [[]]. cbn in Hin. by subst. }
  assert (turn Main (enter_without_lock s (sys_cpu s))
          = Ok (Some (main_goes (enter_without_lock s (sys_cpu s)) (sys_cpu s) (cpu_mutex s + 1) M_dispatch))) as T2.
  { cbn. unfold main_executes, fetch. step. cbn. by rewrite decide_True by (by left). }
  by rewrite (scheduled_cons _ _ _ _ _ _ _ T1), (scheduled_cons _ _ _ _ _ _ _ T2).
Qed.

(** A CPU without a process that the kernel has disconnected never ends:
    it goes on turning, every turn of its outer loop leaves everything as it
    was except that it posts [cpu_mutex] once more (up to the greatest value
    of a semaphore), which soon excludes nobody. *)
Theorem disconnected_cpu_spins (s : System) n :
  main_at s = M_dispatch → dispatch_in (sys_cpu s) = [] → (cpu_pid (sys_cpu s) < 0)%Z →
  (cpu_mutex s + Z.of_nat n <= 2147483647)%Z →
  scheduled (concat (replicate n [Main; Main])) s
  = Ok (mk_system (sys_cpu s) (cpu_mutex s + Z.of_nat n) M_dispatch (listener_at s) (interrupt_in s)
          (unpaired s + Z.of_nat n)).
Proof.
  intros Hat Hin Hpid _. revert s Hat Hin Hpid. induction n as [|n IH]; intros s Hat Hin Hpid.
  - cbn. rewrite !Z.add_0_r. destruct s; cbn in *; by subst.
  - replace (concat (replicate (S n) [Main; Main])) with ([Main; Main] ++ concat (replicate n [Main; Main])) by done.
    rewrite scheduled_app, disconnected_turns by done. cbn [mbind res_bind].
    rewrite IH by done. cbn [sys_cpu cpu_mutex listener_at interrupt_in unpaired]. do 2 f_equal; lia.
Qed.

(** [cycle] and [run_process] of Execution.v are what the main thread does
    when it is alone and what it waits for has arrived. *)
Lemma execution_turns s p c1 i b c2 :
  main_at s = M_cycle → fetch (sys_cpu s) = Ok (Some p, c1) → decode p = Ok i →
  execution g_mmu_config g_tlb_config g_cache_config i c1 = Ok (b, c2) →
  ∃ n, scheduled (replicate n Main) s = Ok (main_goes s c2 (cpu_mutex s) (M_interrupts b)).
Proof.
  intros Hat Hf Hd He. destruct (decide (instruction_code i = INIT_PROC)) as [Hi|Hi].
  - exists 2. unfold execution in He. rewrite Hi in He. unfold exec_init_proc in He. bind_inv He. cbn [replicate].
    rewrite (scheduled_cons _ _ _ _ _ _ (main_goes s st (cpu_mutex s) M_confirm)).
    + erewrite scheduled_cons; [done|]. cbn. unfold main_confirms. cbn. by rewrite He.
    + cbn. unfold main_turn. rewrite Hat. unfold main_executes. rewrite Hf. cbn. rewrite Hd. cbn.
      by rewrite decide_True, E by done.
  - exists 1. cbn [replicate]. erewrite scheduled_cons; [done|].
    cbn. unfold main_turn. rewrite Hat. unfold main_executes. rewrite Hf. cbn. rewrite Hd. cbn.
    by rewrite decide_False, He by done.
Qed.

Lemma cycle_turns s c b c' :
  main_at s = M_cycle → sys_cpu s = c → cycle g_mmu_config g_tlb_config g_cache_config c = Ok (b, c') →
  ∃ n, scheduled (replicate n Main) s
    = Ok (main_goes s c' (cpu_mutex s + Z.b2z (negb b)) (if b : bool then M_cycle else M_dispatch)).
Proof.
  intros Hat <- H. unfold cycle in H. bind_inv H. destruct r as [p|].
  - bind_inv H. unfold lift_res in E0. destruct (decode p) as [i|] eqn:Ed; [|done]. injection E0 as <- <-.
    bind_inv H. bind_inv H. destruct (execution_turns _ _ _ _ _ _ Hat E Ed E0) as [n Hn].
    exists (n + 1). rewrite replicate_add, scheduled_app, Hn. cbn [mbind res_bind replicate].
    erewrite scheduled_cons; [done|]. cbn. unfold main_interrupts. cbn. rewrite E1. cbn.
    destruct (r || r0); injection H as <- <-; [done|]. cbn. by rewrite Z.add_0_r.
  - exists 1. injection H as <- <-. cbn [replicate]. erewrite scheduled_cons; [done|].
    cbn. unfold main_turn. rewrite Hat. unfold main_executes. by rewrite E.
Qed.

Lemma main_runs_the_process fuel s c' :
  main_at s = M_cycle → run_process g_mmu_config g_tlb_config g_cache_config fuel (sys_cpu s) = Ok (tt, c') →
  ∃ n, scheduled (replicate n Main) s = Ok (main_goes s c' (cpu_mutex s + 1) M_dispatch).
Proof.
  revert s. induction fuel as [|fuel IH]; intros s Hat H; [done|]. cbn [run_process] in H. bind_inv H.
  destruct (cycle_turns s _ r st Hat eq_refl E) as [n Hn]. destruct r; cbn in Hn.
  - destruct (IH (main_goes s st (cpu_mutex s + 0) M_cycle) eq_refl H) as [m Hm].
    exists (n + m). rewrite replicate_add, scheduled_app, Hn. cbn [mbind res_bind]. rewrite Hm. cbn.
    by rewrite Z.add_0_r.
  - exists n. injection H as <-. done.
Qed.

(** An interrupt for another process than the one that runs: the kernel is
    told so, and the process that runs leaves the CPU all the same. *)
Lemma foreign_interrupt_drops_the_process (s : System) x p b :
  create_interrupt_package x = Ok p → in_i32 x → in_i32 (cpu_pc (sys_cpu s)) → x ≠ cpu_pid (sys_cpu s) →
  main_at s = M_interrupts b → interrupt_list (sys_cpu s) = [p] →
  ∃ reply s', create_cpu_context_package x (cpu_pc (sys_cpu s)) 1 = Ok reply ∧ turn Main s = Ok (Some s') ∧
    main_at s' = M_dispatch ∧ cpu_pid (sys_cpu s') = (-1)%Z ∧ cpu_pc (sys_cpu s') = (-1)%Z ∧
    dispatch_out (sys_cpu s') = dispatch_out (sys_cpu s) ∧
    interrupt_out (sys_cpu s') = send_package (interrupt_out (sys_cpu s)) reply.
Proof.
  intros Hp Hx Hpc Hne Hat Hl.
  destruct (answer_other g_mmu_config g_tlb_config g_cache_config x (set_interrupts [] (sys_cpu s)) p Hp Hx Hpc Hne)
    as (reply & Hr & Ha).
  exists reply. eexists. split; [done|]. split.
  - cbn. unfold main_turn. rewrite Hat. unfold main_interrupts. rewrite interrupt_handler_ok, Hl.
    rewrite reverse_singleton. cbn [for_each]. unfold mbind at 2, M_bind at 1, mbind at 2, M_bind at 1.
    rewrite Ha. cbn. rewrite orb_true_r. reflexivity.
  - done.
Qed.
End Locking.

(** ** A CPU beside the small memory *)
Definition the_package (r : res t_package) : t_package :=
  match r with Ok p => p | Crash _ => mk_package 0 (mk_buffer 0 [] 0) end.

#[local] Instance small_server : MemoryServer t_memoria := memoria_serve config fs.

(** The CPU at its start, with what the kernel will have sent to it. *)
Definition two_threads (dispatch interrupts : list t_package) : t_cpu_system t_memoria :=
  init_list_and_mutex (mmu_beside [] [] shared) (wire dispatch) (wire interrupts).

Local Abbreviation small_run := (scheduled (mmu_config_of config) (tlb2 TLB_ALGO_FIFO) no_cache).
Local Abbreviation small_step := (cpu_step (mmu_config_of config) (tlb2 TLB_ALGO_FIFO) no_cache).

Definition after_turns (l : list cpu_thread) (s : t_cpu_system t_memoria) : t_cpu_system t_memoria :=
  match small_run l s with Ok s => s | Crash _ => s end.

Definition dispatch_1 : t_package := the_package (create_dispatch_package 1 0).
Definition interrupt_1 : t_package := the_package (create_interrupt_package 1).

(** Process 1 runs its first instruction while an interrupt for it arrives;
    the listener has to wait for the lock. *)
Definition contended : t_cpu_system t_memoria :=
  after_turns [Main; Main; Listener; Main; Listener; Listener] (two_threads [dispatch_1] [interrupt_1]).

Lemma contended_reached : small_run [Main; Main; Listener; Main; Listener; Listener] (two_threads [dispatch_1] [interrupt_1])
  = Ok contended.
Proof. vm_compute. reflexivity. Qed.

Lemma cpu_threads_exclude_each_other_witness :
  main_at contended = M_interrupts false ∧ listener_at contended = L_lock ∧
  (0 <= cpu_mutex contended <= 1)%Z ∧ length (interrupt_list (sys_cpu contended)) = 1 ∧
  ∃ t, turn (mmu_config_of config) (tlb2 TLB_ALGO_FIFO) no_cache t contended ≠ Ok None.
Proof.
  destruct (cpu_threads_exclude_each_other (mmu_config_of config) (tlb2 TLB_ALGO_FIFO) no_cache
    (mmu_beside [] [] shared) (wire [dispatch_1]) (wire [interrupt_1]) contended) as (_ & Hm & _ & Hg).
  - eapply scheduled_steps. exact contended_reached.
  - vm_compute. reflexivity.
  - split; [vm_compute; reflexivity|]. split; [vm_compute; reflexivity|].
    split; [exact Hm|]. split; [vm_compute; reflexivity | exact Hg].
Defined.

(** The process is interrupted and the kernel disconnects. *)
Definition deserted : t_cpu_system t_memoria := after_turns [Main] contended.

Lemma disconnected_cpu_spins_witness :
  small_run (concat (replicate 1000 [Main; Main])) deserted
  = Ok (mk_system (sys_cpu deserted) (cpu_mutex deserted + 1000) M_dispatch L_lock [] 1000).
Proof.
  rewrite (disconnected_cpu_spins (mmu_config_of config) (tlb2 TLB_ALGO_FIFO) no_cache deserted 1000).
  - vm_compute. reflexivity.
  - vm_compute. reflexivity.
  - vm_compute. reflexivity.
  - vm_compute. reflexivity.
  - apply (bool_decide_unpack _). vm_compute. reflexivity.
Defined.

(** The kernel disconnects before it has dispatched anything: process 0 is
    asked for at 0, and both threads are inside. *)
Lemma both_threads_inside :
  ∃ s, rtc small_step (two_threads [] [interrupt_1]) s ∧
    main_inside (main_at s) = true ∧ listener_inside (listener_at s) = true ∧
    cpu_pid (sys_cpu s) = 0%Z ∧ cpu_pc (sys_cpu s) = 0%Z.
Proof.
  exists (after_turns [Main; Listener; Listener; Listener] (two_threads [] [interrupt_1])). split.
  - apply (scheduled_steps _ _ _ [Main; Listener; Listener; Listener]). vm_compute. reflexivity.
  - vm_compute. auto.
Qed.
