(* ===== verification/ScriptTurns.v ===== *)
(** * A line of a script

    The two turns in which the main thread of a CPU fetches a line of the
    script of its process, executes it, and looks for interrupts. *)
From S2P Require Import Prelude Commons Enums Buffer Package Packages Roundtrip Config Semaphores Storage PageTable.
From S2P Require Import PageTableFacts Memoria MemoriaFacts Invariant Mmu Server Cache Execution RequestFacts.
From S2P Require Import CpuFrame CpuThreads.
Import Buffer Package.

(** The script that memory has for a process. *)
Definition script_of (m : t_memoria) (x : Z) : option (list string) :=
  i ← position_from 0 x (global_process_list m); instructions <$> global_process_list m !! i.

Lemma position_by_pid x (l l' : list process_info) :
  pid <$> l = pid <$> l' → position_from 0 x l = position_from 0 x l'.
Proof.
  generalize 0. revert l'. induction l as [|p l IH]; intros [|q l'] n H; try done.
  cbn in *. injection H as Hp Hl. rewrite Hp. case_decide; [done|]. by apply IH.
Qed.

Lemma script_of_owners m m' x : owners m' = owners m → script_of m' x = script_of m x.
Proof.
  intros Ho. unfold script_of, owners in *.
  assert (pid <$> global_process_list m' = pid <$> global_process_list m) as Hp.
  { apply (f_equal (fmap (λ o : Z * bool * list Z * list string, o.1.1.1))) in Ho. by rewrite <- !list_fmap_compose in Ho. }
  rewrite (position_by_pid _ _ _ Hp). destruct (position_from 0 x _) as [i|]; [|done]. cbn.
  apply (f_equal (lookup i)) in Ho. rewrite !list_lookup_fmap in Ho.
  destruct (global_process_list m' !! i) as [p|], (global_process_list m !! i) as [q|]; try done.
  cbn in *. unfold owner in Ho. congruence.
Qed.

(** What the CPU has received and sent, its log of reads and its lock. *)
Record same_outside {S} (s s' : t_cpu_system S) : Prop := {
  so_in : dispatch_in (sys_cpu s') = dispatch_in (sys_cpu s);
  so_out : dispatch_out (sys_cpu s') = dispatch_out (sys_cpu s);
  so_answers : interrupt_out (sys_cpu s') = interrupt_out (sys_cpu s);
  so_mutex : cpu_mutex s' = cpu_mutex s }.

#[export] Instance same_outside_preorder {S} : PreOrder (same_outside (S := S)).
Proof. split; [by constructor|]. intros s1 s2 s3 [] []. constructor; congruence. Qed.

Section Lines.
Context {C : CommonsOps} {CL : CommonsLaws C} (config : t_memoria_config) (fs : t_file_system).
Context (mmu_config : MMUConfig) (tlb_config : TLBConfig) (cache_config : CacheConfig).
#[local] Instance served : MemoryServer t_memoria := memoria_serve config fs.
Local Abbreviation System := (t_cpu_system t_memoria).
Local Abbreviation scheduled := (scheduled mmu_config tlb_config cache_config).
Local Abbreviation execution := (execution mmu_config tlb_config cache_config).
Implicit Types (s : System) (c : t_cpu t_memoria) (m : t_memoria).

(** What a FETCH changes in memory is a counter. *)
Record fetched m m' : Prop := {
  f_ready : mem_ready config m';
  f_space : space m' = space m;
  f_owners : owners m' = owners m;
  f_maps : ∀ d x fr, memoria_maps config d m' x fr ↔ memoria_maps config d m x fr }.

Definition with_fetched m c : t_cpu t_memoria := set_mmu (set_memory m (cpu_mmu c)) c.

Lemma fetches_line c lines :
  mem_ready config (memory (cpu_mmu c)) → script_of (memory (cpu_mmu c)) (cpu_pid c) = Some lines →
  in_i32 (cpu_pid c) → (0 <= cpu_pid c)%Z → in_i32 (cpu_pc c) → (0 <= cpu_pc c)%Z →
  fits (default EmptyString (znth lines (cpu_pc c))) →
  ∃ reply m, fetch c = Ok (Some reply, with_fetched m c) ∧ fetched (memory (cpu_mmu c)) m ∧
    decode reply = parse_instruction (default EmptyString (znth lines (cpu_pc c))).
Proof.
  intros Hm Hs Hx Hx0 Hpc Hpc0 Hfit. unfold script_of in Hs.
  destruct (position_from 0 (cpu_pid c) _) as [i|] eqn:Hpos; [|done]. cbn in Hs.
  destruct (global_process_list (memory (cpu_mmu c)) !! i) as [p|] eqn:Hi; [|done]. injection Hs as <-.
  destruct (serve_line config fs _ (cpu_pid c) (cpu_pc c) i p Hm Hx Hpc Hpos Hi Hfit)
    as (req & reply & Hreq & Hserve & Hop & Hdec).
  exists reply, (set_out [] (counted i p (memory (cpu_mmu c)))). split_and!; [| |exact Hdec].
  - unfold fetch. step. cbn. rewrite decide_False by lia.
    unfold on_mmu, request, zoom, lift_res. cbn. rewrite Hreq. step. change (serve req) with (memoria_serve config fs req).
    rewrite Hserve. cbn. by rewrite Hop.
  - constructor; [by apply counted_ready | done | by apply owners_metered|].
    intros d x fr. rewrite maps_set_out. by apply maps_metered.
Qed.

Lemma line_turns s reply c1 i b c2 :
  main_at s = M_cycle → fetch (sys_cpu s) = Ok (Some reply, c1) → decode reply = Ok i →
  instruction_code i ≠ InstructionCode.INIT_PROC → execution i c1 = Ok (b, c2) → interrupt_list c2 = [] →
  scheduled [Main; Main] s
  = Ok (if b : bool then main_goes s (set_context (-1) (-1) c2) (cpu_mutex s + 1) M_dispatch
        else main_goes s c2 (cpu_mutex s) M_cycle).
Proof.
  intros Hat Hf Hd Hi He Hq.
  rewrite (scheduled_cons _ _ _ _ _ _ (main_goes s c2 (cpu_mutex s) (M_interrupts b))).
  - erewrite scheduled_cons; [done|]. cbn. unfold main_interrupts. cbn. rewrite handler_idle by done.
    cbn. by destruct b.
  - cbn. unfold main_turn. rewrite Hat. unfold main_executes. rewrite Hf. cbn. rewrite Hd. cbn.
    by rewrite decide_False, He by done.
Qed.
End Lines.
