(* ===== verification/ScriptEnd.v ===== *)
(** * After the last line of a script

    Memory answers a FETCH beyond the script with an empty line, which the CPU
    runs as a NOOP: a process whose script does not end with EXIT never gives
    the CPU back, and is dropped without a word to the kernel when its program
    counter overflows. *)
From S2P Require Import Prelude Commons Enums Buffer Package Packages Roundtrip Config Semaphores Storage PageTable.
From S2P Require Import PageTableFacts Memoria MemoriaFacts Invariant Mmu Server Cache Execution RequestFacts.
From S2P Require Import CpuFrame CpuThreads ScriptTurns Scenario DataServer CpuProperties CpuConcurrency.
Import Buffer Package.

Section ScriptEnd.
Context {C : CommonsOps} {CL : CommonsLaws C} (config : t_memoria_config) (fs : t_file_system).
Context (mmu_config : MMUConfig) (tlb_config : TLBConfig) (cache_config : CacheConfig).
#[local] Instance served : MemoryServer t_memoria := memoria_serve config fs.
Local Abbreviation System := (t_cpu_system t_memoria).
Local Abbreviation scheduled := (scheduled mmu_config tlb_config cache_config).
Implicit Types (s : System) (c : t_cpu t_memoria).

(** A CPU in its inner loop, not interrupted, with a process whose program
    counter is past its script. *)
Record past_script s (x pc : Z) : Prop := {
  ps_at : main_at s = M_cycle;
  ps_pid : cpu_pid (sys_cpu s) = x;
  ps_pc : cpu_pc (sys_cpu s) = pc;
  ps_quiet : interrupt_list (sys_cpu s) = [];
  ps_ready : mem_ready config (memory (cpu_mmu (sys_cpu s)));
  ps_line : ∃ lines, script_of (memory (cpu_mmu (sys_cpu s))) x = Some lines ∧ (zlen lines <= pc)%Z }.

Lemma runs_a_noop s x pc :
  in_i32 x → (0 <= x)%Z → in_i32 pc → (0 <= pc)%Z → past_script s x pc →
  ∃ s', scheduled [Main; Main] s = Ok s' ∧ same_outside s s' ∧ main_at s' = M_cycle ∧
    cpu_pid (sys_cpu s') = x ∧ cpu_pc (sys_cpu s') = i32 (pc + 1) ∧
    ((pc + 1 < 2147483648)%Z → past_script s' x (pc + 1)).
Proof.
  intros Hx Hx0 Hpc Hpc0 [Hat <- <- Hq Hm (lines & Hs & Hend)].
  destruct (fetches_line config fs (sys_cpu s) lines) as (reply & m & Hf & [Hm' Hsp Ho _] & Hd);
    rewrite ?znth_beyond by done; try done; [by apply (bool_decide_unpack _); vm_compute|].
  rewrite znth_beyond in Hd by done. cbn in Hd. rewrite empty_line_is_noop in Hd.
  set (c2 := set_context (cpu_pid (sys_cpu s)) (i32 (cpu_pc (sys_cpu s) + 1)) (with_fetched m (sys_cpu s))).
  exists (main_goes s c2 (cpu_mutex s) M_cycle). split_and!; try done.
  - by apply (line_turns config fs mmu_config tlb_config cache_config s reply _ blank_instruction false c2 Hat Hf Hd).
  - intros Hlt. constructor; try done; [cbn; rewrite i32_id; unfold in_i32; lia|].
    exists lines. cbn. rewrite (script_of_owners _ _ _ Ho). split; [done | lia].
Qed.

Lemma runs_noops n s x pc :
  in_i32 x → (0 <= x)%Z → (0 <= pc)%Z → (pc + Z.of_nat n <= 2147483647)%Z → past_script s x pc →
  ∃ s', scheduled (concat (replicate n [Main; Main])) s = Ok s' ∧ same_outside s s' ∧
    past_script s' x (pc + Z.of_nat n).
Proof.
  intros Hx Hx0. revert s pc. induction n as [|n IH]; intros s pc Hpc Hn Hs.
  - exists s. split_and!; [done | done|]. by rewrite Z.add_0_r.
  - destruct (runs_a_noop s x pc) as (s1 & H1 & Ho1 & _ & _ & _ & Hs1); [done..|unfold in_i32; lia|done|done|].
    destruct (IH s1 (pc + 1)%Z) as (s2 & H2 & Ho2 & Hs2); [lia | lia | apply Hs1; lia|].
    exists s2. split_and!; [| by etrans |].
    + replace (concat (replicate (S n) [Main; Main])) with ([Main; Main] ++ concat (replicate n [Main; Main])) by done.
      by rewrite scheduled_app, H1.
    + by replace (pc + Z.of_nat (S n))%Z with (pc + 1 + Z.of_nat n)%Z by lia.
Qed.

(** C39: a process whose program counter is past the end of its script keeps
    the CPU, which does nothing for it but advance the program counter, as
    long as no interrupt comes, until the counter overflows; then the CPU
    drops the process, and still has not told the kernel anything. *)
Theorem script_end_keeps_the_cpu s x pc n :
  in_i32 x → (0 <= x)%Z → (0 <= pc)%Z → past_script s x pc → (pc + Z.of_nat n <= 2147483647)%Z →
  ∃ s', scheduled (concat (replicate n [Main; Main])) s = Ok s' ∧ same_outside s s' ∧
    main_at s' = M_cycle ∧ cpu_pid (sys_cpu s') = x ∧ cpu_pc (sys_cpu s') = (pc + Z.of_nat n)%Z ∧
    ((pc + Z.of_nat n)%Z = 2147483647%Z →
     ∃ s'', scheduled [Main; Main; Main] s' = Ok s'' ∧ main_at s'' = M_dispatch ∧
       dispatch_in (sys_cpu s'') = dispatch_in (sys_cpu s) ∧ dispatch_out (sys_cpu s'') = dispatch_out (sys_cpu s) ∧
       interrupt_out (sys_cpu s'') = interrupt_out (sys_cpu s)).
Proof.
  intros Hx Hx0 Hpc Hs Hn. destruct (runs_noops n s x pc) as (s1 & H1 & Ho1 & Hs1); [done..|].
  exists s1. split_and!; [done | done | apply Hs1..|]. intros E. rewrite E in Hs1.
  destruct (runs_a_noop s1 x 2147483647) as (s2 & H2 & Ho2 & Hat2 & _ & Hpc2 & _); [done..|].
  assert (same_outside s s2) as [Hi Ho Hio _] by (by etrans).
  exists (main_goes s2 (sys_cpu s2) (cpu_mutex s2 + 1) M_dispatch). split_and!; [|done..].
  change [Main; Main; Main] with ([Main; Main] ++ [Main]). rewrite scheduled_app, H2. cbn [mbind res_bind].
  erewrite scheduled_cons; [done|]. cbn. unfold main_turn. rewrite Hat2. unfold main_executes.
  assert (fetch (sys_cpu s2) = Ok (None, sys_cpu s2)) as ->; [|done].
  unfold fetch. step. cbn. rewrite Hpc2. by rewrite decide_True by (by right).
Qed.
End ScriptEnd.

(** ** Process 1 of the small memory, dispatched at 100 *)
Definition beyond : t_cpu_system t_memoria :=
  after_turns [Main; Main] (two_threads [the_package (create_dispatch_package 1 100)] []).

Lemma beyond_script : past_script config beyond 1 100.
Proof.
  assert (memory (cpu_mmu (sys_cpu beyond)) = shared) as E by (vm_compute; reflexivity).
  constructor; rewrite ?E; [vm_compute; reflexivity.. | exact shared_ready|].
  assert ((λ l, bool_decide (zlen l <= 100)%Z) <$> script_of shared 1 = Some true) as Hs by (vm_compute; reflexivity).
  apply fmap_Some in Hs as (lines & Hs & Hend). symmetry in Hend. apply bool_decide_eq_true in Hend.
  exists lines. split; [exact Hs | exact Hend].
Qed.

(** It goes on until its program counter is the greatest [int]; three turns
    later it is gone. *)
Lemma script_end_keeps_the_cpu_witness :
  ∃ n s' s'', scheduled (MS := memoria_serve config fs) (mmu_config_of config) (tlb2 TLB_ALGO_FIFO) no_cache
      (concat (replicate n [Main; Main])) beyond = Ok s' ∧
    cpu_pid (sys_cpu s') = 1%Z ∧ cpu_pc (sys_cpu s') = 2147483647%Z ∧ dispatch_out (sys_cpu s') = [] ∧
    scheduled (MS := memoria_serve config fs) (mmu_config_of config) (tlb2 TLB_ALGO_FIFO) no_cache [Main; Main; Main] s' = Ok s'' ∧
    main_at s'' = M_dispatch ∧ dispatch_out (sys_cpu s'') = [].
Proof.
  assert (dispatch_out (sys_cpu beyond) = []) as Hout by (vm_compute; reflexivity).
  assert (∃ n, (100 + Z.of_nat n)%Z = 2147483647%Z) as [n Hn] by (exists (Z.to_nat 2147483547); by rewrite Z2Nat.id).
  destruct (script_end_keeps_the_cpu config fs (mmu_config_of config) (tlb2 TLB_ALGO_FIFO) no_cache beyond 1 100 n)
    as (s' & Hs & [_ Ho _ _] & _ & Hpid & Hpc & Hend); [split; lia | lia | lia | exact beyond_script | lia|].
  destruct (Hend Hn) as (s'' & Hs' & Hat & _ & Ho' & _). exists n, s', s''.
  split_and!; [exact Hs | exact Hpid | congruence | congruence | exact Hs' | exact Hat | congruence].
Defined.
