(* ===== verification/ScriptRuns.v ===== *)
(** * What a script does

    An interpreter of scripts, over the array of bytes of AddressSpaces.v, and
    the proof that a CPU and its memory module implement it: from the text of
    the lines to the bytes in the frames of the process.  The CPU has no page
    cache ([cache_entry_count] is not positive). *)
From S2P Require Import Prelude Commons Enums Buffer Package Packages Roundtrip Config Semaphores Storage PageTable.
From S2P Require Import PageTableFacts Memoria MemoriaFacts Invariant Mmu MmuFacts Server Cache Execution DataServer.
From S2P Require Import ParsingFacts RequestFacts CpuThreads ScriptTurns AddressSpaces Scenario CpuProperties CpuConcurrency.
From Stdlib Require Import Strings.Byte.
Import Buffer Package InstructionCode.

(** ** The specification *)
Section Spec.
Context (page_size : Z) (lines : list t_instruction).

(** The program counter, the address space and what has been read, after one
    line; [None] at a system call, and where the modules do not do what the
    line says. *)
Definition script_step (pc : Z) (s : list byte) : option (Z * list byte * list (list byte)) :=
  i ← znth lines pc;
  match instruction_code i, operand_string i with
  | NOOP, _ => Some (pc + 1, s, [])%Z
  | GOTO, _ => Some (operand_numeric1 i, s, [])
  | WRITE, Some v =>
      if decide (inside page_size (operand_numeric1 i) (strlen v) s)
      then Some (pc + 1, splice (Z.to_nat (operand_numeric1 i)) (String.list_byte_of_string v) s, [])%Z else None
  | READ, _ =>
      if decide (inside page_size (operand_numeric1 i) (operand_numeric2 i) s)
      then Some (pc + 1, s, [slice (Z.to_nat (operand_numeric1 i)) (Z.to_nat (operand_numeric2 i)) s])%Z else None
  | _, _ => None
  end.

Fixpoint script_steps (n : nat) (pc : Z) (s : list byte) : option (Z * list byte * list (list byte)) :=
  match n with
  | O => Some (pc, s, [])
  | S n =>
      '(pc, s, r) ← script_step pc s;
      '(pc, s, rs) ← script_steps n pc s;
      Some (pc, s, r ++ rs)
  end.

(** The system call at a line. *)
Definition call_at (pc : Z) : option (SyscallType.SYSCALL_TYPE * syscall_params) :=
  i ← znth lines pc;
  match instruction_code i, operand_string i with
  | IO, Some v => Some (SyscallType.SYSCALL_IO, IoParams (operand_numeric1 i) v)
  | DUMP_MEMORY, _ => Some (SyscallType.SYSCALL_DUMP_MEMORY, NoParams)
  | EXIT, _ => Some (SyscallType.SYSCALL_EXIT, NoParams)
  | _, _ => None
  end.
End Spec.

(** ** The parts of a line *)
Lemma list_byte_app a b :
  String.list_byte_of_string (a +:+ b) = String.list_byte_of_string a ++ String.list_byte_of_string b.
Proof.
  unfold String.list_byte_of_string. rewrite <- List.map_app. f_equal.
  induction a as [|ch a IH]; [done|]. cbn. by rewrite <- IH.
Qed.

Lemma fits_middle a b c : fits (spaced a (spaced b c)) → fits b.
Proof.
  assert (String.list_byte_of_string (spaced a (spaced b c)) = String.list_byte_of_string (a +:+ " ")
    ++ String.list_byte_of_string b ++ String.list_byte_of_string (spaced EmptyString c)) as E.
  { rewrite <- !list_byte_app. f_equal. unfold spaced. induction a as [|ch a IH]; [done|]. exact (f_equal (String ch) IH). }
  unfold fits, c_string, strlen, zlen. rewrite E, !length_app. intros [Hn Hl]. split; [set_solver | lia].
Qed.

(** ** The implementation *)
Section Runs.
Context {C : CommonsOps} {CL : CommonsLaws C} (config : t_memoria_config) (fs : t_file_system).
Context (d : nat) (Hcfg : config_ok config d).
Context (g_tlb_config : TLBConfig) (Hcount : (0 <= tlb_entry_count g_tlb_config)%Z).
Context (g_cache_config : CacheConfig) (Hcache : (cache_entry_count g_cache_config <= 0)%Z).
Local Abbreviation ps := (TAM_PAGINA config).
Local Abbreviation E := (ENTRADAS_POR_TABLA config).
#[local] Instance served : MemoryServer t_memoria := memoria_serve config fs.
#[local] Instance pages_here : PageServer t_memoria E d := memoria_pages config fs d Hcfg.
Local Abbreviation ready := (ready (mmu_config_of config) g_tlb_config d).
Local Abbreviation scheduled := (scheduled (mmu_config_of config) g_tlb_config g_cache_config).
Local Abbreviation holds := (holds config d).
Implicit Types (y : t_cpu_system t_memoria) (s : list byte) (m : t_memoria).

(** A script that is its own text. *)
Definition lines_ok (lines : list t_instruction) : Prop :=
  Forall (λ i, instruction_ok i ∧ fits (print_instruction i)) lines ∧ (zlen lines < 2147483647)%Z.

(** A CPU in its inner loop, not interrupted, runs process [x], whose script
    is [lines], at [pc], with the address space [s]. *)
Record runs_script (lines : list t_instruction) (x : Z) (fr : Z → Z) (n pc : Z) s y : Prop := {
  rs_at : main_at y = M_cycle;
  rs_pid : cpu_pid (sys_cpu y) = x;
  rs_pc : cpu_pc (sys_cpu y) = pc;
  rs_quiet : interrupt_list (sys_cpu y) = [];
  rs_mmu : ready (cpu_mmu (sys_cpu y));
  rs_script : script_of (memory (cpu_mmu (sys_cpu y))) x = Some (print_instruction <$> lines);
  rs_space : holds (memory (cpu_mmu (sys_cpu y))) x s fr n }.

(** The arrays of the other processes. *)
Definition others_kept (x : Z) m m' : Prop :=
  ∀ x' s' fr' n', x' ≠ x → holds m x' s' fr' n' → holds m' x' s' fr' n'.

#[export] Instance others_kept_preorder x : PreOrder (others_kept x).
Proof.
  split; [by intros m x' s' fr' n' _|]. intros m1 m2 m3 H H' x' s' fr' n' Hne Hh. by apply H', H.
Qed.

(** What the FETCH of a line leaves. *)
Lemma line_fetched lines x fr n pc s y i :
  lines_ok lines → (0 <= x)%Z → runs_script lines x fr n pc s y → znth lines pc = Some i →
  ∃ reply m, fetch (sys_cpu y) = Ok (Some reply, with_fetched m (sys_cpu y)) ∧
    fetched config (memory (cpu_mmu (sys_cpu y))) m ∧ decode reply = Ok i ∧ (0 <= pc < zlen lines)%Z ∧
    holds m x s fr n ∧ ready (cpu_mmu (with_fetched m (sys_cpu y))) ∧
    others_kept x (memory (cpu_mmu (sys_cpu y))) m.
Proof.
  intros [Hok Hlen] Hx [Hat <- <- Hq Hmmu Hs Hh] Hi. pose proof (znth_Some_range _ _ _ Hi) as Hr.
  pose proof Hh as [(Hm & Hxi & _) _ _ _ _].
  assert (znth (print_instruction <$> lines) (cpu_pc (sys_cpu y)) = Some (print_instruction i)) as Hline.
  { by rewrite znth_fmap, Hi. }
  assert (instruction_ok i ∧ fits (print_instruction i)) as [Hio Hfit].
  { rewrite Forall_forall in Hok. by apply Hok, (znth_elem _ _ _ Hi). }
  destruct (fetches_line config fs (sys_cpu y) (print_instruction <$> lines)) as (reply & m & Hf & Hfd & Hd);
    rewrite ?Hline; try done; [unfold in_i32; lia..|].
  rewrite Hline in Hd. cbn in Hd. rewrite parse_print in Hd by done. pose proof Hfd as [Hm' Hsp Ho Hmaps].
  exists reply, m. split_and!; try done; try lia.
  - by eapply kept_array.
  - destruct Hmmu as [[] Hc]. split; [by constructor|]. intros e fr' He Hm''. apply (Hc e fr' He). by apply Hmaps.
  - intros x' s' fr' n' _ Hh'. by eapply kept_array.
Qed.

(** What is left to show of a line that keeps the CPU. *)
Lemma line_runs lines x fr n pc s y i reply m c2 pc' s' r :
  lines_ok lines → runs_script lines x fr n pc s y → znth lines pc = Some i →
  fetch (sys_cpu y) = Ok (Some reply, with_fetched m (sys_cpu y)) → decode reply = Ok i → instruction_code i ≠ INIT_PROC →
  fetched config (memory (cpu_mmu (sys_cpu y))) m →
  execution (mmu_config_of config) g_tlb_config g_cache_config i (with_fetched m (sys_cpu y)) = Ok (false, c2) →
  cpu_pid c2 = x → cpu_pc c2 = pc' → interrupt_list c2 = [] → ready (cpu_mmu c2) →
  owners (memory (cpu_mmu c2)) = owners m → holds (memory (cpu_mmu c2)) x s' fr n →
  dispatch_in c2 = dispatch_in (sys_cpu y) → dispatch_out c2 = dispatch_out (sys_cpu y) →
  interrupt_out c2 = interrupt_out (sys_cpu y) → (read_log c2).*2 = (read_log (sys_cpu y)).*2 ++ r →
  others_kept x (memory (cpu_mmu (sys_cpu y))) (memory (cpu_mmu c2)) →
  ∃ y', scheduled [Main; Main] y = Ok y' ∧ runs_script lines x fr n pc' s' y' ∧ same_outside y y' ∧
    (read_log (sys_cpu y')).*2 = (read_log (sys_cpu y)).*2 ++ r ∧
    others_kept x (memory (cpu_mmu (sys_cpu y))) (memory (cpu_mmu (sys_cpu y'))).
Proof.
  intros Hl Hr Hi Hf Hd Hne [_ _ Ho _] He Hpid Hpc Hq Hmmu Ho2 Hh Hin Hout Hans Hlog Hothers.
  exists (main_goes y c2 (cpu_mutex y) M_cycle). split_and!; [| |by constructor|done|done].
  - by apply (line_turns config fs _ _ _ y reply _ i false c2 (rs_at _ _ _ _ _ _ _ Hr) Hf Hd).
  - constructor; try done. cbn. rewrite (script_of_owners m), (script_of_owners (memory (cpu_mmu (sys_cpu y)))) by done.
    apply Hr.
Qed.

Lemma script_step_runs lines x fr n pc s y pc' s' r :
  lines_ok lines → (0 <= x)%Z → runs_script lines x fr n pc s y →
  script_step ps lines pc s = Some (pc', s', r) →
  ∃ y', scheduled [Main; Main] y = Ok y' ∧ runs_script lines x fr n pc' s' y' ∧ same_outside y y' ∧
    (read_log (sys_cpu y')).*2 = (read_log (sys_cpu y)).*2 ++ r ∧
    others_kept x (memory (cpu_mmu (sys_cpu y))) (memory (cpu_mmu (sys_cpu y'))).
Proof.
  intros Hl Hx Hr H. unfold script_step in H. destruct (znth lines pc) as [i|] eqn:Hi; [|done]. cbn in H.
  destruct (line_fetched _ _ _ _ _ _ _ _ Hl Hx Hr Hi) as (reply & m & Hf & Hfd & Hd & Hpc & Hh & Hmmu & Hothers).
  assert (instruction_ok i) as Hio.
  { destruct Hl as [Hok _]. rewrite Forall_forall in Hok. by apply Hok, (znth_elem _ _ _ Hi). }
  pose proof Hr as [Hat Hpid Hpcs Hq _ _ _]. pose proof Hl as [_ Hlen].
  assert (i32 (cpu_pc (sys_cpu y) + 1) = pc + 1)%Z as Hnext by (rewrite Hpcs; apply i32_id; unfold in_i32; lia).
  set (c1 := with_fetched m (sys_cpu y)) in *.
  assert (cpu_ready config fs d Hcfg g_tlb_config fr c1) as Hc.
  { split; [exact Hmmu|]. cbn. rewrite Hpid. apply Hh. }
  pose proof (f_ready _ _ _ Hfd) as Hm.
  assert (∀ l size, inside ps l size s → reaches config d fr (space (memory (cpu_mmu c1))) l size) as Hreach.
  { intros l size Hin. apply (accessible_reaches config d Hcfg); [apply (space_ok _ _ (proj1 Hm))|].
    by eapply (inside_accessible config d Hcfg). }
  assert (∀ c2 pc1 s1 r1, instruction_code i ≠ INIT_PROC →
    execution (mmu_config_of config) g_tlb_config g_cache_config i c1 = Ok (false, c2) →
    cpu_pid c2 = x → cpu_pc c2 = pc1 → interrupt_list c2 = [] → ready (cpu_mmu c2) →
    owners (memory (cpu_mmu c2)) = owners m → holds (memory (cpu_mmu c2)) x s1 fr n →
    dispatch_in c2 = dispatch_in (sys_cpu y) → dispatch_out c2 = dispatch_out (sys_cpu y) →
    interrupt_out c2 = interrupt_out (sys_cpu y) → (read_log c2).*2 = (read_log (sys_cpu y)).*2 ++ r1 →
    others_kept x m (memory (cpu_mmu c2)) → Some (pc1, s1, r1) = Some (pc', s', r) →
    ∃ y', scheduled [Main; Main] y = Ok y' ∧ runs_script lines x fr n pc' s' y' ∧ same_outside y y' ∧
      (read_log (sys_cpu y')).*2 = (read_log (sys_cpu y)).*2 ++ r ∧
      others_kept x (memory (cpu_mmu (sys_cpu y))) (memory (cpu_mmu (sys_cpu y')))) as Hdone.
  { intros c2 pc1 s1 r1 ? ? ? ? ? ? ? ? ? ? ? ? ? [= <- <- <-]. eapply line_runs; try eassumption. by etrans. }
  clear Hf Hd. unfold instruction_ok in Hio. destruct i as [code n1 n2 size str].
  cbn [instruction_code operand_string operand_numeric1 operand_numeric2 operand_string_size] in *.
  destruct code; try done.
  - apply (Hdone (set_context (cpu_pid (sys_cpu y)) (pc + 1) c1) (pc + 1)%Z s []); try done; [|by rewrite app_nil_r].
    cbv [execution exec_noop next_pc instruction_code]. step. cbn. by rewrite Hnext.
  - destruct str as [v|]; [|done]. case_decide as Hin; [|done]. destruct Hio as (_ & -> & v' & [= <-] & _ & ->).
    destruct (write_instruction_ok config fs d Hcfg g_tlb_config Hcount g_cache_config Hcache fr c1 n1 v Hc
      (Hreach _ _ Hin) ltac:(apply Hin)) as (s1 & Hw & Hc1 & Hsp1 & Ho & Hmaps).
    destruct (writes_array config d Hcfg _ _ x s fr n n1 _ Hm Hh Hin Hsp1 Ho Hmaps) as [Hown Hothers1].
    apply (Hdone (stepped s1 c1) (pc + 1)%Z (splice (Z.to_nat n1) (String.list_byte_of_string v) s) []); try done;
      [apply Hc1 | by rewrite app_nil_r].
  - assert ((if decide (inside ps n1 n2 s) then Some (pc + 1, s, [slice (Z.to_nat n1) (Z.to_nat n2) s])%Z else None)
      = Some (pc', s', r)) as H' by (by destruct str). clear H. case_decide as Hin; [|done].
    destruct Hio as (_ & _ & -> & ->).
    destruct (read_instruction_ok config fs d Hcfg g_tlb_config Hcount g_cache_config Hcache fr c1 n1 n2 Hc
      (Hreach _ _ Hin) ltac:(apply Hin)) as (s1 & Hw & Hc1 & Hsp1 & Ho & Hmaps).
    apply (Hdone _ (pc + 1)%Z s [slice (Z.to_nat n1) (Z.to_nat n2) s] ltac:(done) Hw); try done; [apply Hc1| | |].
    + by eapply kept_array.
    + cbn. rewrite fmap_app. cbn. do 2 f_equal. f_equal. by eapply reads_array.
    + intros x' s'' fr' n' _ Hh'. by eapply kept_array.
  - apply (Hdone (set_context (cpu_pid (sys_cpu y)) n1 c1) n1 s []); try done; [by rewrite app_nil_r].
Qed.
Lemma script_steps_run k lines x fr n pc s y pc' s' r :
  lines_ok lines → (0 <= x)%Z → runs_script lines x fr n pc s y →
  script_steps ps lines k pc s = Some (pc', s', r) →
  ∃ y', scheduled (concat (replicate k [Main; Main])) y = Ok y' ∧ runs_script lines x fr n pc' s' y' ∧
    same_outside y y' ∧ (read_log (sys_cpu y')).*2 = (read_log (sys_cpu y)).*2 ++ r ∧
    others_kept x (memory (cpu_mmu (sys_cpu y))) (memory (cpu_mmu (sys_cpu y'))).
Proof.
  intros Hl Hx. revert pc s y r. induction k as [|k IH]; intros pc s y r Hr H.
  - injection H as <- <- <-. exists y. split_and!; [done | done | done | by rewrite app_nil_r | done].
  - cbn in H. destruct (script_step ps lines pc s) as [[[pc1 s1] r1]|] eqn:H1; [|done]. cbn in H.
    destruct (script_steps ps lines k pc1 s1) as [[[pc2 s2] r2]|] eqn:H2; [|done]. injection H as <- <- <-.
    destruct (script_step_runs _ _ _ _ _ _ _ _ _ _ Hl Hx Hr H1) as (y1 & E1 & Hr1 & Ho1 & Hg1 & Hk1).
    destruct (IH _ _ _ _ Hr1 H2) as (y2 & E2 & Hr2 & Ho2 & Hg2 & Hk2).
    exists y2. split_and!; [|done|by etrans|by rewrite Hg2, Hg1, app_assoc|by etrans].
    change (replicate (S k) [Main; Main]) with ([Main; Main] :: replicate k [Main; Main]). cbn [concat].
    by rewrite scheduled_app, E1.
Qed.

Lemma call_fits lines pc t p :
  lines_ok lines → call_at lines pc = Some (t, p) → params_fit t p.
Proof.
  intros [Hok _] H. unfold call_at in H. destruct (znth lines pc) as [i|] eqn:Hi; [|done]. cbn in H.
  rewrite Forall_forall in Hok. destruct (Hok i (znth_elem _ _ _ Hi)) as [Hio Hfit].
  unfold instruction_ok in Hio. unfold print_instruction in Hfit.
  destruct i as [code n1 n2 size str]. cbn [instruction_code operand_string operand_numeric1] in *.
  destruct code; try done; destruct str as [v|]; try done; injection H as <- <-; try done.
  split; [apply Hio|]. by eapply fits_middle.
Qed.

Lemma send_syscall_ok t p (c : t_cpu t_memoria) package :
  create_syscall_package (syscall (cpu_pid c) (cpu_pc c) t p) = Ok package →
  send_syscall t p c = Ok (tt, set_dispatch_out (send_package (dispatch_out c) package) c).
Proof.
  unfold syscall. intros H. unfold send_syscall. run done. run done. unfold send_dispatch, lift_res. rewrite H. by step.
Qed.

(** A system call is sent in two turns, which give the CPU back. *)
Lemma call_turns lines x fr n pc s y t p :
  lines_ok lines → (0 <= x)%Z → runs_script lines x fr n pc s y → call_at lines pc = Some (t, p) →
  ∃ y' package, scheduled [Main; Main] y = Ok y' ∧ create_syscall_package (syscall x (pc + 1) t p) = Ok package ∧
    read_with read_syscall_package package = Ok (syscall x (pc + 1) t p) ∧
    main_at y' = M_dispatch ∧ cpu_mutex y' = (cpu_mutex y + 1)%Z ∧
    dispatch_out (sys_cpu y') = send_package (dispatch_out (sys_cpu y)) package ∧
    holds (memory (cpu_mmu (sys_cpu y'))) x s fr n.
Proof.
  intros Hl Hx Hr H. pose proof (call_fits _ _ _ _ Hl H) as Hpf. unfold call_at in H.
  destruct (znth lines pc) as [i|] eqn:Hi; [|done]. cbn in H.
  destruct (line_fetched _ _ _ _ _ _ _ _ Hl Hx Hr Hi) as (reply & m & Hf & Hfd & Hd & Hpc & Hh & Hmmu & Hothers).
  pose proof Hr as [Hat Hpid Hpcs Hq _ _ _]. pose proof Hl as [_ Hlen].
  assert (i32 (cpu_pc (sys_cpu y) + 1) = pc + 1)%Z as Hnext by (rewrite Hpcs; apply i32_id; unfold in_i32; lia).
  destruct (syscall_delivers x (pc + 1) ltac:(by apply Hh) ltac:(unfold in_i32; lia) t p Hpf) as (package & Hpk & _ & Hread & _).
  set (c2 := set_dispatch_out (send_package (dispatch_out (sys_cpu y)) package)
    (set_context x (pc + 1) (with_fetched m (sys_cpu y)))).
  assert (instruction_code i ≠ INIT_PROC ∧
    execution (mmu_config_of config) g_tlb_config g_cache_config i (with_fetched m (sys_cpu y)) = Ok (true, c2)) as [Hne He].
  { destruct i as [code n1 n2 size str]. cbn [instruction_code operand_string operand_numeric1] in *.
    destruct code; try done; try (destruct str as [v|]; [|done]); injection H as <- <-; (split; [done|]).
    all: cbv [execution exec_io exec_dump_memory exec_exit instruction_code operand_string operand_numeric1].
    all: run (unfold next_pc, modify; reflexivity).
    1: run (unfold deref; reflexivity).
    all: run (apply send_syscall_ok; cbn [cpu_pid cpu_pc set_context with_fetched set_mmu]; rewrite Hpid, Hnext; exact Hpk).
    all: unfold c2; rewrite <- Hpid, <- Hnext; reflexivity. }
  exists (main_goes y (set_context (-1) (-1) c2) (cpu_mutex y + 1) M_dispatch), package. split_and!; try done.
  by apply (line_turns config fs _ _ _ y reply _ i true c2 Hat Hf Hd).
Qed.

(** C21: a CPU without a page cache and its memory module do what the text of a script says: [k]
    lines of NOOPs, jumps, reads and writes take the CPU from the program
    counter, the address space and the log of reads to those of the
    interpreter, in [2 k] turns of its main thread; nothing is sent to the
    kernel, and the arrays of the other processes stay.  If the interpreter is
    then at IO, DUMP_MEMORY or EXIT, two more turns send the kernel that call,
    with the program counter after it, and give the CPU back.  (INIT_PROC,
    which waits for the kernel, is not among these calls.) *)
Theorem scripts_are_interpreted k lines x fr n pc s y pc' s' r :
  lines_ok lines → (0 <= x)%Z → runs_script lines x fr n pc s y →
  script_steps ps lines k pc s = Some (pc', s', r) →
  ∃ y', scheduled (concat (replicate k [Main; Main])) y = Ok y' ∧ runs_script lines x fr n pc' s' y' ∧
    same_outside y y' ∧ (read_log (sys_cpu y')).*2 = (read_log (sys_cpu y)).*2 ++ r ∧
    others_kept x (memory (cpu_mmu (sys_cpu y))) (memory (cpu_mmu (sys_cpu y'))) ∧
    (∀ t p, call_at lines pc' = Some (t, p) →
     ∃ y'' package, scheduled [Main; Main] y' = Ok y'' ∧
       create_syscall_package (syscall x (pc' + 1) t p) = Ok package ∧
       read_with read_syscall_package package = Ok (syscall x (pc' + 1) t p) ∧
       dispatch_out (sys_cpu y'') = send_package (dispatch_out (sys_cpu y)) package ∧
       main_at y'' = M_dispatch ∧ cpu_mutex y'' = (cpu_mutex y + 1)%Z ∧
       holds (memory (cpu_mmu (sys_cpu y''))) x s' fr n).
Proof.
  intros Hl Hx Hr H. destruct (script_steps_run _ _ _ _ _ _ _ _ _ _ _ Hl Hx Hr H) as (y' & E & Hr' & Ho & Hg & Hk).
  exists y'. split_and!; [done..|]. intros t p Hcall.
  destruct (call_turns _ _ _ _ _ _ _ _ _ Hl Hx Hr' Hcall) as (y'' & package & E' & Hpk & Hread & Hat & Hmu & Hout & Hh).
  destruct Ho as [_ Ho _ Hm]. exists y'', package. rewrite Hm in Hmu. rewrite Ho in Hout. by split_and!.
Qed.
End Runs.

(** ** The script of process 1 *)
Definition hola : list t_instruction :=
  [write_instruction 3 "hola"; read_instruction 3 4;
   {| instruction_code := EXIT; operand_numeric1 := 0; operand_numeric2 := 0;
      operand_string_size := 0; operand_string := None |}].

Definition dispatched : t_cpu_system t_memoria := after_turns [Main; Main] (two_threads [dispatch_1] []).

Lemma hola_ok : lines_ok hola.
Proof.
  split; [|vm_compute; reflexivity]. unfold hola. repeat apply Forall_cons_2; [..|apply Forall_nil_2].
  all: (split; [|by apply (bool_decide_unpack _); vm_compute]).
  - split_and!; [done..|]. by exists "hola".
  - done.
  - done.
Qed.

Lemma dispatched_runs_hola :
  runs_script config fs depth config_good (tlb2 TLB_ALGO_FIFO) hola 1 fr1 2 0 (array_of [0; 1]%Z) dispatched.
Proof.
  assert (cpu_mmu (sys_cpu dispatched) = mmu_beside [] [] shared) as E by (vm_compute; reflexivity).
  constructor; rewrite ?E; [vm_compute; reflexivity.. | exact (idle_ready TLB_ALGO_FIFO) | vm_compute; reflexivity |].
  exact shared_holds1.
Qed.

Lemma scripts_are_interpreted_witness :
  ∃ y y' package, scheduled (MS := memoria_serve config fs) (mmu_config_of config) (tlb2 TLB_ALGO_FIFO) no_cache
      (concat (replicate 2 [Main; Main])) dispatched = Ok y ∧
    (read_log (sys_cpu y)).*2 = [String.list_byte_of_string "hola"] ∧
    scheduled (MS := memoria_serve config fs) (mmu_config_of config) (tlb2 TLB_ALGO_FIFO) no_cache [Main; Main] y = Ok y' ∧
    create_syscall_package (syscall 1 3 SyscallType.SYSCALL_EXIT NoParams) = Ok package ∧
    dispatch_out (sys_cpu y') = serialize_package package ∧ main_at y' = M_dispatch.
Proof.
  assert (script_steps 16 hola 2 0 (array_of [0; 1]%Z) =
    Some (2%Z, splice 3 (String.list_byte_of_string "hola") (array_of [0; 1]%Z), [String.list_byte_of_string "hola"]))
    as E by (vm_compute; reflexivity).
  destruct (scripts_are_interpreted config fs depth config_good (tlb2 TLB_ALGO_FIFO) ltac:(discriminate)
    no_cache ltac:(discriminate) 2 hola 1 fr1 2 0 _ dispatched _ _ _ hola_ok ltac:(lia) dispatched_runs_hola E)
    as (y & Hy & _ & _ & Hg & _ & Hcall).
  destruct (Hcall SyscallType.SYSCALL_EXIT NoParams eq_refl) as (y' & package & Hy' & Hpk & _ & Hout & Hat & _).
  exists y, y', package. split_and!; [exact Hy | exact Hg | exact Hy' | exact Hpk | exact Hout | exact Hat].
Defined.

