(* ===== verification/Pcb.v ===== *)
(** * Process control blocks (kernel/src/repository/pcb)

    The PCB and what [pcb_change_state] does to it: the time since the last
    change is added to the state that is left, the counter of the state that
    is entered is incremented.  The clock is read by the caller. *)
From S2P Require Import Prelude Enums.
Import ProcessState.

Record t_state_metrics := {
  new_count : Z; ready_count : Z; exec_count : Z; blocked_count : Z;
  susp_blocked_count : Z; susp_ready_count : Z; exit_count : Z }.

Record t_time_metrics := {
  last_estimated_cpu_burst_ms : Z; last_cpu_burst_ms : Z;
  new_time_ms : Z; ready_time_ms : Z; exec_time_ms : Z; blocked_time_ms : Z;
  susp_blocked_time_ms : Z; susp_ready_time_ms : Z; exit_time_ms : Z }.

Record t_pcb := {
  pc : Z;
  pid : Z;
  size : Z;
  pseudocode_file : option string;
  current_state : PROCESS_STATE;
  state_start_time_ms : Z;
  ME : t_state_metrics;
  MT : t_time_metrics }.

(** ** One counter, one time *)
Definition count_state (s : PROCESS_STATE) (m : t_state_metrics) : t_state_metrics :=
  let '(Build_t_state_metrics n r e b sb sr x) := m in
  match s with
  | NEW => Build_t_state_metrics (i32 (n + 1)) r e b sb sr x
  | READY => Build_t_state_metrics n (i32 (r + 1)) e b sb sr x
  | EXEC => Build_t_state_metrics n r (i32 (e + 1)) b sb sr x
  | BLOCKED => Build_t_state_metrics n r e (i32 (b + 1)) sb sr x
  | SUSP_BLOCKED => Build_t_state_metrics n r e b (i32 (sb + 1)) sr x
  | SUSP_READY => Build_t_state_metrics n r e b sb (i32 (sr + 1)) x
  | EXIT_L => Build_t_state_metrics n r e b sb sr (i32 (x + 1))
  end.

Definition account_time (s : PROCESS_STATE) (t : Z) (m : t_time_metrics) : t_time_metrics :=
  let '(Build_t_time_metrics le lb n r e b sb sr x) := m in
  match s with
  | NEW => Build_t_time_metrics le lb (u64 (n + t)) r e b sb sr x
  | READY => Build_t_time_metrics le lb n (u64 (r + t)) e b sb sr x
  | EXEC => Build_t_time_metrics le lb n r (u64 (e + t)) b sb sr x
  | BLOCKED => Build_t_time_metrics le lb n r e (u64 (b + t)) sb sr x
  | SUSP_BLOCKED => Build_t_time_metrics le lb n r e b (u64 (sb + t)) sr x
  | SUSP_READY => Build_t_time_metrics le lb n r e b sb (u64 (sr + t)) x
  | EXIT_L => Build_t_time_metrics le lb n r e b sb sr (u64 (x + t))
  end.

Definition count_of (s : PROCESS_STATE) (m : t_state_metrics) : Z :=
  match s with
  | NEW => new_count m | READY => ready_count m | EXEC => exec_count m | BLOCKED => blocked_count m
  | SUSP_BLOCKED => susp_blocked_count m | SUSP_READY => susp_ready_count m | EXIT_L => exit_count m
  end.

Definition time_of (s : PROCESS_STATE) (m : t_time_metrics) : Z :=
  match s with
  | NEW => new_time_ms m | READY => ready_time_ms m | EXEC => exec_time_ms m
  | BLOCKED => blocked_time_ms m | SUSP_BLOCKED => susp_blocked_time_ms m
  | SUSP_READY => susp_ready_time_ms m | EXIT_L => exit_time_ms m
  end.

(** ** Updates of a field *)
Definition with_pc (x : Z) (p : t_pcb) : t_pcb :=
  Build_t_pcb x (pid p) (size p) (pseudocode_file p) (current_state p) (state_start_time_ms p) (ME p) (MT p).
Definition with_MT (x : t_time_metrics) (p : t_pcb) : t_pcb :=
  Build_t_pcb (pc p) (pid p) (size p) (pseudocode_file p) (current_state p) (state_start_time_ms p) (ME p) x.
Definition with_burst (x : Z) (p : t_pcb) : t_pcb :=
  let '(Build_t_time_metrics le lb n r e b sb sr ex) := MT p in
  with_MT (Build_t_time_metrics le x n r e b sb sr ex) p.
Definition with_estimate (x : Z) (p : t_pcb) : t_pcb :=
  let '(Build_t_time_metrics le lb n r e b sb sr ex) := MT p in
  with_MT (Build_t_time_metrics x lb n r e b sb sr ex) p.
Definition with_exec_time (x : Z) (p : t_pcb) : t_pcb :=
  let '(Build_t_time_metrics le lb n r e b sb sr ex) := MT p in
  with_MT (Build_t_time_metrics le lb n r x b sb sr ex) p.
Definition with_exit_time (x : Z) (p : t_pcb) : t_pcb :=
  let '(Build_t_time_metrics le lb n r e b sb sr ex) := MT p in
  with_MT (Build_t_time_metrics le lb n r e b sb sr x) p.

(** ** pcb.c *)

(** [default_burst] is the configured estimate, [now] the time. *)
Definition blank_pcb (default_burst now new_pid new_pc new_size : Z) (file : option string) : t_pcb :=
  {| pc := new_pc; pid := new_pid; size := new_size; pseudocode_file := file;
     current_state := NEW; state_start_time_ms := now;
     ME := Build_t_state_metrics 1 0 0 0 0 0 0;
     MT := Build_t_time_metrics 0 default_burst 0 0 0 0 0 0 0 |}.

Definition change_state (time_in_current_state now : Z) (new_state : PROCESS_STATE) (p : t_pcb) : t_pcb :=
  Build_t_pcb (pc p) (pid p) (size p) (pseudocode_file p) new_state now
    (count_state new_state (ME p))
    (account_time (current_state p) time_in_current_state (MT p)).

(** ** What a change of state touches *)
Lemma count_of_count_state s t m :
  count_of t (count_state s m) = if decide (t = s) then i32 (count_of t m + 1) else count_of t m.
Proof. destruct m, s, t; by repeat case_decide. Qed.

Lemma time_of_account_time s t x m :
  time_of t (account_time s x m) = if decide (t = s) then u64 (time_of t m + x) else time_of t m.
Proof. destruct m, s, t; by repeat case_decide. Qed.

Lemma with_burst_pid x p : pid (with_burst x p) = pid p.
Proof. unfold with_burst. by destruct (MT p). Qed.
Lemma with_burst_state x p : current_state (with_burst x p) = current_state p.
Proof. unfold with_burst. by destruct (MT p). Qed.
Lemma with_estimate_pid x p : pid (with_estimate x p) = pid p.
Proof. unfold with_estimate. by destruct (MT p). Qed.
Lemma with_estimate_state x p : current_state (with_estimate x p) = current_state p.
Proof. unfold with_estimate. by destruct (MT p). Qed.
Lemma with_exec_time_pid x p : pid (with_exec_time x p) = pid p.
Proof. unfold with_exec_time. by destruct (MT p). Qed.
Lemma with_exec_time_state x p : current_state (with_exec_time x p) = current_state p.
Proof. unfold with_exec_time. by destruct (MT p). Qed.
Lemma with_exit_time_pid x p : pid (with_exit_time x p) = pid p.
Proof. unfold with_exit_time. by destruct (MT p). Qed.
Lemma with_exit_time_state x p : current_state (with_exit_time x p) = current_state p.
Proof. unfold with_exit_time. by destruct (MT p). Qed.
