(* ===== verification/Kernel.v ===== *)
(** * The kernel's state and repositories (kernel/src/collections, repository)

    The globals of the kernel, with the functions of repository/: the seven
    process lists, the connections of CPUs and IO devices, the queues of IO
    requests.  PCBs live in a heap and a list holds pointers to them; a
    pointer to a connection or to a queue is its key in the dictionary.
    Each handler runs to completion; what it starts with [pthread_create] is
    added to [threads] and runs later, in any order. *)
From S2P Require Import Prelude Text Commons Enums Buffer Package Packages Config Semaphores Pcb.
From Stdlib Require Import Strings.Byte.
Import Buffer Package ProcessState.

(** ** The semaphores *)
Inductive k_sem :=
  | sem_list (s : PROCESS_STATE)
  | sem_io_connections | sem_io_requests | sem_cpu_connections | sem_cpu_connected
  | sem_cpu_exec (id : string)
  | sem_io_requests_queue (device : string).

#[export] Instance k_sem_eq_dec : EqDecision k_sem.
Proof. solve_decision. Defined.

Definition all_states : list PROCESS_STATE :=
  [NEW; READY; EXEC; BLOCKED; SUSP_BLOCKED; SUSP_READY; EXIT_L].

#[export] Program Instance PROCESS_STATE_finite : finite.Finite PROCESS_STATE :=
  {| finite.enum := all_states |}.
Next Obligation. apply (bool_decide_unpack _). by vm_compute. Qed.
Next Obligation. intros []; apply (bool_decide_unpack _); by vm_compute. Qed.

(** A code for each semaphore, to index a map with it. *)
Definition k_sem_code (s : k_sem) : PROCESS_STATE + nat + string + string :=
  match s with
  | sem_list s => inl (inl (inl s))
  | sem_io_connections => inl (inl (inr 0)) | sem_io_requests => inl (inl (inr 1))
  | sem_cpu_connections => inl (inl (inr 2)) | sem_cpu_connected => inl (inl (inr 3))
  | sem_cpu_exec id => inl (inr id)
  | sem_io_requests_queue d => inr d
  end.

Definition k_sem_decode (c : PROCESS_STATE + nat + string + string) : option k_sem :=
  match c with
  | inl (inl (inl s)) => Some (sem_list s)
  | inl (inl (inr 0)) => Some sem_io_connections | inl (inl (inr 1)) => Some sem_io_requests
  | inl (inl (inr 2)) => Some sem_cpu_connections | inl (inl (inr 3)) => Some sem_cpu_connected
  | inl (inl (inr _)) => None
  | inl (inr id) => Some (sem_cpu_exec id)
  | inr d => Some (sem_io_requests_queue d)
  end.

#[export] Instance k_sem_countable : Countable k_sem.
Proof. apply (inj_countable k_sem_code k_sem_decode). by intros []. Defined.

(** ** collections.h, io_connections.h *)
Record t_cpu_connection := mk_cpu_connection {
  cpu_id : Z; interrupt_socket_id : Z; dispatch_socket_id : Z; current_process_executing : Z }.

Record t_io_request := mk_io_request { io_request_pid : Z; io_request_sleep_time : Z }.

Record t_io_connection := mk_io_connection {
  device_name : string; io_current_process_executing : Z }.

Record t_io_connection_status := {
  status_socket_id : Z; is_busy : bool; found : bool; connection : option string }.

(** The seven lists, as pointers to PCBs. *)
Record t_lists := mk_lists {
  new_list : list nat; ready_list : list nat; exec_list : list nat; blocked_list : list nat;
  susp_blocked_list : list nat; susp_ready_list : list nat; exit_list : list nat }.

Definition list_of (s : PROCESS_STATE) (l : t_lists) : list nat :=
  match s with
  | NEW => new_list l | READY => ready_list l | EXEC => exec_list l | BLOCKED => blocked_list l
  | SUSP_BLOCKED => susp_blocked_list l | SUSP_READY => susp_ready_list l | EXIT_L => exit_list l
  end.

Definition set_list (s : PROCESS_STATE) (x : list nat) (l : t_lists) : t_lists :=
  let '(mk_lists n r e b sb sr ex) := l in
  match s with
  | NEW => mk_lists x r e b sb sr ex | READY => mk_lists n x e b sb sr ex
  | EXEC => mk_lists n r x b sb sr ex | BLOCKED => mk_lists n r e x sb sr ex
  | SUSP_BLOCKED => mk_lists n r e b x sr ex | SUSP_READY => mk_lists n r e b sb x ex
  | EXIT_L => mk_lists n r e b sb sr x
  end.

(** The threads the kernel starts, by their start routine and argument.
    [process_pending_io_thread] only frees a NULL pointer. *)
Inductive t_thread :=
  | T_process_schedulers | T_process_schedulers_exit | T_process_schedulers_io
  | T_short_scheduler_thread | T_medium_scheduler_thread (pid : Z)
  | T_process_scheduler_for_blocked | T_process_schedulers_for_susp_blocked
  | T_process_pending_io_thread
  | T_process_new_device (client_socket : Z) (device_name : string)
  | T_io_completion (client_socket : Z) (device_name : string) (pid : Z).

(** ** The globals

    [ticks] counts the readings of the clock; [interrupt_answers] are the
    answers the CPUs will give to the interrupts to come, in order; [sent]
    is what was given to [send], with the socket, delivered or not;
    [state_log] is what LOG_OBLIGATORIO has printed about changes of state:
    the process, the state it left and the one it entered. *)
Record t_kernel (S : Type) := mk_kernel {
  k_sems : gmap k_sem Z;
  ticks : nat;
  pcbs : gmap nat t_pcb;
  lists : t_lists;
  new_pid : Z;
  cpu_connections_dict : gmap string t_cpu_connection;
  cpu_id_generator : Z;
  io_connections_dict : gmap string t_io_connection;
  io_requests_link_dict : gmap string (list t_io_request);
  k_memory : S;
  interrupt_answers : list (option t_package);
  sent : list (Z * t_package);
  threads : list t_thread;
  state_log : list (Z * PROCESS_STATE * PROCESS_STATE) }.
Arguments mk_kernel {S}.
Arguments k_sems {S} _.
Arguments ticks {S} _.
Arguments pcbs {S} _.
Arguments lists {S} _.
Arguments new_pid {S} _.
Arguments cpu_connections_dict {S} _.
Arguments cpu_id_generator {S} _.
Arguments io_connections_dict {S} _.
Arguments io_requests_link_dict {S} _.
Arguments k_memory {S} _.
Arguments interrupt_answers {S} _.
Arguments sent {S} _.
Arguments threads {S} _.
Arguments state_log {S} _.

Section Updates.
Context {S : Type}.
Definition set_k_sems (x : gmap k_sem Z) (k : t_kernel S) : t_kernel S :=
  mk_kernel x (ticks k) (pcbs k) (lists k) (new_pid k) (cpu_connections_dict k) (cpu_id_generator k)
    (io_connections_dict k) (io_requests_link_dict k) (k_memory k) (interrupt_answers k)
    (sent k) (threads k) (state_log k).
Definition set_ticks (x : nat) (k : t_kernel S) : t_kernel S :=
  mk_kernel (k_sems k) x (pcbs k) (lists k) (new_pid k) (cpu_connections_dict k) (cpu_id_generator k)
    (io_connections_dict k) (io_requests_link_dict k) (k_memory k) (interrupt_answers k)
    (sent k) (threads k) (state_log k).
Definition set_pcbs (x : gmap nat t_pcb) (k : t_kernel S) : t_kernel S :=
  mk_kernel (k_sems k) (ticks k) x (lists k) (new_pid k) (cpu_connections_dict k)
    (cpu_id_generator k) (io_connections_dict k) (io_requests_link_dict k) (k_memory k)
    (interrupt_answers k) (sent k) (threads k) (state_log k).
Definition set_lists (x : t_lists) (k : t_kernel S) : t_kernel S :=
  mk_kernel (k_sems k) (ticks k) (pcbs k) x (new_pid k) (cpu_connections_dict k) (cpu_id_generator k)
    (io_connections_dict k) (io_requests_link_dict k) (k_memory k) (interrupt_answers k)
    (sent k) (threads k) (state_log k).
Definition set_new_pid (x : Z) (k : t_kernel S) : t_kernel S :=
  mk_kernel (k_sems k) (ticks k) (pcbs k) (lists k) x (cpu_connections_dict k) (cpu_id_generator k)
    (io_connections_dict k) (io_requests_link_dict k) (k_memory k) (interrupt_answers k)
    (sent k) (threads k) (state_log k).
Definition set_cpus (x : gmap string t_cpu_connection) (k : t_kernel S) : t_kernel S :=
  mk_kernel (k_sems k) (ticks k) (pcbs k) (lists k) (new_pid k) x (cpu_id_generator k)
    (io_connections_dict k) (io_requests_link_dict k) (k_memory k) (interrupt_answers k)
    (sent k) (threads k) (state_log k).
Definition set_cpu_ids (x : Z) (k : t_kernel S) : t_kernel S :=
  mk_kernel (k_sems k) (ticks k) (pcbs k) (lists k) (new_pid k) (cpu_connections_dict k) x
    (io_connections_dict k) (io_requests_link_dict k) (k_memory k) (interrupt_answers k)
    (sent k) (threads k) (state_log k).
Definition set_ios (x : gmap string t_io_connection) (k : t_kernel S) : t_kernel S :=
  mk_kernel (k_sems k) (ticks k) (pcbs k) (lists k) (new_pid k) (cpu_connections_dict k)
    (cpu_id_generator k) x (io_requests_link_dict k) (k_memory k) (interrupt_answers k)
    (sent k) (threads k) (state_log k).
Definition set_requests (x : gmap string (list t_io_request)) (k : t_kernel S) : t_kernel S :=
  mk_kernel (k_sems k) (ticks k) (pcbs k) (lists k) (new_pid k) (cpu_connections_dict k)
    (cpu_id_generator k) (io_connections_dict k) x (k_memory k) (interrupt_answers k)
    (sent k) (threads k) (state_log k).
Definition set_k_memory (x : S) (k : t_kernel S) : t_kernel S :=
  mk_kernel (k_sems k) (ticks k) (pcbs k) (lists k) (new_pid k) (cpu_connections_dict k)
    (cpu_id_generator k) (io_connections_dict k) (io_requests_link_dict k) x
    (interrupt_answers k) (sent k) (threads k) (state_log k).
Definition set_answers (x : list (option t_package)) (k : t_kernel S) : t_kernel S :=
  mk_kernel (k_sems k) (ticks k) (pcbs k) (lists k) (new_pid k) (cpu_connections_dict k)
    (cpu_id_generator k) (io_connections_dict k) (io_requests_link_dict k) (k_memory k) x
    (sent k) (threads k) (state_log k).
Definition set_sent (x : list (Z * t_package)) (k : t_kernel S) : t_kernel S :=
  mk_kernel (k_sems k) (ticks k) (pcbs k) (lists k) (new_pid k) (cpu_connections_dict k)
    (cpu_id_generator k) (io_connections_dict k) (io_requests_link_dict k) (k_memory k)
    (interrupt_answers k) x (threads k) (state_log k).
Definition set_threads (x : list t_thread) (k : t_kernel S) : t_kernel S :=
  mk_kernel (k_sems k) (ticks k) (pcbs k) (lists k) (new_pid k) (cpu_connections_dict k)
    (cpu_id_generator k) (io_connections_dict k) (io_requests_link_dict k) (k_memory k)
    (interrupt_answers k) (sent k) x (state_log k).
Definition set_state_log (x : list (Z * PROCESS_STATE * PROCESS_STATE)) (k : t_kernel S) : t_kernel S :=
  mk_kernel (k_sems k) (ticks k) (pcbs k) (lists k) (new_pid k) (cpu_connections_dict k)
    (cpu_id_generator k) (io_connections_dict k) (io_requests_link_dict k) (k_memory k)
    (interrupt_answers k) (sent k) (threads k) x.
End Updates.

(** ** The world around the kernel

    [gettimeofday n] is the [n]-th reading of the clock, in seconds and
    microseconds; [connects] tells whether a connection to the memory module
    succeeds, [peer_alive] whether what is sent on a socket can still be
    delivered. *)
Class KernelEnv (S : Type) := {
  gettimeofday : nat → Z * Z;
  connects : S → bool;
  peer_alive : Z → bool }.

Section Repositories.
Context {C : CommonsOps} {Srv : Type} {MS : MemoryServer Srv} {Env : KernelEnv Srv}.
Context (kernel_config : t_kernel_config).
Local Abbreviation K := (M (t_kernel Srv)).

(** *** Locks *)
Definition on_k_sems {A} (o : M (gmap k_sem Z) A) : K A := zoom k_sems set_k_sems o.
Definition lock (s : k_sem) : K unit := on_k_sems (sem_wait s).
Definition unlock (s : k_sem) : K unit := on_k_sems (sem_post s).

Definition lock_new_list := lock (sem_list NEW).
Definition unlock_new_list := unlock (sem_list NEW).
Definition lock_ready_list := lock (sem_list READY).
Definition unlock_ready_list := unlock (sem_list READY).
Definition lock_exec_list := lock (sem_list EXEC).
Definition unlock_exec_list := unlock (sem_list EXEC).
Definition lock_blocked_list := lock (sem_list BLOCKED).
Definition unlock_blocked_list := unlock (sem_list BLOCKED).
Definition lock_susp_blocked_list := lock (sem_list SUSP_BLOCKED).
Definition unlock_susp_blocked_list := unlock (sem_list SUSP_BLOCKED).
Definition lock_susp_ready_list := lock (sem_list SUSP_READY).
Definition unlock_susp_ready_list := unlock (sem_list SUSP_READY).
Definition lock_exit_list := lock (sem_list EXIT_L).
Definition unlock_exit_list := unlock (sem_list EXIT_L).
Definition lock_io_connections := lock sem_io_connections.
Definition unlock_io_connections := unlock sem_io_connections.
Definition lock_io_requests_link := lock sem_io_requests.
Definition unlock_io_requests_link := unlock sem_io_requests.
Definition lock_io_requests_queue (device : string) := lock (sem_io_requests_queue device).
Definition unlock_io_requests_queue (device : string) := unlock (sem_io_requests_queue device).
Definition lock_cpu_connections := lock sem_cpu_connections.
Definition unlock_cpu_connections := unlock sem_cpu_connections.
Definition lock_cpu (cpu : string) := lock (sem_cpu_exec cpu).
Definition unlock_cpu (cpu : string) := unlock (sem_cpu_exec cpu).

(** *** Time (pcb.c) *)
Definition get_current_time_ms : K Z :=
  n ← gets ticks;
  modify (set_ticks (S n));;
  let '(tv_sec, tv_usec) := gettimeofday n in
  mret (u64 (u64 tv_sec * 1000 + u64 tv_usec `div` 1000)).

Definition total_time_ms (start_time_ms : Z) : K Z :=
  now ← get_current_time_ms; mret (u64 (now - start_time_ms)).

(** *** PCBs (pcb.c) *)
Definition load_pcb (a : nat) : K t_pcb := h ← gets pcbs; deref (h !! a).
Definition store_pcb (a : nat) (p : t_pcb) : K unit := modify (λ k, set_pcbs (<[a := p]> (pcbs k)) k).
Definition update_pcb (a : nat) (f : t_pcb → t_pcb) : K unit := p ← load_pcb a; store_pcb a (f p).

(** [safe_malloc] does not return NULL. *)
Definition pcb_create (pid_ pc_ size_ : Z) (file : option string) : K nat :=
  h ← gets pcbs;
  now ← get_current_time_ms;
  let a := fresh (dom h) in
  store_pcb a (blank_pcb (default_estimated_cpu_burst_ms kernel_config) now pid_ pc_ size_ file);;
  mret a.

Definition pcb_destroy (pcb : option nat) : K unit :=
  match pcb with
  | None => mret tt
  | Some a => load_pcb a;; modify (λ k, set_pcbs (delete a (pcbs k)) k)
  end.

Definition pcb_change_state (pcb : option nat) (new_state : PROCESS_STATE) : K unit :=
  match pcb with
  | None => mret tt
  | Some a =>
      p ← load_pcb a;
      time_in_current_state ← total_time_ms (state_start_time_ms p);
      modify (λ k, set_state_log (state_log k ++ [(pid p, current_state p, new_state)]) k);;
      now ← get_current_time_ms;
      store_pcb a (change_state time_in_current_state now new_state p)
  end.

(** *** The process lists (process/*.c)

    The seven files repeat the same three operations; they differ in what
    they return and in what NEW and EXEC add. *)
Definition has_pid (pid_ : Z) (h : gmap nat t_pcb) (a : nat) : bool :=
  match h !! a with Some p => bool_decide (pid p = pid_) | None => false end.

Definition get_list (s : PROCESS_STATE) : K (list nat) := gets (λ k, list_of s (lists k)).
Definition put_list (s : PROCESS_STATE) (l : list nat) : K unit :=
  modify (λ k, set_lists (set_list s l (lists k)) k).

Definition find_pcb_in (s : PROCESS_STATE) (pid_ : Z) : K (option nat) :=
  h ← gets pcbs;
  l ← get_list s;
  match list_find l (has_pid pid_ h) with Some i => mret (l !! i) | None => mret None end.

Definition add_pcb_to (s : PROCESS_STATE) (pcb : option nat) : K unit :=
  match pcb with
  | None => mret tt
  | Some a =>
      pcb_change_state (Some a) s;;
      l ← get_list s;
      put_list s (list_add l a)
  end.

Definition remove_pcb_from (s : PROCESS_STATE) (pid_ : Z) : K (option nat) :=
  h ← gets pcbs;
  l ← get_list s;
  let '(removed, l) := list_remove_by_condition l (has_pid pid_ h) in
  put_list s l;; mret removed.

Definition get_next_pcb_from (s : PROCESS_STATE) : K (option nat) :=
  l ← get_list s;
  if decide (list_size l = 0)%Z then mret None else mret (list_get l 0).

(** new_list.c: the PCB is already in state NEW. *)
Definition find_pcb_in_new (pid_ : Z) : K bool :=
  h ← gets pcbs; l ← get_list NEW; mret (existsb (has_pid pid_ h) l).
Definition add_pcb_to_new (pcb : option nat) : K unit :=
  match pcb with
  | None => mret tt
  | Some a => l ← get_list NEW; put_list NEW (list_add l a)
  end.
Definition get_next_pcb_from_new := get_next_pcb_from NEW.
Definition remove_pcb_from_new := remove_pcb_from NEW.

(** ready_list.c *)
Definition find_pcb_in_ready (pid_ : Z) : K bool :=
  r ← find_pcb_in READY pid_; mret (bool_decide (is_Some r)).
Definition add_pcb_to_ready := add_pcb_to READY.
Definition remove_pcb_from_ready := remove_pcb_from READY.
Definition get_next_pcb_from_ready := get_next_pcb_from READY.

(** exec_list.c: leaving EXEC records the length of the burst. *)
Definition find_pcb_in_exec := find_pcb_in EXEC.
Definition add_pcb_to_exec := add_pcb_to EXEC.
Definition remove_pcb_from_exec (pid_ : Z) : K (option nat) :=
  removed ← remove_pcb_from EXEC pid_;
  match removed with
  | None => mret None
  | Some a =>
      p ← load_pcb a;
      burst ← total_time_ms (state_start_time_ms p);
      store_pcb a (with_burst burst p);;
      mret (Some a)
  end.

(** blocked_list.c, susp_blocked_list.c, susp_ready_list.c *)
Definition find_pcb_in_blocked := find_pcb_in BLOCKED.
Definition add_pcb_to_blocked := add_pcb_to BLOCKED.
Definition remove_pcb_from_blocked := remove_pcb_from BLOCKED.
Definition find_pcb_in_susp_blocked := find_pcb_in SUSP_BLOCKED.
Definition add_pcb_to_susp_blocked := add_pcb_to SUSP_BLOCKED.
Definition remove_pcb_from_susp_blocked := remove_pcb_from SUSP_BLOCKED.
Definition find_pcb_in_susp_ready (pid_ : Z) : K bool :=
  r ← find_pcb_in SUSP_READY pid_; mret (bool_decide (is_Some r)).
Definition add_pcb_to_susp_ready := add_pcb_to SUSP_READY.
Definition remove_pcb_from_susp_ready := remove_pcb_from SUSP_READY.
Definition get_next_pcb_from_susp_ready := get_next_pcb_from SUSP_READY.

(** exit_list.c *)
Definition find_pcb_in_exit (pid_ : Z) : K bool :=
  r ← find_pcb_in EXIT_L pid_; mret (bool_decide (is_Some r)).
Definition add_pcb_to_exit := add_pcb_to EXIT_L.
Definition remove_pcb_from_exit (pid_ : Z) : K unit :=
  removed ← remove_pcb_from EXIT_L pid_; pcb_destroy removed.

(** *** CPU connections (cpu/*.c) *)

(** The connections of a dictionary with their keys, as it enumerates them. *)
Definition entries {A} (d : gmap string A) : list (string * A) :=
  zip (dictionary_keys d) (dictionary_elements d).

Definition get_all_cpu_connections : K (list (string * t_cpu_connection)) :=
  gets (λ k, entries (cpu_connections_dict k)).

Definition get_cpu_connection_by_id (id : string) : K (option t_cpu_connection) :=
  gets (λ k, dictionary_get (cpu_connections_dict k) id).

Definition find_entry {A} (l : list (string * A)) (p : A → bool) : option string :=
  match list_find l (λ e, p e.2) with Some i => fst <$> l !! i | None => None end.

Definition get_cpu_connection_by_pid (pid_ : Z) : K (option string) :=
  cpus ← get_all_cpu_connections;
  mret (find_entry cpus (λ c, bool_decide (current_process_executing c = pid_))).

Definition load_cpu (cpu : string) : K t_cpu_connection :=
  d ← gets cpu_connections_dict; deref (d !! cpu).
Definition set_executing (cpu : string) (pid_ : Z) : K unit :=
  c ← load_cpu cpu;
  modify (λ k, set_cpus
    (<[cpu := mk_cpu_connection (cpu_id c) (interrupt_socket_id c) (dispatch_socket_id c) pid_]>
       (cpu_connections_dict k)) k).

Definition initialize_repository_cpu (cpu : string) : K unit :=
  on_k_sems (sem_init (sem_cpu_exec cpu) 1).

(** The generator is an [unsigned int]; [string_itoa] takes an [int]. *)
Definition create_cpu_connection (socket_interrupt socket_dispatch : Z) : K string :=
  n ← gets cpu_id_generator;
  let id := string_itoa (i32 n) in
  initialize_repository_cpu id;;
  modify (λ k, set_cpus
    (dictionary_put (cpu_connections_dict k) id
       (mk_cpu_connection n socket_interrupt socket_dispatch (-1))) k);;
  modify (set_cpu_ids ((n + 1) `mod` 2 ^ 32));;
  mret id.

Definition remove_cpu_connection (id : string) : K unit :=
  modify (λ k, set_cpus (dictionary_remove (cpu_connections_dict k) id).2 k).

Definition get_first_available_cpu : K (option string) :=
  cpus ← get_all_cpu_connections;
  mret (find_entry cpus (λ c, bool_decide (current_process_executing c = -1)%Z)).

(** *** IO connections (io/io_connections.c) *)
Definition find_io_connection_by_socket (socket : Z) : K (option string) :=
  d ← gets io_connections_dict;
  let key := string_itoa socket in
  match dictionary_get d key with Some _ => mret (Some key) | None => mret None end.

Definition find_io_connection_by_device_name (name : string) : K (list (string * t_io_connection)) :=
  d ← gets io_connections_dict;
  mret (list_filter (entries d) (λ e, bool_decide (device_name e.2 = name))).

Definition find_free_connection_from_device_name (name : string) : K (option string) :=
  d ← gets io_connections_dict;
  mret (find_entry (entries d)
          (λ c, bool_decide (device_name c = name ∧ io_current_process_executing c = -1)%Z)).

Definition load_io (io : string) : K t_io_connection := d ← gets io_connections_dict; deref (d !! io).
Definition set_io_executing (io : string) (pid_ : Z) : K unit :=
  c ← load_io io;
  modify (λ k, set_ios (<[io := mk_io_connection (device_name c) pid_]> (io_connections_dict k)) k).

Definition create_io_connection (socket : Z) (name : string) : K unit :=
  modify (λ k, set_ios
    (dictionary_put (io_connections_dict k) (string_itoa socket) (mk_io_connection name (-1))) k).

Definition update_io_connection_current_processing (socket process_id : Z) : K unit :=
  d ← gets io_connections_dict;
  match dictionary_get d (string_itoa socket) with
  | Some _ => set_io_executing (string_itoa socket) process_id
  | None => mret tt
  end.

Definition delete_io_connection (socket : Z) : K unit :=
  modify (λ k, set_ios (dictionary_remove (io_connections_dict k) (string_itoa socket)).2 k).

Definition no_connection : t_io_connection_status :=
  {| status_socket_id := -1; is_busy := false; found := false; connection := None |}.

(** The loop over the connections: the first free one with the name, else
    the first with the name. *)
Fixpoint search_status (l : list (string * t_io_connection)) (name : string)
    (first_match : t_io_connection_status) : t_io_connection_status :=
  match l with
  | [] => first_match
  | (socket_key, c) :: l =>
      if decide (device_name c = name) then
        let busy := bool_decide (io_current_process_executing c ≠ -1)%Z in
        let here := {| status_socket_id := atoi socket_key; is_busy := busy; found := true;
                       connection := Some socket_key |} in
        if busy then search_status l name (if found first_match then first_match else here)
        else here
      else search_status l name first_match
  end.

Definition get_io_connection_status_by_device_name (name : string) : K t_io_connection_status :=
  d ← gets io_connections_dict; mret (search_status (entries d) name no_connection).

(** *** IO requests (io/io_requests_link.c, io_requests_queue.c) *)
Definition find_io_request_by_device_name (name : string) : K (option string) :=
  d ← gets io_requests_link_dict;
  match dictionary_get d name with Some _ => mret (Some name) | None => mret None end.

Definition create_io_request_link (name : string) : K unit :=
  on_k_sems (sem_init (sem_io_requests_queue name) 1);;
  modify (λ k, set_requests (dictionary_put (io_requests_link_dict k) name []) k).

Definition load_queue (name : string) : K (list t_io_request) :=
  d ← gets io_requests_link_dict; deref (d !! name).
Definition store_queue (name : string) (q : list t_io_request) : K unit :=
  modify (λ k, set_requests (<[name := q]> (io_requests_link_dict k)) k).

Definition create_io_request_element (name : string) (process_id sleep : Z) : K unit :=
  q ← load_queue name;
  store_queue name (queue_push q (mk_io_request process_id sleep)).

Definition get_next_request_in_queue (name : string) : K (option t_io_request) :=
  q ← load_queue name;
  if decide (queue_size q = 0)%Z then mret None else mret (queue_peek q).

Definition pop_next_request_in_queue (name : string) : K (option t_io_request) :=
  q ← load_queue name;
  if decide (queue_size q = 0)%Z then mret None
  else let '(r, q) := queue_pop q in store_queue name q;; mret r.

(** *** Sockets and threads *)

(** Whether the peer is there; what is sent is recorded. *)
Definition send_to (socket : Z) (r : res t_package) : K bool :=
  package ← lift_res r;
  modify (λ k, set_sent (sent k ++ [(socket, package)]) k);;
  mret (peer_alive socket).

Definition pthread_create (t : t_thread) : K unit :=
  modify (λ k, set_threads (threads k ++ [t]) k).
End Repositories.
