(* ===== verification/Scheduler.v ===== *)
(** * The schedulers of the kernel (kernel/src/kernel_logic, handlers/memory)

    The messages to the memory module, the scheduling algorithms with the
    burst estimates they compute in double precision, and the long, medium
    and short term schedulers. *)
From S2P Require Import Prelude Text Commons Enums Buffer Package Packages Config Semaphores Pcb.
From S2P Require Import Kernel.
From Stdlib Require Import SpecFloat.
Import Buffer Package ProcessState Algorithm.

(** ** Doubles *)

(** The conversion of a [uint64_t] rounds to nearest. *)
Definition double_of_u64 (x : Z) : spec_float := binary_normalize 53 1024 x 0 false.

(** The conversion to [uint64_t] truncates; out of range, and for an
    infinity or NaN, it is undefined. *)
Definition u64_of_double (x : spec_float) : option Z :=
  match x with
  | S754_zero _ => Some 0%Z
  | S754_finite s m e =>
      let v := if decide (0 <= e)%Z then (Z.pos m * 2 ^ e)%Z else (Z.pos m `div` 2 ^ (- e))%Z in
      if decide (v = 0)%Z then Some 0%Z
      else if s then None
      else if decide (v < 2 ^ 64)%Z then Some v else None
  | _ => None
  end.

(** [last_estimated * (1 - alpha) + last_burst * alpha] *)
Definition next_estimate (alpha : spec_float) (estimated burst : Z) : option Z :=
  let one := double_of_u64 1 in
  u64_of_double
    (SFadd 53 1024
       (SFmul 53 1024 (double_of_u64 estimated) (SFsub 53 1024 one alpha))
       (SFmul 53 1024 (double_of_u64 burst) alpha)).

Section Scheduler.
Context {C : CommonsOps} {Srv : Type} {MS : MemoryServer Srv} {Env : KernelEnv Srv}.
Context (kernel_config : t_kernel_config).
Local Abbreviation K := (M (t_kernel Srv)).

(** ** memory_client.c *)

(** [send_...] on a memory socket and [recv_package]. *)
Definition ask (r : res t_package) : K (option t_package) :=
  package ← lift_res r; zoom k_memory set_k_memory (serve package).

(** Whether there is a connection; its socket is not used otherwise. *)
Definition connect_to_memory : K bool := gets (λ k, connects (k_memory k)).

Definition is_confirmation (p : t_package) : bool :=
  bool_decide (opcode p = Opcode.code Opcode.CONFIRMATION).

Definition create_process (pid_ size_ : Z) (pseudocode_path : option string) : K bool :=
  match pseudocode_path with
  | None => mret false
  | Some path =>
      response ← ask (create_init_process_package pid_ size_ (Some path));
      match response with
      | None => mret false
      | Some p => if is_confirmation p then lift_res (read_with read_confirmation_package p) else mret false
      end
  end.

(** The confirmation's value is not read; without a connection nothing is
    received, and the NULL package is dereferenced. *)
Definition kill_process_in_memory (pid_ : Z) : K bool :=
  connected ← connect_to_memory;
  response ← (if connected : bool then ask (create_kill_process_package pid_) else mret None);
  response ← deref response;
  mret (is_confirmation response).

Definition dump_memory_routine (pid_ : Z) : K bool :=
  connected ← connect_to_memory;
  if connected : bool then
    response ← ask (create_dump_memory_package pid_);
    match response with
    | None => mret false
    | Some p => if is_confirmation p then lift_res (read_with read_confirmation_package p) else mret false
    end
  else mret false.

(** ** sorting_logic.c *)

(** A comparator that runs in the kernel's state; a crash ends the sort. *)
Definition comparator (f : nat → nat → K bool) (a b : nat) (r : res (t_kernel Srv))
    : bool * res (t_kernel Srv) :=
  match r with
  | Ok k => match f a b k with Ok (x, k) => (x, Ok k) | Crash c => (true, Crash c) end
  | Crash c => (true, Crash c)
  end.

Definition sort_list (s : PROCESS_STATE) (f : nat → nat → K bool) : K unit :=
  λ k, match list_sort (comparator f) (list_of s (lists k)) (Ok k) with
       | (l, Ok k) => put_list s l k
       | (_, Crash c) => Crash c
       end.

(** Each comparison computes both estimates anew, and stores them. *)
Definition reestimate (a : nat) : K Z :=
  p ← load_pcb a;
  match next_estimate (alpha kernel_config) (last_estimated_cpu_burst_ms (MT p)) (last_cpu_burst_ms (MT p)) with
  | Some e => store_pcb a (with_estimate e p);; mret e
  | None => crash_with OutOfBounds
  end.

Definition estimate_of (a : nat) : K Z := p ← load_pcb a; mret (last_estimated_cpu_burst_ms (MT p)).

Definition compare_cpu_bursts (a b : nat) : K bool :=
  reestimate a;; reestimate b;;
  x ← estimate_of a; y ← estimate_of b;
  mret (bool_decide (x <= y)%Z).

(** The differences are [uint64_t], stored in an [int]. *)
Definition compare_cpu_bursts_SRT (a b : nat) : K bool :=
  reestimate a;; reestimate b;;
  q ← load_pcb b;
  elapsed ← total_time_ms (state_start_time_ms q);
  let process_executing := i32 (u64 (last_estimated_cpu_burst_ms (MT q) - elapsed)) in
  p ← load_pcb a;
  let process_to_dispatch := i32 (last_estimated_cpu_burst_ms (MT p)) in
  mret (negb (bool_decide (process_executing <= process_to_dispatch)%Z)).

Definition sort_ready_list_by_SJF : K unit := sort_list READY compare_cpu_bursts.
Definition sort_exec_list_by_SJF : K unit := sort_list EXEC compare_cpu_bursts.

Definition get_cpu_by_SJF (cpus : list (string * t_cpu_connection)) : K (option string) :=
  sort_exec_list_by_SJF;;
  l ← get_list EXEC;
  let exec_list_size := list_size l in
  if decide (exec_list_size = 0)%Z then mret (fst <$> list_get cpus 0)
  else
    a ← deref (list_get l (exec_list_size - 1));
    p ← load_pcb a;
    get_cpu_connection_by_pid (pid p).

Definition compare_process_size (a b : nat) : K bool :=
  p ← load_pcb a; q ← load_pcb b; mret (bool_decide (size p <= size q)%Z).

Definition sort_new_list_by_SSF : K unit := sort_list NEW compare_process_size.
Definition sort_susp_ready_list_by_SSF : K unit := sort_list SUSP_READY compare_process_size.

(** ** scheduling_algorithms.c

    [configure_scheduling_algorithms] copies the three settings once. *)
Definition short_term_algorithm := short_planification_algorithm kernel_config.
Definition long_term_algorithm := long_planification_algorithm kernel_config.
Definition preemption_is_enabled := cfg_preemption_enabled kernel_config.

Definition get_next_process_to_initialize_from_new : K (option nat) :=
  (if decide (long_term_algorithm = PMCP) then sort_new_list_by_SSF else mret tt);;
  get_next_pcb_from_new.

Definition get_next_process_to_initialize_from_susp_ready : K (option nat) :=
  (if decide (long_term_algorithm = PMCP) then sort_susp_ready_list_by_SSF else mret tt);;
  get_next_pcb_from_susp_ready.

Definition get_cpu_by_algorithm (cpus : list (string * t_cpu_connection)) : K (option string) :=
  if decide (short_term_algorithm = SJF) then get_cpu_by_SJF cpus
  else mret (fst <$> list_get cpus 0).

Definition get_next_process_to_dispatch : K (option nat) :=
  (if decide (short_term_algorithm = SJF) then sort_ready_list_by_SJF else mret tt);;
  get_next_pcb_from_ready.

(** It returns with the list EXEC locked. *)
Definition should_preempt_executing_process (pcb_ready : nat) (pid_executing : Z) : K bool :=
  lock_exec_list;;
  pcb_executing ← find_pcb_in_exec pid_executing;
  match pcb_executing with
  | None => mret true
  | Some a => compare_cpu_bursts_SRT pcb_ready a
  end.

(** ** long_scheduler.c *)

(** The loop over SUSP_READY. *)
Fixpoint unsuspend_loop (fuel : nat) (processes_initialized : bool) : K bool :=
  match fuel with
  | O => crash_with OutOfFuel
  | S fuel =>
      lock_susp_ready_list;;
      pcb ← get_next_process_to_initialize_from_susp_ready;
      match pcb with
      | None => unlock_susp_ready_list;; mret processes_initialized
      | Some a =>
          p ← load_pcb a;
          response ← ask (send_swap_in_package (pid p));
          response ← deref response;
          confirmed ← lift_res (read_with read_confirmation_package response);
          if confirmed : bool then
            pcb_pop ← remove_pcb_from_susp_ready (pid p);
            unlock_susp_ready_list;;
            lock_ready_list;;
            add_pcb_to_ready pcb_pop;;
            unlock_ready_list;;
            unsuspend_loop fuel true
          else unlock_susp_ready_list;; mret processes_initialized
      end
  end.

(** The loop over NEW. *)
Fixpoint admit_loop (fuel : nat) (processes_initialized : bool) : K bool :=
  match fuel with
  | O => crash_with OutOfFuel
  | S fuel =>
      pcb ← get_next_process_to_initialize_from_new;
      match pcb with
      | None => mret processes_initialized
      | Some a =>
          p ← load_pcb a;
          memory_ok ← create_process (pid p) (size p) (pseudocode_file p);
          if memory_ok : bool then
            pcb_pop ← remove_pcb_from_new (pid p);
            add_pcb_to_ready pcb_pop;;
            admit_loop fuel true
          else mret processes_initialized
      end
  end.

(** Every turn but the last takes a process off the list. *)
Definition run_long_scheduler : K bool :=
  connected ← connect_to_memory;
  if connected : bool then
    suspended ← get_list SUSP_READY;
    processes_initialized ← unsuspend_loop (S (length suspended)) false;
    lock_ready_list;;
    lock_new_list;;
    waiting ← get_list NEW;
    processes_initialized ← admit_loop (S (length waiting)) processes_initialized;
    unlock_new_list;;
    unlock_ready_list;;
    mret processes_initialized
  else mret false.

(** ** short_scheduler.c *)
Definition get_cpu_to_dispatch : K (option string) :=
  all_cpus ← get_all_cpu_connections;
  h ← gets pcbs;
  exec ← get_list EXEC;
  let cpu_process_not_in_exec c :=
    if decide (current_process_executing c = -1)%Z then true
    else match list_find exec (has_pid (current_process_executing c) h) with
         | Some _ => false | None => true end in
  match find_entry all_cpus cpu_process_not_in_exec with
  | Some available_cpu => set_executing available_cpu (-1);; mret (Some available_cpu)
  | None => get_cpu_by_algorithm all_cpus
  end.

(** The next of the answers; EXEC is unlocked while it is awaited. *)
Definition recv_answer : K (option t_package) :=
  l ← gets interrupt_answers;
  match l with [] => mret None | x :: l => modify (set_answers l);; mret x end.

Definition send_and_receive_interrupt (interrupt_socket pid_ : Z) : K cpu_context_package_data :=
  send_to interrupt_socket (create_interrupt_package pid_);;
  unlock_exec_list;;
  response ← recv_answer;
  response ← deref response;
  lift_res (read_with read_cpu_context_package response).

Definition send_dispatch_to_cpu (cpu : string) (pid_ pc_ : Z) : K bool :=
  c ← load_cpu cpu;
  send_to (dispatch_socket_id c) (create_dispatch_package pid_ pc_).

Definition get_short_scheduler_context : K (option string * option nat) :=
  cpu ← get_cpu_to_dispatch;
  match cpu with
  | None => mret (None, None)
  | Some cpu =>
      pcb_ready ← get_next_process_to_dispatch;
      mret (Some cpu, pcb_ready)
  end.

(** The process on the CPU is interrupted; if the CPU says that it was still
    running it, it goes back to READY.  Otherwise EXEC stays unlocked. *)
Definition preempt (cpu : string) : K unit :=
  c ← load_cpu cpu;
  cpu_context ← send_and_receive_interrupt (interrupt_socket_id c) (current_process_executing c);
  if decide (interrupted_same_pid cpu_context = 0)%Z then
    lock_exec_list;;
    c ← load_cpu cpu;
    preempted_pcb ← remove_pcb_from_exec (current_process_executing c);
    match preempted_pcb with
    | Some a => update_pcb a (with_pc (ctx_pc cpu_context));; add_pcb_to_ready (Some a)
    | None => mret tt
    end
  else mret tt.

(** Step (5) and the unlocks of step (6). *)
Definition dispatch_to (cpu : string) (pcb_in_ready : nat) : K unit :=
  p ← load_pcb pcb_in_ready;
  remove_pcb_from_ready (pid p);;
  add_pcb_to_exec (Some pcb_in_ready);;
  p ← load_pcb pcb_in_ready;
  send_dispatch_to_cpu cpu (pid p) (pc p);;
  set_executing cpu (pid p);;
  unlock_cpu_connections;;
  unlock_exec_list;;
  unlock_ready_list;;
  unlock_cpu cpu.

Definition run_short_scheduler : K unit :=
  lock_cpu_connections;;
  lock_ready_list;;
  context ← get_short_scheduler_context;
  match context with
  | (Some cpu, Some pcb_in_ready) =>
      lock_cpu cpu;;
      c ← load_cpu cpu;
      if decide (current_process_executing c = -1)%Z then
        lock_exec_list;; dispatch_to cpu pcb_in_ready
      else if negb preemption_is_enabled then
        unlock_cpu_connections;; unlock_ready_list;; unlock_cpu cpu
      else
        should ← should_preempt_executing_process pcb_in_ready (current_process_executing c);
        if should : bool then preempt cpu;; dispatch_to cpu pcb_in_ready
        else
          unlock_cpu_connections;; unlock_exec_list;; unlock_ready_list;; unlock_cpu cpu
  | _ => unlock_cpu_connections;; unlock_ready_list
  end.

(** ** medium_scheduler.c, after the [usleep] *)
Definition back_to_blocked (pid_ : Z) : K unit :=
  lock_blocked_list;;
  lock_susp_blocked_list;;
  pcb ← remove_pcb_from_susp_blocked pid_;
  add_pcb_to_blocked pcb;;
  unlock_susp_blocked_list;;
  unlock_blocked_list.

(** Whether memory has swapped the process out, or has nothing to swap. *)
Definition swap_out (pid_ size_ : Z) : K bool :=
  if decide (size_ ≠ 0)%Z then
    connected ← connect_to_memory;
    if connected : bool then
      package ← ask (send_swap_package pid_);
      match package with
      | None => mret false
      | Some p => lift_res (read_with read_confirmation_package p)
      end
    else mret false
  else mret true.

Definition run_medium_scheduler (pid_ : Z) : K unit :=
  lock_blocked_list;;
  blocked_pid_found ← find_pcb_in_blocked pid_;
  match blocked_pid_found with
  | None => unlock_blocked_list
  | Some a =>
      p ← load_pcb a;
      time_in_blocked ← total_time_ms (state_start_time_ms p);
      if decide (time_in_blocked < u64 (sleep_time kernel_config))%Z then unlock_blocked_list
      else
        lock_susp_blocked_list;;
        pcb ← remove_pcb_from_blocked pid_;
        add_pcb_to_susp_blocked pcb;;
        unlock_blocked_list;;
        unlock_susp_blocked_list;;
        pcb ← deref pcb;
        p ← load_pcb pcb;
        swapped ← swap_out pid_ (size p);
        if swapped : bool then
          admitted ← run_long_scheduler;
          if admitted : bool then run_short_scheduler else mret tt
        else back_to_blocked pid_
  end.
End Scheduler.
