(* ===== verification/Handlers.v ===== *)
(** * The handlers of the kernel (kernel/src/handlers, process_initialization.c, main.c)

    System calls from a CPU, completions and (dis)connections of IO devices,
    the threads they start, and the start of the kernel.  [k_event] is what
    can happen next: a pending thread runs, or a package arrives. *)
From S2P Require Import Prelude Text Commons Enums Buffer Package Packages Config Semaphores Pcb.
From S2P Require Import Kernel Scheduler.
Import Buffer Package ProcessState.

Section Handlers.
Context {C : CommonsOps} {Srv : Type} {MS : MemoryServer Srv} {Env : KernelEnv Srv}.
Context (kernel_config : t_kernel_config).
Local Abbreviation K := (M (t_kernel Srv)).
Local Abbreviation run_short_scheduler := (run_short_scheduler kernel_config).
Local Abbreviation run_long_scheduler := (run_long_scheduler kernel_config).

(** ** exit_syscall.c *)
Definition exit_routine (pcb : option nat) : K bool :=
  lock_exit_list;;
  add_pcb_to_exit pcb;;
  a ← deref pcb;
  p ← load_pcb a;
  mem_response ← kill_process_in_memory (pid p);
  (if mem_response : bool then
     p ← load_pcb a;
     t ← total_time_ms (state_start_time_ms p);
     update_pcb a (with_exit_time t)
   else
     t ← get_current_time_ms;
     update_pcb a (with_exec_time t));;
  unlock_exit_list;;
  mret mem_response.

Definition exit_process_syscall (pid_ : Z) : K unit :=
  lock_exec_list;;
  pcb ← remove_pcb_from_exec pid_;
  exit_routine pcb;;
  unlock_exec_list;;
  pthread_create T_process_schedulers_exit.

(** ** init_proc_syscall.c, with the confirmation on [response_socket] *)
Definition handle_init_proc_syscall (caller_pid caller_pc new_process_memory_space : Z)
    (new_process_pseudocode_file : string) (response_socket : Z) : K unit :=
  lock_new_list;;
  lock_exec_list;;
  current_pcb ← find_pcb_in_exec caller_pid;
  match current_pcb with
  | None => unlock_exec_list;; unlock_new_list
  | Some a =>
      p ← load_pcb a;
      time_int_exec ← total_time_ms (state_start_time_ms p);
      update_pcb a (with_burst time_int_exec);;
      update_pcb a (with_pc caller_pc);;
      modify (λ k, set_new_pid (i32 (new_pid k + 1)) k);;
      fresh_pid ← gets new_pid;
      new_pcb ← pcb_create kernel_config fresh_pid 0 new_process_memory_space
                  (Some new_process_pseudocode_file);
      exists_already ← find_pcb_in_new fresh_pid;
      if exists_already : bool then
        unlock_new_list;; unlock_exec_list;; pcb_destroy (Some new_pcb)
      else
        add_pcb_to_new (Some new_pcb);;
        unlock_new_list;;
        unlock_exec_list;;
        send_to response_socket (create_confirmation_package true);;
        pthread_create T_process_schedulers
  end.

(** ** process_pending_io.c *)

(** Whether the process a connection is busy with is blocked at all. *)
Definition truly_busy (current_pid : Z) : K bool :=
  if decide (current_pid ≠ -1)%Z then
    lock_blocked_list;;
    lock_susp_blocked_list;;
    pcb_in_blocked ← find_pcb_in_blocked current_pid;
    pcb_in_susp_blocked ← find_pcb_in_susp_blocked current_pid;
    unlock_susp_blocked_list;;
    unlock_blocked_list;;
    mret (bool_decide (is_Some pcb_in_blocked ∨ is_Some pcb_in_susp_blocked))
  else mret false.

(** The next request is sent to [client_socket], and [io], the connection
    that was found by name, is marked with its process. *)
Definition send_next_request (name : string) (client_socket : Z) (io : string) : K unit :=
  request ← get_next_request_in_queue name;
  match request with
  | None => mret tt
  | Some io_request =>
      delivered ← send_to client_socket
        (create_io_operation_package (io_request_pid io_request) (io_request_sleep_time io_request));
      if delivered : bool then
        element ← pop_next_request_in_queue name;
        match element with
        | None => mret tt
        | Some _ => set_io_executing io (io_request_pid io_request)
        end
      else mret tt
  end.

Definition process_pending_io (name : string) (client_socket : Z) : K bool :=
  lock_io_connections;;
  connection_found ← get_io_connection_status_by_device_name name;
  if negb (found connection_found) then unlock_io_connections;; mret false
  else
    lock_io_requests_link;;
    request_link ← find_io_request_by_device_name name;
    match request_link with
    | None => unlock_io_requests_link;; unlock_io_connections;; mret true
    | Some link =>
        lock_io_requests_queue link;;
        io ← deref (connection connection_found);
        c ← load_io io;
        is_truly_busy ← truly_busy (io_current_process_executing c);
        (if is_truly_busy : bool then mret tt else send_next_request link client_socket io);;
        unlock_io_requests_queue link;;
        unlock_io_requests_link;;
        unlock_io_connections;;
        mret true
    end.

(** ** io_syscall.c *)
Definition handle_io_connection_not_found (pid_ : Z) : K unit :=
  lock_exec_list;;
  pcb ← remove_pcb_from_exec pid_;
  exit_routine pcb;;
  unlock_exec_list;;
  pthread_create T_process_schedulers_io.

(** EXEC -> BLOCKED, with the request at the end of the queue; whether the
    process was there. *)
Definition block_for_io (pid_ pc_ sleep : Z) (link : string) : K (option nat) :=
  lock_io_requests_queue link;;
  lock_exec_list;;
  lock_blocked_list;;
  pcb ← remove_pcb_from_exec pid_;
  (match pcb with
   | None => mret tt
   | Some a =>
       update_pcb a (with_pc pc_);;
       add_pcb_to_blocked (Some a);;
       create_io_request_element link pid_ sleep
   end);;
  unlock_blocked_list;;
  unlock_exec_list;;
  unlock_io_requests_queue link;;
  mret pcb.

Definition handle_io_process_syscall (pid_ pc_ sleep : Z) (name : string) : K unit :=
  lock_io_connections;;
  io_connection ← get_io_connection_status_by_device_name name;
  if negb (found io_connection) then
    handle_io_connection_not_found pid_;; unlock_io_connections
  else
    lock_io_requests_link;;
    io_request_link ← find_io_request_by_device_name name;
    match io_request_link with
    | None => unlock_io_requests_link;; unlock_io_connections
    | Some link =>
        pcb ← block_for_io pid_ pc_ sleep link;
        unlock_io_requests_link;;
        unlock_io_connections;;
        match pcb with
        | None => mret tt
        | Some a =>
            process_pending_io name (status_socket_id io_connection);;
            p ← load_pcb a;
            pthread_create (T_medium_scheduler_thread (pid p));;
            pthread_create T_short_scheduler_thread
        end
    end.

(** ** dump_memory_syscall.c: before and after the request to memory, during
    which no list is locked *)
Definition dump_memory_block (pid_ pc_ : Z) : K (option nat) :=
  lock_exec_list;;
  lock_blocked_list;;
  pcb ← find_pcb_in_exec pid_;
  match pcb with
  | None => unlock_exec_list;; unlock_blocked_list;; mret None
  | Some a =>
      update_pcb a (with_pc pc_);;
      remove_pcb_from_exec pid_;;
      add_pcb_to_blocked (Some a);;
      unlock_blocked_list;;
      unlock_exec_list;;
      mret (Some a)
  end.

Definition dump_memory_finish (a : nat) (confirmation : bool) : K unit :=
  lock_ready_list;;
  lock_blocked_list;;
  p ← load_pcb a;
  if confirmation then
    remove_pcb_from_blocked (pid p);;
    add_pcb_to_ready (Some a);;
    unlock_ready_list;;
    unlock_blocked_list;;
    run_short_scheduler
  else
    remove_pcb_from_blocked (pid p);;
    exit_routine (Some a);;
    unlock_ready_list;;
    unlock_blocked_list.

Definition dump_memory_syscall (pid_ pc_ : Z) : K unit :=
  pcb ← dump_memory_block pid_ pc_;
  match pcb with
  | None => mret tt
  | Some a =>
      confirmation ← dump_memory_routine pid_;
      dump_memory_finish a confirmation
  end.

(** ** handle_dispatch_client.c *)
Definition handle_cpu_syscall (package : t_package) (socket : Z) : K unit :=
  syscall ← lift_res (read_with read_syscall_package package);
  match SyscallType.decode (syscall_type syscall), params syscall with
  | Some SyscallType.SYSCALL_INIT_PROC, InitProcParams memory_space file =>
      handle_init_proc_syscall (syscall_pid syscall) (syscall_pc syscall) memory_space file socket
  | Some SyscallType.SYSCALL_IO, IoParams sleep name =>
      handle_io_process_syscall (syscall_pid syscall) (syscall_pc syscall) sleep name
  | Some SyscallType.SYSCALL_DUMP_MEMORY, _ =>
      dump_memory_syscall (syscall_pid syscall) (syscall_pc syscall)
  | Some SyscallType.SYSCALL_EXIT, _ => exit_process_syscall (syscall_pid syscall)
  | _, _ => mret tt
  end.

(** One package on the dispatch socket of a CPU. *)
Definition handle_dispatch_client (connection_id : string) (package : t_package) : K unit :=
  cpu_connection ← get_cpu_connection_by_id connection_id;
  match cpu_connection with
  | None => mret tt
  | Some c =>
      if bool_decide (opcode package = Opcode.code Opcode.SYSCALL)
      then handle_cpu_syscall package (dispatch_socket_id c) else mret tt
  end.

(** ** io_completion.c *)
Definition io_completion (client_socket : Z) (name : string) (pid_ : Z) : K unit :=
  lock_io_connections;;
  connection ← find_io_connection_by_socket client_socket;
  match connection with
  | None => unlock_io_connections
  | Some io =>
      lock_ready_list;;
      lock_blocked_list;;
      lock_susp_blocked_list;;
      lock_susp_ready_list;;
      pcb ← remove_pcb_from_blocked pid_;
      moved ← match pcb with
              | Some _ => add_pcb_to_ready pcb;; mret (Some READY)
              | None =>
                  pcb ← remove_pcb_from_susp_blocked pid_;
                  match pcb with
                  | Some _ => add_pcb_to_susp_ready pcb;; mret (Some SUSP_READY)
                  | None => mret None
                  end
              end;
      set_io_executing io (-1);;
      unlock_susp_ready_list;;
      unlock_susp_blocked_list;;
      unlock_blocked_list;;
      unlock_ready_list;;
      unlock_io_connections;;
      process_pending_io name client_socket;;
      pthread_create T_process_pending_io_thread;;
      match moved with
      | Some READY => pthread_create T_process_scheduler_for_blocked
      | Some _ => pthread_create T_process_schedulers_for_susp_blocked
      | None => mret tt
      end
  end.

(** ** process_new_device.c *)
Definition process_new_device (client_socket : Z) (name : string) : K unit :=
  lock_io_connections;;
  lock_io_requests_link;;
  create_io_connection client_socket name;;
  request_link ← find_io_request_by_device_name name;
  (match request_link with None => create_io_request_link name | Some _ => mret tt end);;
  unlock_io_requests_link;;
  unlock_io_connections;;
  match request_link with
  | None => mret tt
  | Some _ => process_pending_io name client_socket;; mret tt
  end.

(** ** io_disconnected.c *)
Definition handle_found_process (io : string) : K unit :=
  lock_blocked_list;;
  c ← load_io io;
  pcb ← remove_pcb_from_blocked (io_current_process_executing c);
  match pcb with
  | Some _ => exit_routine pcb;; unlock_blocked_list
  | None =>
      unlock_blocked_list;;
      lock_susp_blocked_list;;
      pcb ← remove_pcb_from_susp_blocked (io_current_process_executing c);
      match pcb with
      | Some _ =>
          exit_routine pcb;;
          unlock_susp_blocked_list;;
          admitted ← run_long_scheduler;
          if admitted : bool then run_short_scheduler else mret tt
      | None => unlock_susp_blocked_list
      end
  end.

Definition io_disconnected (socket_id : Z) : K unit :=
  lock_io_connections;;
  io_connection ← find_io_connection_by_socket socket_id;
  match io_connection with
  | None => unlock_io_connections
  | Some io =>
      c ← load_io io;
      (if decide (io_current_process_executing c ≠ -1)%Z then handle_found_process io else mret tt);;
      delete_io_connection socket_id;;
      unlock_io_connections
  end.

(** ** io_client.c: one package of a device *)
Definition handle_new_device (package : t_package) (socket : Z) : K unit :=
  device_name ← lift_res (read_with read_new_io_package package);
  pthread_create (T_process_new_device socket device_name).

Definition process_io_completion (package : t_package) (socket : Z) : K unit :=
  completion_data ← lift_res (read_with read_io_completion_package package);
  pthread_create (T_io_completion socket (completion_device_name completion_data)
                    (completion_pid completion_data)).

Definition handle_io_client (client_socket : Z) (package : t_package) : K unit :=
  if bool_decide (opcode package = Opcode.code Opcode.NEW_IO) then handle_new_device package client_socket
  else if bool_decide (opcode package = Opcode.code Opcode.IO_COMPLETION) then
    process_io_completion package client_socket
  else mret tt.

(** ** The threads *)
Definition process_schedulers : K unit := run_long_scheduler;; run_short_scheduler.

Definition process_schedulers_for_susp_blocked : K unit :=
  process_moved_to_ready ← run_long_scheduler;
  if process_moved_to_ready : bool then run_short_scheduler else mret tt.

Definition run_thread (t : t_thread) : K unit :=
  match t with
  | T_process_schedulers | T_process_schedulers_exit | T_process_schedulers_io => process_schedulers
  | T_short_scheduler_thread | T_process_scheduler_for_blocked => run_short_scheduler
  | T_medium_scheduler_thread pid_ => run_medium_scheduler kernel_config pid_
  | T_process_schedulers_for_susp_blocked => process_schedulers_for_susp_blocked
  | T_process_pending_io_thread => mret tt
  | T_process_new_device socket name => process_new_device socket name
  | T_io_completion socket name pid_ => io_completion socket name pid_
  end.

(** ** What can happen *)
Inductive k_event :=
  | Ev_thread (i : nat)
  | Ev_cpu_package (connection_id : string) (package : t_package)
  | Ev_io_package (client_socket : Z) (package : t_package)
  | Ev_io_disconnected (client_socket : Z).

Definition handle_event (e : k_event) : K unit :=
  match e with
  | Ev_thread i =>
      l ← gets threads;
      match l !! i with
      | None => mret tt
      | Some t => modify (set_threads (delete i l));; run_thread t
      end
  | Ev_cpu_package id package => handle_dispatch_client id package
  | Ev_io_package socket package => handle_io_client socket package
  | Ev_io_disconnected socket => io_disconnected socket
  end.

Definition run_events (l : list k_event) : K unit := for_each l handle_event.

(** ** process_initialization.c *)
Definition initialize_root_process (pid_ memory_space : Z) (file : option string) : K unit :=
  new_pcb ← pcb_create kernel_config pid_ 0 memory_space file;
  lock_new_list;;
  exists_already ← find_pcb_in_new pid_;
  if exists_already : bool then unlock_new_list;; pcb_destroy (Some new_pcb)
  else
    add_pcb_to_new (Some new_pcb);;
    unlock_new_list;;
    success ← run_long_scheduler;
    if success : bool then run_short_scheduler else mret tt.

(** ** main.c *)
Definition global_sems : list k_sem :=
  [sem_io_connections; sem_cpu_connections] ++ (sem_list <$> all_states) ++ [sem_io_requests].

Definition initialize_global_lists : K unit := for_each global_sems (λ s, on_k_sems (sem_init s 1)).

Definition initialize_global_semaphores : K unit := on_k_sems (sem_init sem_cpu_connected 0).

(** The sockets of the CPUs that connect, one pair per configured CPU. *)
Definition connect_to_cpus (sockets : list (Z * Z)) : K unit :=
  for_each sockets (λ s, create_cpu_connection s.2 s.1;; mret tt);;
  on_k_sems (sem_post sem_cpu_connected).

Definition process_enter (file : string) (program_size : Z) : K unit :=
  on_k_sems (sem_wait sem_cpu_connected);;
  initialize_root_process 0 program_size (Some file).

Definition initial_kernel (memory : Srv) (answers : list (option t_package)) : t_kernel Srv :=
  {| k_sems := ∅; ticks := 0; pcbs := ∅; lists := mk_lists [] [] [] [] [] [] []; new_pid := 0;
     cpu_connections_dict := ∅; cpu_id_generator := 1; io_connections_dict := ∅;
     io_requests_link_dict := ∅; k_memory := memory; interrupt_answers := answers;
     sent := []; threads := []; state_log := [] |}.

Definition kernel_main (sockets : list (Z * Z)) (file : string) (program_size : Z) : K unit :=
  initialize_global_lists;;
  initialize_global_semaphores;;
  connect_to_cpus sockets;;
  process_enter file program_size.
End Handlers.
