(* ===== verification/Device.v ===== *)
(** * The IO device (io/src/main.c)

    A device announces its name to the kernel and then serves one request at
    a time: it sleeps and confirms.  [io_log] records in one sequence what the
    device does, so that their order can be told: the packages it receives and
    sends, its two mandatory log lines and the argument of each [usleep], in
    microseconds.  The opcode of a request is not looked at. *)
From S2P Require Import Prelude Text Commons Enums Buffer Package Packages Roundtrip Config Semaphores Session.
From S2P Require Import Pcb Kernel Scheduler Handlers.
From Stdlib Require Import Strings.Byte.
Import Buffer Package.

Inductive t_io_act :=
  | Io_received (package : t_package)
  | Io_started (pid sleep_time : Z)
  | Io_slept (microseconds : Z)
  | Io_ended (pid : Z)
  | Io_sent (package : t_package).

Record t_device := mk_device {
  io_kernel_in : list byte; io_kernel_out : list byte; io_log : list t_io_act }.

Section Device.
Local Abbreviation Io := (M t_device).

Definition io_does (act : t_io_act) : Io unit :=
  modify (λ d, mk_device (io_kernel_in d) (io_kernel_out d) (io_log d ++ [act])).

(** [usleep] takes an unsigned 32-bit number. *)
Definition microseconds (milliseconds : Z) : Z := (i32 (milliseconds * 1000)) `mod` 2 ^ 32.

Definition io_send (r : res t_package) : Io unit :=
  package ← lift_res r;
  modify (λ d, mk_device (io_kernel_in d) (send_package (io_kernel_out d) package) (io_log d));;
  io_does (Io_sent package).

Definition processing_operation (device : string) (io : io_operation_package_data) : Io unit :=
  io_does (Io_started (io_pid io) (io_sleep_time io));;
  io_does (Io_slept (microseconds (io_sleep_time io)));;
  io_does (Io_ended (io_pid io));;
  io_send (create_io_completion_package device (io_pid io)).

Definition io_recv : Io (option t_package) :=
  package ← zoom io_kernel_in (λ b d, mk_device b (io_kernel_out d) (io_log d)) recv_package;
  match package with
  | None => mret None
  | Some package => io_does (Io_received package);; mret (Some package)
  end.

(** The loop until the kernel disconnects; [fuel] requests at most. *)
Fixpoint waiting_requests (fuel : nat) (id_IO : string) : Io unit :=
  match fuel with
  | O => crash_with OutOfFuel
  | S fuel =>
      package ← io_recv;
      match package with
      | None => mret tt
      | Some package =>
          request ← lift_res (read_with read_io_operation_package package);
          processing_operation id_IO request;;
          waiting_requests fuel id_IO
      end
  end.

(** The name defaults to DISCO. *)
Definition io_main (fuel : nat) (argument : option string) : Io unit :=
  let id_IO := default "DISCO"%string argument in
  io_send (create_new_io_package id_IO);;
  waiting_requests fuel id_IO.

(** ** What a device does *)
Definition serves (name : string) (p : io_operation_package_data) (request reply : t_package) : Prop :=
  create_io_operation_package (io_pid p) (io_sleep_time p) = Ok request ∧
  create_io_completion_package name (io_pid p) = Ok reply.

(** One request: it is received, its time is slept between the two log
    lines, and only then is its process confirmed. *)
Definition service (p : io_operation_package_data) (request reply : t_package) : list t_io_act :=
  [Io_received request; Io_started (io_pid p) (io_sleep_time p); Io_slept (microseconds (io_sleep_time p));
   Io_ended (io_pid p); Io_sent reply].

(** Requests one after the other. *)
Fixpoint services (l : list io_operation_package_data) (requests replies : list t_package) : list t_io_act :=
  match l, requests, replies with
  | p :: l, request :: requests, reply :: replies => service p request reply ++ services l requests replies
  | _, _, _ => []
  end.

Lemma wire_cons p l : wire (p :: l) = serialize_package p ++ wire l.
Proof. done. Qed.

Lemma io_send_runs r package d :
  r = Ok package →
  io_send r d = Ok (tt, mk_device (io_kernel_in d) (io_kernel_out d ++ serialize_package package)
                          (io_log d ++ [Io_sent package])).
Proof. by intros ->. Qed.

Lemma io_recv_runs package rest d :
  recv_package (io_kernel_in d) = Ok (Some package, rest) →
  io_recv d = Ok (Some package, mk_device rest (io_kernel_out d) (io_log d ++ [Io_received package])).
Proof. intros H. unfold io_recv. run (unfold zoom; rewrite H; reflexivity). by run (reflexivity). Qed.

(** Each request is served, in order, whatever else follows on the socket. *)
Lemma waiting_requests_ok name l requests replies fuel out log :
  fits name → Forall (λ p, in_i32 (io_pid p) ∧ in_i32 (io_sleep_time p)) l →
  Forall3 (serves name) l requests replies → length l < fuel →
  waiting_requests fuel name (mk_device (wire requests) out log)
  = Ok (tt, mk_device [] (out ++ wire replies) (log ++ services l requests replies)).
Proof.
  intros Hn Hl Hs. revert fuel out log.
  induction Hs as [|p request reply l requests replies [Hq Hr] Hs IH]; intros fuel out log Hf.
  - destruct fuel; [cbn in Hf; lia|]. cbn. by rewrite !app_nil_r.
  - apply Forall_cons in Hl as [[Hp Ht] Hl]. cbn [length] in Hf. destruct fuel as [|fuel]; [lia|].
    destruct (io_operation_delivers _ Hp _ Ht) as (request' & Hq' & _ & Hread & Hrecv).
    rewrite Hq in Hq'. injection Hq' as <-. cbn [waiting_requests]. rewrite wire_cons.
    run (apply io_recv_runs; cbn [io_kernel_in]; by rewrite Hrecv).
    run (unfold lift_res; rewrite Hread; reflexivity).
    run (unfold processing_operation; do 3 run (reflexivity); by apply io_send_runs).
    cbn [io_kernel_in io_kernel_out io_log]. rewrite IH by (done || lia).
    cbn [services]. rewrite (wire_cons reply), <- !app_assoc. reflexivity.
Qed.

(** The bytes received bound the requests. *)
Lemma requests_bound name l requests replies :
  Forall (λ p, in_i32 (io_pid p) ∧ in_i32 (io_sleep_time p)) l →
  Forall3 (serves name) l requests replies → length l <= length (wire requests).
Proof.
  intros Hl Hs. induction Hs as [|p request reply l requests replies [Hq _] Hs IH]; [done|].
  apply Forall_cons in Hl as [[Hp Ht] Hl]. rewrite wire_cons, length_app.
  destruct (io_operation_delivers _ Hp _ Ht) as (request' & Hq' & _ & _ & Hrecv).
  rewrite Hq in Hq'. injection Hq' as <-. specialize (Hrecv []). rewrite app_nil_r in Hrecv.
  apply recv_package_shrinks in Hrecv. specialize (IH Hl). cbn. lia.
Qed.
End Device.
