(* ===== verification/KernelInvariant.v ===== *)
(** * The invariant of the kernel

    [view] is what the invariant needs to know of a state: the id and state
    of each PCB, the lists, the last id given, and what each CPU runs.
    [procs_ok] says that every process is in exactly one list, the one of its
    state, that ids are unique, and that the processes in EXEC are on CPUs;
    the processes in [fl] are off the lists for the moment.  [sems_ok] says
    that the semaphores in [held], and no other, are taken. *)
From S2P Require Import Prelude Text Commons Enums Buffer Package Packages Config Semaphores Pcb.
From S2P Require Import Kernel.
From Stdlib Require Import Permutation.
Import Buffer Package ProcessState.

(** ** Lists *)
Definition placed (l : t_lists) : list nat := all_states ≫= λ s, list_of s l.

Definition others (s : PROCESS_STATE) (l : t_lists) : list nat :=
  filter (λ t, t ≠ s) all_states ≫= λ t, list_of t l.

Lemma list_of_set s t x l : list_of s (set_list t x l) = if decide (s = t) then x else list_of s l.
Proof. destruct l, s, t; reflexivity. Qed.

Lemma list_of_set_eq s x l : list_of s (set_list s x l) = x.
Proof. by destruct l, s. Qed.

Lemma list_of_set_ne s t x l : s ≠ t → list_of s (set_list t x l) = list_of s l.
Proof. intros. rewrite list_of_set. by rewrite decide_False. Qed.

Lemma set_list_set_list s x y l : set_list s x (set_list s y l) = set_list s x l.
Proof. by destruct l, s. Qed.

Lemma set_list_id s l : set_list s (list_of s l) l = l.
Proof. by destruct l, s. Qed.

Lemma others_set s x l : others s (set_list s x l) = others s l.
Proof. destruct l, s; reflexivity. Qed.

Lemma placed_others s l : placed l ≡ₚ list_of s l ++ others s l.
Proof.
  unfold placed, others. destruct l as [n r e b sb sr x]. destruct s; cbn.
  - done.
  - by rewrite (Permutation_app_swap_app n r).
  - by rewrite (Permutation_app_swap_app r e), (Permutation_app_swap_app n e).
  - by rewrite (Permutation_app_swap_app e b), (Permutation_app_swap_app r b),
      (Permutation_app_swap_app n b).
  - by rewrite (Permutation_app_swap_app b sb), (Permutation_app_swap_app e sb),
      (Permutation_app_swap_app r sb), (Permutation_app_swap_app n sb).
  - by rewrite (Permutation_app_swap_app sb sr), (Permutation_app_swap_app b sr),
      (Permutation_app_swap_app e sr), (Permutation_app_swap_app r sr), (Permutation_app_swap_app n sr).
  - by rewrite (Permutation_app_swap_app sr x), (Permutation_app_swap_app sb x),
      (Permutation_app_swap_app b x), (Permutation_app_swap_app e x),
      (Permutation_app_swap_app r x), (Permutation_app_swap_app n x).
Qed.

Lemma placed_set s x l : placed (set_list s x l) ≡ₚ x ++ others s l.
Proof. rewrite (placed_others s), list_of_set, decide_True, others_set by done. done. Qed.

Lemma elem_of_placed a s l : a ∈ list_of s l → a ∈ placed l.
Proof. rewrite (placed_others s). set_solver. Qed.

Lemma placed_elem a l : a ∈ placed l → ∃ s, a ∈ list_of s l.
Proof. unfold placed. rewrite list_elem_of_bind. intros (s & Hs & _). by exists s. Qed.

(** ** What the invariant looks at

    Besides the processes: what each CPU is marked with, the sockets on which
    the CPUs are sent processes, and what was sent that is meant for them. *)
Record view := mk_view {
  v_ident : gmap nat (Z * PROCESS_STATE);
  v_lists : t_lists;
  v_new_pid : Z;
  v_running : gmap string Z;
  v_sockets : gmap string Z;
  v_sent : list (Z * t_package);
  v_log : list (Z * PROCESS_STATE * PROCESS_STATE) }.

Definition ident (p : t_pcb) : Z * PROCESS_STATE := (pid p, current_state p).

(** The packages a CPU gets on its dispatch socket. *)
Definition for_cpu (x : Z * t_package) : Prop :=
  opcode x.2 = Opcode.code Opcode.DISPATCH ∨ opcode x.2 = Opcode.code Opcode.CONFIRMATION.

Definition view_of {S} (k : t_kernel S) : view :=
  mk_view (ident <$> pcbs k) (lists k) (new_pid k)
    (current_process_executing <$> cpu_connections_dict k) (dispatch_socket_id <$> cpu_connections_dict k)
    (filter for_cpu (sent k)) (state_log k).

Definition v_set_list (s : PROCESS_STATE) (x : list nat) (V : view) : view :=
  mk_view (v_ident V) (set_list s x (v_lists V)) (v_new_pid V) (v_running V) (v_sockets V) (v_sent V) (v_log V).
Definition v_set_ident (a : nat) (i : Z * PROCESS_STATE) (V : view) : view :=
  mk_view (<[a := i]> (v_ident V)) (v_lists V) (v_new_pid V) (v_running V) (v_sockets V) (v_sent V) (v_log V).
Definition v_set_running (cpu : string) (x : Z) (V : view) : view :=
  mk_view (v_ident V) (v_lists V) (v_new_pid V) (<[cpu := x]> (v_running V)) (v_sockets V) (v_sent V) (v_log V).
Definition v_set_new_pid (x : Z) (V : view) : view :=
  mk_view (v_ident V) (v_lists V) x (v_running V) (v_sockets V) (v_sent V) (v_log V).
Definition v_send (socket : Z) (p : t_package) (V : view) : view :=
  mk_view (v_ident V) (v_lists V) (v_new_pid V) (v_running V) (v_sockets V) (v_sent V ++ [(socket, p)]) (v_log V).
(** The process [a] changes its state, and that is printed. *)
Definition v_change (a : nat) (i : Z * PROCESS_STATE) (V : view) : view :=
  mk_view (<[a := i]> (v_ident V)) (v_lists V) (v_new_pid V) (v_running V) (v_sockets V) (v_sent V)
    (v_log V ++ match v_ident V !! a with Some (_, s) => [(i.1, s, i.2)] | None => [] end).
Abbreviation v_list s V := (list_of s (v_lists V)).

Ltac vcbn := cbn [v_ident v_lists v_new_pid v_running v_sockets v_sent v_set_list v_set_ident v_set_running v_set_new_pid v_send v_log v_change] in *.

(** The process [a], called [p], is in the list [s]. *)
Definition in_state (V : view) (s : PROCESS_STATE) (a : nat) (p : Z) : Prop :=
  a ∈ v_list s V ∧ v_ident V !! a = Some (p, s).

Record procs_ok (V : view) (fl : list nat) : Prop := {
  p_perm : placed (v_lists V) ++ fl ≡ₚ elements (dom (v_ident V));
  p_state : ∀ s a i, a ∈ v_list s V → v_ident V !! a = Some i → i.2 = s;
  p_pids : ∀ a b i j, v_ident V !! a = Some i → v_ident V !! b = Some j → i.1 = j.1 → a = b;
  p_bound : ∀ a i, v_ident V !! a = Some i → (0 <= i.1 <= v_new_pid V)%Z;
  p_new_pid : (0 <= v_new_pid V)%Z }.

(** The process with id [p] is in EXEC. *)
Definition executing (V : view) (p : Z) : Prop := ∃ a, in_state V EXEC a p.

(** Every process in EXEC is the one some CPU runs. *)
Definition exec_ok (V : view) : Prop :=
  ∀ a p s, a ∈ v_list EXEC V → v_ident V !! a = Some (p, s) → ∃ cpu, v_running V !! cpu = Some p.

(** ** Preservation by the elementary steps *)
Lemma procs_ok_ident V fl a : procs_ok V fl → a ∈ placed (v_lists V) ++ fl → is_Some (v_ident V !! a).
Proof.
  intros H Ha. rewrite (p_perm _ _ H) in Ha. by rewrite elem_of_elements, elem_of_dom in Ha.
Qed.

Lemma procs_ok_in V fl s a :
  procs_ok V fl → a ∈ v_list s V → ∃ p, in_state V s a p.
Proof.
  intros H Ha. destruct (procs_ok_ident V fl a H) as [[p t] Hi].
  { apply elem_of_app. left. by eapply elem_of_placed. }
  pose proof (p_state _ _ H _ _ _ Ha Hi) as Ht. cbn in Ht. subst t. by exists p.
Qed.

Lemma procs_ok_nodup V fl : procs_ok V fl → NoDup (placed (v_lists V) ++ fl).
Proof. intros H. rewrite (p_perm _ _ H). apply NoDup_elements. Qed.

Lemma procs_ok_fl V fl fl' : fl ≡ₚ fl' → procs_ok V fl → procs_ok V fl'.
Proof. intros Hp []. constructor; try done. by rewrite <- Hp. Qed.

(** A list is only rearranged. *)
Lemma procs_ok_sort V fl s l : l ≡ₚ v_list s V → procs_ok V fl → procs_ok (v_set_list s l V) fl.
Proof.
  intros Hl []. constructor; vcbn; try done.
  - by rewrite placed_set, Hl, <- placed_others.
  - intros t a i. rewrite list_of_set. case_decide as E; [subst|eauto]. rewrite Hl. eauto.
Qed.

(** A process leaves a list. *)
Lemma procs_ok_take V fl s a l :
  v_list s V ≡ₚ a :: l → procs_ok V fl → procs_ok (v_set_list s l V) (a :: fl).
Proof.
  intros Hl []. constructor; vcbn; try done.
  - rewrite <- p_perm0, placed_set, (placed_others s), Hl. cbn. by rewrite Permutation_middle.
  - intros t b i. rewrite list_of_set. case_decide as E; [subst|eauto].
    intros Hb. apply p_state0. rewrite Hl. by right.
Qed.

(** A process off the lists enters one, with its new state. *)
Lemma procs_ok_put V fl s a p t :
  v_ident V !! a = Some (p, t) → procs_ok V (a :: fl) →
  procs_ok (v_set_list s (v_list s V ++ [a]) (v_set_ident a (p, s) V)) fl.
Proof.
  intros Ha Hok. pose proof (procs_ok_nodup _ _ Hok) as Hnd. destruct Hok. constructor; vcbn; try done.
  - rewrite dom_insert_lookup_L by (by rewrite Ha). rewrite <- p_perm0, placed_set, (placed_others s).
    rewrite <- !app_assoc. apply Permutation_app_head. cbn. by rewrite Permutation_middle.
  - intros u b i. rewrite list_of_set. destruct (decide (a = b)) as [<-|Hne].
    + rewrite lookup_insert_eq. intros Hb [= <-]. cbn. case_decide as E; [by subst|].
      exfalso. apply NoDup_app in Hnd as (_ & Hd & _). apply (Hd a); [|by left].
      by eapply elem_of_placed.
    + rewrite lookup_insert_ne by done. case_decide as E; [subst|eauto].
      intros [Hb|Hb%list_elem_of_singleton]%elem_of_app; [eauto | by subst].
  - intros b c i j. destruct (decide (a = b)) as [<-|H1], (decide (a = c)) as [<-|H2];
      rewrite ?lookup_insert_eq, ?lookup_insert_ne by done; try done.
    + intros [= <-] Hc. cbn. intros E. by apply (p_pids0 a c (p, t) j).
    + intros Hb [= <-]. cbn. intros E. by apply (p_pids0 b a i (p, t)).
    + apply p_pids0.
  - intros b i. destruct (decide (a = b)) as [<-|Hne];
      [rewrite lookup_insert_eq; intros [= <-]; apply (p_bound0 a (p, t) Ha)
      |rewrite lookup_insert_ne by done; apply p_bound0].
Qed.

(** The log is not looked at. *)
Lemma procs_ok_change V fl s x a i :
  procs_ok (v_set_list s x (v_change a i V)) fl ↔ procs_ok (v_set_list s x (v_set_ident a i V)) fl.
Proof. split; by intros []. Qed.

(** A new process, off the lists, with the next id. *)
Lemma procs_ok_new V fl a p :
  v_ident V !! a = None → (v_new_pid V < p)%Z → procs_ok V fl →
  procs_ok (v_set_ident a (p, NEW) (v_set_new_pid p V)) (a :: fl).
Proof.
  intros Ha Hp Hok. assert (a ∉ placed (v_lists V) ++ fl) as Hna.
  { intros Hin. destruct (procs_ok_ident _ _ _ Hok Hin). congruence. }
  destruct Hok. constructor; vcbn; try done; [| | | |lia].
  - rewrite dom_insert_L, elements_union_singleton by (by rewrite not_elem_of_dom).
    rewrite <- p_perm0. by rewrite Permutation_middle.
  - intros s b i Hb. rewrite lookup_insert_ne by (intros <-; apply Hna, elem_of_app; left; by eapply elem_of_placed).
    eauto.
  - intros b c i j. destruct (decide (a = b)) as [<-|H1], (decide (a = c)) as [<-|H2];
      rewrite ?lookup_insert_eq, ?lookup_insert_ne by done; try done.
    + intros [= <-] Hc. cbn. pose proof (p_bound0 c j Hc). lia.
    + intros Hb [= <-]. cbn. pose proof (p_bound0 b i Hb). lia.
    + apply p_pids0.
  - intros b i. destruct (decide (a = b)) as [<-|Hne];
      [rewrite lookup_insert_eq; intros [= <-]; cbn; lia
      |rewrite lookup_insert_ne by done; intros Hb; pose proof (p_bound0 b i Hb); lia].
Qed.

Lemma in_state_unique V fl s t a b p :
  procs_ok V fl → in_state V s a p → in_state V t b p → a = b.
Proof. intros H [_ Ha] [_ Hb]. by eapply (p_pids _ _ H). Qed.

Lemma exec_ok_sort V s l : l ≡ₚ v_list s V → exec_ok V → exec_ok (v_set_list s l V).
Proof.
  intros Hl H a p t. vcbn. rewrite list_of_set. case_decide as E; [subst; rewrite Hl|]; apply H.
Qed.

Lemma exec_ok_take V s a l : v_list s V ≡ₚ a :: l → exec_ok V → exec_ok (v_set_list s l V).
Proof.
  intros Hl H b p t. vcbn. rewrite list_of_set. case_decide as E; [|apply H].
  subst. intros Hb. apply H. rewrite Hl. by right.
Qed.

Lemma exec_ok_ident V a p s t :
  v_ident V !! a = Some (p, s) → exec_ok V → exec_ok (v_set_ident a (p, t) V).
Proof.
  intros Ha H b q u Hb. vcbn. destruct (decide (a = b)) as [<-|Hne].
  - rewrite lookup_insert_eq. intros [= <- <-]. by eapply H.
  - rewrite lookup_insert_ne by done. by apply H.
Qed.

Lemma exec_ok_put V s a : s ≠ EXEC → exec_ok V → exec_ok (v_set_list s (v_list s V ++ [a]) V).
Proof. intros Hs H b p t. vcbn. rewrite list_of_set. rewrite decide_False by done. apply H. Qed.

(** ** The seven states

    The edges along which the program moves a process: those of the textbook,
    and three for what goes wrong.  A process that memory refuses to suspend
    goes back to BLOCKED, and a blocked or suspended one ends when its device
    disconnects (a blocked one also when its dump fails). *)
Inductive transition : PROCESS_STATE → PROCESS_STATE → Prop :=
  | admit_process : transition NEW READY
  | dispatch_process : transition READY EXEC
  | preempt_process : transition EXEC READY
  | block_process : transition EXEC BLOCKED
  | finish_process : transition EXEC EXIT_L
  | wake_process : transition BLOCKED READY
  | suspend_process : transition BLOCKED SUSP_BLOCKED
  | finish_blocked : transition BLOCKED EXIT_L
  | wake_suspended : transition SUSP_BLOCKED SUSP_READY
  | restore_process : transition SUSP_BLOCKED BLOCKED
  | finish_suspended : transition SUSP_BLOCKED EXIT_L
  | resume_process : transition SUSP_READY READY.
#[export] Hint Constructors transition : core.

(** [l] is a path along the edges. *)
Fixpoint path (s : PROCESS_STATE) (l : list (PROCESS_STATE * PROCESS_STATE)) (t : PROCESS_STATE) : Prop :=
  match l with
  | [] => s = t
  | (u, v) :: l => u = s ∧ transition u v ∧ path v l t
  end.

(** What a log says about the process [p]. *)
Definition history (p : Z) (l : list (Z * PROCESS_STATE * PROCESS_STATE)) : list (PROCESS_STATE * PROCESS_STATE) :=
  omap (λ x, if decide (x.1.1 = p) then Some (x.1.2, x.2) else None) l.

Lemma path_app s l t l' u : path s l t → path t l' u → path s (l ++ l') u.
Proof.
  revert s. induction l as [|[v w] l IH]; intros s; cbn; [by intros ->|]. intros (-> & Hvw & Hl) Hl'. auto.
Qed.
Lemma history_app p l l' : history p (l ++ l') = history p l ++ history p l'.
Proof. apply omap_app. Qed.
Lemma path_rtc s l t : path s l t → rtc transition s t.
Proof.
  revert s. induction l as [|[v w] l IH]; intros s; cbn; [by intros ->|]. intros (-> & Hvw & Hl).
  eapply rtc_l; [exact Hvw | by apply IH].
Qed.

(** No process vanishes or changes its id; every change of state that is
    printed is an edge, and those of a process lead from its old state to the
    new one. *)
Definition moves (V V' : view) : Prop := ∃ l,
  v_log V' = v_log V ++ l ∧ Forall (λ x, transition x.1.2 x.2) l ∧
  ∀ a p s, v_ident V !! a = Some (p, s) → ∃ t, v_ident V' !! a = Some (p, t) ∧ path s (history p l) t.

#[export] Instance moves_preorder : PreOrder moves.
Proof.
  split.
  - intros V. exists []. rewrite app_nil_r. split_and!; [done..|]. intros a p s Ha. by exists s.
  - intros V V' V'' (l & Hl & Hf & H) (l' & Hl' & Hf' & H'). exists (l ++ l').
    split; [by rewrite Hl', Hl, app_assoc|]. split; [by apply Forall_app|].
    intros a p s Ha. destruct (H a p s Ha) as (t & Ht & Hst). destruct (H' a p t Ht) as (u & Hu & Htu).
    exists u. split; [done|]. rewrite history_app. by eapply path_app.
Qed.

Lemma moves_change V a p s t :
  v_ident V !! a = Some (p, s) → (∀ b i, v_ident V !! b = Some i → i.1 = p → b = a) → transition s t →
  moves V (v_change a (p, t) V).
Proof.
  intros Ha Hone Hst. exists [(p, s, t)]. vcbn. rewrite Ha. split; [done|]. split; [by apply Forall_singleton|].
  intros b q u Hb. destruct (decide (a = b)) as [<-|Hne].
  - exists t. rewrite lookup_insert_eq. assert (q = p ∧ u = s) as [-> ->] by (split; congruence).
    split; [done|]. cbn. by rewrite decide_True.
  - exists u. rewrite lookup_insert_ne by done. split; [done|]. cbn. rewrite decide_False; [done|].
    intros ->. by destruct (Hne (eq_sym (Hone b (q, u) Hb eq_refl))).
Qed.

Lemma moves_new V a i : v_ident V !! a = None → moves V (v_set_ident a i V).
Proof.
  intros Ha. exists []. vcbn. rewrite app_nil_r. split_and!; [done..|]. intros b q u Hb. exists u.
  rewrite lookup_insert_ne by congruence. by split.
Qed.

(** What the edges allow over time. *)
Lemma exit_is_final t : rtc transition EXIT_L t → t = EXIT_L.
Proof. intros H. by inversion H as [|? u ? Hu]; [|inversion Hu]. Qed.

Lemma never_new_again s t : rtc transition s t → t = NEW → s = NEW.
Proof. induction 1 as [|s u t Hu _ IH]; [done|]. intros ->. specialize (IH eq_refl). subst u. inversion Hu. Qed.

(** ** What happens to the CPUs

    The moves in which a handler changes what is in EXEC, what the CPUs are
    marked with and what they are sent; a [license] says which of them a
    handler may make. *)
Record license := { may_leave : view → Z → Prop; may_confirm : Prop; may_preempt : Prop }.

Inductive cpu_move (lic : license) (V V' : view) : Prop :=
  | nothing_moves :
      (∀ q, executing V' q ↔ executing V q) → v_running V' = v_running V →
      v_sockets V' = v_sockets V → v_sent V' = v_sent V → cpu_move lic V V'
  | leaves_exec p :
      may_leave lic V p → (∀ q, executing V' q ↔ executing V q ∧ q ≠ p) → v_running V' = v_running V →
      v_sockets V' = v_sockets V → v_sent V' = v_sent V → cpu_move lic V V'
  | is_freed cpu y :
      v_running V !! cpu = Some y → ¬ executing V y → (∀ q, executing V' q ↔ executing V q) →
      v_running V' = <[cpu := (-1)%Z]> (v_running V) →
      v_sockets V' = v_sockets V → v_sent V' = v_sent V → cpu_move lic V V'
  | is_dispatched cpu y socket p n package :
      v_running V !! cpu = Some y → may_preempt lic ∨ ¬ executing V y → ¬ executing V p →
      v_sockets V !! cpu = Some socket → create_dispatch_package p n = Ok package →
      (∀ q, executing V' q ↔ executing V q ∨ q = p) → v_running V' = <[cpu := p]> (v_running V) →
      v_sockets V' = v_sockets V → v_sent V' = v_sent V ++ [(socket, package)] → cpu_move lic V V'
  | is_confirmed socket package :
      may_confirm lic → create_confirmation_package true = Ok package →
      (∀ q, executing V' q ↔ executing V q) → v_running V' = v_running V →
      v_sockets V' = v_sockets V → v_sent V' = v_sent V ++ [(socket, package)] → cpu_move lic V V'.

Lemma executing_sort V s l q : l ≡ₚ v_list s V → executing (v_set_list s l V) q ↔ executing V q.
Proof.
  intros Hl. unfold executing, in_state. vcbn. rewrite list_of_set. case_decide as E; [subst s|done].
  by setoid_rewrite Hl.
Qed.

(** A process moves from the list [s] to another one than EXEC. *)
Lemma executing_move V s t a p l q :
  procs_ok V [] → in_state V s a p → v_list s V ≡ₚ a :: l → t ≠ EXEC →
  executing (v_set_list t (v_list t (v_set_list s l V) ++ [a]) (v_change a (p, t) (v_set_list s l V))) q
  ↔ executing V q ∧ (s = EXEC → q ≠ p).
Proof.
  intros Hp [Ha Hi] Hl Ht. unfold executing, in_state. vcbn. rewrite (list_of_set_ne EXEC) by done. split.
  - intros (b & Hb & Hbi). destruct (decide (a = b)) as [<-|Hne]; [rewrite lookup_insert_eq in Hbi; congruence|].
    rewrite lookup_insert_ne in Hbi by done. split.
    + exists b. split; [|done]. rewrite list_of_set in Hb. case_decide as E; [subst s; rewrite Hl; by right | done].
    + intros -> ->. apply Hne. by apply (p_pids _ _ Hp _ _ _ _ Hi Hbi).
  - intros ((b & Hb & Hbi) & Hq). assert (a ≠ b) as Hne.
    { intros <-. assert (s = EXEC ∧ p = q) as [-> ->] by (split; congruence). by apply Hq. }
    exists b. rewrite lookup_insert_ne by done. split; [|done].
    rewrite list_of_set. case_decide as E; [subst s|done]. rewrite Hl in Hb. set_solver.
Qed.

Lemma executing_dispatch V a p l q :
  procs_ok V [] → in_state V READY a p → v_list READY V ≡ₚ a :: l →
  let W := v_set_list READY l V in
  executing (v_set_list EXEC (v_list EXEC W ++ [a]) (v_change a (p, EXEC) W)) q ↔ executing V q ∨ q = p.
Proof.
  intros Hp [Ha Hi] Hl W. unfold executing, in_state, W. vcbn. rewrite list_of_set_eq, (list_of_set_ne EXEC) by done.
  setoid_rewrite elem_of_app. setoid_rewrite list_elem_of_singleton. split.
  - intros (b & [Hb| ->] & Hbi); [|rewrite lookup_insert_eq in Hbi; right; congruence].
    left. exists b. destruct (decide (a = b)) as [<-|Hne].
    + exfalso. pose proof (p_state _ _ Hp _ _ _ Hb Hi) as E. discriminate E.
    + by rewrite lookup_insert_ne in Hbi.
  - intros [(b & Hb & Hbi)| ->].
    + exists b. rewrite lookup_insert_ne by congruence. auto.
    + exists a. rewrite lookup_insert_eq. auto.
Qed.

Lemma in_state_not_executing V a p s : procs_ok V [] → in_state V s a p → s ≠ EXEC → ¬ executing V p.
Proof.
  intros Hp Ha Hs (b & Hb). assert (a = b) as <- by by eapply in_state_unique. destruct Ha, Hb. congruence.
Qed.
