(* ===== verification/KernelLogic.v ===== *)
(** * A logic for the handlers of the kernel

    [safe m Q k]: run from [k], [m] gives a result and a state that satisfy
    [Q], or the kernel dies, but not of a deadlock with itself nor of a loop
    that does not end.  [inv] is the invariant with the semaphores held at
    the moment; the rules of this file follow the repositories and the steps
    of the handlers one by one. *)
From S2P Require Import Prelude Text Commons Enums Buffer Package Packages Config Semaphores Pcb.
From S2P Require Import Kernel Scheduler KernelInvariant.
From Stdlib Require Import Permutation.
Import Buffer Package ProcessState.

Definition good_crash (c : crash) : Prop := c ≠ Deadlock ∧ c ≠ OutOfFuel.

(** What the kernel asks of the memory module. *)
Definition kernel_requests : list Opcode.OPCODE :=
  [Opcode.INIT_PROCESS; Opcode.KILL_PROCESS; Opcode.C_DUMP_MEMORY; Opcode.SWAP; Opcode.UNSUSPEND_PROCESS].

Definition kernel_request (p : t_package) : Prop := ∃ o, o ∈ kernel_requests ∧ opcode p = Opcode.code o.

(** What the kernel relies on: a memory module in a [steady] state answers
    these requests, or dies but does not hang, and stays steady. *)
Class SteadyServer (S : Type) {MS : MemoryServer S} := {
  steady : S → Prop;
  serve_steady : ∀ p s, kernel_request p → steady s →
    match serve p s with Ok (_, s') => steady s' | Crash c => good_crash c end }.

(** No request of any client takes it out of its steady states. *)
Class SharedServer (S : Type) {MS : MemoryServer S} {Steady : SteadyServer S} :=
  serve_shared : ∀ p s r s', steady s → serve p s = Ok (r, s') → steady s'.

(** ** Computations that cannot hang *)
Definition quiet {A} (r : res A) : Prop := ∀ c, r = Crash c → good_crash c.
Definition quiet_m {S A} (m : M S A) : Prop := ∀ s, quiet (m s).

Create HintDb quiet discriminated.

Lemma quiet_bind {A B} (r : res A) (f : A → res B) : quiet r → (∀ a, quiet (f a)) → quiet (r ≫= f).
Proof. intros Hr Hf c. destruct r; cbn; [apply Hf | intros [= <-]; by apply Hr]. Qed.
Lemma quiet_ok {A} (a : A) : quiet (Ok a).
Proof. by intros c. Qed.

Lemma quiet_crash {A} c : good_crash c → quiet (A := A) (Crash c).
Proof. by intros Hc d [= <-]. Qed.

Lemma quiet_m_bind {S A B} (m : M S A) (f : A → M S B) :
  quiet_m m → (∀ a, quiet_m (f a)) → quiet_m (m ≫= f).
Proof.
  intros Hm Hf s c. unfold mbind, M_bind. destruct (m s) as [[a s']|] eqn:E; [apply Hf|].
  intros [= <-]. by apply (Hm s).
Qed.
Lemma quiet_m_ret {S A} (a : A) : quiet_m (S := S) (mret a).
Proof. by intros s c. Qed.
Lemma quiet_m_lift {S A} (r : res A) : quiet r → quiet_m (S := S) (lift_res r).
Proof. intros Hr s c. unfold lift_res. destruct r; [done|]. intros [= <-]. by apply Hr. Qed.
Lemma quiet_m_crash {S A} c : good_crash c → quiet_m (S := S) (A := A) (crash_with c).
Proof. intros Hc s d [= <-]. done. Qed.
Lemma quiet_m_gets {S A} (f : S → A) : quiet_m (gets f).
Proof. by intros s c. Qed.
Lemma quiet_m_get {S} : quiet_m (S := S) get.
Proof. by intros s c. Qed.
Lemma quiet_m_put {S} (s : S) : quiet_m (put s).
Proof. by intros t c. Qed.
Lemma quiet_m_modify {S} (f : S → S) : quiet_m (modify f).
Proof. by intros t c. Qed.

Ltac quiet_step :=
  first
    [ done | split; done
    | apply quiet_bind; [|intros] | apply quiet_ok | apply quiet_crash | apply quiet_m_bind; [|intros]
    | apply quiet_m_ret | apply quiet_m_lift | apply quiet_m_crash | apply quiet_m_gets
    | apply quiet_m_get | apply quiet_m_put | apply quiet_m_modify
    | match goal with
      | |- quiet_m (if ?b then _ else _) => destruct b
      | |- quiet (if ?b then _ else _) => destruct b
      | |- quiet_m (match ?x with _ => _ end) => destruct x
      | |- quiet (match ?x with _ => _ end) => destruct x
      | |- quiet_m (let '(_, _) := ?x in _) => destruct x
      | |- good_crash _ => by split
      end ].
Ltac quiet := repeat quiet_step.

Section Packages.
Lemma quiet_add data n : quiet_m (buffer_add data n).
Proof. unfold buffer_add. quiet. Qed.
Lemma quiet_read n : quiet_m (buffer_read n).
Proof. unfold buffer_read. quiet. Qed.
Lemma quiet_read_int32 : quiet_m buffer_read_int32.
Proof. unfold buffer_read_int32. apply quiet_m_bind; [apply quiet_read|]. intros. quiet. Qed.
Lemma quiet_read_string : quiet_m buffer_read_string.
Proof.
  unfold buffer_read_string, buffer_read_block.
  apply quiet_m_bind; [apply quiet_read_int32|]. intros n.
  apply quiet_m_bind; [|intros; quiet].
  destruct (decide _); [quiet|]. apply quiet_m_bind; [apply quiet_read|]. intros. quiet.
Qed.
Lemma quiet_as_cstr bs : quiet (as_cstr bs).
Proof. unfold as_cstr. quiet. Qed.
Lemma quiet_read_with {A} (m : M t_buffer A) p : quiet_m m → quiet (read_with m p).
Proof.
  intros Hm c. unfold read_with. destruct (m (buffer p)) as [[]|] eqn:E; [done|].
  intros [= <-]. by apply (Hm (buffer p)).
Qed.
Lemma quiet_build n adds code : quiet_m adds → quiet (build n adds code).
Proof.
  intros Ha. unfold build, buffer_create. quiet.
Qed.
End Packages.

Ltac quiet_package :=
  repeat first [ apply quiet_read_with | apply quiet_build | apply quiet_add | apply quiet_read_int32
               | apply quiet_read_string | apply quiet_as_cstr
               | progress unfold buffer_add_int32, buffer_add_string, rewind | quiet_step ].

Lemma quiet_create_init_process p n s : quiet (create_init_process_package p n s).
Proof. unfold create_init_process_package. quiet_package. Qed.
Lemma quiet_create_kill_process p : quiet (create_kill_process_package p).
Proof. unfold create_kill_process_package. quiet_package. Qed.
Lemma quiet_create_dump_memory p : quiet (create_dump_memory_package p).
Proof. unfold create_dump_memory_package. quiet_package. Qed.
Lemma quiet_send_swap p : quiet (send_swap_package p).
Proof. unfold send_swap_package, create_swap_operation_package. quiet_package. Qed.
Lemma quiet_send_swap_in p : quiet (send_swap_in_package p).
Proof. unfold send_swap_in_package, create_swap_operation_package. quiet_package. Qed.
Lemma quiet_create_interrupt p : quiet (create_interrupt_package p).
Proof. unfold create_interrupt_package. quiet_package. Qed.
Lemma quiet_create_dispatch p n : quiet (create_dispatch_package p n).
Proof. unfold create_dispatch_package. quiet_package. Qed.
Lemma quiet_create_io_operation p n : quiet (create_io_operation_package p n).
Proof. unfold create_io_operation_package. quiet_package. Qed.
Lemma quiet_create_confirmation b : quiet (create_confirmation_package b).
Proof. unfold create_confirmation_package. quiet_package. Qed.
Lemma quiet_read_confirmation p : quiet (read_with read_confirmation_package p).
Proof. unfold read_confirmation_package. quiet_package. Qed.
Lemma quiet_read_cpu_context p : quiet (read_with read_cpu_context_package p).
Proof. unfold read_cpu_context_package. quiet_package. Qed.
Lemma quiet_read_new_io p : quiet (read_with read_new_io_package p).
Proof. unfold read_new_io_package. quiet_package. Qed.
Lemma quiet_read_io_completion p : quiet (read_with read_io_completion_package p).
Proof. unfold read_io_completion_package. quiet_package. Qed.
Lemma quiet_read_syscall p : quiet (read_with read_syscall_package p).
Proof. unfold read_syscall_package. quiet_package. Qed.
#[export] Hint Resolve quiet_create_init_process quiet_create_kill_process quiet_create_dump_memory
  quiet_send_swap quiet_send_swap_in quiet_create_interrupt quiet_create_dispatch
  quiet_create_io_operation quiet_create_confirmation quiet_read_confirmation
  quiet_read_cpu_context quiet_read_new_io quiet_read_io_completion quiet_read_syscall : quiet.

(** Each creation function sets the operation code. *)
Lemma build_opcode size adds code p : build size adds code = Ok p → opcode p = code.
Proof.
  unfold build. destruct (buffer_create size) as [b|]; [|done]. cbn.
  destruct (adds b) as [[u b']|]; [|done]. by intros [= <-].
Qed.

Lemma build_request size adds o p :
  build size adds (Opcode.code o) = Ok p → o ∈ kernel_requests → kernel_request p.
Proof. intros Hb%build_opcode Ho. by exists o. Qed.

(** ** The invariant *)

(** The semaphores there are: one for each list and dictionary, one for each
    CPU and one for each queue of requests ([D]). *)
Definition known (V : view) (D : gset string) (s : k_sem) : Prop :=
  match s with
  | sem_cpu_connected => False
  | sem_cpu_exec id => is_Some (v_running V !! id)
  | sem_io_requests_queue d => d ∈ D
  | _ => True
  end.

Definition expected (held : list k_sem) (s : k_sem) : Z := if decide (s ∈ held) then 0 else 1.

(** What a CPU may answer to an interrupt, if it answers: that the process
    was still running there. *)
Definition same_pid_answer (x : option t_package) : Prop :=
  match x with
  | None => True
  | Some p => ∀ c, read_with read_cpu_context_package p = Ok c → interrupted_same_pid c = 0%Z
  end.

(** With [exact] the counters are what [held] says; without it a semaphore
    may have been posted more often than it was taken. *)
Record inv {S} {MS : MemoryServer S} {St : SteadyServer S} (exact : bool) (V : view) (D : gset string) (held : list k_sem) (k : t_kernel S) : Prop := {
  i_view : view_of k = V;
  i_requests : dom (io_requests_link_dict k) = D;
  i_sems : ∀ s, known V D s →
    ∃ v, k_sems k !! s = Some v ∧ (expected held s <= v)%Z ∧ (exact = true → v = expected held s);
  i_answers : exact = true → Forall same_pid_answer (interrupt_answers k);
  i_memory : steady (k_memory k) }.

Definition safe {S A} (m : M S A) (Q : A → S → Prop) (k : S) : Prop :=
  match m k with Ok (a, k') => Q a k' | Crash c => good_crash c end.

Section Rules.
Context {S A B : Type}.

Lemma safe_bind (m : M S A) (f : A → M S B) Q k :
  safe m (λ a, safe (f a) Q) k → safe (m ≫= f) Q k.
Proof. unfold safe, mbind, M_bind. by destruct (m k) as [[a k']|]. Qed.

Lemma safe_ret (a : A) (Q : A → S → Prop) k : Q a k → safe (mret a) Q k.
Proof. done. Qed.

Lemma safe_gets (f : S → A) (Q : A → S → Prop) k : Q (f k) k → safe (gets f) Q k.
Proof. done. Qed.

Lemma safe_deref (o : option A) (Q : A → S → Prop) k :
  (∀ a, o = Some a → Q a k) → safe (deref o) Q k.
Proof. destruct o; intros HQ; [by apply HQ | by split]. Qed.

Lemma safe_lift (r : res A) (Q : A → S → Prop) k :
  quiet r → (∀ a, r = Ok a → Q a k) → safe (lift_res r) Q k.
Proof. unfold safe, lift_res. destruct r; intros Hr HQ; [by apply HQ | by apply Hr]. Qed.

Lemma safe_mono (m : M S A) (P Q : A → S → Prop) k :
  safe m P k → (∀ a k', P a k' → Q a k') → safe m Q k.
Proof. unfold safe. destruct (m k) as [[a k']|]; eauto. Qed.

Lemma safe_run (m : M S A) Q k a k' : safe m Q k → m k = Ok (a, k') → Q a k'.
Proof. unfold safe. intros H E. by rewrite E in H. Qed.
End Rules.

Section Inv.
Context {S : Type} {MS : MemoryServer S} {St : SteadyServer S}.
Implicit Types k : t_kernel S.

Lemma expected_held held s : s ∈ held → expected held s = 0%Z.
Proof. intros. unfold expected. by rewrite decide_True. Qed.
Lemma expected_free held s : s ∉ held → expected held s = 1%Z.
Proof. intros. unfold expected. by rewrite decide_False. Qed.

Lemma expected_cons held s t : t ≠ s → expected (s :: held) t = expected held t.
Proof. intros. unfold expected. apply decide_ext. set_solver. Qed.

(** A step that changes the view, but not which CPUs there are. *)
Lemma inv_view exact V V' D held k k' :
  inv exact V D held k → dom (v_running V') = dom (v_running V) → view_of k' = V' →
  io_requests_link_dict k' = io_requests_link_dict k → k_sems k' = k_sems k →
  interrupt_answers k' = interrupt_answers k → k_memory k' = k_memory k → inv exact V' D held k'.
Proof.
  intros [] Hd Hv Hr Hs Ha Hm. constructor; [done | congruence | | by rewrite Ha | by rewrite Hm].
  intros s Hk. rewrite Hs. apply i_sems0.
  destruct s; try done. cbn in *. rewrite <- elem_of_dom. rewrite <- Hd. by rewrite elem_of_dom.
Qed.

(** Two states that differ in nothing the invariant looks at. *)
Record same k k' : Prop := {
  s_view : view_of k' = view_of k;
  s_requests : dom (io_requests_link_dict k') = dom (io_requests_link_dict k);
  s_sems : k_sems k' = k_sems k;
  s_answers : interrupt_answers k' = interrupt_answers k;
  s_memory : steady (k_memory k) → steady (k_memory k') }.

#[export] Instance same_preorder : PreOrder same.
Proof. split; [done|]. intros k k' k'' [] []. constructor; [congruence..|]. auto. Qed.

Lemma inv_same exact V D held k k' : same k k' → inv exact V D held k → inv exact V D held k'.
Proof.
  intros [] []. constructor; [congruence | congruence | | by rewrite s_answers0 | auto].
  intros s Hs. rewrite s_sems0. by apply i_sems0.
Qed.

(** A step that neither hangs nor touches what the invariant looks at. *)
Definition neutral {A} (m : M (t_kernel S) A) : Prop :=
  ∀ k, steady (k_memory k) → safe m (λ _ k', same k k') k.

Lemma neutral_bind {A B} (m : M (t_kernel S) A) (f : A → M (t_kernel S) B) :
  neutral m → (∀ a, neutral (f a)) → neutral (m ≫= f).
Proof.
  intros Hm Hf k Hk. apply safe_bind. eapply safe_mono; [by apply Hm|]. intros a k' H.
  eapply safe_mono; [apply Hf; by apply H|]. cbn. intros _ k'' H'. exact (transitivity H H').
Qed.
Lemma neutral_ret {A} (a : A) : neutral (mret a).
Proof. intros k _. by apply safe_ret. Qed.
Lemma neutral_gets {A} (f : t_kernel S → A) : neutral (gets f).
Proof. by intros k. Qed.
Lemma neutral_lift {A} (r : res A) : quiet r → neutral (lift_res r).
Proof. intros Hr k _. unfold safe, lift_res. destruct r; [done|]. by apply Hr. Qed.
Lemma neutral_lift_bind {A B} (r : res A) (f : A → M (t_kernel S) B) :
  quiet r → (∀ a, r = Ok a → neutral (f a)) → neutral (lift_res r ≫= f).
Proof.
  intros Hr Hf k Hk. apply safe_bind, safe_lift; [done|]. intros a Ha. by apply Hf.
Qed.
Lemma neutral_deref {A} (o : option A) : neutral (deref o).
Proof. intros k _. destruct o; [done|]. by split. Qed.
Lemma neutral_crash {A} c : good_crash c → neutral (A := A) (crash_with c).
Proof. by intros Hc k. Qed.
Lemma neutral_modify (f : t_kernel S → t_kernel S) : (∀ k, same k (f k)) → neutral (modify f).
Proof. intros Hf k _. apply Hf. Qed.

Lemma safe_neutral {A} (m : M (t_kernel S) A) exact V D held Q k :
  neutral m → inv exact V D held k → (∀ a k', inv exact V D held k' → Q a k') → safe m Q k.
Proof.
  intros Hm Hk HQ. eapply safe_mono; [apply Hm; by apply Hk|]. cbn. intros a k' H. apply HQ. by eapply inv_same.
Qed.

Lemma same_store k a p p' :
  pcbs k !! a = Some p → ident p' = ident p → same k (set_pcbs (<[a := p']> (pcbs k)) k).
Proof.
  intros Ha Hi. constructor; try done. unfold view_of. cbn. f_equal.
  rewrite fmap_insert, Hi. apply insert_id. by rewrite lookup_fmap, Ha.
Qed.
End Inv.

Create HintDb neutral discriminated.
#[export] Hint Resolve neutral_ret neutral_gets neutral_deref : neutral.

Ltac neutral_step :=
  first
    [ solve [eauto with neutral] | apply neutral_bind; [|intros]
    | apply neutral_modify; done
    | apply neutral_lift; solve [eauto with quiet] | apply neutral_crash; by split
    | match goal with
      | |- neutral (if ?b then _ else _) => destruct b
      | |- neutral (match ?x with _ => _ end) => destruct x
      | |- neutral (let '(_, _) := ?x in _) => destruct x
      end ].
Ltac neutral := repeat neutral_step.
