(* ===== verification/KernelRules.v ===== *)
(** * Rules for the repositories of the kernel

    The steps that leave the invariant's view alone ([neutral]), and one rule
    for each that does not: locks, lists, PCBs, CPU connections. *)
From S2P Require Import Prelude Text Commons Enums Buffer Package Packages Config Semaphores Pcb.
From S2P Require Import Kernel Scheduler KernelInvariant KernelLogic.
From Stdlib Require Import Permutation.
Import Buffer Package ProcessState.

Section Neutral.
Context {C : CommonsOps} {CL : CommonsLaws C} {Srv : Type} {MS : MemoryServer Srv} {Env : KernelEnv Srv}.
Context {Steady : SteadyServer Srv}.
Local Abbreviation K := (M (t_kernel Srv)).

(** ** Time and PCBs *)
Lemma neutral_get_current_time_ms : neutral (get_current_time_ms : K Z).
Proof.
  unfold get_current_time_ms. neutral.
Qed.
Hint Resolve neutral_get_current_time_ms : neutral.

Lemma neutral_total_time_ms t : neutral (total_time_ms t : K Z).
Proof. unfold total_time_ms. neutral. Qed.

Lemma neutral_load_pcb a : neutral (load_pcb a : K t_pcb).
Proof. unfold load_pcb. neutral. Qed.
Hint Resolve neutral_total_time_ms neutral_load_pcb : neutral.

Lemma neutral_update_pcb a f : (∀ p, ident (f p) = ident p) → neutral (update_pcb a f : K unit).
Proof.
  intros Hf k _. unfold update_pcb, load_pcb, safe. step.
  destruct (pcbs k !! a) as [p|] eqn:Ha; [|by split]. unfold store_pcb. step. by eapply same_store.
Qed.

Lemma ident_with_pc x p : ident (with_pc x p) = ident p.
Proof. done. Qed.
Lemma ident_with_burst x p : ident (with_burst x p) = ident p.
Proof. unfold ident. by rewrite with_burst_pid, with_burst_state. Qed.
Lemma ident_with_estimate x p : ident (with_estimate x p) = ident p.
Proof. unfold ident. by rewrite with_estimate_pid, with_estimate_state. Qed.
Lemma ident_with_exec_time x p : ident (with_exec_time x p) = ident p.
Proof. unfold ident. by rewrite with_exec_time_pid, with_exec_time_state. Qed.
Lemma ident_with_exit_time x p : ident (with_exit_time x p) = ident p.
Proof. unfold ident. by rewrite with_exit_time_pid, with_exit_time_state. Qed.

Lemma neutral_update_pc a x : neutral (update_pcb a (with_pc x) : K unit).
Proof. apply neutral_update_pcb, ident_with_pc. Qed.
Lemma neutral_update_burst a x : neutral (update_pcb a (with_burst x) : K unit).
Proof. apply neutral_update_pcb, ident_with_burst. Qed.
Lemma neutral_update_exec a x : neutral (update_pcb a (with_exec_time x) : K unit).
Proof. apply neutral_update_pcb, ident_with_exec_time. Qed.
Lemma neutral_update_exit a x : neutral (update_pcb a (with_exit_time x) : K unit).
Proof. apply neutral_update_pcb, ident_with_exit_time. Qed.
Hint Resolve neutral_update_pc neutral_update_burst neutral_update_exec neutral_update_exit : neutral.

(** ** Lists, read *)
Lemma neutral_get_list s : neutral (get_list s : K (list nat)).
Proof. unfold get_list. neutral. Qed.
Hint Resolve neutral_get_list : neutral.

(** ** Connections and queues *)
Lemma neutral_load_cpu cpu : neutral (load_cpu cpu : K t_cpu_connection).
Proof. unfold load_cpu. neutral. Qed.
Lemma neutral_load_io io : neutral (load_io io : K t_io_connection).
Proof. unfold load_io. neutral. Qed.
Lemma neutral_load_queue q : neutral (load_queue q : K (list t_io_request)).
Proof. unfold load_queue. neutral. Qed.
Hint Resolve neutral_load_cpu neutral_load_io neutral_load_queue : neutral.

Lemma neutral_set_io_executing io x : neutral (set_io_executing io x : K unit).
Proof. unfold set_io_executing. neutral. Qed.
Lemma neutral_create_io_connection socket name : neutral (create_io_connection socket name : K unit).
Proof. unfold create_io_connection. neutral. Qed.
Lemma neutral_delete_io_connection socket : neutral (delete_io_connection socket : K unit).
Proof. unfold delete_io_connection. neutral. Qed.
Lemma neutral_find_io socket : neutral (find_io_connection_by_socket socket : K (option string)).
Proof. unfold find_io_connection_by_socket. neutral. Qed.
Lemma neutral_status name : neutral (get_io_connection_status_by_device_name name : K t_io_connection_status).
Proof. unfold get_io_connection_status_by_device_name. neutral. Qed.
Lemma neutral_cpu_by_pid p : neutral (get_cpu_connection_by_pid p : K (option string)).
Proof. unfold get_cpu_connection_by_pid, get_all_cpu_connections. neutral. Qed.
Lemma neutral_cpu_by_id id : neutral (get_cpu_connection_by_id id : K (option t_cpu_connection)).
Proof. unfold get_cpu_connection_by_id. neutral. Qed.
Hint Resolve neutral_set_io_executing neutral_create_io_connection neutral_delete_io_connection
  neutral_find_io neutral_status neutral_cpu_by_pid neutral_cpu_by_id : neutral.

(** A queue that is there is replaced. *)
Lemma neutral_requeue {A} name (f : list t_io_request → A * list t_io_request) :
  neutral (q ← load_queue name; let '(r, q) := f q in store_queue name q;; mret r : K A).
Proof.
  intros k _. unfold load_queue, safe. step. destruct (io_requests_link_dict k !! name) as [q|] eqn:Hq; [|by split].
  unfold store_queue. step. destruct (f q) as [r q']. constructor; try done. cbn.
  by rewrite dom_insert_lookup_L.
Qed.

Lemma neutral_create_request name p t : neutral (create_io_request_element name p t : K unit).
Proof.
  intros k Hk. pose proof (neutral_requeue name (λ q, (tt, queue_push q (mk_io_request p t))) k Hk) as H.
  unfold create_io_request_element, safe in *. step_in H. step.
  destruct (load_queue name k) as [[q k']|]; [|done]. exact H.
Qed.

Lemma neutral_next_request name : neutral (get_next_request_in_queue name : K (option t_io_request)).
Proof. unfold get_next_request_in_queue. neutral. Qed.

Lemma neutral_pop_request name : neutral (pop_next_request_in_queue name : K (option t_io_request)).
Proof.
  intros k Hk. unfold pop_next_request_in_queue, safe.
  destruct (io_requests_link_dict k !! name) as [q|] eqn:Hq.
  - assert (load_queue name k = Ok (q, k)) as E by (unfold load_queue; step; by rewrite Hq).
    rewrite (M_bind_ok _ _ _ _ _ E). pose proof (neutral_requeue name queue_pop k Hk) as H.
    unfold safe in H. rewrite (M_bind_ok _ _ _ _ _ E) in H. case_decide; [by apply (neutral_ret (A := option t_io_request) None k) | exact H].
  - assert (load_queue name k = Crash NullDeref) as E by (unfold load_queue; step; by rewrite Hq).
    rewrite (M_bind_crash _ _ _ _ E). by split.
Qed.
Hint Resolve neutral_create_request neutral_next_request neutral_pop_request : neutral.

(** ** Memory, sockets and threads *)
Lemma neutral_ask r :
  quiet r → (∀ p, r = Ok p → kernel_request p) → neutral (ask r : K (option t_package)).
Proof.
  intros Hr Hq. unfold ask. apply neutral_lift_bind; [done|]. intros p Hp k Hk.
  unfold safe, zoom. pose proof (serve_steady p (k_memory k) (Hq p Hp) Hk) as Hs.
  by destruct (serve p (k_memory k)) as [[a s]|c].
Qed.

Lemma neutral_connect : neutral (connect_to_memory : K bool).
Proof. unfold connect_to_memory. neutral. Qed.
Hint Resolve neutral_connect : neutral.

Lemma neutral_ask_init p n s : neutral (ask (create_init_process_package p n s) : K (option t_package)).
Proof. apply neutral_ask; [auto with quiet|]. intros q Hq. eapply build_request; [exact Hq | set_solver]. Qed.
Lemma neutral_ask_kill p : neutral (ask (create_kill_process_package p) : K (option t_package)).
Proof. apply neutral_ask; [auto with quiet|]. intros q Hq. eapply build_request; [exact Hq | set_solver]. Qed.
Lemma neutral_ask_dump p : neutral (ask (create_dump_memory_package p) : K (option t_package)).
Proof. apply neutral_ask; [auto with quiet|]. intros q Hq. eapply build_request; [exact Hq | set_solver]. Qed.
Lemma neutral_ask_swap p : neutral (ask (send_swap_package p) : K (option t_package)).
Proof. apply neutral_ask; [auto with quiet|]. intros q Hq. eapply build_request; [exact Hq | set_solver]. Qed.
Lemma neutral_ask_swap_in p : neutral (ask (send_swap_in_package p) : K (option t_package)).
Proof. apply neutral_ask; [auto with quiet|]. intros q Hq. eapply build_request; [exact Hq | set_solver]. Qed.
Hint Resolve neutral_ask_init neutral_ask_kill neutral_ask_dump neutral_ask_swap neutral_ask_swap_in : neutral.

Lemma neutral_create_process p n s : neutral (create_process p n s : K bool).
Proof. unfold create_process. neutral. Qed.
Lemma neutral_kill p : neutral (kill_process_in_memory p : K bool).
Proof. unfold kill_process_in_memory. neutral. Qed.
Lemma neutral_dump p : neutral (dump_memory_routine p : K bool).
Proof. unfold dump_memory_routine. neutral. Qed.
Lemma neutral_swap_out p n : neutral (swap_out p n : K bool).
Proof. unfold swap_out. neutral. Qed.

(** What is not meant for a CPU is not in the view. *)
Lemma neutral_send_to socket r code :
  quiet r → (∀ p, r = Ok p → opcode p = Opcode.code code) →
  code ≠ Opcode.DISPATCH → code ≠ Opcode.CONFIRMATION → neutral (send_to socket r : K bool).
Proof.
  intros Hr Hc H1 H2. unfold send_to. apply neutral_lift_bind; [done|]. intros p Hp. apply neutral_bind; [|neutral].
  apply neutral_modify. intros k. constructor; try done. unfold view_of. cbn. f_equal.
  rewrite filter_app, filter_cons_False, filter_nil, app_nil_r; [done|].
  unfold for_cpu. cbn [snd]. rewrite (Hc p Hp). by intros [E|E]; apply Opcode.code_inj in E.
Qed.
Lemma neutral_send_interrupt socket p : neutral (send_to socket (create_interrupt_package p) : K bool).
Proof. eapply neutral_send_to; [auto with quiet | apply build_opcode | done | done]. Qed.
Lemma neutral_send_io socket p n : neutral (send_to socket (create_io_operation_package p n) : K bool).
Proof. eapply neutral_send_to; [auto with quiet | apply build_opcode | done | done]. Qed.
Lemma neutral_pthread_create t : neutral (pthread_create t : K unit).
Proof. unfold pthread_create. neutral. Qed.

(** ** Comparisons *)
Context (kernel_config : t_kernel_config).

Lemma neutral_reestimate a : neutral (reestimate kernel_config a : K Z).
Proof.
  intros k _. unfold reestimate, load_pcb, safe. step. destruct (pcbs k !! a) as [p|] eqn:Ha; [|by split].
  unfold store_pcb. step. destruct (next_estimate (alpha kernel_config) _ _); [|by split].
  eapply same_store; [done | apply ident_with_estimate].
Qed.
Hint Resolve neutral_reestimate : neutral.

Lemma neutral_estimate_of a : neutral (estimate_of a : K Z).
Proof. unfold estimate_of. neutral. Qed.
Hint Resolve neutral_estimate_of : neutral.

Lemma neutral_compare_bursts a b : neutral (compare_cpu_bursts kernel_config a b : K bool).
Proof. unfold compare_cpu_bursts. neutral. Qed.
Lemma neutral_compare_SRT a b : neutral (compare_cpu_bursts_SRT kernel_config a b : K bool).
Proof. unfold compare_cpu_bursts_SRT. neutral. Qed.
Lemma neutral_compare_size a b : neutral (compare_process_size a b : K bool).
Proof. unfold compare_process_size. neutral. Qed.
End Neutral.

#[export] Hint Resolve neutral_get_current_time_ms neutral_total_time_ms neutral_load_pcb
  neutral_update_pc neutral_update_burst neutral_update_exec neutral_update_exit neutral_get_list
  neutral_load_cpu neutral_load_io neutral_load_queue neutral_set_io_executing
  neutral_create_io_connection neutral_delete_io_connection neutral_find_io neutral_status
  neutral_cpu_by_pid neutral_cpu_by_id neutral_create_request neutral_next_request
  neutral_pop_request neutral_connect neutral_ask_init neutral_ask_kill neutral_ask_dump
  neutral_ask_swap neutral_ask_swap_in neutral_create_process neutral_kill neutral_dump
  neutral_swap_out neutral_send_interrupt neutral_send_io neutral_pthread_create neutral_reestimate neutral_estimate_of
  neutral_compare_bursts neutral_compare_SRT neutral_compare_size : neutral.
