(* ===== verification/KernelSteps.v ===== *)
(** * Rules for the steps that the kernel's invariant sees

    One rule per operation of Kernel.v on locks, lists, PCBs and CPU
    connections: from a state with view [V] and the semaphores [held], what
    view and which semaphores it leaves. *)
From S2P Require Import Prelude Text Commons Enums Buffer Package Packages Config Semaphores Pcb.
From S2P Require Import Kernel Scheduler KernelInvariant KernelLogic KernelRules.
From Stdlib Require Import Permutation.
Import Buffer Package ProcessState.

(** The semaphores that are left, for the tactic that follows an unlock. *)
Ltac without s l :=
  lazymatch l with
  | s :: ?l => l
  | ?t :: ?l => let l' := without s l in constr:(t :: l')
  end.

Section Steps.
Context {C : CommonsOps} {CL : CommonsLaws C} {Srv : Type} {MS : MemoryServer Srv} {Env : KernelEnv Srv}.
Context {Steady : SteadyServer Srv} (exact : bool).
Implicit Types (V : view) (D : gset string) (held : list k_sem) (k : t_kernel Srv).
Local Abbreviation inv := (inv exact).

(** ** Locks *)
Lemma inv_set_sem V D held held' k s x :
  inv V D held k → (∀ t, t ≠ s → expected held' t = expected held t) →
  (expected held' s <= x)%Z → (exact = true → x = expected held' s) →
  inv V D held' (set_k_sems (<[s := x]> (k_sems k)) k).
Proof.
  intros [] Ht Hx He. constructor; try done. intros t Hk. cbn. destruct (decide (s = t)) as [<-|Hne].
  - exists x. by rewrite lookup_insert_eq.
  - rewrite lookup_insert_ne, Ht by done. by apply i_sems.
Qed.

Lemma safe_lock s V D held k (Q : unit → t_kernel Srv → Prop) :
  inv V D held k → known V D s → s ∉ held → (∀ k', inv V D (s :: held) k' → Q tt k') →
  safe (lock s) Q k.
Proof.
  intros Hk Hs Hh HQ. unfold safe, lock, on_k_sems, sem_wait. step.
  destruct (i_sems _ _ _ _ _ Hk s Hs) as (v & Hv & Hle & He). rewrite expected_free in Hle, He by done.
  rewrite Hv. rewrite decide_True by lia. apply HQ. eapply inv_set_sem; [done | intros; by apply expected_cons| |].
  - rewrite expected_held by by left. lia.
  - intros Hx. rewrite expected_held by by left. specialize (He Hx). lia.
Qed.

Lemma safe_unlock s held' V D held k (Q : unit → t_kernel Srv → Prop) :
  inv V D held k → known V D s → s ∈ held → (∀ t, t ∈ held' ↔ t ∈ held ∧ t ≠ s) →
  (∀ k', inv V D held' k' → Q tt k') → safe (unlock s) Q k.
Proof.
  intros Hk Hs Hh Hh' HQ. unfold safe, unlock, on_k_sems, sem_post. step.
  destruct (i_sems _ _ _ _ _ Hk s Hs) as (v & Hv & Hle & He). rewrite expected_held in Hle, He by done.
  rewrite Hv. apply HQ.
  assert (s ∉ held') as Hn by (rewrite Hh'; tauto).
  eapply inv_set_sem; [done | | |].
  - intros t Ht. unfold expected. apply decide_ext. rewrite Hh'. tauto.
  - rewrite expected_free by done. lia.
  - intros Hx. rewrite expected_free by done. specialize (He Hx). lia.
Qed.

(** An unlock of what is not held: only when the counters may be too high. *)
Lemma safe_unlock_free s V D held k (Q : unit → t_kernel Srv → Prop) :
  exact = false → inv V D held k → known V D s → (∀ k', inv V D held k' → Q tt k') →
  safe (unlock s) Q k.
Proof.
  intros Hx Hk Hs HQ. unfold safe, unlock, on_k_sems, sem_post. step.
  destruct (i_sems _ _ _ _ _ Hk s Hs) as (v & Hv & Hle & He). rewrite Hv. apply HQ.
  eapply inv_set_sem; [done | done | lia | congruence].
Qed.

(** ** PCBs *)
Lemma has_pid_true p (h : gmap nat t_pcb) a :
  has_pid p h a = true ↔ ∃ s, (ident <$> h) !! a = Some (p, s).
Proof.
  unfold has_pid. rewrite lookup_fmap. destruct (h !! a) as [q|]; cbn; [|by split; [|intros [? ?]]].
  rewrite bool_decide_eq_true. unfold ident. split; [intros <-; eauto | naive_solver].
Qed.

Lemma inv_ident V D held k : inv V D held k → ident <$> pcbs k = v_ident V.
Proof. by intros [<-]. Qed.
Lemma inv_lists V D held k : inv V D held k → lists k = v_lists V.
Proof. by intros [<-]. Qed.
Lemma inv_running V D held k : inv V D held k → current_process_executing <$> cpu_connections_dict k = v_running V.
Proof. by intros [<-]. Qed.

Lemma safe_load_pcb a i V D held k Q :
  inv V D held k → v_ident V !! a = Some i → (∀ p, ident p = i → Q p k) → safe (load_pcb a) Q k.
Proof.
  intros Hk Ha HQ. rewrite <- (inv_ident _ _ _ _ Hk), lookup_fmap in Ha.
  destruct (pcbs k !! a) as [p|] eqn:Hp; [|done]. injection Ha as Ha.
  unfold safe, load_pcb. step. rewrite Hp. by apply HQ.
Qed.

(** ** Lists *)
Lemma inv_put_list V D held k s l :
  inv V D held k → inv (v_set_list s l V) D held (set_lists (set_list s l (lists k)) k).
Proof.
  intros Hk. eapply inv_view; [done..| |done|done|done|done]. by destruct Hk as [<- _ _ _ _].
Qed.

Lemma inv_put_list_same V D held k s l :
  inv V D held k → l = v_list s V → inv V D held (set_lists (set_list s l (lists k)) k).
Proof.
  intros Hk ->. rewrite <- (inv_lists _ _ _ _ Hk), set_list_id. by destruct Hk, k.
Qed.

Lemma find_has_pid V fl D held k s p i :
  inv V D held k → procs_ok V fl → list_find (list_of s (lists k)) (has_pid p (pcbs k)) = Some i →
  ∃ a, list_of s (lists k) !! i = Some a ∧ in_state V s a p.
Proof.
  intros Hk Hp Hf. destruct (list_find_lookup _ _ _ Hf) as (a & Ha & Hh & _).
  apply has_pid_true in Hh as [t Ht]. rewrite (inv_ident _ _ _ _ Hk) in Ht.
  exists a. split; [done|]. pose proof (list_elem_of_lookup_2 _ _ _ Ha) as Hin.
  rewrite (inv_lists _ _ _ _ Hk) in Hin. split; [done|]. rewrite Ht. do 2 f_equal.
  by apply (p_state _ _ Hp _ _ _ Hin Ht).
Qed.

Lemma not_has_pid V D held k s p a :
  inv V D held k → (∀ b, b ∈ list_of s (lists k) → has_pid p (pcbs k) b = false) → ¬ in_state V s a p.
Proof.
  intros Hk Hf [Ha Hi]. rewrite (inv_lists _ _ _ _ Hk) in Hf. specialize (Hf a Ha).
  assert (has_pid p (pcbs k) a = true); [|congruence].
  apply has_pid_true. rewrite (inv_ident _ _ _ _ Hk). eauto.
Qed.

Lemma safe_find_pcb_in s p V fl D held k (Q : option nat → t_kernel Srv → Prop) :
  inv V D held k → procs_ok V fl →
  (∀ a, in_state V s a p → Q (Some a) k) → ((∀ a, ¬ in_state V s a p) → Q None k) →
  safe (find_pcb_in s p) Q k.
Proof.
  intros Hk Hp HS HN. unfold safe, find_pcb_in, get_list. step.
  destruct (list_find _ _) as [i|] eqn:E.
  - destruct (find_has_pid _ _ _ _ _ _ _ _ Hk Hp E) as (a & Ha & Hin). rewrite Ha. by apply HS.
  - apply HN. intros a. eapply not_has_pid; [done|]. intros b Hb. by eapply list_find_not.
Qed.

Lemma safe_find_pcb_in_new p V fl D held k (Q : bool → t_kernel Srv → Prop) :
  inv V D held k → procs_ok V fl → (∀ a, ¬ in_state V NEW a p) → Q false k →
  safe (find_pcb_in_new p) Q k.
Proof.
  intros Hk Hp Hn HQ. unfold safe, find_pcb_in_new, get_list. step.
  destruct (existsb _ _) eqn:E; [|done]. exfalso.
  apply existsb_exists in E as (a & Ha & Hh). apply list_elem_of_In in Ha.
  rewrite (inv_lists _ _ _ _ Hk) in Ha.
  destruct (procs_ok_in _ _ _ _ Hp Ha) as [q Hq]. apply has_pid_true in Hh as [t Ht].
  rewrite (inv_ident _ _ _ _ Hk) in Ht. destruct Hq as [_ Hq].
  apply (Hn a). split; [done|]. congruence.
Qed.

Lemma safe_remove_pcb_from s p V fl D held k (Q : option nat → t_kernel Srv → Prop) :
  inv V D held k → procs_ok V fl →
  (∀ a l k', in_state V s a p → v_list s V ≡ₚ a :: l → inv (v_set_list s l V) D held k' → Q (Some a) k') →
  (∀ k', (∀ a, ¬ in_state V s a p) → inv V D held k' → Q None k') →
  safe (remove_pcb_from s p) Q k.
Proof.
  intros Hk Hp HS HN. unfold safe, remove_pcb_from, get_list. step.
  destruct (list_remove_by_condition _ _) as [[a|] l] eqn:E.
  - apply list_remove_by_condition_Some in E as (Hh & i & Hi & -> & Hperm).
    pose proof (list_elem_of_lookup_2 _ _ _ Hi) as Hin. rewrite (inv_lists _ _ _ _ Hk) in Hperm, Hin.
    apply has_pid_true in Hh as [t Ht]. rewrite (inv_ident _ _ _ _ Hk) in Ht.
    pose proof (p_state _ _ Hp _ _ _ Hin Ht) as Hs. cbn in Hs. subst t.
    cbv beta iota. unfold put_list. step. apply (HS a (delete i (list_of s (lists k)))); [by split | |by apply inv_put_list].
    by rewrite (inv_lists _ _ _ _ Hk).
  - apply list_remove_by_condition_None in E as [-> Hh]. cbv beta iota. unfold put_list. step.
    apply HN; [intros a; by eapply not_has_pid|]. apply inv_put_list_same; [done|].
    by rewrite (inv_lists _ _ _ _ Hk).
Qed.

(** Removing a process that is known to be there. *)
Lemma safe_remove_known s a p V fl D held k (Q : option nat → t_kernel Srv → Prop) :
  inv V D held k → procs_ok V fl → in_state V s a p →
  (∀ l k', v_list s V ≡ₚ a :: l → inv (v_set_list s l V) D held k' → Q (Some a) k') →
  safe (remove_pcb_from s p) Q k.
Proof.
  intros Hk Hp Ha HQ. eapply safe_remove_pcb_from; [done..| |].
  - intros b l k' Hb. rewrite (in_state_unique _ _ _ _ _ _ _ Hp Hb Ha). apply HQ.
  - intros k' Hn. by destruct (Hn a).
Qed.

Lemma safe_get_next_pcb_from s V D held k (Q : option nat → t_kernel Srv → Prop) :
  inv V D held k → (∀ a, a ∈ v_list s V → Q (Some a) k) → (v_list s V = [] → Q None k) →
  safe (get_next_pcb_from s) Q k.
Proof.
  intros Hk HS HN. unfold safe, get_next_pcb_from, get_list. step. commons.
  rewrite (inv_lists _ _ _ _ Hk). case_decide as E; step.
  - apply HN. unfold zlen in E. destruct (v_list s V); [done|]. cbn in E. lia.
  - destruct (v_list s V) as [|a l] eqn:El; [done|]. apply HS. by left.
Qed.

Lemma view_set_ident V D held k a p :
  inv V D held k → is_Some (v_ident V !! a) →
  inv (v_set_ident a (ident p) V) D held (set_pcbs (<[a := p]> (pcbs k)) k).
Proof.
  intros Hk Ha. eapply inv_view; [done..| |done|done|done|done].
  destruct Hk as [<- _ _ _ _]. unfold view_of, v_set_ident. cbn. by rewrite fmap_insert.
Qed.

Lemma v_set_ident_id V a i : v_ident V !! a = Some i → v_set_ident a i V = V.
Proof. intros Ha. unfold v_set_ident. rewrite insert_id by done. by destruct V. Qed.

(** A change of state is printed and then made. *)
Definition v_logged (x : Z * PROCESS_STATE * PROCESS_STATE) (V : view) : view :=
  mk_view (v_ident V) (v_lists V) (v_new_pid V) (v_running V) (v_sockets V) (v_sent V) (v_log V ++ [x]).

Lemma inv_logged V D held k x :
  inv V D held k → inv (v_logged x V) D held (set_state_log (state_log k ++ [x]) k).
Proof.
  intros Hk. eapply inv_view; [done..| |done|done|done|done]. by destruct Hk as [<- _ _ _ _].
Qed.

Lemma v_change_logged V a p t s :
  v_ident V !! a = Some (p, t) → v_change a (p, s) V = v_set_ident a (p, s) (v_logged (p, t, s) V).
Proof. intros Ha. unfold v_change, v_set_ident, v_logged. cbn. by rewrite Ha. Qed.

Lemma safe_pcb_change_state a p t s V D held k (Q : unit → t_kernel Srv → Prop) :
  inv V D held k → v_ident V !! a = Some (p, t) →
  (∀ k', inv (v_change a (p, s) V) D held k' → Q tt k') →
  safe (pcb_change_state (Some a) s) Q k.
Proof.
  intros Hk Ha HQ. unfold pcb_change_state. apply safe_bind. eapply safe_load_pcb; [done..|].
  intros q Hq. injection Hq as Hp Ht. apply safe_bind. eapply safe_neutral; [eauto with neutral | done |]. intros e k1 H1.
  apply safe_bind. unfold safe at 1. step. rewrite Hp, Ht.
  apply (inv_logged _ _ _ _ (p, t, s)) in H1.
  apply safe_bind. eapply safe_neutral; [eauto with neutral | exact H1 |]. intros now k2 H2.
  unfold safe, store_pcb. step. apply HQ. rewrite (v_change_logged V a p t s) by done.
  replace (p, s) with (ident (change_state e now s q)) by (unfold ident; cbn; congruence).
  apply view_set_ident; [done | by eexists].
Qed.

Lemma safe_add_pcb_to s a p t V D held k (Q : unit → t_kernel Srv → Prop) :
  inv V D held k → v_ident V !! a = Some (p, t) →
  (∀ k', inv (v_set_list s (v_list s V ++ [a]) (v_change a (p, s) V)) D held k' → Q tt k') →
  safe (add_pcb_to s (Some a)) Q k.
Proof.
  intros Hk Ha HQ. unfold add_pcb_to. apply safe_bind. eapply safe_pcb_change_state; [done..|].
  intros k1 H1. unfold safe, get_list, put_list. step. apply HQ. commons.
  rewrite (inv_lists _ _ _ _ H1) at 1. vcbn. by apply inv_put_list.
Qed.

Lemma safe_remove_pcb_from_exec p V fl D held k (Q : option nat → t_kernel Srv → Prop) :
  inv V D held k → procs_ok V fl →
  (∀ a l k', in_state V EXEC a p → v_list EXEC V ≡ₚ a :: l → inv (v_set_list EXEC l V) D held k' → Q (Some a) k') →
  (∀ k', (∀ a, ¬ in_state V EXEC a p) → inv V D held k' → Q None k') →
  safe (remove_pcb_from_exec p) Q k.
Proof.
  intros Hk Hp HS HN. unfold remove_pcb_from_exec. apply safe_bind.
  eapply safe_remove_pcb_from; [done..| |].
  - intros a l k1 Ha Hl H1. cbv beta iota.
    assert (v_ident (v_set_list EXEC l V) !! a = Some (p, EXEC)) as Hi by apply Ha.
    apply safe_bind. eapply safe_load_pcb; [done..|]. intros q Hq.
    apply safe_bind. eapply safe_neutral; [eauto with neutral | done |]. intros t k2 H2.
    apply safe_bind. unfold safe, store_pcb. step. apply (HS a l); [done..|].
    erewrite <- (v_set_ident_id (v_set_list EXEC l V)) by done. rewrite <- Hq, <- (ident_with_burst t).
    apply view_set_ident; [done | by eexists].
  - intros k1 Hn H1. by apply HN.
Qed.

(** ** Sorting *)
Lemma safe_sort_list s f V D held k (Q : unit → t_kernel Srv → Prop) :
  inv V D held k → (∀ a b, neutral (f a b)) →
  (∀ l k', l ≡ₚ v_list s V → inv (v_set_list s l V) D held k' → Q tt k') →
  safe (sort_list s f) Q k.
Proof.
  intros Hk Hf HQ. unfold safe, sort_list.
  pose proof (list_sort_perm _ _ (comparator f) (list_of s (lists k)) (Ok k)) as Hp.
  set (I (r : res (t_kernel Srv)) := match r with Ok k' => same k k' | Crash c => good_crash c end).
  assert (steady (k_memory k)) as Hm by apply Hk.
  assert (I (list_sort (comparator f) (list_of s (lists k)) (Ok k)).2) as HI.
  { apply (list_sort_inv _ _ _ I); [|unfold I; reflexivity]. unfold I. intros a b [k1|c] _ _ Hr; [|done]. unfold comparator.
    specialize (Hf a b k1 (s_memory _ _ Hr Hm)). unfold safe in Hf. destruct (f a b k1) as [[x k2]|c]; [|done].
    cbn in *. exact (transitivity Hr Hf). }
  destruct (list_sort _ _ _) as [l [k'|c]]; cbn in Hp, HI; [|done].
  unfold put_list. step. apply (HQ l).
  - by rewrite Hp, (inv_lists _ _ _ _ Hk).
  - apply inv_put_list. by eapply inv_same.
Qed.

(** ** CPUs *)
Lemma find_entry_Some {A} (d : gmap string A) p key :
  find_entry (entries d) p = Some key → ∃ c, d !! key = Some c ∧ p c = true.
Proof.
  unfold find_entry. destruct (list_find _ _) as [i|] eqn:E; [|done].
  apply list_find_lookup in E as ([key' c] & Hi & Hp & _). rewrite Hi. cbn. intros [= ->].
  exists c. split; [|done]. apply elem_of_map_to_list. rewrite <- dictionary_elements_spec.
  by eapply list_elem_of_lookup_2.
Qed.

Lemma find_entry_None {A} (d : gmap string A) p key c :
  find_entry (entries d) p = None → d !! key = Some c → p c = false.
Proof.
  unfold find_entry. destruct (list_find _ _) as [i|] eqn:E.
  - apply list_find_lookup in E as ([key' c'] & Hi & _). by rewrite Hi.
  - intros _ Hc. apply (list_find_not _ (λ e : string * A, p e.2) (key, c) E). unfold entries.
    rewrite dictionary_elements_spec. by apply elem_of_map_to_list.
Qed.

Lemma entries_elem {A} (d : gmap string A) key c : (key, c) ∈ entries d ↔ d !! key = Some c.
Proof. unfold entries. rewrite dictionary_elements_spec. apply elem_of_map_to_list. Qed.

Lemma running_lookup V D held k cpu c :
  inv V D held k → cpu_connections_dict k !! cpu = Some c →
  v_running V !! cpu = Some (current_process_executing c).
Proof. intros Hk Hc. by rewrite <- (inv_running _ _ _ _ Hk), lookup_fmap, Hc. Qed.

Lemma safe_load_cpu cpu x V D held k (Q : t_cpu_connection → t_kernel Srv → Prop) :
  inv V D held k → v_running V !! cpu = Some x →
  (∀ c, current_process_executing c = x → Q c k) → safe (load_cpu cpu) Q k.
Proof.
  intros Hk Hx HQ. rewrite <- (inv_running _ _ _ _ Hk), lookup_fmap in Hx.
  destruct (cpu_connections_dict k !! cpu) as [c|] eqn:Hc; [|done]. injection Hx as Hx.
  unfold safe, load_cpu. step. rewrite Hc. by apply HQ.
Qed.

Lemma safe_set_executing cpu x y V D held k (Q : unit → t_kernel Srv → Prop) :
  inv V D held k → v_running V !! cpu = Some y →
  (∀ k', inv (v_set_running cpu x V) D held k' → Q tt k') → safe (set_executing cpu x) Q k.
Proof.
  intros Hk Hy HQ. pose proof Hy as Hd. rewrite <- (inv_running _ _ _ _ Hk), lookup_fmap in Hd.
  destruct (cpu_connections_dict k !! cpu) as [c|] eqn:Hc; [|done].
  unfold set_executing. apply safe_bind. unfold safe at 1, load_cpu. step. rewrite Hc.
  unfold safe. step. apply HQ. eapply inv_view; [done | | |done|done|done|done].
  - cbn. by rewrite dom_insert_lookup_L.
  - unfold view_of, v_set_running. destruct Hk as [<- _ _ _ _]. cbn. rewrite !fmap_insert. f_equal. apply insert_id.
    by rewrite lookup_fmap, Hc.
Qed.

(** ** What is sent to a CPU *)
Lemma safe_send_to socket r code V D held k (Q : bool → t_kernel Srv → Prop) :
  inv V D held k → quiet r → (∀ p, r = Ok p → opcode p = Opcode.code code) →
  code = Opcode.DISPATCH ∨ code = Opcode.CONFIRMATION →
  (∀ p b k', r = Ok p → inv (v_send socket p V) D held k' → Q b k') → safe (send_to socket r) Q k.
Proof.
  intros Hk Hr Hc Hcpu HQ. unfold send_to. apply safe_bind, safe_lift; [done|]. intros p Hp.
  apply safe_bind. unfold safe at 1. step. apply safe_ret. apply (HQ p); [done|].
  eapply inv_view; [exact Hk | done | |done|done|done|done]. destruct Hk as [<- _ _ _ _].
  unfold view_of, v_send. cbn. f_equal.
  rewrite filter_app, filter_cons_True, filter_nil; [done|].
  unfold for_cpu. cbn [snd]. rewrite (Hc p Hp). destruct Hcpu as [-> | ->]; auto.
Qed.

Lemma socket_lookup V D held k cpu c :
  inv V D held k → cpu_connections_dict k !! cpu = Some c → v_sockets V !! cpu = Some (dispatch_socket_id c).
Proof. intros [<-] Hc. cbn. by rewrite lookup_fmap, Hc. Qed.

Lemma safe_send_dispatch cpu x p n V D held k (Q : bool → t_kernel Srv → Prop) :
  inv V D held k → v_running V !! cpu = Some x →
  (∀ socket package b k', v_sockets V !! cpu = Some socket → create_dispatch_package p n = Ok package →
     inv (v_send socket package V) D held k' → Q b k') →
  safe (send_dispatch_to_cpu cpu p n) Q k.
Proof.
  intros Hk Hx HQ. rewrite <- (inv_running _ _ _ _ Hk), lookup_fmap in Hx.
  destruct (cpu_connections_dict k !! cpu) as [c|] eqn:Hc; [|done].
  unfold send_dispatch_to_cpu. apply safe_bind. unfold safe at 1, load_cpu. step. rewrite Hc.
  eapply safe_send_to; [exact Hk | auto with quiet | apply build_opcode | by left |].
  intros package b k' Hp Hk'. eapply HQ; [by eapply socket_lookup | exact Hp | exact Hk'].
Qed.

(** ** New processes *)
Lemma safe_set_new_pid f V D held k (Q : unit → t_kernel Srv → Prop) :
  inv V D held k → (∀ k', inv (v_set_new_pid (f (v_new_pid V)) V) D held k' → Q tt k') →
  safe (modify (λ k, set_new_pid (f (new_pid k)) k)) Q k.
Proof.
  intros Hk HQ. unfold safe. step. apply HQ. eapply inv_view; [done..| |done|done|done|done].
  by destruct Hk as [<- _ _ _ _].
Qed.

Lemma safe_pcb_create config p x n file V D held k (Q : nat → t_kernel Srv → Prop) :
  inv V D held k →
  (∀ a k', v_ident V !! a = None → inv (v_set_ident a (p, NEW) V) D held k' → Q a k') →
  safe (pcb_create config p x n file) Q k.
Proof.
  intros Hk HQ. unfold pcb_create. apply safe_bind. unfold safe at 1. step.
  apply safe_bind. eapply safe_neutral; [eauto with neutral | done |]. intros now k1 H1.
  apply safe_bind. unfold safe at 1, store_pcb. step. unfold safe. step. apply HQ.
  - rewrite <- (inv_ident _ _ _ _ Hk), lookup_fmap. apply fmap_None, not_elem_of_dom, is_fresh.
  - eapply inv_view; [done..| |done|done|done|done]. destruct H1 as [<- _ _ _ _].
    unfold view_of, v_set_ident. cbn. by rewrite fmap_insert.
Qed.

Lemma safe_add_pcb_to_new a V D held k (Q : unit → t_kernel Srv → Prop) :
  inv V D held k → (∀ k', inv (v_set_list NEW (v_list NEW V ++ [a]) V) D held k' → Q tt k') →
  safe (add_pcb_to_new (Some a)) Q k.
Proof.
  intros Hk HQ. unfold safe, add_pcb_to_new, get_list, put_list. step. apply HQ. commons.
  rewrite (inv_lists _ _ _ _ Hk) at 1. by apply inv_put_list.
Qed.

(** ** Answers *)
Lemma safe_recv_answer V D held k (Q : option t_package → t_kernel Srv → Prop) :
  inv V D held k → (∀ x k', inv V D held k' → (exact = true → same_pid_answer x) → Q x k') →
  safe recv_answer Q k.
Proof.
  intros Hk HQ. unfold safe, recv_answer. step. destruct (interrupt_answers k) as [|x l] eqn:E; cbn.
  - by apply HQ.
  - destruct Hk. apply HQ.
    + constructor; try done. intros Hx. specialize (i_answers Hx). rewrite E in i_answers.
      by inversion i_answers.
    + intros Hx. specialize (i_answers Hx). rewrite E in i_answers. by inversion i_answers.
Qed.
End Steps.
