(* ===== verification/SchedulerSafety.v ===== *)
(** * The schedulers keep the invariant

    Each scheduler, run from a state that satisfies the invariant, ends in
    one that does, with the semaphores it found held and no other. *)
From S2P Require Import Prelude Text Commons Enums Buffer Package Packages Config Semaphores Pcb.
From S2P Require Import Kernel Scheduler KernelInvariant KernelLogic KernelRules KernelSteps.
From Stdlib Require Import Permutation.
Import Buffer Package ProcessState.

Create HintDb locks discriminated.
#[export] Hint Unfold lock_new_list unlock_new_list lock_ready_list unlock_ready_list lock_exec_list
  unlock_exec_list lock_blocked_list unlock_blocked_list lock_susp_blocked_list
  unlock_susp_blocked_list lock_susp_ready_list unlock_susp_ready_list lock_exit_list
  unlock_exit_list lock_io_connections unlock_io_connections lock_io_requests_link
  unlock_io_requests_link lock_io_requests_queue unlock_io_requests_queue lock_cpu_connections
  unlock_cpu_connections lock_cpu unlock_cpu : locks.

(** The processes are in order, and those in EXEC are on CPUs. *)
Definition good (exact : bool) (V : view) (fl : list nat) : Prop :=
  procs_ok V fl ∧ (exact = true → exec_ok V).

(** What the view of a running kernel keeps, and how the CPUs moved. *)
Record evolves (lic : license) (V V' : view) : Prop := {
  e_cpus : dom (v_running V') = dom (v_running V);
  e_pids : v_new_pid V' = v_new_pid V;
  e_moves : moves V V';
  e_cpu_moves : rtc (cpu_move lic) V V' }.

#[export] Instance evolves_preorder lic : PreOrder (evolves lic).
Proof. split; [done|]. intros V V' V'' [] []. constructor; [congruence..| |]; by etrans. Qed.

(** What may be held when a scheduler is called. *)
Definition io_only (held : list k_sem) : Prop := ∀ s, s ∈ held → s = sem_io_connections.

Definition settled {S A} {MS : MemoryServer S} {St : SteadyServer S} (exact : bool) (lic : license) (V : view)
    (D : gset string) (held : list k_sem) (fl : list nat) (_ : A) (k : t_kernel S) : Prop :=
  ∃ V', inv exact V' D held k ∧ good exact V' fl ∧ evolves lic V V'.

Lemma known_evolves lic V V' D s : evolves lic V V' → known V D s → known V' D s.
Proof.
  intros [Hd _ _ _]. destruct s; cbn; try done. rewrite <- !elem_of_dom. by rewrite Hd.
Qed.

Lemma evolves_cpu lic V V' cpu : evolves lic V V' → is_Some (v_running V !! cpu) → is_Some (v_running V' !! cpu).
Proof. intros [Hd _ _ _]. rewrite <- !elem_of_dom. by rewrite Hd. Qed.

Lemma moves_same V V' : v_ident V' = v_ident V → v_log V' = v_log V → moves V V'.
Proof. intros E L. exists []. rewrite app_nil_r. split_and!; [done..|]. intros a p s Ha. exists s. by rewrite E. Qed.

(** A process that is in a list changes its state. *)
Lemma moves_in_state V W s t a p :
  procs_ok V [] → v_ident W = v_ident V → v_log W = v_log V → in_state V s a p → transition s t →
  moves V (v_change a (p, t) W).
Proof.
  intros Hp Hi Hl Ha Hst. etrans; [by apply (moves_same V W)|]. apply (moves_change W a p s t); [rewrite Hi; apply Ha | | done].
  intros b i. rewrite Hi. intros Hb Hbp. by apply (p_pids _ _ Hp _ _ i (p, s) Hb); [apply Ha|].
Qed.

(** One move more. *)
Lemma evolves_step lic V0 V V' :
  cpu_move lic V V' → dom (v_running V') = dom (v_running V) → v_new_pid V' = v_new_pid V → moves V V' →
  evolves lic V0 V → evolves lic V0 V'.
Proof. intros Hc Hd Hp Hm He. etrans; [exact He|]. constructor; [done | done | done | by apply rtc_once]. Qed.

Lemma evolves_sort lic V V0 s l :
  l ≡ₚ v_list s V → evolves lic V0 V → evolves lic V0 (v_set_list s l V).
Proof.
  intros Hl. apply evolves_step; [|done|done|by apply moves_same].
  apply nothing_moves; [|done..]. intros q. by apply executing_sort.
Qed.

Lemma evolves_move lic V V0 s t a p l :
  procs_ok V [] → in_state V s a p → v_list s V ≡ₚ a :: l → transition s t → t ≠ EXEC →
  (s = EXEC → may_leave lic V p) → evolves lic V0 V →
  evolves lic V0 (v_set_list t (v_list t (v_set_list s l V) ++ [a]) (v_change a (p, t) (v_set_list s l V))).
Proof.
  intros Hp Ha Hl Hst Ht Hm. pose proof (executing_move V s t a p l) as Hx.
  apply evolves_step; [|done|done|by apply (moves_in_state V (v_set_list s l V) s)].
  destruct (decide (s = EXEC)) as [->|Hs].
  - apply (leaves_exec _ _ _ p); [by apply Hm | |done..]. intros q. rewrite Hx by done. tauto.
  - apply nothing_moves; [|done..]. intros q. rewrite Hx by done. tauto.
Qed.

Lemma evolves_free lic V V0 cpu y :
  v_running V !! cpu = Some y → ¬ executing V y → evolves lic V0 V → evolves lic V0 (v_set_running cpu (-1) V).
Proof.
  intros Hy Hn. apply evolves_step; [|by cbn; rewrite dom_insert_lookup_L|done|by apply moves_same].
  by eapply is_freed.
Qed.

Lemma good_sort exact V fl s l : l ≡ₚ v_list s V → good exact V fl → good exact (v_set_list s l V) fl.
Proof.
  intros Hl [Hp He]. split; [by apply procs_ok_sort|]. intros Hx. apply exec_ok_sort; auto.
Qed.

Lemma good_take exact V fl s a l :
  v_list s V ≡ₚ a :: l → good exact V fl → good exact (v_set_list s l V) (a :: fl).
Proof.
  intros Hl [Hp He]. split; [by apply procs_ok_take|]. intros Hx. eapply exec_ok_take; eauto.
Qed.

Lemma good_put exact V fl s a p t :
  v_ident V !! a = Some (p, t) → s ≠ EXEC → good exact V (a :: fl) →
  good exact (v_set_list s (v_list s V ++ [a]) (v_change a (p, s) V)) fl.
Proof.
  intros Ha Hs [Hp He]. split; [by eapply procs_ok_change, procs_ok_put|]. intros Hx.
  apply (exec_ok_put (v_set_ident a (p, s) V)); [done|]. eapply exec_ok_ident; [done|]. auto.
Qed.

(** ** Tactics *)
Ltac notin :=
  let Hin := fresh "Hin" in
  intros Hin; repeat (apply elem_of_cons in Hin as [Hin|Hin]; [discriminate Hin|]);
  first [ by apply not_elem_of_nil in Hin
        | match goal with H : io_only _ |- _ => apply H in Hin; discriminate Hin end ].

Ltac isin := repeat first [ by left | right ].

Ltac rest_of_held :=
  let t := fresh "t" in
  let Hin' := fresh "Hin" in
  intros t; rewrite ?elem_of_cons, ?elem_of_nil; split;
  [ intros Hin'; split; [tauto|]; intros ->;
    repeat match goal with H : _ ∨ _ |- _ => destruct H as [H|H]; [discriminate H|] end;
    first [ done | match goal with H : io_only _, H' : _ ∈ _ |- _ => apply H in H'; discriminate H' end
          | match goal with H : _ = _ |- _ => discriminate H end ]
  | tauto ].

Ltac known := first [ exact I | eassumption | eapply known_evolves; eassumption | by eauto ].

(** Forget what held of earlier states. *)
Ltac tidy :=
  lazymatch goal with
  | |- safe _ _ ?k =>
      repeat match goal with
        | H : inv _ _ _ _ ?k' |- _ => lazymatch k' with k => fail | _ => clear H end
        end
  end.

Ltac go := cbv beta iota; tidy; match goal with |- safe (_ ≫= _) _ _ => apply safe_bind | _ => idtac end.

Ltac do_lock :=
  go;
  match goal with
  | H : inv _ _ _ _ ?k |- safe (lock _) _ ?k =>
      eapply safe_lock; [exact H | known | notin | clear H];
      let k' := fresh "st" in let H' := fresh "Hst" in intros k' H'
  end.

Ltac do_unlock :=
  go;
  match goal with
  | H : inv _ _ _ ?held ?k |- safe (unlock ?s) _ ?k =>
      let l := without s held in
      eapply (safe_unlock _ s l); [exact H | known | isin | rest_of_held | clear H];
      let k' := fresh "st" in let H' := fresh "Hst" in intros k' H'
  end.

Ltac do_neutral :=
  go;
  match goal with
  | H : inv _ _ _ _ ?k |- safe _ _ ?k =>
      eapply safe_neutral; [solve [neutral] | exact H | clear H];
      let r := fresh "r" in let k' := fresh "st" in let H' := fresh "Hst" in intros r k' H'
  end.

Section Safety.
Context {C : CommonsOps} {CL : CommonsLaws C} {Srv : Type} {MS : MemoryServer Srv} {Env : KernelEnv Srv}.
Context {Steady : SteadyServer Srv} (kernel_config : t_kernel_config) (exact : bool) (lic : license).
Implicit Types (V : view) (D : gset string) (held : list k_sem) (k : t_kernel Srv).
Local Abbreviation evolves := (evolves lic).
Local Abbreviation settled := (settled exact lic).

(** ** The next process of a list *)
Lemma safe_next (P : Prop) `{Decision P} s f V D held k (Q : option nat → t_kernel Srv → Prop) :
  inv exact V D held k → (∀ a b, neutral (f a b)) →
  (∀ l a k', l ≡ₚ v_list s V → a ∈ l → inv exact (v_set_list s l V) D held k' → Q (Some a) k') →
  (∀ l k', l ≡ₚ v_list s V → l = [] → inv exact (v_set_list s l V) D held k' → Q None k') →
  safe ((if decide P then sort_list s f else mret tt);; get_next_pcb_from s) Q k.
Proof.
  intros Hk Hf HS HN. apply safe_bind.
  assert (∀ l k', l ≡ₚ v_list s V → inv exact (v_set_list s l V) D held k' →
                  safe (get_next_pcb_from s) Q k') as Hnext.
  { intros l k' Hl Hk'. eapply safe_get_next_pcb_from; [done|..]; vcbn; rewrite list_of_set_eq.
    - intros a Ha. by eapply HS.
    - intros E. by eapply HN. }
  case_decide.
  - eapply safe_sort_list; [done..|]. exact Hnext.
  - apply safe_ret. apply (Hnext (v_list s V)); [done|].
    unfold v_set_list. rewrite set_list_id. by destruct V.
Qed.

(** ** Moving a process from one list to another *)
Lemma safe_move s t a p V D held k (Q : unit → t_kernel Srv → Prop) l :
  inv exact (v_set_list s l V) D held k → good exact V [] → in_state V s a p → v_list s V ≡ₚ a :: l →
  transition s t → t ≠ EXEC → (s = EXEC → may_leave lic V p) →
  (∀ V' k', inv exact V' D held k' → good exact V' [] → evolves V V' →
     in_state V' t a p → v_list t V' = v_list t (v_set_list s l V) ++ [a] →
     (∀ u, u ≠ t → v_list u V' = v_list u (v_set_list s l V)) →
     (∀ b, b ≠ a → v_ident V' !! b = v_ident V !! b) → v_running V' = v_running V → Q tt k') →
  safe (add_pcb_to t (Some a)) Q k.
Proof.
  intros Hk Hg Ha Hl Hst Ht Hm HQ. eapply (safe_add_pcb_to _ t a p s); [done | apply Ha |].
  intros k' Hk'. eapply HQ; [exact Hk' | | | | | | |].
  - eapply good_put; [apply Ha | done|]. by apply good_take.
  - by apply evolves_move; [apply Hg|..].
  - split; vcbn; [|apply lookup_insert_eq]. rewrite list_of_set_eq. apply elem_of_app. right. by left.
  - vcbn. by rewrite list_of_set_eq.
  - intros u Hu. vcbn. by rewrite list_of_set_ne.
  - intros b Hb. vcbn. by rewrite lookup_insert_ne.
  - done.
Qed.

Lemma settled_now {A} (a : A) V V' D held fl k :
  inv exact V' D held k → good exact V' fl → evolves V V' → settled V D held fl a k.
Proof. intros. by exists V'. Qed.

(** ** The long term scheduler *)
Lemma safe_unsuspend_loop fuel b V V0 D held k :
  inv exact V D held k → good exact V [] → evolves V0 V → io_only held →
  length (v_list SUSP_READY V) < fuel →
  safe (unsuspend_loop kernel_config fuel b) (settled V0 D held []) k.
Proof.
  revert b V k. induction fuel as [|fuel IH]; intros b V k Hk Hg He Hio Hf; [lia|].
  cbn [unsuspend_loop]. autounfold with locks. do_lock. go.
  unfold get_next_process_to_initialize_from_susp_ready, get_next_pcb_from_susp_ready.
  eapply safe_next; [eassumption | eauto with neutral | |].
  - intros l a k1 Hl Ha Hk1. cbv beta iota.
    set (W := v_set_list SUSP_READY l V) in *. assert (good exact W []) as Hw by by apply good_sort.
    assert (evolves V0 W) as Hev by by apply evolves_sort.
    assert (v_list SUSP_READY W = l) as HWl by (unfold W; vcbn; by rewrite list_of_set_eq).
    assert (length l < S fuel) as Hlen by by rewrite Hl. clearbody W. rewrite <- HWl in Ha, Hlen. tidy. clear l Hl HWl V Hg He Hf.
    destruct (procs_ok_in _ _ _ _ (proj1 Hw) Ha) as [p Hp].
    go. eapply safe_load_pcb; [eassumption | apply Hp |]. intros q Hq. injection Hq as <- _.
    do_neutral. do_neutral. do_neutral. destruct r1.
    + go. eapply safe_remove_known; [eassumption | apply Hw | exact Hp |]. intros l kr Hl Hkr.
      assert (length l < fuel) as Hl' by (rewrite Hl in Hlen; cbn in Hlen; lia).
      do_unlock. do_lock. go. eapply safe_move; [eassumption | exact Hw | exact Hp | exact Hl | done | done | done |].
      intros V' km Hkm Hg' He' Hin Hr Ho _ _. do_unlock. eapply IH; [eassumption | done | by etrans | done |].
      rewrite Ho by done. vcbn. rewrite list_of_set_eq. done.
    + do_unlock. apply safe_ret. by eapply settled_now.
  - intros l k1 Hl El Hk1. cbv beta iota. do_unlock. apply safe_ret.
    eapply settled_now; [eassumption | by apply good_sort | by apply evolves_sort].
Qed.

Lemma safe_admit_loop fuel b V V0 D held k :
  inv exact V D held k → good exact V [] → evolves V0 V → length (v_list NEW V) < fuel →
  safe (admit_loop kernel_config fuel b) (settled V0 D held []) k.
Proof.
  revert b V k. induction fuel as [|fuel IH]; intros b V k Hk Hg He Hf; [lia|].
  cbn [admit_loop]. go.
  unfold get_next_process_to_initialize_from_new, get_next_pcb_from_new.
  eapply safe_next; [eassumption | eauto with neutral | |].
  - intros l a k1 Hl Ha Hk1. cbv beta iota.
    set (W := v_set_list NEW l V) in *. assert (good exact W []) as Hw by by apply good_sort.
    assert (evolves V0 W) as Hev by by apply evolves_sort.
    assert (v_list NEW W = l) as HWl by (unfold W; vcbn; by rewrite list_of_set_eq).
    assert (length l < S fuel) as Hlen by by rewrite Hl. clearbody W. rewrite <- HWl in Ha, Hlen. tidy. clear l Hl HWl V Hg He Hf.
    destruct (procs_ok_in _ _ _ _ (proj1 Hw) Ha) as [p Hp].
    go. eapply safe_load_pcb; [eassumption | apply Hp |]. intros q Hq. injection Hq as <- _.
    do_neutral. destruct r.
    + go. eapply safe_remove_known; [eassumption | apply Hw | exact Hp |]. intros l kr Hl Hkr.
      assert (length l < fuel) as Hl' by (rewrite Hl in Hlen; cbn in Hlen; lia).
      go. eapply safe_move; [eassumption | exact Hw | exact Hp | exact Hl | done | done | done |].
      intros V' km Hkm Hg' He' Hin Hr Ho _ _. eapply IH; [eassumption | done | by etrans |].
      rewrite Ho by done. vcbn. rewrite list_of_set_eq. done.
    + apply safe_ret. by eapply settled_now.
  - intros l k1 Hl El Hk1. cbv beta iota. apply safe_ret.
    eapply settled_now; [eassumption | by apply good_sort | by apply evolves_sort].
Qed.

Lemma safe_get_list s V D held k (Q : list nat → t_kernel Srv → Prop) :
  inv exact V D held k → Q (v_list s V) k → safe (get_list s) Q k.
Proof. intros Hk HQ. unfold safe, get_list. step. by rewrite (inv_lists _ _ _ _ _ Hk). Qed.

Lemma safe_run_long_scheduler V V0 D held k :
  inv exact V D held k → good exact V [] → evolves V0 V → io_only held →
  safe (run_long_scheduler kernel_config) (settled V0 D held []) k.
Proof.
  intros Hk Hg He Hio. unfold run_long_scheduler. autounfold with locks. do_neutral. destruct r.
  - go. eapply safe_get_list; [eassumption|]. go.
    eapply safe_mono; [eapply (safe_unsuspend_loop _ _ _ V0); [eassumption..|lia]|].
    intros b k1 (V1 & Hk1 & Hg1 & He1). do_lock. do_lock. go. eapply safe_get_list; [eassumption|].
    go. eapply safe_mono; [eapply (safe_admit_loop _ _ _ V0); [eassumption..|]; lia|].
    intros b' kr (V2 & Hkr & Hg2 & He2). do_unlock. do_unlock. apply safe_ret. by eapply settled_now.
  - apply safe_ret. by eapply settled_now.
Qed.

(** ** The short term scheduler *)
Lemma procs_ok_running V fl cpu x : procs_ok V fl → procs_ok (v_set_running cpu x V) fl.
Proof. by intros []. Qed.

Lemma in_state_pid V fl s a p : procs_ok V fl → in_state V s a p → (0 <= p)%Z.
Proof. intros Hp [_ Hi]. apply (p_bound _ _ Hp) in Hi. cbn in Hi. lia. Qed.

Lemma good_running V cpu x y :
  v_running V !! cpu = Some y → (exact = true → ∀ a, ¬ in_state V EXEC a y) →
  good exact V [] → good exact (v_set_running cpu x V) [].
Proof.
  intros Hy Hn [Hp He]. split; [by apply procs_ok_running|]. intros Hx a p s Ha Hi.
  destruct (He Hx a p s Ha Hi) as [cpu' Hc]. exists cpu'. vcbn. rewrite lookup_insert_ne; [done|].
  intros <-. assert (p = y) as -> by congruence. apply (Hn Hx a). split; [done|].
  pose proof (p_state _ _ Hp _ _ _ Ha Hi) as E. cbn in E. by subst s.
Qed.

Lemma safe_get_cpu_by_algorithm V V0 D held k cpus (Q : option string → t_kernel Srv → Prop) :
  inv exact V D held k → good exact V [] → evolves V0 V →
  (∀ cpu c, (cpu, c) ∈ cpus → is_Some (v_running V !! cpu)) →
  (∀ r V' k', inv exact V' D held k' → good exact V' [] → evolves V0 V' →
     (∀ cpu, r = Some cpu → is_Some (v_running V' !! cpu)) → Q r k') →
  safe (get_cpu_by_algorithm kernel_config cpus) Q k.
Proof.
  intros Hk Hg He Hcpus HQ.
  assert (∀ cpu, fst <$> list_get cpus 0 = Some cpu → is_Some (v_running V !! cpu)) as Hfirst.
  { intros cpu. commons. destruct (znth cpus 0) as [[id c]|] eqn:E; [|done]. intros [= <-].
    apply znth_elem in E. by eapply Hcpus. }
  unfold get_cpu_by_algorithm. case_decide.
  - unfold get_cpu_by_SJF, sort_exec_list_by_SJF. go. eapply safe_sort_list; [eassumption | eauto with neutral |].
    intros l k1 Hl Hk1. go. eapply safe_get_list; [eassumption|]. vcbn. rewrite list_of_set_eq.
    assert (good exact (v_set_list EXEC l V) []) as Hg1 by by apply good_sort.
    assert (evolves V0 (v_set_list EXEC l V)) as He1 by by apply evolves_sort.
    case_decide as E.
    + apply safe_ret. eapply HQ; [eassumption | done | done | exact Hfirst].
    + do_neutral. do_neutral. go. unfold get_cpu_connection_by_pid, get_all_cpu_connections.
      unfold safe. step. eapply HQ; [eassumption | done | done |]. intros cpu Hc.
      apply find_entry_Some in Hc as (c & Hc & _). eexists. by eapply running_lookup.
  - apply safe_ret. eapply HQ; [eassumption | done | done | exact Hfirst].
Qed.

Lemma safe_get_cpu_to_dispatch V V0 D held k (Q : option string → t_kernel Srv → Prop) :
  inv exact V D held k → good exact V [] → evolves V0 V →
  (∀ r V' k', inv exact V' D held k' → good exact V' [] → evolves V0 V' →
     (∀ cpu, r = Some cpu → is_Some (v_running V' !! cpu)) → Q r k') →
  safe (get_cpu_to_dispatch kernel_config) Q k.
Proof.
  intros Hk Hg He HQ. unfold get_cpu_to_dispatch, get_all_cpu_connections.
  go. apply safe_gets. go. apply safe_gets. go. eapply safe_get_list; [eassumption|].
  destruct (find_entry _ _) as [cpu|] eqn:E.
  - apply find_entry_Some in E as (c & Hc & Hfree). pose proof (running_lookup _ _ _ _ _ _ _ Hk Hc) as Hr.
    go. eapply safe_set_executing; [eassumption | exact Hr |]. intros k1 Hk1. apply safe_ret.
    assert (¬ executing V (current_process_executing c)) as Hn.
    { intros [a Ha]. case_decide as Ec.
      - rewrite Ec in Ha. apply (in_state_pid _ _ _ _ _ (proj1 Hg)) in Ha. lia.
      - destruct (list_find _ _) eqn:El; [done|]. revert Ha. eapply not_has_pid; [exact Hk|].
        intros b Hb. rewrite (inv_lists _ _ _ _ _ Hk) in Hb. by eapply (list_find_not _ (has_pid _ _)). }
    eapply HQ; [eassumption | | by eapply evolves_free |].
    + eapply good_running; [exact Hr | | done]. intros _ a Ha. apply Hn. by exists a.
    + intros ? [= <-]. vcbn. eexists. apply lookup_insert_eq.
  - eapply safe_get_cpu_by_algorithm; [eassumption | done | done | | done].
    intros cpu c Hc%entries_elem. eexists. by eapply running_lookup.
Qed.

(** What is held while a process is dispatched; EXEC is missing when the CPU
    said that it was not running the process any more. *)
Definition dispatch_held (hx : bool) (cpu : string) (held : list k_sem) : list k_sem :=
  (if hx then [sem_list EXEC] else []) ++ sem_cpu_exec cpu :: sem_list READY :: sem_cpu_connections :: held.

Definition v_dispatch (a : nat) (p : Z) (l : list nat) (V : view) : view :=
  let V1 := v_set_list READY l V in
  v_set_list EXEC (v_list EXEC V1 ++ [a]) (v_change a (p, EXEC) V1).

Lemma good_dispatch V a p l cpu y :
  good exact V [] → in_state V READY a p → v_list READY V ≡ₚ a :: l →
  v_running V !! cpu = Some y → (exact = true → ∀ b, ¬ in_state V EXEC b y) →
  good exact (v_set_running cpu p (v_dispatch a p l V)) [].
Proof.
  intros [Hp He] Ha Hl Hy Hn. split.
  - apply procs_ok_running. unfold v_dispatch. eapply procs_ok_change, (procs_ok_put (v_set_list READY l V)).
    + apply Ha.
    + by apply procs_ok_take.
  - intros Hx b q s Hb Hi. unfold v_dispatch in *. vcbn. rewrite list_of_set_eq in Hb.
    apply elem_of_app in Hb as [Hb|Hb%list_elem_of_singleton].
    + rewrite list_of_set_ne in Hb by done. destruct (decide (a = b)) as [<-|Hne].
      { destruct Ha as [_ Ha]. pose proof (p_state _ _ Hp _ _ _ Hb Ha) as E. discriminate E. }
      rewrite lookup_insert_ne in Hi by done. destruct (He Hx b q s Hb Hi) as [cpu' Hc].
      exists cpu'. rewrite lookup_insert_ne; [done|]. intros <-.
      assert (q = y) as -> by congruence. apply (Hn Hx b). split; [done|].
      pose proof (p_state _ _ Hp _ _ _ Hb Hi) as E. cbn in E. by subst s.
    + subst b. rewrite lookup_insert_eq in Hi. injection Hi as <- <-. exists cpu. apply lookup_insert_eq.
Qed.

Lemma good_send V fl socket package : good exact V fl → good exact (v_send socket package V) fl.
Proof. by intros [[] He]. Qed.

Lemma evolves_dispatch V0 V a p l cpu y socket n package :
  good exact V [] → in_state V READY a p → v_list READY V ≡ₚ a :: l → v_running V !! cpu = Some y →
  may_preempt lic ∨ ¬ executing V y → v_sockets V !! cpu = Some socket →
  create_dispatch_package p n = Ok package → evolves V0 V →
  evolves V0 (v_set_running cpu p (v_send socket package (v_dispatch a p l V))).
Proof.
  intros [Hp _] Ha Hl Hy Hfree Hs Hpk. apply evolves_step.
  - eapply is_dispatched; [exact Hy | exact Hfree | | exact Hs | exact Hpk | | done..].
    + by eapply in_state_not_executing.
    + intros q. by apply (executing_dispatch V a p l q).
  - cbn. by rewrite dom_insert_lookup_L.
  - done.
  - by apply (moves_in_state V (v_set_list READY l V) READY EXEC).
Qed.

Lemma safe_dispatch_to hx cpu a p y V V0 D held k :
  inv exact V D (dispatch_held hx cpu held) k → (hx = false → exact = false) →
  good exact V [] → evolves V0 V → io_only held →
  in_state V READY a p → v_running V !! cpu = Some y → (exact = true → ∀ b, ¬ in_state V EXEC b y) →
  may_preempt lic ∨ ¬ executing V y →
  safe (dispatch_to cpu a) (settled V0 D held []) k.
Proof.
  intros Hk Hx Hg He Hio Ha Hy Hn Hfree. unfold dispatch_to. autounfold with locks.
  go. eapply safe_load_pcb; [eassumption | apply Ha |]. intros q Hq. injection Hq as <- _.
  go. eapply safe_remove_known; [eassumption | apply Hg | exact Ha |]. intros l k1 Hl Hk1.
  go. eapply (safe_add_pcb_to _ EXEC a (pid q) READY); [eassumption | apply Ha |]. intros k2 Hk2.
  change (inv exact (v_dispatch a (pid q) l V) D (dispatch_held hx cpu held) k2) in Hk2.
  assert (v_ident (v_dispatch a (pid q) l V) !! a = Some (pid q, EXEC)) as Hi2 by apply lookup_insert_eq.
  go. eapply safe_load_pcb; [eassumption | exact Hi2 |]. intros q' Hq'. injection Hq' as E _. rewrite E.
  go. eapply safe_send_dispatch; [eassumption | exact Hy |]. intros socket package b k3 Hs Hpk Hk3.
  go. eapply safe_set_executing; [eassumption | exact Hy |]. intros k4 Hk4.
  pose proof (good_send _ _ socket package (good_dispatch _ _ _ _ _ _ Hg Ha Hl Hy Hn)) as Hgd.
  pose proof (evolves_dispatch _ _ _ _ _ _ _ _ _ _ Hg Ha Hl Hy Hfree Hs Hpk He) as Hed.
  set (W := v_set_running cpu (pid q) (v_send socket package (v_dispatch a (pid q) l V))) in *.
  change (good exact W []) in Hgd.
  assert (is_Some (v_running W !! cpu)) as Hcpu by (eexists; apply lookup_insert_eq).
  clearbody W.
  destruct hx; cbn [dispatch_held app] in Hk4.
  - do_unlock. do_unlock. do_unlock. do_unlock. by exists W.
  - do_unlock. go. eapply safe_unlock_free; [auto | eassumption | known |]. intros k6 Hk6.
    do_unlock. do_unlock. by exists W.
Qed.

(** A CPU is interrupted for the sake of the process [a]. *)
Lemma safe_preempt cpu a p y V D held k (Q : unit → t_kernel Srv → Prop) :
  inv exact V D (dispatch_held true cpu held) k → good exact V [] → io_only held →
  in_state V READY a p → v_running V !! cpu = Some y → may_leave lic V y →
  (∀ hx V' k', (hx = false → exact = false) → inv exact V' D (dispatch_held hx cpu held) k' →
     good exact V' [] → evolves V V' → in_state V' READY a p → v_running V' !! cpu = Some y →
     (exact = true → ∀ b, ¬ in_state V' EXEC b y) → Q tt k') →
  safe (preempt cpu) Q k.
Proof.
  intros Hk Hg Hio Ha Hy Hlv HQ. unfold preempt, send_and_receive_interrupt. autounfold with locks.
  cbn [dispatch_held app] in Hk.
  go. eapply safe_load_cpu; [eassumption..|]. intros c Hc.
  go. go. eapply safe_neutral; [eauto with neutral | eassumption |]. intros b k1 Hk1.
  do_unlock. go. eapply safe_recv_answer; [eassumption|]. intros x k3 Hk3 Hans.
  go. apply safe_deref. intros pk ->. apply safe_lift; [auto with quiet|]. intros ctx Hctx.
  case_decide as Hsame.
  - do_lock. go. eapply safe_load_cpu; [eassumption..|]. intros c' Hc'. rewrite Hc'.
    go. eapply safe_remove_pcb_from_exec; [eassumption | apply Hg | |].
    + intros b' l k5 Hb Hl Hk5. do_neutral. tidy.
      eapply (safe_move EXEC READY b' y V); [eassumption | exact Hg | exact Hb | exact Hl | done | done | done |].
      intros V' k7 Hk7 Hg' He' Hin Hr Ho Hid Hrun.
      assert (b' ≠ a) as Hne.
      { intros ->. destruct Ha as [_ Ha], Hb as [_ Hb]. congruence. }
      eapply (HQ true); [done | exact Hk7 | done | done | | by rewrite Hrun |].
      * split; [|by rewrite Hid; [apply Ha|]]. rewrite Hr. apply elem_of_app. left. vcbn.
        rewrite list_of_set_ne by done. apply Ha.
      * intros Hx b2 Hb2. assert (b2 = b') as -> by by eapply in_state_unique; [apply Hg'|..].
        destruct Hb2 as [_ H2], Hin as [_ H3]. congruence.
    + intros k5 Hn Hk5. apply safe_ret. apply (HQ true V); try done.
  - apply safe_ret. apply (HQ false V); try done.
    + intros _. destruct exact; [|done]. exfalso. apply Hsame. by apply Hans.
    + intros Hx. exfalso. apply Hsame. by apply Hans.
Qed.

(** Preemption must be licensed where it is configured. *)
Context (Hpre : cfg_preemption_enabled kernel_config = true → may_preempt lic ∧ ∀ V q, may_leave lic V q).

Lemma safe_run_short_scheduler V V0 D held k :
  inv exact V D held k → good exact V [] → evolves V0 V → io_only held →
  safe (run_short_scheduler kernel_config) (settled V0 D held []) k.
Proof.
  intros Hk Hg He Hio. unfold run_short_scheduler, get_short_scheduler_context. autounfold with locks.
  do_lock. do_lock. go. go. eapply safe_get_cpu_to_dispatch; [eassumption | exact Hg | exact He |].
  intros r V1 k1 Hk1 Hg1 He1 Hcpu. cbv beta. tidy. clear V Hg He.
  rename V1 into V, Hg1 into Hg, He1 into He. destruct r as [cpu|].
  2: { apply safe_ret. do_unlock. do_unlock. by exists V. }
  specialize (Hcpu cpu eq_refl). go.
  unfold get_next_process_to_dispatch, sort_ready_list_by_SJF, get_next_pcb_from_ready.
  eapply safe_next; [eassumption | eauto with neutral | |].
  2: { intros l k2 Hl El Hk2. go. apply safe_ret. do_unlock. do_unlock.
       eapply settled_now; [eassumption | by apply good_sort | by apply evolves_sort]. }
  intros l a k2 Hl Ha Hk2. go. apply safe_ret.
  assert (good exact (v_set_list READY l V) []) as Hw by by apply good_sort.
  assert (evolves V0 (v_set_list READY l V)) as Hev by by apply evolves_sort.
  assert (a ∈ v_list READY (v_set_list READY l V)) as Haw by (vcbn; by rewrite list_of_set_eq).
  change (v_running V) with (v_running (v_set_list READY l V)) in Hcpu.
  tidy. set (W := v_set_list READY l V) in *. clearbody W. clear V Hg He Hl l Ha.
  destruct (procs_ok_in _ _ _ _ (proj1 Hw) Haw) as [p Hp]. pose proof Hcpu as [y Hy].
  do_lock. go. eapply safe_load_cpu; [eassumption..|]. intros c Hc. case_decide as Hfree.
  { assert (∀ b, ¬ in_state W EXEC b y) as Hidle.
    { intros b Hb. apply (in_state_pid _ _ _ _ _ (proj1 Hw)) in Hb. lia. }
    do_lock. eapply (safe_dispatch_to true); [eassumption | done | done | done | done | exact Hp | exact Hy | done |].
    right. by intros [b Hb%Hidle]. }
  destruct (negb (preemption_is_enabled _)) eqn:Hen.
  { do_unlock. do_unlock. do_unlock. by exists W. }
  apply negb_false_iff in Hen. destruct (Hpre Hen) as [Hpp Hlv].
  unfold should_preempt_executing_process. autounfold with locks. go. do_lock. go.
  assert (∀ k', inv exact W D (dispatch_held true cpu held) k' →
    safe (preempt cpu;; dispatch_to cpu a) (settled V0 D held []) k') as Hgo.
  { intros k5 Hk5. go. eapply safe_preempt; [eassumption | done | done | exact Hp | exact Hy | done |].
    intros hx V' k6 Hhx Hk6 Hg' He' Hin Hy' Hn. eapply safe_dispatch_to; try done; [by etrans | by left]. }
  eapply safe_find_pcb_in; [eassumption | apply Hw | |].
  - intros b Hb. do_neutral. destruct r; [by apply Hgo|]. do_unlock. do_unlock. do_unlock. do_unlock. by exists W.
  - intros Hn. apply safe_ret. by apply Hgo.
Qed.

(** ** The medium term scheduler *)
Lemma safe_back_to_blocked p V V0 D k :
  inv exact V D [] k → good exact V [] → evolves V0 V →
  safe (back_to_blocked p) (settled V0 D [] []) k.
Proof.
  intros Hk Hg He. unfold back_to_blocked. autounfold with locks. do_lock. do_lock. go.
  eapply safe_remove_pcb_from; [eassumption | apply Hg | |].
  - intros a l k2 Ha Hl Hk2. go. eapply safe_move; [eassumption | exact Hg | exact Ha | exact Hl | done | done | done |].
    intros V' k3 Hk3 Hg' He' _ _ _ _ _. do_unlock. do_unlock. eapply settled_now; [eassumption | done | by etrans].
  - intros k2 Hn Hk2. go. apply safe_ret. do_unlock. do_unlock. by exists V.
Qed.

Lemma safe_run_medium_scheduler p V V0 D k :
  inv exact V D [] k → good exact V [] → evolves V0 V →
  safe (run_medium_scheduler kernel_config p) (settled V0 D [] []) k.
Proof.
  intros Hk Hg He. unfold run_medium_scheduler. autounfold with locks. do_lock. go.
  assert (io_only []) as Hio by by intros s ?%not_elem_of_nil.
  eapply safe_find_pcb_in; [eassumption | apply Hg | |].
  2: { intros Hn. do_unlock. by exists V. }
  intros a Ha. go. eapply safe_load_pcb; [eassumption | apply Ha |]. intros q Hq. injection Hq as <- _.
  do_neutral. case_decide; [do_unlock; by exists V|].
  do_lock. go. eapply safe_remove_known; [eassumption | apply Hg | exact Ha |]. intros l k3 Hl Hk3.
  go. eapply safe_move; [eassumption | exact Hg | exact Ha | exact Hl | done | done | done |].
  intros V' k4 Hk4 Hg' He' Hin _ _ _ _. do_unlock. do_unlock. do_neutral.
  assert (evolves V0 V') as Hev by by etrans.
  do_neutral. do_neutral. destruct r2.
  - go. eapply safe_mono; [by eapply safe_run_long_scheduler|]. intros b k6 (V2 & Hk6 & Hg2 & He2).
    destruct b; [|apply safe_ret; by exists V2]. by eapply safe_run_short_scheduler.
  - by eapply safe_back_to_blocked.
Qed.
End Safety.
