(* ===== verification/HandlersSafety.v ===== *)
(** * The handlers keep the invariant

    Every event the kernel handles takes a state that satisfies the
    invariant, with no semaphore held, to another one; it does not wait for
    a semaphore it holds, and its loops end. *)
From S2P Require Import Prelude Text Commons Enums Buffer Package Packages Config Semaphores Pcb.
From S2P Require Import Kernel Scheduler Handlers KernelInvariant KernelLogic KernelRules KernelSteps.
From S2P Require Import SchedulerSafety.
From Stdlib Require Import Permutation.
Import Buffer Package ProcessState.

Lemma io_only_nil : io_only [].
Proof. by intros s ?%not_elem_of_nil. Qed.
Lemma io_only_one : io_only [sem_io_connections].
Proof. by intros s ?%list_elem_of_singleton. Qed.
#[export] Hint Resolve io_only_nil io_only_one : core.

Section Safety.
Context {C : CommonsOps} {CL : CommonsLaws C} {Srv : Type} {MS : MemoryServer Srv} {Env : KernelEnv Srv}.
Context {Steady : SteadyServer Srv} (kernel_config : t_kernel_config) (exact : bool) (lic : license).
Implicit Types (V : view) (D : gset string) (held : list k_sem) (k : t_kernel Srv).
Local Abbreviation evolves := (evolves lic).
Local Abbreviation settled := (settled exact lic).

(** ** Exit *)
Lemma safe_exit_routine a p s l V V0 D held k :
  inv exact (v_set_list s l V) D held k → good exact V [] → in_state V s a p → v_list s V ≡ₚ a :: l →
  transition s EXIT_L → (s = EXEC → may_leave lic V p) → evolves V0 V → sem_list EXIT_L ∉ held →
  safe (exit_routine (Some a)) (settled V0 D held []) k.
Proof.
  intros Hk Hg Ha Hl Hs Hlv He Hh. unfold exit_routine. autounfold with locks.
  go. eapply safe_lock; [eassumption | known | done |]. intros k1 Hk1.
  go. eapply safe_move; [eassumption | exact Hg | exact Ha | exact Hl | done | done | done |].
  intros V' k2 Hk2 Hg' He' Hin _ _ _ _. assert (evolves V0 V') as Hev by by etrans.
  go. apply safe_deref. intros ? [= <-]. do_neutral. do_neutral. do_neutral.
  go. eapply (safe_unlock _ (sem_list EXIT_L) held); [eassumption | known | isin | |].
  { intros t. rewrite elem_of_cons. split; [|tauto]. intros Ht. split; [by right|]. by intros ->. }
  intros k6 Hk6. apply safe_ret. by exists V'.
Qed.

Lemma safe_exit_routine_null V D held k (Q : bool → t_kernel Srv → Prop) :
  inv exact V D held k → sem_list EXIT_L ∉ held → safe (exit_routine None) Q k.
Proof.
  intros Hk Hh. unfold exit_routine. autounfold with locks.
  go. eapply safe_lock; [eassumption | known | done |]. intros k1 Hk1. go. apply safe_ret.
  go. by apply safe_deref.
Qed.

(** A process taken out of EXEC, if it was there, is finished. *)
Lemma safe_exit_from_exec p t V V0 D held k :
  inv exact V D held k → good exact V [] → evolves V0 V → io_only held → may_leave lic V p →
  safe (lock_exec_list;; pcb ← remove_pcb_from_exec p; exit_routine pcb;; unlock_exec_list;; pthread_create t)
    (settled V0 D held []) k.
Proof.
  intros Hk Hg He Hio Hlv. autounfold with locks. do_lock. go.
  eapply safe_remove_pcb_from_exec; [eassumption | apply Hg | |].
  - intros a l k1 Ha Hl Hk1. go.
    eapply safe_mono; [eapply (safe_exit_routine a p EXEC l V V0); [eassumption | done | done | done | done | done | done | notin]|].
    intros b k2 (V' & Hk2 & Hg' & He'). do_unlock. do_neutral. by exists V'.
  - intros k1 Hn Hk1. go. eapply safe_exit_routine_null; [eassumption | notin].
Qed.

(** ** System calls *)
Lemma safe_exit_process_syscall p V V0 D k :
  inv exact V D [] k → good exact V [] → evolves V0 V → may_leave lic V p →
  safe (exit_process_syscall p) (settled V0 D [] []) k.
Proof. intros. by apply (safe_exit_from_exec p T_process_schedulers_exit V). Qed.

(** What an event leaves: at most one process more. *)
Definition event_post {A} V (_ : A) k : Prop :=
  ∃ V' D', inv exact V' D' [] k ∧ good exact V' [] ∧ dom (v_running V') = dom (v_running V) ∧
    (v_new_pid V' <= v_new_pid V + 1)%Z ∧ moves V V' ∧ rtc (cpu_move lic) V V'.

Lemma settled_event {A} V D (a : A) k : settled V D [] [] a k → event_post V a k.
Proof. intros (V' & Hk & Hg & [Hd Hp Hm Hc]). exists V', D. by split_and!; [..|lia| |]. Qed.

Lemma good_new V a : 
  v_ident V !! a = None → good exact V [] →
  let p := (v_new_pid V + 1)%Z in
  let W := v_set_ident a (p, NEW) (v_set_new_pid p V) in
  good exact (v_set_list NEW (v_list NEW W ++ [a]) W) [].
Proof.
  intros Ha [Hp He] p W. assert (procs_ok W [a]) as Hw by (apply procs_ok_new; [done | lia | done]).
  assert (v_ident W !! a = Some (p, NEW)) as Hi by apply lookup_insert_eq.
  split.
  - rewrite <- (v_set_ident_id W a (p, NEW)) at 2 by done. by eapply procs_ok_put.
  - intros Hx. apply exec_ok_put; [done|]. intros b q s Hb. unfold W. vcbn.
    rewrite lookup_insert_ne; [by apply He|]. intros <-. unfold W in Hb. vcbn.
    destruct (procs_ok_ident _ _ a Hp) as [? ?]; [|congruence].
    apply elem_of_app. left. by eapply elem_of_placed.
Qed.

Lemma executing_new V a q :
  v_ident V !! a = None → procs_ok V [] →
  let p := (v_new_pid V + 1)%Z in
  let W := v_set_ident a (p, NEW) (v_set_new_pid p V) in
  executing (v_set_list NEW (v_list NEW W ++ [a]) W) q ↔ executing V q.
Proof.
  intros Ha Hp p W. unfold executing, in_state, W. vcbn. rewrite list_of_set_ne by done.
  assert (a ∉ v_list EXEC V) as Hn.
  { intros Hin. destruct (procs_ok_ident _ _ a Hp) as [? ?]; [|congruence].
    apply elem_of_app. left. by eapply elem_of_placed. }
  split; intros (b & Hb & Hi); exists b; (split; [done|]).
  - rewrite lookup_insert_ne in Hi; [done|]. by intros <-.
  - rewrite lookup_insert_ne; [done|]. by intros <-.
Qed.

(** The new process enters NEW, and the caller's CPU is answered; nothing
    happens when the caller is not in EXEC. *)
Definition init_proc_post (p socket : Z) V (_ : unit) k : Prop :=
  ∃ V' D', inv exact V' D' [] k ∧ good exact V' [] ∧ (v_new_pid V' <= v_new_pid V + 1)%Z ∧ moves V V' ∧
    (∀ q, executing V' q ↔ executing V q) ∧ v_running V' = v_running V ∧ v_sockets V' = v_sockets V ∧
    (¬ executing V p ∧ v_sent V' = v_sent V ∨
     executing V p ∧ ∃ package, create_confirmation_package true = Ok package ∧
       v_sent V' = v_sent V ++ [(socket, package)]).

Lemma safe_handle_init_proc_post p pc_ n file socket V D k :
  inv exact V D [] k → good exact V [] → (v_new_pid V < 2147483647)%Z →
  safe (handle_init_proc_syscall kernel_config p pc_ n file socket) (init_proc_post p socket V) k.
Proof.
  intros Hk Hg Hb. unfold handle_init_proc_syscall. autounfold with locks. do_lock. do_lock. go.
  eapply safe_find_pcb_in; [eassumption | apply Hg | |].
  2: { intros Hn. do_unlock. do_unlock. exists V, D. split_and!; try done; [lia|]. left. split; [|done].
       intros [a Ha]. by apply (Hn a). }
  intros a Ha. go. eapply safe_load_pcb; [eassumption | apply Ha |]. intros q _.
  do_neutral. do_neutral. do_neutral. go.
  eapply (safe_set_new_pid _ (λ x, i32 (x + 1))); [eassumption|]. intros k1 Hk1.
  pose proof (p_new_pid _ _ (proj1 Hg)) as H0.
  rewrite i32_id in Hk1 by (unfold in_i32; lia).
  go. apply safe_gets. go.
  assert (new_pid k1 = (v_new_pid V + 1)%Z) as Hnp by (pose proof (i_view _ _ _ _ _ Hk1) as E; apply (f_equal v_new_pid) in E; exact E).
  rewrite Hnp. eapply safe_pcb_create; [eassumption|]. intros a2 k2 Ha2 Hk2.
  pose proof (good_new V a2 Ha2 Hg) as Hgn. pose proof (λ x, executing_new V a2 x Ha2 (proj1 Hg)) as Hxn.
  cbv zeta in Hgn, Hxn. set (W := v_set_ident a2 _ _) in *.
  assert (procs_ok W [a2]) as Hw by (apply procs_ok_new; [done | lia | apply Hg]).
  go. eapply safe_find_pcb_in_new; [eassumption | exact Hw | |].
  - intros b [Hb1 Hb2]. unfold W in Hb1, Hb2. vcbn. destruct (decide (a2 = b)) as [<-|Hne].
    + destruct (procs_ok_ident _ _ a2 (proj1 Hg)) as [? ?]; [|congruence].
      apply elem_of_app. left. by eapply elem_of_placed.
    + rewrite lookup_insert_ne in Hb2 by done. pose proof (p_bound _ _ (proj1 Hg) _ _ Hb2) as Hbd.
      cbn in Hbd. lia.
  - go. eapply safe_add_pcb_to_new; [eassumption|]. intros k3 Hk3. do_unlock. do_unlock.
    go. eapply safe_send_to; [eassumption | auto with quiet | apply build_opcode | by right |].
    intros package b k4 Hpk Hk4. do_neutral. eexists _, D. split; [eassumption|].
    split; [by apply good_send|]. split; [unfold W; vcbn; lia|]. split; [exact (moves_new V a2 _ Ha2)|].
    split; [exact Hxn|]. split; [done|]. split; [done|]. right. split; [by exists a|]. by exists package.
Qed.

Lemma safe_handle_init_proc p pc_ n file socket V D k :
  inv exact V D [] k → good exact V [] → (v_new_pid V < 2147483647)%Z → may_confirm lic →
  safe (handle_init_proc_syscall kernel_config p pc_ n file socket) (event_post V) k.
Proof.
  intros Hk Hg Hb Hc. eapply safe_mono; [by eapply safe_handle_init_proc_post|].
  intros u k' (V' & D' & Hk' & Hg' & Hp & Hm & Hx & Hr & Hs & Hsent). exists V', D'.
  split; [done|]. split; [done|]. split; [by rewrite Hr|]. split; [done|]. split; [done|].
  apply rtc_once. destruct Hsent as [[_ Hsent]|(_ & package & Hpk & Hsent)].
  - by apply nothing_moves.
  - by eapply is_confirmed.
Qed.

Context (Hpre : cfg_preemption_enabled kernel_config = true → may_preempt lic ∧ ∀ V q, may_leave lic V q).

(** ** Requests to devices *)
Lemma safe_find_request name V D held k (Q : option string → t_kernel Srv → Prop) :
  inv exact V D held k → Q None k → (name ∈ D → Q (Some name) k) →
  safe (find_io_request_by_device_name name) Q k.
Proof.
  intros Hk HN HS. unfold find_io_request_by_device_name, safe. step. commons.
  destruct (io_requests_link_dict k !! name) as [q|] eqn:E; [|done]. apply HS.
  rewrite <- (i_requests _ _ _ _ _ Hk). by apply elem_of_dom.
Qed.

Lemma safe_truly_busy x held V D k (Q : bool → t_kernel Srv → Prop) :
  inv exact V D held k → good exact V [] → sem_list BLOCKED ∉ held → sem_list SUSP_BLOCKED ∉ held →
  (∀ b k', inv exact V D held k' → Q b k') → safe (truly_busy x) Q k.
Proof.
  intros Hk Hg H1 H2 HQ. unfold truly_busy. autounfold with locks. case_decide; [|by apply safe_ret, HQ].
  go. eapply safe_lock; [eassumption | known | done |]. intros k1 Hk1.
  go. eapply safe_lock; [eassumption | known | by apply not_elem_of_cons |]. intros k2 Hk2. go.
  assert (∀ r : option nat, safe (pcb_in_susp_blocked ← find_pcb_in_susp_blocked x;
                     unlock (sem_list SUSP_BLOCKED);; unlock (sem_list BLOCKED);;
                     mret (bool_decide (is_Some r ∨ is_Some pcb_in_susp_blocked))) Q k2) as Hr.
  { intros r. go.
    assert (∀ r' : option nat, safe (unlock (sem_list SUSP_BLOCKED);; unlock (sem_list BLOCKED);;
                     mret (bool_decide (is_Some r ∨ is_Some r'))) Q k2) as Hr'.
    { intros r'. go. eapply (safe_unlock _ _ (sem_list BLOCKED :: held)); [eassumption | known | isin | |].
      { intros t. rewrite !elem_of_cons. split; [|tauto]. intros [->|Ht]; (split; [tauto|]); [done|].
        by intros ->. }
      intros k3 Hk3. go. eapply (safe_unlock _ _ held); [eassumption | known | isin | |].
      { intros t. rewrite !elem_of_cons. split; [|tauto]. intros Ht; (split; [tauto|]). by intros ->. }
      intros k4 Hk4. by apply safe_ret, HQ. }
    eapply safe_find_pcb_in; [eassumption | apply Hg | intros; apply Hr' | intros; apply Hr']. }
  eapply safe_find_pcb_in; [eassumption | apply Hg | intros; apply Hr | intros; apply Hr].
Qed.

Lemma neutral_send_next name socket io : neutral (send_next_request name socket io : M (t_kernel Srv) unit).
Proof. unfold send_next_request. neutral. Qed.

Lemma safe_process_pending_io name socket V D k (Q : bool → t_kernel Srv → Prop) :
  inv exact V D [] k → good exact V [] → (∀ b k', inv exact V D [] k' → Q b k') →
  safe (process_pending_io name socket) Q k.
Proof.
  intros Hk Hg HQ. unfold process_pending_io. autounfold with locks. do_lock. do_neutral.
  destruct (negb _); [do_unlock; by apply safe_ret, HQ|]. do_lock. go.
  eapply safe_find_request; [eassumption | |].
  { do_unlock. do_unlock. by apply safe_ret, HQ. }
  intros Hin. do_lock. do_neutral. do_neutral. go.
  eapply safe_truly_busy; [eassumption | done | notin | notin |]. intros b k1 Hk1. go.
  eapply safe_neutral; [destruct b; [apply neutral_ret | apply neutral_send_next] | eassumption |].
  intros u k2 Hk2. do_unlock. do_unlock. do_unlock. by apply safe_ret, HQ.
Qed.

Lemma safe_block_for_io p pc_ t link V D k (Q : option nat → t_kernel Srv → Prop) :
  inv exact V D [sem_io_requests; sem_io_connections] k → good exact V [] → link ∈ D → may_leave lic V p →
  (∀ r V' k', inv exact V' D [sem_io_requests; sem_io_connections] k' → good exact V' [] →
     evolves V V' → Q r k') →
  safe (block_for_io p pc_ t link) Q k.
Proof.
  intros Hk Hg Hl Hlv HQ. unfold block_for_io. autounfold with locks. do_lock. do_lock. do_lock. go.
  eapply safe_remove_pcb_from_exec; [eassumption | apply Hg | |].
  - intros a l k1 Ha Hla Hk1. go. do_neutral. go.
    eapply safe_move; [eassumption | exact Hg | exact Ha | exact Hla | done | done | done |].
    intros V' k2 Hk2 Hg' He' _ _ _ _ _. do_neutral. do_unlock. do_unlock. do_unlock.
    apply safe_ret. by eapply HQ.
  - intros k1 _ Hk1. go. apply safe_ret. do_unlock. do_unlock. do_unlock. apply safe_ret. by eapply HQ.
Qed.

Lemma safe_handle_io_process_syscall p pc_ t name V V0 D k :
  inv exact V D [] k → good exact V [] → evolves V0 V → may_leave lic V p →
  safe (handle_io_process_syscall p pc_ t name) (settled V0 D [] []) k.
Proof.
  intros Hk Hg He Hlv. unfold handle_io_process_syscall. autounfold with locks. do_lock. do_neutral.
  destruct (negb _).
  { go. eapply safe_mono; [eapply (safe_exit_from_exec p T_process_schedulers_io V V0); by eauto|].
    intros u k1 (V' & Hk1 & Hg' & He'). do_unlock. by exists V'. }
  do_lock. go. eapply safe_find_request; [eassumption | |].
  { do_unlock. do_unlock. by exists V. }
  intros Hin. go. eapply safe_block_for_io; [eassumption | done | done | done |].
  intros r' V' k1 Hk1 Hg' He'. assert (evolves V0 V') as Hev by by etrans. do_unlock. do_unlock.
  destruct r' as [a|]; [|apply safe_ret; by exists V'].
  go. eapply safe_process_pending_io; [eassumption | done |]. intros b k2 Hk2.
  do_neutral. do_neutral. do_neutral. by exists V'.
Qed.

(** ** Dumps *)
Lemma safe_dump_memory_finish a p b V V0 D k :
  inv exact V D [] k → good exact V [] → evolves V0 V → in_state V BLOCKED a p →
  safe (dump_memory_finish kernel_config a b) (settled V0 D [] []) k.
Proof.
  intros Hk Hg He Ha. unfold dump_memory_finish. autounfold with locks. do_lock. do_lock. go.
  eapply safe_load_pcb; [eassumption | apply Ha |]. intros q Hq. injection Hq as <- _. destruct b.
  - go. eapply safe_remove_known; [eassumption | apply Hg | exact Ha |]. intros l k1 Hl Hk1. go.
    eapply safe_move; [eassumption | exact Hg | exact Ha | exact Hl | done | done | done |].
    intros V' k2 Hk2 Hg' He' _ _ _ _ _. do_unlock. do_unlock.
    eapply safe_run_short_scheduler; [exact Hpre | eassumption | done | by etrans | auto].
  - go. eapply safe_remove_known; [eassumption | apply Hg | exact Ha |]. intros l k1 Hl Hk1. go.
    eapply safe_mono; [eapply (safe_exit_routine a (pid q) BLOCKED l V V0); [eassumption | done | done | done | done | done | done | notin]|].
    intros r k2 (V' & Hk2 & Hg' & He'). do_unlock. do_unlock. by exists V'.
Qed.

Lemma safe_dump_memory_block p pc_ V D k (Q : option nat → t_kernel Srv → Prop) :
  inv exact V D [] k → good exact V [] → may_leave lic V p →
  (∀ k', inv exact V D [] k' → Q None k') →
  (∀ a V' k', inv exact V' D [] k' → good exact V' [] → evolves V V' → in_state V' BLOCKED a p → Q (Some a) k') →
  safe (dump_memory_block p pc_) Q k.
Proof.
  intros Hk Hg Hlv HN HS. unfold dump_memory_block. autounfold with locks. do_lock. do_lock. go.
  eapply safe_find_pcb_in; [eassumption | apply Hg | |].
  2: { intros _. do_unlock. do_unlock. by apply safe_ret, HN. }
  intros a Ha. do_neutral. go.
  eapply safe_remove_pcb_from_exec; [eassumption | apply Hg | |].
  2: { intros k' Hn. by destruct (Hn a). }
  intros b l k1 Hb Hl Hk1. assert (b = a) as -> by by eapply in_state_unique; [apply Hg|..].
  go. eapply safe_move; [eassumption | exact Hg | exact Ha | exact Hl | done | done | done |].
  intros V' k2 Hk2 Hg' He' Hin _ _ _ _. do_unlock. do_unlock. apply safe_ret. by eapply HS.
Qed.

Lemma safe_dump_memory_syscall p pc_ V V0 D k :
  inv exact V D [] k → good exact V [] → evolves V0 V → may_leave lic V p →
  safe (dump_memory_syscall kernel_config p pc_) (settled V0 D [] []) k.
Proof.
  intros Hk Hg He Hlv. unfold dump_memory_syscall. go. eapply safe_dump_memory_block; [eassumption | done | done | |].
  - intros k1 Hk1. apply safe_ret. by exists V.
  - intros a V' k1 Hk1 Hg' He' Ha. do_neutral.
    eapply safe_dump_memory_finish; [eassumption | done | by etrans | exact Ha].
Qed.

(** What a package from a CPU is entitled to. *)
Definition package_licensed V (package : t_package) : Prop :=
  ∀ syscall, read_with read_syscall_package package = Ok syscall →
    may_leave lic V (syscall_pid syscall) ∧
    (SyscallType.decode (syscall_type syscall) = Some SyscallType.SYSCALL_INIT_PROC → may_confirm lic).

Lemma safe_handle_cpu_syscall package socket V D k :
  inv exact V D [] k → good exact V [] → (v_new_pid V < 2147483647)%Z → package_licensed V package →
  safe (handle_cpu_syscall kernel_config package socket) (event_post V) k.
Proof.
  intros Hk Hg Hb Hp. unfold handle_cpu_syscall. go. apply safe_lift; [auto with quiet|].
  intros r Hr. destruct (Hp r Hr) as [Hlv Hcf].
  assert (event_post V tt k) as Hnone by (apply (settled_event V D); by exists V).
  destruct (SyscallType.decode _) as [[]|], (params r); try by apply safe_ret.
  1: by eapply safe_handle_init_proc; eauto.
  all: eapply safe_mono; [|intros ? ?; apply (settled_event V D)].
  all: first [by eapply safe_handle_io_process_syscall | by eapply safe_dump_memory_syscall
             | by eapply safe_exit_process_syscall].
Qed.

(** ** Devices *)
Lemma safe_io_completion socket name p V V0 D k :
  inv exact V D [] k → good exact V [] → evolves V0 V →
  safe (io_completion socket name p) (settled V0 D [] []) k.
Proof.
  intros Hk Hg He. unfold io_completion. autounfold with locks. do_lock. do_neutral.
  destruct r as [io|]; [|do_unlock; by exists V]. do_lock. do_lock. do_lock. do_lock.
  assert (∀ moved V' k', evolves V0 V' → good exact V' [] →
    inv exact V' D [sem_list SUSP_READY; sem_list SUSP_BLOCKED; sem_list BLOCKED; sem_list READY; sem_io_connections] k' →
    safe (set_io_executing io (-1);; unlock (sem_list SUSP_READY);; unlock (sem_list SUSP_BLOCKED);;
          unlock (sem_list BLOCKED);; unlock (sem_list READY);; unlock sem_io_connections;;
          process_pending_io name socket;; pthread_create T_process_pending_io_thread;;
          match moved with
          | Some READY => pthread_create T_process_scheduler_for_blocked
          | Some _ => pthread_create T_process_schedulers_for_susp_blocked
          | None => mret tt
          end) (settled V0 D [] []) k') as Hrest.
  { intros moved V' k' He' Hg' Hk'. do_neutral. do_unlock. do_unlock. do_unlock. do_unlock. do_unlock.
    go. eapply safe_process_pending_io; [eassumption | done |]. intros b k1 Hk1. do_neutral. tidy.
    eapply safe_neutral; [destruct moved as [[]|]; eauto with neutral | eassumption |].
    intros [] k2 Hk2. by exists V'. }
  go. eapply safe_remove_pcb_from; [eassumption | apply Hg | |].
  - intros a l k1 Ha Hl Hk1. go. go.
    eapply safe_move; [eassumption | exact Hg | exact Ha | exact Hl | done | done | done |].
    intros V' k2 Hk2 Hg' He' _ _ _ _ _. apply safe_ret.
    apply (Hrest (Some READY) V' k2); [exact (transitivity He He') | exact Hg' | exact Hk2].
  - intros k1 _ Hk1. go. go. eapply safe_remove_pcb_from; [eassumption | apply Hg | |].
    + intros a l k2 Ha Hl Hk2. go.
      eapply safe_move; [eassumption | exact Hg | exact Ha | exact Hl | done | done | done |].
      intros V' k3 Hk3 Hg' He' _ _ _ _ _. apply safe_ret.
      apply (Hrest (Some SUSP_READY) V' k3); [exact (transitivity He He') | exact Hg' | exact Hk3].
    + intros k2 _ Hk2. apply safe_ret. apply (Hrest None V k2); [exact He | exact Hg | exact Hk2].
Qed.

Lemma safe_create_io_request_link name V D held k (Q : unit → t_kernel Srv → Prop) :
  inv exact V D held k → sem_io_requests_queue name ∉ held →
  (∀ k', inv exact V ({[name]} ∪ D) held k' → Q tt k') → safe (create_io_request_link name) Q k.
Proof.
  intros Hk Hh HQ. unfold safe, create_io_request_link, on_k_sems, sem_init. step. commons. apply HQ.
  destruct Hk. constructor; try done; cbn.
  - by rewrite dom_insert_L, i_requests.
  - intros s Hs. destruct (decide (s = sem_io_requests_queue name)) as [->|Hne].
    + exists 1%Z. rewrite lookup_insert_eq, expected_free by done. done.
    + rewrite lookup_insert_ne by done. apply i_sems. destruct s; try done. cbn in *. set_solver.
Qed.

Lemma safe_process_new_device socket name V D k :
  inv exact V D [] k → good exact V [] →
  safe (process_new_device socket name) (event_post V) k.
Proof.
  intros Hk Hg. unfold process_new_device. autounfold with locks. do_lock. do_lock. do_neutral. go.
  eapply safe_find_request; [eassumption | |].
  - go. eapply safe_create_io_request_link; [eassumption | notin |]. intros k1 Hk1. do_unlock. do_unlock.
    apply safe_ret. apply (settled_event V ({[name]} ∪ D)). by exists V.
  - intros Hin. go. apply safe_ret. do_unlock. do_unlock. go.
    eapply safe_process_pending_io; [eassumption | done |]. intros b k2 Hk2. apply safe_ret.
    apply (settled_event V D). by exists V.
Qed.

Lemma safe_handle_found_process io V V0 D k :
  inv exact V D [sem_io_connections] k → good exact V [] → evolves V0 V →
  safe (handle_found_process kernel_config io) (settled V0 D [sem_io_connections] []) k.
Proof.
  intros Hk Hg He. unfold handle_found_process. autounfold with locks. do_lock. do_neutral. go.
  eapply safe_remove_pcb_from; [eassumption | apply Hg | |].
  - intros a l k1 Ha Hl Hk1. go.
    eapply safe_mono; [eapply (safe_exit_routine a _ BLOCKED l V V0); [eassumption | done | done | done | done | done | done | notin]|].
    intros b k2 (V' & Hk2 & Hg' & He'). do_unlock. by exists V'.
  - intros k1 _ Hk1. do_unlock. do_lock. go. eapply safe_remove_pcb_from; [eassumption | apply Hg | |].
    + intros a l k2 Ha Hl Hk2. go.
      eapply safe_mono; [eapply (safe_exit_routine a _ SUSP_BLOCKED l V V0); [eassumption | done | done | done | done | done | done | notin]|].
      intros b k3 (V' & Hk3 & Hg' & He'). do_unlock. go.
      eapply safe_mono; [by eapply (safe_run_long_scheduler kernel_config exact lic V' V0)|].
      intros b' k4 (V2 & Hk4 & Hg2 & He2). destruct b'; [|apply safe_ret; by exists V2].
      by eapply safe_run_short_scheduler.
    + intros k2 _ Hk2. do_unlock. by exists V.
Qed.

Lemma safe_io_disconnected socket V V0 D k :
  inv exact V D [] k → good exact V [] → evolves V0 V →
  safe (io_disconnected kernel_config socket) (settled V0 D [] []) k.
Proof.
  intros Hk Hg He. unfold io_disconnected. autounfold with locks. do_lock. do_neutral.
  destruct r as [io|]; [|do_unlock; by exists V]. do_neutral.
  assert (∀ V' k', inv exact V' D [sem_io_connections] k' → good exact V' [] → evolves V0 V' →
    safe (delete_io_connection socket;; unlock sem_io_connections) (settled V0 D [] []) k') as Hrest.
  { intros V' k' Hk' Hg' He'. do_neutral. do_unlock. by exists V'. }
  go. case_decide.
  - eapply safe_mono; [by eapply safe_handle_found_process|]. intros u k1 (V' & Hk1 & Hg' & He').
    by eapply Hrest.
  - apply safe_ret. by eapply Hrest.
Qed.

(** ** Threads and events *)
Lemma safe_process_schedulers V V0 D k :
  inv exact V D [] k → good exact V [] → evolves V0 V →
  safe (process_schedulers kernel_config) (settled V0 D [] []) k.
Proof.
  intros Hk Hg He. unfold process_schedulers. go.
  eapply safe_mono; [by eapply (safe_run_long_scheduler kernel_config exact lic V V0); eauto|].
  intros b k1 (V1 & Hk1 & Hg1 & He1). by eapply safe_run_short_scheduler; eauto.
Qed.

Lemma safe_run_thread t V D k :
  inv exact V D [] k → good exact V [] → safe (run_thread kernel_config t) (event_post V) k.
Proof.
  intros Hk Hg.
  assert (∀ m, safe m (settled V D [] []) k → safe (A := unit) m (event_post V) k) as Hs.
  { intros m Hm. eapply safe_mono; [exact Hm|]. intros a k'. apply (settled_event V D). }
  destruct t; cbn [run_thread];
    lazymatch goal with |- safe (process_new_device _ _) _ _ => idtac | _ => apply Hs end.
  1-3: by eapply safe_process_schedulers.
  1,3: by eapply safe_run_short_scheduler; eauto.
  - by eapply safe_run_medium_scheduler.
  - unfold process_schedulers_for_susp_blocked. go.
    eapply safe_mono; [by eapply (safe_run_long_scheduler kernel_config exact lic V V); eauto|].
    intros b k1 (V1 & Hk1 & Hg1 & He1). destruct b; [|apply safe_ret; by exists V1].
    by eapply safe_run_short_scheduler; eauto.
  - apply safe_ret. by exists V.
  - by eapply safe_process_new_device.
  - by eapply safe_io_completion.
Qed.

Definition licensed V (e : k_event) : Prop :=
  match e with Ev_cpu_package _ package => package_licensed V package | _ => True end.

Lemma safe_handle_event e V D k :
  inv exact V D [] k → good exact V [] → (v_new_pid V < 2147483647)%Z → licensed V e →
  safe (handle_event kernel_config e) (event_post V) k.
Proof.
  intros Hk Hg Hb Hl. assert (∀ k', inv exact V D [] k' → event_post V tt k') as Hnone.
  { intros k' Hk'. apply (settled_event V D). by exists V. }
  destruct e as [i|id package|socket package|socket]; cbn [handle_event].
  - go. apply safe_gets. destruct (threads k !! i) as [t|]; [|by apply safe_ret, Hnone].
    do_neutral. by eapply safe_run_thread.
  - unfold handle_dispatch_client. do_neutral. destruct r as [c|]; [|by apply safe_ret, Hnone].
    destruct (bool_decide _); [|by apply safe_ret, Hnone]. by eapply safe_handle_cpu_syscall.
  - eapply safe_neutral; [unfold handle_io_client, handle_new_device, process_io_completion; neutral | eassumption |]. intros []. apply Hnone.
  - eapply safe_mono; [by eapply safe_io_disconnected|]. intros a k'. apply (settled_event V D).
Qed.

(** ** Runs *)
Definition kernel_ok k : Prop := ∃ V D, inv exact V D [] k ∧ good exact V [].

Lemma safe_run_events l k :
  (∀ V, Forall (licensed V) l) → kernel_ok k → (new_pid k + Z.of_nat (length l) <= 2147483647)%Z →
  safe (run_events kernel_config l)
    (λ _ k', kernel_ok k' ∧ (new_pid k' <= new_pid k + Z.of_nat (length l))%Z ∧ moves (view_of k) (view_of k')) k.
Proof.
  revert k. induction l as [|e l IH]; intros k Hl (V & D & Hk & Hg) Hb.
  - apply safe_ret. split_and!; [by exists V, D | cbn; lia | done].
  - cbn [length] in Hb |- *. unfold run_events in *. cbn [for_each]. apply safe_bind.
    assert (view_of k = V) as E by apply Hk. assert (v_new_pid V = new_pid k) as Hn by by rewrite <- E.
    pose proof (Hl V) as [He _]%Forall_cons.
    eapply safe_mono; [eapply safe_handle_event; [done | done | lia | done]|].
    intros u k' (V' & D' & Hk' & Hg' & Hd & Hp & Hm & _).
    assert (view_of k' = V') as E' by apply Hk'. assert (v_new_pid V' = new_pid k') as Hn' by by rewrite <- E'.
    rewrite <- E, <- E' in Hm.
    eapply safe_mono; [apply IH; [intros W; by pose proof (Hl W) as [_ ?]%Forall_cons | by exists V', D' | lia]|]. intros u' k'' (Hok & Hle & Hm').
    split_and!; [done | lia | by etrans].
Qed.
End Safety.
