(* ===== verification/KernelSockets.v ===== *)
(** * Where the kernel sends

    A package that is not meant for a CPU goes to the socket of a device, as
    long as there is no preemption: the connections and the threads of the
    kernel only hold sockets on which devices have sent something. *)
From S2P Require Import Prelude Text Commons Enums Buffer Package Packages Config Semaphores Pcb.
From S2P Require Import Kernel Scheduler Handlers KernelInvariant KernelLogic.
Import Buffer Package ProcessState.

Section Sockets.
Context {C : CommonsOps} {CL : CommonsLaws C} {Srv : Type} {MS : MemoryServer Srv} {Env : KernelEnv Srv}.
Context (kernel_config : t_kernel_config) (device interrupt : Z → Prop).
Context (Hpre : cfg_preemption_enabled kernel_config = false) (Hdevice : ∀ s, device s → in_i32 s).
Implicit Types k : t_kernel Srv.

Definition thread_device (t : t_thread) : Prop :=
  match t with T_process_new_device s _ | T_io_completion s _ _ => device s | _ => True end.

Record to_devices k : Prop := {
  d_connections : ∀ key, is_Some (io_connections_dict k !! key) → ∃ s, device s ∧ key = string_itoa s;
  d_interrupts : ∀ id c, cpu_connections_dict k !! id = Some c → interrupt (interrupt_socket_id c);
  d_threads : Forall thread_device (threads k);
  d_sent : Forall (λ x, for_cpu x ∨ device x.1) (sent k) }.

Definition keeps_devices k k' : Prop := to_devices k → to_devices k'.

#[local] Instance keeps_devices_preorder : PreOrder keeps_devices.
Proof. split; [by intros k ? | intros k k' k'' H H' ?; by apply H', H]. Qed.

Local Abbreviation keeps := (within keeps_devices).

(** ** The steps that touch sockets *)
Lemma on_k_sems_keeps {A} (o : M (gmap k_sem Z) A) : keeps (on_k_sems o).
Proof. unfold on_k_sems. apply (within_zoom _ (λ _ _, True)); [by intros k s _ []|by split]. Qed.
Lemma lock_keeps s : keeps (lock s).
Proof. apply on_k_sems_keeps. Qed.
Lemma unlock_keeps s : keeps (unlock s).
Proof. apply on_k_sems_keeps. Qed.
#[local] Hint Resolve on_k_sems_keeps lock_keeps unlock_keeps : within.

(** Go through a function, and the functions it calls. *)
Local Ltac keep :=
  within_with ltac:(first [ apply within_modify; by intros ? [] | case_decide | progress cbv zeta | unfold_called ]).

Lemma set_executing_keeps cpu p : keeps (set_executing cpu p).
Proof.
  split. intros k u k' H [Hc Hi Ht Hs]. unfold set_executing, load_cpu in H. step_in H.
  destruct (cpu_connections_dict k !! cpu) as [c|] eqn:Hcpu; [|done]. injection H as _ <-. split; [done| |done..].
  intros id c'. cbn. rewrite lookup_insert_Some. intros [[<- <-]|[_ ?]]; [exact (Hi _ _ Hcpu) | by eapply Hi].
Qed.
#[local] Hint Resolve set_executing_keeps : within.

Lemma connect_cpu_keeps a b : interrupt a → keeps (create_cpu_connection a b).
Proof.
  intros Ha. assert (∀ id n, keeps (modify (λ k, set_cpus
    (dictionary_put (cpu_connections_dict k) id (mk_cpu_connection n a b (-1))) k))) as Hp.
  { intros id n. apply within_modify. intros k [Hc Hi Ht Hs]. split; [done| |done..]. intros id' c. cbn. commons.
    rewrite lookup_insert_Some. intros [[<- <-]|[_ ?]]; [done | by eapply Hi]. }
  keep.
Qed.

Lemma connect_cpus_keeps sockets : Forall (λ s, interrupt s.2) sockets → keeps (connect_to_cpus sockets).
Proof.
  intros Hs. assert (keeps (for_each sockets (λ s, create_cpu_connection s.2 s.1;; mret tt))); [|unfold connect_to_cpus; keep].
  induction Hs as [|s l Hs _ IH]; cbn [for_each]; [keep|]. pose proof (connect_cpu_keeps s.2 s.1 Hs). keep.
Qed.

Lemma set_io_executing_keeps io x : keeps (set_io_executing io x).
Proof.
  split. intros k u k' H [Hc Hi Ht Hs]. unfold set_io_executing, load_io in H. step_in H.
  destruct (io_connections_dict k !! io) as [c|] eqn:Hio; [|done]. injection H as _ <-. split; [|done..].
  intros key. cbn. destruct (decide (io = key)) as [<-|Hne]; [|rewrite lookup_insert_ne by done; apply Hc].
  intros _. by apply Hc.
Qed.

Lemma create_io_connection_keeps s n : device s → keeps (create_io_connection s n).
Proof.
  intros Hd. apply within_modify. intros k [Hc Hi Ht Hs]. split; [|done..]. intros key. cbn. commons.
  destruct (decide (string_itoa s = key)) as [<-|Hne]; [by exists s|]. rewrite lookup_insert_ne by done. apply Hc.
Qed.

Lemma delete_io_connection_keeps s : keeps (delete_io_connection s).
Proof.
  apply within_modify. intros k [Hc Hi Ht Hs]. split; [|done..]. intros key. cbn. commons. cbn.
  intros [x [_ Hx]%lookup_delete_Some]. apply Hc. by eexists.
Qed.

Lemma create_thread_keeps t : thread_device t → keeps (pthread_create t).
Proof.
  intros Hd. apply within_modify. intros k [Hc Hi Ht Hs]. split; [done|done| |done]. cbn.
  apply Forall_app. by rewrite Forall_singleton.
Qed.

Lemma send_keeps socket r code :
  (∀ p, r = Ok p → opcode p = Opcode.code code) →
  code = Opcode.DISPATCH ∨ code = Opcode.CONFIRMATION ∨ device socket → keeps (send_to socket r).
Proof.
  intros Hr Hcode. split. intros k b k' H [Hc Hi Ht Hs]. unfold send_to in H. step_in H. destruct r as [p|]; [|done].
  injection H as _ <-. split; [done..|]. cbn. apply Forall_app. split; [done|]. apply Forall_singleton.
  unfold for_cpu. cbn. rewrite (Hr p eq_refl). destruct Hcode as [->|[->|?]]; auto.
Qed.

Lemma send_dispatch_keeps socket p n : keeps (send_to socket (create_dispatch_package p n)).
Proof. eapply send_keeps; [intros q; apply build_opcode | by left]. Qed.
Lemma send_confirmation_keeps socket b : keeps (send_to socket (create_confirmation_package b)).
Proof. eapply send_keeps; [intros q; apply build_opcode | right; by left]. Qed.
#[local] Hint Resolve set_io_executing_keeps delete_io_connection_keeps send_dispatch_keeps send_confirmation_keeps : within.
#[local] Hint Extern 1 (keeps (pthread_create _)) => (apply create_thread_keeps; done) : within.

(** ** Memory, comparisons and schedulers *)
Lemma ask_keeps r : keeps (ask r).
Proof. unfold ask. keep. apply (within_zoom _ (λ _ _, True)); [by intros k s _ []|by split]. Qed.
#[local] Hint Resolve ask_keeps : within.

Lemma put_list_keeps s l : keeps (put_list s l).
Proof. keep. Qed.

Lemma sort_list_keeps s f : (∀ a b, keeps (f a b)) → keeps (sort_list s f).
Proof.
  intros Hf. split. intros k u k' H Hk. unfold sort_list in H.
  assert (∀ k0, (list_sort (comparator f) (list_of s (lists k)) (Ok k)).2 = Ok k0 → to_devices k0) as Hi.
  { apply (list_sort_inv nat _ (comparator f) (λ r, ∀ k0, r = Ok k0 → to_devices k0)); [|by intros ? [= <-]].
    intros x y [k1|] _ _ H1 k0; cbn; [|done]. destruct (f x y k1) as [[b k2]|] eqn:E; [|done].
    intros [= <-]. eapply (within_run (Hf x y)); [exact E | by apply H1]. }
  destruct (list_sort _ _ _) as [l [k0|]]; [|done]. eapply (within_run (put_list_keeps s l)); [exact H | by apply Hi].
Qed.

Lemma sort_ready_keeps : keeps (sort_ready_list_by_SJF kernel_config).
Proof. apply sort_list_keeps. intros. keep. Qed.
Lemma sort_exec_keeps : keeps (sort_exec_list_by_SJF kernel_config).
Proof. apply sort_list_keeps. intros. keep. Qed.
Lemma sort_new_keeps : keeps sort_new_list_by_SSF.
Proof. apply sort_list_keeps. intros. keep. Qed.
Lemma sort_susp_ready_keeps : keeps sort_susp_ready_list_by_SSF.
Proof. apply sort_list_keeps. intros. keep. Qed.
#[local] Hint Resolve sort_ready_keeps sort_exec_keeps sort_new_keeps sort_susp_ready_keeps : within.

Lemma unsuspend_keeps n b : keeps (unsuspend_loop kernel_config n b).
Proof. revert b. induction n as [|n IH]; intros b; cbn [unsuspend_loop]; keep. Qed.
Lemma admit_keeps n b : keeps (admit_loop kernel_config n b).
Proof. revert b. induction n as [|n IH]; intros b; cbn [admit_loop]; keep. Qed.
#[local] Hint Resolve unsuspend_keeps admit_keeps : within.

Lemma long_scheduler_keeps : keeps (run_long_scheduler kernel_config).
Proof. keep. Qed.
Lemma short_scheduler_keeps : keeps (run_short_scheduler kernel_config).
Proof.
  unfold run_short_scheduler, preemption_is_enabled. rewrite Hpre. cbn [negb]. keep.
Qed.
#[local] Hint Resolve long_scheduler_keeps short_scheduler_keeps : within.
Lemma medium_scheduler_keeps p : keeps (run_medium_scheduler kernel_config p).
Proof. keep. Qed.
#[local] Hint Resolve medium_scheduler_keeps : within.

(** ** Handlers *)
Lemma exit_routine_keeps a : keeps (exit_routine a).
Proof. keep. Qed.
#[local] Hint Resolve exit_routine_keeps : within.

Lemma send_next_keeps n socket io : device socket → keeps (send_next_request n socket io).
Proof.
  intros Hd. assert (∀ p t, keeps (send_to socket (create_io_operation_package p t))) as Hs.
  { intros p t. eapply send_keeps; [intros q; apply build_opcode | auto]. }
  keep.
Qed.

Lemma process_pending_io_keeps n socket : device socket → keeps (process_pending_io n socket).
Proof.
  intros Hd. pose proof (λ l io, send_next_keeps l socket io Hd) as Hs. unfold process_pending_io. keep.
Qed.

Lemma search_status_device l n first :
  (∀ key c, (key, c) ∈ l → device (atoi key)) → (found first = true → device (status_socket_id first)) →
  found (search_status l n first) = true → device (status_socket_id (search_status l n first)).
Proof.
  revert first. induction l as [|[key c] l IH]; intros first Hl Hf; cbn [search_status]; [done|].
  assert (∀ first', (found first' = true → device (status_socket_id first')) →
            found (search_status l n first') = true → device (status_socket_id (search_status l n first'))) as Hr.
  { intros first'. apply IH. intros key' c' Hin. apply (Hl key' c'). by right. }
  assert (device (atoi key)) as Hkey by (apply (Hl key c); by left).
  case_decide; [|by apply Hr]. destruct (bool_decide _); [|done]. apply Hr. by destruct (found first) eqn:E; [rewrite E; auto|].
Qed.

Lemma status_keeps {A} n (f : t_io_connection_status → M (t_kernel Srv) A) :
  (∀ st, (found st = true → device (status_socket_id st)) → keeps (f st)) →
  keeps (get_io_connection_status_by_device_name n ≫= f).
Proof.
  intros Hf. split. intros k a k' H Hk. refine (within_run (Hf _ _) _ _ _ H Hk).
  apply search_status_device; [|done]. intros key c Hin. destruct (d_connections _ Hk key) as (s & Hs & ->).
  - exists c. apply elem_of_map_to_list. by rewrite <- dictionary_elements_spec.
  - rewrite atoi_string_itoa; auto.
Qed.

Lemma io_syscall_keeps p pc_ t n : keeps (handle_io_process_syscall p pc_ t n).
Proof.
  unfold handle_io_process_syscall. apply within_bind; [apply _ | keep | intros _].
  apply status_keeps. intros st Hst. destruct (found st); cbn [negb]; [|keep].
  pose proof (process_pending_io_keeps n _ (Hst eq_refl)). keep.
Qed.
#[local] Hint Resolve io_syscall_keeps : within.

Lemma dispatch_client_keeps id package : keeps (handle_dispatch_client kernel_config id package).
Proof. keep. Qed.

Lemma io_client_keeps socket package : device socket → keeps (handle_io_client socket package).
Proof.
  intros Hd. assert (∀ n, keeps (pthread_create (T_process_new_device socket n))) as H1 by (intros; by apply create_thread_keeps).
  assert (∀ n p, keeps (pthread_create (T_io_completion socket n p))) as H2 by (intros; by apply create_thread_keeps).
  keep.
Qed.

Lemma disconnected_keeps socket : keeps (io_disconnected kernel_config socket).
Proof. unfold io_disconnected. keep. Qed.

Lemma run_thread_keeps t : thread_device t → keeps (run_thread kernel_config t).
Proof.
  intros Ht. destruct t as [| | | |p| | | |socket n|socket n p]; cbn [run_thread]; try solve [keep].
  - pose proof (process_pending_io_keeps n socket Ht). pose proof (create_io_connection_keeps socket n Ht).
    unfold process_new_device. keep.
  - pose proof (process_pending_io_keeps n socket Ht). unfold io_completion. keep.
Qed.

(** What comes from outside the kernel and its CPUs comes from a device. *)
Definition from_device (e : k_event) : Prop :=
  match e with Ev_io_package socket _ | Ev_io_disconnected socket => device socket | _ => True end.

Lemma event_keeps_devices e k u k' :
  from_device e → handle_event kernel_config e k = Ok (u, k') → to_devices k → to_devices k'.
Proof.
  intros He.
  destruct e as [i|id package|socket package|socket]; cbn [handle_event].
  - unfold mbind at 1, M_bind at 1, gets at 1. destruct (threads k !! i) as [t|] eqn:Ht; [|by intros [= _ <-]].
    intros H Hk. bind_inv H. injection E as _ <-.
    pose proof (d_threads _ Hk) as Hts. pose proof (Forall_lookup_1 _ _ _ _ Hts Ht) as Hd.
    eapply (within_run (run_thread_keeps t Hd)); [exact H|]. destruct Hk. constructor; try done.
    by apply Forall_delete.
  - apply (within_run (dispatch_client_keeps id package)).
  - apply (within_run (io_client_keeps socket package He)).
  - apply (within_run (disconnected_keeps socket)).
Qed.

Lemma main_keeps_devices sockets file n (memory : Srv) answers u k :
  Forall (λ s, interrupt s.2) sockets →
  kernel_main kernel_config sockets file n (initial_kernel memory answers) = Ok (u, k) → to_devices k.
Proof.
  intros Hs H. assert (keeps (kernel_main kernel_config sockets file n)) as Hm.
  { pose proof (connect_cpus_keeps sockets Hs). unfold kernel_main. keep. }
  eapply (within_run Hm); [exact H|]. split; cbn; [| |done..].
  - intros key [x Hx]. by rewrite lookup_empty in Hx.
  - intros id c Hx. by rewrite lookup_empty in Hx.
Qed.
End Sockets.
