(* ===== verification/KernelBoot.v ===== *)
(** * The start of the kernel establishes the invariant

    [kernel_main] initialises the semaphores, accepts the CPUs and creates
    the root process; from there on every event keeps the invariant. *)
From S2P Require Import Prelude Text Commons Enums Buffer Package Packages Config Semaphores Pcb.
From S2P Require Import Kernel Scheduler Handlers KernelInvariant KernelLogic KernelRules KernelSteps.
From S2P Require Import SchedulerSafety HandlersSafety.
From Stdlib Require Import Permutation.
Import Buffer Package ProcessState.

Section Boot.
Context {C : CommonsOps} {CL : CommonsLaws C} {Srv : Type} {MS : MemoryServer Srv} {Env : KernelEnv Srv}.
Context {Steady : SteadyServer Srv} (kernel_config : t_kernel_config) (exact : bool) (lic : license).
Context (Hpre : cfg_preemption_enabled kernel_config = true → may_preempt lic ∧ ∀ V q, may_leave lic V q).
Implicit Types (V : view) (D : gset string) (k : t_kernel Srv).

(** No process yet, and no CPU runs one. *)
Definition empty_view V : Prop :=
  v_ident V = ∅ ∧ v_lists V = mk_lists [] [] [] [] [] [] [] ∧ v_new_pid V = 0%Z.

(** The CPUs connected on [sockets] are free and have been sent nothing. *)
Record idle_cpus (sockets : list Z) V : Prop := {
  c_free : ∀ cpu x, v_running V !! cpu = Some x → x = (-1)%Z;
  c_sent : v_sent V = [];
  c_sockets : ∀ cpu socket, v_sockets V !! cpu = Some socket → socket ∈ sockets;
  c_distinct : NoDup sockets → ∀ cpu cpu' socket,
    v_sockets V !! cpu = Some socket → v_sockets V !! cpu' = Some socket → cpu = cpu' }.

(** The state while the CPUs connect. *)
Record booting (sockets : list Z) V k : Prop := {
  b_inv : inv exact V ∅ [] k;
  b_empty : empty_view V;
  b_idle : idle_cpus sockets V;
  b_connected : k_sems k !! sem_cpu_connected = Some 0%Z }.

Lemma booting_start (memory : Srv) answers :
  steady memory → (exact = true → Forall same_pid_answer answers) →
  safe (initialize_global_lists;; initialize_global_semaphores)
    (λ _ k, ∃ V, booting [] V k) (initial_kernel memory answers).
Proof.
  intros Hmem Ha. unfold safe. cbn. exists (mk_view ∅ (mk_lists [] [] [] [] [] [] []) 0 ∅ ∅ [] []). constructor; [|done| |done].
  2: { by constructor. }
  constructor; [by unfold view_of; cbn; rewrite !fmap_empty | by cbn; rewrite dom_empty_L | | exact Ha | exact Hmem].
  intros s Hs. exists 1%Z. rewrite expected_free by apply not_elem_of_nil.
  split; [|done]. destruct s as [[]| | | | |id|d]; try reflexivity; cbn in Hs; try done.
  rewrite lookup_empty in Hs. by destruct Hs.
Qed.

Lemma idle_cpus_connect sockets V cpu socket :
  idle_cpus sockets V →
  idle_cpus (sockets ++ [socket])
    (mk_view (v_ident V) (v_lists V) (v_new_pid V) (<[cpu := (-1)%Z]> (v_running V))
       (<[cpu := socket]> (v_sockets V)) (v_sent V) (v_log V)).
Proof.
  intros [Hf Hs Hk Hd]. constructor; vcbn.
  - intros c x. rewrite lookup_insert. case_decide; [by intros [= <-] | apply Hf].
  - done.
  - intros c x. rewrite lookup_insert, elem_of_app, list_elem_of_singleton. case_decide; [intros [= <-]; auto|].
    intros H'%Hk. auto.
  - intros [Hnd [Hn _]]%NoDup_app c c' x. rewrite !lookup_insert. repeat case_decide; subst; try done.
    + intros [= <-] H'%Hk. exfalso. by apply (Hn _ H'), list_elem_of_singleton.
    + intros H'%Hk [= <-]. exfalso. by apply (Hn _ H'), list_elem_of_singleton.
    + by apply Hd.
Qed.

Lemma booting_cpu sockets V k a b :
  booting sockets V k → safe (create_cpu_connection a b) (λ _ k', ∃ V', booting (sockets ++ [b]) V' k') k.
Proof.
  intros [Hk He Hi Hc]. unfold safe, create_cpu_connection, initialize_repository_cpu, on_k_sems, sem_init.
  step. commons. set (id := string_itoa _).
  pose proof (idle_cpus_connect _ _ id b Hi) as Hi'. set (W := mk_view _ _ _ _ _ _ _) in Hi'.
  exists W. constructor; [|exact He|exact Hi'|].
  2: { cbn. by rewrite lookup_insert_ne. }
  destruct Hk. constructor; try done; cbn.
  - unfold W. rewrite <- i_view. unfold view_of. cbn. f_equal; by rewrite fmap_insert.
  - intros s Hs. destruct (decide (s = sem_cpu_exec id)) as [->|Hne].
    + exists 1%Z. rewrite lookup_insert_eq, expected_free by apply not_elem_of_nil. done.
    + rewrite lookup_insert_ne by done. apply i_sems. destruct s; try done. cbn in *.
      by rewrite lookup_insert_ne in Hs by congruence.
Qed.

Lemma booting_cpus sockets seen V k :
  booting seen V k →
  safe (for_each sockets (λ s, create_cpu_connection s.2 s.1;; mret tt))
    (λ _ k', ∃ V', booting (seen ++ sockets.*1) V' k') k.
Proof.
  revert seen V k. induction sockets as [|s l IH]; intros seen V k Hb; cbn [for_each].
  - apply safe_ret. exists V. cbn. by rewrite app_nil_r.
  - apply safe_bind. apply safe_bind. eapply safe_mono; [by eapply booting_cpu|].
    intros id k' [V' Hb']. apply safe_ret. apply IH in Hb'. by rewrite <- app_assoc in Hb'.
Qed.

Lemma empty_good V : empty_view V → good exact V [].
Proof.
  intros (Hi & Hl & Hp). split.
  - by constructor; rewrite ?Hi, ?Hl, ?Hp.
  - intros _ a p s Ha. rewrite Hl in Ha. by apply not_elem_of_nil in Ha.
Qed.

(** The root process has id 0. *)
Lemma root_good V a :
  empty_view V →
  let W := v_set_ident a (0%Z, NEW) V in
  procs_ok W [a] ∧ good exact (v_set_list NEW (v_list NEW W ++ [a]) W) [].
Proof.
  intros (Hi & Hl & Hp) W.
  assert (procs_ok W [a]) as Hw.
  { constructor; unfold W; vcbn; rewrite ?Hi, ?Hl, ?Hp; try done.
    - by rewrite insert_empty, dom_singleton_L, elements_singleton.
    - intros [] b i Hb; by apply not_elem_of_nil in Hb.
    - intros b c i j. rewrite insert_empty, !lookup_singleton_Some. by intros [<- <-] [<- <-].
    - intros b i. rewrite insert_empty, lookup_singleton_Some. by intros [_ <-]. }
  split; [done|]. assert (v_ident W !! a = Some (0%Z, NEW)) as Ha by apply lookup_insert_eq.
  split.
  - rewrite <- (v_set_ident_id W a (0%Z, NEW)) at 2 by done. by eapply procs_ok_put.
  - intros _ b p s Hb. exfalso. unfold W in Hb. vcbn. rewrite Hl in Hb. by apply not_elem_of_nil in Hb.
Qed.

(** Where a run starts: no id but 0 has been given, and the CPUs, which were
    free, have at most been sent the first process. *)
Definition started_ok (sockets : list Z) k : Prop :=
  kernel_ok exact k ∧ new_pid k = 0%Z ∧
  ∃ V0, idle_cpus sockets V0 ∧ (∀ p, ¬ executing V0 p) ∧ rtc (cpu_move lic) V0 (view_of k).

Lemma settled_started {A} sockets V D (a : A) k :
  v_new_pid V = 0%Z → idle_cpus sockets V → (∀ p, ¬ executing V p) → settled exact lic V D [] [] a k →
  started_ok sockets k.
Proof.
  intros Hp Hi Hx (V' & Hk & Hg & [_ He _ Hc]). split; [by exists V', D|]. destruct Hk as [<- _ _ _ _].
  split; [by rewrite <- Hp|]. by exists V.
Qed.

Lemma safe_initialize_root_process n file sockets V D k :
  inv exact V D [] k → empty_view V → idle_cpus sockets V →
  safe (initialize_root_process kernel_config 0 n file) (λ _, started_ok sockets) k.
Proof.
  intros Hk He Hic. unfold initialize_root_process. autounfold with locks. go.
  eapply safe_pcb_create; [eassumption|]. intros a k1 _ Hk1.
  destruct (root_good V a He) as [Hw Hg]. set (W := v_set_ident a (0%Z, NEW) V) in *.
  do_lock. go. eapply safe_find_pcb_in_new; [eassumption | exact Hw | |].
  { intros b [Hb _]. unfold W in Hb. vcbn. destruct He as (_ & Hl & _). rewrite Hl in Hb. by apply not_elem_of_nil in Hb. }
  go. eapply safe_add_pcb_to_new; [eassumption|]. intros k2 Hk2. do_unlock. go.
  set (X := v_set_list NEW _ W) in *.
  assert (v_new_pid X = 0%Z) as Hp by apply He.
  assert (idle_cpus sockets X) as Hix by (by destruct Hic).
  assert (∀ p, ¬ executing X p) as Hxx.
  { intros p (b & Hb & _). unfold X, W in Hb. vcbn. rewrite list_of_set_ne in Hb by done.
    destruct He as (_ & Hl & _). rewrite Hl in Hb. by apply not_elem_of_nil in Hb. }
  eapply safe_mono; [by eapply (safe_run_long_scheduler kernel_config exact lic X X); eauto|].
  intros b k3 (V1 & Hk3 & Hg1 & He1). destruct b.
  - eapply safe_mono; [by eapply (safe_run_short_scheduler kernel_config exact lic Hpre V1 X); eauto|].
    intros u k4. by apply (settled_started sockets X D).
  - apply safe_ret, (settled_started sockets X D tt); [done..|]. by exists V1.
Qed.

Lemma sem_connected V D held k x :
  inv exact V D held k → inv exact V D held (set_k_sems (<[sem_cpu_connected := x]> (k_sems k)) k).
Proof.
  intros []. constructor; try done. intros s Hs. cbn. rewrite lookup_insert_ne; [by apply i_sems|].
  by intros <-.
Qed.

Lemma safe_kernel_main sockets file n (memory : Srv) answers :
  steady memory → (exact = true → Forall same_pid_answer answers) →
  safe (kernel_main kernel_config sockets file n) (λ _, started_ok sockets.*1) (initial_kernel memory answers).
Proof.
  intros Hmem Ha. unfold kernel_main.
  assert (∀ m : M (t_kernel Srv) unit, safe (initialize_global_lists;; initialize_global_semaphores)
            (λ _, safe m (λ _, started_ok sockets.*1)) (initial_kernel memory answers) →
          safe (initialize_global_lists;; initialize_global_semaphores;; m) (λ _, started_ok sockets.*1)
            (initial_kernel memory answers)) as Hassoc.
  { intros m. unfold safe, mbind, M_bind. by destruct (initialize_global_lists _) as [[[] k1]|]. }
  apply Hassoc. eapply safe_mono; [by apply booting_start|]. intros u k [V Hb]. apply safe_bind.
  unfold connect_to_cpus. apply safe_bind. eapply safe_mono; [by eapply booting_cpus|].
  intros u' k1 [V1 [Hk1 He1 Hi1 Hc1]]. unfold safe, process_enter, on_k_sems, sem_post, sem_wait. step.
  rewrite Hc1. cbn [k_sems set_k_sems]. rewrite lookup_insert_eq.
  eapply (safe_initialize_root_process n (Some file)); [|done|exact Hi1].
  apply (sem_connected _ _ _ (set_k_sems _ k1)). by apply sem_connected.
Qed.
End Boot.
