(* ===== verification/KernelMemory.v ===== *)
(** * The memory module is a steady server

    The kernel is verified against [SteadyServer]: from a steady state the
    memory module answers the kernel's requests, or dies, but does not hang.
    Here the memory module of this repository discharges it.  [shape] is what
    that takes: the semaphores as [held] says, the bitmaps as long as their
    pools, the next table id reset.  It is weaker than [mem_ready], which a
    KILL of a suspended process does not keep. *)
From S2P Require Import Prelude Commons Enums Buffer Package Packages Config Semaphores Bitmap.
From S2P Require Import Storage PageTable PageTableFacts Memoria MemoriaFacts Invariant Server.
From S2P Require Import KernelLogic.
Import Buffer Package FrameManager UserSpace SwapManager.

Definition room (p : t_pool) : Prop := (0 <= frames_total p <= zlen (bitmap p))%Z.

Record shape (held : list t_sem) (m : t_memoria) : Prop := {
  sh_sems : ∀ s, sems m !! s = Some (if decide (s ∈ held) then 0 else 1)%Z;
  sh_frames : room (frames m);
  sh_swap : room (swap_frames (swap m));
  sh_id : next_table_id m = 1%Z }.

(** Run with [held] taken, [o] ends with [held'] taken, or dies. *)
Definition from (held held' : list t_sem) {A} (o : Mem A) : Prop :=
  ∀ m, shape held m → safe o (λ _, shape held') m.

Definition fits_room {A} (o : M t_pool A) : Prop := ∀ p, room p → safe o (λ _, room) p.

Section Rules.
Implicit Types (held : list t_sem) (m : t_memoria).

Lemma from_bind held1 held2 held3 {A B} (o : Mem A) (f : A → Mem B) :
  from held1 held2 o → (∀ a, from held2 held3 (f a)) → from held1 held3 (o ≫= f).
Proof.
  intros Ho Hf m Hm. apply safe_bind. eapply safe_mono; [by apply Ho|]. intros a m' Hm'. by apply Hf.
Qed.
Lemma from_ret held {A} (a : A) : from held held (mret a).
Proof. by intros m. Qed.
Lemma from_gets held {A} (f : t_memoria → A) : from held held (gets f).
Proof. by intros m. Qed.
Lemma from_lift held {A} (r : res A) : quiet r → from held held (lift_res r).
Proof. intros Hr m Hm. by apply safe_lift. Qed.
Lemma from_crash held held' {A} c : good_crash c → from held held' (A := A) (crash_with c).
Proof. by intros Hc m. Qed.
Lemma from_modify held f : (∀ m, shape held m → shape held (f m)) → from held held (modify f).
Proof. intros Hf m Hm. by apply Hf. Qed.

Lemma from_lock held s : s ∉ held → from held (s :: held) (lock s).
Proof.
  intros Hs m Hm. unfold safe. rewrite lock_ok by (by rewrite (sh_sems _ _ Hm), decide_False).
  destruct Hm. constructor; try done. intros t. cbn. destruct (decide (s = t)) as [<-|Hne].
  - rewrite lookup_insert_eq, decide_True; [done | by left].
  - rewrite lookup_insert_ne by done. rewrite sh_sems0. f_equal. apply decide_ext. set_solver.
Qed.

Lemma from_unlock held s : s ∉ held → from (s :: held) held (unlock s).
Proof.
  intros Hs m Hm. unfold safe, unlock, on_sems, zoom, sem_post. step.
  rewrite (sh_sems _ _ Hm), decide_True by by left. destruct Hm. constructor; try done.
  intros t. cbn. destruct (decide (s = t)) as [<-|Hne].
  - by rewrite lookup_insert_eq, decide_False.
  - rewrite lookup_insert_ne by done. rewrite sh_sems0. f_equal. apply decide_ext. set_solver.
Qed.

Lemma from_load_ptr held {A} (p : ptr A) : from held held (load_ptr p).
Proof. destruct p; [apply from_ret | apply from_crash; by split | apply from_ret]. Qed.

Lemma from_deref held {A} (o : option A) : from held held (deref o).
Proof. destruct o; [apply from_ret | apply from_crash; by split]. Qed.

Lemma shape_processes held l m : shape held m → shape held (set_processes l m).
Proof. by intros []. Qed.
Lemma shape_out held x m : shape held m → shape held (set_out x m).
Proof. by intros []. Qed.

Lemma from_load_process held i : from held held (load_process i).
Proof. unfold load_process. eapply from_bind; [apply from_gets|]. intros. apply from_deref. Qed.

Lemma from_store_process held i p : from held held (store_process i p).
Proof.
  unfold store_process. eapply from_bind; [apply from_gets|]. intros l.
  case_decide; [apply from_modify; intros; by apply shape_processes | apply from_crash; by split].
Qed.

Lemma from_on_frames held {A} (o : M t_pool A) : fits_room o → from held held (on_frames o).
Proof.
  intros Ho m Hm. unfold safe, on_frames, zoom. pose proof (Ho (frames m) (sh_frames _ _ Hm)) as H.
  unfold safe in H. destruct (o (frames m)) as [[a p]|]; [|done]. by destruct Hm.
Qed.

(** Steps on the file of the swap area. *)
Lemma from_on_swap_file held {A} (o : M t_swap A) :
  (∀ s, safe o (λ _ s', swap_frames s' = swap_frames s) s) → from held held (on_swap o).
Proof.
  intros Ho m Hm. unfold safe, on_swap, zoom. specialize (Ho (swap m)). unfold safe in Ho.
  destruct (o (swap m)) as [[a s]|]; [|done]. destruct Hm. constructor; try done. cbn. by rewrite Ho.
Qed.

(** Steps on its frames. *)
Lemma from_on_swap_pool held {A} (o : M t_pool A) :
  fits_room o →
  from held held (on_swap (zoom swap_frames (λ p s, mk_swap (swap_file s) p (disk_capacity s)) o)).
Proof.
  intros Ho m Hm. unfold safe, on_swap, zoom. pose proof (Ho (swap_frames (swap m)) (sh_swap _ _ Hm)) as H.
  unfold safe in H. destruct (o (swap_frames (swap m))) as [[a p]|]; [|done]. by destruct Hm.
Qed.

Lemma from_on_space held {A} (o : M t_user_space A) : quiet_m o → from held held (on_space o).
Proof.
  intros Ho m Hm. unfold safe, on_space, zoom. specialize (Ho (space m)).
  destruct (o (space m)) as [[a u]|c] eqn:E; [by destruct Hm | by apply Ho].
Qed.
End Rules.

Create HintDb from discriminated.
#[export] Hint Resolve from_ret from_gets from_load_ptr from_deref from_load_process from_store_process
  from_lock from_unlock : from.
#[export] Hint Extern 1 (_ ∉ _) => (apply (bool_decide_unpack _); by vm_compute) : from.

Ltac from_step :=
  first
    [ solve [eauto with from] | apply from_lift; solve [eauto with quiet]
    | apply from_crash; by split
    | eapply from_bind; [|intros]
    | match goal with
      | |- from _ _ (if ?b then _ else _) => destruct b
      | |- from _ _ (match ?x with _ => _ end) => destruct x
      | |- from _ _ (let '(_, _) := ?x in _) => destruct x
      end ].
Ltac from := repeat from_step.

Section Pools.
Context {C : CommonsOps} {CL : CommonsLaws C}.

Lemma fits_clean_bits l bits : safe (clean_bits l) (λ _ bits', zlen bits' = zlen bits) bits.
Proof.
  unfold clean_bits. revert bits. induction l as [|i l IH]; intros bits; cbn [for_each]; [done|].
  apply safe_bind. destruct (decide (0 <= i < zlen bits)%Z) as [Hi|Hi].
  - unfold safe. rewrite clean_bit_ok by done. eapply safe_mono; [apply IH|].
    cbn. intros _ bits' H. by rewrite H, zset_zlen.
  - unfold safe, clean_bit, in_storage. step. rewrite decide_False by done. by split.
Qed.

Lemma fits_release l : fits_room (pool_release l).
Proof.
  intros p Hp. unfold pool_release. apply safe_bind. unfold safe, zoom.
  pose proof (fits_clean_bits l (bitmap p)) as H. unfold safe in H.
  destruct (clean_bits l (bitmap p)) as [[u b]|]; [|done]. unfold room in *. cbn. by rewrite H.
Qed.

Lemma fits_allocate n : fits_room (pool_allocate n).
Proof.
  intros p Hp. unfold safe, pool_allocate, zoom. step. case_decide; [done|].
  unfold room in *. rewrite scan_ok by lia. cbn. by rewrite set_all_zlen.
Qed.

Lemma fits_free_count : fits_room frame_get_free_count.
Proof. by intros p. Qed.
End Pools.
#[export] Hint Resolve fits_release fits_allocate fits_free_count : from.

Lemma quiet_recv n : quiet_m (recv n).
Proof. unfold recv. quiet. Qed.
Lemma quiet_recv_package : quiet_m recv_package.
Proof.
  assert (∀ n, quiet (buffer_create n)) as Hb by (intros; unfold buffer_create; quiet).
  assert (∀ d n b, quiet (buffer_add d n b)) as Ha by (intros; apply quiet_add).
  unfold recv_package. repeat first [ apply quiet_recv | quiet_step | apply Hb | apply Ha ].
Qed.

Section Requests.
Context {C : CommonsOps} {CL : CommonsLaws C} (config : t_memoria_config) (fs : t_file_system).
Context (d : nat) (Hcfg : config_ok config d).

Lemma from_find_process held x :
  sem_process_list ∉ held → from held held (process_manager_find_process x).
Proof. intros Hh. unfold process_manager_find_process. from. Qed.
Hint Resolve from_find_process : from.

Lemma from_release held l : from held held (on_frames (release_frames l)).
Proof. apply from_on_frames, fits_release. Qed.
Lemma from_allocate held n : from held held (on_frames (allocate_frames n)).
Proof. apply from_on_frames, fits_allocate. Qed.
Lemma from_swap_allocate held n : from held held (on_swap (swap_allocate_frames n)).
Proof. apply from_on_swap_pool, fits_allocate. Qed.
Lemma from_swap_release held l : from held held (on_swap (swap_release_frames l)).
Proof.
  destruct l; [apply from_on_swap_pool, fits_release | by apply from_on_swap_file].
Qed.
Lemma from_free_count held : from held held (on_frames frame_get_free_count).
Proof. apply from_on_frames, fits_free_count. Qed.
Lemma from_swap_write held f l n : from held held (on_swap (swap_write_frame config f l n)).
Proof.
  apply from_on_swap_file. intros s. unfold safe, swap_write_frame. step.
  destruct (swap_file s); [|done]. repeat (case_decide; [by try split|]). done.
Qed.
Lemma from_swap_read held f n : from held held (on_swap (swap_read_frame config f n)).
Proof.
  apply from_on_swap_file. intros s. unfold safe, swap_read_frame. step.
  destruct (swap_file s); [|done]. repeat (case_decide; [by try split|]). done.
Qed.
Lemma from_write held a l n : from held held (on_space (write_to_user_space config a l n)).
Proof. apply from_on_space. unfold write_to_user_space. quiet. Qed.
Lemma from_read held a n : from held held (on_space (read_from_user_space a n)).
Proof. apply from_on_space. unfold read_from_user_space. quiet. Qed.
Hint Resolve from_release from_allocate from_swap_allocate from_swap_release from_free_count
  from_swap_write from_swap_read from_write from_read : from.

Lemma from_copy_out held l k : from held held (copy_out config l k).
Proof. revert k. induction l as [|f l IH]; intros k; cbn [copy_out]; from. Qed.
Lemma from_copy_in held l k : from held held (copy_in config l k).
Proof. revert k. induction l as [|f l IH]; intros k; cbn [copy_in]; from. Qed.
Lemma from_dump held l file : from held held (dump_frames config fs l file).
Proof. revert file. induction l as [|f l IH]; intros file; cbn [dump_frames]; from. Qed.
Hint Resolve from_copy_out from_copy_in from_dump : from.

Lemma from_swap_out x : from [] [] (swap_out_process config x).
Proof. unfold swap_out_process. from. Qed.
Lemma from_swap_in x : from [] [] (swap_in_process config x).
Proof. unfold swap_in_process. cbv zeta. from. Qed.
Hint Resolve from_swap_out from_swap_in : from.

(** The tables of any list of frames can be built; the search for the last
    level ends. *)
Lemma from_tables held l :
  from held held (table ← on_table_id (init_page_table config); lift_res (assign_frames config table l (zlen l))).
Proof.
  intros m Hm. pose proof (sh_id _ _ Hm) as Hid. pose proof Hcfg as [].
  destruct (decide (zlen l <= 0)%Z) as [Hz|Hz].
  - apply safe_bind. unfold safe, on_table_id, zoom. rewrite Hid.
    rewrite (init_page_table_ok (ENTRADAS_POR_TABLA config)) with (d := d) by done.
    unfold lift_res, assign_frames. rewrite decide_True by done. by destruct Hm.
  - destruct (create_memory_table config d Hcfg m l Hid ltac:(lia)) as (t & Ht & Ha).
    apply safe_bind. unfold safe. rewrite Ht. unfold lift_res. by rewrite Ha.
Qed.

Lemma from_create_memory held size : from held held (create_memory config size).
Proof.
  unfold create_memory. cbv zeta. eapply from_bind; [apply from_free_count|]. intros free.
  case_decide; [from|]. eapply from_bind; [apply from_allocate|]. intros [l|]; [|from].
  rewrite list_size_spec. case_decide as E; [from|]. rewrite <- E.
  intros m Hm. pose proof (from_tables held l m Hm) as Ht. unfold safe, mbind, M_bind in *.
  destruct (on_table_id _ m) as [[t m1]|]; [|done].
  destruct (lift_res _ m1) as [[[b table] m2]|]; [|done].
  destruct b; [done|]. assert (from held held (on_frames (release_frames l);; mret (A := option (ptr t_page_table * ptr (list Z))) None)) as Hr by from.
  exact (Hr m2 Ht).
Qed.
Hint Resolve from_create_memory : from.

Lemma from_add_process held f : from held held (modify (λ m, set_processes (f m) m)).
Proof. apply from_modify. intros m. apply shape_processes. Qed.
Lemma from_add_dump held x : from held held (modify (add_dump x)).
Proof. apply from_modify. by intros m []. Qed.
Hint Resolve from_add_process from_add_dump : from.

Lemma from_create_process x n path :
  from [sem_process_creation] [sem_process_creation] (create_process config fs x n path).
Proof. unfold create_process. from. Qed.

Lemma from_delete_process x : from [] [] (process_manager_delete_process x).
Proof. unfold process_manager_delete_process, destroy_process_info. from. Qed.
Hint Resolve from_create_process from_delete_process : from.

(** ** An answer to each request *)
Definition answered {A} (o : Mem A) : Prop :=
  ∀ m, shape [] m → safe o (λ _ m', shape [] m' ∧ client_out m' ≠ []) m.

Lemma answered_bind {A B} (o : Mem A) (f : A → Mem B) :
  from [] [] o → (∀ a, answered (f a)) → answered (o ≫= f).
Proof.
  intros Ho Hf m Hm. apply safe_bind. eapply safe_mono; [by apply Ho|]. intros a m'. apply Hf.
Qed.

Lemma from_held_bind held1 {A B} (o : Mem A) (f : A → Mem B) m (Q : B → t_memoria → Prop) :
  from [] held1 o → (∀ a m', shape held1 m' → safe (f a) Q m') → shape [] m → safe (o ≫= f) Q m.
Proof.
  intros Ho Hf Hm. apply safe_bind. eapply safe_mono; [by apply Ho|]. intros a m'. apply Hf.
Qed.

Lemma answered_respond b : answered (respond (create_confirmation_package b)).
Proof.
  intros m Hm. unfold respond. apply safe_bind, safe_lift; [auto with quiet|]. intros p _.
  unfold safe. step. split; [by apply shape_out|]. cbn. unfold send_package. intros [_ H]%app_eq_nil.
  by apply (serialize_nonempty p).
Qed.
Hint Resolve answered_respond : from.

Ltac answered := repeat first
  [ solve [eauto with from]
  | apply answered_bind; [solve [from] | intros]
  | match goal with
    | |- answered (if ?b then _ else _) => destruct b
    | |- answered (match ?x with _ => _ end) => destruct x
    | |- answered (let '(_, _) := ?x in _) => destruct x
    end ].

Lemma quiet_read_pid : quiet_m (rewind;; buffer_read_int32).
Proof. unfold rewind. quiet; apply quiet_read_int32. Qed.
Hint Extern 1 (quiet (read_with _ _)) => (apply quiet_read_with, quiet_read_pid) : quiet.

Lemma answered_kill p : answered (delete_process_request_handler p).
Proof. unfold delete_process_request_handler. answered. Qed.
Lemma answered_swap p : answered (swap_request_handler config p).
Proof. unfold swap_request_handler. answered. Qed.
Lemma answered_unsuspend p : answered (unsuspend_process_request_handler config p).
Proof. unfold unsuspend_process_request_handler. answered. Qed.
Lemma answered_dump p : answered (dump_memory_request_handler config fs p).
Proof. unfold dump_memory_request_handler. answered. Qed.

Lemma quiet_read_init p : quiet (read_with read_init_process_package p).
Proof. unfold read_init_process_package. quiet_package. Qed.

Lemma answered_init p : answered (init_process_request_handler config fs p).
Proof.
  unfold init_process_request_handler. apply answered_bind; [apply from_lift, quiet_read_init|].
  intros args m Hm. eapply from_held_bind; [by apply from_lock, not_elem_of_nil | | done].
  intros u m1 H1. apply safe_bind. eapply safe_mono; [by apply from_create_process|].
  intros b m2 H2. apply safe_bind. eapply safe_mono; [apply from_unlock; [by apply not_elem_of_nil | done]|].
  intros u' m3 H3. by apply answered_respond.
Qed.

Lemma answered_dispatch p :
  kernel_request p → answered (dispatch config fs p).
Proof.
  intros (o & Ho & Hp) m Hm. unfold dispatch. rewrite Hp, Opcode.decode_code.
  assert (∀ (h : Mem unit), answered h → safe (h;; mret true) (λ _ m', shape [] m' ∧ client_out m' ≠ []) m) as Hh.
  { intros h Hh. apply safe_bind. eapply safe_mono; [by apply Hh|]. done. }
  unfold kernel_requests in Ho. rewrite !elem_of_cons in Ho.
  destruct Ho as [->|[->|[->|[->|[->|Ho]]]]]; [..|by apply not_elem_of_nil in Ho]; apply Hh.
  - apply answered_init.
  - apply answered_kill.
  - apply answered_dump.
  - apply answered_swap.
  - apply answered_unsuspend.
Qed.

(** What is received has the opcode of what was sent. *)
Lemma received_opcode p q rest :
  recv_package (serialize_package p) = Ok (Some q, rest) → opcode q = i32 (opcode p).
Proof.
  unfold serialize_package. set (bs := int32_bytes (stream_size _) ++ _). unfold recv_package.
  rewrite (M_bind_ok _ _ _ (Some (int32_bytes (opcode p))) bs).
  2:{ apply recv_app; [|done]. unfold zlen. by rewrite int32_bytes_length. }
  intros H. bind_inv H. destruct r as [size_bytes|]; [|done]. cbv beta iota zeta in H.
  case_decide; [done|]. bind_inv H. destruct r as [data|]; [|done].
  bind_inv H. bind_inv H. injection H as <- _. cbn. by rewrite int32_of_int32_bytes.
Qed.

(** ** The interface, discharged *)
#[export] Program Instance memoria_steady : SteadyServer t_memoria (MS := memoria_serve config fs) :=
  {| steady := shape [] |}.
Next Obligation.
  intros p m Hp Hm. unfold serve, memoria_serve.
  destruct (recv_package (serialize_package p)) as [[[q|] rest]|c] eqn:Hr;
    [ | done | by apply (quiet_recv_package (serialize_package p))].
  assert (kernel_request q) as Hq.
  { destruct Hp as (o & Ho & Hp). exists o. split; [done|]. rewrite (received_opcode _ _ _ Hr), Hp.
    apply i32_id, Opcode.code_in_i32. }
  pose proof (answered_dispatch q Hq (set_out [] m) (shape_out _ _ _ Hm)) as H. unfold safe in H.
  destruct (dispatch config fs q (set_out [] m)) as [[b m']|c]; [|done]. destruct H as [H Ho].
  rewrite decide_False by tauto.
  destruct (recv_package (client_out m')) as [[a r]|c] eqn:Ha; [by apply shape_out|].
  by apply (quiet_recv_package (client_out m')).
Qed.

(** *** The requests of the CPUs *)
Lemma from_respond held r : quiet r → from held held (respond r).
Proof.
  intros Hr. unfold respond. eapply from_bind; [by apply from_lift|]. intros p.
  apply from_modify. intros m. apply shape_out.
Qed.

Lemma quiet_create_instruction s : quiet (create_instruction_package s).
Proof. unfold create_instruction_package. quiet_package. Qed.
Lemma quiet_create_page_entry v l : quiet (create_page_entry_response_package v l).
Proof. unfold create_page_entry_response_package. quiet_package. Qed.
Lemma quiet_create_read_response data n : quiet (create_package_memory_read_response data n).
Proof. unfold create_package_memory_read_response. quiet_package. Qed.
Lemma quiet_read_fetch p : quiet (read_with read_fetch_package p).
Proof. unfold read_fetch_package. quiet_package. Qed.
Lemma quiet_read_page_entry p : quiet (read_with read_page_entry_request_package p).
Proof. unfold read_page_entry_request_package. quiet_package. Qed.
Lemma quiet_read_read_request p : quiet (read_with read_memory_read_request p).
Proof. unfold read_memory_read_request. quiet_package. Qed.
Lemma quiet_read_write_request p : quiet (read_with read_memory_write_request p).
Proof.
  unfold read_memory_write_request, create_memory_write_request, buffer_read_block.
  quiet_package; apply quiet_read.
Qed.
Hint Resolve from_respond from_write from_read : from.
Hint Resolve quiet_create_instruction quiet_create_page_entry quiet_create_read_response quiet_read_fetch
  quiet_read_page_entry quiet_read_read_request quiet_read_write_request : quiet.
Hint Extern 1 (quiet _) => solve [eauto with quiet] : from.

Lemma from_update held i f : from held held (update_process i f).
Proof. unfold update_process. from. Qed.
Hint Resolve from_update : from.

Lemma from_fetch p : from [] [] (get_instruction_request_handler p).
Proof. unfold get_instruction_request_handler. from. Qed.
Lemma from_page_walk p : from [] [] (handle_page_walk_request p).
Proof. unfold handle_page_walk_request. cbv zeta. from. Qed.
Lemma from_read_request p : from [] [] (read_memory_request_handler p).
Proof. unfold read_memory_request_handler. from. Qed.
Lemma from_write_request p : from [] [] (write_memory_request_handler config p).
Proof. unfold write_memory_request_handler. from. Qed.
Hint Resolve from_fetch from_page_walk from_read_request from_write_request : from.

Lemma from_answered {A} (o : Mem A) : answered o → from [] [] o.
Proof. intros Ho m Hm. eapply safe_mono; [by apply Ho|]. by intros a m' []. Qed.
Hint Resolve from_answered answered_init answered_kill answered_swap answered_unsuspend answered_dump : from.

Lemma from_dispatch p : from [] [] (dispatch config fs p).
Proof. unfold dispatch. from. Qed.

#[export] Instance memoria_shared : SharedServer t_memoria (MS := memoria_serve config fs) (Steady := memoria_steady).
Proof.
  intros p m r m' Hm H. unfold serve, memoria_serve in H.
  destruct (recv_package (serialize_package p)) as [[[q|] rest]|]; [|by injection H as _ <-|done].
  pose proof (from_dispatch q (set_out [] m) (shape_out _ _ _ Hm)) as Hd. unfold safe in Hd.
  destruct (dispatch config fs q (set_out [] m)) as [[b m1]|]; [|done]. case_decide; [done|].
  destruct (recv_package (client_out m1)) as [[a l]|]; [|done]. injection H as _ <-. by apply shape_out.
Qed.
End Requests.

(** A memory module that is ready is steady. *)
Lemma ready_steady config m : mem_ready config m → shape [] m.
Proof.
  intros [Hm Hc]. constructor; [|apply Hm..]. intros s. rewrite decide_False by apply not_elem_of_nil.
  destruct (decide (s = sem_process_creation)) as [->|Hs]; [done | by apply Hm].
Qed.
