(* ===== verification/System.v ===== *)
(** * The modules together: a kernel, its CPUs, and one memory module

    The kernel of Handlers.v and any number of CPUs of CpuThreads.v, on the
    memory module that all of them ask.  A step is an event of the kernel, a
    package that the kernel takes off the dispatch connection of a CPU, or a
    turn of a thread of a CPU; steps come in any order.  Every connection
    delivers what is sent, in order.  Devices are outside: their packages and
    disconnections can come at any moment.

    Interrupts travel to the CPUs, but their answers do not travel back: the
    answers the kernel gets are the ones it was started with.  The theorems
    are about kernels without preemption, which ask for none.  A module that
    dies ends the run. *)
From S2P Require Import Prelude Text Commons Enums Buffer Package Packages Config Semaphores Memoria Session.
From S2P Require Import Mmu Cache Execution CpuThreads Pcb Kernel Scheduler Handlers.
From Stdlib Require Import Strings.Byte.
Import Buffer Package.

(** The CPUs by the id of their connection. *)
Record t_system (S : Type) := mk_sys {
  y_kernel : t_kernel S;
  y_cpus : gmap string (t_cpu_system S) }.
Arguments mk_sys {S} _ _.
Arguments y_kernel {S} _.
Arguments y_cpus {S} _.

Inductive action :=
  | A_kernel (e : k_event)
  | A_receive (id : string)
  | A_cpu (id : string) (t : cpu_thread).

Section System.
Context {C : CommonsOps} {Srv : Type} {MS : MemoryServer Srv} {Env : KernelEnv Srv}.
Context (kernel_config : t_kernel_config).
Context (mmu_config : MMUConfig) (tlb_config : TLBConfig) (cache_config : CacheConfig).
Local Abbreviation System := (t_system Srv).
Local Abbreviation Cpu := (t_cpu_system Srv).

(** ** The connections *)
Definition packages_for (socket : Z) (l : list (Z * t_package)) : list t_package :=
  (filter (λ x, x.1 = socket) l).*2.

Definition deliver_to (c : t_cpu_connection) (l : list (Z * t_package)) (s : Cpu) : Cpu :=
  mk_system
    (set_dispatch_in (dispatch_in (sys_cpu s) ++ wire (packages_for (dispatch_socket_id c) l)) (sys_cpu s))
    (cpu_mutex s) (main_at s) (listener_at s)
    (interrupt_in s ++ wire (packages_for (interrupt_socket_id c) l)) (unpaired s).

(** What the kernel has sent arrives. *)
Definition deliver (y : System) : System :=
  let k := y_kernel y in
  mk_sys (set_sent [] k)
    (map_imap (λ id s, Some (match cpu_connections_dict k !! id with
                             | Some c => deliver_to c (sent k) s
                             | None => s
                             end)) (y_cpus y)).

Definition with_cpu (c : t_cpu Srv) (s : Cpu) : Cpu :=
  mk_system c (cpu_mutex s) (main_at s) (listener_at s) (interrupt_in s) (unpaired s).

(** The one memory module, as the CPU finds it in its turn. *)
Definition with_memory (m : Srv) (s : Cpu) : Cpu :=
  with_cpu (set_mmu (set_memory m (cpu_mmu (sys_cpu s))) (sys_cpu s)) s.

Definition memory_of (s : Cpu) : Srv := memory (cpu_mmu (sys_cpu s)).

(** ** The steps *)

(** Whether a thread waits for a package that has not been sent. *)
Definition waits (t : cpu_thread) (s : Cpu) : bool :=
  match t with
  | Main => match main_at s with
            | M_dispatch | M_confirm => bool_decide (dispatch_in (sys_cpu s) = [])
            | _ => false
            end
  | Listener => match listener_at s with L_recv => bool_decide (interrupt_in s = []) | _ => false end
  end.

Definition cpu_turns (id : string) (t : cpu_thread) (y : System) : res (option System) :=
  match y_cpus y !! id with
  | None => mret None
  | Some s =>
      if waits t s then mret None
      else
        o ← turn mmu_config tlb_config cache_config t (with_memory (k_memory (y_kernel y)) s);
        match o with
        | None => mret None
        | Some s => mret (Some (mk_sys (set_k_memory (memory_of s) (y_kernel y)) (<[id := s]> (y_cpus y))))
        end
  end.

Definition kernel_handles (e : k_event) (y : System) : res (option System) :=
  '(_, k) ← handle_event kernel_config e (y_kernel y);
  mret (Some (deliver (mk_sys k (y_cpus y)))).

(** One turn of the loop of the thread that serves a CPU. *)
Definition kernel_receives (id : string) (y : System) : res (option System) :=
  match y_cpus y !! id with
  | None => mret None
  | Some s =>
      if decide (dispatch_out (sys_cpu s) = []) then mret None
      else
        '(package, rest) ← recv_package (dispatch_out (sys_cpu s));
        match package with
        | None => mret None
        | Some p =>
            kernel_handles (Ev_cpu_package id p)
              (mk_sys (y_kernel y) (<[id := with_cpu (set_dispatch_out rest (sys_cpu s)) s]> (y_cpus y)))
        end
  end.

(** [None]: nothing to do for now.  What a CPU sends only comes by its
    connection. *)
Definition system_turn (a : action) (y : System) : res (option System) :=
  match a with
  | A_kernel (Ev_cpu_package _ _) => mret None
  | A_kernel e => kernel_handles e y
  | A_receive id => kernel_receives id y
  | A_cpu id t => cpu_turns id t y
  end.

(** The kernel starts with its CPUs connected, which start with the caches
    and TLBs in [mmus]. *)
Definition system_main (sockets : list (Z * Z)) (file : string) (program_size : Z) (memory : Srv)
    (mmus : string → t_mmu Srv) : res System :=
  '(_, k) ← kernel_main kernel_config sockets file program_size (initial_kernel memory []);
  mret (deliver (mk_sys k (map_imap (λ id _, Some (init_list_and_mutex (mmus id) [] [])) (cpu_connections_dict k)))).

(** [device] are the sockets of the devices. *)
Definition action_ok (device : Z → Prop) (a : action) : Prop :=
  match a with A_kernel (Ev_io_package s _) | A_kernel (Ev_io_disconnected s) => device s | _ => True end.

Inductive system_step (device : Z → Prop) (y y' : System) : Prop :=
  | takes_step a : action_ok device a → system_turn a y = Ok (Some y') → system_step device y y'.

(** The actions in order; one with nothing to do changes nothing. *)
Fixpoint system_run (l : list action) (y : System) : res System :=
  match l with
  | [] => mret y
  | a :: l => o ← system_turn a y; system_run l (default y o)
  end.

Lemma system_run_steps device l y y' :
  Forall (action_ok device) l → system_run l y = Ok y' →
  ∃ n, n <= length l ∧ nsteps (system_step device) n y y'.
Proof.
  intros Hl. revert y. induction Hl as [|a l Ha Hl IH]; intros y H; cbn in H.
  - injection H as ->. exists 0. split; [done | constructor].
  - destruct (system_turn a y) as [[y1|]|] eqn:E; [| |done]; cbn in H; apply IH in H as (n & Hn & Hs).
    + exists (S n). split; [cbn; lia|]. econstructor; [by eapply takes_step | done].
    + exists n. split; [cbn; lia | done].
Qed.
End System.
