(* ===== verification/SystemInvariant.v ===== *)
(** * The kernel and its CPUs agree

    [carries] says which process a CPU has, from the moment the kernel sends
    it until the kernel takes the system call with which it leaves.  In
    [agrees], no two CPUs have the same process, and the kernel has each CPU
    marked with the process it has, in EXEC.  The moves of the kernel
    ([cpu_move]) keep this, if a process leaves EXEC only when its CPU has
    asked for it. *)
From S2P Require Import Prelude Text Commons Enums Buffer Package Packages Roundtrip Config Semaphores Memoria Session.
From S2P Require Import Wire Mmu Cache Execution CpuThreads Pcb Kernel Scheduler Handlers System KernelInvariant.
From Stdlib Require Import Strings.Byte.
Import Buffer Package.

(** The CPU has no process, or does not have it yet. *)
Definition away (at_ : main_point) : Prop := at_ = M_dispatch ∨ at_ = M_interrupts true.

(** The process of a CPU, by where its main thread is, its [pid], and what is
    under way to it and from it. *)
Inductive carries (at_ : main_point) (pid_ : Z) (into out : list byte) : option Z → Prop :=
  | is_idle : away at_ → into = [] → out = [] → carries at_ pid_ into out None
  | is_sent p n package :
      away at_ → create_dispatch_package p n = Ok package → into = serialize_package package → out = [] →
      carries at_ pid_ into out (Some p)
  | has_received p n package :
      at_ = M_lock package → create_dispatch_package p n = Ok package → into = [] → out = [] →
      carries at_ pid_ into out (Some p)
  | is_running :
      at_ = M_cycle ∨ at_ = M_interrupts false → into = [] → out = [] → carries at_ pid_ into out (Some pid_)
  | is_calling s package :
      at_ = M_confirm → create_syscall_package s = Ok package →
      syscall_type s = SyscallType.code SyscallType.SYSCALL_INIT_PROC → syscall_pid s = pid_ →
      into = [] → out = serialize_package package → carries at_ pid_ into out (Some pid_)
  | has_answer package :
      at_ = M_confirm → create_confirmation_package true = Ok package → into = serialize_package package →
      out = [] → carries at_ pid_ into out (Some pid_)
  | is_leaving t s package :
      away at_ → create_syscall_package s = Ok package → syscall_type s = SyscallType.code t →
      t ≠ SyscallType.SYSCALL_INIT_PROC → into = [] → out = serialize_package package →
      carries at_ pid_ into out (Some (syscall_pid s)).

(** A main thread that is inside its loop carries the process it runs. *)
Lemma carried_inside at_ p into out a :
  match at_ with M_cycle | M_confirm | M_interrupts false => True | _ => False end →
  carries at_ p into out a → a = Some p.
Proof.
  intros Hat Hc. destruct Hc as [Ha _ _|? ? ? Ha _ _ _|? ? ? -> _ _ _| | | |? ? ? Ha _ _ _ _ _];
    try reflexivity; try contradiction; destruct Ha; subst; contradiction.
Qed.

(** What comes out of a CPU is a system call of the process it carries. *)
Lemma carried_call at_ p into out a :
  out ≠ [] → carries at_ p into out a →
  ∃ data package t, a = Some (syscall_pid data) ∧ create_syscall_package data = Ok package ∧
    syscall_type data = SyscallType.code t ∧ out = serialize_package package.
Proof.
  intros Hout [|? ? ? ? ? ? E|? ? ? ? ? ? E|? ? E|data package ? ? ? ? ? ?|? ? ? ? E|t data package ? ? ? ? ? ?].
  all: try (by destruct Hout).
  all: eexists _, _, _; split_and!; [|eassumption..]; congruence.
Qed.

(** A main thread that waits for a confirmation has asked for it. *)
Lemma carried_question p out a : carries M_confirm p [] out a → out ≠ [].
Proof.
  intros Hc ->. pose proof serialize_nonempty as Hne. inversion Hc; unfold away in *; subst; try naive_solver.
Qed.

(** What the kernel has sent to a CPU since the last delivery. *)
Definition arriving (V : view) (id : string) : list byte :=
  match v_sockets V !! id with Some socket => wire (packages_for socket (v_sent V)) | None => [] end.

Section Agreement.
Context {Srv : Type} (dispatch : Z → Prop).
Implicit Types (V : view) (cpus : gmap string (t_cpu_system Srv)) (act : gmap string Z).

Record agrees V cpus act : Prop := {
  a_carries : ∀ id s, cpus !! id = Some s →
    carries (main_at s) (cpu_pid (sys_cpu s)) (dispatch_in (sys_cpu s) ++ arriving V id) (dispatch_out (sys_cpu s))
      (act !! id);
  a_marked : ∀ id p, act !! id = Some p → v_running V !! id = Some p ∧ executing V p;
  a_injective : ∀ id id' p, act !! id = Some p → act !! id' = Some p → id = id';
  a_sockets : ∀ id socket, v_sockets V !! id = Some socket → dispatch socket;
  a_distinct : ∀ id id' socket, v_sockets V !! id = Some socket → v_sockets V !! id' = Some socket → id = id';
  a_sent : ∀ x, x ∈ v_sent V → dispatch x.1 }.

(** A process leaves EXEC only if it is the one that asked for it, and before
    anything is sent. *)
Definition asked_license (asked : option Z) : license :=
  {| may_leave V p := asked = Some p ∧ v_sent V = []; may_confirm := False; may_preempt := False |}.

(** The process that asked is on no CPU, as long as nothing was sent. *)
Definition gone (asked : option Z) V act : Prop :=
  v_sent V = [] → ∀ id p, asked = Some p → act !! id ≠ Some p.

Lemma packages_for_app socket l l' : packages_for socket (l ++ l') = packages_for socket l ++ packages_for socket l'.
Proof. unfold packages_for. by rewrite filter_app, fmap_app. Qed.

Lemma packages_for_one socket x :
  packages_for socket [x] = if decide (x.1 = socket) then [x.2] else [].
Proof. unfold packages_for. rewrite filter_cons. by case_decide. Qed.

Lemma wire_app l l' : wire (l ++ l') = wire l ++ wire l'.
Proof. apply bind_app. Qed.

Lemma wire_one p : wire [p] = serialize_package p.
Proof. unfold wire. cbn. by rewrite app_nil_r. Qed.

(** A package more is under way to one CPU. *)
Lemma arriving_more V V' id socket package id' :
  v_sockets V' = v_sockets V → v_sent V' = v_sent V ++ [(socket, package)] → v_sockets V !! id = Some socket →
  (∀ i j x, v_sockets V !! i = Some x → v_sockets V !! j = Some x → i = j) →
  arriving V' id' = arriving V id' ++ if decide (id = id') then serialize_package package else [].
Proof.
  intros Hs Hsent Hid Hd. unfold arriving. rewrite Hs, Hsent. case_decide as E.
  - subst id'. rewrite Hid, packages_for_app, packages_for_one, wire_app. cbn [fst snd].
    by rewrite decide_True, wire_one.
  - destruct (v_sockets V !! id') as [socket'|] eqn:Hid'; [|done].
    rewrite packages_for_app, packages_for_one, wire_app. cbn [fst snd].
    rewrite decide_False; [done|]. intros <-. by apply E, (Hd _ _ socket).
Qed.

Lemma arriving_same V V' id : v_sockets V' = v_sockets V → v_sent V' = v_sent V → arriving V' id = arriving V id.
Proof. intros Hs Hn. unfold arriving. by rewrite Hs, Hn. Qed.

(** What changes neither who is on a CPU nor what is sent. *)
Lemma agrees_same V V' cpus act :
  (∀ id p, act !! id = Some p → v_running V !! id = Some p → executing V p →
     v_running V' !! id = Some p ∧ executing V' p) →
  v_sockets V' = v_sockets V → v_sent V' = v_sent V → agrees V cpus act → agrees V' cpus act.
Proof.
  intros Hm Hs Hn []. constructor; rewrite ?Hs, ?Hn; try done.
  - intros id s Hid. rewrite (arriving_same V) by done. by apply a_carries0.
  - intros id p Hid. destruct (a_marked0 id p Hid). by apply Hm.
Qed.

Lemma busy_not_free V cpus act id y :
  agrees V cpus act → v_running V !! id = Some y → ¬ executing V y → act !! id = None.
Proof.
  intros H Hy Hn. destruct (act !! id) as [p|] eqn:E; [|done]. destruct (a_marked _ _ _ H id p E).
  exfalso. apply Hn. congruence.
Qed.

Lemma dispatch_agrees V V' cpus act id y socket p n package :
  agrees V cpus act → v_running V !! id = Some y → ¬ executing V y → ¬ executing V p →
  v_sockets V !! id = Some socket → create_dispatch_package p n = Ok package →
  (∀ q, executing V' q ↔ executing V q ∨ q = p) → v_running V' = <[id := p]> (v_running V) →
  v_sockets V' = v_sockets V → v_sent V' = v_sent V ++ [(socket, package)] → agrees V' cpus (<[id := p]> act).
Proof.
  intros H Hy Hn Hnp Hsock Hpk Hx Hr Hs Hsent. pose proof (busy_not_free _ _ _ _ _ H Hy Hn) as Hfree.
  destruct H. constructor; rewrite ?Hs, ?Hsent, ?Hr; try done.
  - intros id' s Hid'. rewrite (arriving_more V V' id socket package) by done. pose proof (a_carries0 id' s Hid') as Hc.
    destruct (decide (id = id')) as [<-|Hne].
    + rewrite Hfree in Hc. rewrite lookup_insert_eq, app_assoc. inversion Hc as [Ha Hi Ho| | | | | |].
      rewrite Hi. by eapply is_sent.
    + by rewrite app_nil_r, lookup_insert_ne.
  - intros id' q. rewrite !lookup_insert_Some. intros [[<- <-]|[Hne Hq]]; [split; [by left | rewrite Hx; by right]|].
    destruct (a_marked0 id' q Hq). split; [by right | rewrite Hx; by left].
  - intros i j q. rewrite !lookup_insert_Some. intros [[<- <-]|[Hi Hq]] [[<- E]|[Hj Hq']]; subst; try done.
    + by apply a_marked0 in Hq' as [_ ?].
    + by apply a_marked0 in Hq as [_ ?].
    + by eapply a_injective0.
  - intros x [?| ->%list_elem_of_singleton]%elem_of_app; [by apply a_sent0 | by eapply a_sockets0].
Qed.

Lemma move_agrees asked V V' cpus act :
  cpu_move (asked_license asked) V V' → agrees V cpus act → gone asked V act →
  ∃ act', agrees V' cpus act' ∧ gone asked V' act'.
Proof.
  intros Hmove H Hg. destruct Hmove as [Hx Hr Hs Hn|p [Hp Hsent] Hx Hr Hs Hn|id y Hy Hny Hx Hr Hs Hn
    |id y socket p n package Hy [[]|Hny] Hnp Hsock Hpk Hx Hr Hs Hn|socket package [] _ _ _ _ _].
  - exists act. split; [|unfold gone; by rewrite Hn]. apply (agrees_same V); [|done..].
    intros id p _. by rewrite Hr, Hx.
  - exists act. split; [|unfold gone; by rewrite Hn]. apply (agrees_same V); [|done..].
    intros id q Hid. rewrite Hr, Hx. intros ? ?. split_and!; [done..|]. intros ->. by apply (Hg Hsent id p Hp).
  - exists act. split; [|unfold gone; by rewrite Hn]. apply (agrees_same V); [|done..].
    intros id' q Hid'. rewrite Hr, Hx. intros ? ?. split; [|done]. rewrite lookup_insert_ne; [done|].
    intros <-. by rewrite (busy_not_free V cpus act id y) in Hid'.
  - exists (<[id := p]> act). split; [by eapply dispatch_agrees|]. unfold gone. rewrite Hn.
    by intros [_ ?]%app_eq_nil.
Qed.

Lemma moves_agree asked V V' cpus act :
  rtc (cpu_move (asked_license asked)) V V' → agrees V cpus act → gone asked V act →
  ∃ act', agrees V' cpus act'.
Proof.
  intros Hm. revert act. induction Hm as [V|V W V' Hw _ IH]; intros act H Hg; [by exists act|].
  destruct (move_agrees asked V W cpus act Hw H Hg) as (act' & H' & Hg'). by eapply IH.
Qed.
End Agreement.
