(* ===== verification/SystemCpu.v ===== *)
(** * A turn of a CPU in the system

    A turn takes a CPU that has a process through the stages of [carries]; it
    keeps the process or, when memory no longer answers, drops it.  Memory
    stays steady. *)
From S2P Require Import Prelude Text Commons Enums Buffer Package Packages Roundtrip Config Semaphores Memoria Session.
From S2P Require Import Wire Mmu Cache Execution ExecutionFacts CpuFrame CpuThreads CpuConcurrency.
From S2P Require Import Pcb Kernel Scheduler Handlers System KernelInvariant KernelLogic SystemInvariant.
From Stdlib Require Import Strings.Byte.
Import Buffer Package InstructionCode.

Section Turns.
Context {C : CommonsOps} {CL : CommonsLaws C} {Srv : Type} {MS : MemoryServer Srv}.
Context {Steady : SteadyServer Srv} {Shared : SharedServer Srv}.
Context (mmu_config : MMUConfig) (tlb_config : TLBConfig) (cache_config : CacheConfig).
Local Abbreviation Cpu := (t_cpu_system Srv).
Implicit Types (s : Cpu) (c : t_cpu Srv).

(** No interrupt ever came: the listener waits, and the lock is the main
    thread's. *)
Record cpu_ready s : Prop := {
  r_listener : listener_at s = L_recv;
  r_interrupts : interrupt_in s = [];
  r_list : interrupt_list (sys_cpu s) = [];
  r_mutex : (cpu_mutex s + Z.b2z (main_inside (main_at s)) = 1)%Z;
  r_paired : unpaired s = 0%Z }.

Definition cpu_carries s (a : option Z) : Prop :=
  carries (main_at s) (cpu_pid (sys_cpu s)) (dispatch_in (sys_cpu s)) (dispatch_out (sys_cpu s)) a.

Definition memory_steady c : Prop := steady (memory (cpu_mmu c)).

(** What a turn leaves. *)
Definition turned s (a : option Z) s' : Prop :=
  (∃ a', cpu_carries s' a' ∧ (a' = a ∨ a' = None)) ∧ cpu_ready s' ∧
  (memory_steady (sys_cpu s) → memory_steady (sys_cpu s')).

Lemma undisturbed_by {A} (m : M (t_cpu Srv) A) c a c' :
  within (undisturbed steady) m → m c = Ok (a, c') → undisturbed steady c c'.
Proof. intros Hm. by apply (within_run Hm). Qed.

Lemma serve_steadily p (m : Srv) r m' : steady m → serve p m = Ok (r, m') → steady m'.
Proof. apply serve_shared. Qed.

(** ** The parts of a turn *)
Lemma receives_dispatch s p n package s' :
  main_at s = M_dispatch → create_dispatch_package p n = Ok package → in_i32 p →
  dispatch_in (sys_cpu s) = serialize_package package → dispatch_out (sys_cpu s) = [] → cpu_ready s →
  main_receives s = Ok (Some s') → turned s (Some p) s'.
Proof.
  intros Hat Hpk Hp Hin Hout [] H. destruct (dispatch_arrives p n package Hp Hpk) as (Hop & Ht & _).
  unfold main_receives, zoom in H. rewrite Hin, <- (app_nil_r (serialize_package package)), Ht in H. cbn in H.
  unfold opcode_is in H. rewrite bool_decide_true in H by done. injection H as <-. split; [|split; [|done]].
  - exists (Some p). split; [|by left]. eapply has_received; [done..|by cbn].
  - constructor; cbn; try done. by rewrite Hat in r_mutex0.
Qed.

Lemma locks_dispatch s p n package s' :
  main_at s = M_lock package → create_dispatch_package p n = Ok package → in_i32 p →
  dispatch_in (sys_cpu s) = [] → dispatch_out (sys_cpu s) = [] → cpu_ready s →
  main_locks package s = Ok (Some s') → turned s (Some p) s'.
Proof.
  intros Hat Hpk Hp Hin Hout [] H. destruct (dispatch_arrives p n package Hp Hpk) as (_ & _ & Hr).
  unfold main_locks in H. case_decide; [|done]. rewrite Hr in H. cbn in H. injection H as <-. split; [|split; [|done]].
  - exists (Some p). split; [|by left]. apply is_running; cbn; auto.
  - constructor; cbn; try done. rewrite Hat in r_mutex0. cbn in r_mutex0. lia.
Qed.

(** A system call leaves its package, and the CPU keeps its process. *)
Lemma syscall_sent t (q : syscall_params) c u c' :
  send_syscall t q c = Ok (u, c') →
  ∃ data package, create_syscall_package data = Ok package ∧ syscall_type data = SyscallType.code t ∧
    syscall_pid data = cpu_pid c ∧ c' = set_dispatch_out (send_package (dispatch_out c) package) c.
Proof.
  intros H. unfold send_syscall, send_dispatch, lift_res in H. step_in H.
  match type of H with match match ?r with _ => _ end with _ => _ end = _ => destruct r as [package|] eqn:E end; [|done].
  injection H as _ <-. by eexists _, package.
Qed.

Lemma request_sent i c u c' :
  request_init_proc i c = Ok (u, c') →
  ∃ data package, create_syscall_package data = Ok package ∧
    syscall_type data = SyscallType.code SyscallType.SYSCALL_INIT_PROC ∧ syscall_pid data = cpu_pid c ∧
    c' = set_dispatch_out (send_package (dispatch_out c) package) (set_context (cpu_pid c) (i32 (cpu_pc c + 1)) c).
Proof.
  intros H. unfold request_init_proc in H. bind_inv H. bind_inv H. injection E as _ <-. unfold deref in E0.
  destruct (operand_string i); [|discriminate E0]. injection E0 as _ <-. by apply syscall_sent in H.
Qed.

Lemma execution_turn i c b c' :
  execution mmu_config tlb_config cache_config i c = Ok (b, c') → instruction_code i ≠ INIT_PROC →
  undisturbed steady c c' ∧ b = false ∨
  b = true ∧ ∃ t data package, t ≠ SyscallType.SYSCALL_INIT_PROC ∧ create_syscall_package data = Ok package ∧
    syscall_type data = SyscallType.code t ∧ syscall_pid data = cpu_pid c ∧ cpu_mmu c' = cpu_mmu c ∧
    dispatch_in c' = dispatch_in c ∧ interrupt_list c' = interrupt_list c ∧
    dispatch_out c' = send_package (dispatch_out c) package.
Proof.
  intros H Hi. destruct (execution_context _ _ _ _ _ _ _ H) as [_ Hy].
  destruct (yields i) as [[]|] eqn:E; [right| |by unfold yields in E; destruct (instruction_code i)].
  2:{ left. split; [|by apply Hy]. by eapply execution_undisturbed; [apply serve_steadily|..]. }
  split; [by apply Hy|]. unfold yields in E. unfold execution in H.
  destruct (instruction_code i); try discriminate E.
  - exists SyscallType.SYSCALL_IO. unfold exec_io in H. bind_inv H. bind_inv H. bind_inv H. injection H as _ <-.
    injection E0 as _ <-. unfold deref in E1. destruct (operand_string i); [|discriminate E1]. injection E1 as _ <-.
    apply syscall_sent in E2 as (data & package & ? & ? & ? & ->). exists data, package. split_and!; assumption || reflexivity || discriminate.
  - exists SyscallType.SYSCALL_DUMP_MEMORY. unfold exec_dump_memory in H. bind_inv H. bind_inv H. injection H as _ <-.
    injection E0 as _ <-. apply syscall_sent in E1 as (data & package & ? & ? & ? & ->). exists data, package. split_and!; assumption || reflexivity || discriminate.
  - exists SyscallType.SYSCALL_EXIT. unfold exec_exit in H. bind_inv H. bind_inv H. injection H as _ <-.
    injection E0 as _ <-. apply syscall_sent in E1 as (data & package & ? & ? & ? & ->). exists data, package. split_and!; assumption || reflexivity || discriminate.
Qed.

Lemma executes_instruction s s' :
  main_at s = M_cycle → dispatch_in (sys_cpu s) = [] → dispatch_out (sys_cpu s) = [] → cpu_ready s →
  main_executes mmu_config tlb_config cache_config s = Ok (Some s') → turned s (Some (cpu_pid (sys_cpu s))) s'.
Proof.
  intros Hat Hin Hout [] H. rewrite Hat in r_mutex0. cbn in r_mutex0. unfold main_executes in H.
  destruct (fetch (sys_cpu s)) as [[package c]|] eqn:Hf; [|done]. cbn in H.
  apply (undisturbed_by _ _ _ _ (fetch_undisturbed steady serve_steadily)) in Hf as [Um Ui Uo Ul Up].
  destruct package as [package|].
  2:{ injection H as <-. split; [|split; [|exact Um]].
      - exists None. split; [|by right]. apply is_idle; [by left | by cbn; rewrite Ui | by cbn; rewrite Uo].
      - constructor; cbn; rewrite ?Ul; try done; lia. }
  destruct (decode package) as [i|]; [|done]. cbn in H. case_decide as Hi.
  - destruct (request_init_proc i c) as [[u c']|] eqn:Hr; [|done]. injection H as <-.
    apply request_sent in Hr as (data & q & Hq & Ht & Hp & ->). split; [|split; [|exact Um]].
    + exists (Some (cpu_pid (sys_cpu s))). split; [|by left]. unfold cpu_carries. cbn. rewrite <- Up.
      eapply is_calling; [done | exact Hq | done | done | by rewrite Ui | by rewrite Uo, Hout].
    + constructor; cbn; rewrite ?Ul; try done; lia.
  - destruct (execution _ _ _ i c) as [[b c']|] eqn:He; [|done]. cbn in H. injection H as <-.
    apply execution_turn in He as [[[Vm Vi Vo Vl Vp] ->]|(-> & t & data & q & Ht & Hq & Htype & Hp & Hm & Hi' & Hl & Ho)]; [| |done].
    + split; [|split; [|intros ?; by apply Vm, Um]].
      * exists (Some (cpu_pid (sys_cpu s))). split; [|by left]. unfold cpu_carries. cbn. rewrite <- Up, <- Vp.
        apply is_running; [by right | by rewrite Vi, Ui | by rewrite Vo, Uo].
      * constructor; cbn; rewrite ?Vl, ?Ul; try done; lia.
    + split; [|split].
      * exists (Some (cpu_pid (sys_cpu s))). split; [|by left]. unfold cpu_carries. cbn. rewrite <- Up, <- Hp.
        eapply is_leaving; [by right | exact Hq | done | done | by rewrite Hi', Ui | by rewrite Ho, Uo, Hout].
      * constructor; cbn; rewrite ?Hl, ?Ul; try done; lia.
      * unfold memory_steady. cbn. rewrite Hm. exact Um.
Qed.

Lemma confirms s package s' :
  main_at s = M_confirm → create_confirmation_package true = Ok package →
  dispatch_in (sys_cpu s) = serialize_package package → dispatch_out (sys_cpu s) = [] → cpu_ready s →
  main_confirms s = Ok (Some s') → turned s (Some (cpu_pid (sys_cpu s))) s'.
Proof.
  intros Hat Hpk Hin Hout [] H. rewrite Hat in r_mutex0. destruct (confirmation_arrives package Hpk) as (Hop & Ht & Hr).
  unfold main_confirms, await_confirmation, recv_dispatch_package, zoom in H. step_in H.
  rewrite Hin, <- (app_nil_r (serialize_package package)), Ht in H. cbn in H.
  unfold opcode_is in H. rewrite bool_decide_true, Hr in H by done. injection H as <-. split; [|split; [|done]].
  - exists (Some (cpu_pid (sys_cpu s))). split; [|by left]. apply is_running; cbn; auto.
  - by constructor.
Qed.

Lemma interrupts s b s' a :
  main_at s = M_interrupts b → cpu_carries s a → cpu_ready s →
  main_interrupts mmu_config tlb_config cache_config b s = Ok (Some s') → turned s a s'.
Proof.
  intros Hat Hc [] H. rewrite Hat in r_mutex0. cbn in r_mutex0. unfold main_interrupts in H.
  rewrite handler_idle in H by done. cbn in H. rewrite orb_false_r in H. unfold cpu_carries in Hc. rewrite Hat in Hc.
  destruct b; injection H as <-; (split; [exists a; split; [|by left] | split; [|done]]);
    try (constructor; cbn; try done; lia); unfold cpu_carries; cbn.
  - inversion Hc as [Ha Hi Ho|p n q Ha Hq Hi Ho| |[]| | |t d q Ha Hq Ht Hn Hi Ho]; simplify_eq.
    + apply is_idle; [by left | done..].
    + eapply is_sent; [by left | done..].
    + eapply is_leaving; [by left | done..].
  - inversion Hc as [[] ?|? ? ? []| | | | |? ? ? []]; simplify_eq. apply is_running; auto.
Qed.

(** ** A whole turn *)
Lemma main_turned s a s' :
  cpu_carries s a → cpu_ready s → (∀ p, a = Some p → in_i32 p) → waits Main s = false →
  main_turn mmu_config tlb_config cache_config s = Ok (Some s') → turned s a s'.
Proof.
  intros Hc Hr Hb Hw H. unfold main_turn, waits in *. destruct (main_at s) as [|package| | |b] eqn:Hat.
  - apply bool_decide_eq_false in Hw. unfold cpu_carries in Hc. rewrite Hat in Hc.
    inversion Hc as [| p n package Ha Hpk Hi Ho| |[]| | |]; simplify_eq. eapply receives_dispatch; eauto.
  - unfold cpu_carries in Hc. rewrite Hat in Hc.
    inversion Hc as [[]|? ? ? []| p n q E Hpk Hi Ho|[]| | |? ? ? []]; simplify_eq. eapply locks_dispatch; eauto.
  - unfold cpu_carries in Hc. rewrite Hat in Hc.
    inversion Hc as [[]|? ? ? []| |? Hi Ho| | |? ? ? []]; simplify_eq. by apply executes_instruction.
  - apply bool_decide_eq_false in Hw. unfold cpu_carries in Hc. rewrite Hat in Hc.
    inversion Hc as [[]|? ? ? []| |[]| |package E Hpk Hi Ho|? ? ? []]; simplify_eq. by eapply confirms.
  - by eapply interrupts.
Qed.

Lemma listener_waits s : cpu_ready s → waits Listener s = true.
Proof. intros []. unfold waits. by rewrite r_listener0, r_interrupts0, bool_decide_true. Qed.
End Turns.
