(* ===== verification/SystemSafety.v ===== *)
(** * The agreement holds in every reachable state

    The start of the system establishes it, and every step keeps it: an
    event of the kernel, a system call that the kernel takes, a turn of a
    CPU. *)
From S2P Require Import Prelude Text Commons Enums Buffer Package Packages Roundtrip Config Semaphores Memoria Session.
From S2P Require Import Wire Mmu Cache Execution CpuThreads CpuConcurrency Pcb Kernel Scheduler Handlers.
From S2P Require Import KernelInvariant KernelLogic KernelRules KernelSteps SchedulerSafety HandlersSafety KernelSockets KernelBoot.
From S2P Require Import System SystemInvariant SystemCpu.
From Stdlib Require Import Strings.Byte.
Import Buffer Package.

Section Safety.
Context {C : CommonsOps} {CL : CommonsLaws C} {Srv : Type} {MS : MemoryServer Srv} {Env : KernelEnv Srv}.
Context {Steady : SteadyServer Srv} {Shared : SharedServer Srv}.
Context (kernel_config : t_kernel_config) (Hpre : cfg_preemption_enabled kernel_config = false).
Context (mmu_config : MMUConfig) (tlb_config : TLBConfig) (cache_config : CacheConfig).
Implicit Types (y : t_system Srv) (k : t_kernel Srv) (V : view) (act : gmap string Z).

(** Which sockets are whose. *)
Context (device dispatch interrupt : Z → Prop) (Hdevice : ∀ s, device s → in_i32 s).
Context (Hdispatch : ∀ s, dispatch s → ¬ device s ∧ ¬ interrupt s) (Hinterrupt : ∀ s, interrupt s → ¬ device s).

Local Abbreviation agrees := (agrees (Srv := Srv) dispatch).
Local Abbreviation to_devices := (to_devices device interrupt).

(** The kernel between two steps, with CPUs to which nothing is under way. *)
Record system_ok (bound : Z) y act : Prop := {
  y_kernel_ok : kernel_ok false (y_kernel y);
  y_bound : (new_pid (y_kernel y) <= bound)%Z;
  y_nothing_sent : sent (y_kernel y) = [];
  y_to_devices : to_devices (y_kernel y);
  y_agrees : agrees (view_of (y_kernel y)) (y_cpus y) act;
  y_ready : ∀ id s, y_cpus y !! id = Some s → cpu_ready s }.

Lemma no_preemption lic :
  cfg_preemption_enabled kernel_config = true → may_preempt lic ∧ ∀ V q, may_leave lic V q.
Proof. by rewrite Hpre. Qed.

(** ** Delivery *)
Lemma dispatched_packages k id c :
  to_devices k → dispatch (dispatch_socket_id c) → cpu_connections_dict k !! id = Some c →
  wire (packages_for (dispatch_socket_id c) (sent k)) = arriving (view_of k) id.
Proof.
  intros Hk Hc Hid. unfold arriving. cbn. rewrite lookup_fmap, Hid. cbn. unfold packages_for. do 2 f_equal.
  rewrite list_filter_filter. apply filter_ext_elem. intros x Hx. split; [|tauto]. intros E. split; [done|].
  pose proof (d_sent _ _ _ Hk) as Hs. rewrite Forall_forall in Hs. destruct (Hs x Hx) as [?|Hd]; [done|].
  rewrite E in Hd. by destruct (Hdispatch _ Hc).
Qed.

Lemma no_interrupts k c :
  to_devices k → (∀ x, x ∈ v_sent (view_of k) → dispatch x.1) → interrupt (interrupt_socket_id c) →
  packages_for (interrupt_socket_id c) (sent k) = [].
Proof.
  intros Hk Hv Hc. unfold packages_for. rewrite list_filter_none; [done|]. apply Forall_forall. intros x Hx E.
  pose proof (d_sent _ _ _ Hk) as Hs. rewrite Forall_forall in Hs. destruct (Hs x Hx) as [Hfor|Hd].
  - destruct (Hdispatch x.1) as [_ []]; [|by rewrite E]. apply Hv. cbn. by apply list_elem_of_filter.
  - rewrite E in Hd. by apply (Hinterrupt _ Hc).
Qed.

Lemma kernel_ok_unsent k : kernel_ok false k → kernel_ok false (set_sent [] k).
Proof.
  intros (V & D & [Hv Hr Hs Ha Hm] & Hp & He). subst V. exists (view_of (set_sent [] k)), D. split.
  - by constructor.
  - split; [|done]. destruct Hp. by constructor.
Qed.

Lemma kernel_ok_memory k m : kernel_ok false k → steady m → kernel_ok false (set_k_memory m k).
Proof. intros (V & D & [Hv Hr Hs Ha _] & Hg) Hm. exists V, D. split; [by constructor | done]. Qed.

Lemma kernel_ok_steady k : kernel_ok false k → steady (k_memory k).
Proof. intros (V & D & Hk & _). apply Hk. Qed.

Lemma deliver_ok bound k cpus act :
  kernel_ok false k → (new_pid k <= bound)%Z → to_devices k → agrees (view_of k) cpus act →
  (∀ id s, cpus !! id = Some s → cpu_ready s) → system_ok bound (deliver (mk_sys k cpus)) act.
Proof.
  intros Hk Hb Hd Ha Hr.
  assert (∀ id s', y_cpus (deliver (mk_sys k cpus)) !! id = Some s' → ∃ s, cpus !! id = Some s ∧ cpu_ready s' ∧
    main_at s' = main_at s ∧ cpu_pid (sys_cpu s') = cpu_pid (sys_cpu s) ∧
    dispatch_in (sys_cpu s') = dispatch_in (sys_cpu s) ++ arriving (view_of k) id ∧
    dispatch_out (sys_cpu s') = dispatch_out (sys_cpu s)) as Hl.
  { intros id s'. cbn. rewrite map_lookup_imap. destruct (cpus !! id) as [s|] eqn:Hs; [|done]. cbn. intros [= <-].
    exists s. split; [done|]. destruct (Hr id s Hs). destruct (cpu_connections_dict k !! id) as [c|] eqn:Hid.
    - assert (v_sockets (view_of k) !! id = Some (dispatch_socket_id c)) as Hc by (cbn; by rewrite lookup_fmap, Hid).
      split_and!; try done.
      + constructor; try done. cbn. rewrite no_interrupts; [by rewrite r_interrupts, app_nil_r | done | apply Ha|].
        by eapply d_interrupts.
      + cbn. by rewrite (dispatched_packages k id c) by (done || by eapply (a_sockets _ _ _ _ Ha)).
    - split_and!; try done. unfold arriving. cbn. rewrite lookup_fmap, Hid. cbn. by rewrite app_nil_r. }
  constructor; try done.
  - by apply kernel_ok_unsent.
  - by destruct Hd.
  - destruct Ha. constructor; try done.
    + intros id s' Hs'. destruct (Hl id s' Hs') as (s & Hs & _ & -> & -> & -> & ->).
      replace (arriving (view_of (y_kernel (deliver (mk_sys k cpus)))) id) with (@nil byte); [|].
      * rewrite app_nil_r. exact (a_carries id s Hs).
      * unfold arriving. cbn. by case_match.
    + by intros x ?%not_elem_of_nil.
  - intros id s' Hs'. by destruct (Hl id s' Hs') as (s & _ & ? & _).
Qed.

(** ** The kernel *)
Lemma event_spec asked bound k e u k' :
  kernel_ok false k → (new_pid k <= bound)%Z → (bound < 2147483647)%Z → to_devices k → from_device device e →
  licensed (asked_license asked) (view_of k) e → handle_event kernel_config e k = Ok (u, k') →
  kernel_ok false k' ∧ (new_pid k' <= bound + 1)%Z ∧ to_devices k' ∧
  rtc (cpu_move (asked_license asked)) (view_of k) (view_of k').
Proof.
  intros (V & D & Hk & Hg) Hn Hb Hd He Hl H. assert (view_of k = V) as <- by apply Hk.
  destruct (safe_run _ _ _ _ _ (safe_handle_event kernel_config false _ (no_preemption _) e _ D k Hk Hg ltac:(cbn; lia) Hl) H)
    as (V' & D' & Hk' & Hg' & _ & Hp & _ & Hm).
  assert (view_of k' = V') as <- by apply Hk'. cbn in Hp. split_and!; [by exists (view_of k'), D' | lia | | done].
  by eapply event_keeps_devices.
Qed.

(** An event after which the CPUs have what they had, or what they are
    sent. *)
Lemma handles_ok asked bound y act e y' :
  kernel_ok false (y_kernel y) → (new_pid (y_kernel y) <= bound)%Z → (bound < 2147483647)%Z →
  to_devices (y_kernel y) → agrees (view_of (y_kernel y)) (y_cpus y) act →
  (∀ id s, y_cpus y !! id = Some s → cpu_ready s) → gone asked (view_of (y_kernel y)) act →
  from_device device e → licensed (asked_license asked) (view_of (y_kernel y)) e →
  kernel_handles kernel_config e y = Ok (Some y') → ∃ act', system_ok (bound + 1) y' act'.
Proof.
  intros Hk Hn Hb Hd Ha Hr Hg He Hl H. unfold kernel_handles in H.
  destruct (handle_event _ e (y_kernel y)) as [[u k']|] eqn:E; [|done]. cbn in H. injection H as <-.
  destruct (event_spec asked bound _ e u k' Hk Hn Hb Hd He Hl E) as (Hk' & Hn' & Hd' & Hm).
  destruct (moves_agree _ _ _ _ _ _ Hm Ha Hg) as [act' Ha']. exists act'. by apply deliver_ok.
Qed.

(** ** Between two steps *)
Lemma system_carries bound y act id s :
  system_ok bound y act → y_cpus y !! id = Some s → cpu_carries s (act !! id).
Proof.
  intros H Hs. pose proof (a_carries _ _ _ _ (y_agrees _ _ _ H) id s Hs) as Hc.
  assert (arriving (view_of (y_kernel y)) id = []) as E.
  { unfold arriving. cbn. rewrite (y_nothing_sent _ _ _ H). by case_match. }
  by rewrite E, app_nil_r in Hc.
Qed.

Lemma system_pid bound y act id p :
  system_ok bound y act → (bound <= 2147483647)%Z → act !! id = Some p → in_i32 p.
Proof.
  intros H Hb Hp. destruct (a_marked _ _ _ _ (y_agrees _ _ _ H) id p Hp) as [_ (a & _ & Ha)].
  destruct (y_kernel_ok _ _ _ H) as (V & D & Hk & Hprocs & _). assert (view_of (y_kernel y) = V) as <- by apply Hk.
  pose proof (p_bound _ _ Hprocs a _ Ha) as Hr. cbn in Hr. pose proof (y_bound _ _ _ H). unfold in_i32. lia.
Qed.

(** A CPU changes, and [act] with it. *)
Lemma agrees_cpu V cpus act act' id s :
  agrees V cpus act →
  carries (main_at s) (cpu_pid (sys_cpu s)) (dispatch_in (sys_cpu s) ++ arriving V id) (dispatch_out (sys_cpu s))
    (act' !! id) →
  (∀ id' p, act' !! id' = Some p → act !! id' = Some p) → (∀ id', id' ≠ id → act' !! id' = act !! id') →
  agrees V (<[id := s]> cpus) act'.
Proof.
  intros [] Hc Hsub Hsame. constructor; try done.
  - intros id' s'. rewrite lookup_insert_Some. intros [[<- <-]|[Hne Hs']]; [done|].
    rewrite Hsame by done. by apply a_carries.
  - intros id' p Hp. by apply a_marked, Hsub.
  - intros i j p Hi Hj. by eapply a_injective; apply Hsub.
Qed.

(** ** System calls *)
Lemma init_proc_event id c package p V D k u k' :
  inv false V D [] k → good false V [] → (v_new_pid V < 2147483647)%Z →
  cpu_connections_dict k !! id = Some c → opcode package = Opcode.code Opcode.SYSCALL →
  (∀ r, read_with read_syscall_package package = Ok r →
     syscall_pid r = p ∧ SyscallType.decode (syscall_type r) = Some SyscallType.SYSCALL_INIT_PROC ∧
     ∃ n f, params r = InitProcParams n f) →
  handle_event kernel_config (Ev_cpu_package id package) k = Ok (u, k') →
  init_proc_post false p (dispatch_socket_id c) V u k'.
Proof.
  intros Hk Hg Hb Hc Ho Hr H. cbn [handle_event] in H. unfold handle_dispatch_client in H.
  rewrite (M_bind_ok _ _ _ (Some c) k) in H by (unfold get_cpu_connection_by_id, gets; commons; by rewrite Hc).
  rewrite bool_decide_true in H by done. unfold handle_cpu_syscall in H.
  destruct (read_with read_syscall_package package) as [r|] eqn:E; [|done].
  destruct (Hr r eq_refl) as (Hp & Hd & n & f & Hq).
  rewrite (M_bind_ok _ _ _ r k) in H by done. rewrite Hd, Hq, Hp in H. revert H.
  by apply safe_run, safe_handle_init_proc_post with (D := D).
Qed.

Lemma receives_call bound y act id s c p data package u k' :
  system_ok bound y act → (bound < 2147483647)%Z → y_cpus y !! id = Some s → act !! id = Some p →
  cpu_connections_dict (y_kernel y) !! id = Some c →
  main_at s = M_confirm → cpu_pid (sys_cpu s) = p → create_syscall_package data = Ok package →
  syscall_type data = SyscallType.code SyscallType.SYSCALL_INIT_PROC → syscall_pid data = p →
  dispatch_in (sys_cpu s) = [] →
  handle_event kernel_config (Ev_cpu_package id package) (y_kernel y) = Ok (u, k') →
  system_ok (bound + 1)
    (deliver (mk_sys k' (<[id := with_cpu (set_dispatch_out [] (sys_cpu s)) s]> (y_cpus y)))) act.
Proof.
  intros H Hb Hs Hact Hc Hat Hpid Hpk Ht Hp Hin Hev.
  pose proof (system_pid _ _ _ _ _ H ltac:(lia) Hact) as Hpi.
  destruct (syscall_arrives data package) as (Ho & _ & Hr); [by rewrite Ht; apply SyscallType.type_code_in_i32|by rewrite Hp|done|].
  pose proof (event_keeps_devices _ _ _ Hpre Hdevice (Ev_cpu_package id package) _ _ _ I Hev (y_to_devices _ _ _ H)) as Hd'.
  destruct (y_kernel_ok _ _ _ H) as (V & D & Hk & Hg). assert (view_of (y_kernel y) = V) as HV by apply Hk.
  pose proof (y_bound _ _ _ H) as Hn. assert (v_new_pid V = new_pid (y_kernel y)) as Hnp by (by rewrite <- HV).
  eapply (init_proc_event id c package p V D) in Hev as (V' & D' & Hk' & Hg' & Hp' & _ & Hx & Hrun & Hsock & Hsent);
    [|done|done|lia|done|done|].
  2:{ intros r Hread. destruct (Hr r Hread) as (E1 & E2 & E3). rewrite E1, Ht in E3 |- *.
      rewrite SyscallType.decode_type_code in E3 |- *. split_and!; [by rewrite E2 | done | by apply E3]. }
  assert (view_of k' = V') as HV' by apply Hk'. destruct (a_marked _ _ _ _ (y_agrees _ _ _ H) id p Hact) as [_ Hex].
  rewrite HV in Hex. destruct Hsent as [[? _]|(_ & confirmation & Hconf & Hsent)]; [done|].
  pose proof (y_agrees _ _ _ H) as Ha. rewrite HV in Ha.
  assert (v_sockets V !! id = Some (dispatch_socket_id c)) as Hsid by (rewrite <- HV; cbn; by rewrite lookup_fmap, Hc).
  assert (∀ id', arriving V id' = []) as Harr.
  { intros id'. unfold arriving. rewrite <- HV. cbn. rewrite (y_nothing_sent _ _ _ H). by case_match. }
  assert (∀ id', arriving V' id' = if decide (id = id') then serialize_package confirmation else []) as Harr'.
  { intros id'. rewrite (arriving_more V V' id (dispatch_socket_id c) confirmation id'); [by rewrite Harr|done..|apply Ha]. }
  apply deliver_ok.
  - by exists V', D'.
  - assert (v_new_pid V' = new_pid k') as E by (by rewrite <- HV'). lia.
  - done.
  - rewrite HV'. destruct Ha. constructor; rewrite ?Hrun, ?Hsock; try done.
    + intros id' s'. rewrite lookup_insert_Some, Harr'. intros [[<- <-]|[Hne Hs']].
      * rewrite decide_True, Hact by done. cbn. rewrite Hin, Hat, Hpid. by eapply has_answer.
      * rewrite decide_False by done. pose proof (a_carries id' s' Hs') as Hc'. by rewrite Harr in Hc'.
    + intros id' q Hq. rewrite Hx. by apply a_marked.
    + rewrite Hsent. intros x [?| ->%list_elem_of_singleton]%elem_of_app; [by apply a_sent | by eapply a_sockets].
  - intros id' s'. rewrite lookup_insert_Some. intros [[<- <-]|[_ Hs']]; [|by eapply y_ready].
    destruct (y_ready _ _ _ H id s Hs). by constructor.
Qed.

Lemma receives_leaving bound y act id s t data package y' :
  system_ok bound y act → (bound < 2147483647)%Z → y_cpus y !! id = Some s → act !! id = Some (syscall_pid data) →
  away (main_at s) → create_syscall_package data = Ok package → syscall_type data = SyscallType.code t →
  t ≠ SyscallType.SYSCALL_INIT_PROC → dispatch_in (sys_cpu s) = [] →
  kernel_handles kernel_config (Ev_cpu_package id package)
    (mk_sys (y_kernel y) (<[id := with_cpu (set_dispatch_out [] (sys_cpu s)) s]> (y_cpus y))) = Ok (Some y') →
  ∃ act', system_ok (bound + 1) y' act'.
Proof.
  intros H Hb Hs Hact Haw Hpk Ht Hne Hin Hev. set (p := syscall_pid data) in *.
  pose proof (system_pid _ _ _ _ _ H ltac:(lia) Hact) as Hpi.
  destruct (syscall_arrives data package) as (_ & _ & Hr); [by rewrite Ht; apply SyscallType.type_code_in_i32|done|done|].
  pose proof (y_agrees _ _ _ H) as Ha.
  eapply (handles_ok (Some p) bound _ (delete id act)); try exact Hev; try apply H; try assumption; try exact I; cbn [y_kernel y_cpus].
  - eapply agrees_cpu; [exact Ha| |intros id' q Hq|intros id' Hid'].
    + rewrite lookup_delete_eq. apply is_idle; [done| |done]. cbn. rewrite Hin. unfold arriving. cbn.
      rewrite (y_nothing_sent _ _ _ H). by case_match.
    + by apply lookup_delete_Some in Hq as [_ ?].
    + by rewrite lookup_delete_ne.
  - intros id' s'. rewrite lookup_insert_Some. intros [[<- <-]|[_ Hs']]; [|by eapply y_ready].
    destruct (y_ready _ _ _ H id s Hs). by constructor.
  - intros _ id' q [= <-] [Hid' Hq]%lookup_delete_Some. apply Hid'. by eapply (a_injective _ _ _ _ Ha).
  - intros r Hread. destruct (Hr r Hread) as (E1 & E2 & _). split.
    + split; [by rewrite E2|]. cbn. by rewrite (y_nothing_sent _ _ _ H).
    + rewrite E1, Ht, SyscallType.decode_type_code. intros [= ->]. done.
Qed.

Lemma receives_ok bound y act id y' :
  system_ok bound y act → (bound < 2147483647)%Z → kernel_receives kernel_config id y = Ok (Some y') →
  ∃ act', system_ok (bound + 1) y' act'.
Proof.
  intros H Hb Hev. unfold kernel_receives in Hev. destruct (y_cpus y !! id) as [s|] eqn:Hs; [|done].
  case_decide as Hout; [done|]. pose proof (system_carries _ _ _ _ _ H Hs) as Hc. unfold cpu_carries in Hc.
  assert (∀ package, transmissible package → dispatch_out (sys_cpu s) = serialize_package package →
    recv_package (dispatch_out (sys_cpu s)) = Ok (Some package, [])) as Hrecv.
  { intros package Hp ->. rewrite <- (app_nil_r (serialize_package package)). apply Hp. }
  inversion Hc as [|? ? ? ? ? ? Ho|? ? ? ? ? ? Ho|? ? Ho|data package Hat Hpk Ht Hp Hin Ho|? ? ? ? Ho|t data package Ha Hpk Ht Hne Hin Ho];
    try (by destruct Hout).
  - symmetry in H0. pose proof (system_pid _ _ _ _ _ H ltac:(lia) H0) as Hpi.
    destruct (syscall_arrives data package) as (_ & Htr & _); [by rewrite Ht; apply SyscallType.type_code_in_i32|by rewrite Hp|done|].
    rewrite (Hrecv package Htr Ho) in Hev. cbn [mbind res_bind] in Hev. unfold kernel_handles in Hev. cbn [y_kernel y_cpus] in Hev.
    destruct (handle_event _ _ _) as [[u k']|] eqn:E; [|done]. cbn in Hev. injection Hev as <-.
    destruct (a_marked _ _ _ _ (y_agrees _ _ _ H) id _ H0) as [Hm _]. cbn in Hm. rewrite lookup_fmap in Hm.
    destruct (cpu_connections_dict (y_kernel y) !! id) as [c|] eqn:Hcid; [|done].
    exists act. by eapply receives_call.
  - symmetry in H0. pose proof (system_pid _ _ _ _ _ H ltac:(lia) H0) as Hpi.
    destruct (syscall_arrives data package) as (_ & Htr & _); [by rewrite Ht; apply SyscallType.type_code_in_i32|done|done|].
    rewrite (Hrecv package Htr Ho) in Hev. cbn [mbind res_bind] in Hev. by eapply receives_leaving.
Qed.

(** ** Turns *)
Lemma turns_ok bound y act id t y' :
  system_ok bound y act → (bound <= 2147483647)%Z → cpu_turns mmu_config tlb_config cache_config id t y = Ok (Some y') →
  ∃ act', system_ok bound y' act'.
Proof.
  intros H Hb Hev. unfold cpu_turns in Hev. destruct (y_cpus y !! id) as [s|] eqn:Hs; [|done].
  pose proof (y_ready _ _ _ H id s Hs) as Hready. pose proof (system_carries _ _ _ _ _ H Hs) as Hc.
  destruct t; [|by rewrite listener_waits in Hev]. destruct (waits Main s) eqn:Hw; [done|].
  set (s0 := with_memory (k_memory (y_kernel y)) s) in *. cbn [turn] in Hev.
  destruct (main_turn _ _ _ s0) as [[s'|]|] eqn:E; [|done|done]. cbn in Hev. injection Hev as <-.
  assert (turned s0 (act !! id) s') as ((a & Hca & Ha) & Hr & Hm).
  { eapply main_turned; [exact Hc | | | exact Hw | exact E].
    - by destruct Hready.
    - intros p Hp. by eapply system_pid. }
  assert (steady (memory_of s')) as Hst by (apply Hm; apply (kernel_ok_steady _ (y_kernel_ok _ _ _ H))).
  exists (partial_alter (λ _, a) id act). pose proof (y_nothing_sent _ _ _ H) as Hns.
  pose proof (y_to_devices _ _ _ H) as Hd. constructor; cbn [y_kernel y_cpus]; try apply H.
  - apply kernel_ok_memory; [apply H | done].
  - by destruct Hd.
  - apply (agrees_cpu _ _ act).
    + apply H.
    + rewrite lookup_partial_alter_eq. replace (arriving _ id) with (@nil byte); [by rewrite app_nil_r|].
      unfold arriving. cbn. rewrite Hns. by case_match.
    + intros id' p. destruct (decide (id = id')) as [<-|Hne]; [|by rewrite lookup_partial_alter_ne].
      rewrite lookup_partial_alter_eq. destruct Ha as [->| ->]; congruence.
    + intros id' Hne. by rewrite lookup_partial_alter_ne.
  - intros id' s''. rewrite lookup_insert_Some. intros [[<- <-]|[_ ?]]; [done | by eapply y_ready].
Qed.
End Safety.
