(* ===== verification/KernelScenario.v ===== *)
(** * A small system, with its kernel

    The memory module of Scenario.v serves a kernel with one CPU or two,
    whose clock advances ten milliseconds between two readings: the concrete
    inputs on which the theorems of KernelProperties.v are applied. *)
From S2P Require Import Prelude Text Commons Enums Buffer Package Packages Config Semaphores.
From S2P Require Import Invariant Memoria Server Scenario KernelLogic KernelMemory.
From S2P Require Import Pcb Kernel Scheduler Handlers.
From Stdlib Require Import SpecFloat.
Import Buffer Package ProcessState.

#[export] Instance scenario_memory : MemoryServer t_memoria := memoria_serve config fs.
#[export] Instance scenario_steady : SteadyServer t_memoria := memoria_steady config fs depth config_good.

#[export] Instance scenario_env : KernelEnv t_memoria := {|
  gettimeofday n := (Z.of_nat n `div` 100, (Z.of_nat n `mod` 100) * 10000)%Z;
  connects _ := true;
  peer_alive _ := true |}.

(** The algorithms, whether there is preemption, [SLEEP_TIME], and
    [ALPHA = 1/2]. *)
Definition kernel_with (short long : Algorithm.PLANIFICATION_ALGORITHM) (preemption : bool) (sleep : Z) : t_kernel_config := {|
  memory_ip := "127.0.0.1"; memory_port := "8002";
  short_planification_algorithm := short; long_planification_algorithm := long;
  cfg_preemption_enabled := preemption; sleep_time := sleep;
  alpha := S754_finite false 4503599627370496 (-53); kernel_log_level := 0;
  cpu_dispatch_port := "30003"; cpu_interrupt_port := "30004"; io_port := "30002"; cpu_quantity := 1;
  default_estimated_cpu_burst_ms := 10000 |}.

Definition fifo : t_kernel_config := kernel_with Algorithm.FIFO Algorithm.FIFO false 1000.
Definition impatient : t_kernel_config := kernel_with Algorithm.FIFO Algorithm.FIFO false 0.
Definition smallest_first : t_kernel_config := kernel_with Algorithm.FIFO Algorithm.PMCP false 1000.
Definition sjf_preemptive : t_kernel_config := kernel_with Algorithm.SJF Algorithm.FIFO true 1000.

(** ** Packages, as the CPUs and the devices send them *)
Definition the (r : res t_package) : t_package :=
  match r with Ok p => p | Crash _ => mk_package 0 (mk_buffer 0 [] 0) end.

Definition syscall_of (t : SyscallType.SYSCALL_TYPE) (x pc_ : Z) (s : syscall_params) : t_package :=
  the (create_syscall_package {| syscall_type := SyscallType.code t; syscall_pid := x; syscall_pc := pc_; params := s |}).

Definition from_cpu t x pc_ s : k_event := Ev_cpu_package "1" (syscall_of t x pc_ s).
Definition new_device socket name : k_event := Ev_io_package socket (the (create_new_io_package name)).
Definition device_done socket name x : k_event := Ev_io_package socket (the (create_io_completion_package name x)).

(** ** States *)

(** After the start, with [sockets] the CPUs and [answers] what they will
    answer to interrupts, and after the events [l]. *)
Definition started (c : t_kernel_config) (sockets : list (Z * Z)) (answers : list (option t_package)) : t_kernel t_memoria :=
  ran (kernel_main c sockets "hola" 16) (initial_kernel booted answers).

Definition after (c : t_kernel_config) (l : list k_event) (k : t_kernel t_memoria) : t_kernel t_memoria :=
  ran (run_events c l) k.

(** What a state shows. *)
Definition in_lists (k : t_kernel t_memoria) : list (list Z) :=
  (λ s, (λ a, match pcbs k !! a with Some p => pid p | None => (-1)%Z end) <$> list_of s (lists k)) <$> all_states.
