(* ===== verification/SystemScenario.v ===== *)
(** * A small system of all the modules

    Process 0 ([padre]) creates process 1 ([hijo]), which asks for the disk
    and then creates process 2 ([nieto]); a kernel runs them on two CPUs, on
    the memory module of Scenario.v with these three scripts.  The concrete
    inputs on which the theorems of SystemProperties.v are applied. *)
From S2P Require Import Prelude Text Commons Enums Buffer Package Packages Config Semaphores Memoria Session.
From S2P Require Import Mmu Cache Execution Invariant Server Scenario DataServer CpuProperties CpuThreads.
From S2P Require Import Pcb Kernel Scheduler Handlers KernelLogic KernelMemory System KernelScenario.
Import Buffer Package ProcessState.

Definition family : t_file_system := {|
  script path :=
    if decide (path = "/scripts/padre") then Some ["INIT_PROC hijo 16"; "EXIT"]
    else if decide (path = "/scripts/hijo") then Some ["IO disk 20"; "INIT_PROC nieto 16"; "NOOP"; "EXIT"]
    else if decide (path = "/scripts/nieto") then Some ["NOOP"; "EXIT"]
    else None;
  dump_opens := true; dump_room := 1000 |}.

#[export] Instance family_memory : MemoryServer t_memoria := memoria_serve config family.
#[export] Instance family_steady : SteadyServer t_memoria := memoria_steady config family depth config_good.
#[export] Instance family_shared : SharedServer t_memoria := memoria_shared config family depth config_good.

Definition two_cpus : list (Z * Z) := [(100, 200); (101, 201)]%Z.
Definition disk_socket (s : Z) : Prop := s = 300%Z.

Abbreviation family_started := (system_main fifo two_cpus "padre" 16 booted (λ _, mmu_beside [] [] booted)).
Abbreviation family_run := (system_run fifo (mmu_config_of config) (tlb2 TLB_ALGO_FIFO) no_cache).
Abbreviation family_step := (system_step fifo (mmu_config_of config) (tlb2 TLB_ALGO_FIFO) no_cache disk_socket).

Definition system_at_rest : t_system t_memoria := mk_sys (initial_kernel booted []) ∅.
Definition reached (r : res (t_system t_memoria)) : t_system t_memoria :=
  match r with Ok y => y | Crash _ => system_at_rest end.
Definition family_begin : t_system t_memoria := reached family_started.
Definition family_after (l : list action) : t_system t_memoria := reached (family_run l family_begin).

Definition succeeds {A} (r : res A) : bool := match r with Ok _ => true | Crash _ => false end.

Lemma reached_ok r : succeeds r = true → r = Ok (reached r).
Proof. by destruct r. Qed.

Lemma family_begins : family_started = Ok family_begin.
Proof. apply reached_ok. vm_compute. reflexivity. Qed.

Lemma family_steps l :
  Forall (action_ok disk_socket) l → succeeds (family_run l family_begin) = true →
  ∃ n, n <= length l ∧ nsteps family_step n family_begin (family_after l).
Proof. intros Hl H. by apply system_run_steps; [|apply reached_ok]. Qed.

(** ** The runs *)
Abbreviation kernel_thread i := (A_kernel (Ev_thread i)).
Abbreviation cpu id := (A_cpu id Main).

(** Process 0 is on CPU 1, after it has created process 1, which is dispatched
    to CPU 2. *)
Definition both_busy : list action :=
  [A_kernel (new_device 300 "disk"); cpu "1"; cpu "1"; cpu "1"; A_receive "1"; cpu "1";
   kernel_thread 0; kernel_thread 0; cpu "2"; cpu "2"].

(** Process 1 has asked for the disk; its call is under way. *)
Definition call_under_way : list action := both_busy ++ [cpu "2"].

(** Process 0 is finished; process 1 has the disk's answer and is dispatched
    to CPU 1, where it creates process 2.  CPU 2 is still marked with it. *)
Definition stale_mark : list action :=
  call_under_way ++
  [A_receive "2"; cpu "1"; cpu "1"; cpu "1"; A_receive "1"; cpu "2"; A_kernel (device_done 300 "disk" 1);
   kernel_thread 1; kernel_thread 1; kernel_thread 1; kernel_thread 1; kernel_thread 1; kernel_thread 1;
   cpu "1"; cpu "1"; cpu "1"; A_receive "1"; cpu "1"; kernel_thread 0; kernel_thread 0].

Lemma the_runs_are_allowed :
  Forall (action_ok disk_socket) both_busy ∧ Forall (action_ok disk_socket) call_under_way ∧
  Forall (action_ok disk_socket) stale_mark.
Proof. unfold stale_mark, call_under_way, both_busy, app. split_and!; repeat constructor. Qed.

Lemma the_runs_succeed :
  succeeds (family_run both_busy family_begin) = true ∧ succeeds (family_run call_under_way family_begin) = true ∧
  succeeds (family_run stale_mark family_begin) = true.
Proof. vm_compute. auto. Qed.

(** What a CPU shows: where its main thread is, and its process. *)
Definition on_cpu (l : list action) (id : string) : option (main_point * Z) :=
  (λ s, (main_at s, cpu_pid (sys_cpu s))) <$> y_cpus (family_after l) !! id.

Definition marked (l : list action) (id : string) : option Z :=
  current_process_executing <$> cpu_connections_dict (y_kernel (family_after l)) !! id.

Lemma family_steady_booted : steady booted.
Proof. exact (ready_steady config booted booted_ready). Qed.
