(* ===== verification/KernelRuns.v ===== *)
(** * The runs of the kernel, proved

    What holds after the start and any sequence of events: processes in
    order, no hang, locks released, CPUs marked with what they run, and the
    seven-state diagram. *)
From S2P Require Import Prelude Text Commons Enums Buffer Package Packages Config Semaphores Storage PageTable.
From S2P Require Import MemoriaFacts Invariant Memoria Server Scenario KernelInvariant KernelLogic KernelMemory.
From S2P Require Import SchedulerSafety HandlersSafety KernelBoot Pcb Kernel Scheduler Handlers KernelScenario.
From Stdlib Require Import Permutation.
Import Buffer Package ProcessState.

(** Every PCB is in one list, the list of its state; ids are unique. *)
Record in_order {S} (k : t_kernel S) : Prop := {
  o_once : NoDup (placed (lists k));
  o_placed : ∀ a, a ∈ placed (lists k) ↔ is_Some (pcbs k !! a);
  o_state : ∀ s a p, a ∈ list_of s (lists k) → pcbs k !! a = Some p → current_state p = s;
  o_pids : ∀ a b p q, pcbs k !! a = Some p → pcbs k !! b = Some q → pid p = pid q → a = b;
  o_bound : ∀ a p, pcbs k !! a = Some p → (0 <= pid p <= new_pid k)%Z }.

(** The kernel from its start through a sequence of events. *)
Definition kernel_run {C : CommonsOps} {Srv} {MS : MemoryServer Srv} {Env : KernelEnv Srv}
    (c : t_kernel_config) (sockets : list (Z * Z)) (file : string) (n : Z) (events : list k_event)
    : M (t_kernel Srv) unit :=
  kernel_main c sockets file n;; run_events c events.

Section Runs.
Context {C : CommonsOps} {CL : CommonsLaws C} {Srv : Type} {MS : MemoryServer Srv} {Env : KernelEnv Srv}.
Context {Steady : SteadyServer Srv} (c : t_kernel_config).
Implicit Types (k : t_kernel Srv) (memory : Srv).

Lemma ident_lookup k a p : pcbs k !! a = Some p → v_ident (view_of k) !! a = Some (pid p, current_state p).
Proof. intros Ha. cbn. by rewrite lookup_fmap, Ha. Qed.

Lemma ident_inv k a x s :
  v_ident (view_of k) !! a = Some (x, s) → ∃ p, pcbs k !! a = Some p ∧ pid p = x ∧ current_state p = s.
Proof.
  cbn. rewrite lookup_fmap. destruct (pcbs k !! a) as [p|]; [|done]. intros [= <- <-]. by exists p.
Qed.

Lemma kernel_ok_in_order exact k : kernel_ok exact k → in_order k.
Proof.
  intros (V & D & Hk & Hp & _). assert (view_of k = V) as <- by apply Hk. clear Hk.
  pose proof (procs_ok_nodup _ _ Hp) as Hnd. rewrite app_nil_r in Hnd. constructor.
  - exact Hnd.
  - intros a. pose proof (p_perm _ _ Hp) as Hperm. rewrite app_nil_r in Hperm.
    change (placed (lists k)) with (placed (v_lists (view_of k))). rewrite Hperm, elem_of_elements, elem_of_dom.
    cbn. by rewrite lookup_fmap, fmap_is_Some.
  - intros s a p Ha Hpa. exact (p_state _ _ Hp _ _ _ Ha (ident_lookup _ _ _ Hpa)).
  - intros a b p q Ha Hb E. exact (p_pids _ _ Hp _ _ _ _ (ident_lookup _ _ _ Ha) (ident_lookup _ _ _ Hb) E).
  - intros a p Ha. exact (p_bound _ _ Hp _ _ (ident_lookup _ _ _ Ha)).
Qed.

(** Every move is allowed. *)
Definition any_license : license :=
  {| may_leave _ _ := True; may_confirm := True; may_preempt := True |}.

Lemma any_preempts : cfg_preemption_enabled c = true → may_preempt any_license ∧ ∀ V q, may_leave any_license V q.
Proof. done. Qed.

Lemma any_licensed l V : Forall (licensed any_license V) l.
Proof. apply Forall_forall. by intros [] _. Qed.

Lemma safe_kernel_run exact sockets file n events memory answers :
  steady memory → (exact = true → Forall same_pid_answer answers) →
  (Z.of_nat (length events) <= 2147483647)%Z →
  safe (kernel_run c sockets file n events)
    (λ _ k, kernel_ok exact k ∧ (new_pid k <= Z.of_nat (length events))%Z) (initial_kernel memory answers).
Proof.
  intros Hm Ha Hl. unfold kernel_run. apply safe_bind.
  eapply safe_mono; [by apply (safe_kernel_main c exact any_license any_preempts)|]. intros u k (Hk & Hn & _).
  eapply safe_mono; [eapply (safe_run_events c exact any_license any_preempts); [intros V; apply any_licensed | done | lia]|]. intros u' k' (Hk' & Hle & _).
  split; [done | lia].
Qed.

Lemma kernel_run_app sockets file n l1 l2 k :
  kernel_run c sockets file n (l1 ++ l2) k = (kernel_run c sockets file n l1;; run_events c l2) k.
Proof.
  unfold kernel_run, mbind, M_bind. destruct (kernel_main c sockets file n k) as [[u k']|]; [|done].
  revert k'. unfold run_events. induction l1 as [|e l1 IH]; intros k'; cbn; [done|].
  unfold mbind, M_bind. destruct (handle_event c e k') as [[u' k'']|]; [|done]. apply IH.
Qed.

(** C7: whatever happens after the start, every process is in exactly one
    list, the one of its state, and no two processes have the same id. *)
Theorem processes_stay_in_order sockets file n events memory answers u k :
  steady memory → (Z.of_nat (length events) <= 2147483647)%Z →
  kernel_run c sockets file n events (initial_kernel memory answers) = Ok (u, k) → in_order k.
Proof.
  intros Hm Hl Hr. apply (kernel_ok_in_order false).
  by eapply (safe_run _ _ _ _ _ (safe_kernel_run false sockets file n events memory answers Hm ltac:(done) Hl)).
Qed.

(** C9: a process keeps its id, and every change of state that the kernel
    prints is an edge of the seven-state diagram; between any two moments of
    a run those of a process lead, one by one, from its state at the first to
    its state at the second.  It leaves NEW for good, and never leaves EXIT. *)
Theorem processes_follow_the_diagram sockets file n l1 l2 memory answers u k1 v k2 a p :
  steady memory → (Z.of_nat (length (l1 ++ l2)) <= 2147483647)%Z →
  kernel_run c sockets file n l1 (initial_kernel memory answers) = Ok (u, k1) →
  run_events c l2 k1 = Ok (v, k2) → pcbs k1 !! a = Some p →
  ∃ q printed, pcbs k2 !! a = Some q ∧ pid q = pid p ∧ state_log k2 = state_log k1 ++ printed ∧
    Forall (λ x, transition x.1.2 x.2) printed ∧
    path (current_state p) (history (pid p) printed) (current_state q) ∧
    (current_state p = EXIT_L → current_state q = EXIT_L) ∧
    (current_state q = NEW → current_state p = NEW).
Proof.
  intros Hm Hl H1 H2 Ha. rewrite length_app in Hl.
  assert (Z.of_nat (length l1) <= 2147483647)%Z as Hl1 by lia.
  destruct (safe_run _ _ _ _ _ (safe_kernel_run false sockets file n l1 memory answers Hm ltac:(done) Hl1) H1) as [Hk Hn].
  assert (new_pid k1 + Z.of_nat (length l2) <= 2147483647)%Z as Hl2 by lia.
  destruct (safe_run _ _ _ _ _ (safe_run_events c false any_license any_preempts l2 k1 (λ V, any_licensed l2 V) Hk Hl2) H2) as (_ & _ & Hmv).
  destruct Hmv as (printed & Hlog & Hedges & Hpaths).
  destruct (Hpaths _ _ _ (ident_lookup _ _ _ Ha)) as (t & Ht & Hst).
  apply ident_inv in Ht as (q & Hq & Hpid & Hs). exists q, printed. subst t. split_and!; try done.
  - intros E. rewrite E in Hst. by apply exit_is_final, (path_rtc _ _ _ Hst).
  - intros E. by eapply never_new_again; [by eapply path_rtc|].
Qed.

(** C10: when every interrupted CPU answers that it was still running the
    process, all locks are released after each event and every process in
    EXEC is the one that some CPU is marked with. *)
Theorem locks_are_released sockets file n events memory answers u k :
  steady memory → (Z.of_nat (length events) <= 2147483647)%Z → Forall same_pid_answer answers →
  kernel_run c sockets file n events (initial_kernel memory answers) = Ok (u, k) →
  (∀ s, k_sems k !! sem_list s = Some 1%Z) ∧
  k_sems k !! sem_io_connections = Some 1%Z ∧ k_sems k !! sem_io_requests = Some 1%Z ∧
  k_sems k !! sem_cpu_connections = Some 1%Z ∧
  (∀ cpu, is_Some (cpu_connections_dict k !! cpu) → k_sems k !! sem_cpu_exec cpu = Some 1%Z) ∧
  (∀ d, is_Some (io_requests_link_dict k !! d) → k_sems k !! sem_io_requests_queue d = Some 1%Z) ∧
  (∀ a p, a ∈ exec_list (lists k) → pcbs k !! a = Some p →
     ∃ cpu x, cpu_connections_dict k !! cpu = Some x ∧ current_process_executing x = pid p).
Proof.
  intros Hm Hl Hans Hr.
  destruct (safe_run _ _ _ _ _ (safe_kernel_run true sockets file n events memory answers Hm ltac:(done) Hl) Hr)
    as [(V & D & Hk & Hp & He) _].
  assert (∀ s, known V D s → k_sems k !! s = Some 1%Z) as Hs.
  { intros s Hs. destruct (i_sems _ _ _ _ _ Hk s Hs) as (v & Hv & _ & Hx).
    rewrite (Hx eq_refl), expected_free in Hv by apply not_elem_of_nil. done. }
  assert (view_of k = V) as <- by apply Hk. assert (dom (io_requests_link_dict k) = D) as <- by apply Hk.
  split_and!; try (intros; by apply Hs).
  - intros cpu [x Hx]. apply Hs. cbn. rewrite lookup_fmap, Hx. by eexists.
  - intros d Hd. apply Hs. cbn. by apply elem_of_dom.
  - intros a p Ha Hpa. destruct (He eq_refl a _ _ Ha (ident_lookup _ _ _ Hpa)) as [cpu Hc].
    cbn in Hc. rewrite lookup_fmap in Hc. destruct (cpu_connections_dict k !! cpu) as [x|] eqn:E; [|done].
    injection Hc as Hc. by exists cpu, x.
Qed.
End Runs.

(** C8: the kernel of this repository, served by its memory module, never
    waits for itself and never loops: a run ends, or the kernel dies of
    something else (a NULL pointer, an index out of bounds, an abort). *)
Theorem kernel_never_hangs {C : CommonsOps} {CL : CommonsLaws C} {Env : KernelEnv t_memoria}
    memory_config fs d (Hconfig : config_ok memory_config d) kernel_config sockets file n events m answers :
  mem_ready memory_config m → (Z.of_nat (length events) <= 2147483647)%Z →
  match kernel_run (MS := memoria_serve memory_config fs) kernel_config sockets file n events
          (initial_kernel m answers) with
  | Ok _ => True
  | Crash e => e ≠ Deadlock ∧ e ≠ OutOfFuel
  end.
Proof.
  intros Hm Hl.
  pose proof (safe_kernel_run (Steady := memoria_steady memory_config fs d Hconfig) kernel_config false
    sockets file n events m answers (ready_steady _ _ Hm) ltac:(done) Hl) as H.
  unfold safe in H. by destruct (kernel_run _ _ _ _ _ _) as [[]|].
Qed.

(** ** Concrete runs *)
Definition is_ok {S A} (o : M S A) (s : S) : bool := match o s with Ok _ => true | Crash _ => false end.

Lemma ran_ok {S} (o : M S unit) (s : S) : is_ok o s = true → o s = Ok (tt, ran o s).
Proof. unfold is_ok, ran. by destruct (o s) as [[[] s']|]. Qed.

(** Two processes more, one more device, and an IO. *)
Definition some_events : list k_event :=
  [from_cpu SyscallType.SYSCALL_INIT_PROC 0 3 (InitProcParams 16 "hola"); Ev_thread 0;
   from_cpu SyscallType.SYSCALL_INIT_PROC 0 4 (InitProcParams 16 "hola"); Ev_thread 0;
   new_device 300 "disk"; Ev_thread 0].
Definition more_events : list k_event :=
  [from_cpu SyscallType.SYSCALL_IO 0 5 (IoParams 20 "disk"); Ev_thread 1;
   device_done 300 "disk" 0; Ev_thread 1; from_cpu SyscallType.SYSCALL_EXIT 1 6 NoParams].

Abbreviation fifo_run events := (kernel_run fifo [(100, 200)]%Z "hola" 16 events).
Abbreviation fresh_kernel answers := (initial_kernel booted answers).

Lemma fresh_steady : steady booted.
Proof. exact (ready_steady config booted booted_ready). Qed.

Lemma run_ok : fifo_run (some_events ++ more_events) (fresh_kernel [])
  = Ok (tt, ran (fifo_run (some_events ++ more_events)) (fresh_kernel [])).
Proof. apply ran_ok. vm_compute. reflexivity. Qed.

Lemma processes_stay_in_order_witness : in_order (ran (fifo_run (some_events ++ more_events)) (fresh_kernel [])).
Proof.
  eapply processes_stay_in_order; [exact fresh_steady | | exact run_ok]. vm_compute. discriminate.
Defined.

(** Process 0 was in EXEC and is back in READY, process 1 was in READY and is
    finished. *)
Definition k_before : t_kernel t_memoria := ran (fifo_run some_events) (fresh_kernel []).
Definition k_later : t_kernel t_memoria := ran (run_events fifo more_events) k_before.

Lemma before_ok : fifo_run some_events (fresh_kernel []) = Ok (tt, k_before).
Proof. unfold k_before. apply ran_ok. vm_compute. reflexivity. Qed.
Lemma later_ok : run_events fifo more_events k_before = Ok (tt, k_later).
Proof. unfold k_later. apply ran_ok. vm_compute. reflexivity. Qed.

Lemma before_and_later :
  in_lists k_before = [[]; [1; 2]; [0]; []; []; []; []]%Z ∧
  in_lists k_later = [[]; [2; 0]; []; []; []; []; [1]]%Z.
Proof. split; vm_compute; reflexivity. Qed.

Lemma processes_follow_the_diagram_witness :
  ∃ p q printed, pcbs k_before !! 1 = Some p ∧ current_state p = READY ∧ pcbs k_later !! 1 = Some q ∧
    current_state q = EXIT_L ∧ state_log k_later = state_log k_before ++ printed ∧
    path READY (history (pid p) printed) EXIT_L.
Proof.
  destruct (pcbs k_before !! 1) as [p|] eqn:Hp; [|vm_compute in Hp; discriminate Hp].
  destruct (processes_follow_the_diagram fifo [(100, 200)]%Z "hola" 16 some_events more_events booted []
    tt k_before tt k_later 1 p) as (q & printed & Hq & _ & Hlog & _ & Hpath & _).
  - exact fresh_steady.
  - vm_compute. discriminate.
  - exact before_ok.
  - exact later_ok.
  - exact Hp.
  - exists p, q, printed. assert (current_state <$> pcbs k_before !! 1 = Some READY) as E1 by (vm_compute; reflexivity).
    assert (current_state <$> pcbs k_later !! 1 = Some EXIT_L) as E2 by (vm_compute; reflexivity).
    rewrite Hp in E1. rewrite Hq in E2. injection E1 as E1. injection E2 as E2.
    rewrite E1, E2 in Hpath. exact (conj eq_refl (conj E1 (conj Hq (conj E2 (conj Hlog Hpath))))).
Defined.

(** What was printed: 0 was blocked, 1 dispatched, 0 woken, 1 ended. *)
Lemma later_printed : state_log k_later = state_log k_before ++
  [(0, EXEC, BLOCKED); (1, READY, EXEC); (0, BLOCKED, READY); (1, EXEC, EXIT_L)]%Z.
Proof. vm_compute. reflexivity. Qed.

Lemma locks_are_released_witness :
  k_sems (ran (fifo_run (some_events ++ more_events)) (fresh_kernel [])) !! sem_list READY = Some 1%Z.
Proof.
  generalize READY.
  eapply locks_are_released; [exact fresh_steady | | constructor | exact run_ok]. vm_compute. discriminate.
Defined.

Lemma kernel_never_hangs_witness :
  match fifo_run (some_events ++ more_events) (fresh_kernel []) with
  | Ok _ => True | Crash e => e ≠ Deadlock ∧ e ≠ OutOfFuel end.
Proof.
  apply (kernel_never_hangs config fs depth config_good fifo [(100, 200)]%Z "hola" 16 (some_events ++ more_events) booted []);
    [exact booted_ready | vm_compute; discriminate].
Defined.
