(* ===== verification/KernelBehaviour.v ===== *)
(** * What the operations of the kernel do, in the states they are meant for

    Each lemma runs one operation of Kernel.v from a state where nothing
    stands in its way, and gives the state it leaves; the functional
    properties of KernelProperties.v are put together from them. *)
From S2P Require Import Prelude Text Commons Enums Buffer Package Packages Config Semaphores Pcb.
From S2P Require Import Kernel Scheduler Handlers.
Import Buffer Package ProcessState.

Section Behaviour.
Context {C : CommonsOps} {CL : CommonsLaws C} {Srv : Type} {MS : MemoryServer Srv} {Env : KernelEnv Srv}.
Implicit Types (k : t_kernel Srv).

(** ** Locks *)
Lemma lock_runs s k : k_sems k !! s = Some 1%Z → lock s k = Ok (tt, set_k_sems (<[s := 0%Z]> (k_sems k)) k).
Proof. intros Hs. unfold lock, on_k_sems, zoom. by rewrite sem_wait_free. Qed.

Lemma unlock_runs s v k :
  k_sems k !! s = Some v → unlock s k = Ok (tt, set_k_sems (<[s := (v + 1)%Z]> (k_sems k)) k).
Proof. intros Hs. unfold unlock, on_k_sems, zoom, sem_post. step. by rewrite Hs. Qed.

(** ** Time and states *)
Definition clock (n : nat) : Z :=
  let '(tv_sec, tv_usec) := gettimeofday n in u64 (u64 tv_sec * 1000 + u64 tv_usec `div` 1000).

Lemma time_runs k : get_current_time_ms k = Ok (clock (ticks k), set_ticks (S (ticks k)) k).
Proof. unfold get_current_time_ms, clock. step. by destruct (gettimeofday (ticks k)). Qed.

Lemma total_time_runs t k : total_time_ms t k = Ok (u64 (clock (ticks k) - t), set_ticks (S (ticks k)) k).
Proof. unfold total_time_ms. by run (apply time_runs). Qed.

Lemma load_pcb_runs a p k : pcbs k !! a = Some p → load_pcb a k = Ok (p, k).
Proof. intros Ha. unfold load_pcb. step. by rewrite Ha. Qed.

Definition with_state (s : PROCESS_STATE) (a : nat) (p : t_pcb) k : t_kernel Srv :=
  set_pcbs (<[a := change_state (u64 (clock (ticks k) - state_start_time_ms p)) (clock (S (ticks k))) s p]> (pcbs k))
    (set_ticks (S (S (ticks k))) (set_state_log (state_log k ++ [(pid p, current_state p, s)]) k)).

Lemma change_state_runs a p s k :
  pcbs k !! a = Some p → pcb_change_state (Some a) s k = Ok (tt, with_state s a p k).
Proof.
  intros Ha. unfold pcb_change_state. run (by apply load_pcb_runs). run (apply total_time_runs).
  run reflexivity. run (apply time_runs). done.
Qed.

(** ** Lists *)
Lemma put_list_runs s l k : put_list s l k = Ok (tt, set_lists (set_list s l (lists k)) k).
Proof. done. Qed.

Definition with_added (s : PROCESS_STATE) (a : nat) (p : t_pcb) k : t_kernel Srv :=
  set_lists (set_list s (list_of s (lists k) ++ [a]) (lists k)) (with_state s a p k).

Lemma add_runs s a p k : pcbs k !! a = Some p → add_pcb_to s (Some a) k = Ok (tt, with_added s a p k).
Proof.
  intros Ha. unfold add_pcb_to. run (by apply change_state_runs). unfold get_list. run done.
  by rewrite list_add_spec.
Qed.

Lemma has_pid_yes x k a p : pcbs k !! a = Some p → pid p = x → has_pid x (pcbs k) a = true.
Proof. intros Ha Hx. unfold has_pid. rewrite Ha. by apply bool_decide_eq_true. Qed.

Lemma has_pid_inv x k a : has_pid x (pcbs k) a = true → ∃ p, pcbs k !! a = Some p ∧ pid p = x.
Proof.
  unfold has_pid. destruct (pcbs k !! a) as [p|]; [|done]. intros H%bool_decide_eq_true. by exists p.
Qed.

(** The first process with the id, and the others. *)
Definition first_with (x : Z) k (s : PROCESS_STATE) (i a : nat) : Prop :=
  list_of s (lists k) !! i = Some a ∧ has_pid x (pcbs k) a = true ∧
  ∀ j b, j < i → list_of s (lists k) !! j = Some b → has_pid x (pcbs k) b = false.

Lemma first_find x k s i a :
  first_with x k s i a → list.list_find (λ b, has_pid x (pcbs k) b = true) (list_of s (lists k)) = Some (i, a).
Proof.
  intros (Hi & Ha & Hj). apply list_find_Some. split_and!; [done | done|].
  intros j b Hb Hlt. by rewrite (Hj j b Hlt Hb).
Qed.

Lemma find_runs x k s i a : first_with x k s i a → find_pcb_in s x k = Ok (Some a, k).
Proof.
  intros H. unfold find_pcb_in, get_list. step. rewrite list_find_spec, (first_find x k s i a H). cbn.
  by rewrite (proj1 H).
Qed.

Lemma remove_runs x k s i a :
  first_with x k s i a →
  remove_pcb_from s x k = Ok (Some a, set_lists (set_list s (delete i (list_of s (lists k))) (lists k)) k).
Proof.
  intros H. unfold remove_pcb_from, get_list. step. commons. by rewrite (first_find x k s i a H).
Qed.

Lemma remove_absent x k s :
  (∀ a p, a ∈ list_of s (lists k) → pcbs k !! a = Some p → pid p ≠ x) →
  remove_pcb_from s x k = Ok (None, k).
Proof.
  intros Hn. unfold remove_pcb_from, get_list. step.
  destruct (list_remove_by_condition _ _) as [[a|] l] eqn:E.
  - apply list_remove_by_condition_Some in E as (Ha & i & Hi & _). apply has_pid_inv in Ha as (p & Hp & Hx).
    apply list_elem_of_lookup_2 in Hi. by destruct (Hn a p Hi Hp).
  - apply list_remove_by_condition_None in E as [-> _]. unfold put_list. step.
    assert (set_list s (list_of s (lists k)) (lists k) = lists k) as -> by (by destruct (lists k), s).
    by destruct k.
Qed.

Lemma find_absent x k s :
  (∀ a p, a ∈ list_of s (lists k) → pcbs k !! a = Some p → pid p ≠ x) → find_pcb_in s x k = Ok (None, k).
Proof.
  intros Hn. unfold find_pcb_in, get_list. step. destruct (list_find _ _) as [i|] eqn:E; [|done]. exfalso.
  apply list_find_lookup in E as (a & Ha & Hh & _). apply has_pid_inv in Hh as (p & Hp & Hx).
  apply list_elem_of_lookup_2 in Ha. by destruct (Hn a p Ha Hp).
Qed.

Lemma next_runs s a l k : list_of s (lists k) = a :: l → get_next_pcb_from s k = Ok (Some a, k).
Proof.
  intros Hl. unfold get_next_pcb_from, get_list. step. rewrite Hl. commons.
  rewrite decide_False by (unfold zlen; cbn; lia). done.
Qed.

Lemma next_none s k : list_of s (lists k) = [] → get_next_pcb_from s k = Ok (None, k).
Proof. intros Hl. unfold get_next_pcb_from, get_list. step. rewrite Hl. commons. done. Qed.

(** ** CPUs and sockets *)
Lemma load_cpu_runs cpu c k : cpu_connections_dict k !! cpu = Some c → load_cpu cpu k = Ok (c, k).
Proof. intros Hc. unfold load_cpu. step. by rewrite Hc. Qed.

Definition executes (x : Z) (c : t_cpu_connection) : t_cpu_connection :=
  mk_cpu_connection (cpu_id c) (interrupt_socket_id c) (dispatch_socket_id c) x.

Lemma set_executing_runs cpu c x k :
  cpu_connections_dict k !! cpu = Some c →
  set_executing cpu x k = Ok (tt, set_cpus (<[cpu := executes x c]> (cpu_connections_dict k)) k).
Proof. intros Hc. unfold set_executing. by run (by apply load_cpu_runs). Qed.

Lemma send_runs socket package k :
  send_to socket (Ok package) k = Ok (peer_alive socket, set_sent (sent k ++ [(socket, package)]) k).
Proof. done. Qed.
End Behaviour.
