(* ===== verification/ReadyQueue.v ===== *)
(** * READY, as a queue

    Without SJF the processes are dispatched in the order in which they
    entered READY: no handler removes, reorders or inserts anything before
    the others.  [keeps_queue] is the refinement, one step of it: a queue
    whose only actions are an arrival at the end and a dispatch of the
    first. *)
From S2P Require Import Prelude Text Commons Enums Buffer Package Packages Roundtrip Config Semaphores Memoria Session.
From S2P Require Import Wire Pcb Kernel Scheduler Handlers KernelInvariant KernelLogic KernelRules KernelBehaviour.
From S2P Require Import Scenario KernelScenario KernelRuns.
Import Buffer Package ProcessState.

Section Queue.
Context {C : CommonsOps} {CL : CommonsLaws C} {Srv : Type} {MS : MemoryServer Srv} {Env : KernelEnv Srv}.
Context (kernel_config : t_kernel_config).
Context (Halg : short_planification_algorithm kernel_config ≠ Algorithm.SJF).
Implicit Types k : t_kernel Srv.

(** ** The queue *)

(** The process that a package dispatches. *)
Definition dispatched_by (package : t_package) : option Z :=
  if decide (opcode package = Opcode.code Opcode.DISPATCH) then
    match read_with read_dispatch_package package with Ok d => Some (dispatch_pid d) | Crash _ => None end
  else None.

Definition dispatched k : list Z := omap (λ x, dispatched_by x.2) (sent k).

(** A [pid] as the packages have it. *)
Definition pid_at (h : gmap nat t_pcb) (a : nat) : option Z := (λ p, i32 (pid p)) <$> h !! a.

Definition ready_pids k : list (option Z) := pid_at (pcbs k) <$> ready_list (lists k).

Definition ready_known k : Prop := ∀ a, a ∈ ready_list (lists k) → is_Some (pcbs k !! a).

(** What has been dispatched since, and what is in READY after that, was in
    READY before, or arrived behind it. *)
Definition in_turn k k' : Prop := ∃ since arrivals,
  dispatched k' = dispatched k ++ since ∧ (Some <$> since) ++ ready_pids k' = ready_pids k ++ arrivals.

Record queues k k' : Prop := { q_known : ready_known k'; q_turn : in_turn k k' }.

(** From states where READY holds no dangling pointer. *)
Definition keeps_queue k k' : Prop := ready_known k → queues k k'.

#[local] Instance keeps_queue_preorder : PreOrder keeps_queue.
Proof.
  split; [intros k ?; split; [done|]; exists [], []; by rewrite !app_nil_r|]. intros k k1 k2 H1 H2 Hk.
  destruct (H1 Hk) as [Hk1 (s1 & a1 & Hd1 & Hr1)], (H2 Hk1) as [Hk2 (s2 & a2 & Hd2 & Hr2)]. split; [done|].
  exists (s1 ++ s2), (a1 ++ a2). split; [by rewrite Hd2, Hd1, app_assoc|].
  by rewrite fmap_app, <- app_assoc, Hr2, !app_assoc, Hr1.
Qed.

Lemma in_turn_still k k' : dispatched k' = dispatched k → ready_pids k' = ready_pids k → in_turn k k'.
Proof. intros Hd Hr. exists [], []. by rewrite !app_nil_r. Qed.

Local Abbreviation keeps := (within keeps_queue).

Lemma same_queue k k' :
  pcbs k' = pcbs k → ready_list (lists k') = ready_list (lists k) → sent k' = sent k → keeps_queue k k'.
Proof.
  intros Hp Hl Hs Hk. split; [|apply in_turn_still]; unfold ready_known, ready_pids, dispatched in *; by rewrite ?Hp, ?Hl, ?Hs.
Qed.

(** Other pids, for PCBs that are not in READY. *)
Lemma same_pids k k' :
  (∀ a, a ∈ ready_list (lists k) → pid_at (pcbs k') a = pid_at (pcbs k) a) →
  ready_list (lists k') = ready_list (lists k) → sent k' = sent k → keeps_queue k k'.
Proof.
  intros Hp Hl Hs Hk. split.
  - intros a. rewrite Hl. intros Ha. destruct (Hk a Ha) as [p Hpa]. specialize (Hp a Ha). unfold pid_at in Hp.
    rewrite Hpa in Hp. destruct (pcbs k' !! a); [by eexists | done].
  - apply in_turn_still; unfold ready_pids, dispatched; rewrite ?Hl, ?Hs; [done|].
    apply list_fmap_ext. intros i a Ha. apply Hp. by eapply list_elem_of_lookup_2.
Qed.

(** ** The steps that touch it *)
Lemma on_k_sems_queued {A} (o : M (gmap k_sem Z) A) : keeps (on_k_sems o).
Proof. unfold on_k_sems. apply (within_zoom _ (λ _ _, True)); [by intros k s _; apply same_queue|by split]. Qed.
Lemma lock_queued s : keeps (lock s).
Proof. apply on_k_sems_queued. Qed.
Lemma unlock_queued s : keeps (unlock s).
Proof. apply on_k_sems_queued. Qed.
#[local] Hint Resolve on_k_sems_queued lock_queued unlock_queued : within.

Local Ltac keep :=
  within_with ltac:(first [ apply within_modify; intros ?; by apply same_queue | case_decide | progress cbv zeta | unfold_called ]).

Lemma other_list s x l : s ≠ READY → ready_list (set_list s x l) = ready_list l.
Proof. intros Hs. destruct l, s; cbn; congruence. Qed.
Lemma ready_put x l : ready_list (set_list READY x l) = x.
Proof. by destruct l. Qed.

Lemma put_other_queued s l : s ≠ READY → keeps (put_list s l).
Proof. intros Hs. apply within_modify. intros k. apply same_queue; [done | by apply other_list | done]. Qed.

Lemma remove_other_queued s p : s ≠ READY → keeps (remove_pcb_from s p).
Proof. intros Hs. pose proof (λ l, put_other_queued s l Hs). unfold remove_pcb_from. keep. Qed.
#[local] Hint Extern 1 (keeps (put_list _ _)) => (apply put_other_queued; discriminate) : within.
#[local] Hint Extern 1 (keeps (remove_pcb_from _ _)) => (apply remove_other_queued; discriminate) : within.

Lemma stored_pids k a p p' :
  pcbs k !! a = Some p → pid p' = pid p → keeps_queue k (set_pcbs (<[a := p']> (pcbs k)) k).
Proof.
  intros Hp He. apply same_pids; [|done..]. intros b _. unfold pid_at. cbn.
  destruct (decide (a = b)) as [<-|Hne]; [by rewrite lookup_insert_eq, Hp; cbn; rewrite He | by rewrite lookup_insert_ne].
Qed.

Lemma update_queued a f : (∀ p, pid (f p) = pid p) → keeps (update_pcb a f).
Proof.
  intros Hf. split. intros k u k' H. unfold update_pcb, load_pcb, store_pcb in H. step_in H.
  destruct (pcbs k !! a) as [p|] eqn:Hp; [|done]. injection H as _ <-. by eapply stored_pids.
Qed.

(** Reading the clock. *)
Lemma clock_read k x k' start : total_time_ms start k = Ok (x, k') → ∃ t, k' = set_ticks t k.
Proof.
  unfold total_time_ms, get_current_time_ms. intros H. step_in H. destruct (gettimeofday _). injection H as _ <-. eauto.
Qed.

Lemma state_changed a s k u k' :
  pcb_change_state (Some a) s k = Ok (u, k') →
  ∃ p p' t printed, pcbs k !! a = Some p ∧ pid p' = pid p ∧
    k' = set_pcbs (<[a := p']> (pcbs k)) (set_ticks t (set_state_log printed k)).
Proof.
  unfold pcb_change_state, load_pcb. intros H. bind_inv H. step_in E.
  destruct (pcbs k !! a) as [p|]; [|done]. injection E as <- <-. bind_inv H. apply clock_read in E as [t ->].
  unfold get_current_time_ms in H. step_in H. destruct (gettimeofday _). injection H as _ <-.
  eexists p, _, _, _. split_and!; [done| |reflexivity]. done.
Qed.

Lemma leave_exec_queued p : keeps (remove_pcb_from_exec p).
Proof.
  split. intros k r k' H. unfold remove_pcb_from_exec in H. bind_inv H.
  apply (within_run (remove_other_queued EXEC p ltac:(done))) in E. etrans; [exact E|].
  destruct r0 as [a|]; [|by injection H as _ <-]. bind_inv H. bind_inv H. bind_inv H. injection H as _ <-.
  unfold load_pcb in E0. step_in E0. destruct (pcbs st !! a) as [q|] eqn:Hq; [|done]. injection E0 as <- <-.
  apply clock_read in E1 as [t ->]. injection E2 as _ <-. 
  etrans; [by apply (same_queue st (set_ticks t st))|].
  by apply (stored_pids (set_ticks t st) a q); [|apply with_burst_pid].
Qed.

Lemma arrives_queued s o : keeps (add_pcb_to s o).
Proof.
  destruct o as [a|]; [|keep]. split. intros k u k' H. unfold add_pcb_to in H. bind_inv H.
  apply state_changed in E as (p & p' & t & printed & Hp & He & ->).
  etrans; [by apply (same_queue k (set_ticks t (set_state_log printed k)))|].
  etrans; [by apply (stored_pids (set_ticks t (set_state_log printed k)) a p p')|].
  bind_inv H. injection E as <- <-. injection H as _ <-.
  destruct (decide (s = READY)) as [->|Hne]; [|apply same_queue; [done | by apply other_list | done]].
  intros Hk. split.
  - intros b. cbn [lists set_lists]. rewrite ready_put. cbn. rewrite list_add_spec. intros [Hb|Hb]%elem_of_app; [by apply Hk|].
    apply list_elem_of_singleton in Hb as ->. rewrite lookup_insert_eq. by eexists.
  - eexists [], _. split; [by rewrite app_nil_r|]. unfold ready_pids. cbn [lists set_lists]. rewrite ready_put. cbn.
    by rewrite list_add_spec, fmap_app.
Qed.
#[local] Hint Resolve leave_exec_queued arrives_queued : within.
#[local] Hint Extern 1 (keeps (add_pcb_to_blocked _)) => apply arrives_queued : within.
#[local] Hint Extern 1 (keeps (add_pcb_to_ready _)) => apply arrives_queued : within.
#[local] Hint Extern 1 (keeps (add_pcb_to_new _)) => apply arrives_queued : within.
#[local] Hint Extern 1 (keeps (add_pcb_to_susp_ready _)) => apply arrives_queued : within.
#[local] Hint Extern 1 (keeps (add_pcb_to_susp_blocked _)) => apply arrives_queued : within.

(** ** Packages *)
Lemma dispatch_read p n package : create_dispatch_package p n = Ok package → dispatched_by package = Some (i32 p).
Proof.
  intros H. assert (create_dispatch_package (i32 p) n = Ok package) as H'.
  { unfold create_dispatch_package in *. by rewrite add_int32_i32. }
  destruct (dispatch_arrives (i32 p) n package (i32_range p) H') as (Ho & _ & Hr).
  unfold dispatched_by. by rewrite Ho, decide_True, Hr.
Qed.

Lemma send_queued socket r code :
  (∀ p, r = Ok p → opcode p = Opcode.code code) → code ≠ Opcode.DISPATCH → keeps (send_to socket r).
Proof.
  intros Hr Hne. split. intros k b k' H. unfold send_to in H. step_in H. destruct r as [p|]; [|done].
  injection H as _ <-. assert (dispatched_by p = None) as Hd.
  { unfold dispatched_by. rewrite (Hr p eq_refl), decide_False; [done|]. by destruct code. }
  intros Hk. split; [done|]. apply in_turn_still; [|done]. unfold dispatched. cbn. rewrite omap_app. cbn.
  by rewrite Hd, app_nil_r.
Qed.
Lemma send_confirmation_queued socket b : keeps (send_to socket (create_confirmation_package b)).
Proof. eapply send_queued; [intros q; apply build_opcode | done]. Qed.
Lemma send_interrupt_queued socket p : keeps (send_to socket (create_interrupt_package p)).
Proof. eapply send_queued; [intros q; apply build_opcode | done]. Qed.
Lemma send_io_queued socket p t : keeps (send_to socket (create_io_operation_package p t)).
Proof. eapply send_queued; [intros q; apply build_opcode | done]. Qed.
#[local] Hint Resolve send_confirmation_queued send_interrupt_queued send_io_queued : within.
(** ** Memory and comparisons *)
Lemma ask_queued r : keeps (ask r).
Proof. unfold ask. keep. apply (within_zoom _ (λ _ _, True)); [by intros k s _; apply same_queue|by split]. Qed.
#[local] Hint Resolve ask_queued : within.

Lemma sort_list_queued s f : s ≠ READY → (∀ a b, keeps (f a b)) → keeps (sort_list s f).
Proof.
  intros Hs Hf. split. intros k u k' H. unfold sort_list in H.
  assert (∀ k0, (list_sort (comparator f) (list_of s (lists k)) (Ok k)).2 = Ok k0 → keeps_queue k k0) as Hi.
  { apply (list_sort_inv nat _ (comparator f) (λ r, ∀ k0, r = Ok k0 → keeps_queue k k0)); [|by intros ? [= <-]].
    intros x y [k1|] _ _ H1 k0; cbn; [|done]. destruct (f x y k1) as [[b k2]|] eqn:E; [|done].
    intros [= <-]. etrans; [by apply H1 | by apply (within_run (Hf x y) _ _ _ E)]. }
  destruct (list_sort _ _ _) as [l [k0|]]; [|done]. etrans; [by apply Hi|].
  by apply (within_run (put_other_queued s l Hs) _ _ _ H).
Qed.

Lemma sort_new_queued : keeps sort_new_list_by_SSF.
Proof. apply sort_list_queued; [done|]. intros. keep. Qed.
Lemma sort_susp_ready_queued : keeps sort_susp_ready_list_by_SSF.
Proof. apply sort_list_queued; [done|]. intros. keep. Qed.
#[local] Hint Resolve sort_new_queued sort_susp_ready_queued : within.

Lemma unsuspend_queued n b : keeps (unsuspend_loop kernel_config n b).
Proof. revert b. induction n as [|n IH]; intros b; cbn [unsuspend_loop]; keep. Qed.
Lemma admit_queued n b : keeps (admit_loop kernel_config n b).
Proof. revert b. induction n as [|n IH]; intros b; cbn [admit_loop]; keep. Qed.
#[local] Hint Resolve unsuspend_queued admit_queued : within.

Lemma long_scheduler_queued : keeps (run_long_scheduler kernel_config).
Proof. keep. Qed.
#[local] Hint Resolve long_scheduler_queued : within.

(** ** Dispatching *)

(** The steps before a dispatch. *)
Record same_lists k k' : Prop := { sl_pcbs : pcbs k' = pcbs k; sl_lists : lists k' = lists k; sl_sent : sent k' = sent k }.
#[local] Instance same_lists_preorder : PreOrder same_lists.
Proof. split; [by constructor|]. intros k1 k2 k3 [] []. constructor; congruence. Qed.

Lemma lock_same s : within same_lists (lock s).
Proof. apply (within_zoom _ (λ _ _, True)); [by intros k x _; constructor|by split]. Qed.
Lemma unlock_same s : within same_lists (unlock s).
Proof. apply (within_zoom _ (λ _ _, True)); [by intros k x _; constructor|by split]. Qed.
#[local] Hint Resolve lock_same unlock_same : within.
Local Ltac same :=
  within_with ltac:(first [ apply within_modify; intros ?; by constructor | case_decide | progress cbv zeta | unfold_called ]).

Lemma cpu_by_algorithm_same cpus : within same_lists (get_cpu_by_algorithm kernel_config cpus).
Proof. unfold get_cpu_by_algorithm, short_term_algorithm. rewrite decide_False by done. same. Qed.
Lemma next_process_same : within same_lists (get_next_process_to_dispatch kernel_config).
Proof. unfold get_next_process_to_dispatch, short_term_algorithm. rewrite decide_False by done. same. Qed.
#[local] Hint Resolve cpu_by_algorithm_same next_process_same : within.

Lemma context_same : within same_lists (get_short_scheduler_context kernel_config).
Proof. same. Qed.

Lemma context_head k cpu a k' :
  get_short_scheduler_context kernel_config k = Ok ((cpu, Some a), k') → head (ready_list (lists k')) = Some a.
Proof.
  intros H. unfold get_short_scheduler_context in H. bind_inv H. destruct r as [id|]; [|done]. bind_inv H.
  injection H as _ -> <-. unfold get_next_process_to_dispatch, short_term_algorithm in E0.
  rewrite decide_False in E0 by done. unfold get_next_pcb_from_ready, get_next_pcb_from, get_list in E0.
  step_in E0. case_decide; [done|]. rewrite list_get_spec in E0. injection E0 as E0 <-. by destruct (ready_list _).
Qed.

Lemma dispatch_queued cpu a k u k' :
  head (ready_list (lists k)) = Some a → dispatch_to cpu a k = Ok (u, k') → keeps_queue k k'.
Proof.
  intros Ha H. destruct (ready_list (lists k)) as [|b l] eqn:Hl; [done|]. injection Ha as ->.
  unfold dispatch_to in H. bind_inv H. unfold load_pcb in E. step_in E.
  destruct (pcbs k !! a) as [p|] eqn:Hp; [|done]. injection E as <- <-. bind_inv H.
  unfold remove_pcb_from_ready in E. rewrite (remove_runs (pid p) k READY 0 a) in E.
  2:{ split_and!; [by cbn; rewrite Hl | by apply (has_pid_yes _ k a p) | lia]. }
  injection E as _ <-. bind_inv H. unfold add_pcb_to_exec, add_pcb_to in E. bind_inv E.
  apply state_changed in E0 as (q & q' & t & printed & Hq & He & ->). bind_inv E. injection E0 as <- <-. injection E as _ <-.
  cbn in Hq. rewrite Hp in Hq. injection Hq as <-.
  bind_inv H. unfold load_pcb in E. step_in E. cbn in E. rewrite lookup_insert_eq in E. injection E as <- <-.
  bind_inv H. unfold send_dispatch_to_cpu in E. bind_inv E. unfold load_cpu in E0. step_in E0.
  destruct (_ !! cpu) as [c|]; [|done]. injection E0 as <- <-.
  unfold send_to in E. bind_inv E. unfold lift_res in E0. destruct (create_dispatch_package _ _) as [package|] eqn:Hpk; [|done].
  injection E0 as <- <-. injection E as _ <-.
  assert (keeps (set_executing cpu (pid q');; unlock_cpu_connections;; unlock_exec_list;; unlock_ready_list;; unlock_cpu cpu)) as Hrest by keep.
  etrans; [|exact (within_run Hrest _ _ _ H)]. clear H Hrest. apply dispatch_read in Hpk.
  match goal with |- keeps_queue _ ?k => set (k3 := k) end.
  assert (ready_list (lists k3) = l) as Hl3.
  { unfold k3. cbn. rewrite other_list by done. cbn. rewrite ready_put. by rewrite Hl. }
  assert (∀ b, pid_at (pcbs k3) b = pid_at (pcbs k) b) as Hpids.
  { intros b. unfold k3, pid_at. cbn. destruct (decide (a = b)) as [<-|Hne];
      [by rewrite lookup_insert_eq, Hp; cbn; rewrite He | by rewrite lookup_insert_ne]. }
  assert (dispatched k3 = dispatched k ++ [i32 (pid p)]) as Hd.
  { unfold dispatched, k3. cbn. rewrite omap_app. cbn. by rewrite Hpk, He. }
  intros Hk. split.
  - intros b Hb. rewrite Hl3 in Hb. destruct (Hk b) as [q Hqb]; [rewrite Hl; by right|].
    specialize (Hpids b). unfold pid_at in Hpids. rewrite Hqb in Hpids. destruct (pcbs k3 !! b); [by eexists | done].
  - exists [i32 (pid p)], []. split; [done|]. unfold ready_pids. rewrite Hl3, Hl, app_nil_r. cbn.
    assert (pid_at (pcbs k) a = Some (i32 (pid p))) as -> by (unfold pid_at; by rewrite Hp). f_equal.
    by apply list_fmap_ext.
Qed.

(** *** Preemption *)

(** READY keeps its first process; the one that is preempted goes behind. *)
Definition first_stays k k' : Prop :=
  ∀ a, head (ready_list (lists k)) = Some a → head (ready_list (lists k')) = Some a.
#[local] Instance first_stays_preorder : PreOrder first_stays.
Proof. split; [by intros k a | intros k1 k2 k3 H1 H2 a H; by apply H2, H1]. Qed.

Lemma lock_first s : within first_stays (lock s).
Proof. apply (within_zoom _ (λ _ _, True)); [by intros k x _ a|by split]. Qed.
Lemma unlock_first s : within first_stays (unlock s).
Proof. apply (within_zoom _ (λ _ _, True)); [by intros k x _ a|by split]. Qed.

Lemma put_first s l : s ≠ READY → within first_stays (put_list s l).
Proof. intros Hs. apply within_modify. intros k a. cbn. by rewrite other_list. Qed.
Lemma append_first a : within first_stays (add_pcb_to READY (Some a)).
Proof.
  assert (within first_stays (pcb_change_state (Srv := Srv) (Some a) READY)) as Hc.
  { split. intros k u k' H. apply state_changed in H as (p & p' & t & printed & _ & _ & ->). by intros b. }
  unfold add_pcb_to. apply within_bind; [apply _ | exact Hc | intros _]. split. intros k u k' H.
  unfold get_list, put_list in H. step_in H. injection H as _ <-. intros b. cbn. rewrite ready_put, list_add_spec.
  by destruct (ready_list (lists k)).
Qed.
#[local] Hint Resolve lock_first unlock_first append_first : within.
#[local] Hint Extern 1 (within first_stays (add_pcb_to_ready (Some _))) => apply append_first : within.
#[local] Hint Extern 1 (within first_stays (put_list _ _)) => (apply put_first; discriminate) : within.

Local Ltac stays :=
  within_with ltac:(first [ apply within_modify; by intros ? ? | case_decide | progress cbv zeta | unfold_called ]).

Lemma should_first a p : within first_stays (should_preempt_executing_process kernel_config a p).
Proof. stays. Qed.
Lemma preempt_first cpu : within first_stays (preempt cpu).
Proof. unfold preempt. stays. Qed.

Lemma reestimate_queued a : keeps (reestimate kernel_config a).
Proof.
  split. intros k u k' H. unfold reestimate, load_pcb, store_pcb in H. step_in H.
  destruct (pcbs k !! a) as [p|] eqn:Hp; [|done]. step_in H. destruct (next_estimate _ _ _); [|done].
  step_in H. injection H as _ <-. eapply stored_pids; [done | apply with_estimate_pid].
Qed.
#[local] Hint Resolve reestimate_queued : within.
#[local] Hint Extern 1 (keeps (update_pcb _ _)) => (apply update_queued; intros;
  first [apply with_burst_pid | apply with_exec_time_pid | apply with_exit_time_pid | done]) : within.

Lemma should_queued a p : keeps (should_preempt_executing_process kernel_config a p).
Proof. keep. Qed.
Lemma preempt_queued cpu : keeps (preempt cpu).
Proof. unfold preempt. keep. Qed.

Lemma short_scheduler_queued : keeps (run_short_scheduler kernel_config).
Proof.
  split. intros k u k' H. unfold run_short_scheduler in H. bind_inv H. bind_inv H. bind_inv H.
  assert (same_lists k st1) as Hs.
  { etrans; [by apply (within_run (lock_same _) _ _ _ E)|]. etrans; [by apply (within_run (lock_same _) _ _ _ E0)|].
    by apply (within_run context_same _ _ _ E1). }
  etrans; [apply same_queue; apply Hs || (f_equal; apply Hs)|]. clear Hs E E0.
  destruct r1 as [[cpu|] [a|]];
    [|assert (keeps (unlock_cpu_connections;; unlock_ready_list)) as Hu by keep; by apply (within_run Hu _ _ _ H)..].
  apply context_head in E1. bind_inv H. bind_inv H.
  assert (same_lists st1 st2) as Hs1 by by apply (within_run (lock_same _) _ _ _ E).
  assert (within same_lists (load_cpu (Srv := Srv) cpu)) as Hload by same.
  assert (same_lists st1 st3) as Hs2 by (etrans; [exact Hs1 | by apply (within_run Hload _ _ _ E0)]).
  etrans; [apply (same_queue st1 st3); apply Hs2 || (f_equal; apply Hs2)|].
  rewrite <- (sl_lists _ _ Hs2) in E1. case_decide; [|destruct (negb _)].
  - bind_inv H. assert (same_lists st3 st4) as Hs3 by by apply (within_run (lock_same _) _ _ _ E2).
    etrans; [apply (same_queue st3 st4); apply Hs3 || (f_equal; apply Hs3)|].
    rewrite <- (sl_lists _ _ Hs3) in E1. by eapply dispatch_queued.
  - assert (keeps (unlock_cpu_connections;; unlock_ready_list;; unlock_cpu cpu)) as Hu by keep.
    by apply (within_run Hu _ _ _ H).
  - bind_inv H. etrans; [by apply (within_run (should_queued _ _) _ _ _ E2)|].
    apply (within_run (should_first _ _) _ _ _ E2) in E1. destruct r3.
    + bind_inv H. etrans; [by apply (within_run (preempt_queued _) _ _ _ E3)|].
      apply (within_run (preempt_first _) _ _ _ E3) in E1. by eapply dispatch_queued.
    + assert (keeps (unlock_cpu_connections;; unlock_exec_list;; unlock_ready_list;; unlock_cpu cpu)) as Hu by keep.
      by apply (within_run Hu _ _ _ H).
Qed.
#[local] Hint Resolve short_scheduler_queued : within.

Lemma medium_scheduler_queued p : keeps (run_medium_scheduler kernel_config p).
Proof. keep. Qed.
#[local] Hint Resolve medium_scheduler_queued : within.

(** ** A PCB that READY does not hold *)
Definition spares {A} (a : nat) (o : M (t_kernel Srv) A) : Prop :=
  ∀ k x k', a ∉ ready_list (lists k) → o k = Ok (x, k') → keeps_queue k k'.

Lemma spares_queued {A} a (o : M (t_kernel Srv) A) : keeps o → spares a o.
Proof. intros Ho k x k' _ H. exact (within_run Ho _ _ _ H). Qed.

Lemma spares_bind {A B} a (o : M (t_kernel Srv) A) (f : A → M (t_kernel Srv) B) :
  within same_lists o → (∀ x, spares a (f x)) → spares a (o ≫= f).
Proof.
  intros Ho Hf k y k' Ha H. bind_inv H. pose proof (within_run Ho _ _ _ E) as Hs.
  etrans; [apply (same_queue k st); apply Hs || (f_equal; apply Hs)|]. eapply Hf; [|exact H].
  by rewrite (sl_lists _ _ Hs).
Qed.

Lemma spares_destroy a : spares a (pcb_destroy (Some a)).
Proof.
  intros k u k' Ha H. unfold pcb_destroy, load_pcb in H. step_in H. destruct (pcbs k !! a); [|done]. injection H as _ <-.
  apply same_pids; [|done..]. intros b Hb. unfold pid_at. cbn. rewrite lookup_delete_ne; [done | by intros <-].
Qed.

(** That is where a new PCB is. *)
Lemma create_queued config p n m file (o : nat → M (t_kernel Srv) unit) :
  (∀ a, spares a (o a)) → keeps (pcb_create config p n m file ≫= o).
Proof.
  intros Ho. split. intros k u k' H Hk. bind_inv H. unfold pcb_create, get_current_time_ms, store_pcb in E. step_in E.
  destruct (gettimeofday _). injection E as <- <-.
  assert (fresh (dom (pcbs k)) ∉ ready_list (lists k)) as Hnew.
  { intros [q Hq]%Hk. apply (is_fresh (dom (pcbs k))). by eapply elem_of_dom_2. }
  revert Hk. change (keeps_queue k k'). etrans; [|eapply Ho; [|exact H]; exact Hnew].
  apply same_pids; [|done..]. intros b Hb. unfold pid_at. cbn. rewrite lookup_insert_ne; [done | by intros <-].
Qed.

(** ** Handlers *)
Lemma exit_routine_queued a : keeps (exit_routine a).
Proof. keep. Qed.
#[local] Hint Resolve exit_routine_queued : within.
Lemma process_pending_io_queued n socket : keeps (process_pending_io n socket).
Proof. keep. Qed.
#[local] Hint Resolve process_pending_io_queued : within.
Lemma io_syscall_queued p pc_ t n : keeps (handle_io_process_syscall p pc_ t n).
Proof. keep. Qed.
Lemma dump_queued p pc_ : keeps (dump_memory_syscall kernel_config p pc_).
Proof. keep. Qed.
Lemma exit_queued p : keeps (exit_process_syscall p).
Proof. keep. Qed.
#[local] Hint Resolve io_syscall_queued dump_queued exit_queued : within.


Lemma find_new_same p : within same_lists (find_pcb_in_new (Srv := Srv) p).
Proof. same. Qed.
#[local] Hint Resolve find_new_same : within.

(** A new PCB is freed when its pid is already in NEW. *)
Local Ltac spare := first
  [ apply spares_destroy
  | apply spares_queued; solve [keep]
  | apply spares_bind; [solve [same] | intros; spare]
  | case_match; spare ].

Lemma init_proc_queued p pc_ n file socket : keeps (handle_init_proc_syscall kernel_config p pc_ n file socket).
Proof.
  unfold handle_init_proc_syscall. do 3 (apply within_bind; [apply _ | solve [keep] | intros ?]). destruct a1; [|keep].
  do 6 (apply within_bind; [apply _ | solve [keep] | intros ?]). apply create_queued. intros. spare.
Qed.
Lemma initialize_queued p n file : keeps (initialize_root_process kernel_config p n file).
Proof. unfold initialize_root_process. apply create_queued. intros. spare. Qed.
#[local] Hint Resolve init_proc_queued initialize_queued : within.

Lemma run_thread_queued t : keeps (run_thread kernel_config t).
Proof. destruct t; keep. Qed.
#[local] Hint Resolve run_thread_queued : within.

Lemma event_queued e : keeps (handle_event kernel_config e).
Proof. destruct e; keep. Qed.
#[local] Hint Resolve event_queued : within.

Lemma events_queued l : keeps (run_events kernel_config l).
Proof. keep. Qed.

Lemma start_queued sockets file n : keeps (kernel_main kernel_config sockets file n).
Proof. keep. Qed.

(** C11: without SJF, and with preemption or without, the processes are
    dispatched in the order in which they entered READY: whatever happens
    between two moments of a run, the pids dispatched in between, followed by
    the ones in READY at the end, are the ones in READY at the beginning,
    followed by those that have arrived. *)
Theorem ready_queue_is_fifo sockets file n l1 l2 memory answers u k1 v k2 :
  kernel_run kernel_config sockets file n l1 (initial_kernel memory answers) = Ok (u, k1) →
  run_events kernel_config l2 k1 = Ok (v, k2) →
  ∃ since arrivals, dispatched k2 = dispatched k1 ++ since ∧
    (Some <$> since) ++ ready_pids k2 = ready_pids k1 ++ arrivals.
Proof.
  intros H1 H2. unfold kernel_run in H1. bind_inv H1.
  assert (keeps_queue (initial_kernel memory answers) k1) as H.
  { etrans; [by apply (within_run (start_queued _ _ _) _ _ _ E) | by apply (within_run (events_queued l1) _ _ _ H1)]. }
  apply (within_run (events_queued l2) _ _ _ H2), H. by intros a ?%elem_of_nil.
Qed.
End Queue.

(** Process 0 is blocked and comes back behind 2; 1 and then 2 are
    dispatched. *)
Lemma ready_queue_is_fifo_witness :
  dispatched k_before = [0]%Z ∧ ready_pids k_before = [Some 1; Some 2]%Z ∧
  dispatched k_later = [0; 1]%Z ∧ ready_pids k_later = [Some 2; Some 0]%Z ∧
  ∃ since arrivals, dispatched k_later = dispatched k_before ++ since ∧
    (Some <$> since) ++ ready_pids k_later = ready_pids k_before ++ arrivals.
Proof.
  split_and!; [vm_compute; reflexivity.. |].
  apply (ready_queue_is_fifo fifo ltac:(done) [(100, 200)]%Z "hola" 16 some_events more_events booted []
    tt k_before tt k_later before_ok later_ok).
Defined.
