(* ===== verification/Threads.v ===== *)
(** * The threads of the kernel, interleaved

    In Handlers.v a handler runs to completion.  Here it is a [prog], a
    sequence of calls in which the locks are visible; the kernel runs many of
    them, one call of one of them at a time, in any order, and a thread waits
    for a lock as long as its counter is 0.

    [ordered] is the discipline of the locks: a thread takes them in the order
    of their [rank], and no call waits.  Threads that follow it never block
    each other ([somebody_goes_on]).  With [strict] they release only what
    they hold, and change a list only while they hold its lock; then a lock
    has one holder ([exclusive]). *)
From S2P Require Import Prelude Text Commons Enums Buffer Package Packages Config Semaphores Pcb.
From S2P Require Import Kernel Scheduler KernelInvariant KernelLogic KernelRules.
Import Buffer Package ProcessState.

Section Threads.
Context {Srv : Type}.
Local Abbreviation K := (M (t_kernel Srv)).
Implicit Types k : t_kernel Srv.

(** ** Programs *)
Inductive prog (A : Type) : Type :=
  | Return (a : A)
  | Act {B : Type} (m : K B) (f : B → prog A)
  | Lock (s : k_sem) (p : prog A)
  | Unlock (s : k_sem) (p : prog A).

Fixpoint prog_then {A B} (f : A → prog B) (p : prog A) : prog B :=
  match p with
  | Return _ a => f a
  | Act _ m g => Act _ m (λ x, prog_then f (g x))
  | Lock _ s p => Lock _ s (prog_then f p)
  | Unlock _ s p => Unlock _ s (prog_then f p)
  end.

#[export] Instance prog_ret : MRet prog := Return.
#[export] Instance prog_bind : MBind prog := @prog_then.

Definition act {A} (m : K A) : prog A := Act _ m (Return _).
Definition acquire (s : k_sem) : prog unit := Lock _ s (Return _ tt).
Definition release (s : k_sem) : prog unit := Unlock _ s (Return _ tt).

(** What a program does when nobody else runs. *)
Fixpoint denote {A} (p : prog A) : K A :=
  match p with
  | Return _ a => mret a
  | Act _ m f => m ≫= λ x, denote (f x)
  | Lock _ s p => lock s;; denote p
  | Unlock _ s p => unlock s;; denote p
  end.

Definition mirrors {A} (p : prog A) (m : K A) : Prop := ∀ k, denote p k = m k.

Lemma denote_then {A B} (f : A → prog B) p k : denote (p ≫= f) k = (denote p ≫= λ x, denote (f x)) k.
Proof.
  revert k. induction p as [a|B' m g IH|s p IH|s p IH]; intros k; cbn; [done|..];
    unfold mbind in *; unfold M_bind in *.
  - destruct (m k) as [[x k']|]; [apply IH | done].
  - destruct (lock s k) as [[x k']|]; [apply IH | done].
  - destruct (unlock s k) as [[x k']|]; [apply IH | done].
Qed.

Lemma mirrors_ret {A} (a : A) : mirrors (mret a) (mret a).
Proof. by intros k. Qed.
Lemma mirrors_act {A} (m : K A) : mirrors (act m) m.
Proof. intros k. cbn. unfold mbind, M_bind. by destruct (m k) as [[x k']|]. Qed.
Lemma mirrors_acquire s : mirrors (acquire s) (lock s).
Proof. intros k. cbn. unfold mbind, M_bind. by destruct (lock s k) as [[[] k']|]. Qed.
Lemma mirrors_release s : mirrors (release s) (unlock s).
Proof. intros k. cbn. unfold mbind, M_bind. by destruct (unlock s k) as [[[] k']|]. Qed.
Lemma mirrors_bind {A B} (p : prog A) (m : K A) (f : A → prog B) (g : A → K B) :
  mirrors p m → (∀ x, mirrors (f x) (g x)) → mirrors (p ≫= f) (m ≫= g).
Proof.
  intros Hp Hf k. rewrite denote_then. unfold mbind, M_bind. rewrite Hp. destruct (m k) as [[x k']|]; [apply Hf | done].
Qed.

(** ** Interleavings *)

(** A thread: the locks it has taken and not released, and what it still
    has to do. *)
Record thread := mk_thread { held : list k_sem; rest : prog unit }.

Definition finished (t : thread) : bool := match rest t with Return _ _ => true | _ => false end.

Fixpoint unheld (s : k_sem) (l : list k_sem) : list k_sem :=
  match l with [] => [] | t :: l => if decide (t = s) then l else t :: unheld s l end.

(** The next call of a thread; [Deadlock] when it has to wait. *)
Definition resume (t : thread) : K thread :=
  match rest t with
  | Return _ _ => mret t
  | Act _ m f => x ← m; mret (mk_thread (held t) (f x))
  | Lock _ s p => lock s;; mret (mk_thread (s :: held t) p)
  | Unlock _ s p => unlock s;; mret (mk_thread (unheld s (held t)) p)
  end.

(** One thread makes its next call, or a new one starts. *)
Inductive interleaves (starts : prog unit → Prop) : relation (t_kernel Srv * list thread) :=
  | resumes k ts i t t' k' :
      ts !! i = Some t → resume t k = Ok (t', k') → interleaves starts (k, ts) (k', <[i := t']> ts)
  | begins k ts p : starts p → interleaves starts (k, ts) (k, ts ++ [mk_thread [] p]).

(** A schedule: which thread makes the next call; one that cannot does not. *)
Definition make_call (i : nat) (c : t_kernel Srv * list thread) : t_kernel Srv * list thread :=
  match c.2 !! i with
  | Some t => match resume t c.1 with Ok (t', k') => (k', <[i := t']> c.2) | Crash _ => c end
  | None => c
  end.

Fixpoint schedule (l : list nat) (c : t_kernel Srv * list thread) : t_kernel Srv * list thread :=
  match l with [] => c | i :: l => schedule l (make_call i c) end.

Lemma schedule_interleaves starts l c : rtc (interleaves starts) c (schedule l c).
Proof.
  revert c. induction l as [|i l IH]; intros [k ts]; cbn; [done|]. etrans; [|apply IH].
  unfold make_call. cbn. destruct (ts !! i) as [t|] eqn:Hi; [|done].
  destruct (resume t k) as [[t' k']|] eqn:Hr; [|done]. by apply rtc_once, (resumes _ _ _ i t).
Qed.

Lemma starts_all starts l k ts :
  Forall starts l → rtc (interleaves starts) (k, ts) (k, ts ++ (mk_thread [] <$> l)).
Proof.
  intros Hl. revert ts. induction Hl as [|p l Hp _ IH]; intros ts; cbn; [by rewrite app_nil_r|].
  eapply rtc_l; [by apply begins|]. specialize (IH (ts ++ [mk_thread [] p])). by rewrite <- app_assoc in IH.
Qed.

(** A thread that is alone runs its program. *)
Lemma runs_alone starts p h k u k' ts i :
  ts !! i = Some (mk_thread h p) → denote p k = Ok (u, k') →
  ∃ h', rtc (interleaves starts) (k, ts) (k', <[i := mk_thread h' (mret u)]> ts).
Proof.
  revert h k ts. induction p as [a|B m f IH|s p IH|s p IH]; intros h k ts Hi H; cbn in H.
  - injection H as <- <-. exists h. by rewrite list_insert_id.
  - bind_inv H. destruct (IH r h st (<[i := mk_thread h (f r)]> ts)) as [h' Hr];
      [by apply list_lookup_insert_eq; eapply lookup_lt_Some | exact H |].
    exists h'. rewrite list_insert_insert_eq in Hr. eapply rtc_l; [|exact Hr]. eapply resumes; [exact Hi|].
    unfold resume. cbn. unfold mbind, M_bind. by rewrite E.
  - bind_inv H. destruct (IH (s :: h) st (<[i := mk_thread (s :: h) p]> ts)) as [h' Hr];
      [by apply list_lookup_insert_eq; eapply lookup_lt_Some | exact H |].
    exists h'. rewrite list_insert_insert_eq in Hr. eapply rtc_l; [|exact Hr]. eapply resumes; [exact Hi|].
    unfold resume. cbn. unfold mbind, M_bind. by rewrite E.
  - bind_inv H. destruct (IH (unheld s h) st (<[i := mk_thread (unheld s h) p]> ts)) as [h' Hr];
      [by apply list_lookup_insert_eq; eapply lookup_lt_Some | exact H |].
    exists h'. rewrite list_insert_insert_eq in Hr. eapply rtc_l; [|exact Hr]. eapply resumes; [exact Hi|].
    unfold resume. cbn. unfold mbind, M_bind. by rewrite E.
Qed.

(** ** The discipline *)
Section Discipline.
Context {MS : MemoryServer Srv} {Steady : SteadyServer Srv}.
Context (strict : bool).

(** The order of the locks. *)
Definition rank (s : k_sem) : nat :=
  match s with
  | sem_io_connections => 0
  | sem_io_requests => 1
  | sem_io_requests_queue _ => 2
  | sem_cpu_connections => 3
  | sem_list READY => 4
  | sem_list NEW => 5
  | sem_cpu_exec _ => 6
  | sem_list EXEC => 7
  | sem_list BLOCKED => 8
  | sem_list SUSP_BLOCKED => 9
  | sem_list SUSP_READY => 10
  | sem_list EXIT_L => 11
  | sem_cpu_connected => 12
  end.

Definition below (n : nat) (H : list k_sem) : Prop := Forall (λ t, rank t < n) H.

(** What a call may do, with the locks [H]. *)
Record touches (H : list k_sem) k k' : Prop := {
  t_sems : ∀ s, k_sems k' !! s = k_sems k !! s ∨ (∀ l, s ≠ sem_list l) ∧ k_sems k' !! s = Some 1%Z;
  t_lists : strict = true → ∀ s, sem_list s ∉ H → list_of s (lists k') = list_of s (lists k);
  t_memory : steady (k_memory k) → steady (k_memory k') }.

#[export] Instance touches_preorder H : PreOrder (touches H).
Proof.
  split; [intros k; constructor; by auto|]. intros k1 k2 k3 [S1 L1 M1] [S2 L2 M2]. constructor; [|by intros Hs s ?; rewrite L2, L1|auto].
  intros s. destruct (S2 s) as [->|]; [apply S1 | by right].
Qed.

(** It does not wait, and does no more than that. *)
Definition calm {A} (H : list k_sem) (m : K A) : Prop := ∀ k, steady (k_memory k) →
  match m k with Ok (_, k') => touches H k k' | Crash c => c ≠ Deadlock end.

Fixpoint ordered {A} (H : list k_sem) (p : prog A) (Q : A → list k_sem → Prop) : Prop :=
  match p with
  | Return _ a => Q a H
  | Act _ m f => calm H m ∧ ∀ x, ordered H (f x) Q
  | Lock _ s p => s ≠ sem_cpu_connected ∧ below (rank s) H ∧ ordered (s :: H) p Q
  | Unlock _ s p => (strict = true → s ∈ H) ∧ ordered (unheld s H) p Q
  end.

Lemma ordered_mono {A} H (p : prog A) (Q Q' : A → list k_sem → Prop) :
  ordered H p Q → (∀ a H', Q a H' → Q' a H') → ordered H p Q'.
Proof.
  intros Hp HQ. revert H Hp. induction p as [a|B m f IH|s p IH|s p IH]; intros H; cbn.
  - apply HQ.
  - intros [? Hf]. split; [done|]. intros x. by apply IH.
  - intros (? & ? & ?). split_and!; [done..|]. by apply IH.
  - intros [? ?]. split; [done|]. by apply IH.
Qed.

Lemma ordered_bind {A B} H (p : prog A) (f : A → prog B) Q :
  ordered H p (λ a H', ordered H' (f a) Q) → ordered H (p ≫= f) Q.
Proof.
  revert H. induction p as [a|B' m g IH|s p IH|s p IH]; intros H; cbn.
  - done.
  - intros [? Hg]. split; [done|]. intros x. by apply IH.
  - intros (? & ? & ?). split_and!; [done..|]. by apply IH.
  - intros [? ?]. split; [done|]. by apply IH.
Qed.

(** A function that leaves the locks as they were. *)
Definition balanced {A} (H : list k_sem) (p : prog A) : Prop := ordered H p (λ _ H', H' = H).

Lemma ordered_call {A} H (p : prog A) (Q : A → list k_sem → Prop) :
  balanced H p → (∀ a, Q a H) → ordered H p Q.
Proof. intros Hp HQ. eapply ordered_mono; [exact Hp|]. by intros a H' ->. Qed.

Lemma ordered_ret {A} H (a : A) (Q : A → list k_sem → Prop) : Q a H → ordered H (mret a) Q.
Proof. done. Qed.
Lemma ordered_act {A} H (m : K A) Q : calm H m → (∀ x, Q x H) → ordered H (act m) Q.
Proof. by intros; split. Qed.
Lemma ordered_acquire H s (Q : unit → list k_sem → Prop) :
  s ≠ sem_cpu_connected → below (rank s) H → Q tt (s :: H) → ordered H (acquire s) Q.
Proof. by intros; split_and!. Qed.
Lemma ordered_release H s (Q : unit → list k_sem → Prop) :
  (strict = true → s ∈ H) → Q tt (unheld s H) → ordered H (release s) Q.
Proof. by intros; split. Qed.

Lemma below_nil n : below n [].
Proof. constructor. Qed.
Lemma below_cons n s H : rank s < n → below n H → below n (s :: H).
Proof. by constructor. Qed.
Lemma below_weaken n m H : below n H → n ≤ m → below m H.
Proof. intros Hb Hle. eapply Forall_impl; [exact Hb|]. cbn. intros. lia. Qed.
Lemma below_not n s H : below n H → n ≤ rank s → s ∉ H.
Proof. intros Hb Hle Hs. unfold below in Hb. rewrite Forall_forall in Hb. specialize (Hb s Hs). lia. Qed.

Lemma unheld_head s H : unheld s (s :: H) = H.
Proof. cbn. by rewrite decide_True. Qed.
Lemma unheld_other s t H : t ≠ s → unheld s (t :: H) = t :: unheld s H.
Proof. intros Hne. cbn. by rewrite decide_False. Qed.
Lemma unheld_none s H : s ∉ H → unheld s H = H.
Proof.
  induction H as [|t H IH]; cbn; [done|]. intros [Hne Hn]%not_elem_of_cons. rewrite decide_False by done.
  by rewrite IH.
Qed.
Lemma unheld_elem s t H : NoDup H → t ∈ unheld s H ↔ t ∈ H ∧ t ≠ s.
Proof.
  induction 1 as [|u H Hu Hnd IH]; cbn; [set_solver|]. case_decide as E.
  - subst u. set_solver.
  - rewrite !elem_of_cons, IH. set_solver.
Qed.
Lemma unheld_nodup s H : NoDup H → NoDup (unheld s H).
Proof.
  induction 1 as [|u H Hu Hnd IH]; cbn; [constructor|]. case_decide; [done|]. constructor; [|done].
  rewrite unheld_elem by done. tauto.
Qed.

(** ** Nobody blocks everybody *)
Definition good_thread (t : thread) : Prop := NoDup (held t) ∧ ordered (held t) (rest t) (λ _ H, H = []).

(** A lock whose counter is 0 is held by some thread. *)
Record disciplined k (ts : list thread) : Prop := {
  d_good : Forall good_thread ts;
  d_holder : ∀ s v, s ≠ sem_cpu_connected → k_sems k !! s = Some v →
    (0 <= v)%Z ∧ (v = 0%Z → ∃ i t, ts !! i = Some t ∧ s ∈ held t);
  d_memory : steady (k_memory k) }.

Lemma lock_inv s k u k' :
  lock s k = Ok (u, k') → ∃ v, k_sems k !! s = Some v ∧ (0 < v)%Z ∧ k' = set_k_sems (<[s := (v - 1)%Z]> (k_sems k)) k.
Proof.
  unfold lock, on_k_sems, sem_wait. intros H. step_in H. destruct (k_sems k !! s) as [v|]; [|done].
  case_decide; [|done]. injection H as _ <-. by exists v.
Qed.
Lemma unlock_inv s k u k' :
  unlock s k = Ok (u, k') → ∃ v, k_sems k !! s = Some v ∧ k' = set_k_sems (<[s := (v + 1)%Z]> (k_sems k)) k.
Proof.
  unfold unlock, on_k_sems, sem_post. intros H. step_in H. destruct (k_sems k !! s) as [v|]; [|done].
  injection H as _ <-. by exists v.
Qed.
Lemma lock_waits s k : lock s k = Crash Deadlock → ∃ v, k_sems k !! s = Some v ∧ (v <= 0)%Z.
Proof.
  unfold lock, on_k_sems, sem_wait. step. destruct (k_sems k !! s) as [v|]; [|done].
  case_decide; [done|]. intros _. exists v. split; [done | lia].
Qed.
Lemma unlock_goes_on s k : unlock s k ≠ Crash Deadlock.
Proof. unfold unlock, on_k_sems, sem_post. step. by destruct (k_sems k !! s). Qed.

Definition goes_on k (t : thread) : Prop := finished t = false ∧ resume t k ≠ Crash Deadlock.

(** From a thread that waits to one that holds a later lock. *)
Lemma climb k ts n i t s p :
  disciplined k ts → ts !! i = Some t → rest t = Lock _ s p → 13 ≤ n + rank s →
  ∃ j u, ts !! j = Some u ∧ goes_on k u.
Proof.
  intros [Hg Hh Hm]. revert i t s p. induction n as [|n IH]; intros i t s p Hi Ht Hn;
    [exfalso; destruct s as [[]| | | | | |]; cbn in Hn; lia|].
  assert (resume t k = (lock s;; mret (mk_thread (s :: held t) p)) k) as Hr by (unfold resume; by rewrite Ht).
  destruct (lock s k) as [[[] k']|c] eqn:E.
  { exists i, t. split; [done|]. split; [unfold finished; by rewrite Ht|]. rewrite Hr. unfold mbind, M_bind. by rewrite E. }
  destruct (decide (c = Deadlock)) as [->|Hne].
  2:{ exists i, t. split; [done|]. split; [unfold finished; by rewrite Ht|]. rewrite Hr. unfold mbind, M_bind.
      rewrite E. congruence. }
  pose proof (Forall_lookup_1 _ _ _ _ Hg Hi) as [_ Ho]. rewrite Ht in Ho. destruct Ho as (Hs & _ & _).
  apply lock_waits in E as (v & Hv & Hle). destruct (Hh s v Hs Hv) as [Hge Hz].
  destruct (Hz ltac:(lia)) as (j & u & Hj & Hu). pose proof (Forall_lookup_1 _ _ _ _ Hg Hj) as [_ Hou].
  destruct (rest u) as [[]|B m f|s' p'|s' p'] eqn:Hru; cbn in Hou.
  - rewrite Hou in Hu. by apply elem_of_nil in Hu.
  - exists j, u. split; [done|]. split; [unfold finished; by rewrite Hru|]. unfold resume. rewrite Hru.
    unfold mbind, M_bind. destruct Hou as [Hc _]. specialize (Hc k Hm). destruct (m k) as [[]|]; [done | congruence].
  - apply (IH j u s' p' Hj Hru). destruct Hou as (_ & Hb & _). unfold below in Hb. rewrite Forall_forall in Hb.
    specialize (Hb s Hu). lia.
  - exists j, u. split; [done|]. split; [unfold finished; by rewrite Hru|]. unfold resume. rewrite Hru.
    unfold mbind, M_bind. pose proof (unlock_goes_on s' k). destruct (unlock s' k) as [[]|]; [done | congruence].
Qed.

Lemma somebody_goes_on k ts i t :
  disciplined k ts → ts !! i = Some t → finished t = false → ∃ j u, ts !! j = Some u ∧ goes_on k u.
Proof.
  intros Hd Hi Hf. pose proof (Forall_lookup_1 _ _ _ _ (d_good _ _ Hd) Hi) as [_ Ho].
  destruct (rest t) as [[]|B m f|s p|s p] eqn:Hr; [unfold finished in Hf; by rewrite Hr in Hf| | |].
  - exists i, t. split; [done|]. split; [done|]. unfold resume. rewrite Hr. unfold mbind, M_bind.
    destruct Ho as [Hc _]. specialize (Hc k (d_memory _ _ Hd)). destruct (m k) as [[]|]; [done | congruence].
  - apply (climb k ts 13 i t s p); [done..|lia].
  - exists i, t. split; [done|]. split; [done|]. unfold resume. rewrite Hr. unfold mbind, M_bind.
    pose proof (unlock_goes_on s k). destruct (unlock s k) as [[]|]; [done | congruence].
Qed.

(** ** Every step keeps it *)
Lemma resume_good t k t' k' :
  good_thread t → steady (k_memory k) → resume t k = Ok (t', k') → good_thread t' ∧ steady (k_memory k').
Proof.
  intros [Hnd Ho] Hm H. unfold resume in H. unfold good_thread.
  destruct (rest t) as [a|B m f|s p|s p] eqn:Hr; cbn in Ho.
  - injection H as <- <-. by rewrite Hr.
  - bind_inv H. injection H as <- <-. destruct Ho as [Hc Hf]. specialize (Hc k Hm). rewrite E in Hc.
    split; [split; [done | apply Hf]|]. by apply (t_memory _ _ _ Hc).
  - bind_inv H. injection H as <- <-. destruct Ho as (_ & Hb & Ho). apply lock_inv in E as (v & _ & _ & ->). cbn.
    split; [|done]. split; [|done]. constructor; [by eapply below_not | done].
  - bind_inv H. injection H as <- <-. destruct Ho as [_ Ho]. apply unlock_inv in E as (v & _ & ->). cbn.
    split; [|done]. split; [by apply unheld_nodup | done].
Qed.

(** What a step does to the counters and to what is held. *)
Lemma resume_sems t k t' k' s v :
  good_thread t → steady (k_memory k) → resume t k = Ok (t', k') → k_sems k' !! s = Some v →
  (k_sems k !! s = Some v ∧ (s ∈ held t' ↔ s ∈ held t)) ∨
  (v = 1%Z ∧ (∀ l, s ≠ sem_list l) ∧ held t' = held t) ∨
  (∃ w, k_sems k !! s = Some w ∧ (0 < w)%Z ∧ v = (w - 1)%Z ∧ (s ∉ held t) ∧ s ∈ held t') ∨
  (∃ w, k_sems k !! s = Some w ∧ v = (w + 1)%Z ∧ (strict = true → s ∈ held t) ∧ (s ∉ held t')).
Proof.
  intros [Hnd Ho] Hm H Hv. unfold resume in H. destruct (rest t) as [a|B m f|u p|u p] eqn:Hr; cbn in Ho.
  - injection H as <- <-. by left.
  - bind_inv H. injection H as <- <-. destruct Ho as [Hc _]. specialize (Hc k Hm). rewrite E in Hc.
    destruct (t_sems _ _ _ Hc s) as [He|[Hl He]]; [left; split; [congruence | done] | right; left].
    split_and!; [congruence | done | done].
  - bind_inv H. injection H as <- <-. destruct Ho as (_ & Hb & _). apply lock_inv in E as (w & Hw & Hpos & ->).
    cbn in Hv. cbn [held]. destruct (decide (u = s)) as [->|Hne].
    + rewrite lookup_insert_eq in Hv. injection Hv as <-. right. right. left. exists w.
      split_and!; [done|done|done| by eapply below_not | by left].
    + rewrite lookup_insert_ne in Hv by done. left. split; [done|]. set_solver.
  - bind_inv H. injection H as <- <-. destruct Ho as [Hs _]. apply unlock_inv in E as (w & Hw & ->).
    cbn in Hv. cbn [held]. destruct (decide (u = s)) as [->|Hne].
    + rewrite lookup_insert_eq in Hv. injection Hv as <-. right. right. right. exists w.
      split_and!; [done|done|done|]. rewrite unheld_elem by done. tauto.
    + rewrite lookup_insert_ne in Hv by done. left. split; [done|]. rewrite unheld_elem by done. naive_solver.
Qed.

Lemma step_disciplined starts c c' :
  (∀ p, starts p → balanced [] p) → interleaves starts c c' → disciplined c.1 c.2 → disciplined c'.1 c'.2.
Proof.
  intros Hst Hstep [Hg Hh Hm]. destruct Hstep as [k ts i t t' k' Hi Hr|k ts p Hp]; cbn in *.
  - pose proof (Forall_lookup_1 _ _ _ _ Hg Hi) as Ht. destruct (resume_good _ _ _ _ Ht Hm Hr) as [Ht' Hm'].
    split; [by apply Forall_insert | | done]. intros s v Hs Hv.
    assert (∀ j u, ts !! j = Some u → s ∈ held u → (s ∈ held t → s ∈ held t') →
      ∃ j u, <[i := t']> ts !! j = Some u ∧ s ∈ held u) as Hkeep.
    { intros j u Hj Hu Himp. destruct (decide (i = j)) as [<-|Hne]; [|exists j, u; by rewrite list_lookup_insert_ne].
      exists i, t'. rewrite list_lookup_insert_eq by (by eapply lookup_lt_Some). split; [done|]. apply Himp. congruence. }
    destruct (resume_sems _ _ _ _ _ _ Ht Hm Hr Hv) as [[Hk Hiff]|[(-> & _ & _)|[(w & Hk & Hpos & -> & _ & Hin)|(w & Hk & -> & _ & _)]]].
    + destruct (Hh s v Hs Hk) as [Hge Hz]. split; [done|]. intros E. destruct (Hz E) as (j & u & Hj & Hu).
      eapply Hkeep; [done..|tauto].
    + lia.
    + split; [lia|]. intros _. exists i, t'. by rewrite list_lookup_insert_eq by (by eapply lookup_lt_Some).
    + destruct (Hh s w Hs Hk) as [Hge _]. lia.
  - split; [|intros s v Hs Hv|done].
    + apply Forall_app. split; [done|]. apply Forall_singleton. split; [constructor | by apply Hst].
    + destruct (Hh s v Hs Hv) as [Hge Hz]. split; [done|]. intros E. destruct (Hz E) as (j & u & Hj & Hu).
      exists j, u. split; [|done]. by apply lookup_app_l_Some.
Qed.

(** ** One holder *)

(** With [strict], of the lock of a list. *)
Record exclusive k (ts : list thread) : Prop := {
  e_binary : ∀ l v, k_sems k !! sem_list l = Some v → (v <= 1)%Z;
  e_taken : ∀ l i t, ts !! i = Some t → sem_list l ∈ held t → k_sems k !! sem_list l = Some 0%Z;
  e_one : ∀ l i t j u, ts !! i = Some t → sem_list l ∈ held t → ts !! j = Some u → sem_list l ∈ held u → i = j }.

Lemma resume_no_sem t k t' k' s :
  good_thread t → steady (k_memory k) → resume t k = Ok (t', k') → k_sems k' !! s = None →
  k_sems k !! s = None ∧ (s ∈ held t' → s ∈ held t).
Proof.
  intros [Hnd Ho] Hm H Hv. unfold resume in H. destruct (rest t) as [a|B m f|u p|u p] eqn:Hr; cbn in Ho.
  - by injection H as <- <-.
  - bind_inv H. injection H as <- <-. destruct Ho as [Hc _]. specialize (Hc k Hm). rewrite E in Hc.
    destruct (t_sems _ _ _ Hc s) as [He|[_ He]]; split; congruence || done.
  - bind_inv H. injection H as <- <-. apply lock_inv in E as (w & Hw & _ & ->). cbn in *.
    apply lookup_insert_None in Hv as [? Hne]. set_solver.
  - bind_inv H. injection H as <- <-. apply unlock_inv in E as (w & Hw & ->). cbn in *.
    apply lookup_insert_None in Hv as [? Hne]. rewrite unheld_elem by done. tauto.
Qed.

Lemma step_exclusive starts c c' :
  strict = true → interleaves starts c c' → disciplined c.1 c.2 → exclusive c.1 c.2 → exclusive c'.1 c'.2.
Proof.
  intros Hstrict Hstep [Hg _ Hm] [Hbin Htaken Hone]. destruct Hstep as [k ts i t t' k' Hi Hr|k ts p Hp]; cbn in *.
  - pose proof (Forall_lookup_1 _ _ _ _ Hg Hi) as Ht.
    assert (∀ j u, <[i := t']> ts !! j = Some u → j = i ∧ u = t' ∨ j ≠ i ∧ ts !! j = Some u) as Hcases.
    { intros j u. destruct (decide (i = j)) as [<-|Hne].
      - rewrite list_lookup_insert_eq by (by eapply lookup_lt_Some). intros [= <-]. by left.
      - rewrite list_lookup_insert_ne by done. by right. }
    (* for each list, by what has happened to its counter *)
    assert (∀ l, (∀ v, k_sems k' !! sem_list l = Some v → (v <= 1)%Z) ∧
      (∀ j u, <[i := t']> ts !! j = Some u → sem_list l ∈ held u → k_sems k' !! sem_list l = Some 0%Z) ∧
      (∀ j u j' u', <[i := t']> ts !! j = Some u → sem_list l ∈ held u →
        <[i := t']> ts !! j' = Some u' → sem_list l ∈ held u' → j = j')) as Hall.
    2:{ split; [intros l; apply (Hall l) | intros l j u; apply (Hall l) |].
        intros l j u j' u' ????. by apply (proj2 (proj2 (Hall l)) j u j' u'). }
    intros l. assert ((sem_list l ∈ held t' → sem_list l ∈ held t) →
      ∀ j u, <[i := t']> ts !! j = Some u → sem_list l ∈ held u → ∃ u', ts !! j = Some u' ∧ sem_list l ∈ held u') as Hback.
    { intros Himp j u [[-> ->]|[_ ?]]%Hcases Hu; [exists t; auto | by exists u]. }
    assert (∀ Himp : sem_list l ∈ held t' → sem_list l ∈ held t, ∀ j u j' u', <[i := t']> ts !! j = Some u →
      sem_list l ∈ held u → <[i := t']> ts !! j' = Some u' → sem_list l ∈ held u' → j = j') as Hsame.
    { intros Himp j u j' u' Hj Hu Hj' Hu'. destruct (Hback Himp j u Hj Hu) as (x & ? & ?).
      destruct (Hback Himp j' u' Hj' Hu') as (y & ? & ?). by eapply Hone. }
    destruct (k_sems k' !! sem_list l) as [v|] eqn:Hv.
    2:{ destruct (resume_no_sem _ _ _ _ _ Ht Hm Hr Hv) as [Hk Himp]. split_and!; [done | | by apply Hsame].
        intros j u Hj Hu. destruct (Hback Himp j u Hj Hu) as (x & Hx & Hin). by rewrite (Htaken _ _ _ Hx Hin) in Hk. }
    destruct (resume_sems _ _ _ _ _ _ Ht Hm Hr Hv) as [[Hk Hiff]|[(_ & Hl & _)|[(w & Hk & Hpos & -> & Hnin & Hin)|(w & Hk & -> & Hin & Hnin)]]].
    + split_and!; [intros ? [= <-]; by eapply Hbin | | by apply Hsame; tauto]. intros j u Hj Hu.
      destruct (Hback (proj1 Hiff) j u Hj Hu) as (x & Hx & Hin). rewrite <- Hk. by eapply Htaken.
    + by destruct (Hl l).
    + pose proof (Hbin l w Hk) as Hle. assert (w = 1%Z) as -> by lia.
      assert (∀ j u, <[i := t']> ts !! j = Some u → sem_list l ∈ held u → j = i) as Honly.
      { intros j u [[-> _]|[_ Hj]]%Hcases Hu; [done|]. by rewrite (Htaken _ _ _ Hj Hu) in Hk. }
      split_and!; [by intros ? [= <-] | done |]. intros j u j' u' Hj Hu Hj' Hu'. by rewrite (Honly j u), (Honly j' u').
    + specialize (Hin Hstrict). rewrite (Htaken _ _ _ Hi Hin) in Hk. injection Hk as <-.
      assert (∀ j u, <[i := t']> ts !! j = Some u → sem_list l ∉ held u) as Hnone.
      { intros j u [[_ ->]|[Hne Hj]]%Hcases Hu; [done|]. by destruct (Hne (Hone _ _ _ _ _ Hj Hu Hi Hin)). }
      split_and!; [by intros ? [= <-] | |]; intros j u; intros; by destruct (Hnone j u).
  - assert (∀ l j u, (ts ++ [mk_thread [] p]) !! j = Some u → sem_list l ∈ held u → ts !! j = Some u) as Hold.
    { intros l j u [Hj|[_ Hj]]%lookup_app_Some Hu; [done|]. apply list_lookup_singleton_Some in Hj as [_ <-].
      by apply elem_of_nil in Hu. }
    split; [done | |]; intros; eauto.
Qed.

(** A list that a step changes is locked by the thread that changes it. *)
Lemma resume_lists t k t' k' l :
  strict = true → good_thread t → steady (k_memory k) → resume t k = Ok (t', k') →
  list_of l (lists k') ≠ list_of l (lists k) → sem_list l ∈ held t.
Proof.
  intros Hstrict [_ Ho] Hm H Hl. unfold resume in H. destruct (rest t) as [a|B m f|u p|u p] eqn:Hr; cbn in Ho.
  - by injection H as <- <-.
  - bind_inv H. injection H as <- <-. destruct Ho as [Hc _]. specialize (Hc k Hm). rewrite E in Hc.
    destruct (decide (sem_list l ∈ held t)) as [|Hn]; [done|]. by destruct (Hl (t_lists _ _ _ Hc Hstrict l Hn)).
  - bind_inv H. injection H as <- <-. by apply lock_inv in E as (w & _ & _ & ->).
  - bind_inv H. injection H as <- <-. by apply unlock_inv in E as (w & _ & ->).
Qed.

(** ** Every interleaving *)
Lemma interleaving_disciplined starts c c' :
  (∀ p, starts p → balanced [] p) → rtc (interleaves starts) c c' → disciplined c.1 c.2 → disciplined c'.1 c'.2.
Proof. intros Hst. induction 1 as [|c1 c2 c3 H _ IH]; [done|]. intros Hd. apply IH. by eapply step_disciplined. Qed.

Lemma interleaving_exclusive starts c c' :
  strict = true → (∀ p, starts p → balanced [] p) → rtc (interleaves starts) c c' →
  disciplined c.1 c.2 → exclusive c.1 c.2 → exclusive c'.1 c'.2.
Proof.
  intros Hs Hst. induction 1 as [|c1 c2 c3 H _ IH]; [done|]. intros Hd He.
  apply IH; [by eapply step_disciplined | by eapply step_exclusive].
Qed.
End Discipline.
End Threads.
