(* ===== verification/KernelThreads.v ===== *)
(** * The handlers of the kernel, as threads (kernel/src)

    Each function of Scheduler.v and Handlers.v that takes a lock, or calls
    one that does, once more, as a program of Threads.v: between two calls of
    the repositories other threads may run.  [mirrors]: alone, it does what
    the function of Handlers.v does.

    Between the reading of a list and the loop over it the list may grow, so
    that the bound of a loop is a parameter, [turns]. *)
From S2P Require Import Prelude Text Commons Enums Buffer Package Packages Config Semaphores Pcb.
From S2P Require Import Kernel Scheduler Handlers KernelInvariant KernelLogic KernelRules Threads.
Import Buffer Package ProcessState Algorithm.

Create HintDb mirrors discriminated.
#[export] Hint Resolve mirrors_ret mirrors_act mirrors_acquire mirrors_release : mirrors.

Section Programs.
Context {C : CommonsOps} {Srv : Type} {MS : MemoryServer Srv} {Env : KernelEnv Srv}.
Context (kernel_config : t_kernel_config) (turns : list nat → nat).
Local Abbreviation P := (prog (Srv := Srv)).
Local Abbreviation acquire_list s := (acquire (sem_list s)).
Local Abbreviation release_list s := (release (sem_list s)).

(** ** kernel_logic/algorithms, kernel_logic/scheduler *)
Definition should_preempt_executing_process_steps (pcb_ready : nat) (pid_executing : Z) : P bool :=
  acquire_list EXEC;;
  pcb_executing ← act (find_pcb_in_exec pid_executing);
  match pcb_executing with
  | None => mret true
  | Some a => act (compare_cpu_bursts_SRT kernel_config pcb_ready a)
  end.

Definition get_next_process_to_initialize_from_new_steps : P (option nat) :=
  (if decide (long_term_algorithm kernel_config = PMCP) then act sort_new_list_by_SSF else mret tt);;
  act get_next_pcb_from_new.

Definition get_next_process_to_initialize_from_susp_ready_steps : P (option nat) :=
  (if decide (long_term_algorithm kernel_config = PMCP) then act sort_susp_ready_list_by_SSF else mret tt);;
  act get_next_pcb_from_susp_ready.

Fixpoint unsuspend_loop_steps (fuel : nat) (processes_initialized : bool) : P bool :=
  match fuel with
  | O => act (crash_with OutOfFuel)
  | S fuel =>
      acquire_list SUSP_READY;;
      pcb ← get_next_process_to_initialize_from_susp_ready_steps;
      match pcb with
      | None => release_list SUSP_READY;; mret processes_initialized
      | Some a =>
          p ← act (load_pcb a);
          response ← act (ask (send_swap_in_package (pid p)));
          response ← act (deref response);
          confirmed ← act (lift_res (read_with read_confirmation_package response));
          if confirmed : bool then
            pcb_pop ← act (remove_pcb_from_susp_ready (pid p));
            release_list SUSP_READY;;
            acquire_list READY;;
            act (add_pcb_to_ready pcb_pop);;
            release_list READY;;
            unsuspend_loop_steps fuel true
          else release_list SUSP_READY;; mret processes_initialized
      end
  end.

Fixpoint admit_loop_steps (fuel : nat) (processes_initialized : bool) : P bool :=
  match fuel with
  | O => act (crash_with OutOfFuel)
  | S fuel =>
      pcb ← get_next_process_to_initialize_from_new_steps;
      match pcb with
      | None => mret processes_initialized
      | Some a =>
          p ← act (load_pcb a);
          memory_ok ← act (create_process (pid p) (size p) (pseudocode_file p));
          if memory_ok : bool then
            pcb_pop ← act (remove_pcb_from_new (pid p));
            act (add_pcb_to_ready pcb_pop);;
            admit_loop_steps fuel true
          else mret processes_initialized
      end
  end.

Definition run_long_scheduler_steps : P bool :=
  connected ← act connect_to_memory;
  if connected : bool then
    suspended ← act (get_list SUSP_READY);
    processes_initialized ← unsuspend_loop_steps (turns suspended) false;
    acquire_list READY;;
    acquire_list NEW;;
    waiting ← act (get_list NEW);
    processes_initialized ← admit_loop_steps (turns waiting) processes_initialized;
    release_list NEW;;
    release_list READY;;
    mret processes_initialized
  else mret false.

Definition send_and_receive_interrupt_steps (interrupt_socket pid_ : Z) : P cpu_context_package_data :=
  act (send_to interrupt_socket (create_interrupt_package pid_));;
  release_list EXEC;;
  response ← act recv_answer;
  response ← act (deref response);
  act (lift_res (read_with read_cpu_context_package response)).

Definition preempt_steps (cpu : string) : P unit :=
  c ← act (load_cpu cpu);
  cpu_context ← send_and_receive_interrupt_steps (interrupt_socket_id c) (current_process_executing c);
  if decide (interrupted_same_pid cpu_context = 0)%Z then
    acquire_list EXEC;;
    c ← act (load_cpu cpu);
    preempted_pcb ← act (remove_pcb_from_exec (current_process_executing c));
    match preempted_pcb with
    | Some a => act (update_pcb a (with_pc (ctx_pc cpu_context)));; act (add_pcb_to_ready (Some a))
    | None => mret tt
    end
  else mret tt.

Definition dispatch_to_steps (cpu : string) (pcb_in_ready : nat) : P unit :=
  p ← act (load_pcb pcb_in_ready);
  act (remove_pcb_from_ready (pid p));;
  act (add_pcb_to_exec (Some pcb_in_ready));;
  p ← act (load_pcb pcb_in_ready);
  act (send_dispatch_to_cpu cpu (pid p) (pc p));;
  act (set_executing cpu (pid p));;
  release sem_cpu_connections;;
  release_list EXEC;;
  release_list READY;;
  release (sem_cpu_exec cpu).

Definition get_short_scheduler_context_steps : P (option string * option nat) :=
  cpu ← act (get_cpu_to_dispatch kernel_config);
  match cpu with
  | None => mret (None, None)
  | Some cpu =>
      pcb_ready ← act (get_next_process_to_dispatch kernel_config);
      mret (Some cpu, pcb_ready)
  end.

Definition run_short_scheduler_steps : P unit :=
  acquire sem_cpu_connections;;
  acquire_list READY;;
  context ← get_short_scheduler_context_steps;
  match context with
  | (Some cpu, Some pcb_in_ready) =>
      acquire (sem_cpu_exec cpu);;
      c ← act (load_cpu cpu);
      if decide (current_process_executing c = -1)%Z then
        acquire_list EXEC;; dispatch_to_steps cpu pcb_in_ready
      else if negb (preemption_is_enabled kernel_config) then
        release sem_cpu_connections;; release_list READY;; release (sem_cpu_exec cpu)
      else
        should ← should_preempt_executing_process_steps pcb_in_ready (current_process_executing c);
        if should : bool then preempt_steps cpu;; dispatch_to_steps cpu pcb_in_ready
        else
          release sem_cpu_connections;; release_list EXEC;; release_list READY;; release (sem_cpu_exec cpu)
  | _ => release sem_cpu_connections;; release_list READY
  end.

Definition back_to_blocked_steps (pid_ : Z) : P unit :=
  acquire_list BLOCKED;;
  acquire_list SUSP_BLOCKED;;
  pcb ← act (remove_pcb_from_susp_blocked pid_);
  act (add_pcb_to_blocked pcb);;
  release_list SUSP_BLOCKED;;
  release_list BLOCKED.

Definition run_medium_scheduler_steps (pid_ : Z) : P unit :=
  acquire_list BLOCKED;;
  blocked_pid_found ← act (find_pcb_in_blocked pid_);
  match blocked_pid_found with
  | None => release_list BLOCKED
  | Some a =>
      p ← act (load_pcb a);
      time_in_blocked ← act (total_time_ms (state_start_time_ms p));
      if decide (time_in_blocked < u64 (sleep_time kernel_config))%Z then release_list BLOCKED
      else
        acquire_list SUSP_BLOCKED;;
        pcb ← act (remove_pcb_from_blocked pid_);
        act (add_pcb_to_susp_blocked pcb);;
        release_list BLOCKED;;
        release_list SUSP_BLOCKED;;
        pcb ← act (deref pcb);
        p ← act (load_pcb pcb);
        swapped ← act (swap_out pid_ (size p));
        if swapped : bool then
          admitted ← run_long_scheduler_steps;
          if admitted : bool then run_short_scheduler_steps else mret tt
        else back_to_blocked_steps pid_
  end.

(** ** handlers/cpu/syscall *)
Definition exit_routine_steps (pcb : option nat) : P bool :=
  acquire_list EXIT_L;;
  act (add_pcb_to_exit pcb);;
  a ← act (deref pcb);
  p ← act (load_pcb a);
  mem_response ← act (kill_process_in_memory (pid p));
  (if mem_response : bool then
     p ← act (load_pcb a);
     t ← act (total_time_ms (state_start_time_ms p));
     act (update_pcb a (with_exit_time t))
   else
     t ← act get_current_time_ms;
     act (update_pcb a (with_exec_time t)));;
  release_list EXIT_L;;
  mret mem_response.

Definition exit_process_syscall_steps (pid_ : Z) : P unit :=
  acquire_list EXEC;;
  pcb ← act (remove_pcb_from_exec pid_);
  exit_routine_steps pcb;;
  release_list EXEC;;
  act (pthread_create T_process_schedulers_exit).

Definition handle_init_proc_syscall_steps (caller_pid caller_pc new_process_memory_space : Z)
    (new_process_pseudocode_file : string) (response_socket : Z) : P unit :=
  acquire_list NEW;;
  acquire_list EXEC;;
  current_pcb ← act (find_pcb_in_exec caller_pid);
  match current_pcb with
  | None => release_list EXEC;; release_list NEW
  | Some a =>
      p ← act (load_pcb a);
      time_int_exec ← act (total_time_ms (state_start_time_ms p));
      act (update_pcb a (with_burst time_int_exec));;
      act (update_pcb a (with_pc caller_pc));;
      act (modify (λ k, set_new_pid (i32 (new_pid k + 1)) k));;
      fresh_pid ← act (gets new_pid);
      new_pcb ← act (pcb_create kernel_config fresh_pid 0 new_process_memory_space
                       (Some new_process_pseudocode_file));
      exists_already ← act (find_pcb_in_new fresh_pid);
      if exists_already : bool then
        release_list NEW;; release_list EXEC;; act (pcb_destroy (Some new_pcb))
      else
        act (add_pcb_to_new (Some new_pcb));;
        release_list NEW;;
        release_list EXEC;;
        act (send_to response_socket (create_confirmation_package true));;
        act (pthread_create T_process_schedulers)
  end.

Definition truly_busy_steps (current_pid : Z) : P bool :=
  if decide (current_pid ≠ -1)%Z then
    acquire_list BLOCKED;;
    acquire_list SUSP_BLOCKED;;
    pcb_in_blocked ← act (find_pcb_in_blocked current_pid);
    pcb_in_susp_blocked ← act (find_pcb_in_susp_blocked current_pid);
    release_list SUSP_BLOCKED;;
    release_list BLOCKED;;
    mret (bool_decide (is_Some pcb_in_blocked ∨ is_Some pcb_in_susp_blocked))
  else mret false.

Definition send_next_request_steps (name : string) (client_socket : Z) (io : string) : P unit :=
  request ← act (get_next_request_in_queue name);
  match request with
  | None => mret tt
  | Some io_request =>
      delivered ← act (send_to client_socket
        (create_io_operation_package (io_request_pid io_request) (io_request_sleep_time io_request)));
      if delivered : bool then
        element ← act (pop_next_request_in_queue name);
        match element with
        | None => mret tt
        | Some _ => act (set_io_executing io (io_request_pid io_request))
        end
      else mret tt
  end.

Definition process_pending_io_steps (name : string) (client_socket : Z) : P bool :=
  acquire sem_io_connections;;
  connection_found ← act (get_io_connection_status_by_device_name name);
  if negb (found connection_found) then release sem_io_connections;; mret false
  else
    acquire sem_io_requests;;
    request_link ← act (find_io_request_by_device_name name);
    match request_link with
    | None => release sem_io_requests;; release sem_io_connections;; mret true
    | Some link =>
        acquire (sem_io_requests_queue link);;
        io ← act (deref (connection connection_found));
        c ← act (load_io io);
        is_truly_busy ← truly_busy_steps (io_current_process_executing c);
        (if is_truly_busy : bool then mret tt else send_next_request_steps link client_socket io);;
        release (sem_io_requests_queue link);;
        release sem_io_requests;;
        release sem_io_connections;;
        mret true
    end.

Definition handle_io_connection_not_found_steps (pid_ : Z) : P unit :=
  acquire_list EXEC;;
  pcb ← act (remove_pcb_from_exec pid_);
  exit_routine_steps pcb;;
  release_list EXEC;;
  act (pthread_create T_process_schedulers_io).

Definition block_for_io_steps (pid_ pc_ sleep : Z) (link : string) : P (option nat) :=
  acquire (sem_io_requests_queue link);;
  acquire_list EXEC;;
  acquire_list BLOCKED;;
  pcb ← act (remove_pcb_from_exec pid_);
  (match pcb with
   | None => mret tt
   | Some a =>
       act (update_pcb a (with_pc pc_));;
       act (add_pcb_to_blocked (Some a));;
       act (create_io_request_element link pid_ sleep)
   end);;
  release_list BLOCKED;;
  release_list EXEC;;
  release (sem_io_requests_queue link);;
  mret pcb.

Definition handle_io_process_syscall_steps (pid_ pc_ sleep : Z) (name : string) : P unit :=
  acquire sem_io_connections;;
  io_connection ← act (get_io_connection_status_by_device_name name);
  if negb (found io_connection) then
    handle_io_connection_not_found_steps pid_;; release sem_io_connections
  else
    acquire sem_io_requests;;
    io_request_link ← act (find_io_request_by_device_name name);
    match io_request_link with
    | None => release sem_io_requests;; release sem_io_connections
    | Some link =>
        pcb ← block_for_io_steps pid_ pc_ sleep link;
        release sem_io_requests;;
        release sem_io_connections;;
        match pcb with
        | None => mret tt
        | Some a =>
            process_pending_io_steps name (status_socket_id io_connection);;
            p ← act (load_pcb a);
            act (pthread_create (T_medium_scheduler_thread (pid p)));;
            act (pthread_create T_short_scheduler_thread)
        end
    end.

Definition dump_memory_block_steps (pid_ pc_ : Z) : P (option nat) :=
  acquire_list EXEC;;
  acquire_list BLOCKED;;
  pcb ← act (find_pcb_in_exec pid_);
  match pcb with
  | None => release_list EXEC;; release_list BLOCKED;; mret None
  | Some a =>
      act (update_pcb a (with_pc pc_));;
      act (remove_pcb_from_exec pid_);;
      act (add_pcb_to_blocked (Some a));;
      release_list BLOCKED;;
      release_list EXEC;;
      mret (Some a)
  end.

Definition dump_memory_finish_steps (a : nat) (confirmation : bool) : P unit :=
  acquire_list READY;;
  acquire_list BLOCKED;;
  p ← act (load_pcb a);
  if confirmation then
    act (remove_pcb_from_blocked (pid p));;
    act (add_pcb_to_ready (Some a));;
    release_list READY;;
    release_list BLOCKED;;
    run_short_scheduler_steps
  else
    act (remove_pcb_from_blocked (pid p));;
    exit_routine_steps (Some a);;
    release_list READY;;
    release_list BLOCKED.

Definition dump_memory_syscall_steps (pid_ pc_ : Z) : P unit :=
  pcb ← dump_memory_block_steps pid_ pc_;
  match pcb with
  | None => mret tt
  | Some a =>
      confirmation ← act (dump_memory_routine pid_);
      dump_memory_finish_steps a confirmation
  end.

Definition handle_cpu_syscall_steps (package : t_package) (socket : Z) : P unit :=
  syscall ← act (lift_res (read_with read_syscall_package package));
  match SyscallType.decode (syscall_type syscall), params syscall with
  | Some SyscallType.SYSCALL_INIT_PROC, InitProcParams memory_space file =>
      handle_init_proc_syscall_steps (syscall_pid syscall) (syscall_pc syscall) memory_space file socket
  | Some SyscallType.SYSCALL_IO, IoParams sleep name =>
      handle_io_process_syscall_steps (syscall_pid syscall) (syscall_pc syscall) sleep name
  | Some SyscallType.SYSCALL_DUMP_MEMORY, _ =>
      dump_memory_syscall_steps (syscall_pid syscall) (syscall_pc syscall)
  | Some SyscallType.SYSCALL_EXIT, _ => exit_process_syscall_steps (syscall_pid syscall)
  | _, _ => mret tt
  end.

Definition handle_dispatch_client_steps (connection_id : string) (package : t_package) : P unit :=
  cpu_connection ← act (get_cpu_connection_by_id connection_id);
  match cpu_connection with
  | None => mret tt
  | Some c =>
      if bool_decide (opcode package = Opcode.code Opcode.SYSCALL)
      then handle_cpu_syscall_steps package (dispatch_socket_id c) else mret tt
  end.

(** ** handlers/io *)
Definition io_completion_steps (client_socket : Z) (name : string) (pid_ : Z) : P unit :=
  acquire sem_io_connections;;
  connection ← act (find_io_connection_by_socket client_socket);
  match connection with
  | None => release sem_io_connections
  | Some io =>
      acquire_list READY;;
      acquire_list BLOCKED;;
      acquire_list SUSP_BLOCKED;;
      acquire_list SUSP_READY;;
      pcb ← act (remove_pcb_from_blocked pid_);
      moved ← match pcb with
              | Some _ => act (add_pcb_to_ready pcb);; mret (Some READY)
              | None =>
                  pcb ← act (remove_pcb_from_susp_blocked pid_);
                  match pcb with
                  | Some _ => act (add_pcb_to_susp_ready pcb);; mret (Some SUSP_READY)
                  | None => mret None
                  end
              end;
      act (set_io_executing io (-1));;
      release_list SUSP_READY;;
      release_list SUSP_BLOCKED;;
      release_list BLOCKED;;
      release_list READY;;
      release sem_io_connections;;
      process_pending_io_steps name client_socket;;
      act (pthread_create T_process_pending_io_thread);;
      match moved with
      | Some READY => act (pthread_create T_process_scheduler_for_blocked)
      | Some _ => act (pthread_create T_process_schedulers_for_susp_blocked)
      | None => mret tt
      end
  end.

Definition process_new_device_steps (client_socket : Z) (name : string) : P unit :=
  acquire sem_io_connections;;
  acquire sem_io_requests;;
  act (create_io_connection client_socket name);;
  request_link ← act (find_io_request_by_device_name name);
  (match request_link with None => act (create_io_request_link name) | Some _ => mret tt end);;
  release sem_io_requests;;
  release sem_io_connections;;
  match request_link with
  | None => mret tt
  | Some _ => process_pending_io_steps name client_socket;; mret tt
  end.

Definition handle_found_process_steps (io : string) : P unit :=
  acquire_list BLOCKED;;
  c ← act (load_io io);
  pcb ← act (remove_pcb_from_blocked (io_current_process_executing c));
  match pcb with
  | Some _ => exit_routine_steps pcb;; release_list BLOCKED
  | None =>
      release_list BLOCKED;;
      acquire_list SUSP_BLOCKED;;
      pcb ← act (remove_pcb_from_susp_blocked (io_current_process_executing c));
      match pcb with
      | Some _ =>
          exit_routine_steps pcb;;
          release_list SUSP_BLOCKED;;
          admitted ← run_long_scheduler_steps;
          if admitted : bool then run_short_scheduler_steps else mret tt
      | None => release_list SUSP_BLOCKED
      end
  end.

Definition io_disconnected_steps (socket_id : Z) : P unit :=
  acquire sem_io_connections;;
  io_connection ← act (find_io_connection_by_socket socket_id);
  match io_connection with
  | None => release sem_io_connections
  | Some io =>
      c ← act (load_io io);
      (if decide (io_current_process_executing c ≠ -1)%Z then handle_found_process_steps io else mret tt);;
      act (delete_io_connection socket_id);;
      release sem_io_connections
  end.

(** ** The threads *)
Definition run_thread_steps (t : t_thread) : P unit :=
  match t with
  | T_process_schedulers | T_process_schedulers_exit | T_process_schedulers_io =>
      run_long_scheduler_steps;; run_short_scheduler_steps
  | T_short_scheduler_thread | T_process_scheduler_for_blocked => run_short_scheduler_steps
  | T_medium_scheduler_thread pid_ => run_medium_scheduler_steps pid_
  | T_process_schedulers_for_susp_blocked =>
      process_moved_to_ready ← run_long_scheduler_steps;
      if process_moved_to_ready : bool then run_short_scheduler_steps else mret tt
  | T_process_pending_io_thread => mret tt
  | T_process_new_device socket name => process_new_device_steps socket name
  | T_io_completion socket name pid_ => io_completion_steps socket name pid_
  end.

(** The [i]-th of the threads that have been created starts. *)
Definition thread_starts (i : nat) : M (t_kernel Srv) (option t_thread) :=
  l ← gets threads;
  match l !! i with
  | None => mret None
  | Some t => modify (set_threads (delete i l));; mret (Some t)
  end.

Definition handle_event_steps (e : k_event) : P unit :=
  match e with
  | Ev_thread i =>
      t ← act (thread_starts i);
      match t with None => mret tt | Some t => run_thread_steps t end
  | Ev_cpu_package id package => handle_dispatch_client_steps id package
  | Ev_io_package socket package => act (handle_io_client socket package)
  | Ev_io_disconnected socket => io_disconnected_steps socket
  end.

Definition initialize_root_process_steps (pid_ memory_space : Z) (file : option string) : P unit :=
  new_pcb ← act (pcb_create kernel_config pid_ 0 memory_space file);
  acquire_list NEW;;
  exists_already ← act (find_pcb_in_new pid_);
  if exists_already : bool then release_list NEW;; act (pcb_destroy (Some new_pcb))
  else
    act (add_pcb_to_new (Some new_pcb));;
    release_list NEW;;
    success ← run_long_scheduler_steps;
    if success : bool then run_short_scheduler_steps else mret tt.
End Programs.

(** ** They are the handlers *)
Section Mirrors.
Context {C : CommonsOps} {Srv : Type} {MS : MemoryServer Srv} {Env : KernelEnv Srv}.
Context (kernel_config : t_kernel_config).
Local Abbreviation turns := (λ l : list nat, S (length l)).

(** Go through a program and a function in step. *)
Local Ltac mirror := repeat first
  [ solve [auto with mirrors nocore]
  | apply mirrors_bind; [|intros ?]
  | apply mirrors_ret | apply mirrors_act | apply mirrors_acquire | apply mirrors_release
  | match goal with
    | |- mirrors (match ?x with _ => _ end) _ => destruct x
    | |- mirrors (if ?x then _ else _) _ => destruct x
    | |- mirrors ((match ?x with _ => _ end) _) _ => destruct x
    end ].

(** From the bodies of both. *)
Local Ltac mirror_call :=
  match goal with |- mirrors ?p ?m => let f := head_of p in let g := head_of m in unfold f, g end; mirror.

Lemma should_preempt_mirrors a p : mirrors (Srv := Srv) (should_preempt_executing_process_steps kernel_config a p) (should_preempt_executing_process kernel_config a p).
Proof. mirror_call. Qed.
#[local] Hint Resolve should_preempt_mirrors : mirrors.
Lemma next_new_mirrors : mirrors (Srv := Srv) (get_next_process_to_initialize_from_new_steps kernel_config) (get_next_process_to_initialize_from_new kernel_config).
Proof. mirror_call. Qed.
#[local] Hint Resolve next_new_mirrors : mirrors.
Lemma next_susp_ready_mirrors : mirrors (Srv := Srv) (get_next_process_to_initialize_from_susp_ready_steps kernel_config) (get_next_process_to_initialize_from_susp_ready kernel_config).
Proof. mirror_call. Qed.
#[local] Hint Resolve next_susp_ready_mirrors : mirrors.
Lemma unsuspend_loop_mirrors n b : mirrors (Srv := Srv) (unsuspend_loop_steps kernel_config n b) (unsuspend_loop kernel_config n b).
Proof. revert b. induction n as [|n IH]; intros b; cbn [unsuspend_loop_steps unsuspend_loop]; mirror. Qed.
#[local] Hint Resolve unsuspend_loop_mirrors : mirrors.
Lemma admit_loop_mirrors n b : mirrors (Srv := Srv) (admit_loop_steps kernel_config n b) (admit_loop kernel_config n b).
Proof. revert b. induction n as [|n IH]; intros b; cbn [admit_loop_steps admit_loop]; mirror. Qed.
#[local] Hint Resolve admit_loop_mirrors : mirrors.
Lemma long_scheduler_mirrors : mirrors (Srv := Srv) (run_long_scheduler_steps kernel_config turns) (run_long_scheduler kernel_config).
Proof. mirror_call. Qed.
#[local] Hint Resolve long_scheduler_mirrors : mirrors.
Lemma interrupt_mirrors s p : mirrors (Srv := Srv) (send_and_receive_interrupt_steps s p) (send_and_receive_interrupt s p).
Proof. mirror_call. Qed.
#[local] Hint Resolve interrupt_mirrors : mirrors.
Lemma preempt_mirrors cpu : mirrors (Srv := Srv) (preempt_steps cpu) (preempt cpu).
Proof. mirror_call. Qed.
#[local] Hint Resolve preempt_mirrors : mirrors.
Lemma dispatch_to_mirrors cpu a : mirrors (Srv := Srv) (dispatch_to_steps cpu a) (dispatch_to cpu a).
Proof. mirror_call. Qed.
#[local] Hint Resolve dispatch_to_mirrors : mirrors.
Lemma context_mirrors : mirrors (Srv := Srv) (get_short_scheduler_context_steps kernel_config) (get_short_scheduler_context kernel_config).
Proof. mirror_call. Qed.
#[local] Hint Resolve context_mirrors : mirrors.
Lemma short_scheduler_mirrors : mirrors (Srv := Srv) (run_short_scheduler_steps kernel_config) (run_short_scheduler kernel_config).
Proof. mirror_call. Qed.
#[local] Hint Resolve short_scheduler_mirrors : mirrors.
Lemma back_to_blocked_mirrors p : mirrors (Srv := Srv) (back_to_blocked_steps p) (back_to_blocked p).
Proof. mirror_call. Qed.
#[local] Hint Resolve back_to_blocked_mirrors : mirrors.
Lemma medium_scheduler_mirrors p : mirrors (Srv := Srv) (run_medium_scheduler_steps kernel_config turns p) (run_medium_scheduler kernel_config p).
Proof. mirror_call. Qed.
#[local] Hint Resolve medium_scheduler_mirrors : mirrors.
Lemma exit_routine_mirrors o : mirrors (Srv := Srv) (exit_routine_steps o) (exit_routine o).
Proof. mirror_call. Qed.
#[local] Hint Resolve exit_routine_mirrors : mirrors.
Lemma exit_process_mirrors p : mirrors (Srv := Srv) (exit_process_syscall_steps p) (exit_process_syscall p).
Proof. mirror_call. Qed.
#[local] Hint Resolve exit_process_mirrors : mirrors.
Lemma init_proc_mirrors p x n file s : mirrors (Srv := Srv) (handle_init_proc_syscall_steps kernel_config p x n file s) (handle_init_proc_syscall kernel_config p x n file s).
Proof. mirror_call. Qed.
#[local] Hint Resolve init_proc_mirrors : mirrors.
Lemma truly_busy_mirrors p : mirrors (Srv := Srv) (truly_busy_steps p) (truly_busy p).
Proof. mirror_call. Qed.
#[local] Hint Resolve truly_busy_mirrors : mirrors.
Lemma send_next_mirrors l s io : mirrors (Srv := Srv) (send_next_request_steps l s io) (send_next_request l s io).
Proof. mirror_call. Qed.
#[local] Hint Resolve send_next_mirrors : mirrors.
Lemma pending_io_mirrors n s : mirrors (Srv := Srv) (process_pending_io_steps n s) (process_pending_io n s).
Proof. mirror_call. Qed.
#[local] Hint Resolve pending_io_mirrors : mirrors.
Lemma not_found_mirrors p : mirrors (Srv := Srv) (handle_io_connection_not_found_steps p) (handle_io_connection_not_found p).
Proof. mirror_call. Qed.
#[local] Hint Resolve not_found_mirrors : mirrors.
Lemma block_for_io_mirrors p x t l : mirrors (Srv := Srv) (block_for_io_steps p x t l) (block_for_io p x t l).
Proof. mirror_call. Qed.
#[local] Hint Resolve block_for_io_mirrors : mirrors.
Lemma io_syscall_mirrors p x t n : mirrors (Srv := Srv) (handle_io_process_syscall_steps p x t n) (handle_io_process_syscall p x t n).
Proof. mirror_call. Qed.
#[local] Hint Resolve io_syscall_mirrors : mirrors.
Lemma dump_block_mirrors p x : mirrors (Srv := Srv) (dump_memory_block_steps p x) (dump_memory_block p x).
Proof. mirror_call. Qed.
#[local] Hint Resolve dump_block_mirrors : mirrors.
Lemma dump_finish_mirrors a b : mirrors (Srv := Srv) (dump_memory_finish_steps kernel_config a b) (dump_memory_finish kernel_config a b).
Proof. mirror_call. Qed.
#[local] Hint Resolve dump_finish_mirrors : mirrors.
Lemma dump_mirrors p x : mirrors (Srv := Srv) (dump_memory_syscall_steps kernel_config p x) (dump_memory_syscall kernel_config p x).
Proof. mirror_call. Qed.
#[local] Hint Resolve dump_mirrors : mirrors.
Lemma cpu_syscall_mirrors package s : mirrors (Srv := Srv) (handle_cpu_syscall_steps kernel_config package s) (handle_cpu_syscall kernel_config package s).
Proof. mirror_call. Qed.
#[local] Hint Resolve cpu_syscall_mirrors : mirrors.
Lemma dispatch_client_mirrors id package : mirrors (Srv := Srv) (handle_dispatch_client_steps kernel_config id package) (handle_dispatch_client kernel_config id package).
Proof. mirror_call. Qed.
#[local] Hint Resolve dispatch_client_mirrors : mirrors.
Lemma io_completion_mirrors s n p : mirrors (Srv := Srv) (io_completion_steps s n p) (io_completion s n p).
Proof. mirror_call. Qed.
#[local] Hint Resolve io_completion_mirrors : mirrors.
Lemma new_device_mirrors s n : mirrors (Srv := Srv) (process_new_device_steps s n) (process_new_device s n).
Proof. mirror_call. Qed.
#[local] Hint Resolve new_device_mirrors : mirrors.
Lemma found_process_mirrors io : mirrors (Srv := Srv) (handle_found_process_steps kernel_config turns io) (handle_found_process kernel_config io).
Proof. mirror_call. Qed.
#[local] Hint Resolve found_process_mirrors : mirrors.
Lemma disconnected_mirrors s : mirrors (Srv := Srv) (io_disconnected_steps kernel_config turns s) (io_disconnected kernel_config s).
Proof. mirror_call. Qed.
#[local] Hint Resolve disconnected_mirrors : mirrors.
Lemma run_thread_mirrors t : mirrors (Srv := Srv) (run_thread_steps kernel_config turns t) (run_thread kernel_config t).
Proof. destruct t; cbn [run_thread_steps run_thread]; unfold process_schedulers, process_schedulers_for_susp_blocked; mirror. Qed.
#[local] Hint Resolve run_thread_mirrors : mirrors.
Lemma initialize_mirrors p n file : mirrors (Srv := Srv) (initialize_root_process_steps kernel_config turns p n file) (initialize_root_process kernel_config p n file).
Proof. mirror_call. Qed.

(** Alone, from the moment at which it starts. *)
Lemma handle_event_mirrors e :
  mirrors (Srv := Srv) (handle_event_steps kernel_config turns e) (handle_event kernel_config e).
Proof.
  destruct e as [i|id package|s package|s]; cbn [handle_event_steps handle_event]; [|mirror..].
  intros k. rewrite denote_then. unfold mbind, M_bind. rewrite mirrors_act. unfold thread_starts. step.
  destruct (threads k !! i); [apply run_thread_mirrors | done].
Qed.
End Mirrors.
