(* ===== verification/KernelOrder.v ===== *)
(** * The locks of the kernel, in order

    Every thread of KernelThreads.v follows the discipline of Threads.v. *)
From S2P Require Import Prelude Text Commons Enums Buffer Package Packages Config Semaphores Pcb.
From S2P Require Import Kernel Scheduler Handlers KernelInvariant KernelLogic KernelRules Threads KernelThreads.
Import Buffer Package ProcessState Algorithm.

Create HintDb calm discriminated.
Create HintDb ordered discriminated.

Section Calm.
Context {C : CommonsOps} {CL : CommonsLaws C} {Srv : Type} {MS : MemoryServer Srv} {Env : KernelEnv Srv}.
Context {Steady : SteadyServer Srv} (kernel_config : t_kernel_config) (strict : bool).
Implicit Types k : t_kernel Srv.
Local Abbreviation K := (M (t_kernel Srv)).
Local Abbreviation calm := (calm strict).

(** ** Calls that do not wait *)
Lemma calm_neutral {A} H (m : K A) : neutral m → calm H m.
Proof.
  intros Hm k Hk. specialize (Hm k Hk). unfold safe in Hm. destruct (m k) as [[x k']|c]; [|apply Hm].
  destruct Hm as [Hv _ Hs _ Hmem]. constructor; [|intros _ s _|done].
  - intros s. left. by rewrite Hs.
  - assert (v_lists (view_of k') = v_lists (view_of k)) as Hl by by rewrite Hv. cbn in Hl. by rewrite Hl.
Qed.

Lemma calm_bind {A B} H (m : K A) (f : A → K B) : calm H m → (∀ x, calm H (f x)) → calm H (m ≫= f).
Proof.
  intros Hm Hf k Hk. specialize (Hm k Hk). unfold mbind, M_bind. destruct (m k) as [[x k1]|]; [|done].
  specialize (Hf x k1 (t_memory _ _ _ _ Hm Hk)). destruct (f x k1) as [[y k2]|]; [|done]. by etrans.
Qed.

Lemma calm_modify H (f : t_kernel Srv → t_kernel Srv) : (∀ k, touches strict H k (f k)) → calm H (modify f).
Proof. intros Hf k _. apply Hf. Qed.

(** A change of what the discipline does not look at. *)
Lemma touches_same H k k' :
  k_sems k' = k_sems k → lists k' = lists k → k_memory k' = k_memory k → touches strict H k k'.
Proof. intros Hs Hl Hm. constructor; [intros s; left; by rewrite Hs | intros; by rewrite Hl | by rewrite Hm]. Qed.

(** A list may be changed. *)
Definition guards (H : list k_sem) (s : PROCESS_STATE) : Prop := strict = true → sem_list s ∈ H.

Lemma calm_put_list H s l : guards H s → calm H (put_list s l).
Proof.
  intros Hg. apply calm_modify. intros k. constructor; [by left | | done]. intros Hs t Ht. cbn. apply list_of_set_ne.
  intros ->. by destruct (Ht (Hg Hs)).
Qed.

Ltac calm := repeat first
  [ solve [auto with calm nocore]
  | solve [apply calm_neutral; neutral]
  | apply calm_put_list; done
  | apply calm_bind; [|intros ?]
  | apply calm_modify; intros ?; by apply touches_same
  | match goal with
    | |- Threads.calm _ _ (match ?x with _ => _ end) => destruct x
    | |- Threads.calm _ _ (if ?x then _ else _) => destruct x
    | |- Threads.calm _ _ (let '(_, _) := ?x in _) => destruct x
    end ].

Lemma calm_change_state H o s : calm H (pcb_change_state o s).
Proof. unfold pcb_change_state, store_pcb. calm. Qed.
#[local] Hint Resolve calm_change_state : calm.

Lemma calm_add_pcb_to H s o : guards H s → calm H (add_pcb_to s o).
Proof. intros Hg. unfold add_pcb_to. calm. Qed.
Lemma calm_add_new H o : guards H NEW → calm H (add_pcb_to_new o).
Proof. intros Hg. unfold add_pcb_to_new. calm. Qed.
Lemma calm_remove H s p : guards H s → calm H (remove_pcb_from s p).
Proof. intros Hg. unfold remove_pcb_from. calm. Qed.
Lemma calm_remove_exec H p : guards H EXEC → calm H (remove_pcb_from_exec p).
Proof. intros Hg. pose proof (calm_remove H EXEC p Hg). unfold remove_pcb_from_exec, store_pcb. calm. Qed.
Lemma calm_next H s : calm H (get_next_pcb_from s).
Proof. unfold get_next_pcb_from. calm. Qed.
Lemma calm_find H s p : calm H (find_pcb_in s p).
Proof. unfold find_pcb_in. calm. Qed.
Lemma calm_find_new H p : calm H (find_pcb_in_new p).
Proof. unfold find_pcb_in_new. calm. Qed.

Lemma calm_create H p x n file : calm H (pcb_create kernel_config p x n file).
Proof. unfold pcb_create, store_pcb. calm. Qed.
Lemma calm_destroy H o : calm H (pcb_destroy o).
Proof. unfold pcb_destroy. calm. Qed.

Lemma calm_sort_list H s f : guards H s → (∀ a b, neutral (f a b)) → calm H (sort_list s f).
Proof.
  intros Hg Hf k Hk. unfold sort_list.
  set (I (r : res (t_kernel Srv)) := match r with Ok k' => touches strict H k k' | Crash c => c ≠ Deadlock end).
  assert (I (list_sort (comparator f) (list_of s (lists k)) (Ok k)).2) as HI.
  { apply (list_sort_inv _ _ _ I); [|unfold I; reflexivity]. unfold I. intros a b [k1|c] _ _ Hr; [|done]. unfold comparator.
    pose proof (calm_neutral H _ (Hf a b) k1 (t_memory _ _ _ _ Hr Hk)) as Hc.
    destruct (f a b k1) as [[x k2]|c]; cbn in *; [by etrans | done]. }
  destruct (list_sort _ _ _) as [l [k'|c]]; cbn in HI; [|done].
  pose proof (calm_put_list H s l Hg k' (t_memory _ _ _ _ HI Hk)) as Hp. unfold put_list in *. step. cbn in Hp. by etrans.
Qed.

Lemma calm_sort_new H : guards H NEW → calm H sort_new_list_by_SSF.
Proof. intros Hg. apply calm_sort_list; [done|]. intros. apply neutral_compare_size. Qed.
Lemma calm_sort_susp_ready H : guards H SUSP_READY → calm H sort_susp_ready_list_by_SSF.
Proof. intros Hg. apply calm_sort_list; [done|]. intros. apply neutral_compare_size. Qed.

Lemma calm_set_executing H cpu p : calm H (set_executing cpu p).
Proof. unfold set_executing. calm. Qed.

Lemma calm_send H socket r : quiet r → calm H (send_to socket r).
Proof.
  intros Hr. unfold send_to. apply calm_bind; [by apply calm_neutral, neutral_lift | intros package]. calm.
Qed.
Lemma calm_send_confirmation H socket b : calm H (send_to socket (create_confirmation_package b)).
Proof. apply calm_send; auto with quiet. Qed.
Lemma calm_send_dispatch H cpu p n : calm H (send_dispatch_to_cpu cpu p n).
Proof.
  unfold send_dispatch_to_cpu. apply calm_bind; [calm | intros c]. apply calm_send; auto with quiet.
Qed.
Lemma calm_recv_answer H : calm H recv_answer.
Proof. unfold recv_answer. calm. Qed.
Lemma calm_out_of_fuel {A} H : calm H (crash_with OutOfFuel : K A).
Proof. by intros k _. Qed.

Lemma calm_create_link H name : calm H (create_io_request_link name).
Proof.
  unfold create_io_request_link. apply calm_bind; [|intros; calm]. intros k _. unfold on_k_sems, sem_init. step.
  constructor; [|done|done]. intros s. cbn. destruct (decide (sem_io_requests_queue name = s)) as [<-|Hne].
  - right. by rewrite lookup_insert_eq.
  - left. by rewrite lookup_insert_ne.
Qed.

Lemma calm_new_pid H f : calm H (modify (λ k, set_new_pid (f k) k)).
Proof. calm. Qed.
Lemma calm_thread_starts H i : calm H (thread_starts i).
Proof. unfold thread_starts. calm. Qed.
Lemma calm_io_client H socket package : calm H (handle_io_client socket package).
Proof. unfold handle_io_client, handle_new_device, process_io_completion. calm. Qed.

(** Without SJF nothing is sorted at a dispatch. *)
Context (Hstrict : strict = true → short_planification_algorithm kernel_config ≠ SJF).

Lemma calm_cpu_to_dispatch H : calm H (get_cpu_to_dispatch kernel_config).
Proof.
  assert (calm H (sort_exec_list_by_SJF kernel_config) ∨ short_planification_algorithm kernel_config ≠ SJF) as Hsort.
  { destruct (decide (strict = true)) as [E|E]; [right; by apply Hstrict | left]. apply calm_sort_list; [by intros ? |]. intros. apply neutral_compare_bursts. }
  unfold get_cpu_to_dispatch, get_cpu_by_algorithm, short_term_algorithm.
  assert (∀ cpus, calm H (if decide (short_planification_algorithm kernel_config = SJF) then get_cpu_by_SJF kernel_config cpus
    else mret (fst <$> list_get cpus 0))) as Hcpu.
  { intros cpus. case_decide; [|calm]. destruct Hsort as [?|?]; [|done]. unfold get_cpu_by_SJF. calm. }
  pose proof calm_set_executing. calm.
Qed.

Lemma calm_process_to_dispatch H : guards H READY → calm H (get_next_process_to_dispatch kernel_config).
Proof.
  intros Hg. assert (calm H (sort_ready_list_by_SJF kernel_config)) as Hsort.
  { apply calm_sort_list; [done|]. intros. apply neutral_compare_bursts. }
  pose proof (calm_next H READY). unfold get_next_process_to_dispatch, get_next_pcb_from_ready. calm.
Qed.
End Calm.

#[export] Hint Resolve calm_add_pcb_to calm_add_new calm_remove calm_remove_exec calm_next calm_find calm_find_new
  calm_create calm_destroy calm_sort_new calm_sort_susp_ready calm_set_executing calm_send_confirmation
  calm_send_dispatch calm_recv_answer calm_out_of_fuel calm_create_link calm_new_pid calm_thread_starts calm_io_client
  calm_cpu_to_dispatch calm_process_to_dispatch : calm.
#[export] Hint Extern 1 (guards _ _ _) => (intros _; repeat first [by left | right]) : calm.

(** ** Programs in order *)
Section Ordered.
Context {C : CommonsOps} {CL : CommonsLaws C} {Srv : Type} {MS : MemoryServer Srv} {Env : KernelEnv Srv}.
Context {Steady : SteadyServer Srv} (kernel_config : t_kernel_config) (turns : list nat → nat) (strict : bool).
Context (Hstrict : strict = true → short_planification_algorithm kernel_config ≠ SJF).
Context (Hpreempt : strict = true → cfg_preemption_enabled kernel_config = false).
Local Abbreviation balanced := (balanced (Srv := Srv) strict).

Local Ltac is_held := repeat first [by left | right].
Local Ltac simplify_held := rewrite ?unheld_head; repeat (rewrite unheld_other by done; rewrite ?unheld_head);
  try (rewrite unheld_none by (eapply below_not; [eassumption | cbn; lia])).
Local Ltac is_below := repeat (apply below_cons; [cbn; lia|]); first
  [ apply below_nil | eapply below_weaken; [eassumption | cbn; lia] ].

Local Ltac calm := first
  [ solve [apply calm_neutral; neutral]
  | solve [auto with calm nocore]
  | match goal with |- Threads.calm _ _ ?m => let f := head_of m in unfold f end; solve [auto with calm nocore] ].

Local Ltac order_step := lazymatch goal with
  | |- ordered _ _ (_ ≫= _) _ => apply ordered_bind
  | |- ordered _ _ (mret _) _ => apply ordered_ret
  | |- ordered _ _ (act _) _ => apply ordered_act; [calm | intros ?]
  | |- ordered _ _ (acquire _) _ => apply ordered_acquire; [done | is_below | ]
  | |- ordered _ _ (release _) _ => apply ordered_release; [intros ?; first [solve [is_held] | congruence] | simplify_held]
  | |- ordered _ _ (match ?x with _ => _ end) _ => destruct x
  | |- ordered _ _ (if ?x then _ else _) _ => destruct x
  | |- ordered _ _ _ _ => apply ordered_call; [solve [eauto with ordered]|intros ?]
  | |- Threads.balanced _ _ _ => unfold Threads.balanced
  | |- ?H = ?H => reflexivity
  end.

Local Ltac order := match goal with |- balanced _ ?p => let f := head_of p in unfold f end; repeat order_step.
#[local] Hint Extern 1 (below _ _) => is_below : ordered.

Lemma exit_routine_ordered H o : below 11 H → balanced H (exit_routine_steps o).
Proof. intros Hb. order. Qed.
#[local] Hint Resolve exit_routine_ordered : ordered.
Lemma truly_busy_ordered H p : below 8 H → balanced H (truly_busy_steps p).
Proof. intros Hb. order. Qed.
#[local] Hint Resolve truly_busy_ordered : ordered.
Lemma send_next_ordered H l s io : balanced H (send_next_request_steps l s io).
Proof. order. Qed.
#[local] Hint Resolve send_next_ordered : ordered.
Lemma pending_io_ordered H n s : below 0 H → balanced H (process_pending_io_steps n s).
Proof. intros Hb. order. Qed.
#[local] Hint Resolve pending_io_ordered : ordered.
Lemma not_found_ordered H p : below 7 H → balanced H (handle_io_connection_not_found_steps p).
Proof. intros Hb. order. Qed.
#[local] Hint Resolve not_found_ordered : ordered.
Lemma block_for_io_ordered H p x t l : below 2 H → balanced H (block_for_io_steps p x t l).
Proof. intros Hb. order. Qed.
#[local] Hint Resolve block_for_io_ordered : ordered.
Lemma io_syscall_ordered H p x t n : below 0 H → balanced H (handle_io_process_syscall_steps p x t n).
Proof. intros Hb. order. Qed.
#[local] Hint Resolve io_syscall_ordered : ordered.
Lemma exit_process_ordered H p : below 7 H → balanced H (exit_process_syscall_steps p).
Proof. intros Hb. order. Qed.
#[local] Hint Resolve exit_process_ordered : ordered.
Lemma init_proc_ordered H p x n file s : below 5 H → balanced H (handle_init_proc_syscall_steps kernel_config p x n file s).
Proof. intros Hb. order. Qed.
#[local] Hint Resolve init_proc_ordered : ordered.
Lemma io_completion_ordered H s n p : below 0 H → balanced H (io_completion_steps s n p).
Proof. intros Hb. order. Qed.
#[local] Hint Resolve io_completion_ordered : ordered.
Lemma new_device_ordered H s n : below 0 H → balanced H (process_new_device_steps s n).
Proof. intros Hb. order. Qed.
#[local] Hint Resolve new_device_ordered : ordered.
Lemma dump_block_ordered H p x : below 7 H → balanced H (dump_memory_block_steps p x).
Proof. intros Hb. order. Qed.
#[local] Hint Resolve dump_block_ordered : ordered.
Lemma back_to_blocked_ordered H p : below 8 H → balanced H (back_to_blocked_steps p).
Proof. intros Hb. order. Qed.
#[local] Hint Resolve back_to_blocked_ordered : ordered.

(** *** The schedulers *)
Lemma next_new_ordered H :
  sem_list NEW ∈ H → balanced H (get_next_process_to_initialize_from_new_steps kernel_config).
Proof. intros Hn. assert (guards strict H NEW) by by intros _. order. Qed.
Lemma next_susp_ready_ordered H :
  sem_list SUSP_READY ∈ H → balanced H (get_next_process_to_initialize_from_susp_ready_steps kernel_config).
Proof. intros Hn. assert (guards strict H SUSP_READY) by by intros _. order. Qed.
#[local] Hint Resolve next_new_ordered next_susp_ready_ordered : ordered.
#[local] Hint Extern 1 (_ ∈ _) => is_held : ordered.

Lemma unsuspend_ordered H n b : below 4 H → balanced H (unsuspend_loop_steps kernel_config n b).
Proof.
  intros Hb. revert b. induction n as [|n IH]; intros b; cbn [unsuspend_loop_steps]; repeat order_step.
Qed.
Lemma admit_ordered H n b :
  sem_list READY ∈ H → sem_list NEW ∈ H → balanced H (admit_loop_steps kernel_config n b).
Proof.
  intros Hr Hn. assert (guards strict H READY) by by intros _. assert (guards strict H NEW) by by intros _.
  revert b. induction n as [|n IH]; intros b; cbn [admit_loop_steps]; repeat order_step.
Qed.
#[local] Hint Resolve unsuspend_ordered admit_ordered : ordered.
Lemma long_scheduler_ordered H : below 4 H → balanced H (run_long_scheduler_steps kernel_config turns).
Proof. intros Hb. order. Qed.
#[local] Hint Resolve long_scheduler_ordered : ordered.
Local Abbreviation dispatching cpu H := (sem_cpu_exec cpu :: sem_list READY :: sem_cpu_connections :: H).

Lemma context_ordered H :
  sem_list READY ∈ H → balanced H (get_short_scheduler_context_steps kernel_config).
Proof. intros Hr. assert (guards strict H READY) by by intros _. order. Qed.
#[local] Hint Resolve context_ordered : ordered.

(** With EXEC locked, or without after the answer of a CPU. *)
Lemma dispatch_ordered H x cpu a :
  x = [sem_list EXEC] ∨ x = [] ∧ strict = false → below 3 H →
  ordered strict (x ++ dispatching cpu H) (dispatch_to_steps cpu a) (λ _ H', H' = H).
Proof.
  intros [->|[-> Hns]] Hb; unfold dispatch_to_steps; cbn [app]; [repeat order_step|].
  assert (guards strict (dispatching cpu H) EXEC) by (intros ?; congruence). repeat order_step.
Qed.

Lemma should_preempt_ordered H a p :
  below 7 H → ordered strict H (should_preempt_executing_process_steps kernel_config a p) (λ _ H', H' = sem_list EXEC :: H).
Proof. intros Hb. unfold should_preempt_executing_process_steps. repeat order_step. Qed.

Lemma preempt_ordered H cpu :
  strict = false → below 3 H → ordered strict (sem_list EXEC :: dispatching cpu H) (preempt_steps cpu)
    (λ _ H', H' = sem_list EXEC :: dispatching cpu H ∨ H' = dispatching cpu H).
Proof.
  intros Hns Hb. unfold preempt_steps, send_and_receive_interrupt_steps. repeat order_step; auto.
Qed.

Lemma short_scheduler_ordered H : below 3 H → balanced H (run_short_scheduler_steps kernel_config).
Proof.
  intros Hb. unfold Threads.balanced, run_short_scheduler_steps. do 6 order_step.
  destruct a as [[cpu|] [a|]]; [|repeat order_step..]. do 5 order_step; [|destruct (negb _) eqn:Hneg].
  - do 2 order_step. by apply (dispatch_ordered H [sem_list EXEC]); [left|].
  - repeat order_step.
  - assert (strict = false) as Hns.
    { unfold preemption_is_enabled in Hneg. destruct strict; [|done]. by rewrite Hpreempt in Hneg. }
    order_step. eapply ordered_mono; [apply should_preempt_ordered; is_below|]. intros should ? ->.
    destruct should; [|repeat order_step]. order_step. eapply ordered_mono; [by apply preempt_ordered|].
    intros _ H' [->| ->]; [apply (dispatch_ordered H [sem_list EXEC]); auto | apply (dispatch_ordered H []); auto].
Qed.
#[local] Hint Resolve short_scheduler_ordered : ordered.

(** *** The handlers *)
Lemma medium_scheduler_ordered H p : below 3 H → balanced H (run_medium_scheduler_steps kernel_config turns p).
Proof. intros Hb. order. Qed.
#[local] Hint Resolve medium_scheduler_ordered : ordered.
Lemma dump_finish_ordered H a b : below 3 H → balanced H (dump_memory_finish_steps kernel_config a b).
Proof. intros Hb. order. Qed.
#[local] Hint Resolve dump_finish_ordered : ordered.
Lemma dump_ordered H p x : below 3 H → balanced H (dump_memory_syscall_steps kernel_config p x).
Proof. intros Hb. order. Qed.
#[local] Hint Resolve dump_ordered : ordered.
Lemma cpu_syscall_ordered H package s : below 0 H → balanced H (handle_cpu_syscall_steps kernel_config package s).
Proof. intros Hb. order. Qed.
#[local] Hint Resolve cpu_syscall_ordered : ordered.
Lemma dispatch_client_ordered H id package : below 0 H → balanced H (handle_dispatch_client_steps kernel_config id package).
Proof. intros Hb. order. Qed.
#[local] Hint Resolve dispatch_client_ordered : ordered.
Lemma found_process_ordered H io : below 3 H → balanced H (handle_found_process_steps kernel_config turns io).
Proof. intros Hb. order. Qed.
#[local] Hint Resolve found_process_ordered : ordered.
Lemma disconnected_ordered H s : below 0 H → balanced H (io_disconnected_steps kernel_config turns s).
Proof. intros Hb. order. Qed.
#[local] Hint Resolve disconnected_ordered : ordered.
Lemma run_thread_ordered H t : below 0 H → balanced H (run_thread_steps kernel_config turns t).
Proof. intros Hb. order. Qed.
#[local] Hint Resolve run_thread_ordered : ordered.

Lemma handle_event_ordered e : balanced [] (handle_event_steps kernel_config turns e).
Proof. pose proof (below_nil 0). order. Qed.
Lemma initialize_ordered p n file : balanced [] (initialize_root_process_steps kernel_config turns p n file).
Proof. pose proof (below_nil 3). order. Qed.
End Ordered.

(** ** The start *)
Section Start.
Context {C : CommonsOps} {CL : CommonsLaws C} {Srv : Type} {MS : MemoryServer Srv} {Env : KernelEnv Srv}.
Context {Steady : SteadyServer Srv} (kernel_config : t_kernel_config) (strict : bool).
Context (Hstrict : strict = true → short_planification_algorithm kernel_config ≠ SJF).
Context (Hpreempt : strict = true → cfg_preemption_enabled kernel_config = false).
Implicit Types k : t_kernel Srv.

(** Before there are processes every lock is free. *)
Definition all_free k : Prop := ∀ s v, s ≠ sem_cpu_connected → k_sems k !! s = Some v → v = 1%Z.
Definition stays_free k k' : Prop := (all_free k → all_free k') ∧ k_memory k' = k_memory k.

#[local] Instance stays_free_preorder : PreOrder stays_free.
Proof. split; [by intros k | intros k1 k2 k3 [F1 M1] [F2 M2]; split; [auto | congruence]]. Qed.

Lemma sem_init_free s v : s = sem_cpu_connected ∨ v = 1%Z → within stays_free (on_k_sems (Srv := Srv) (sem_init s v)).
Proof.
  intros Hv. split. intros k u k' H. unfold on_k_sems, sem_init in H. step_in H. injection H as _ <-. split; [|done].
  intros Hf t w Ht. cbn. rewrite lookup_insert_Some. intros [[<- <-]|[_ Hw]]; [by destruct Hv | by eapply Hf].
Qed.
Lemma connected_free (o : M (gmap k_sem Z) unit) :
  o = sem_post sem_cpu_connected ∨ o = sem_wait sem_cpu_connected → within stays_free (on_k_sems (Srv := Srv) o).
Proof.
  intros Ho. split. intros k u k' H. unfold on_k_sems in H. step_in H.
  assert (∀ sems, o (k_sems k) = Ok (tt, sems) → ∃ v, sems = <[sem_cpu_connected := v]> (k_sems k)) as Hs.
  { intros sems. destruct Ho as [-> | ->]; unfold sem_post, sem_wait; step; destruct (k_sems k !! _); try done;
      [intros [= <-] | case_decide; [intros [= <-]|done]]; by eexists. }
  destruct (o (k_sems k)) as [[[] sems]|]; [|done]. destruct (Hs sems eq_refl) as [v ->]. injection H as _ <-.
  split; [|done]. intros Hf t w Ht. cbn. rewrite lookup_insert_ne by done. by apply Hf.
Qed.

Lemma main_starts_free sockets file n k u k' :
  kernel_main kernel_config sockets file n k = Ok (u, k') →
  ∃ k1, stays_free k k1 ∧ initialize_root_process kernel_config 0 n (Some file) k1 = Ok (u, k').
Proof.
  pose proof sem_init_free as Hi. pose proof connected_free as Hc. intros H. unfold kernel_main, process_enter in H.
  bind_inv H. bind_inv H. bind_inv H. bind_inv H. exists st2. split; [|exact H].
  assert (within stays_free (initialize_global_lists (Srv := Srv))) as H1.
  { apply within_for_each; [apply _|]. intros s. apply Hi. by right. }
  assert (within stays_free (initialize_global_semaphores (Srv := Srv))) as H2 by (apply Hi; by left).
  assert (within stays_free (connect_to_cpus (Srv := Srv) sockets)) as H3.
  { unfold connect_to_cpus. apply within_bind; [apply _ | | intros _; apply Hc; by left].
    apply within_for_each; [apply _|]. intros s. unfold create_cpu_connection, initialize_repository_cpu.
    within_with ltac:(first [apply Hi; by right | apply within_modify; by intros ?]). }
  etrans; [by apply (within_run H1 _ _ _ E)|]. etrans; [by apply (within_run H2 _ _ _ E0)|].
  etrans; [by apply (within_run H3 _ _ _ E1)|]. refine (within_run _ _ _ _ E2). apply Hc. by right.
Qed.

Lemma free_disciplined k ts :
  all_free k → steady (k_memory k) → Forall (good_thread strict) ts → disciplined strict k ts.
Proof. intros Hf Hm Ht. split; [done | | done]. intros s v Hs Hv. rewrite (Hf s v Hs Hv). lia. Qed.

Lemma free_exclusive k ts : all_free k → Forall (λ t, held t = []) ts → exclusive k ts.
Proof.
  intros Hf Ht. rewrite Forall_lookup in Ht. split.
  - intros l v Hv. rewrite (Hf (sem_list l) v); done.
  - intros l i t Hi Hl. rewrite (Ht i t Hi) in Hl. by apply elem_of_nil in Hl.
  - intros l i t j u Hi Hl. rewrite (Ht i t Hi) in Hl. by apply elem_of_nil in Hl.
Qed.

(** After the start the kernel is ready for its threads: the first process
    has been admitted by a thread of its own. *)
Lemma main_disciplined sockets file n (memory : Srv) answers u k :
  steady memory → kernel_main kernel_config sockets file n (initial_kernel memory answers) = Ok (u, k) →
  disciplined strict k [] ∧ (strict = true → exclusive k []).
Proof.
  intros Hm H. destruct (main_starts_free sockets file n _ u k H) as (k1 & [Hf Hmem] & Hi).
  assert (all_free k1) as Hf1 by by apply Hf.
  assert (steady (k_memory k1)) as Hm1 by by rewrite Hmem.
  rewrite <- initialize_mirrors in Hi.
  set (p := initialize_root_process_steps kernel_config (λ l, S (length l)) 0 n (Some file)) in Hi.
  assert (good_thread strict (mk_thread [] p)) as Hp by (split; [constructor | by apply initialize_ordered]).
  destruct (runs_alone (λ _, False) p [] k1 u k [mk_thread [] p] 0 eq_refl Hi) as [h Hr]. cbn in Hr.
  assert (disciplined strict k1 [mk_thread [] p]) as Hd by (apply free_disciplined; [done..|by apply Forall_singleton]).
  pose proof (interleaving_disciplined strict (λ _, False) _ _ ltac:(done) Hr Hd) as [Hg Hh Hm']. cbn in *.
  apply Forall_singleton in Hg as [_ Hg]. cbn in Hg. subst h.
  assert (∀ s i (t : thread (Srv := Srv)), [mk_thread [] (mret u)] !! i = Some t → s ∈ held t → False) as Hno.
  { intros s [|i] t Ht Hs; [|done]. injection Ht as <-. by apply elem_of_nil in Hs. }
  split.
  - split; [done | | done]. intros s v Hs Hv. destruct (Hh s v Hs Hv) as [? Hz]. split; [done|].
    intros E. destruct (Hz E) as (i & t & Hit & Ht). by destruct (Hno s i t).
  - intros Hst. pose proof (interleaving_exclusive strict (λ _, False) _ _ Hst ltac:(done) Hr Hd) as He.
    destruct (He ltac:(apply free_exclusive; [done | by apply Forall_singleton])) as [Hb _ _]. by split.
Qed.
End Start.
