(* ===== verification/KernelInterleavings.v ===== *)
(** * The kernel, with its handlers interleaved

    What holds when the threads of the kernel interleave inside their bodies,
    at every call of a repository, in any order that the locks allow: they
    never block each other, and without preemption and SJF nobody changes a
    list that somebody else works on. *)
From S2P Require Import Prelude Text Commons Enums Buffer Package Packages Config Semaphores Storage PageTable.
From S2P Require Import MemoriaFacts Invariant Memoria Server Scenario KernelInvariant KernelLogic KernelMemory.
From S2P Require Import Pcb Kernel Scheduler Handlers Threads KernelThreads KernelOrder KernelScenario KernelRuns.
Import Buffer Package ProcessState Algorithm.

Section Interleavings.
Context {C : CommonsOps} {CL : CommonsLaws C} {Srv : Type} {MS : MemoryServer Srv} {Env : KernelEnv Srv}.
Context {Steady : SteadyServer Srv} (kernel_config : t_kernel_config) (turns : list nat → nat).

(** A package arrives, a device disconnects or a thread that was created
    starts; or a thread goes on. *)
Definition kernel_interleaves : relation (t_kernel Srv * list (thread (Srv := Srv))) :=
  interleaves (λ p, ∃ e, p = handle_event_steps kernel_config turns e).

Lemma events_balanced strict :
  (strict = true → short_planification_algorithm kernel_config ≠ SJF) →
  (strict = true → cfg_preemption_enabled kernel_config = false) →
  ∀ p, (∃ e, p = handle_event_steps kernel_config turns e) → balanced strict [] p.
Proof. intros Hs Hp p [e ->]. by apply handle_event_ordered. Qed.

(** C4: the threads of the kernel never block each other: whatever they are,
    and in whatever order they have made their calls, as long as one is not
    finished one that is not finished can go on, or the kernel dies. *)
Theorem kernel_threads_never_block_each_other sockets file n (memory : Srv) answers u k0 k ts i t :
  steady memory → kernel_main kernel_config sockets file n (initial_kernel memory answers) = Ok (u, k0) →
  rtc kernel_interleaves (k0, []) (k, ts) → ts !! i = Some t → finished t = false →
  ∃ j t', ts !! j = Some t' ∧ finished t' = false ∧ resume t' k ≠ Crash Deadlock.
Proof.
  intros Hm H0 Hr Hi Hf.
  destruct (main_disciplined kernel_config false ltac:(done) ltac:(done) _ _ _ _ _ _ _ Hm H0) as [Hd _].
  eapply (somebody_goes_on false k ts); [|done..].
  by apply (interleaving_disciplined false _ _ _ (events_balanced false ltac:(done) ltac:(done)) Hr).
Qed.

(** C5: without preemption and without SJF a thread changes a list of
    processes only while it holds the lock of the list, and nobody else
    holds it then. *)
Theorem lists_have_one_writer sockets file n (memory : Srv) answers u k0 k ts i t t' k' l :
  cfg_preemption_enabled kernel_config = false → short_planification_algorithm kernel_config ≠ SJF →
  steady memory → kernel_main kernel_config sockets file n (initial_kernel memory answers) = Ok (u, k0) →
  rtc kernel_interleaves (k0, []) (k, ts) → ts !! i = Some t → resume t k = Ok (t', k') →
  list_of l (lists k') ≠ list_of l (lists k) →
  sem_list l ∈ held t ∧ ∀ j t'', ts !! j = Some t'' → sem_list l ∈ held t'' → j = i.
Proof.
  intros Hp Ha Hm H0 Hr Hi Hres Hl.
  destruct (main_disciplined kernel_config true ltac:(done) ltac:(done) _ _ _ _ _ _ _ Hm H0) as [Hd He].
  pose proof (events_balanced true ltac:(done) ltac:(done)) as Hst.
  pose proof (interleaving_disciplined true _ _ _ Hst Hr Hd) as [Hg _ Hmem].
  pose proof (interleaving_exclusive true _ _ _ eq_refl Hst Hr Hd (He eq_refl)) as [_ _ Hone]. cbn in *.
  assert (sem_list l ∈ held t) as Hin.
  { eapply (resume_lists true); [done | by eapply Forall_lookup_1 | done..]. }
  split; [done|]. intros j t'' Hj Hl''. by eapply Hone.
Qed.
End Interleavings.

(** ** Two processes are created at once *)
Definition two_calls : list (prog unit) :=
  (λ file, handle_event_steps fifo (λ l, S (length l))
             (from_cpu SyscallType.SYSCALL_INIT_PROC 0 3 (InitProcParams 16 file))) <$> ["hola"; "hola"].

Definition the_start : t_kernel t_memoria := started fifo [(100, 200)]%Z [].

Lemma the_start_ok : kernel_main fifo [(100, 200)]%Z "hola" 16 (initial_kernel booted []) = Ok (tt, the_start).
Proof. unfold the_start, started. apply ran_ok. vm_compute. reflexivity. Qed.

(** After the calls [l]. *)
Definition interleaved (l : list nat) : t_kernel t_memoria * list thread :=
  schedule l (the_start, mk_thread [] <$> two_calls).

Lemma interleaved_reached l :
  rtc (kernel_interleaves fifo (λ l, S (length l))) (the_start, []) ((interleaved l).1, (interleaved l).2).
Proof.
  rewrite <- surjective_pairing. etrans; [|apply schedule_interleaves].
  refine (starts_all _ two_calls the_start [] _). apply Forall_forall. intros p (file & -> & _)%list_elem_of_fmap. by eexists.
Qed.

(** The [i]-th thread waits; its next call changes the list [l]. *)
Definition waits (i : nat) (c : t_kernel t_memoria * list thread) : bool :=
  match c.2 !! i with
  | Some t => negb (finished t) && match resume t c.1 with Crash Deadlock => true | _ => false end
  | None => false
  end.
Definition changes (i : nat) (l : PROCESS_STATE) (c : t_kernel t_memoria * list thread) : bool :=
  match c.2 !! i with
  | Some t => match resume t c.1 with
              | Ok (_, k') => negb (bool_decide (list_of l (lists k') = list_of l (lists c.1))) | _ => false end
  | None => false
  end.

Lemma waits_inv i c :
  waits i c = true → ∃ t, c.2 !! i = Some t ∧ finished t = false ∧ resume t c.1 = Crash Deadlock.
Proof.
  unfold waits. destruct (c.2 !! i) as [t|]; [|done]. intros [Hf Hr]%andb_true_iff. exists t.
  destruct (finished t), (resume t c.1) as [|[]]; done.
Qed.
Lemma changes_inv i l c :
  changes i l c = true → ∃ t t' k', c.2 !! i = Some t ∧ resume t c.1 = Ok (t', k') ∧
    list_of l (lists k') ≠ list_of l (lists c.1).
Proof.
  unfold changes. destruct (c.2 !! i) as [t|]; [|done]. destruct (resume t c.1) as [[t' k']|] eqn:E; [|done].
  intros H%negb_true_iff%bool_decide_eq_false. by exists t, t', k'.
Qed.

(** The first call holds NEW and the second waits for it; later the first is
    about to put its process there. *)
Definition both_want_new := interleaved [0; 0; 0; 1; 1; 1].
Definition first_adds := interleaved (1 :: 1 :: replicate 13 0).

Lemma second_waits : waits 1 both_want_new = true.
Proof. vm_compute. reflexivity. Qed.
Lemma first_changes : changes 0 NEW first_adds = true.
Proof. vm_compute. reflexivity. Qed.

Lemma kernel_threads_never_block_each_other_witness :
  ∃ t, both_want_new.2 !! 1 = Some t ∧ resume t both_want_new.1 = Crash Deadlock ∧
    ∃ j t', both_want_new.2 !! j = Some t' ∧ finished t' = false ∧ resume t' both_want_new.1 ≠ Crash Deadlock.
Proof.
  destruct (waits_inv 1 both_want_new second_waits) as (t & Ht & Hf & Hw). exists t. split; [exact Ht|]. split; [exact Hw|].
  exact (kernel_threads_never_block_each_other fifo (λ l, S (length l)) [(100, 200)]%Z "hola" 16 booted [] tt the_start
    both_want_new.1 both_want_new.2 1 t fresh_steady the_start_ok (interleaved_reached _) Ht Hf).
Defined.

Lemma lists_have_one_writer_witness :
  ∃ t, first_adds.2 !! 0 = Some t ∧ sem_list NEW ∈ held t ∧
    ∀ j t', first_adds.2 !! j = Some t' → sem_list NEW ∈ held t' → j = 0.
Proof.
  destruct (changes_inv 0 NEW first_adds first_changes) as (t & t' & k' & Ht & Hr & Hl). exists t. split; [exact Ht|].
  refine (lists_have_one_writer fifo (λ l, S (length l)) [(100, 200)]%Z "hola" 16 booted [] tt the_start
    first_adds.1 first_adds.2 0 t t' k' NEW eq_refl _ fresh_steady the_start_ok (interleaved_reached _) Ht Hr Hl).
  discriminate.
Defined.

(** ** A race

    Two CPUs and SJF.  Processes 0 and 1 run, 2 and 3 are waiting in NEW; the
    call of EXIT of process 1 has taken EXEC, and the long term scheduler has
    just moved 2 and 3 to READY. *)
Definition sjf : t_kernel_config := kernel_with SJF FIFO false 1000.

Definition init_proc_from (cpu : string) (x : Z) : k_event :=
  Ev_cpu_package cpu (syscall_of SyscallType.SYSCALL_INIT_PROC x 3 (InitProcParams 16 "hola")).

Definition race_events : list k_event :=
  [init_proc_from "1" 0; Ev_thread 0; init_proc_from "2" 1; init_proc_from "1" 0; Ev_thread 0;
   Ev_cpu_package "2" (syscall_of SyscallType.SYSCALL_EXIT 1 5 NoParams)].

Definition race_start : t_kernel t_memoria := started sjf [(100, 200); (101, 201)]%Z [].

Lemma race_start_ok :
  kernel_main sjf [(100, 200); (101, 201)]%Z "hola" 16 (initial_kernel booted []) = Ok (tt, race_start).
Proof. unfold race_start, started. apply ran_ok. vm_compute. reflexivity. Qed.

Definition race : t_kernel t_memoria * list thread :=
  schedule (replicate 40 0 ++ replicate 120 1 ++ replicate 40 2 ++ replicate 40 3 ++ replicate 3 5 ++ replicate 24 4)
    (race_start, mk_thread [] <$> (handle_event_steps sjf (λ l, S (length l)) <$> race_events)).

Lemma race_reached : rtc (kernel_interleaves sjf (λ l, S (length l))) (race_start, []) (race.1, race.2).
Proof.
  rewrite <- surjective_pairing. etrans; [|apply schedule_interleaves].
  refine (starts_all _ (handle_event_steps sjf (λ l, S (length l)) <$> race_events) race_start [] _).
  apply Forall_forall. intros p (e & -> & _)%list_elem_of_fmap. by eexists.
Qed.

Lemma race_changes : changes 4 EXEC race = true.
Proof. vm_compute. reflexivity. Qed.

Lemma race_held :
  held <$> race.2 !! 4 = Some [sem_list READY; sem_cpu_connections] ∧ held <$> race.2 !! 5 = Some [sem_list EXEC].
Proof. split; vm_compute; reflexivity. Qed.

Lemma exec_not_there : sem_list EXEC ∉ [sem_list READY; sem_cpu_connections].
Proof. set_solver. Qed.

(** C6: with SJF that is not so: the short term scheduler sorts EXEC to find
    a CPU without the lock of EXEC, here while the system call of another
    process holds it and is about to search the list. *)
Theorem sjf_sorts_exec_without_its_lock :
  cfg_preemption_enabled sjf = false ∧
  ∃ k ts i t t' k' j other,
    kernel_main sjf [(100, 200); (101, 201)]%Z "hola" 16 (initial_kernel booted []) = Ok (tt, race_start) ∧
    rtc (kernel_interleaves sjf (λ l, S (length l))) (race_start, []) (k, ts) ∧
    ts !! i = Some t ∧ resume t k = Ok (t', k') ∧ list_of EXEC (lists k') ≠ list_of EXEC (lists k) ∧
    sem_list EXEC ∉ held t ∧ ts !! j = Some other ∧ sem_list EXEC ∈ held other.
Proof.
  split; [done|]. destruct (changes_inv 4 EXEC race race_changes) as (t & t' & k' & Ht & Hr & Hl).
  destruct race_held as [Hi Hj]. apply fmap_Some in Hj as (other & Ho & Hheld). rewrite Ht in Hi. injection Hi as Hi.
  assert (sem_list EXEC ∉ held t) as Hn by (rewrite Hi; exact exec_not_there).
  assert (sem_list EXEC ∈ held other) as Hin by (rewrite <- Hheld; apply list_elem_of_here).
  exists race.1, race.2, 4, t, t', k', 5, other.
  exact (conj race_start_ok (conj race_reached (conj Ht (conj Hr (conj Hl (conj Hn (conj Ho Hin))))))).
Qed.
