(* ===== verification/SystemProperties.v ===== *)
(** * The system, proved

    What holds in every state that a kernel, its CPUs and their memory module
    can reach together, without preemption. *)
From S2P Require Import Prelude Text Commons Enums Buffer Package Packages Roundtrip Config Semaphores Memoria Session.
From S2P Require Import Wire Mmu Cache Execution CpuThreads CpuConcurrency Pcb Kernel Scheduler Handlers.
From S2P Require Import KernelInvariant KernelLogic KernelRules KernelSteps SchedulerSafety HandlersSafety KernelSockets KernelBoot.
From S2P Require Import System SystemInvariant SystemCpu SystemSafety KernelRuns KernelBehaviour.
From S2P Require Import Invariant Server Scenario DataServer CpuProperties KernelMemory KernelScenario SystemScenario.
From Stdlib Require Import Strings.Byte.
Import Buffer Package ProcessState.

(** The process the main thread of a CPU is busy with. *)
Definition runs {S} (s : t_cpu_system S) (p : Z) : Prop :=
  cpu_pid (sys_cpu s) = p ∧
  match main_at s with M_cycle | M_confirm | M_interrupts false => True | _ => False end.

Lemma runs_carried {S} (s : t_cpu_system S) p a : runs s p → cpu_carries s a → a = Some p.
Proof.
  intros [<- Hat]. by apply carried_inside.
Qed.

Lemma carried_wait {S} (s : t_cpu_system S) a :
  cpu_carries s a → waits Main s = true → main_at s = M_dispatch ∨ dispatch_out (sys_cpu s) ≠ [].
Proof.
  unfold cpu_carries, waits. intros Hc. destruct (main_at s) eqn:E; try done; [by left|].
  intros Hw%bool_decide_eq_true. right. rewrite Hw in Hc. by apply (carried_question (cpu_pid (sys_cpu s)) _ a).
Qed.

Section Properties.
Context {C : CommonsOps} {CL : CommonsLaws C} {Srv : Type} {MS : MemoryServer Srv} {Env : KernelEnv Srv}.
Context {Steady : SteadyServer Srv} {Shared : SharedServer Srv}.
Context (kernel_config : t_kernel_config) (mmu_config : MMUConfig) (tlb_config : TLBConfig) (cache_config : CacheConfig).
Local Abbreviation step := (system_step kernel_config mmu_config tlb_config cache_config).

(** The sockets: the kernel has one to dispatch to and one to interrupt each
    CPU, and those of the devices are others. *)
Record sockets_apart (sockets : list (Z * Z)) (device : Z → Prop) : Prop := {
  s_once : NoDup sockets.*1;
  s_kinds : ∀ s, s ∈ sockets.*1 → s ∉ sockets.*2;
  s_devices : ∀ s, device s → in_i32 s ∧ s ∉ sockets.*1 ∧ s ∉ sockets.*2 }.

Context (sockets : list (Z * Z)) (device : Z → Prop) (Hsockets : sockets_apart sockets device).
Context (Hpre : cfg_preemption_enabled kernel_config = false).
Local Abbreviation system_ok := (system_ok device (.∈ sockets.*1) (.∈ sockets.*2)).

Lemma started_system_ok file size (memory : Srv) mmus y :
  steady memory → system_main kernel_config sockets file size memory mmus = Ok y → ∃ act, system_ok 0 y act.
Proof.
  intros Hm H. unfold system_main in H. destruct (kernel_main _ _ _ _ _) as [[u k]|] eqn:E; [|done].
  cbn in H. injection H as <-. destruct Hsockets as [Honce Hkinds Hdev].
  destruct (safe_run _ _ _ _ _ (safe_kernel_main kernel_config false (asked_license None)
    (no_preemption kernel_config Hpre _) sockets file size memory [] Hm ltac:(done)) E)
    as (Hk & Hn & V0 & [Hf Hs Hknown Hd] & Hx & Hmv).
  assert (agrees (.∈ sockets.*1) V0 (map_imap (λ id _, Some (init_list_and_mutex (mmus id) [] []))
    (cpu_connections_dict k)) ∅) as Ha.
  { constructor; try done.
    - intros id s. rewrite map_lookup_imap. destruct (_ !! id); [|done]. intros [= <-]. rewrite lookup_empty.
      apply is_idle; [by left| |done]. cbn. unfold arriving. rewrite Hs. by case_match.
    - by apply Hd.
    - rewrite Hs. by intros x ?%not_elem_of_nil. }
  destruct (moves_agree _ None _ _ _ _ Hmv Ha) as [act Ha']; [by intros _ id p [=]|]. exists act.
  apply deliver_ok; try done.
  - intros s Hin. split; [|by apply Hkinds]. intros Hds. by apply Hdev in Hds as (_ & ? & _).
  - intros s Hin Hds. by apply Hdev in Hds as (_ & _ & ?).
  - lia.
  - eapply main_keeps_devices; [done | | exact E]. apply Forall_forall. intros s Hin.
    by apply list_elem_of_fmap_2.
  - intros id s. rewrite map_lookup_imap. destruct (_ !! id); [|done]. by intros [= <-].
Qed.

Lemma step_system_ok bound y act y' :
  system_ok bound y act → (bound < 2147483647)%Z → step device y y' → ∃ act', system_ok (bound + 1) y' act'.
Proof.
  intros H Hb [a Ha Hs].
  assert (Hd : ∀ s, device s → in_i32 s) by apply Hsockets.
  assert (Hdp : ∀ s, s ∈ sockets.*1 → ¬ device s ∧ s ∉ sockets.*2).
  { intros s Hin. split; [|by apply Hsockets]. intros Hdev. by apply Hsockets in Hdev as (_ & ? & _). }
  assert (Hin : ∀ s, s ∈ sockets.*2 → ¬ device s) by (intros s Hin Hdev; by apply Hsockets in Hdev as (_ & _ & ?)).
  assert (∀ e, from_device device e → (∀ id p, e ≠ Ev_cpu_package id p) →
    kernel_handles kernel_config e y = Ok (Some y') → ∃ act', system_ok (bound + 1) y' act') as Hk.
  { intros e He Hne Hh. eapply (handles_ok kernel_config Hpre device _ _ Hd Hdp Hin None); try exact Hh; try apply H; try done.
    destruct e; try done. by destruct (Hne connection_id package). }
  destruct a as [[i|id p|s p|s]|id|id t]; cbn [system_turn action_ok] in *.
  - by apply (Hk (Ev_thread i)).
  - done.
  - by apply (Hk (Ev_io_package s p)).
  - by apply (Hk (Ev_io_disconnected s)).
  - by eapply receives_ok.
  - destruct (turns_ok mmu_config tlb_config cache_config device _ _ _ _ _ _ _ _ H ltac:(lia) Hs) as [act' H'].
    exists act'. destruct H'. by constructor; [..|lia| | | |].
Qed.

Lemma reachable_system_ok file size (memory : Srv) mmus y0 n y :
  steady memory → system_main kernel_config sockets file size memory mmus = Ok y0 →
  nsteps (step device) n y0 y → (Z.of_nat n <= 2147483647)%Z → ∃ act, system_ok (Z.of_nat n) y act.
Proof.
  intros Hm H0 Hn Hb. destruct (started_system_ok _ _ _ _ _ Hm H0) as [act Hok]. revert act Hok.
  assert (∀ b, (b + Z.of_nat n <= 2147483647)%Z → ∀ act, system_ok b y0 act → ∃ act, system_ok (b + Z.of_nat n) y act) as Hgo.
  { clear Hb H0. induction Hn as [y|n y1 y2 y3 Hs _ IH]; intros b Hb act Hok.
    - exists act. by rewrite Z.add_0_r.
    - destruct (step_system_ok _ _ _ _ Hok ltac:(lia) Hs) as [act' Hok'].
      replace (b + Z.of_nat (S n))%Z with (b + 1 + Z.of_nat n)%Z by lia. eapply IH; [lia | exact Hok']. }
  intros act Hok. by apply (Hgo 0%Z Hb act).
Qed.

(** C1: without preemption, whatever the order in which the kernel, the CPUs
    and the devices act: a CPU that is busy with a process is the one the
    kernel has marked with it, the process is in EXEC for the kernel, and no
    other CPU is busy with it. *)
Theorem no_process_on_two_cpus file size (memory : Srv) mmus y0 n y id s p :
  steady memory → system_main kernel_config sockets file size memory mmus = Ok y0 →
  nsteps (step device) n y0 y → (Z.of_nat n <= 2147483647)%Z →
  y_cpus y !! id = Some s → runs s p →
  (∃ c, cpu_connections_dict (y_kernel y) !! id = Some c ∧ current_process_executing c = p) ∧
  (∃ a q, a ∈ exec_list (lists (y_kernel y)) ∧ pcbs (y_kernel y) !! a = Some q ∧ pid q = p ∧ current_state q = EXEC) ∧
  (∀ id' s', y_cpus y !! id' = Some s' → runs s' p → id' = id).
Proof.
  intros Hm H0 Hn Hb Hs Hr. destruct (reachable_system_ok _ _ _ _ _ _ _ Hm H0 Hn Hb) as [act H].
  pose proof (runs_carried _ _ _ Hr (system_carries _ _ _ _ _ _ _ _ H Hs)) as Hp. pose proof (y_agrees _ _ _ _ _ _ H) as Ha.
  destruct (a_marked _ _ _ _ Ha id p Hp) as [Hmark (a & Hin & Hid)]. split_and!.
  - cbn in Hmark. rewrite lookup_fmap in Hmark.
    destruct (cpu_connections_dict (y_kernel y) !! id) as [c|]; [|done]. injection Hmark as Hmark. by exists c.
  - apply ident_inv in Hid as (q & Hq & Hpid & Hst). by exists a, q.
  - intros id' s' Hs' Hr'.
    pose proof (runs_carried _ _ _ Hr' (system_carries _ _ _ _ _ _ _ _ H Hs')) as Hp'. by eapply (a_injective _ _ _ _ Ha).
Qed.

(** C3: in the same runs, what is under way from a CPU to the kernel is one
    system call, of a process that the CPU is marked with and that is still in
    EXEC: no handler looks in vain for its caller. *)
Theorem system_calls_come_from_exec file size (memory : Srv) mmus y0 n y id s :
  steady memory → system_main kernel_config sockets file size memory mmus = Ok y0 →
  nsteps (step device) n y0 y → (Z.of_nat n <= 2147483647)%Z →
  y_cpus y !! id = Some s → dispatch_out (sys_cpu s) ≠ [] →
  ∃ package t p a q c, recv_package (dispatch_out (sys_cpu s)) = Ok (Some package, []) ∧
    opcode package = Opcode.code Opcode.SYSCALL ∧
    (∀ r, read_with read_syscall_package package = Ok r → syscall_pid r = p ∧ syscall_type r = SyscallType.code t) ∧
    a ∈ exec_list (lists (y_kernel y)) ∧ pcbs (y_kernel y) !! a = Some q ∧ pid q = p ∧ current_state q = EXEC ∧
    cpu_connections_dict (y_kernel y) !! id = Some c ∧ current_process_executing c = p.
Proof.
  intros Hm H0 Hn Hb Hs Hout. destruct (reachable_system_ok _ _ _ _ _ _ _ Hm H0 Hn Hb) as [act H].
  pose proof (system_carries _ _ _ _ _ _ _ _ H Hs) as Hc.
  assert (∃ data package t, act !! id = Some (syscall_pid data) ∧ create_syscall_package data = Ok package ∧
    syscall_type data = SyscallType.code t ∧ dispatch_out (sys_cpu s) = serialize_package package)
    as (data & package & t & Hp & Hpk & Ht & Ho) by (by eapply carried_call).
  pose proof (system_pid _ _ _ _ _ _ _ _ H Hb Hp) as Hpi.
  destruct (syscall_arrives data package) as (Hop & Htr & Hr); [by rewrite Ht; apply SyscallType.type_code_in_i32|done..|].
  destruct (a_marked _ _ _ _ (y_agrees _ _ _ _ _ _ H) id _ Hp) as [Hmark (a & Hin & Hid)].
  apply ident_inv in Hid as (q & Hq & Hpid & Hst). cbn in Hmark. rewrite lookup_fmap in Hmark.
  destruct (cpu_connections_dict (y_kernel y) !! id) as [c|] eqn:Hcid; [|done]. injection Hmark as Hmark.
  exists package, t, (syscall_pid data), a, q, c. split_and!; try done.
  - rewrite Ho, <- (app_nil_r (serialize_package package)). apply Htr.
  - intros r Hread. destruct (Hr r Hread) as (E1 & E2 & _). split; [done | congruence].
Qed.

(** C2: in the same runs every dispatch brings a process: no CPU enters its
    inner loop without the lock, its main thread has the lock exactly while
    it is there and never waits for it, and its listener finds no interrupt;
    a CPU that waits has either nothing to do at all, or its system call is
    on its way to the kernel; and the kernel, beside CPUs that use its memory
    module between its handlers, neither waits for itself nor loops. *)
Theorem system_never_hangs file size (memory : Srv) mmus y0 n y :
  steady memory → system_main kernel_config sockets file size memory mmus = Ok y0 →
  nsteps (step device) n y0 y → (Z.of_nat n < 2147483647)%Z →
  (∀ id s, y_cpus y !! id = Some s →
     unpaired s = 0%Z ∧ cpu_mutex s = (if main_inside (main_at s) then 0 else 1)%Z ∧
     listener_at s = L_recv ∧ interrupt_list (sys_cpu s) = [] ∧
     (waits Main s = true → main_at s = M_dispatch ∨ dispatch_out (sys_cpu s) ≠ [])) ∧
  (∀ e, match handle_event kernel_config e (y_kernel y) with
        | Ok _ => True
        | Crash x => x ≠ Deadlock ∧ x ≠ OutOfFuel
        end).
Proof.
  intros Hm H0 Hn Hb. destruct (reachable_system_ok _ _ _ _ _ _ _ Hm H0 Hn ltac:(lia)) as [act H]. split.
  - intros id s Hs. destruct (y_ready _ _ _ _ _ _ H id s Hs). split_and!; try done.
    + destruct (main_inside _); cbn in *; lia.
    + apply (carried_wait s (act !! id)). by apply (system_carries _ _ _ _ _ _ _ _ H Hs).
  - intros e. destruct (y_kernel_ok _ _ _ _ _ _ H) as (V & D & Hk & Hg).
    pose proof (y_bound _ _ _ _ _ _ H) as Hbound. assert (view_of (y_kernel y) = V) as <- by apply Hk.
    pose proof (safe_handle_event kernel_config false any_license (any_preempts kernel_config) e _ D _ Hk Hg
      ltac:(cbn; lia) ltac:(by destruct e)) as Hsafe.
    unfold safe in Hsafe. by destruct (handle_event _ e _) as [[]|].
Qed.
End Properties.

(** ** A CPU that is left alone *)
Section StaleMarks.
Context {C : CommonsOps} {CL : CommonsLaws C} {Srv : Type} {MS : MemoryServer Srv} {Env : KernelEnv Srv}.
Context (kernel_config : t_kernel_config).
Implicit Types (k : t_kernel Srv).

Lemma same_sems m k : (∀ s, m !! s = k_sems k !! s) → set_k_sems m k = k.
Proof. intros Hm. apply map_eq in Hm as ->. by destruct k. Qed.

Lemma no_free_cpu k :
  (∀ id c, cpu_connections_dict k !! id = Some c → current_process_executing c ≠ (-1)%Z ∧
     ∃ a q, a ∈ exec_list (lists k) ∧ pcbs k !! a = Some q ∧ pid q = current_process_executing c) →
  short_planification_algorithm kernel_config ≠ Algorithm.SJF →
  get_cpu_to_dispatch kernel_config k = Ok (fst <$> list_get (entries (cpu_connections_dict k)) 0, k).
Proof.
  intros Hm Halg. unfold get_cpu_to_dispatch, get_all_cpu_connections, get_list. run done. run done. run done.
  destruct (find_entry _ _) as [cpu|] eqn:E.
  - exfalso. apply find_entry_Some in E as (c & Hc & Hp). destruct (Hm cpu c Hc) as (Hne & a & q & Ha & Hq & Hx).
    rewrite decide_False in Hp by done. destruct (list_find _ _) eqn:El; [done|].
    apply (list_find_not _ _ a) in El; [|exact Ha]. by rewrite (has_pid_yes _ k a q Hq Hx) in El.
  - unfold get_cpu_by_algorithm, short_term_algorithm. by rewrite decide_False.
Qed.

(** C38: a CPU counts as busy while the process it is marked with is in EXEC,
    on whatever CPU: when every CPU is marked with a process in EXEC the short
    term scheduler does nothing at all, even if two are marked with the same
    one, and one of them is idle. *)
Theorem stale_mark_hides_an_idle_cpu k :
  short_planification_algorithm kernel_config ≠ Algorithm.SJF → cfg_preemption_enabled kernel_config = false →
  k_sems k !! sem_cpu_connections = Some 1%Z → k_sems k !! sem_list READY = Some 1%Z →
  (∀ id c, cpu_connections_dict k !! id = Some c →
     k_sems k !! sem_cpu_exec id = Some 1%Z ∧ current_process_executing c ≠ (-1)%Z ∧
     ∃ a q, a ∈ exec_list (lists k) ∧ pcbs k !! a = Some q ∧ pid q = current_process_executing c) →
  run_short_scheduler kernel_config k = Ok (tt, k).
Proof.
  intros Halg Hpre Hs1 Hs2 Hm. unfold run_short_scheduler.
  set (k1 := set_k_sems (<[sem_list READY := 0%Z]> (<[sem_cpu_connections := 0%Z]> (k_sems k))) k).
  run (by apply lock_runs). run (apply lock_runs; cbn; by rewrite lookup_insert_ne).
  change (set_k_sems _ (set_k_sems _ k)) with k1.
  assert (get_cpu_to_dispatch kernel_config k1 = Ok (fst <$> list_get (entries (cpu_connections_dict k)) 0, k1)) as Hget.
  { apply (no_free_cpu k1); [|done]. intros id c Hc. by apply (Hm id c Hc). }
  assert ((unlock_cpu_connections;; unlock_ready_list) k1 = Ok (tt, k)) as Hnothing.
  { run (apply unlock_runs; cbn; by rewrite lookup_insert_ne, lookup_insert_eq by done).
    unfold unlock_ready_list. erewrite unlock_runs by (cbn; by rewrite lookup_insert_ne, lookup_insert_eq by done).
    do 2 f_equal. apply (same_sems _ k). intros s. cbn. rewrite !lookup_insert. repeat case_decide; subst; symmetry; done. }
  unfold get_short_scheduler_context. rewrite list_get_spec in Hget.
  destruct (znth (entries (cpu_connections_dict k)) 0) as [[id c]|] eqn:Hz; [|by run (run (exact Hget); done)].
  change (fst <$> Some (id, c)) with (Some id) in Hget.
  assert (cpu_connections_dict k !! id = Some c) as Hid.
  { apply znth_elem in Hz. apply elem_of_map_to_list. by rewrite <- dictionary_elements_spec. }
  destruct (Hm id c Hid) as (Hcpu & Hne & _). unfold get_next_process_to_dispatch, get_next_pcb_from_ready, short_term_algorithm.
  rewrite decide_False by done. destruct (ready_list (lists k)) as [|a l] eqn:Hl.
  { run (run (exact Hget); run (run done; by apply (next_none READY)); done). exact Hnothing. }
  run (run (exact Hget); run (run done; by apply (next_runs READY a l)); done). cbv beta iota.
  run (apply lock_runs; cbn; by rewrite !lookup_insert_ne). run (apply load_cpu_runs; exact Hid).
  rewrite decide_False by done. unfold preemption_is_enabled. rewrite Hpre. cbn [negb].
  run (apply unlock_runs; cbn; by rewrite !lookup_insert_ne, lookup_insert_eq by done).
  run (apply unlock_runs; cbn; by rewrite !lookup_insert_ne, lookup_insert_eq by done).
  unfold unlock_cpu. erewrite unlock_runs by (cbn; by rewrite !lookup_insert_ne, lookup_insert_eq by done).
  do 2 f_equal. apply (same_sems _ k). intros s. cbn. rewrite !lookup_insert. repeat case_decide; subst; symmetry; done.
Qed.
End StaleMarks.

(** ** The theorems on the system of SystemScenario.v *)
Lemma two_cpus_apart : sockets_apart two_cpus disk_socket.
Proof.
  constructor.
  - by apply (bool_decide_unpack _); vm_compute.
  - intros s [->|[->|[]%not_elem_of_nil]%elem_of_cons]%elem_of_cons; by apply (bool_decide_unpack _); vm_compute.
  - intros s ->. split_and!; [done|by apply (bool_decide_unpack _); vm_compute..].
Qed.

Lemma on_cpu_runs l id at_ p :
  on_cpu l id = Some (at_, p) → match at_ with M_cycle | M_confirm | M_interrupts false => True | _ => False end →
  ∃ s, y_cpus (family_after l) !! id = Some s ∧ runs s p.
Proof.
  unfold on_cpu. destruct (y_cpus (family_after l) !! id) as [s|]; [|done].
  intros [= <- <-] Hat. by exists s.
Qed.

(** Both CPUs are busy, each with a process of its own. *)
Lemma no_process_on_two_cpus_witness :
  ∃ n s1 s2, nsteps family_step n family_begin (family_after both_busy) ∧
    y_cpus (family_after both_busy) !! "1" = Some s1 ∧ runs s1 0 ∧
    y_cpus (family_after both_busy) !! "2" = Some s2 ∧ runs s2 1 ∧
    (∃ c, cpu_connections_dict (y_kernel (family_after both_busy)) !! "2" = Some c ∧ current_process_executing c = 1%Z).
Proof.
  destruct (family_steps both_busy (proj1 the_runs_are_allowed) (proj1 the_runs_succeed)) as (n & Hl & Hn).
  destruct (on_cpu_runs both_busy "1" (M_interrupts false) 0) as (s1 & H1 & R1); [vm_compute; reflexivity | exact I|].
  destruct (on_cpu_runs both_busy "2" M_cycle 1) as (s2 & H2 & R2); [vm_compute; reflexivity | exact I|].
  assert (Z.of_nat n <= 2147483647)%Z as Hb by (cbn in Hl; lia).
  exists n, s1, s2. do 5 (split; [assumption|]).
  exact (proj1 (no_process_on_two_cpus fifo _ _ _ two_cpus disk_socket two_cpus_apart eq_refl
    "padre" 16 booted _ family_begin n _ "2" s2 1 family_steady_booted family_begins Hn Hb H2 R2)).
Defined.

(** The request of process 1 for the disk is under way from CPU 2. *)
Lemma system_calls_come_from_exec_witness :
  ∃ n s, nsteps family_step n family_begin (family_after call_under_way) ∧
    y_cpus (family_after call_under_way) !! "2" = Some s ∧ dispatch_out (sys_cpu s) ≠ [] ∧
    ∃ package t p a q c, recv_package (dispatch_out (sys_cpu s)) = Ok (Some package, []) ∧
      opcode package = Opcode.code Opcode.SYSCALL ∧
      (∀ r, read_with read_syscall_package package = Ok r → syscall_pid r = p ∧ syscall_type r = SyscallType.code t) ∧
      a ∈ exec_list (lists (y_kernel (family_after call_under_way))) ∧
      pcbs (y_kernel (family_after call_under_way)) !! a = Some q ∧ pid q = p ∧ current_state q = EXEC ∧
      cpu_connections_dict (y_kernel (family_after call_under_way)) !! "2" = Some c ∧ current_process_executing c = p.
Proof.
  destruct (family_steps call_under_way (proj1 (proj2 the_runs_are_allowed)) (proj1 (proj2 the_runs_succeed))) as (n & Hl & Hn).
  assert (((λ s, bool_decide (dispatch_out (sys_cpu s) = [])) <$> y_cpus (family_after call_under_way) !! "2") = Some false)
    as Hout by (vm_compute; reflexivity).
  destruct (y_cpus (family_after call_under_way) !! "2") as [s|] eqn:Hs; [|discriminate Hout].
  injection Hout as Hout%bool_decide_eq_false. assert (Z.of_nat n <= 2147483647)%Z as Hb by (cbn in Hl; lia).
  exists n, s. split; [exact Hn|]. split; [reflexivity|]. split; [exact Hout|].
  exact (system_calls_come_from_exec fifo _ _ _ two_cpus disk_socket two_cpus_apart eq_refl
    "padre" 16 booted _ family_begin n _ "2" s family_steady_booted family_begins Hn Hb Hs Hout).
Defined.

Lemma system_never_hangs_witness :
  ∃ n, nsteps family_step n family_begin (family_after stale_mark) ∧
    match handle_event fifo (Ev_thread 0) (y_kernel (family_after stale_mark)) with
    | Ok _ => True
    | Crash x => x ≠ Deadlock ∧ x ≠ OutOfFuel
    end.
Proof.
  destruct (family_steps stale_mark (proj2 (proj2 the_runs_are_allowed)) (proj2 (proj2 the_runs_succeed))) as (n & Hl & Hn).
  assert (Z.of_nat n < 2147483647)%Z as Hb by (cbn in Hl; lia). exists n. split; [exact Hn|].
  exact (proj2 (system_never_hangs fifo _ _ _ two_cpus disk_socket two_cpus_apart eq_refl
    "padre" 16 booted _ family_begin n _ family_steady_booted family_begins Hn Hb) (Ev_thread 0)).
Defined.

(** After the run [stale_mark] both CPUs are marked with process 1, which is
    on CPU 1; CPU 2 waits for a dispatch and process 2 is in READY, and the
    short term scheduler leaves both alone. *)
Lemma stale_mark_hides_an_idle_cpu_witness :
  let k := y_kernel (family_after stale_mark) in
  on_cpu stale_mark "1" = Some (M_interrupts false, 1%Z) ∧ on_cpu stale_mark "2" = Some (M_dispatch, (-1)%Z) ∧
  marked stale_mark "1" = Some 1%Z ∧ marked stale_mark "2" = Some 1%Z ∧
  in_lists k = [[]; [2%Z]; [1%Z]; []; []; []; [0%Z]] ∧
  run_short_scheduler fifo k = Ok (tt, k).
Proof.
  cbv zeta. do 5 (split; [vm_compute; reflexivity|]).
  apply (stale_mark_hides_an_idle_cpu fifo); [discriminate|reflexivity|vm_compute; reflexivity..|].
  assert (map_Forall (λ id c, k_sems (y_kernel (family_after stale_mark)) !! sem_cpu_exec id = Some 1%Z ∧
      current_process_executing c ≠ (-1)%Z ∧
      Exists (λ a, pid <$> pcbs (y_kernel (family_after stale_mark)) !! a = Some (current_process_executing c))
        (exec_list (lists (y_kernel (family_after stale_mark)))))
    (cpu_connections_dict (y_kernel (family_after stale_mark)))) as H by (by apply (bool_decide_unpack _); vm_compute).
  intros id c Hc. destruct (H id c Hc) as (Hs & Hne & (a & Ha & E)%Exists_exists). split_and!; [exact Hs|exact Hne|].
  apply fmap_Some in E as (q & Hq & E). exists a, q. auto.
Defined.
