(* ===== verification/KernelProperties.v ===== *)
(** * The operations of the kernel, proved

    Accounting, dispatch, preemption, admission, IO, and the places where the
    program goes wrong. *)
From S2P Require Import Prelude Text Commons Enums Buffer Package Packages Roundtrip Config Semaphores Storage PageTable.
From S2P Require Import MemoriaFacts Invariant Memoria Server Scenario KernelInvariant KernelLogic KernelMemory KernelSteps.
From S2P Require Import SchedulerSafety HandlersSafety KernelBoot Pcb Kernel Scheduler Handlers KernelScenario KernelRuns.
From S2P Require Import KernelBehaviour.
From Stdlib Require Import Permutation.
Import Buffer Package ProcessState.

Section Properties.
Context {C : CommonsOps} {CL : CommonsLaws C} {Srv : Type} {MS : MemoryServer Srv} {Env : KernelEnv Srv}.
Context (kernel_config : t_kernel_config).
Implicit Types (k : t_kernel Srv).

(** ** Accounting *)

(** A change of state adds the time since the last one to the state that
    is left, counts the state that is entered, restarts the clock, and
    touches nothing else; a NULL PCB is ignored. *)
Theorem state_change_is_accounted k a p s :
  pcbs k !! a = Some p →
  pcb_change_state None s k = Ok (tt, k) ∧
  ∃ q k', pcb_change_state (Some a) s k = Ok (tt, k') ∧
    pcbs k' = <[a := q]> (pcbs k) ∧ lists k' = lists k ∧ k_sems k' = k_sems k ∧
    pid q = pid p ∧ pc q = pc p ∧ size q = size p ∧ current_state q = s ∧
    state_start_time_ms q = clock (S (ticks k)) ∧
    (∀ t, count_of t (ME q) = if decide (t = s) then i32 (count_of t (ME p) + 1) else count_of t (ME p)) ∧
    (∀ t, time_of t (MT q) =
       if decide (t = current_state p)
       then u64 (time_of t (MT p) + u64 (clock (ticks k) - state_start_time_ms p)) else time_of t (MT p)).
Proof.
  intros Ha. split; [done|]. eexists _, _. split; [by apply change_state_runs|].
  split_and!; try done; intros t; [apply count_of_count_state | apply time_of_account_time].
Qed.

(** ** Dispatch *)
Definition free_locks (l : list k_sem) k : Prop := ∀ s, s ∈ l → k_sems k !! s = Some 1%Z.

Lemma free_cpu_found k cpu0 c0 :
  cpu_connections_dict k !! cpu0 = Some c0 → current_process_executing c0 = (-1)%Z →
  ∃ cpu c, cpu_connections_dict k !! cpu = Some c ∧
    (current_process_executing c = (-1)%Z ∨
     ∀ b q, b ∈ exec_list (lists k) → pcbs k !! b = Some q → pid q ≠ current_process_executing c) ∧
    get_cpu_to_dispatch kernel_config k
    = Ok (Some cpu, set_cpus (<[cpu := executes (-1) c]> (cpu_connections_dict k)) k).
Proof.
  intros H0 Hf. unfold get_cpu_to_dispatch, get_all_cpu_connections, get_list. run done. run done. run done.
  destruct (find_entry _ _) as [cpu|] eqn:E.
  - pose proof (find_entry_Some _ _ _ E) as (c & Hc & Hp). exists cpu, c. split; [done|]. split.
    + case_decide as Hx; [by left|]. right. intros b q Hb Hq. destruct (list_find _ _) eqn:El; [done|].
      apply (list_find_not _ _ b) in El; [|exact Hb]. intros Heq.
      by rewrite (has_pid_yes _ k b q Hq Heq) in El.
    + by run (by apply set_executing_runs).
  - exfalso. pose proof (find_entry_None _ _ _ _ E H0) as Hn. cbv beta in Hn. by rewrite decide_True in Hn.
Qed.

Lemma context_runs k k1 cpu a l :
  short_planification_algorithm kernel_config ≠ Algorithm.SJF →
  get_cpu_to_dispatch kernel_config k = Ok (Some cpu, k1) → ready_list (lists k1) = a :: l →
  get_short_scheduler_context kernel_config k = Ok ((Some cpu, Some a), k1).
Proof.
  intros Halg Hget Hr. unfold get_short_scheduler_context. run (exact Hget).
  unfold get_next_process_to_dispatch, get_next_pcb_from_ready. rewrite decide_False by exact Halg.
  run (run (reflexivity); by eapply next_runs). done.
Qed.

Lemma dispatch_to_runs k cpu c a p l package v :
  k_sems k !! sem_cpu_connections = Some 0%Z → k_sems k !! sem_list EXEC = Some v →
  k_sems k !! sem_list READY = Some 0%Z → k_sems k !! sem_cpu_exec cpu = Some 0%Z →
  ready_list (lists k) = a :: l → pcbs k !! a = Some p → cpu_connections_dict k !! cpu = Some c →
  create_dispatch_package (pid p) (pc p) = Ok package →
  ∃ k' q, dispatch_to cpu a k = Ok (tt, k') ∧
    lists k' = set_list EXEC (exec_list (lists k) ++ [a]) (set_list READY l (lists k)) ∧
    pcbs k' = <[a := q]> (pcbs k) ∧ current_state q = EXEC ∧ pid q = pid p ∧ pc q = pc p ∧
    cpu_connections_dict k' = <[cpu := executes (pid p) c]> (cpu_connections_dict k) ∧
    sent k' = sent k ++ [(dispatch_socket_id c, package)] ∧
    k_sems k' = <[sem_cpu_exec cpu := 1%Z]> (<[sem_list READY := 1%Z]> (<[sem_list EXEC := (v + 1)%Z]>
                  (<[sem_cpu_connections := 1%Z]> (k_sems k)))).
Proof.
  intros S1 S2 S3 S4 Hr Ha Hc Hpk. unfold dispatch_to. run (by apply load_pcb_runs).
  run (eapply (remove_runs (pid p) k READY 0 a); split_and!;
       [by cbn; rewrite Hr | by apply (has_pid_yes _ k a p) | lia]).
  run (apply add_runs, Ha). run (apply load_pcb_runs; cbn; apply lookup_insert_eq).
  unfold send_dispatch_to_cpu. run (run (by apply load_cpu_runs);
    change (create_dispatch_package _ _) with (create_dispatch_package (pid p) (pc p)); rewrite Hpk; apply send_runs).
  run (by apply set_executing_runs). 
  run (by apply unlock_runs). run (apply unlock_runs; cbn; by rewrite !lookup_insert_ne by done).
  run (apply unlock_runs; cbn; by rewrite !lookup_insert_ne by done).
  eexists _, _. split; [apply unlock_runs; cbn; by rewrite !lookup_insert_ne by done|].
  cbn [list_of]. split_and!; try done. cbn. rewrite Hr. cbn. by destruct (lists k).
Qed.

(** C14: when a CPU is free and the algorithm is not SJF, the head of READY
    goes to EXEC: the CPU gets its id and program counter and is marked with
    it, no other process moves, and all locks are released. *)
Theorem ready_process_is_dispatched k a p l cpu0 c0 :
  short_planification_algorithm kernel_config ≠ Algorithm.SJF →
  free_locks [sem_cpu_connections; sem_list READY; sem_list EXEC] k →
  (∀ cpu, is_Some (cpu_connections_dict k !! cpu) → k_sems k !! sem_cpu_exec cpu = Some 1%Z) →
  ready_list (lists k) = a :: l → pcbs k !! a = Some p → in_i32 (pid p) → in_i32 (pc p) →
  cpu_connections_dict k !! cpu0 = Some c0 → current_process_executing c0 = (-1)%Z →
  ∃ cpu c package k' q, cpu_connections_dict k !! cpu = Some c ∧
    (current_process_executing c = (-1)%Z ∨
     ∀ b r, b ∈ exec_list (lists k) → pcbs k !! b = Some r → pid r ≠ current_process_executing c) ∧
    run_short_scheduler kernel_config k = Ok (tt, k') ∧
    lists k' = set_list EXEC (exec_list (lists k) ++ [a]) (set_list READY l (lists k)) ∧
    pcbs k' = <[a := q]> (pcbs k) ∧ current_state q = EXEC ∧ pid q = pid p ∧ pc q = pc p ∧
    cpu_connections_dict k' = <[cpu := executes (pid p) c]> (cpu_connections_dict k) ∧
    sent k' = sent k ++ [(dispatch_socket_id c, package)] ∧
    read_with read_dispatch_package package = Ok {| dispatch_pid := pid p; dispatch_pc := pc p |} ∧
    k_sems k' = k_sems k.
Proof.
  intros Halg Hs Hcpus Hr Ha Hpid Hpc H0 Hf.
  destruct (dispatch_delivers (pid p) (pc p) Hpid Hpc) as (package & Hpk & _ & Hread & _).
  set (k1 := set_k_sems (<[sem_list READY := 0%Z]> (<[sem_cpu_connections := 0%Z]> (k_sems k))) k).
  destruct (free_cpu_found k1 cpu0 c0 H0 Hf) as (cpu & c & Hc & Hfree & Hget). cbn in Hc, Hfree.
  assert (k_sems k !! sem_cpu_exec cpu = Some 1%Z) as Hcpu by (apply Hcpus; by eexists).
  set (k2 := set_k_sems (<[sem_list EXEC := 0%Z]> (<[sem_cpu_exec cpu := 0%Z]> (k_sems k1)))
               (set_cpus (<[cpu := executes (-1) c]> (cpu_connections_dict k)) k1)).
  destruct (dispatch_to_runs k2 cpu (executes (-1) c) a p l package 0)
    as (k' & q & Hd & Hl & Hp & Hst & Hq1 & Hq2 & Hcd & Hsent & Hsem); try done;
    try (cbn; by rewrite ?lookup_insert_ne, ?lookup_insert_eq by done).
  exists cpu, c, package, k', q. split_and!; try done.
  - unfold run_short_scheduler. run (apply lock_runs, Hs; by left).
    run (apply lock_runs; cbn; rewrite lookup_insert_ne by done; apply Hs; right; by left).
    run (eapply context_runs; [exact Halg | exact Hget | exact Hr]).
    run (apply lock_runs; cbn; by rewrite !lookup_insert_ne by done).
    run (apply load_cpu_runs; cbn; apply lookup_insert_eq). rewrite decide_True by done.
    run (apply lock_runs; cbn; rewrite !lookup_insert_ne by done; apply Hs; by repeat (first [by left | right])).
    exact Hd.
  - rewrite Hcd. cbn. by rewrite insert_insert_eq.
  - rewrite Hsem. cbn. apply map_eq. intros s.
    destruct (decide (s = sem_cpu_exec cpu)) as [->|N1]; [by rewrite lookup_insert_eq|].
    rewrite lookup_insert_ne by done.
    destruct (decide (s = sem_list READY)) as [->|N2];
      [rewrite lookup_insert_eq; symmetry; apply Hs; right; by left|]. rewrite lookup_insert_ne by done.
    destruct (decide (s = sem_list EXEC)) as [->|N3];
      [rewrite lookup_insert_eq; symmetry; apply Hs; right; right; by left|]. rewrite lookup_insert_ne by done.
    destruct (decide (s = sem_cpu_connections)) as [->|N4];
      [rewrite lookup_insert_eq; symmetry; apply Hs; by left|]. by rewrite !lookup_insert_ne by done.
Qed.

(** ** Preemption *)

Lemma interrupt_runs k cpu c x rest ctx package :
  k_sems k !! sem_list EXEC = Some 0%Z →
  create_interrupt_package (current_process_executing c) = Ok package →
  interrupt_answers k = Some x :: rest → read_with read_cpu_context_package x = Ok ctx →
  cpu_connections_dict k !! cpu = Some c →
  send_and_receive_interrupt (interrupt_socket_id c) (current_process_executing c) k
  = Ok (ctx, set_answers rest (set_k_sems (<[sem_list EXEC := 1%Z]> (k_sems k))
               (set_sent (sent k ++ [(interrupt_socket_id c, package)]) k))).
Proof.
  intros Hs Hpk Hans Hctx Hc. unfold send_and_receive_interrupt. run (rewrite Hpk; apply send_runs).
  run (by apply unlock_runs).
  run (unfold recv_answer; run (reflexivity); cbn; rewrite Hans; reflexivity). cbn.
  run (reflexivity). unfold lift_res. by rewrite Hctx.
Qed.

(** C17: when the CPU answers that it was still running the process, the
    process goes from EXEC to the end of READY with the program counter of
    the answer, and EXEC is locked again. *)
Theorem preempted_process_goes_back k cpu c i a p x rest ctx :
  k_sems k !! sem_list EXEC = Some 0%Z →
  cpu_connections_dict k !! cpu = Some c → in_i32 (current_process_executing c) →
  first_with (current_process_executing c) k EXEC i a → pcbs k !! a = Some p →
  interrupt_answers k = Some x :: rest → read_with read_cpu_context_package x = Ok ctx →
  interrupted_same_pid ctx = 0%Z →
  ∃ package k' q, preempt cpu k = Ok (tt, k') ∧
    read_with read_interrupt_package package = Ok (current_process_executing c) ∧
    sent k' = sent k ++ [(interrupt_socket_id c, package)] ∧ interrupt_answers k' = rest ∧
    lists k' = set_list READY (ready_list (lists k) ++ [a])
                 (set_list EXEC (delete i (exec_list (lists k))) (lists k)) ∧
    pcbs k' = <[a := q]> (pcbs k) ∧ current_state q = READY ∧ pid q = pid p ∧ pc q = ctx_pc ctx ∧
    k_sems k' = k_sems k.
Proof.
  intros Hs Hc Hpid Hfirst Ha Hans Hctx Hsame.
  destruct (interrupt_delivers _ Hpid) as (package & Hpk & _ & Hread & _).
  exists package. do 2 eexists. split_and!.
  - unfold preempt. run (by apply load_cpu_runs). run (by eapply interrupt_runs).
    rewrite decide_True by done. run (apply lock_runs; cbn; apply lookup_insert_eq).
    run (apply load_cpu_runs; exact Hc). unfold remove_pcb_from_exec.
    run (run (by apply (remove_runs (current_process_executing c) _ EXEC i a)); run (by apply load_pcb_runs);
         run (apply total_time_runs); run (reflexivity); reflexivity).
    unfold update_pcb. run (run (apply load_pcb_runs; cbn; apply lookup_insert_eq); reflexivity).
    apply add_runs. cbn. apply lookup_insert_eq.
  - exact Hread.
  - reflexivity.
  - reflexivity.
  - cbn. by destruct (lists k).
  - cbn. by rewrite !insert_insert_eq.
  - reflexivity.
  - unfold change_state. cbn. by rewrite with_burst_pid.
  - reflexivity.
  - cbn. rewrite insert_insert_eq. by apply insert_id.
Qed.

(** C40: when the CPU answers that it was not running the process any more,
    EXEC stays unlocked, and the dispatch that follows unlocks it once more:
    the lock is left open to two threads, and the process that was to be
    preempted stays in EXEC while the CPU is marked with the other one. *)
Theorem stale_answer_unlocks_twice k cpu c a p l b x rest ctx :
  k_sems k !! sem_cpu_connections = Some 0%Z → k_sems k !! sem_list EXEC = Some 0%Z →
  k_sems k !! sem_list READY = Some 0%Z → k_sems k !! sem_cpu_exec cpu = Some 0%Z →
  cpu_connections_dict k !! cpu = Some c → in_i32 (current_process_executing c) →
  ready_list (lists k) = a :: l → pcbs k !! a = Some p → in_i32 (pid p) → in_i32 (pc p) →
  b ∈ exec_list (lists k) →
  interrupt_answers k = Some x :: rest → read_with read_cpu_context_package x = Ok ctx →
  interrupted_same_pid ctx ≠ 0%Z →
  ∃ k', (preempt cpu;; dispatch_to cpu a) k = Ok (tt, k') ∧
    k_sems k' !! sem_list EXEC = Some 2%Z ∧ exec_list (lists k') = exec_list (lists k) ++ [a] ∧
    b ∈ exec_list (lists k') ∧
    cpu_connections_dict k' !! cpu = Some (executes (pid p) c).
Proof.
  intros S1 S2 S3 S4 Hc Hx Hr Ha Hpid Hpc Hb Hans Hctx Hsame.
  destruct (interrupt_delivers _ Hx) as (package & Hpk & _).
  destruct (dispatch_delivers (pid p) (pc p) Hpid Hpc) as (package' & Hpk' & _).
  set (k1 := set_answers rest (set_k_sems (<[sem_list EXEC := 1%Z]> (k_sems k))
               (set_sent (sent k ++ [(interrupt_socket_id c, package)]) k))).
  destruct (dispatch_to_runs k1 cpu c a p l package' 1)
    as (k' & q & Hd & Hl & _ & _ & _ & _ & Hcd & _ & Hsem); try done;
    try (cbn; by rewrite ?lookup_insert_ne, ?lookup_insert_eq by done).
  exists k'. rewrite Hl, Hcd, Hsem. split_and!.
  - run (unfold preempt; run (by apply load_cpu_runs); run (by eapply interrupt_runs);
         rewrite decide_False by exact Hsame; reflexivity). exact Hd.
  - by rewrite !lookup_insert_ne, lookup_insert_eq by done.
  - cbn. by destruct (lists k).
  - cbn. destruct (lists k). apply elem_of_app. by left.
  - apply lookup_insert_eq.
Qed.

(** ** Admission *)

(** What memory answers when it is asked to create the process. *)
Definition memory_creates (p : t_pcb) (m : Srv) : res (bool * Srv) :=
  match pseudocode_file p with
  | None => Ok (false, m)
  | Some path =>
      package ← create_init_process_package (pid p) (size p) (Some path);
      r ← serve package m;
      match fst r with
      | None => Ok (false, snd r)
      | Some answer =>
          if is_confirmation answer
          then b ← read_with read_confirmation_package answer; Ok (b, snd r) else Ok (false, snd r)
      end
  end.

(** How many of the processes [l] memory accepts, one after the other, until
    the first it refuses. *)
Fixpoint admitted (h : gmap nat t_pcb) (l : list nat) (m : Srv) : res (nat * Srv) :=
  match l with
  | [] => Ok (0, m)
  | a :: l =>
      match h !! a with
      | None => Crash NullDeref
      | Some p =>
          r ← memory_creates p m;
          if fst r : bool then r' ← admitted h l (snd r); Ok (S (fst r'), snd r') else Ok (0, snd r)
      end
  end.

Lemma create_process_runs k p b m :
  memory_creates p (k_memory k) = Ok (b, m) →
  create_process (pid p) (size p) (pseudocode_file p) k = Ok (b, set_k_memory m k).
Proof.
  unfold memory_creates, create_process, ask. destruct (pseudocode_file p) as [path|].
  2: { intros [= <- <-]. by destruct k. }
  destruct (create_init_process_package _ _ _) as [package|]; [|done]. cbn [mbind res_bind].
  destruct (serve package (k_memory k)) as [[o m']|] eqn:E; [|done]. cbn [mbind res_bind fst snd]. intros H.
  run (run (reflexivity); unfold zoom; rewrite E; reflexivity).
  destruct o as [answer|]; [|by injection H as <- <-]. destruct (is_confirmation answer); [|by injection H as <- <-].
  destruct (read_with _ answer); [|done]. by injection H as <- <-.
Qed.

(** The processes [l] are the next ones in NEW, after [done]. *)
Lemma admit_loop_runs fuel b k h l n m :
  long_planification_algorithm kernel_config ≠ Algorithm.PMCP →
  new_list (lists k) = l → (∀ a, a ∈ l → pcbs k !! a = h !! a) → NoDup l →
  admitted h l (k_memory k) = Ok (n, m) → length l < fuel →
  ∃ k', admit_loop kernel_config fuel b k = Ok (b || bool_decide (0 < n), k') ∧
    lists k' = set_list NEW (drop n l) (set_list READY (ready_list (lists k) ++ take n l) (lists k)) ∧
    k_memory k' = m ∧ k_sems k' = k_sems k ∧ sent k' = sent k ∧
    (∀ a, a ∉ take n l → pcbs k' !! a = pcbs k !! a) ∧
    (∀ a, a ∈ take n l → ∃ p q, h !! a = Some p ∧ pcbs k' !! a = Some q ∧ current_state q = READY ∧ pid q = pid p).
Proof.
  intros Halg. revert fuel b k n m. induction l as [|a l IH]; intros fuel b k n m Hl Hh Hnd Had Hf.
  - injection Had as <- <-. destruct fuel as [|fuel]; [lia|]. exists k. cbn [admit_loop].
    unfold get_next_process_to_initialize_from_new. rewrite decide_False by exact Halg.
    split_and!; try done; [|cbn; destruct (lists k); cbn in *; by rewrite Hl, app_nil_r|].
    + run (run (reflexivity); by apply next_none). by destruct b.
    + intros x Hx. by apply not_elem_of_nil in Hx.
  - destruct fuel as [|fuel]; [lia|]. cbn in Had. destruct (h !! a) as [p|] eqn:Hp; [|done].
    assert (pcbs k !! a = Some p) as Ha by (rewrite Hh; [done | by left]).
    destruct (memory_creates p (k_memory k)) as [[c m1]|] eqn:Hm; [|done]. cbn [mbind res_bind fst snd] in Had.
    assert (∀ k1 b1, admit_loop kernel_config fuel true (with_added READY a p
              (set_lists (set_list NEW l (lists k)) (set_k_memory m1 k))) = Ok (b1, k1) → c = true →
            admit_loop kernel_config (S fuel) b k = Ok (b1, k1)) as Hstep.
    { intros k1 b1 H ->. cbn [admit_loop]. unfold get_next_process_to_initialize_from_new.
      rewrite decide_False by exact Halg. run (run (reflexivity); by eapply next_runs).
      run (by apply load_pcb_runs). run (by apply create_process_runs). 
      run (apply (remove_runs (pid p) _ NEW 0 a); split_and!;
             [by cbn; rewrite Hl | by apply (has_pid_yes _ k a p) | lia]).
      run (apply add_runs; exact Ha). cbn [list_of lists set_k_memory delete list_delete]. by rewrite Hl. }
    destruct c.
    + destruct (admitted h l m1) as [[n' m']|] eqn:Hadm; [|done]. injection Had as <- <-.
      apply NoDup_cons in Hnd as [Hna Hnd]. cbn in Hf.
      set (k0 := with_added READY a p (set_lists (set_list NEW l (lists k)) (set_k_memory m1 k))) in *.
      destruct (IH fuel true k0 n' m') as (k1 & Hr & Hls & Hmem & Hsem & Hsent & Hout & Hin); try done; [| |lia|].
      { cbn. by destruct (lists k). }
      { intros x Hx. cbn. rewrite lookup_insert_ne by (intros <-; done). apply Hh. by right. }
      exists k1. split_and!; [|by rewrite Hls; cbn; destruct (lists k); cbn; rewrite <- app_assoc|done|done|done| |].
      * rewrite (Hstep k1 true); [by rewrite bool_decide_true, orb_true_r by lia | by rewrite Hr | done].
      * intros x Hx. cbn [take] in Hx. apply not_elem_of_cons in Hx as [Hxa Hx].
        rewrite Hout by done. cbn. by rewrite lookup_insert_ne.
      * intros x Hx. cbn [take] in Hx. apply elem_of_cons in Hx as [->|Hx]; [|by apply Hin].
        exists p. eexists. split; [done|]. split.
        { rewrite Hout; [cbn; apply lookup_insert_eq|]. intros Hx. apply Hna. rewrite <- (take_drop n' l). apply elem_of_app. by left. }
        done.
    + injection Had as <- <-. exists (set_k_memory m1 k). split_and!; try done.
      * cbn [admit_loop]. unfold get_next_process_to_initialize_from_new.
        rewrite decide_False by exact Halg. run (run (reflexivity); by eapply next_runs).
        run (by apply load_pcb_runs). run (by apply create_process_runs). by destruct b.
      * cbn. destruct (lists k); cbn in *. by rewrite Hl, app_nil_r.
      * intros x Hx. by apply not_elem_of_nil in Hx.
Qed.

(** C15: with FIFO admission and nobody waiting in SUSP_READY, the long term
    scheduler refines [admitted]: the longest prefix of NEW that memory
    accepts moves to the end of READY in its order, the rest stays, and the
    result says whether anybody was admitted. *)
Theorem long_scheduler_admits_a_prefix k n m :
  long_planification_algorithm kernel_config ≠ Algorithm.PMCP → connects (k_memory k) = true →
  susp_ready_list (lists k) = [] → NoDup (new_list (lists k)) →
  free_locks [sem_list SUSP_READY; sem_list READY; sem_list NEW] k →
  admitted (pcbs k) (new_list (lists k)) (k_memory k) = Ok (n, m) →
  ∃ k', run_long_scheduler kernel_config k = Ok (bool_decide (0 < n), k') ∧
    new_list (lists k') = drop n (new_list (lists k)) ∧
    ready_list (lists k') = ready_list (lists k) ++ take n (new_list (lists k)) ∧
    (∀ s, s ≠ NEW → s ≠ READY → list_of s (lists k') = list_of s (lists k)) ∧
    k_memory k' = m ∧ sent k' = sent k ∧ (∀ s, k_sems k' !! s = k_sems k !! s) ∧
    (∀ a, a ∉ take n (new_list (lists k)) → pcbs k' !! a = pcbs k !! a) ∧
    (∀ a, a ∈ take n (new_list (lists k)) →
       ∃ p q, pcbs k !! a = Some p ∧ pcbs k' !! a = Some q ∧ current_state q = READY ∧ pid q = pid p).
Proof.
  intros Halg Hconn Hsr Hnd Hs Had.
  assert (k_sems k !! sem_list SUSP_READY = Some 1%Z) as S1 by (apply Hs; by left).
  assert (k_sems k !! sem_list READY = Some 1%Z) as S2 by (apply Hs; right; by left).
  assert (k_sems k !! sem_list NEW = Some 1%Z) as S3 by (apply Hs; right; right; by left).
  set (k0 := set_k_sems (<[sem_list NEW := 0%Z]> (<[sem_list READY := 0%Z]> (<[sem_list SUSP_READY := 1%Z]>
               (<[sem_list SUSP_READY := 0%Z]> (k_sems k))))) k).
  destruct (admit_loop_runs (S (length (new_list (lists k)))) false k0 (pcbs k) (new_list (lists k)) n m)
    as (k1 & Hr & Hl & Hmem & Hsem & Hsent & Hout & Hin); try done; [lia|].
  eexists. split.
  - unfold run_long_scheduler, connect_to_memory. run (reflexivity). rewrite Hconn. run (unfold get_list; reflexivity).
    cbn [list_of]. rewrite Hsr. cbn [length unsuspend_loop].
    run (run (by apply lock_runs); unfold get_next_process_to_initialize_from_susp_ready;
         rewrite decide_False by exact Halg; run (run (reflexivity); by apply next_none);
         run (apply unlock_runs; cbn; apply lookup_insert_eq); reflexivity).
    run (apply lock_runs; cbn; by rewrite !lookup_insert_ne by done).
    run (apply lock_runs; cbn; by rewrite !lookup_insert_ne by done).
    run (unfold get_list; reflexivity). run (exact Hr).
    run (apply unlock_runs; rewrite Hsem; cbn; apply lookup_insert_eq).
    run (apply unlock_runs; cbn; rewrite Hsem; cbn; by rewrite lookup_insert_ne, lookup_insert_ne, lookup_insert_eq by done).
    reflexivity.
  - cbn. rewrite Hl, Hsem, Hsent. cbn. split_and!; try done.
    + by destruct (lists k).
    + by destruct (lists k).
    + intros s H1 H2. by rewrite !list_of_set_ne by done.
    + intros s. rewrite !lookup_insert. repeat case_decide; subst; first [done | by rewrite S1 | by rewrite S2 | by rewrite S3].
Qed.

(** The process [x] is not larger than [y]. *)
Definition not_larger k (x y : nat) : Prop :=
  ∀ p q, pcbs k !! x = Some p → pcbs k !! y = Some q → (size p <= size q)%Z.

(** C16: with smallest-first admission (PMCP) NEW is put in order of size,
    losing nobody, and the process that is proposed to memory is the one at
    its head, so the smallest; nothing else changes. *)
Theorem smallest_process_is_admitted_first k a l :
  long_planification_algorithm kernel_config = Algorithm.PMCP →
  new_list (lists k) = a :: l → (∀ b, b ∈ new_list (lists k) → is_Some (pcbs k !! b)) →
  ∃ b p l', get_next_process_to_initialize_from_new kernel_config k
      = Ok (Some b, set_lists (set_list NEW l' (lists k)) k) ∧
    l' ≡ₚ new_list (lists k) ∧ StronglySorted (not_larger k) l' ∧ head l' = Some b ∧
    pcbs k !! b = Some p ∧ b ∈ new_list (lists k) ∧
    ∀ c q, c ∈ new_list (lists k) → pcbs k !! c = Some q → (size p <= size q)%Z.
Proof.
  intros Halg Hl Hk.
  set (sz x := match pcbs k !! x with Some p => size p | None => 0%Z end).
  set (R x y := bool_decide (sz x <= sz y)%Z).
  destruct (list_sort_sorted nat (res (t_kernel Srv)) (comparator compare_process_size) R (new_list (lists k)) (Ok k))
    as [Hsorted Hst].
  { intros x y Hx Hy. destruct (Hk x Hx) as [p Hp], (Hk y Hy) as [q Hq].
    unfold comparator, compare_process_size. rewrite (M_bind_ok _ _ _ _ _ (load_pcb_runs x p k Hp)).
    rewrite (M_bind_ok _ _ _ _ _ (load_pcb_runs y q k Hq)). unfold R, sz. by rewrite Hp, Hq. }
  { unfold R. intros x y z H1%bool_decide_eq_true H2%bool_decide_eq_true. apply bool_decide_eq_true. lia. }
  { unfold R. intros x y. rewrite !bool_decide_eq_true. lia. }
  pose proof (list_sort_perm nat (res (t_kernel Srv)) (comparator compare_process_size) (new_list (lists k)) (Ok k)) as Hp.
  destruct (list_sort (comparator compare_process_size) (new_list (lists k)) (Ok k)) as [[|b l'] r] eqn:E;
    cbn in Hsorted, Hst, Hp; subst r.
  { rewrite Hl in Hp. by apply Permutation_nil_cons in Hp. }
  assert (b ∈ new_list (lists k)) as Hb by (rewrite <- Hp; by left).
  destruct (Hk b Hb) as [p Hpb]. exists b, p, (b :: l'). split_and!; [|done| |done|done|done|].
  - unfold get_next_process_to_initialize_from_new. rewrite decide_True by exact Halg.
    run (unfold sort_new_list_by_SSF, sort_list; cbn [list_of]; rewrite E; reflexivity).
    eapply next_runs. cbn. by destruct (lists k).
  - revert Hsorted. apply StronglySorted_mono. intros x y HR px py Hx Hy. unfold R, sz in HR. rewrite Hx, Hy in HR.
    by apply bool_decide_eq_true in HR.
  - intros c q Hc Hq. rewrite <- Hp in Hc. apply elem_of_cons in Hc as [->|Hc].
    { assert (p = q) as -> by congruence. lia. }
    inversion Hsorted as [|? ? _ Hall]; subst. rewrite Forall_forall in Hall. specialize (Hall c Hc).
    unfold R, sz in Hall. rewrite Hpb, Hq in Hall. by apply bool_decide_eq_true in Hall.
Qed.

(** ** Input and output *)

(** C18: an IO request takes the process from EXEC to the end of BLOCKED with
    its program counter, and enters the device's queue at the end; the locks
    are released. *)
Theorem io_request_blocks_the_process k x pc_ sleep link i a p q :
  free_locks [sem_io_requests_queue link; sem_list EXEC; sem_list BLOCKED] k →
  first_with x k EXEC i a → pcbs k !! a = Some p → io_requests_link_dict k !! link = Some q →
  ∃ k' r, block_for_io x pc_ sleep link k = Ok (Some a, k') ∧
    lists k' = set_list BLOCKED (blocked_list (lists k) ++ [a])
                 (set_list EXEC (delete i (exec_list (lists k))) (lists k)) ∧
    pcbs k' = <[a := r]> (pcbs k) ∧ current_state r = BLOCKED ∧ pid r = pid p ∧ pc r = pc_ ∧
    io_requests_link_dict k' = <[link := q ++ [mk_io_request x sleep]]> (io_requests_link_dict k) ∧
    (∀ s, k_sems k' !! s = k_sems k !! s).
Proof.
  intros Hs Hfirst Ha Hq.
  assert (k_sems k !! sem_io_requests_queue link = Some 1%Z) as S1 by (apply Hs; by left).
  assert (k_sems k !! sem_list EXEC = Some 1%Z) as S2 by (apply Hs; right; by left).
  assert (k_sems k !! sem_list BLOCKED = Some 1%Z) as S3 by (apply Hs; right; right; by left).
  do 2 eexists. split.
  - unfold block_for_io. run (by apply lock_runs).
    run (apply lock_runs; cbn; by rewrite !lookup_insert_ne by done).
    run (apply lock_runs; cbn; by rewrite !lookup_insert_ne by done).
    unfold remove_pcb_from_exec.
    run (run (by apply (remove_runs x _ EXEC i a)); run (by apply load_pcb_runs);
         run (apply total_time_runs); run (reflexivity); reflexivity).
    run (unfold update_pcb; run (run (apply load_pcb_runs; cbn; apply lookup_insert_eq); reflexivity);
         run (apply add_runs; cbn; apply lookup_insert_eq);
         unfold create_io_request_element, load_queue;
         run (run (reflexivity); cbn [io_requests_link_dict with_added with_state set_lists set_pcbs set_ticks set_state_log set_k_sems];
              rewrite Hq; reflexivity); rewrite queue_push_spec; reflexivity).
    run (apply unlock_runs; cbn; apply lookup_insert_eq).
    run (apply unlock_runs; cbn; by rewrite lookup_insert_ne, lookup_insert_ne, lookup_insert_eq by done).
    run (apply unlock_runs; cbn; by rewrite !lookup_insert_ne, lookup_insert_eq by done). reflexivity.
  - split_and!.
    + cbn. by destruct (lists k).
    + cbn. by rewrite !insert_insert_eq.
    + reflexivity.
    + unfold change_state. cbn. by rewrite with_burst_pid.
    + reflexivity.
    + reflexivity.
    + intros s. cbn. rewrite !lookup_insert.
      repeat case_decide; subst; first [done | by rewrite S1 | by rewrite S2 | by rewrite S3].
Qed.

(** C19: when the connection found for a device is idle, the oldest request of
    its queue is sent to [socket] and leaves the queue, and the connection
    is marked with its process; the locks are released. *)
Theorem oldest_request_is_sent k name socket io c r q key :
  free_locks [sem_io_connections; sem_io_requests; sem_io_requests_queue name] k →
  search_status (entries (io_connections_dict k)) name no_connection
    = {| status_socket_id := key; is_busy := false; found := true; connection := Some io |} →
  io_connections_dict k !! io = Some c → io_current_process_executing c = (-1)%Z →
  io_requests_link_dict k !! name = Some (r :: q) → peer_alive socket = true →
  in_i32 (io_request_pid r) → in_i32 (io_request_sleep_time r) →
  ∃ k' package, process_pending_io name socket k = Ok (true, k') ∧
    sent k' = sent k ++ [(socket, package)] ∧
    read_with read_io_operation_package package
      = Ok {| io_pid := io_request_pid r; io_sleep_time := io_request_sleep_time r |} ∧
    io_requests_link_dict k' = <[name := q]> (io_requests_link_dict k) ∧
    io_connections_dict k' = <[io := mk_io_connection (device_name c) (io_request_pid r)]> (io_connections_dict k) ∧
    lists k' = lists k ∧ pcbs k' = pcbs k ∧ (∀ s, k_sems k' !! s = k_sems k !! s).
Proof.
  intros Hs Hst Hc Hfree Hq Halive Hpid Hsleep.
  assert (k_sems k !! sem_io_connections = Some 1%Z) as S1 by (apply Hs; by left).
  assert (k_sems k !! sem_io_requests = Some 1%Z) as S2 by (apply Hs; right; by left).
  assert (k_sems k !! sem_io_requests_queue name = Some 1%Z) as S3 by (apply Hs; right; right; by left).
  destruct (io_operation_delivers (io_request_pid r) Hpid (io_request_sleep_time r) Hsleep)
    as (package & Hpk & _ & Hread & _).
  eexists _, package. split.
  - unfold process_pending_io. run (by apply lock_runs).
    run (unfold get_io_connection_status_by_device_name; run (reflexivity); cbn; rewrite Hst; reflexivity).
    cbn [negb found]. run (apply lock_runs; cbn; by rewrite !lookup_insert_ne by done).
    run (unfold find_io_request_by_device_name; run (reflexivity); cbn; rewrite dictionary_get_spec, Hq; reflexivity).
    run (apply lock_runs; cbn; by rewrite !lookup_insert_ne by done).
    cbn [connection]. run (reflexivity). run (unfold load_io; run (reflexivity); cbn; rewrite Hc; reflexivity).
    run (unfold truly_busy; rewrite Hfree; reflexivity).
    run (unfold send_next_request;
         run (unfold get_next_request_in_queue, load_queue; run (run (reflexivity); cbn; rewrite Hq; reflexivity);
              rewrite queue_size_spec, decide_False by (unfold zlen; cbn; lia); rewrite queue_peek_spec; reflexivity);
         cbn [head]; run (rewrite Hpk; apply send_runs); rewrite Halive;
         run (unfold pop_next_request_in_queue, load_queue; run (run (reflexivity); cbn; rewrite Hq; reflexivity);
              rewrite queue_size_spec, decide_False by (unfold zlen; cbn; lia); rewrite queue_pop_spec; reflexivity);
         unfold set_io_executing, load_io; cbn [head]; run (run (reflexivity); cbn; rewrite Hc; reflexivity); reflexivity).
    run (apply unlock_runs; cbn; apply lookup_insert_eq).
    run (apply unlock_runs; cbn; by rewrite lookup_insert_ne, lookup_insert_ne, lookup_insert_eq by done).
    run (apply unlock_runs; cbn; by rewrite !lookup_insert_ne, lookup_insert_eq by done). reflexivity.
  - split_and!; try done. intros s. cbn. rewrite !lookup_insert.
    repeat case_decide; subst; first [done | by rewrite S1 | by rewrite S2 | by rewrite S3].
Qed.

(** ** Where the program goes wrong *)

(** An EXIT of a process that is not in EXEC (it was preempted, or has
    exited already) dereferences the NULL that its removal returned. *)
Theorem exit_of_an_absent_process_crashes k x :
  free_locks [sem_list EXEC; sem_list EXIT_L] k →
  (∀ a p, a ∈ exec_list (lists k) → pcbs k !! a = Some p → pid p ≠ x) →
  exit_process_syscall x k = Crash NullDeref.
Proof.
  intros Hs Hn. unfold exit_process_syscall. run (apply lock_runs, Hs; by left).
  unfold remove_pcb_from_exec. run (run (by apply remove_absent); reflexivity).
  apply M_bind_crash. unfold exit_routine.
  run (apply lock_runs; cbn; rewrite lookup_insert_ne by done; apply Hs; right; by left). done.
Qed.

(** A KILL that memory refuses (it does not know the process) counts as
    done: the answer's value is not read. *)
Theorem refused_kill_counts_as_done k x package answer m :
  connects (k_memory k) = true → create_kill_process_package x = Ok package →
  serve package (k_memory k) = Ok (Some answer, m) → opcode answer = Opcode.code Opcode.CONFIRMATION →
  read_with read_confirmation_package answer = Ok false →
  kill_process_in_memory x k = Ok (true, set_k_memory m k).
Proof.
  intros Hc Hpk Hserve Hop _. unfold kill_process_in_memory, connect_to_memory. run (reflexivity). rewrite Hc.
  run (unfold ask; rewrite Hpk; run (reflexivity); unfold zoom; rewrite Hserve; reflexivity).
  run (reflexivity). unfold is_confirmation. by rewrite Hop.
Qed.

(** Each comparison of the SJF sort applies the exponential average once
    more: the estimate of a process that has not run in between goes from
    [e1] to [e2], so the order depends on how often the list was sorted. *)
Theorem comparing_changes_the_estimate k a p e1 e2 :
  pcbs k !! a = Some p →
  next_estimate (alpha kernel_config) (last_estimated_cpu_burst_ms (MT p)) (last_cpu_burst_ms (MT p)) = Some e1 →
  next_estimate (alpha kernel_config) e1 (last_cpu_burst_ms (MT p)) = Some e2 →
  ∃ k1 k2, reestimate kernel_config a k = Ok (e1, k1) ∧ reestimate kernel_config a k1 = Ok (e2, k2) ∧
    (λ q, last_estimated_cpu_burst_ms (MT q)) <$> pcbs k2 !! a = Some e2 ∧
    (λ q, last_cpu_burst_ms (MT q)) <$> pcbs k2 !! a = Some (last_cpu_burst_ms (MT p)).
Proof.
  intros Ha H1 H2.
  assert (∀ e q, last_estimated_cpu_burst_ms (MT (with_estimate e q)) = e ∧
                 last_cpu_burst_ms (MT (with_estimate e q)) = last_cpu_burst_ms (MT q)) as Hw.
  { intros e q. unfold with_estimate. by destruct (MT q). }
  destruct (Hw e1 p) as [E1 B1]. destruct (Hw e2 (with_estimate e1 p)) as [E2 B2]. do 2 eexists. split_and!.
  - unfold reestimate. run (by apply load_pcb_runs). rewrite H1. run (reflexivity). reflexivity.
  - unfold reestimate. run (apply load_pcb_runs; cbn; apply lookup_insert_eq).
    rewrite E1, B1, H2. run (reflexivity). reflexivity.
  - cbn. rewrite lookup_insert_eq. cbn. by rewrite E2.
  - cbn. rewrite lookup_insert_eq. cbn. by rewrite B2, B1.
Qed.
End Properties.

(** A process that is suspended while its memory is being dumped (no list
    is locked then, and an earlier IO may have left a medium term scheduler
    waiting) is added to READY without having left SUSP_BLOCKED: it ends in
    two lists at once. *)
Theorem dump_leaves_a_process_in_two_lists :
  let k0 := ran (fifo_run []) (fresh_kernel []) in
  ∃ k, (r ← dump_memory_block 0 5; run_medium_scheduler impatient 0;;
        match r with Some a => dump_memory_finish impatient a true | None => mret tt end) k0 = Ok (tt, k) ∧
    in_lists k0 = [[]; []; [0]; []; []; []; []]%Z ∧ in_lists k = [[]; []; [0]; []; [0]; []; []]%Z.
Proof.
  set (o := (r ← dump_memory_block 0 5; _)). intros k0. exists (ran o k0).
  split_and!; [apply ran_ok; vm_compute; reflexivity | vm_compute; reflexivity..].
Qed.

(** ** Concrete inputs *)
Definition the_pcb (a : nat) (k : t_kernel t_memoria) : t_pcb :=
  match pcbs k !! a with Some p => p | None => blank_pcb 0 0 0 0 0 None end.
Definition the_cpu (id : string) (k : t_kernel t_memoria) : t_cpu_connection :=
  match cpu_connections_dict k !! id with Some c => c | None => mk_cpu_connection 0 0 0 0 end.

Lemma state_change_is_accounted_witness :
  ∃ q k', pcb_change_state (Some 1) SUSP_READY k_before = Ok (tt, k') ∧ pcbs k' !! 1 = Some q ∧
    current_state q = SUSP_READY ∧ time_of READY (MT q) = 50%Z.
Proof.
  destruct (state_change_is_accounted k_before 1 (the_pcb 1 k_before) SUSP_READY)
    as (_ & q & k' & Hr & Hp & _ & _ & _ & _ & _ & Hs & _ & _ & Ht); [vm_compute; reflexivity|].
  exists q, k'. split; [exact Hr|]. rewrite Hp. split; [apply lookup_insert_eq|]. split; [exact Hs|].
  rewrite Ht. vm_compute. reflexivity.
Defined.

(** Two CPUs, one of them free, and one process in READY. *)
Definition k_free_cpu : t_kernel t_memoria :=
  ran (run_long_scheduler fifo)
    (after fifo [from_cpu SyscallType.SYSCALL_INIT_PROC 0 3 (InitProcParams 16 "hola")]
       (started fifo [(100, 200); (101, 201)]%Z [])).

Lemma ready_process_is_dispatched_witness :
  ∃ k', run_short_scheduler fifo k_free_cpu = Ok (tt, k') ∧ ready_list (lists k') = [] ∧
    exec_list (lists k') = [0; 1] ∧ k_sems k' = k_sems k_free_cpu.
Proof.
  destruct (ready_process_is_dispatched fifo k_free_cpu 1 (the_pcb 1 k_free_cpu) [] "2" (the_cpu "2" k_free_cpu))
    as (cpu & c & package & k' & q & _ & _ & Hr & Hl & _ & _ & _ & _ & _ & _ & _ & Hs).
  - discriminate.
  - intros s Hs. repeat (apply elem_of_cons in Hs as [->|Hs]; [vm_compute; reflexivity|]). by apply not_elem_of_nil in Hs.
  - assert (map_Forall (λ cpu _, k_sems k_free_cpu !! sem_cpu_exec cpu = Some 1%Z) (cpu_connections_dict k_free_cpu)) as Hc
      by (apply (bool_decide_unpack _); vm_compute; reflexivity).
    intros cpu [c Hcpu]. exact (Hc cpu c Hcpu).
  - vm_compute. reflexivity.
  - vm_compute. reflexivity.
  - apply (bool_decide_unpack _). vm_compute. reflexivity.
  - apply (bool_decide_unpack _). vm_compute. reflexivity.
  - vm_compute. reflexivity.
  - vm_compute. reflexivity.
  - exists k'. split; [exact Hr|]. rewrite Hl. split; [|split; [|exact Hs]]; vm_compute; reflexivity.
Defined.

(** The state in which [preempt] runs, with process 0 on the CPU. *)
Definition answer_of (x pc_ same : Z) : option t_package := Some (the (create_cpu_context_package x pc_ same)).
Definition context_of (x pc_ same : Z) : cpu_context_package_data :=
  {| ctx_pid := x; ctx_pc := pc_; interrupted_same_pid := same |}.

Definition k_preempting (answer : option t_package) : t_kernel t_memoria :=
  ran (lock sem_cpu_connections;; lock (sem_list READY);; lock (sem_cpu_exec "1");; lock (sem_list EXEC))
    (after fifo [from_cpu SyscallType.SYSCALL_INIT_PROC 0 3 (InitProcParams 16 "hola"); Ev_thread 0]
       (started sjf_preemptive [(100, 200)]%Z [answer])).

Lemma preempted_process_goes_back_witness :
  ∃ k' q, preempt "1" (k_preempting (answer_of 0 7 0)) = Ok (tt, k') ∧ exec_list (lists k') = [] ∧
    ready_list (lists k') = [1; 0] ∧ pcbs k' !! 0 = Some q ∧ pc q = 7%Z.
Proof.
  destruct (preempted_process_goes_back (k_preempting (answer_of 0 7 0)) "1" (the_cpu "1" (k_preempting (answer_of 0 7 0)))
              0 0 (the_pcb 0 (k_preempting (answer_of 0 7 0))) (the (create_cpu_context_package 0 7 0)) [] (context_of 0 7 0))
    as (package & k' & q & Hr & _ & _ & _ & Hl & Hp & _ & _ & Hpc & _); [vm_compute; reflexivity.. | | | | | | |].
  - apply (bool_decide_unpack _). vm_compute. reflexivity.
  - split; [vm_compute; reflexivity|]. split; [vm_compute; reflexivity|]. intros j b Hj. lia.
  - vm_compute. reflexivity.
  - vm_compute. reflexivity.
  - vm_compute. reflexivity.
  - reflexivity.
  - exists k', q. split; [exact Hr|]. rewrite Hl, Hp.
    split; [vm_compute; reflexivity|]. split; [vm_compute; reflexivity|]. split; [apply lookup_insert_eq | exact Hpc].
Defined.

Lemma stale_answer_unlocks_twice_witness :
  ∃ k', (preempt "1";; dispatch_to "1" 1) (k_preempting (answer_of 0 7 1)) = Ok (tt, k') ∧
    k_sems k' !! sem_list EXEC = Some 2%Z ∧ exec_list (lists k') = [0; 1].
Proof.
  destruct (stale_answer_unlocks_twice (k_preempting (answer_of 0 7 1)) "1" (the_cpu "1" (k_preempting (answer_of 0 7 1)))
              1 (the_pcb 1 (k_preempting (answer_of 0 7 1))) [] 0 (the (create_cpu_context_package 0 7 1)) [] (context_of 0 7 1))
    as (k' & Hr & Hs & Hl & _); [vm_compute; reflexivity.. | | | | | | | | | |].
  - apply (bool_decide_unpack _). vm_compute. reflexivity.
  - vm_compute. reflexivity.
  - vm_compute. reflexivity.
  - apply (bool_decide_unpack _). vm_compute. reflexivity.
  - apply (bool_decide_unpack _). vm_compute. reflexivity.
  - apply (bool_decide_unpack _). vm_compute. reflexivity.
  - vm_compute. reflexivity.
  - vm_compute. reflexivity.
  - discriminate.
  - exists k'. split; [exact Hr|]. split; [exact Hs|]. rewrite Hl. vm_compute. reflexivity.
Defined.

(** Memory admits the first of these, and not the second, which is too big. *)
Definition k_two_new : t_kernel t_memoria :=
  after fifo [from_cpu SyscallType.SYSCALL_INIT_PROC 0 3 (InitProcParams 16 "hola");
              from_cpu SyscallType.SYSCALL_INIT_PROC 0 4 (InitProcParams 64 "hola")]
    (started fifo [(100, 200)]%Z []).
Definition admitted_memory : t_memoria :=
  match admitted (pcbs k_two_new) (new_list (lists k_two_new)) (k_memory k_two_new) with
  | Ok (_, m) => m | Crash _ => booted end.

Lemma locks_free_dec l (k : t_kernel t_memoria) :
  forallb (λ s, bool_decide (k_sems k !! s = Some 1%Z)) l = true → free_locks l k.
Proof.
  intros H s Hs. rewrite forallb_forall in H. apply list_elem_of_In in Hs. specialize (H s Hs).
  by apply bool_decide_eq_true in H.
Qed.

Lemma long_scheduler_admits_a_prefix_witness :
  ∃ k', run_long_scheduler fifo k_two_new = Ok (true, k') ∧ new_list (lists k') = [2] ∧ ready_list (lists k') = [1].
Proof.
  destruct (long_scheduler_admits_a_prefix fifo k_two_new 1 admitted_memory)
    as (k' & Hr & Hn & Hrd & _).
  - discriminate.
  - reflexivity.
  - vm_compute. reflexivity.
  - apply (bool_decide_unpack _). vm_compute. reflexivity.
  - apply locks_free_dec. vm_compute. reflexivity.
  - vm_compute. reflexivity.
  - exists k'. split; [exact Hr|]. rewrite Hn, Hrd. split; vm_compute; reflexivity.
Defined.

(** Process 1 of 64 bytes came first, process 2 has 16. *)
Definition k_big_first : t_kernel t_memoria :=
  after smallest_first [from_cpu SyscallType.SYSCALL_INIT_PROC 0 3 (InitProcParams 64 "hola");
                        from_cpu SyscallType.SYSCALL_INIT_PROC 0 4 (InitProcParams 16 "hola")]
    (started smallest_first [(100, 200)]%Z []).

Lemma smallest_process_is_admitted_first_witness :
  ∃ b p k', get_next_process_to_initialize_from_new smallest_first k_big_first = Ok (Some b, k') ∧
    StronglySorted (not_larger k_big_first) (new_list (lists k')) ∧ head (new_list (lists k')) = Some b ∧
    pcbs k_big_first !! b = Some p ∧ (size p <= 16)%Z.
Proof.
  destruct (smallest_process_is_admitted_first smallest_first k_big_first 1 [2])
    as (b & p & l' & Hr & _ & Hs & Hh & Hp & _ & Hmin); [reflexivity | vm_compute; reflexivity | |].
  - assert (Forall (λ b, is_Some (pcbs k_big_first !! b)) (new_list (lists k_big_first))) as Hf
      by (apply (bool_decide_unpack _); vm_compute; reflexivity).
    rewrite Forall_forall in Hf. exact Hf.
  - exists b, p, (set_lists (set_list NEW l' (lists k_big_first)) k_big_first). split; [exact Hr|].
    cbn [lists set_lists]. split; [exact Hs|]. split; [exact Hh|]. split; [exact Hp|].
    apply (Hmin 2 (the_pcb 2 k_big_first)); [apply (bool_decide_unpack _)|]; vm_compute; reflexivity.
Defined.

Lemma io_request_blocks_the_process_witness :
  ∃ k' r, block_for_io 0 5 20 "disk" k_before = Ok (Some 0, k') ∧ blocked_list (lists k') = [0] ∧
    exec_list (lists k') = [] ∧ pcbs k' !! 0 = Some r ∧ pc r = 5%Z.
Proof.
  destruct (io_request_blocks_the_process k_before 0 5 20 "disk" 0 0 (the_pcb 0 k_before) [])
    as (k' & r & Hr & Hl & Hp & _ & _ & Hpc & _).
  - apply locks_free_dec. vm_compute. reflexivity.
  - split; [vm_compute; reflexivity|]. split; [vm_compute; reflexivity|]. intros j b Hj. lia.
  - vm_compute. reflexivity.
  - vm_compute. reflexivity.
  - exists k', r. split; [exact Hr|]. rewrite Hl, Hp. split; [vm_compute; reflexivity|].
    split; [vm_compute; reflexivity|]. split; [apply lookup_insert_eq | exact Hpc].
Defined.

(** The state between the blocking of process 0 and the request. *)
Definition k_waiting : t_kernel t_memoria := ran (block_for_io 0 5 20 "disk") k_before.

Lemma oldest_request_is_sent_witness :
  ∃ k' package, process_pending_io "disk" 300 k_waiting = Ok (true, k') ∧
    sent k' = sent k_waiting ++ [(300%Z, package)] ∧
    read_with read_io_operation_package package = Ok {| io_pid := 0; io_sleep_time := 20 |}.
Proof.
  destruct (oldest_request_is_sent k_waiting "disk" 300 "300" (mk_io_connection "disk" (-1)) (mk_io_request 0 20) [] 300)
    as (k' & package & Hr & Hs & Hread & _).
  - apply locks_free_dec. vm_compute. reflexivity.
  - vm_compute. reflexivity.
  - vm_compute. reflexivity.
  - reflexivity.
  - vm_compute. reflexivity.
  - reflexivity.
  - apply (bool_decide_unpack _). vm_compute. reflexivity.
  - apply (bool_decide_unpack _). vm_compute. reflexivity.
  - exists k', package. exact (conj Hr (conj Hs Hread)).
Defined.

Lemma exit_of_an_absent_process_crashes_witness : exit_process_syscall 1 k_before = Crash NullDeref.
Proof.
  apply exit_of_an_absent_process_crashes.
  - apply locks_free_dec. vm_compute. reflexivity.
  - intros a p Ha Hp. assert (a = 0) as -> by (apply list_elem_of_singleton; exact Ha).
    assert (pid <$> pcbs k_before !! 0 = Some 0%Z) as E by (vm_compute; reflexivity).
    rewrite Hp in E. injection E as ->. discriminate.
Defined.

(** Memory does not know process 9. *)
Lemma refused_kill_counts_as_done_witness : ∃ m, kill_process_in_memory 9 k_before = Ok (true, set_k_memory m k_before).
Proof.
  destruct (serve (the (create_kill_process_package 9)) (k_memory k_before)) as [[o m]|] eqn:E;
    [|vm_compute in E; discriminate E].
  exists m. apply (refused_kill_counts_as_done k_before 9 (the (create_kill_process_package 9))
                     (the (create_confirmation_package false))).
  - reflexivity.
  - vm_compute. reflexivity.
  - rewrite E. assert (fst <$> (match serve (the (create_kill_process_package 9)) (k_memory k_before) with
                                | Ok x => Some x | Crash _ => None end)
                       = Some (Some (the (create_confirmation_package false)))) as Eo by (vm_compute; reflexivity).
    rewrite E in Eo. cbn in Eo. injection Eo as ->. reflexivity.
  - vm_compute. reflexivity.
  - vm_compute. reflexivity.
Defined.

(** From 0, with a last burst of ten seconds: five seconds, then seven and a
    half. *)
Lemma comparing_changes_the_estimate_witness :
  ∃ k1 k2, reestimate sjf_preemptive 1 k_before = Ok (5000%Z, k1) ∧ reestimate sjf_preemptive 1 k1 = Ok (7500%Z, k2).
Proof.
  destruct (comparing_changes_the_estimate sjf_preemptive k_before 1 (the_pcb 1 k_before) 5000 7500)
    as (k1 & k2 & H1 & H2 & _); [vm_compute; reflexivity..|].
  exists k1, k2. exact (conj H1 H2).
Defined.
