(* ===== verification/DeviceProperties.v ===== *)
(** * The kernel and a device, end to end

    A device connected to the kernel: what the kernel sends it, what it
    answers, and what the kernel makes of the answers. *)
From S2P Require Import Prelude Text Commons Enums Buffer Package Packages Roundtrip Config Semaphores Session.
From S2P Require Import Scenario Pcb Kernel Scheduler Handlers Device.
From S2P Require Import KernelMemory KernelScenario.
From Stdlib Require Import Strings.Byte.
Import Buffer Package.

Section DeviceAndKernel.
Context {C : CommonsOps} {Srv : Type} {MS : MemoryServer Srv} {Env : KernelEnv Srv}.
Context (config : t_kernel_config).
Implicit Types (k : t_kernel Srv).

(** The thread with which the kernel answers the announcement of a device,
    and those with which it answers its confirmations. *)
Definition device_threads (socket : Z) (name : string) (l : list io_operation_package_data) : list t_thread :=
  T_process_new_device socket name :: ((λ p, T_io_completion socket name (io_pid p)) <$> l).

Lemma announcement_runs socket name hello k :
  fits name → create_new_io_package name = Ok hello →
  handle_io_client socket hello k = Ok (tt, set_threads (threads k ++ [T_process_new_device socket name]) k).
Proof.
  intros Hn Hh. destruct (new_io_delivers name Hn) as (hello' & Hh' & Hop & Hread & _).
  rewrite Hh in Hh'. injection Hh' as <-. unfold handle_io_client, handle_new_device, process_io_completion.
  rewrite bool_decide_true by done. by run (unfold lift_res; rewrite Hread; reflexivity).
Qed.

Lemma confirmation_runs socket name x reply k :
  fits name → in_i32 x → create_io_completion_package name x = Ok reply →
  handle_io_client socket reply k = Ok (tt, set_threads (threads k ++ [T_io_completion socket name x]) k).
Proof.
  intros Hn Hx Hr. destruct (io_completion_delivers name Hn x Hx) as (reply' & Hr' & Hop & Hread & _).
  rewrite Hr in Hr'. injection Hr' as <-. unfold handle_io_client, handle_new_device, process_io_completion. rewrite Hop.
  rewrite bool_decide_false, bool_decide_true by done. by run (unfold lift_res; rewrite Hread; reflexivity).
Qed.

Lemma set_threads_twice l l' k : set_threads l (set_threads l' k) = set_threads l k.
Proof. by destruct k. Qed.

Lemma confirmations_run socket name l replies k :
  fits name → Forall (λ p, in_i32 (io_pid p)) l →
  Forall2 (λ p reply, create_io_completion_package name (io_pid p) = Ok reply) l replies →
  run_events config (Ev_io_package socket <$> replies) k
  = Ok (tt, set_threads (threads k ++ ((λ p, T_io_completion socket name (io_pid p)) <$> l)) k).
Proof.
  intros Hn Hl Hr. revert k Hl. unfold run_events.
  induction Hr as [|p reply l replies Hp Hr IH]; intros k Hl.
  - cbn. rewrite app_nil_r. by destruct k.
  - apply Forall_cons in Hl as [Hx Hl]. cbn [fmap list_fmap for_each handle_event].
    run (by eapply confirmation_runs). rewrite IH by done.
    rewrite set_threads_twice. cbn [threads set_threads]. by rewrite <- app_assoc.
Qed.

(** C13: a device to which the kernel sends any requests announces itself
    and ends when the kernel disconnects.  What it does is, in this order:
    it sends its name, and then for each request, in the order of arrival, it
    receives it, sleeps its time and, only after that, confirms its process
    once; no request is received before the one before it was confirmed.  Its
    packages survive the socket, and with each of them the kernel starts the
    thread that takes that process out of BLOCKED. *)
Theorem device_serves_the_kernel name socket l requests k :
  fits name → Forall (λ p, in_i32 (io_pid p) ∧ in_i32 (io_sleep_time p)) l →
  Forall2 (λ p request, create_io_operation_package (io_pid p) (io_sleep_time p) = Ok request) l requests →
  ∃ hello replies,
    create_new_io_package name = Ok hello ∧
    Forall2 (λ p reply, create_io_completion_package name (io_pid p) = Ok reply) l replies ∧
    io_main (S (length (wire requests))) (Some name) (mk_device (wire requests) [] [])
      = Ok (tt, mk_device [] (wire (hello :: replies)) (Io_sent hello :: services l requests replies)) ∧
    Forall transmissible (hello :: replies) ∧
    run_events config (Ev_io_package socket <$> hello :: replies) k
      = Ok (tt, set_threads (threads k ++ device_threads socket name l) k).
Proof.
  intros Hn Hl Hq. destruct (new_io_delivers name Hn) as (hello & Hh & _ & _ & Hrecv).
  assert (∃ replies, Forall3 (serves name) l requests replies ∧ Forall transmissible replies ∧
            Forall2 (λ p reply, create_io_completion_package name (io_pid p) = Ok reply) l replies)
    as (replies & Hs & Ht & Hr).
  { clear Hrecv. induction Hq as [|p request l requests Hp Hq IH]; [by exists []; repeat constructor|].
    apply Forall_cons in Hl as [[Hx _] Hl]. destruct (IH Hl) as (replies & Hs & Ht & Hr).
    destruct (io_completion_delivers name Hn _ Hx) as (reply & Hc & _ & _ & Hrecv).
    exists (reply :: replies). by repeat constructor. }
  exists hello, replies. split_and!; [done|done|..].
  - unfold io_main. cbn [from_option id]. run (by apply io_send_runs).
    cbn [io_kernel_in io_kernel_out io_log]. pose proof (requests_bound _ _ _ _ Hl Hs).
    erewrite waiting_requests_ok by (done || lia). done.
  - by constructor.
  - rewrite fmap_cons. unfold run_events. cbn [for_each handle_event].
    run (by eapply announcement_runs). fold (run_events config (Ev_io_package socket <$> replies)).
    erewrite confirmations_run; [|done|by eapply Forall_impl; [exact Hl | intros ? [? _]]|done].
    rewrite set_threads_twice. unfold device_threads. cbn [threads set_threads]. by rewrite <- app_assoc.
Qed.
End DeviceAndKernel.

(** The disk sleeps five and then twenty milliseconds. *)
Definition two_requests : list io_operation_package_data := [
  {| io_pid := 0; io_sleep_time := 5 |}; {| io_pid := 1; io_sleep_time := 20 |} ].

Definition two_sent : list t_package := [the (create_io_operation_package 0 5); the (create_io_operation_package 1 20)].

Lemma device_serves_the_kernel_witness :
  ∃ hello first second,
    io_main 33 (Some "disk"%string) (mk_device (wire two_sent) [] [])
      = Ok (tt, mk_device [] (wire [hello; first; second])
          (Io_sent hello :: services two_requests two_sent [first; second])) ∧
    services two_requests two_sent [first; second] = [
      Io_received (the (create_io_operation_package 0 5)); Io_started 0 5; Io_slept 5000; Io_ended 0; Io_sent first;
      Io_received (the (create_io_operation_package 1 20)); Io_started 1 20; Io_slept 20000; Io_ended 1; Io_sent second] ∧
    threads <$> (match run_events fifo (Ev_io_package 300 <$> [hello; first; second]) (initial_kernel booted []) with
                 | Ok (_, k) => Some k | Crash _ => None end)
      = Some [T_process_new_device 300 "disk"; T_io_completion 300 "disk" 0; T_io_completion 300 "disk" 1].
Proof.
  destruct (device_serves_the_kernel fifo "disk" 300 two_requests two_sent (initial_kernel booted []))
    as (hello & replies & _ & Hr & Hd & _ & Hk).
  - apply (bool_decide_unpack _). vm_compute. reflexivity.
  - apply (bool_decide_unpack _). vm_compute. reflexivity.
  - repeat constructor; vm_compute; reflexivity.
  - destruct replies as [|first [|second [|]]]; try (apply Forall2_length in Hr; discriminate Hr).
    exists hello, first, second. split; [exact Hd|]. split; [reflexivity|]. rewrite Hk. reflexivity.
Defined.
